(* ===== verification/_CoqProject ===== *)
-Q . S2P
Prelude.v
Kstate.v
Sched.v
Kmutex.v
Machine.v
Proc.v
ProcTree.v
ProcProps.v
Boot.v
System.v
SystemOps.v
BootProps.v
Vfsstate.v
Vmstate.v
Pframe.v
Mmobj.v
Vmmap.v
Areas.v
VmmapProps.v
Vnode.v
VnodeProps.v
Namev.v
NamevProps.v
Vfs.v
VfsProps.v
OpenProps.v
PathProps.v
CreateProps.v
RemoveProps.v
FsExample.v
VfsBoot.v
VfsBootProps.v
RamFs.v
Pageout.v
ShadowProps.v
ObjProps.v
PageoutProps.v
VmSys.v
VmSysProps.v
FaultProps.v
ForkProps.v
ForkProc.v
MapProps.v
VmExample.v
Info.v
Syscall.v
SyscallProps.v
