(* ===== verification/Prelude.v ===== *)
(** * A verification of the Weenix kernel

    Weenix is a small Unix-like kernel for a single processor.  The sources
    are in three stages: src/K1 has threads, processes, the scheduler and
    mutexes; src/K2 has vnodes, name resolution and the file system calls;
    src/K3 has page frames, memory objects, address spaces and the virtual
    memory system calls.  This development translates them, function by
    function, to executable definitions over explicit states, and proves what
    the functions do.

    ** How the code is represented

    A routine is a function from the state to an [outcome] (this file): it
    returns, panics (a failed KASSERT, the use of a NULL or dangling pointer),
    runs out of fuel, or calls [context_switch], in which case the outcome
    holds the state handed over and the continuation.  The kernel is not
    preemptible, so between two context switches a routine runs alone.
    Pointers are keys of finite maps, linked lists are lists, 32 bit integers
    are numbers with the wrap-around written out where the code depends on
    it, [dbg] output is left out.  Names are those of the sources.

    - Kstate: the state of K1: threads, queues, mutexes, processes, [curthr],
      [curproc], the interrupt priority level.
    - Sched: sched.c and sched_helper.c.  Kmutex: kmutex.c.
    - Machine: the pool of all threads of the processor, as a transition
      system whose steps run from one context switch to the next.
    - Proc: proc.c and kthread.c ([kthread_clone] of K3).  ProcTree: the
      invariant of the process table and the process tree.  ProcProps: the
      theorems on processes.
    - Boot: kmain.c of K1, the programs processes run, and the processor as a
      transition system that starts in [kmain].  System: the invariant of the
      running system and the measure that decreases.  SystemOps: the process
      calls keep the one and lower the other.  BootProps: the theorems.
    - Vfsstate: the state of K2.  Vmstate: the state of K3, which contains
      those of K1 and K2, and the interfaces to the code below.
    - Pframe and Pageout: pframe.c.  PageoutProps: sync and the pageout
      daemon, over objects that write pages to a backing store.  Mmobj: anon.c and shadow.c, with the
      dispatch through [mmo_ops].  Vmmap: vmmap.c.
    - Areas: sorted lists of areas, page by page.  VmmapProps: theorems on
      address spaces, against what they ask of memory objects ([ObjIface]).
      ShadowProps: the page cache, chains of shadow objects, copy on write.
      ObjProps: reference counts of memory objects; anonymous and shadow
      objects implement [ObjIface].
    - Vnode: vnode.c.  Namev: namev.c.  Vfs: open.c and vfs_syscall.c.
      VnodeProps, NamevProps, VfsProps, OpenProps, PathProps: theorems on
      them.  CreateProps and RemoveProps: what making and removing files does
      to the directories.  FsExample: a small file system that meets the
      hypotheses.
    - VfsBoot: kmain.c of K2, over Boot in the larger state.  VfsBootProps:
      the boot up to the first run of the init process.  RamFs: a file system
      in which files can be made and removed, and a boot with it.
    - VmSys: brk.c, mmap.c, access.c, pagefault.c and fork.c.  VmSysProps,
      FaultProps, ForkProps, MapProps: theorems on them.  ForkProc: [do_fork]
      as a whole, over the processes, the address spaces and the files.
      VmExample: small address spaces in which the theorems apply.
    - Info: the functions of proc.c and vmmap.c that describe processes and
      address spaces in a buffer.
    - Syscall: syscall.c, from the trap handler to the sys_ functions.
      SyscallProps: the convention for their results.

    ** What is shown

    - Scheduling and mutual exclusion: thread queues refine FIFO queues;
      switching dispatches the thread that has waited longest; a broadcast
      wakes all; unlocking hands the mutex to the oldest waiter.  Under every
      interleaving of threads that yield, sleep and run nested critical
      sections, the invariant of queues and mutexes holds and no assertion
      fails.
    - Processes: identifiers are the first free ones; creation, exit with
      reparenting, and reaping keep the process table and tree well formed;
      the exit status reaches the parent that waits.
    - The whole of K1: from [kmain] on, for all lines typed at the kernel
      shell and all programs of the processes, the machine never panics or
      gets stuck, its state stays well formed, and it halts with only the
      idle process left.
    - Address spaces: insertion, search and removal page by page; memory
      objects and their pages are freed exactly with the last reference, and
      destroying the last address space leaves none; copy on write gives
      private copies with the right contents; a write fault maps such a copy
      and changes no other page; after fork both processes see what the
      parent saw, the child is in the process tree with a thread that is
      ready to run, and shares the open files.  The break, mapping at a given place and unmapping
      change exactly the pages they should, and unmapping undoes mapping.
    - The page cache: sync and the pageout daemon end, and what an object
      holds at a page, in the cache or in the backing store, never changes.
    - Files: name resolution refines a resolver on the directory contents and
      releases all but the references it returns; opening, duplicating,
      closing, reading, seeking and chdir do what they promise and account
      for all references.  mkdir and mknod enter exactly the new file, or
      change nothing, and rmdir undoes mkdir.
    - Boot with file systems: when the init process first runs, it and the
      idle process have the root as working directory, the device files
      exist, and the root has one reference for each and one for the mount.
    - System calls: on every path of the dispatcher a call returns a result
      that is not negative, or -1 with a positive error number.
    - Errors: theorems that say what the code does where it does not do what
      its comments say: a stale exit status, locking a mutex whose holder is
      cancelled, shadow objects without a bottom after a split, the page that
      [range_perm] does not look at, a sync that retries for ever, a NUL
      stored behind the buffer.

    ** Parameters and hypotheses

    Code that is not among the sources is a parameter: constants of the
    headers, the slab and page allocators, page tables, the functions of
    file.c, file systems and devices, user space structures.  They are fields
    of type classes ([Errno], [Machine], [ProcEnv], [BootEnv], [VmEnv],
    [VfsEnv], [NameEnv], [FileTable], [MapEnv], [ForkEnv], [SysEnv],
    [VfsBootEnv], [Printf]), with what their
    documentation says as laws: allocated objects are new, flags are
    different bits, [fget] takes a reference, and so on.  A file system is
    seen through its directory entries, types and link counts ([FsView]);
    [FsInodes], [FsRead], [FsLookup], [FsUpdate], [FsCreate] and [FsRemove]
    say that its operations agree with them.  [vfs_boot_ok]: there is memory
    and disk space for the boot, and mounting the root gives a file system
    without /dev.  [IntrOk]: interrupt handlers only wake threads that
    wait for devices.  [kshell_ok]: the kernel shell runs the commands typed
    and nothing else.  [store_ops]: [cleanpage] writes the page to the backing
    store.  The examples instantiate all of them.

    ** Fuel

    Loops that follow pointers take as fuel the size of the structure (the
    number of objects for chains of shadow objects, the length of the path,
    of the queue or of the range); the theorems show that this is enough.
    [intr_fuel] bounds the interrupts [sched_switch] waits for, [wait_fuel]
    the rounds of waiting for a busy vnode, and the fuel of [do_waitpid] the
    number of times the parent goes back to sleep: no bound follows from the
    code, and running out of it is an outcome of its own ([Idle]).  For
    [boot_halts] the programs have a budget [B] of processes and waits, less
    than the number of process identifiers; fuel [B] is enough.  [sync] takes
    a round for each dirty page.
    [mmobj_table n] allows for [n] nested calls through [mmo_ops]; three more
    than the longest chain of shadow objects are enough ([deep_enough]).

    ** Not modelled

    - In kmain.c of K2, what the configuration of K2 compiles out: the
      shutdown of page frames (with S5FS), of the reaper and of shadowd.  The
      run of K2 from the first run of the init process to the halt, as
      [boot_halts] has it for K1: the shell commands run tests that are not
      among the sources and call the file systems.
    - Functions without a body that are compiled out: detaching and joining
      threads, getcwd.  The stubs of mounting are modelled, since the system
      calls that fetch their arguments are.
    - The TLB, and the kernel heap other than as an allocation that may fail.
    - The parts of K3/vnode.c and K3/kthread.c that repeat K2 and K1 line by
      line: a second copy of the definitions would say nothing new.
    - Objects that back files take part in [ObjIface] only as a parameter: the
      invariant of reference counts is about anonymous and shadow objects,
      and about address spaces that map no others. *)

From Stdlib Require Export ZArith Lia.
From stdpp Require Export base numbers strings gmap list.

(** ** The effect of kernel code

    A kernel routine is a function from the kernel state [S] to an
    [outcome].  [Ret] is a normal return.  [Panic] is a failed [KASSERT] or
    the use of a pointer that does not designate a live object; both stop the
    machine.  [Idle] is a loop that ran out of the fuel it was given.
    [Yield s k] is a call of [context_switch]: the routine hands the
    processor over in state [s], and [k] is the saved context, to be entered
    with whatever state the machine has when this thread is switched to
    again. *)

Inductive outcome (S A : Type) : Type :=
| Ret (a : A) (s : S)
| Panic (why : string)
| Idle
| Yield (s : S) (k : S → outcome S A).

Arguments Ret {S A} _ _.
Arguments Panic {S A} _.
Arguments Idle {S A}.
Arguments Yield {S A} _ _.

Definition M (S A : Type) : Type := S → outcome S A.

Fixpoint obind {S A B} (f : A → M S B) (o : outcome S A) : outcome S B :=
  match o with
  | Ret a s => f a s
  | Panic w => Panic w
  | Idle => Idle
  | Yield s k => Yield s (λ s', obind f (k s'))
  end.

#[global] Instance M_ret S : MRet (M S) := λ A a s, Ret a s.
#[global] Instance M_bind S : MBind (M S) := λ A B f m s, obind f (m s).

Definition get {S} : M S S := λ s, Ret s s.
Definition modify {S} (f : S → S) : M S unit := λ s, Ret tt (f s).
Definition gets {S A} (f : S → A) : M S A := λ s, Ret (f s) s.
Definition panic {S A} (why : string) : M S A := λ _, Panic why.
Definition idle {S A} : M S A := λ _, Idle.

(** [KASSERT(b)]. *)
Definition KASSERT {S} (b : bool) (why : string) : M S unit :=
  λ s, if b then Ret tt s else Panic why.

(** The use of a possibly NULL or dangling pointer. *)
Definition deref {S A} (o : option A) (why : string) : M S A :=
  λ s, match o with Some a => Ret a s | None => Panic why end.

(** ** Error numbers

    The values of errno.h, of which the code relies on no more than that they
    are positive and pairwise different. *)

Class Errno := {
  EPERM : Z; ENOENT : Z; EINTR : Z; EBADF : Z; ECHILD : Z; ENOMEM : Z;
  EFAULT : Z; EBUSY : Z; EEXIST : Z; ENODEV : Z; ENOTDIR : Z; EISDIR : Z;
  EINVAL : Z; EMFILE : Z; ENAMETOOLONG : Z; ENOSYS : Z; ENOTEMPTY : Z;
  ENOTSUP : Z;
  errnos : list Z := [EPERM; ENOENT; EINTR; EBADF; ECHILD; ENOMEM; EFAULT;
    EBUSY; EEXIST; ENODEV; ENOTDIR; EISDIR; EINVAL; EMFILE; ENAMETOOLONG;
    ENOSYS; ENOTEMPTY; ENOTSUP];
  errno_pos : Forall (λ e, (0 < e)%Z) errnos;
  errno_nodup : NoDup errnos;
}.

(** ** Rely/guarantee reasoning about routines that yield

    [rg R G Q s0 o]: the outcome [o], computed since the thread was last
    switched to in state [s0], never panics; whenever it hands the processor
    over, the interval since [s0] satisfies the guarantee [G]; provided that
    each interval spent switched out satisfies the rely [R], it ends, if it
    ends, in a state and with a result that satisfy [Q].  Waiting forever for
    an interrupt ([Idle]) is allowed. *)

Inductive rg {S A} (R G : S → S → Prop) (Q : S → A → S → Prop)
  : S → outcome S A → Prop :=
| rg_ret s0 a s : Q s0 a s → rg R G Q s0 (Ret a s)
| rg_idle s0 : rg R G Q s0 Idle
| rg_yield s0 s k :
    G s0 s →
    (∀ s', R s s' → rg R G Q s' (k s')) →
    rg R G Q s0 (Yield s k).

Section rg_rules.
Context {S : Type} (R G : S → S → Prop).

Lemma rg_mono {A} (Q Q' : S → A → S → Prop) s0 o :
  rg R G Q s0 o →
  (∀ s1 a s, Q s1 a s → Q' s1 a s) →
  rg R G Q' s0 o.
Proof. intros H HQ. induction H; constructor; eauto. Qed.

Lemma rg_bind {A B} (Q : S → A → S → Prop) (Q' : S → B → S → Prop)
    (f : A → M S B) s0 o :
  rg R G Q s0 o →
  (∀ s1 a s, Q s1 a s → rg R G Q' s1 (f a s)) →
  rg R G Q' s0 (obind f o).
Proof. intros H Hf. induction H; simpl; [eauto|constructor..]; eauto. Qed.
End rg_rules.

(** Monad laws, used to step through routines. *)
Lemma bind_unfold {S A B} (m : M S A) (f : A → M S B) s :
  (m ≫= f) s = obind f (m s).
Proof. reflexivity. Qed.

Lemma bind_step {S A B} (m : M S A) (f : A → M S B) s a s' :
  m s = Ret a s' → (m ≫= f) s = f a s'.
Proof. intros Hm. by rewrite bind_unfold, Hm. Qed.

Lemma bind_assert {S B} b why (f : () → M S B) s :
  b = true → (KASSERT b why ≫= f) s = f () s.
Proof. by intros ->. Qed.

Lemma obind_Ret_inv {S A B} (f : A → M S B) o b s :
  obind f o = Ret b s → ∃ a s1, o = Ret a s1 ∧ f a s1 = Ret b s.
Proof. destruct o; simpl; try discriminate. eauto. Qed.

(** A routine that returns, with a result and a state that satisfy [Q]. *)
Definition returns {S A} (m : M S A) (s : S) (Q : A → S → Prop) : Prop :=
  ∃ a s', m s = Ret a s' ∧ Q a s'.

Lemma returns_ret {S A} (a : A) (s : S) (Q : A → S → Prop) : Q a s → returns (mret a) s Q.
Proof. intros HQ. by exists a, s. Qed.

Lemma returns_bind {S A B} (m : M S A) (f : A → M S B) s Q R :
  returns m s Q → (∀ a s', Q a s' → returns (f a) s' R) → returns (m ≫= f) s R.
Proof.
  intros (a & s1 & E & HQ) Hf. destruct (Hf a s1 HQ) as (b & s2 & E' & HR).
  exists b, s2. by rewrite (bind_step _ _ _ _ _ E).
Qed.

Lemma returns_step {S A B} (m : M S A) (f : A → M S B) s a s' R :
  m s = Ret a s' → returns (f a) s' R → returns (m ≫= f) s R.
Proof. intros E (b & s2 & E' & HR). exists b, s2. by rewrite (bind_step _ _ _ _ _ E). Qed.

Lemma returns_mono {S A} (m : M S A) s Q R :
  returns m s Q → (∀ a s', Q a s' → R a s') → returns m s R.
Proof. intros (a & s' & E & HQ) H. exists a, s'. auto. Qed.

(** Unfolds the monadic combinators and computes. *)
Ltac msimpl :=
  unfold mbind, M_bind, mret, M_ret, get, gets, modify, panic, idle, KASSERT, deref;
  cbn [obind].

(** Proves a decidable fact about concrete data by computation. *)
Ltac by_computation := apply (bool_decide_unpack _); vm_compute; exact I.

(** A concrete numbering of the errors, for examples. *)
Definition some_errno : Errno.
Proof.
  refine {| EPERM := 1; ENOENT := 2; EINTR := 4; EBADF := 9; ECHILD := 10; ENOMEM := 12;
    EFAULT := 14; EBUSY := 16; EEXIST := 17; ENODEV := 19; ENOTDIR := 20; EISDIR := 21;
    EINVAL := 22; EMFILE := 24; ENAMETOOLONG := 36; ENOSYS := 38; ENOTEMPTY := 39;
    ENOTSUP := 95 |}%Z; by_computation.
Defined.

(** Different flags. *)
Lemma land_pow2_ne a b : (0 <= a → 0 <= b → a ≠ b → Z.land (2 ^ a) (2 ^ b) = 0)%Z.
Proof.
  intros Ha Hb Hne. apply Z.bits_inj'. intros n Hn. rewrite Z.land_spec, Z.bits_0, !Z.pow2_bits_eqb by done.
  destruct (a =? n)%Z eqn:E1; [|done]. destruct (b =? n)%Z eqn:E2; [lia|done].
Qed.
