(* ===== verification/Kstate.v ===== *)
(** * The state shared by the process and thread code

    The globals and structures of kernel/proc (proc.c, kthread.c, sched.c,
    kmutex.c): the thread, process, queue and mutex objects, the run queue,
    [curthr], [curproc], the process list and the interrupt priority level. *)

From S2P Require Import Prelude.

(** Pointers to live objects; NULL is [None]. *)
Abbreviation tid := positive.  (* kthread_t * *)
Abbreviation pptr := positive. (* proc_t * *)
Abbreviation mid := positive.  (* kmutex_t * *)

(** [ktqueue_t *]: the run queue, the wait queue of a mutex, the [p_wait]
    queue of a process, or any other queue of the kernel (a vnode's, a page
    frame's, a device's). *)
Inductive qid :=
| kt_runq
| km_waitq (m : mid)
| p_wait (p : pptr)
| other_q (n : positive).

#[global] Instance qid_eq_dec : EqDecision qid.
Proof. solve_decision. Defined.

#[global] Instance qid_countable : Countable qid.
Proof.
  refine (inj_countable'
    (λ q, match q with
          | kt_runq => inl (inl ())
          | km_waitq m => inl (inr m)
          | p_wait p => inr (inl p)
          | other_q n => inr (inr n)
          end)
    (λ x, match x with
          | inl (inl _) => kt_runq
          | inl (inr m) => km_waitq m
          | inr (inl p) => p_wait p
          | inr (inr n) => other_q n
          end) _).
  by intros [].
Defined.

Inductive kthread_state :=
| KT_NO_STATE | KT_RUN | KT_SLEEP | KT_SLEEP_CANCELLABLE | KT_EXITED.

#[global] Instance kthread_state_eq_dec : EqDecision kthread_state.
Proof. solve_decision. Defined.

Inductive proc_state := PROC_RUNNING | PROC_DEAD.

#[global] Instance proc_state_eq_dec : EqDecision proc_state.
Proof. solve_decision. Defined.

(** Interrupt priority levels the process code uses. *)
Inductive ipl_level := IPL_LOW | IPL_HIGH.

#[global] Instance ipl_eq_dec : EqDecision ipl_level.
Proof. solve_decision. Defined.

(** [context_t], with the arguments of [context_setup]; [c_eip] and [c_esp]
    are what the code stores there afterwards, if it does. *)
Record context := Context {
  c_func : Z;             (* entry function *)
  c_arg1 : Z;
  c_arg2 : Z;
  c_kstack : option Z;
  c_kstacksz : Z;
  c_pdptr : option Z;     (* page directory *)
  c_eip : option Z;
  c_esp : option Z;
}.

Definition context_setup (func arg1 arg2 : Z) (kstack : option Z) (kstacksz : Z) (pd : option Z) : context :=
  Context func arg1 arg2 kstack kstacksz pd None None.

(** [kthread_t]; [kt_qlink] is represented by membership in a queue's list
    and [kt_plink] by membership in a process's [p_threads]. *)
Record kthread := Kthread {
  kt_ctx : context;
  kt_kstack : option Z;
  kt_retval : Z;
  kt_errno : Z;
  kt_proc : option pptr;
  kt_cancelled : bool;
  kt_state : kthread_state;
  kt_wchan : option qid;
}.

(** [ktqueue_t]: the list from its head ([l_next]) to its tail ([l_prev]). *)
Record ktqueue := Ktqueue { tq_list : list tid; tq_size : Z }.

(** [proc_t], the fields of the process code; [p_list_link] and
    [p_child_link] are represented by membership in [_proc_list] and in the
    parent's [p_children]. *)
Record proc := Proc {
  p_pid : Z;
  p_comm : string;
  p_threads : list tid;
  p_children : list pptr;
  p_pproc : option pptr;
  p_status : Z;
  p_state : proc_state;
  p_pagedir : option Z;
}.

Record kst := Kst {
  threads : gmap tid kthread;
  queues : gmap qid ktqueue;
  mutexes : gmap mid (option tid);     (* km_holder of each mutex *)
  procs : gmap pptr proc;
  curthr : option tid;
  curproc : option pptr;
  ipl : ipl_level;
  proc_list : list pptr;               (* _proc_list *)
  proc_initproc : option pptr;
  next_pid : Z;
}.

Abbreviation K := (M kst).

(** States with equal fields. *)
Lemma kst_ext s s' :
  threads s = threads s' → queues s = queues s' → mutexes s = mutexes s' → procs s = procs s' →
  curthr s = curthr s' → curproc s = curproc s' → ipl s = ipl s' → proc_list s = proc_list s' →
  proc_initproc s = proc_initproc s' → next_pid s = next_pid s' → s = s'.
Proof. destruct s, s'. simpl. by intros; subst. Qed.

(** Field updates. *)
Definition set_threads f s := Kst (f (threads s)) (queues s) (mutexes s) (procs s)
  (curthr s) (curproc s) (ipl s) (proc_list s) (proc_initproc s) (next_pid s).
Definition set_queues f s := Kst (threads s) (f (queues s)) (mutexes s) (procs s)
  (curthr s) (curproc s) (ipl s) (proc_list s) (proc_initproc s) (next_pid s).
Definition set_mutexes f s := Kst (threads s) (queues s) (f (mutexes s)) (procs s)
  (curthr s) (curproc s) (ipl s) (proc_list s) (proc_initproc s) (next_pid s).
Definition set_procs f s := Kst (threads s) (queues s) (mutexes s) (f (procs s))
  (curthr s) (curproc s) (ipl s) (proc_list s) (proc_initproc s) (next_pid s).
Definition set_curthr c s := Kst (threads s) (queues s) (mutexes s) (procs s)
  c (curproc s) (ipl s) (proc_list s) (proc_initproc s) (next_pid s).
Definition set_curproc c s := Kst (threads s) (queues s) (mutexes s) (procs s)
  (curthr s) c (ipl s) (proc_list s) (proc_initproc s) (next_pid s).
Definition set_ipl l s := Kst (threads s) (queues s) (mutexes s) (procs s)
  (curthr s) (curproc s) l (proc_list s) (proc_initproc s) (next_pid s).
Definition set_proc_list f s := Kst (threads s) (queues s) (mutexes s) (procs s)
  (curthr s) (curproc s) (ipl s) (f (proc_list s)) (proc_initproc s) (next_pid s).
Definition set_initproc c s := Kst (threads s) (queues s) (mutexes s) (procs s)
  (curthr s) (curproc s) (ipl s) (proc_list s) c (next_pid s).
Definition set_next_pid n s := Kst (threads s) (queues s) (mutexes s) (procs s)
  (curthr s) (curproc s) (ipl s) (proc_list s) (proc_initproc s) n.

Definition with_cancelled b t := Kthread (kt_ctx t) (kt_kstack t) (kt_retval t)
  (kt_errno t) (kt_proc t) b (kt_state t) (kt_wchan t).
Definition with_kstate x t := Kthread (kt_ctx t) (kt_kstack t) (kt_retval t)
  (kt_errno t) (kt_proc t) (kt_cancelled t) x (kt_wchan t).
Definition with_wchan w t := Kthread (kt_ctx t) (kt_kstack t) (kt_retval t)
  (kt_errno t) (kt_proc t) (kt_cancelled t) (kt_state t) w.
Definition with_retval r t := Kthread (kt_ctx t) (kt_kstack t) r
  (kt_errno t) (kt_proc t) (kt_cancelled t) (kt_state t) (kt_wchan t).

Definition with_errno e t := Kthread (kt_ctx t) (kt_kstack t) (kt_retval t)
  e (kt_proc t) (kt_cancelled t) (kt_state t) (kt_wchan t).
Definition with_ktproc p t := Kthread (kt_ctx t) (kt_kstack t) (kt_retval t)
  (kt_errno t) p (kt_cancelled t) (kt_state t) (kt_wchan t).
Definition with_ctx c t := Kthread c (kt_kstack t) (kt_retval t)
  (kt_errno t) (kt_proc t) (kt_cancelled t) (kt_state t) (kt_wchan t).

Definition with_threads f p := Proc (p_pid p) (p_comm p) (f (p_threads p))
  (p_children p) (p_pproc p) (p_status p) (p_state p) (p_pagedir p).
Definition with_children f p := Proc (p_pid p) (p_comm p) (p_threads p)
  (f (p_children p)) (p_pproc p) (p_status p) (p_state p) (p_pagedir p).
Definition with_pproc q p := Proc (p_pid p) (p_comm p) (p_threads p)
  (p_children p) q (p_status p) (p_state p) (p_pagedir p).
Definition with_exit st x p := Proc (p_pid p) (p_comm p) (p_threads p)
  (p_children p) (p_pproc p) st x (p_pagedir p).

(** A queue that was never initialised reads as empty. *)
Definition queue (s : kst) (q : qid) : ktqueue :=
  default (Ktqueue [] 0) (queues s !! q).

Definition km_holder (s : kst) (m : mid) : option tid :=
  default None (mutexes s !! m).

(** Reading and writing through a [kthread_t *] and a [proc_t *]. *)
Definition thread_at (t : tid) : K kthread :=
  λ s, match threads s !! t with Some x => Ret x s | None => Panic "kthread_t" end.
Definition upd_thread (t : tid) (f : kthread → kthread) : K () :=
  λ s, match threads s !! t with
       | Some x => Ret () (set_threads (insert t (f x)) s)
       | None => Panic "kthread_t"
       end.
Definition proc_at (p : pptr) : K proc :=
  λ s, match procs s !! p with Some x => Ret x s | None => Panic "proc_t" end.
Definition upd_proc (p : pptr) (f : proc → proc) : K () :=
  λ s, match procs s !! p with
       | Some x => Ret () (set_procs (insert p (f x)) s)
       | None => Panic "proc_t"
       end.
Definition upd_queue (q : qid) (f : ktqueue → ktqueue) : K () :=
  λ s, Ret () (set_queues (insert q (f (queue s q))) s).

Definition cur_thread : K tid := s ← get; deref (curthr s) "curthr".
Definition cur_proc : K pptr := s ← get; deref (curproc s) "curproc".
