(* ===== verification/Sched.v ===== *)
(** * The scheduler (sched.c, sched_helper.c)

    Queue manipulation, sleeping, waking, cancelling and switching. *)

From S2P Require Import Prelude Kstate.
Local Open Scope Z_scope.

(** The machine below the scheduler: [intr_wait n] is what the [n]-th
    interrupt waited for in one call of [sched_switch], and its handler, do
    to the kernel state; [intr_fuel] bounds how many interrupts one call of
    [sched_switch] waits for before the model gives up. *)
Class Machine := {
  intr_wait : nat → kst → kst;
  intr_fuel : nat;
}.

Definition intr_getipl : K ipl_level := gets ipl.
Definition intr_setipl (l : ipl_level) : K () := modify (set_ipl l).

(** [list_remove(&thr->kt_qlink)]: unlink the thread from the list that
    holds it. *)
Definition unlink_qlink (thr : tid) : K () :=
  modify (set_queues (fmap (λ q,
    Ktqueue (filter (λ t, t ≠ thr) (tq_list q)) (tq_size q)))).

(** [thr->kt_qlink.l_next && thr->kt_qlink.l_prev] *)
Definition qlink_linked (s : kst) (thr : tid) : bool :=
  existsb (λ kq, bool_decide (thr ∈ tq_list kq.2)) (map_to_list (queues s)).

Definition ktqueue_enqueue (q : qid) (thr : tid) : K () :=
  t ← thread_at thr;
  KASSERT (bool_decide (kt_wchan t = None)) "!thr->kt_wchan";;
  upd_queue q (λ x, Ktqueue (thr :: tq_list x) (tq_size x));;
  upd_thread thr (with_wchan (Some q));;
  upd_queue q (λ x, Ktqueue (tq_list x) (tq_size x + 1)).

Definition ktqueue_dequeue (q : qid) : K (option tid) :=
  s ← get;
  match last (tq_list (queue s q)) with
  | None => mret None
  | Some thr =>
      unlink_qlink thr;;
      upd_thread thr (with_wchan None);;
      upd_queue q (λ x, Ktqueue (tq_list x) (tq_size x - 1));;
      mret (Some thr)
  end.

Definition ktqueue_remove (q : qid) (thr : tid) : K () :=
  s ← get;
  KASSERT (qlink_linked s thr) "thr->kt_qlink.l_next && thr->kt_qlink.l_prev";;
  unlink_qlink thr;;
  upd_thread thr (with_wchan None);;
  upd_queue q (λ x, Ktqueue (tq_list x) (tq_size x - 1)).

Definition sched_queue_init (q : qid) : K () :=
  upd_queue q (λ _, Ktqueue [] 0).

Definition sched_queue_empty (q : qid) : K bool :=
  gets (λ s, match tq_list (queue s q) with [] => true | _ => false end).

Definition sched_make_runnable (thr : tid) : K () :=
  t ← thread_at thr;
  KASSERT (bool_decide (kt_wchan t ≠ Some kt_runq)) "&kt_runq != thr->kt_wchan";;
  old ← intr_getipl;
  intr_setipl IPL_HIGH;;
  upd_thread thr (with_kstate KT_RUN);;
  ktqueue_enqueue kt_runq thr;;
  intr_setipl old.

(** [context_switch(oldContext, newContext)]: the rest of the routine is the
    saved context. *)
Definition context_switch : K () := λ s, Yield s (λ s', Ret () s').

Section switch.
Context `{Machine}.

(** The [do ... while (queueEmpty)] loop, after [n] interrupts. *)
Fixpoint sched_switch_wait (fuel : nat) (n : nat) : K () :=
  intr_setipl IPL_HIGH;;
  queueEmpty ← sched_queue_empty kt_runq;
  intr_setipl IPL_LOW;;
  if queueEmpty : bool then
    match fuel with
    | O => idle
    | S fuel' => modify (intr_wait n);; sched_switch_wait fuel' (S n)
    end
  else mret ().

Definition sched_switch : K () :=
  old ← intr_getipl;
  sched_switch_wait intr_fuel 0;;
  intr_setipl IPL_HIGH;;
  next ← ktqueue_dequeue kt_runq;
  thr ← deref next "threadToRun";
  _ ← cur_thread;
  t ← thread_at thr;
  modify (set_curthr (Some thr));;
  modify (set_curproc (kt_proc t));;
  context_switch;;
  intr_setipl old.

Definition sched_sleep_on (q : qid) : K () :=
  cur ← cur_thread;
  upd_thread cur (with_kstate KT_SLEEP);;
  ktqueue_enqueue q cur;;
  sched_switch.

Definition sched_cancellable_sleep_on `{Errno} (q : qid) : K Z :=
  cur ← cur_thread;
  c ← thread_at cur;
  if kt_cancelled c then mret (- EINTR)
  else
    upd_thread cur (with_kstate KT_SLEEP_CANCELLABLE);;
    ktqueue_enqueue q cur;;
    sched_switch;;
    cur' ← cur_thread;
    c' ← thread_at cur';
    if kt_cancelled c' then mret (- EINTR) else mret 0.
End switch.

Definition sched_wakeup_on (q : qid) : K (option tid) :=
  e ← sched_queue_empty q;
  if negb e then
    r ← ktqueue_dequeue q;
    thr ← deref r "kthread";
    t ← thread_at thr;
    KASSERT (bool_decide (kt_state t = KT_SLEEP) || bool_decide (kt_state t = KT_SLEEP_CANCELLABLE))
      "kt_state == KT_SLEEP || kt_state == KT_SLEEP_CANCELLABLE";;
    sched_make_runnable thr;;
    mret (Some thr)
  else mret None.

(** The [while (!sched_queue_empty(q))] loop; each iteration takes one thread
    off [q]. *)
Fixpoint sched_broadcast_loop (fuel : nat) (q : qid) : K () :=
  e ← sched_queue_empty q;
  if negb e then
    match fuel with
    | O => idle
    | S fuel' =>
        r ← ktqueue_dequeue q;
        thr ← deref r "kthread";
        sched_make_runnable thr;;
        sched_broadcast_loop fuel' q
    end
  else mret ().

Definition sched_broadcast_on (q : qid) : K () :=
  s ← get; sched_broadcast_loop (length (tq_list (queue s q))) q.

Definition sched_cancel (kthr : tid) : K () :=
  t ← thread_at kthr;
  if bool_decide (kt_state t ≠ KT_NO_STATE) || bool_decide (kt_state t ≠ KT_EXITED) then
    upd_thread kthr (with_cancelled true);;
    if bool_decide (kt_state t = KT_SLEEP_CANCELLABLE) then
      q ← deref (kt_wchan t) "kthr->kt_wchan";
      ktqueue_remove q kthr;;
      sched_make_runnable kthr
    else mret ()
  else mret ().

#[global] Arguments ktqueue_enqueue : simpl never.
#[global] Arguments ktqueue_dequeue : simpl never.
#[global] Arguments ktqueue_remove : simpl never.
#[global] Arguments sched_queue_empty : simpl never.
#[global] Arguments sched_make_runnable : simpl never.
#[global] Arguments sched_wakeup_on : simpl never.
#[global] Arguments sched_broadcast_on : simpl never.
#[global] Arguments sched_cancel : simpl never.
#[global] Arguments sched_switch : simpl never.
#[global] Arguments sched_sleep_on : simpl never.
#[global] Arguments sched_cancellable_sleep_on : simpl never.

Create HintDb sched.

(** ** Well-formed queues

    [queues_wf]: a thread's [kt_wchan] names the one queue that holds the
    thread, no queue holds a thread twice, and [tq_size] counts the list. *)

Definition qlist (s : kst) (q : qid) : list tid := tq_list (queue s q).

Record queues_wf (s : kst) : Prop := {
  wf_chan : ∀ t th q, threads s !! t = Some th →
    (kt_wchan th = Some q ↔ t ∈ qlist s q);
  wf_dom : ∀ t q, t ∈ qlist s q → is_Some (threads s !! t);
  wf_nodup : ∀ q, NoDup (qlist s q);
  wf_size : ∀ q, tq_size (queue s q) = Z.of_nat (length (qlist s q));
}.

(** The state of a thread agrees with the queue it waits on. *)
Definition thread_ok (th : kthread) : Prop :=
  match kt_wchan th with
  | Some kt_runq => kt_state th = KT_RUN
  | Some _ => kt_state th = KT_SLEEP ∨ kt_state th = KT_SLEEP_CANCELLABLE
  | None => kt_state th ≠ KT_SLEEP_CANCELLABLE
  end.

Record sched_wf (s : kst) : Prop := {
  wf_queues : queues_wf s;
  wf_threads : ∀ t th, threads s !! t = Some th → thread_ok th;
}.

(** Every queue operation has the effect of one [move]: the thread's
    structure becomes [th'] and the thread is unlinked, then linked at the
    head of the queue [kt_wchan th'] names, if any. *)
Definition unlinked (thr : tid) (x : ktqueue) : ktqueue :=
  let l := filter (λ t, t ≠ thr) (tq_list x) in Ktqueue l (Z.of_nat (length l)).

Definition relink (thr : tid) (w : option qid) (qs : gmap qid ktqueue) : gmap qid ktqueue :=
  let qs' := unlinked thr <$> qs in
  match w with
  | None => qs'
  | Some q => let l := tq_list (default (Ktqueue [] 0) (qs' !! q)) in
              <[q := Ktqueue (thr :: l) (Z.of_nat (S (length l)))]> qs'
  end.

Definition move (thr : tid) (th' : kthread) (s : kst) : kst :=
  set_threads (insert thr th') (set_queues (relink thr (kt_wchan th')) s).

(** A woken thread: on the run queue, runnable. *)
Definition woken (t : kthread) : kthread :=
  with_wchan (Some kt_runq) (with_kstate KT_RUN t).

Lemma qlist_move thr th' s q :
  qlist (move thr th' s) q =
  (if decide (kt_wchan th' = Some q) then [thr] else []) ++
  filter (λ t, t ≠ thr) (qlist s q).
Proof.
  unfold qlist, queue, move, relink; simpl.
  destruct (kt_wchan th') as [w|]; simpl.
  - rewrite lookup_insert. case_decide as Hw; case_decide; simplify_eq; simpl.
    + rewrite lookup_fmap. by destruct (queues s !! q).
    + rewrite lookup_fmap. by destruct (queues s !! q).
  - rewrite lookup_fmap. by destruct (queues s !! q).
Qed.

Lemma threads_move thr th' s : threads (move thr th' s) = <[thr:=th']> (threads s).
Proof. done. Qed.

Lemma filter_absent (thr : tid) (l : list tid) :
  thr ∉ l → filter (λ t, t ≠ thr) l = l.
Proof.
  induction l as [|a l IH]; [done|]. rewrite not_elem_of_cons. intros [Ha Hl].
  rewrite filter_cons_True by congruence. f_equal. auto.
Qed.

Lemma queues_wf_move thr th' s : queues_wf s → queues_wf (move thr th' s).
Proof.
  intros [Hc Hd Hn Hs]. split.
  - intros t th q. rewrite threads_move, qlist_move, elem_of_app, list_elem_of_filter.
    rewrite lookup_insert_Some. intros [[<- <-]|[Hne Ht]].
    + case_decide as Hw; [set_solver|]. split; [done|set_solver].
    + rewrite (Hc _ _ q Ht). case_decide; set_solver.
  - intros t q. rewrite threads_move, qlist_move, elem_of_app, list_elem_of_filter.
    intros [Ht|[Hne Ht]].
    + case_decide; [|set_solver]. apply list_elem_of_singleton in Ht as ->.
      rewrite lookup_insert_eq. eauto.
    + rewrite lookup_insert_ne by done. eauto.
  - intros q. rewrite qlist_move. apply NoDup_app. split_and!.
    + case_decide; repeat constructor; set_solver.
    + intros t Ht. rewrite list_elem_of_filter. case_decide; set_solver.
    + by apply NoDup_filter.
  - intros q. unfold qlist, queue, move, relink; simpl.
    destruct (kt_wchan th') as [w|]; simpl.
    + rewrite lookup_insert. case_decide; [done|].
      rewrite lookup_fmap. by destruct (queues s !! q).
    + rewrite lookup_fmap. by destruct (queues s !! q).
Qed.

Lemma sched_wf_move thr th' s :
  sched_wf s → thread_ok th' → sched_wf (move thr th' s).
Proof.
  intros [Hq Ht] Hok. split; [by apply queues_wf_move|].
  intros t th. rewrite threads_move, lookup_insert_Some.
  intros [[_ <-]|[_ Hth]]; eauto.
Qed.

Lemma queues_lookup s q x : queues s !! q = Some x → queue s q = x.
Proof. unfold queue. by intros ->. Qed.

Lemma unlinked_absent s q x thr :
  queues_wf s → queues s !! q = Some x → thr ∉ tq_list x → unlinked thr x = x.
Proof.
  intros Hwf Hq Hin. unfold unlinked. rewrite filter_absent by done.
  pose proof (wf_size s Hwf q) as Hsz. unfold qlist in Hsz.
  rewrite (queues_lookup _ _ _ Hq) in Hsz. destruct x; simpl in *. by rewrite Hsz.
Qed.

Lemma relink_absent s thr :
  queues_wf s → (∀ q, thr ∉ qlist s q) → unlinked thr <$> queues s = queues s.
Proof.
  intros Hwf Hno. apply map_eq. intros q. rewrite lookup_fmap.
  destruct (queues s !! q) as [x|] eqn:Hq; [|done]. simpl. f_equal.
  eapply unlinked_absent; eauto. specialize (Hno q). unfold qlist in Hno.
  by rewrite (queues_lookup _ _ _ Hq) in Hno.
Qed.

Lemma wchan_none_absent s thr t q :
  queues_wf s → threads s !! thr = Some t → kt_wchan t = None → thr ∉ qlist s q.
Proof. intros Hwf Ht Hw Hin. apply (wf_chan s Hwf _ _ _ Ht) in Hin. congruence. Qed.

Lemma ktqueue_enqueue_spec q thr t s :
  queues_wf s → threads s !! thr = Some t → kt_wchan t = None →
  ktqueue_enqueue q thr s = Ret () (move thr (with_wchan (Some q) t) s).
Proof.
  intros Hwf Ht Hw. unfold ktqueue_enqueue, thread_at, upd_thread, upd_queue. msimpl.
  rewrite Ht. simpl. rewrite bool_decide_eq_true_2 by done. simpl. rewrite Ht. simpl.
  f_equal. unfold move, set_threads, set_queues, queue; simpl.
  rewrite lookup_insert_eq. simpl. f_equal.
  rewrite insert_insert_eq, relink_absent by eauto using wchan_none_absent.
  pose proof (wf_size s Hwf q) as Hsz. unfold qlist, queue in Hsz. rewrite Hsz.
  repeat f_equal. lia.
Qed.

(** The state after the thread was unlinked and its [kt_wchan] cleared. *)
Lemma dequeue_queues s q thr t :
  queues_wf s → threads s !! thr = Some t → kt_wchan t = Some q →
  let qs := (λ x, Ktqueue (filter (λ t, t ≠ thr) (tq_list x)) (tq_size x)) <$> queues s in
  let x := default (Ktqueue [] 0) (qs !! q) in
  <[q := Ktqueue (tq_list x) (tq_size x - 1)]> qs = relink thr None (queues s).
Proof.
  intros Hwf Ht Hw. simpl. pose proof (proj1 (wf_chan s Hwf _ _ q Ht) Hw) as Hin.
  apply map_eq. intros q'. rewrite lookup_insert. rewrite !lookup_fmap.
  destruct (queues s !! q) as [x|] eqn:Hq.
  2:{ unfold qlist, queue in Hin. rewrite Hq in Hin. by apply elem_of_nil in Hin. }
  simpl. pose proof (wf_size s Hwf q) as Hsz. pose proof (wf_nodup s Hwf q) as Hnd.
  unfold qlist in *. rewrite (queues_lookup _ _ _ Hq) in *.
  case_decide as Heq.
  - subst q'. rewrite Hq. simpl. unfold unlinked. repeat f_equal. rewrite Hsz.
    apply list_elem_of_split in Hin as (l1 & l2 & Hl). rewrite Hl in *.
    apply NoDup_app in Hnd as (_ & Hd & Hn). apply NoDup_cons in Hn as [Hn _].
    rewrite filter_app, filter_cons_False by (intros []; done).
    rewrite !filter_absent; [rewrite !length_app; simpl; lia|done|].
    intros Hx. eapply Hd; eauto. set_solver.
  - destruct (queues s !! q') as [y|] eqn:Hq'; [|done]. simpl. f_equal.
    assert (thr ∉ tq_list y) as Hny.
    { intros Hy. rewrite <- (queues_lookup _ _ _ Hq') in Hy.
      apply (wf_chan s Hwf _ _ _ Ht) in Hy. congruence. }
    rewrite (unlinked_absent s q' y) by done. rewrite filter_absent by done. by destruct y.
Qed.

Lemma ktqueue_dequeue_nil q s :
  qlist s q = [] → ktqueue_dequeue q s = Ret None s.
Proof. unfold qlist, ktqueue_dequeue. msimpl. by intros ->. Qed.

Lemma ktqueue_dequeue_spec q thr t s :
  queues_wf s → last (qlist s q) = Some thr → threads s !! thr = Some t →
  ktqueue_dequeue q s = Ret (Some thr) (move thr (with_wchan None t) s).
Proof.
  intros Hwf Hl Ht. unfold ktqueue_dequeue, unlink_qlink, upd_thread, upd_queue. msimpl.
  unfold qlist in Hl. rewrite Hl. simpl. rewrite Ht. simpl. f_equal.
  unfold move, set_threads, set_queues; simpl. f_equal. unfold queue; simpl.
  apply (dequeue_queues s q thr t); auto.
  apply (wf_chan s Hwf _ _ _ Ht), last_Some_elem_of, Hl.
Qed.

Lemma qlink_linked_spec s thr : qlink_linked s thr = true ↔ ∃ q, thr ∈ qlist s q.
Proof.
  unfold qlink_linked. rewrite existsb_exists. split.
  - intros [[q x] [Hin Hb]]. apply bool_decide_eq_true in Hb. exists q.
    apply list_elem_of_In, elem_of_map_to_list in Hin. unfold qlist.
    by rewrite (queues_lookup _ _ _ Hin).
  - intros [q Hin]. unfold qlist, queue in Hin.
    destruct (queues s !! q) as [x|] eqn:Hq; [|by apply elem_of_nil in Hin].
    exists (q, x). split; [by apply list_elem_of_In, elem_of_map_to_list|].
    by apply bool_decide_eq_true.
Qed.

Lemma ktqueue_remove_spec q thr t s :
  queues_wf s → threads s !! thr = Some t → kt_wchan t = Some q →
  ktqueue_remove q thr s = Ret () (move thr (with_wchan None t) s).
Proof.
  intros Hwf Ht Hw. unfold ktqueue_remove, unlink_qlink, upd_thread, upd_queue. msimpl.
  rewrite (proj2 (qlink_linked_spec s thr)).
  2:{ exists q. by apply (wf_chan s Hwf _ _ _ Ht). }
  simpl. rewrite Ht. simpl. f_equal.
  unfold move, set_threads, set_queues; simpl. f_equal. unfold queue; simpl.
  by apply (dequeue_queues s q thr t).
Qed.

Lemma unlinked_idem thr x : unlinked thr (unlinked thr x) = unlinked thr x.
Proof.
  unfold unlinked; simpl. rewrite filter_absent; [done|].
  rewrite list_elem_of_filter. naive_solver.
Qed.

Lemma relink_relink thr w (qs : gmap qid ktqueue) :
  relink thr w (relink thr None qs) = relink thr w qs.
Proof.
  assert (unlinked thr <$> (unlinked thr <$> qs) = unlinked thr <$> qs) as Hid.
  { rewrite <- map_fmap_compose. apply map_fmap_ext. intros. apply unlinked_idem. }
  unfold relink. by rewrite Hid.
Qed.

(** Two moves of one thread are one when the first only unlinks it. *)
Lemma move_move thr t1 t2 s :
  kt_wchan t1 = None → move thr t2 (move thr t1 s) = move thr t2 s.
Proof.
  intros Hw. unfold move, set_threads, set_queues; simpl. f_equal.
  - apply insert_insert_eq.
  - rewrite Hw. apply relink_relink.
Qed.

Lemma lookup_move thr t' s : threads (move thr t' s) !! thr = Some t'.
Proof. apply lookup_insert_eq. Qed.

Lemma lookup_move_ne thr t' s u :
  u ≠ thr → threads (move thr t' s) !! u = threads s !! u.
Proof. intros Hne. by apply lookup_insert_ne. Qed.

(** Replacing the structure of a thread that is on no queue is a move. *)
Lemma upd_thread_move thr t t' s :
  queues_wf s → threads s !! thr = Some t → kt_wchan t = None → kt_wchan t' = None →
  set_threads (insert thr t') s = move thr t' s.
Proof.
  intros Hwf Ht Hw Hw'. unfold move, set_queues, set_threads; simpl. f_equal.
  rewrite Hw'. unfold relink. rewrite relink_absent; eauto using wchan_none_absent.
Qed.

Lemma sched_make_runnable_spec thr t s :
  queues_wf s → threads s !! thr = Some t → kt_wchan t = None →
  sched_make_runnable thr s = Ret () (move thr (woken t) s).
Proof.
  intros Hwf Ht Hw. unfold sched_make_runnable, thread_at. msimpl. rewrite Ht. simpl.
  rewrite bool_decide_eq_true_2 by (rewrite Hw; done). simpl.
  unfold upd_thread; simpl. rewrite Ht. simpl.
  set (s1 := set_threads _ (set_ipl IPL_HIGH s)).
  assert (queues_wf (set_ipl IPL_HIGH s)) as Hwf1 by (split; apply Hwf).
  assert (s1 = move thr (with_kstate KT_RUN t) (set_ipl IPL_HIGH s)) as Hs1.
  { by eapply upd_thread_move. }
  rewrite (ktqueue_enqueue_spec _ _ (with_kstate KT_RUN t)).
  - simpl. rewrite Hs1, move_move by done. done.
  - rewrite Hs1. by apply queues_wf_move.
  - rewrite Hs1. apply lookup_move.
  - done.
Qed.

Lemma sched_queue_empty_spec q s :
  sched_queue_empty q s = Ret (bool_decide (qlist s q = [])) s.
Proof. unfold sched_queue_empty, qlist, gets. by destruct (tq_list _). Qed.

Lemma thread_ok_sleeping t q :
  thread_ok t → kt_wchan t = Some q → q ≠ kt_runq →
  kt_state t = KT_SLEEP ∨ kt_state t = KT_SLEEP_CANCELLABLE.
Proof. unfold thread_ok. intros Hok Hw. rewrite Hw in Hok. by destruct q. Qed.

(** Waking the oldest sleeper of a wait queue. *)
Lemma sched_wakeup_on_spec q thr t s :
  sched_wf s → q ≠ kt_runq → last (qlist s q) = Some thr → threads s !! thr = Some t →
  sched_wakeup_on q s = Ret (Some thr) (move thr (woken t) s).
Proof.
  intros Hwf Hq Hl Ht. unfold sched_wakeup_on. msimpl. rewrite sched_queue_empty_spec. simpl.
  rewrite bool_decide_eq_false_2 by (intros Hn; by rewrite Hn in Hl). simpl.
  pose proof (wf_queues s Hwf) as Hwfq.
  rewrite (ktqueue_dequeue_spec q thr t s) by done. simpl.
  unfold thread_at. rewrite lookup_move. simpl.
  assert (kt_wchan t = Some q) as Hw by (eapply wf_chan; eauto using last_Some_elem_of).
  destruct (thread_ok_sleeping t q) as [Hs|Hs]; eauto using wf_threads.
  all: rewrite Hs; simpl.
  all: rewrite (sched_make_runnable_spec thr (with_wchan None t))
    by (try apply queues_wf_move; try apply lookup_move; done).
  all: simpl; rewrite move_move by done; done.
Qed.

Lemma sched_wakeup_on_nil q s :
  qlist s q = [] → sched_wakeup_on q s = Ret None s.
Proof.
  intros Hl. unfold sched_wakeup_on. msimpl. rewrite sched_queue_empty_spec. simpl.
  by rewrite bool_decide_eq_true_2.
Qed.

Lemma woken_ok t : thread_ok (woken t).
Proof. done. Qed.
#[export] Hint Resolve woken_ok sched_wf_move queues_wf_move wf_queues : sched.

(** What the queue operations leave alone. *)
Record frame (s s' : kst) : Prop := {
  fr_mutexes : mutexes s' = mutexes s;
  fr_procs : procs s' = procs s;
  fr_curthr : curthr s' = curthr s;
  fr_curproc : curproc s' = curproc s;
  fr_ipl : ipl s' = ipl s;
  fr_proc_list : proc_list s' = proc_list s;
  fr_initproc : proc_initproc s' = proc_initproc s;
  fr_next_pid : next_pid s' = next_pid s;
}.

#[global] Instance frame_refl : Reflexive frame.
Proof. by split. Qed.
#[global] Instance frame_trans : Transitive frame.
Proof. intros s1 s2 s3 [] []. split; congruence. Qed.

Lemma frame_move thr t s : frame s (move thr t s).
Proof. by split. Qed.
#[export] Hint Resolve frame_move : sched.

(** Waking the oldest sleeper, seen from each queue. *)
Lemma qlist_wake q thr t s l :
  queues_wf s → q ≠ kt_runq → qlist s q = l ++ [thr] → threads s !! thr = Some t →
  qlist (move thr (woken t) s) q = l ∧
  qlist (move thr (woken t) s) kt_runq = thr :: qlist s kt_runq ∧
  (∀ q', q' ≠ q → q' ≠ kt_runq → qlist (move thr (woken t) s) q' = qlist s q').
Proof.
  intros Hwf Hq Hl Ht.
  assert (kt_wchan t = Some q) as Hw.
  { apply (wf_chan s Hwf _ _ _ Ht). rewrite Hl. set_solver. }
  assert (∀ q', q' ≠ q → thr ∉ qlist s q') as Hno.
  { intros q' Hne Hin. apply (wf_chan s Hwf _ _ _ Ht) in Hin. congruence. }
  pose proof (wf_nodup s Hwf q) as Hnd. rewrite Hl in Hnd.
  apply NoDup_app in Hnd as (_ & Hd & _).
  split_and!.
  - rewrite qlist_move, decide_False by (simpl; congruence). simpl. rewrite Hl, filter_app.
    rewrite filter_cons_False by (intros []; done). rewrite filter_absent, app_nil_r; [done|].
    intros Hx. eapply Hd; eauto. set_solver.
  - rewrite qlist_move, decide_True by done. simpl. rewrite filter_absent; auto.
  - intros q' H1 H2. rewrite qlist_move, decide_False by (simpl; congruence). simpl.
    rewrite filter_absent; auto.
Qed.

Lemma sched_broadcast_loop_spec q l s :
  sched_wf s → q ≠ kt_runq → qlist s q = l →
  ∃ s', sched_broadcast_loop (length l) q s = Ret () s' ∧
    sched_wf s' ∧ frame s s' ∧
    qlist s' q = [] ∧ qlist s' kt_runq = l ++ qlist s kt_runq ∧
    (∀ q', q' ≠ q → q' ≠ kt_runq → qlist s' q' = qlist s q') ∧
    (∀ u, threads s' !! u = (if decide (u ∈ l) then woken else id) <$> threads s !! u).
Proof.
  revert s. induction l as [|thr l IH] using rev_ind; intros s Hwf Hq Hl.
  - exists s. simpl. msimpl. rewrite sched_queue_empty_spec. cbn [obind].
    rewrite bool_decide_eq_true_2 by done. cbn. split_and!; try done.
    intros u. by destruct (threads s !! u).
  - rewrite length_app, Nat.add_comm. simpl. msimpl.
    rewrite sched_queue_empty_spec. cbn [obind].
    rewrite bool_decide_eq_false_2 by (rewrite Hl; by destruct l). cbn [negb].
    pose proof (wf_queues s Hwf) as Hwfq.
    destruct (wf_dom s Hwfq thr q) as [t Ht]; [rewrite Hl; set_solver|].
    rewrite (ktqueue_dequeue_spec q thr t) by (rewrite ?Hl, ?last_snoc; done). cbn [obind].
    rewrite (sched_make_runnable_spec thr (with_wchan None t))
      by (try apply queues_wf_move; try apply lookup_move; done). cbn [obind].
    rewrite move_move by done. change (woken (with_wchan None t)) with (woken t).
    destruct (qlist_wake q thr t s l) as (H1 & H2 & H3); auto.
    destruct (IH (move thr (woken t) s)) as (s' & Hr & Hwf' & Hfr & Hq0 & Hqr & Hqo & Hth);
      auto with sched.
    exists s'. rewrite Hr. split_and!; auto.
    + transitivity (move thr (woken t) s); auto with sched.
    + rewrite Hqr, H2, <- app_assoc. done.
    + intros q' ??. rewrite Hqo by done. auto.
    + intros u. rewrite Hth. destruct (decide (u = thr)) as [->|Hne].
      * rewrite lookup_move, Ht, (decide_True _ _ (P := thr ∈ l ++ [thr])) by set_solver.
        simpl. by case_decide.
      * rewrite lookup_move_ne by done.
        destruct (decide (u ∈ l)); [rewrite decide_True by set_solver|rewrite decide_False by set_solver]; done.
Qed.

(** Replacing a thread's structure without touching its [kt_wchan]. *)
Lemma queues_wf_upd thr t t' s :
  queues_wf s → threads s !! thr = Some t → kt_wchan t' = kt_wchan t →
  queues_wf (set_threads (insert thr t') s).
Proof.
  intros [Hc Hd Hn Hs] Ht Hw. split; auto.
  - intros u th q. simpl. change (qlist (set_threads _ _) q) with (qlist s q).
    rewrite lookup_insert_Some. intros [[<- <-]|[_ Hu]]; [rewrite Hw|]; eauto.
  - intros u q. change (qlist (set_threads _ _) q) with (qlist s q). simpl. intros Hin.
    destruct (decide (u = thr)) as [->|]; [rewrite lookup_insert_eq; eauto|].
    rewrite lookup_insert_ne by done. eauto.
Qed.

Lemma move_upd thr t1 t2 s :
  move thr t2 (set_threads (insert thr t1) s) = move thr t2 s.
Proof.
  unfold move, set_threads, set_queues; simpl. f_equal. apply insert_insert_eq.
Qed.

Lemma sched_wf_upd thr t t' s :
  sched_wf s → threads s !! thr = Some t → kt_wchan t' = kt_wchan t → thread_ok t' →
  sched_wf (set_threads (insert thr t') s).
Proof.
  intros [Hq Ht] Hthr Hw Hok. split; [by eapply queues_wf_upd|].
  intros u th. simpl. rewrite lookup_insert_Some. intros [[_ <-]|[_ Hu]]; eauto.
Qed.

(** Well-formedness reads only the threads and the queues. *)
Lemma sched_wf_ext s s' :
  threads s' = threads s → queues s' = queues s → sched_wf s → sched_wf s'.
Proof.
  intros Ht Hq [[H1 H2 H3 H4] H5].
  assert (∀ q, qlist s' q = qlist s q) as Hl by (intros q; unfold qlist, queue; by rewrite Hq).
  split; [split|].
  - intros t th q. rewrite Ht, Hl. apply H1.
  - intros t q. rewrite Ht, Hl. apply H2.
  - intros q. rewrite Hl. apply H3.
  - intros q. rewrite Hl. unfold queue. rewrite Hq. apply H4.
  - intros t th. rewrite Ht. apply H5.
Qed.

(** Cancelling: the flag is set whatever the state of the thread; only a
    cancellable sleep is interrupted. *)
Definition cancelled (kthr : tid) (t : kthread) (s : kst) : kst :=
  if decide (kt_state t = KT_SLEEP_CANCELLABLE)
  then move kthr (woken (with_cancelled true t)) s
  else set_threads (insert kthr (with_cancelled true t)) s.

Lemma sched_cancel_spec kthr t s :
  sched_wf s → threads s !! kthr = Some t →
  sched_cancel kthr s = Ret () (cancelled kthr t s).
Proof.
  intros Hwf Ht. unfold sched_cancel, thread_at, upd_thread, cancelled. msimpl.
  rewrite Ht. cbn [obind].
  assert (bool_decide (kt_state t ≠ KT_NO_STATE) || bool_decide (kt_state t ≠ KT_EXITED) = true) as ->.
  { by destruct (kt_state t). }
  rewrite Ht. cbn [obind]. case_decide as Hc.
  - rewrite bool_decide_eq_true_2 by done.
    pose proof (wf_threads s Hwf _ _ Ht) as Hok. unfold thread_ok in Hok.
    destruct (kt_wchan t) as [q|] eqn:Hw; [|done]. cbn [obind].
    set (s1 := set_threads _ s).
    assert (queues_wf s1) as Hwf1 by (eapply queues_wf_upd; eauto with sched).
    rewrite (ktqueue_remove_spec q kthr (with_cancelled true t)); [|done|apply lookup_insert_eq|done].
    cbn [obind]. unfold s1. rewrite move_upd.
    rewrite (sched_make_runnable_spec kthr (with_wchan None (with_cancelled true t)));
      [|apply queues_wf_move; by apply wf_queues|apply lookup_move|done].
    by rewrite move_move.
  - by rewrite bool_decide_eq_false_2.
Qed.

Lemma cancelled_wf kthr t s :
  sched_wf s → threads s !! kthr = Some t → sched_wf (cancelled kthr t s).
Proof.
  intros Hwf Ht. unfold cancelled. case_decide; [auto with sched|].
  eapply sched_wf_upd; eauto. by apply (wf_threads s Hwf _ _ Ht).
Qed.
#[export] Hint Resolve cancelled_wf : sched.

(** ** Switching *)

Section switch_spec.
Context `{Machine}.

(** The state [sched_switch] sees after [k] more interrupts. *)
Fixpoint after_intrs (k n : nat) (s : kst) : kst :=
  match k with
  | O => set_ipl IPL_LOW s
  | S k' => after_intrs k' (S n) (intr_wait n (set_ipl IPL_LOW s))
  end.

(** The state in which the processor is handed to thread [thr]. *)
Definition switch_to (thr : tid) (t : kthread) (s : kst) : kst :=
  set_curproc (kt_proc t) (set_curthr (Some thr)
    (move thr (with_wchan None t) (set_ipl IPL_HIGH s))).

Lemma qlist_set_ipl l s q : qlist (set_ipl l s) q = qlist s q.
Proof. done. Qed.

Lemma sched_switch_wait_spec k : ∀ fuel n s,
  (k <= fuel)%nat →
  (∀ j, (j < k)%nat → qlist (after_intrs j n s) kt_runq = []) →
  qlist (after_intrs k n s) kt_runq ≠ [] →
  sched_switch_wait fuel n s = Ret () (after_intrs k n s).
Proof.
  induction k as [|k IH]; intros fuel n s Hle Hempty Hne.
  - destruct fuel; cbn [sched_switch_wait]; unfold intr_setipl; msimpl; rewrite sched_queue_empty_spec; cbn [obind];
      rewrite bool_decide_eq_false_2 by done; done.
  - destruct fuel as [|fuel]; [lia|]. cbn [sched_switch_wait]. unfold intr_setipl. msimpl.
    rewrite sched_queue_empty_spec; cbn [obind].
    rewrite bool_decide_eq_true_2 by (apply (Hempty 0%nat); lia).
    cbn [obind]. rewrite IH; [done|lia| |done].
    intros j Hj. apply (Hempty (S j)). lia.
Qed.

Lemma sched_switch_spec k thr t s cur :
  (k <= intr_fuel)%nat →
  (∀ j, (j < k)%nat → qlist (after_intrs j 0 s) kt_runq = []) →
  let s1 := after_intrs k 0 s in
  queues_wf s1 → curthr s1 = Some cur →
  last (qlist s1 kt_runq) = Some thr → threads s1 !! thr = Some t →
  sched_switch s =
    Yield (switch_to thr t s1) (λ s', Ret () (set_ipl (ipl s) s')).
Proof.
  intros Hk Hempty s1 Hwf Hcur Hl Ht. unfold sched_switch, intr_setipl, intr_getipl. msimpl.
  rewrite (sched_switch_wait_spec k) by (try done; fold s1; intros Hn; by rewrite Hn in Hl).
  fold s1. cbn [obind].
  assert (queues_wf (set_ipl IPL_HIGH s1)) as Hwf1 by (split; apply Hwf).
  rewrite (ktqueue_dequeue_spec kt_runq thr t) by done. cbn [obind].
  unfold cur_thread, thread_at. msimpl. simpl. rewrite Hcur. cbn [obind].
  rewrite lookup_move. done.
Qed.

(** The state of a thread that falls asleep on [q]. *)
Definition slept (q : qid) (st : kthread_state) (th : kthread) : kthread :=
  with_wchan (Some q) (with_kstate st th).

Lemma sched_sleep_on_eval q cur th s :
  queues_wf s → curthr s = Some cur → threads s !! cur = Some th → kt_wchan th = None →
  sched_sleep_on q s = sched_switch (move cur (slept q KT_SLEEP th) s).
Proof.
  intros Hwf Hcur Hth Hw. unfold sched_sleep_on, cur_thread, upd_thread. msimpl.
  rewrite Hcur. cbn [obind]. rewrite Hth. cbn [obind].
  rewrite (upd_thread_move cur th) by done.
  rewrite (ktqueue_enqueue_spec _ _ (with_kstate KT_SLEEP th))
    by (try apply queues_wf_move; try apply lookup_move; done).
  cbn [obind]. by rewrite move_move.
Qed.
End switch_spec.

(** Removing a thread that is on no queue. *)
Lemma sched_wf_delete t th s :
  sched_wf s → threads s !! t = Some th → kt_wchan th = None →
  sched_wf (set_threads (delete t) s).
Proof.
  intros [Hq Ht] Hth Hw.
  pose proof (λ q, wchan_none_absent s t th q Hq Hth Hw) as Hno. destruct Hq as [Hc Hd Hn Hs].
  split; [split|]; auto; simpl.
  - intros u uh q [_ Hu]%lookup_delete_Some. by apply Hc.
  - intros u q Hin. change (qlist (set_threads _ s) q) with (qlist s q) in Hin.
    rewrite lookup_delete_ne; [by eapply Hd|]. intros ->. by apply (Hno q).
  - intros u uh [_ Hu]%lookup_delete_Some. eauto.
Qed.

(** ** Deciding well-formedness of a concrete state *)

Definition queue_fin (s : kst) (q : qid) (x : ktqueue) : Prop :=
  tq_size x = Z.of_nat (length (tq_list x)) ∧ NoDup (tq_list x) ∧
  Forall (λ t, kt_wchan <$> threads s !! t = Some (Some q)) (tq_list x).

Definition thread_fin (s : kst) (t : tid) (th : kthread) : Prop :=
  match kt_wchan th with
  | Some kt_runq => kt_state th = KT_RUN ∧ t ∈ qlist s kt_runq
  | Some q => (kt_state th = KT_SLEEP ∨ kt_state th = KT_SLEEP_CANCELLABLE) ∧ t ∈ qlist s q
  | None => kt_state th ≠ KT_SLEEP_CANCELLABLE
  end.

Definition sched_fin (s : kst) : Prop :=
  map_Forall (queue_fin s) (queues s) ∧ map_Forall (thread_fin s) (threads s).

#[global] Instance queue_fin_dec s q x : Decision (queue_fin s q x).
Proof. unfold queue_fin. apply _. Defined.
#[global] Instance thread_fin_dec s t th : Decision (thread_fin s t th).
Proof. unfold thread_fin. destruct (kt_wchan th) as [[]|]; apply _. Defined.
#[global] Instance sched_fin_dec s : Decision (sched_fin s).
Proof. unfold sched_fin. apply _. Defined.

Lemma sched_fin_wf s : sched_fin s → sched_wf s.
Proof.
  intros [Hq Ht].
  assert (∀ q, queue_fin s q (queue s q)) as Hqf.
  { intros q. unfold queue. destruct (queues s !! q) as [x|] eqn:Hx; simpl; [by apply Hq|].
    split_and!; [done|constructor..]. }
  assert (∀ q t, t ∈ qlist s q → ∃ th, threads s !! t = Some th ∧ kt_wchan th = Some q) as Hin.
  { intros q t Hin. destruct (Hqf q) as (_ & _ & Hf). rewrite Forall_forall in Hf.
    specialize (Hf t Hin). apply fmap_Some in Hf as (th & Hth & Hw). eauto. }
  split; [split|].
  - intros t th q Hth. split.
    + intros Hw. specialize (Ht t th Hth). unfold thread_fin in Ht. rewrite Hw in Ht.
      destruct q; apply Ht.
    + intros Hi. destruct (Hin q t Hi) as (th' & Hth' & Hw). congruence.
  - intros t q Hi. destruct (Hin q t Hi) as (th' & Hth' & Hw). eauto.
  - intros q. apply (Hqf q).
  - intros q. apply (Hqf q).
  - intros t th Hth. specialize (Ht t th Hth). unfold thread_fin in Ht. unfold thread_ok.
    destruct (kt_wchan th) as [[]|]; naive_solver.
Qed.


(** ** The queues as FIFOs

    The specification of a thread queue: a list, oldest thread first; a
    thread is on at most one queue. *)

Inductive qop := Enq (q : qid) (t : tid) | Deq (q : qid) | Rem (q : qid) (t : tid).

Definition exec_op (o : qop) : K (option tid) :=
  match o with
  | Enq q t => ktqueue_enqueue q t;; mret None
  | Deq q => ktqueue_dequeue q
  | Rem q t => ktqueue_remove q t;; mret None
  end.

Fixpoint exec_ops (l : list qop) : K (list (option tid)) :=
  match l with
  | [] => mret []
  | o :: l' => r ← exec_op o; rs ← exec_ops l'; mret (r :: rs)
  end.

Definition fifos := qid → list tid.

Definition upd (f : fifos) (q : qid) (l : list tid) : fifos :=
  λ q', if decide (q' = q) then l else f q'.

Inductive fifo_step (T : gset tid) : fifos → qop → option tid → fifos → Prop :=
| fifo_enq f q t : t ∈ T → (∀ q', t ∉ f q') → fifo_step T f (Enq q t) None (upd f q (f q ++ [t]))
| fifo_deq_empty f q : f q = [] → fifo_step T f (Deq q) None f
| fifo_deq f q t l : f q = t :: l → fifo_step T f (Deq q) (Some t) (upd f q l)
| fifo_rem f q t : t ∈ f q → fifo_step T f (Rem q t) None (upd f q (filter (λ u, u ≠ t) (f q))).

Inductive fifo_steps (T : gset tid) : fifos → list qop → list (option tid) → fifos → Prop :=
| fifo_nil f : fifo_steps T f [] [] f
| fifo_cons f o r f1 l rs f2 :
    fifo_step T f o r f1 → fifo_steps T f1 l rs f2 → fifo_steps T f (o :: l) (r :: rs) f2.

(** The state [s] represents the queues [f]. *)
Record represents (s : kst) (f : fifos) : Prop := {
  rep_wf : queues_wf s;
  rep_list : ∀ q, qlist s q = rev (f q);
}.

Lemma rev_filter (P : tid → Prop) `{∀ x, Decision (P x)} l :
  filter P (rev l) = rev (filter P l).
Proof.
  induction l as [|a l IH]; [done|]. simpl rev. rewrite filter_app, IH, !filter_cons.
  case_decide; simpl; by rewrite ?app_nil_r.
Qed.

Lemma elem_of_rev (x : tid) l : x ∈ rev l ↔ x ∈ l.
Proof. rewrite rev_alt. by rewrite !list_elem_of_In, <- rev_alt, <- in_rev. Qed.

(** A move of one thread, seen as a step of the FIFOs. *)
Lemma represents_move s f thr th w :
  represents s f → kt_wchan th = w →
  represents (move thr th s)
    (λ q, filter (λ u, u ≠ thr) (f q) ++ (if decide (w = Some q) then [thr] else [])).
Proof.
  intros [Hwf Hl] <-. split; [by apply queues_wf_move|]. intros q.
  rewrite qlist_move, Hl, rev_filter, rev_app_distr. by case_decide.
Qed.

Lemma represents_ext s f g : (∀ q, f q = g q) → represents s f → represents s g.
Proof. intros He [Hwf Hl]. split; [done|]. intros q. by rewrite Hl, He. Qed.

Lemma represents_absent s f thr t q :
  represents s f → threads s !! thr = Some t → kt_wchan t ≠ Some q → thr ∉ f q.
Proof.
  intros [Hwf Hl] Ht Hw Hin. apply Hw, (wf_chan s Hwf _ _ _ Ht). rewrite Hl. by apply elem_of_rev.
Qed.

Lemma represents_on s f thr q :
  represents s f → thr ∈ f q → ∃ t, threads s !! thr = Some t ∧ kt_wchan t = Some q.
Proof.
  intros [Hwf Hl] Hin. assert (thr ∈ qlist s q) as Hq by (rewrite Hl; by apply elem_of_rev).
  destruct (wf_dom s Hwf _ _ Hq) as [t Ht]. exists t. split; [done|]. by apply (wf_chan s Hwf _ _ _ Ht).
Qed.

(** Taking a thread off the queue it is on. *)
Lemma represents_take s f thr t q :
  represents s f → threads s !! thr = Some t → kt_wchan t = Some q →
  represents (move thr (with_wchan None t) s) (upd f q (filter (λ u, u ≠ thr) (f q))).
Proof.
  intros Hr Ht Hw. eapply represents_ext; [|by apply represents_move].
  intros q'. simpl. rewrite app_nil_r. unfold upd. case_decide as Hq; [by subst|].
  apply filter_absent. eapply represents_absent; eauto. congruence.
Qed.

Lemma fifo_step_refines T f o r f' s :
  represents s f → dom (threads s) = T → fifo_step T f o r f' →
  ∃ s', exec_op o s = Ret r s' ∧ represents s' f' ∧ dom (threads s') = T ∧ frame s s'.
Proof.
  intros Hr HT Hstep. pose proof (rep_wf _ _ Hr) as Hwf.
  assert (∀ thr t u, threads s !! thr = Some t → dom (threads (move thr u s)) = T) as Hdom.
  { intros thr t u Ht. rewrite threads_move, dom_insert_L, HT.
    apply elem_of_dom_2 in Ht. rewrite HT in Ht. set_solver. }
  destruct Hstep as [f q t Ht Hno|f q Hq|f q t l Hq|f q t Hin]; unfold exec_op; msimpl.
  - rewrite <- HT in Ht. apply elem_of_dom in Ht as [th Hth].
    assert (kt_wchan th = None) as Hw.
    { destruct (kt_wchan th) as [q'|] eqn:Hw; [|done].
      destruct (Hno q'). apply elem_of_rev. rewrite <- (rep_list _ _ Hr).
      by apply (wf_chan s Hwf _ _ _ Hth). }
    rewrite (ktqueue_enqueue_spec q t th) by done. cbn [obind]. eexists. split; [done|].
    split_and!; [|by eapply Hdom|auto with sched].
    eapply represents_ext; [|by apply (represents_move s f)]. intros q'. simpl. unfold upd.
    rewrite filter_absent by auto. repeat case_decide; simplify_eq; by rewrite ?app_nil_r.
  - rewrite ktqueue_dequeue_nil by (by rewrite (rep_list _ _ Hr), Hq). exists s. by split_and!.
  - destruct (represents_on s f t q) as (th & Hth & Hw); [done|rewrite Hq; by left|].
    rewrite (ktqueue_dequeue_spec q t th) by (try done; by rewrite (rep_list _ _ Hr), Hq; simpl; rewrite last_snoc).
    eexists. split; [done|]. split_and!; [|by eapply Hdom|auto with sched].
    eapply represents_ext; [|by eapply represents_take]. intros q'. unfold upd. case_decide; [|done].
    rewrite Hq, filter_cons_False by naive_solver. apply filter_absent.
    pose proof (wf_nodup s Hwf q) as Hn. rewrite (rep_list _ _ Hr), Hq in Hn. simpl in Hn.
    apply NoDup_app in Hn as (_ & Hn & _). intros Hi. apply (Hn t); [by apply elem_of_rev|by left].
  - destruct (represents_on s f t q) as (th & Hth & Hw); [done..|].
    rewrite (ktqueue_remove_spec q t th) by done. cbn [obind].
    eexists. split; [done|]. split_and!; [by eapply represents_take|by eapply Hdom|auto with sched].
Qed.

(** ** Properties of the scheduler *)

(** C5. The doubly linked, size-counted thread queues implement FIFO queues:
    every sequence of enqueue, dequeue and remove operations that the FIFO
    specification allows runs without a failed assertion, returns the threads
    the specification returns, oldest first, and ends in a state that
    represents the resulting FIFOs; nothing but threads and queues changes. *)
Theorem ktqueue_refines_fifo s f l rs f' :
  represents s f → fifo_steps (dom (threads s)) f l rs f' →
  ∃ s', exec_ops l s = Ret rs s' ∧ represents s' f' ∧ frame s s'.
Proof.
  intros Hr Hsteps. remember (dom (threads s)) as T eqn:HT. symmetry in HT.
  revert s Hr HT. induction Hsteps as [f|f o r f1 l rs f2 Hs Hss IH]; intros s Hr HT.
  - exists s. by split_and!.
  - destruct (fifo_step_refines T f o r f1 s) as (s1 & Hx & Hr1 & HT1 & Hf1); [done..|].
    destruct (IH s1 Hr1 HT1) as (s2 & Hx2 & Hr2 & Hf2). exists s2. split_and!; [|done|by transitivity s1].
    cbn [exec_ops]. unfold mbind, M_bind. rewrite Hx. cbn [obind]. by rewrite Hx2.
Qed.

(** [sched_broadcast_on] wakes exactly the threads that sleep on the
    queue: the queue becomes empty, its threads join the run queue in their
    order and behind those already runnable, each becomes runnable, and no
    other thread, queue or global changes.  The fuel of its loop, the length
    of the queue, always suffices. *)
Theorem sched_broadcast_on_wakes_all q s :
  sched_wf s → q ≠ kt_runq →
  ∃ s', sched_broadcast_on q s = Ret () s' ∧ sched_wf s' ∧ frame s s' ∧
    qlist s' q = [] ∧ qlist s' kt_runq = qlist s q ++ qlist s kt_runq ∧
    (∀ q', q' ≠ q → q' ≠ kt_runq → qlist s' q' = qlist s q') ∧
    (∀ u, threads s' !! u = (if decide (u ∈ qlist s q) then woken else id) <$> threads s !! u).
Proof. intros Hwf Hq. by apply (sched_broadcast_loop_spec q (qlist s q) s). Qed.

(** [sched_switch] waits, with interrupts enabled, for as many interrupts
    as it takes until the run queue is not empty, and then hands the
    processor to the thread that has been runnable for longest, which is
    taken off the run queue and becomes [curthr], its process becoming
    [curproc]; when the caller is switched to again, the interrupt level it
    had is restored. *)
Theorem sched_switch_dispatches `{Machine} k thr s cur l :
  (k <= intr_fuel)%nat →
  (∀ j, (j < k)%nat → qlist (after_intrs j 0 s) kt_runq = []) →
  let s1 := after_intrs k 0 s in
  sched_wf s1 → curthr s1 = Some cur → qlist s1 kt_runq = l ++ [thr] →
  ∃ t s2, threads s1 !! thr = Some t ∧
    sched_switch s = Yield s2 (λ s', Ret () (set_ipl (ipl s) s')) ∧
    sched_wf s2 ∧ curthr s2 = Some thr ∧ curproc s2 = kt_proc t ∧
    qlist s2 kt_runq = l ∧ threads s2 !! thr = Some (with_wchan None t) ∧
    (∀ q, q ≠ kt_runq → qlist s2 q = qlist s1 q).
Proof.
  intros Hk Hj s1 Hwf Hcur Hl. pose proof (wf_queues _ Hwf) as Hq.
  assert (thr ∈ qlist s1 kt_runq) as Hin by (rewrite Hl; set_solver).
  destruct (wf_dom s1 Hq thr kt_runq Hin) as [t Ht].
  assert (kt_wchan t = Some kt_runq) as Hw by (by eapply wf_chan).
  exists t, (switch_to thr t s1). split; [done|]. split.
  { apply (sched_switch_spec k thr t s cur); try done. fold s1. by rewrite Hl, last_snoc. }
  split_and!; try done.
  - apply (sched_wf_ext (move thr (with_wchan None t) s1)); [done..|].
    apply sched_wf_move; [done|]. pose proof (wf_threads _ Hwf _ _ Ht) as Hok.
    unfold thread_ok in *. rewrite Hw in Hok. simpl. by rewrite Hok.
  - change (qlist (switch_to thr t s1)) with (qlist (move thr (with_wchan None t) s1)).
    rewrite qlist_move, decide_False by done. simpl. rewrite Hl, filter_app, filter_cons_False by naive_solver.
    pose proof (wf_nodup _ Hq kt_runq) as Hn. rewrite Hl in Hn. apply NoDup_app in Hn as (_ & Hd & _).
    rewrite filter_absent, app_nil_r; [done|]. intros Hx. eapply Hd; eauto. by left.
  - apply lookup_move.
  - intros q Hne. change (qlist (switch_to thr t s1)) with (qlist (move thr (with_wchan None t) s1)).
    rewrite qlist_move, decide_False by done. simpl. apply filter_absent. intros Hx.
    apply (wf_chan _ Hq _ _ _ Ht) in Hx. congruence.
Qed.

(** [sched_cancel] never fails on a well-formed state and marks the
    thread as cancelled whatever its state.  A thread in a cancellable sleep
    is taken off the queue it sleeps on, whichever it is, and becomes the
    newest runnable thread; any other thread stays where it is.  No other
    thread changes. *)
Theorem sched_cancel_marks_and_wakes kthr t s :
  sched_wf s → threads s !! kthr = Some t →
  ∃ s' t', sched_cancel kthr s = Ret () s' ∧ sched_wf s' ∧ frame s s' ∧
    threads s' = <[kthr := t']> (threads s) ∧ kt_cancelled t' = true ∧
    (if decide (kt_state t = KT_SLEEP_CANCELLABLE)
     then kt_state t' = KT_RUN ∧ kt_wchan t' = Some kt_runq ∧
          qlist s' kt_runq = kthr :: qlist s kt_runq ∧
          (∀ q, q ≠ kt_runq → qlist s' q = filter (λ u, u ≠ kthr) (qlist s q))
     else t' = with_cancelled true t ∧ ∀ q, qlist s' q = qlist s q).
Proof.
  intros Hwf Ht. pose proof (sched_cancel_spec _ _ _ Hwf Ht) as Hc.
  pose proof (cancelled_wf _ _ _ Hwf Ht) as Hwf'.
  unfold cancelled in *. case_decide as Hst; eexists _, _; (split; [done|]); split_and!; try done.
  - rewrite qlist_move, decide_True by done. simpl. f_equal. apply filter_absent. intros Hin.
    apply (wf_chan _ (wf_queues _ Hwf) _ _ _ Ht) in Hin.
    pose proof (wf_threads _ Hwf _ _ Ht) as Hok. unfold thread_ok in Hok. rewrite Hin in Hok. congruence.
  - intros q Hq. rewrite qlist_move, decide_False by (simpl; congruence). done.
Qed.

(** ** A concrete machine

    Thread 1 runs, thread 2 is runnable, threads 3 (uncancellably) and 4
    (cancellably) sleep on a device queue; an interrupt wakes the oldest
    thread of that queue. *)
Module SchedEx.
Definition dev : qid := other_q 5.
Definition mk (st : kthread_state) (w : option qid) : kthread :=
  Kthread (context_setup 0 0 0 (Some 0) 0 None) (Some 0) 0 0 (Some 1%positive) false st w.

Definition st0 : kst :=
  Kst (list_to_map [(1%positive, mk KT_RUN None); (2%positive, mk KT_RUN (Some kt_runq));
                    (3%positive, mk KT_SLEEP (Some dev)); (4%positive, mk KT_SLEEP_CANCELLABLE (Some dev))])
      (list_to_map [(kt_runq, Ktqueue [2%positive] 1); (dev, Ktqueue [4%positive; 3%positive] 2)])
      ∅ ∅ (Some 1%positive) None IPL_LOW [] None 0.

(** The same with an empty run queue. *)
Definition st1 : kst :=
  Kst (list_to_map [(1%positive, mk KT_RUN None);
                    (3%positive, mk KT_SLEEP (Some dev)); (4%positive, mk KT_SLEEP_CANCELLABLE (Some dev))])
      (list_to_map [(dev, Ktqueue [4%positive; 3%positive] 2)])
      ∅ ∅ (Some 1%positive) None IPL_LOW [] None 0.

#[local] Instance device : Machine := {|
  intr_wait := λ _ s, match sched_wakeup_on dev s with Ret _ s' => s' | _ => s end;
  intr_fuel := 3 |}.

Lemma st0_wf : sched_wf st0.
Proof. apply sched_fin_wf. by_computation. Qed.

Lemma ktqueue_refines_fifo_witness :
  ∃ s', exec_ops [Enq dev 1%positive; Deq dev; Rem dev 4%positive; Deq dev; Deq dev] st0 =
      Ret [None; Some 3%positive; None; Some 1%positive; None] s' ∧ frame st0 s'.
Proof.
  destruct (ktqueue_refines_fifo st0 (λ q, rev (qlist st0 q))
    [Enq dev 1%positive; Deq dev; Rem dev 4%positive; Deq dev; Deq dev]
    [None; Some 3%positive; None; Some 1%positive; None]
    (upd (upd (upd (upd (λ q, rev (qlist st0 q)) dev [3%positive; 4%positive; 1%positive])
      dev [4%positive; 1%positive]) dev [1%positive]) dev [])) as (s' & Hx & _ & Hf).
  - split; [apply wf_queues, st0_wf|]. intros q. by rewrite rev_involutive.
  - eapply fifo_cons; [apply (fifo_enq _ _ dev); [by_computation|]|].
    { intros q Hq. cbv beta in Hq. rewrite elem_of_rev in Hq.
      destruct (wf_chan _ (wf_queues _ st0_wf) 1%positive (mk KT_RUN None) q) as [_ Hx]; [done|].
      by apply Hx in Hq. }
    eapply fifo_cons; [apply (fifo_deq _ _ dev 3%positive [4%positive; 1%positive]); vm_compute; reflexivity|].
    eapply fifo_cons; [apply (fifo_rem _ _ dev); by_computation|].
    eapply fifo_cons; [apply (fifo_deq _ _ dev 1%positive []); vm_compute; reflexivity|].
    eapply fifo_cons; [apply fifo_deq_empty; vm_compute; reflexivity|]. apply fifo_nil.
  - by exists s'.
Defined.

Lemma sched_broadcast_on_wakes_all_witness :
  ∃ s', sched_broadcast_on dev st0 = Ret () s' ∧
    qlist s' kt_runq = [4%positive; 3%positive; 2%positive].
Proof.
  destruct (sched_broadcast_on_wakes_all dev st0 st0_wf) as (s' & Hx & _ & _ & _ & Hq & _); [done|].
  exists s'. split; [done|]. rewrite Hq. reflexivity.
Defined.

(** One interrupt is needed before a thread can run. *)
Lemma sched_switch_dispatches_witness :
  ∃ s2, sched_switch st1 = Yield s2 (λ s', Ret () (set_ipl IPL_LOW s')) ∧
    curthr s2 = Some 3%positive.
Proof.
  destruct (sched_switch_dispatches 1 3%positive st1 1%positive []) as (t & s2 & _ & Hx & _ & Hc & _).
  - vm_compute. auto.
  - intros [|j] Hj; [reflexivity|lia].
  - apply sched_fin_wf. by_computation.
  - reflexivity.
  - reflexivity.
  - by exists s2.
Defined.

Lemma sched_cancel_marks_and_wakes_witness :
  ∃ s', sched_cancel 4%positive st0 = Ret () s' ∧
    qlist s' kt_runq = [4%positive; 2%positive] ∧ qlist s' dev = [3%positive].
Proof.
  destruct (sched_cancel_marks_and_wakes 4%positive (mk KT_SLEEP_CANCELLABLE (Some dev)) st0)
    as (s' & t' & Hx & _ & _ & _ & _ & Hc); [apply st0_wf|reflexivity|].
  destruct Hc as (_ & _ & Hr & Hd). exists s'. split; [done|]. rewrite Hr, (Hd dev) by done.
  split; reflexivity.
Defined.
End SchedEx.
