(* ===== verification/Kmutex.v ===== *)
(** * Mutexes (kmutex.c)

    Blocking and cancellable locking, and unlocking with direct hand-over of
    the mutex to the oldest waiter. *)

From S2P Require Import Prelude Kstate Sched.
Local Open Scope Z_scope.

Definition set_holder (m : mid) (h : option tid) : K () :=
  modify (set_mutexes (insert m h)).

Definition kmutex_init (mtx : mid) : K () :=
  sched_queue_init (km_waitq mtx);;
  set_holder mtx None.

Definition kmutex_unlock (mtx : mid) : K () :=
  s ← get;
  KASSERT (bool_decide (is_Some (curthr s)) && bool_decide (curthr s = km_holder s mtx))
    "curthr && (curthr == mtx->km_holder)";;
  e ← sched_queue_empty (km_waitq mtx);
  if e : bool then
    set_holder mtx None;;
    s' ← get;
    KASSERT (bool_decide (curthr s' ≠ km_holder s' mtx)) "curthr != mtx->km_holder"
  else
    h ← sched_wakeup_on (km_waitq mtx);
    set_holder mtx h;;
    s' ← get;
    KASSERT (bool_decide (curthr s' ≠ km_holder s' mtx)) "curthr != mtx->km_holder".

Section lock.
Context `{Machine}.

Definition kmutex_lock (mtx : mid) : K () :=
  s ← get;
  KASSERT (bool_decide (is_Some (curthr s)) && bool_decide (curthr s ≠ km_holder s mtx))
    "curthr && (curthr != mtx->km_holder)";;
  if bool_decide (km_holder s mtx ≠ None)
  then sched_sleep_on (km_waitq mtx)
  else set_holder mtx (curthr s).

Definition kmutex_lock_cancellable `{Errno} (mtx : mid) : K Z :=
  s ← get;
  KASSERT (bool_decide (is_Some (curthr s)) && bool_decide (curthr s ≠ km_holder s mtx))
    "curthr && (curthr != mtx->km_holder)";;
  match km_holder s mtx with
  | Some h =>
      th ← thread_at h;
      (if kt_cancelled th then kmutex_unlock mtx else mret ());;
      sched_cancellable_sleep_on (km_waitq mtx)
  | None =>
      set_holder mtx (curthr s);;
      mret 0
  end.
End lock.

#[global] Arguments kmutex_lock : simpl never.
#[global] Arguments kmutex_unlock : simpl never.

(** ** Invariant

    A free mutex has no waiters (no wake-up is ever lost), and the holder of
    a mutex does not wait for it. *)
Definition mutex_wf (s : kst) : Prop :=
  ∀ m, match km_holder s m with
       | None => qlist s (km_waitq m) = []
       | Some h => h ∉ qlist s (km_waitq m)
       end.

Record Inv (s : kst) : Prop := {
  inv_sched : sched_wf s;
  inv_mutex : mutex_wf s;
}.

(** Thread [t] is the one executing. *)
Record running (s : kst) (t : tid) : Prop := {
  run_cur : curthr s = Some t;
  run_thread : ∃ th, threads s !! t = Some th ∧ kt_wchan th = None ∧
                     kt_state th = KT_RUN ∧ curproc s = kt_proc th;
}.

(** Thread [t] sleeps, uncancellably, on the queue of mutex [m]. *)
Definition asleep_on (s : kst) (m : mid) (t : tid) : Prop :=
  t ∈ qlist s (km_waitq m) ∧ ∃ th, threads s !! t = Some th ∧ kt_state th = KT_SLEEP.

(** How the rest of the system may change what thread [u] relies on: it
    neither takes a mutex away from [u] nor wakes [u] from a mutex queue
    other than by giving it the mutex; it gives [u] only mutexes [u] waits
    for, and does not make [u] wait for one. *)
Record evolves1 (u : tid) (s s' : kst) (m : mid) : Prop := {
  ev_holder : km_holder s m = Some u → km_holder s' m = Some u;
  ev_asleep : asleep_on s m u → asleep_on s' m u ∨ km_holder s' m = Some u;
  ev_given : km_holder s' m = Some u → km_holder s m = Some u ∨ u ∈ qlist s (km_waitq m);
  ev_queued : u ∈ qlist s' (km_waitq m) → u ∈ qlist s (km_waitq m);
}.

Definition evolves (u : tid) (s s' : kst) : Prop := ∀ m, evolves1 u s s' m.

Definition keeps (t : tid) (s s' : kst) : Prop := ∀ u, u ≠ t → evolves u s s'.

(** Rely and guarantee of thread [t]. *)
Definition Rely (t : tid) (s s' : kst) : Prop :=
  Inv s' ∧ running s' t ∧ evolves t s s'.
Definition Guar (t : tid) (s s' : kst) : Prop :=
  Inv s' ∧ (∃ u, running s' u) ∧ keeps t s s'.

#[global] Instance evolves_refl u : Reflexive (evolves u).
Proof. intros s m. split; auto. Qed.
#[global] Instance evolves_trans u : Transitive (evolves u).
Proof.
  intros s1 s2 s3 H1 H2 m. destruct (H1 m) as [A1 B1 C1 D1], (H2 m) as [A2 B2 C2 D2].
  split; naive_solver.
Qed.
#[global] Instance keeps_refl t : Reflexive (keeps t).
Proof. intros s u _. reflexivity. Qed.
#[global] Instance keeps_trans t : Transitive (keeps t).
Proof. intros s1 s2 s3 H1 H2 u Hu. transitivity s2; auto. Qed.

(** Interrupt handlers wake threads that sleep on device queues and do
    nothing else to threads, mutexes and the other queues. *)
Class IntrOk `{Machine} : Prop := intr_ok : ∀ n s, sched_wf s →
  sched_wf (intr_wait n s) ∧ frame s (intr_wait n s) ∧
  (∀ m, qlist (intr_wait n s) (km_waitq m) = qlist s (km_waitq m)) ∧
  (∀ p, qlist (intr_wait n s) (p_wait p) = qlist s (p_wait p)) ∧
  (∀ t th, threads s !! t = Some th →
     (∃ q, kt_wchan th = Some (other_q q)) ∨ threads (intr_wait n s) !! t = Some th).

Lemma running_not_asleep s t m : Inv s → running s t → ¬ asleep_on s m t.
Proof.
  intros Hinv [_ (th & Ht & Hw & _)] [Hin _].
  apply (wf_chan s (wf_queues s (inv_sched s Hinv)) _ _ _ Ht) in Hin. congruence.
Qed.

Lemma running_absent s t q : Inv s → running s t → t ∉ qlist s q.
Proof.
  intros Hinv [_ (th & Ht & Hw & _)]. eapply wchan_none_absent; eauto using wf_queues, inv_sched.
Qed.

(** Updating [km_holder]. *)
Lemma km_holder_insert s m h m' :
  km_holder (set_mutexes (insert m h) s) m' = if decide (m = m') then h else km_holder s m'.
Proof. unfold km_holder; simpl. rewrite lookup_insert. by case_decide. Qed.

Definition mutex_ok (s : kst) (m : mid) (h : option tid) : Prop :=
  match h with
  | None => qlist s (km_waitq m) = []
  | Some h => h ∉ qlist s (km_waitq m)
  end.

Lemma Inv_set_holder s m h :
  sched_wf s → (∀ m', m' ≠ m → mutex_ok s m' (km_holder s m')) → mutex_ok s m h →
  Inv (set_mutexes (insert m h) s).
Proof.
  intros Hs Ho Hm. split; [by apply (sched_wf_ext s)|]. intros m'.
  rewrite km_holder_insert. change (qlist (set_mutexes _ _)) with (qlist s).
  case_decide as Heq; [subst; apply Hm|by apply Ho].
Qed.

Lemma evolves_set_holder u s m h :
  (km_holder s m = Some u → h = Some u) →
  (h = Some u → km_holder s m = Some u ∨ u ∈ qlist s (km_waitq m)) →
  evolves u s (set_mutexes (insert m h) s).
Proof.
  intros Hm Hg m'. split; rewrite ?km_holder_insert; try by left.
  - case_decide; subst; auto.
  - case_decide; subst; auto.
  - done.
Qed.

(** The invariant reads only the threads, the queues and the mutexes. *)
Definition same_core (s s' : kst) : Prop :=
  threads s' = threads s ∧ queues s' = queues s ∧ mutexes s' = mutexes s.

Lemma same_core_qlist s s' q : same_core s s' → qlist s' q = qlist s q.
Proof. intros (_ & Hq & _). unfold qlist, queue. by rewrite Hq. Qed.

Lemma same_core_holder s s' m : same_core s s' → km_holder s' m = km_holder s m.
Proof. intros (_ & _ & Hm). unfold km_holder. by rewrite Hm. Qed.

Lemma Inv_core s s' : same_core s s' → Inv s → Inv s'.
Proof.
  intros Hc [Hs Hm]. split; [by eapply sched_wf_ext, Hs; apply Hc|]. intros m.
  rewrite (same_core_holder _ _ _ Hc), (same_core_qlist _ _ _ Hc). apply Hm.
Qed.

Lemma evolves_core u s s' : same_core s s' → evolves u s s'.
Proof.
  intros Hc m. pose proof (same_core_holder _ _ m Hc) as Hh.
  pose proof (same_core_qlist _ _ (km_waitq m) Hc) as Hq. pose proof Hc as (Ht & _).
  split; unfold asleep_on; rewrite ?Hh, ?Hq, ?Ht; auto.
Qed.

(** Changing one thread [thr] that neither is nor becomes a sleeper of a
    mutex queue. *)
Lemma evolves_move_other u thr t s :
  u ≠ thr → evolves u s (move thr t s).
Proof.
  intros Hne m.
  assert (u ∈ qlist (move thr t s) (km_waitq m) ↔ u ∈ qlist s (km_waitq m)) as Hq.
  { rewrite qlist_move, elem_of_app, list_elem_of_filter. case_decide; set_solver. }
  split; auto; [|by rewrite Hq].
  intros [Hin Hst]. left. split; [by rewrite Hq|by rewrite lookup_move_ne].
Qed.

Lemma mutex_queue_move thr t s m :
  thr ∉ qlist s (km_waitq m) → kt_wchan t ≠ Some (km_waitq m) →
  qlist (move thr t s) (km_waitq m) = qlist s (km_waitq m).
Proof. intros Hin Hw. rewrite qlist_move, decide_False by done. by rewrite filter_absent. Qed.

Lemma switch_to_core thr t s :
  same_core (move thr (with_wchan None t) s) (switch_to thr t s).
Proof. by repeat split. Qed.

Section switch_rg.
Context `{IntrOk}.

Lemma intr_Inv n s : Inv s → Inv (intr_wait n s).
Proof.
  intros [Hs Hm]. destruct (intr_ok n s Hs) as (Hs' & Hf & Hq & _). split; [done|].
  intros m. unfold km_holder. rewrite (fr_mutexes _ _ Hf), Hq. apply Hm.
Qed.

Lemma intr_evolves n s u : Inv s → evolves u s (intr_wait n s).
Proof.
  intros [Hs _]. destruct (intr_ok n s Hs) as (Hs' & Hf & Hq & _ & Ht). intros m.
  assert (km_holder (intr_wait n s) m = km_holder s m) as Hh.
  { unfold km_holder. by rewrite (fr_mutexes _ _ Hf). }
  split; rewrite ?Hh, ?Hq; auto.
  intros [Hin (th & Hth & Hst)]. left. split; [by rewrite Hq|].
  destruct (Ht _ _ Hth) as [[q Hw]|]; [|eauto].
  apply (wf_chan s (wf_queues s Hs) _ _ _ Hth) in Hin. congruence.
Qed.

(** The wait for a runnable thread preserves the invariant and everything
    any thread relies on. *)
Lemma sched_switch_wait_inv fuel : ∀ n s, Inv s →
  sched_switch_wait fuel n s = Idle ∨
  ∃ s1, sched_switch_wait fuel n s = Ret () s1 ∧ qlist s1 kt_runq ≠ [] ∧
    Inv s1 ∧ curthr s1 = curthr s ∧ (∀ u, evolves u s s1).
Proof.
  induction fuel as [|fuel IH]; intros n s Hinv;
    cbn [sched_switch_wait]; unfold intr_setipl; msimpl;
    rewrite sched_queue_empty_spec; cbn [obind]; case_bool_decide as Hq.
  - by left.
  - right. eexists. split; [done|]. split; [done|]. split_and!; [|done|].
    + by apply (Inv_core s).
    + intros u. by apply evolves_core.
  - cbn [obind]. set (s' := set_ipl IPL_LOW _).
    assert (same_core s s') as Hc by done.
    assert (Inv s') as Hinv' by (by apply (Inv_core s)).
    destruct (IH (S n) (intr_wait n s')) as [Hr|(s1 & Hr & Hne & Hi & Hcur & Hev)].
    { by apply intr_Inv. }
    + by left.
    + right. exists s1. split_and!; auto.
      * rewrite Hcur. destruct (intr_ok n s') as (_ & Hf & _); [by apply inv_sched|].
        rewrite (fr_curthr _ _ Hf). done.
      * intros u. transitivity s'; [by apply evolves_core|].
        transitivity (intr_wait n s'); [by apply intr_evolves|auto].
  - right. eexists. split; [done|]. split; [done|]. split_and!; [|done|].
    + by apply (Inv_core s).
    + intros u. by apply evolves_core.
Qed.

(** Giving the processor away. *)
Lemma sched_switch_rg t s0 s Q :
  Inv s → curthr s = Some t → keeps t s0 s →
  (∀ s', Rely t s s' → Q s' () (set_ipl (ipl s) s')) →
  rg (Rely t) (Guar t) Q s0 (sched_switch s).
Proof.
  intros Hinv Hcur Hkeep HQ. unfold sched_switch, intr_setipl, intr_getipl. msimpl.
  destruct (sched_switch_wait_inv intr_fuel 0 s Hinv)
    as [->|(s1 & -> & Hne & Hinv1 & Hcur1 & Hev)]; [constructor|]. cbn [obind].
  set (s2 := set_ipl IPL_HIGH s1).
  assert (Inv s2) as Hinv2 by (by apply (Inv_core s1)).
  pose proof (wf_queues _ (inv_sched _ Hinv2)) as Hwfq.
  destruct (last (qlist s2 kt_runq)) as [thr|] eqn:Hl; [|by apply last_None in Hl].
  assert (thr ∈ qlist s2 kt_runq) as Hin by (by apply last_Some_elem_of).
  destruct (wf_dom _ Hwfq _ _ Hin) as [th Hth].
  rewrite (ktqueue_dequeue_spec kt_runq thr th) by done. cbn [obind].
  unfold cur_thread, thread_at. msimpl.
  change (curthr (move _ _ _)) with (curthr s1). rewrite Hcur1, Hcur. cbn [obind].
  rewrite lookup_move. unfold context_switch. cbn [obind].
  change (set_curproc _ _) with (switch_to thr th s1).
  assert (kt_wchan th = Some kt_runq) as Hw by (by eapply wf_chan).
  assert (kt_state th = KT_RUN) as Hst.
  { pose proof (wf_threads _ (inv_sched _ Hinv2) _ _ Hth) as Hok.
    unfold thread_ok in Hok. by rewrite Hw in Hok. }
  assert (∀ u, evolves u s (switch_to thr th s1)) as Hevo.
  { intros u. transitivity s2; [transitivity s1; [done|by apply evolves_core]|].
    transitivity (move thr (with_wchan None th) s2); [|by apply evolves_core].
    destruct (decide (u = thr)) as [->|]; [|by apply evolves_move_other].
    intros m. split; auto.
    - intros [Hq _]. apply (wf_chan _ Hwfq _ _ _ Hth) in Hq. congruence.
    - rewrite qlist_move, decide_False by done. simpl. by intros [_ ?]%list_elem_of_filter. }
  constructor.
  - split_and!.
    + apply (Inv_core (move thr (with_wchan None th) s2)); [done|]. split.
      * apply sched_wf_move; [by apply inv_sched|]. unfold thread_ok; simpl. by rewrite Hst.
      * intros m. change (km_holder (move _ _ _) m) with (km_holder s2 m).
        rewrite mutex_queue_move; [apply (inv_mutex _ Hinv2)| |done].
        intros Hq. apply (wf_chan _ Hwfq _ _ _ Hth) in Hq. congruence.
    + exists thr. split; [done|]. exists (with_wchan None th). split_and!; try done.
      apply lookup_move.
    + transitivity s; [done|]. intros u _. auto.
  - intros s' (Hi & Hr & He). constructor. apply HQ.
    split_and!; [done..|]. transitivity (switch_to thr th s1); auto.
Qed.
End switch_rg.

(** The thread executing goes on executing when another one is moved. *)
Lemma running_move s t thr th :
  running s t → t ≠ thr → running (move thr th s) t.
Proof.
  intros [Hc Hth] Hne. split; [done|]. by rewrite lookup_move_ne.
Qed.

Lemma running_ext s s' t :
  threads s' = threads s → curthr s' = curthr s → curproc s' = curproc s →
  running s t → running s' t.
Proof.
  intros Ht Hc Hp [Hcur Hth]. split; [congruence|]. by rewrite Ht, Hp.
Qed.

(** What [kmutex_unlock] establishes: the mutex goes to the oldest waiter,
    which is put on the run queue, or becomes free when there is none. *)
Record unlocked (m : mid) (t : tid) (s s' : kst) : Prop := {
  ul_inv : Inv s';
  ul_running : running s' t;
  ul_keeps : keeps t s s';
  ul_holder : km_holder s' m = last (qlist s (km_waitq m));
  ul_others : ∀ m', m' ≠ m → km_holder s' m' = km_holder s m' ∧
                    qlist s' (km_waitq m') = qlist s (km_waitq m');
  ul_waiters : qlist s (km_waitq m) =
    qlist s' (km_waitq m) ++ match km_holder s' m with Some h => [h] | None => [] end;
  ul_runq : qlist s' kt_runq =
    match km_holder s' m with Some h => [h] | None => [] end ++ qlist s kt_runq;
  ul_ipl : ipl s' = ipl s;
}.

Lemma kmutex_unlock_free m t s :
  Inv s → running s t → km_holder s m = Some t → qlist s (km_waitq m) = [] →
  ∃ s', kmutex_unlock m s = Ret () s' ∧ unlocked m t s s'.
Proof.
  intros Hinv Hrun Hh Hq. exists (set_mutexes (insert m None) s). split.
  - unfold kmutex_unlock, set_holder. msimpl.
    rewrite (run_cur _ _ Hrun), Hh, !bool_decide_eq_true_2 by eauto. cbn [andb obind].
    rewrite sched_queue_empty_spec. cbn [obind]. rewrite bool_decide_eq_true_2 by done. cbn [obind].
    rewrite km_holder_insert, decide_True by done. simpl curthr. rewrite (run_cur _ _ Hrun).
    by rewrite bool_decide_eq_true_2.
  - split; rewrite ?km_holder_insert, ?(decide_True _ _ (eq_refl m)), ?Hq; auto.
    + apply Inv_set_holder; [apply Hinv|intros; apply Hinv|done].
    + destruct Hrun; by split.
    + intros u Hu. apply evolves_set_holder; congruence.
    + intros m' Hne. rewrite km_holder_insert, decide_False by done. done.
    + change (qlist (set_mutexes _ _)) with (qlist s). by rewrite Hq.
Qed.

Lemma kmutex_unlock_handover m t s l thr :
  Inv s → running s t → km_holder s m = Some t → qlist s (km_waitq m) = l ++ [thr] →
  ∃ s', kmutex_unlock m s = Ret () s' ∧ unlocked m t s s'.
Proof.
  intros Hinv Hrun Hh Hq. pose proof (inv_sched s Hinv) as Hs.
  assert (last (qlist s (km_waitq m)) = Some thr) as Hl by (by rewrite Hq, last_snoc).
  destruct (wf_dom s (wf_queues s Hs) thr (km_waitq m)) as [th Hth]; [rewrite Hq; set_solver|].
  assert (t ≠ thr) as Hne.
  { intros <-. pose proof (inv_mutex s Hinv m) as Hm. rewrite Hh, Hq in Hm. set_solver. }
  destruct (qlist_wake (km_waitq m) thr th s l) as (Q1 & Q2 & Q3); auto with sched.
  set (s1 := move thr (woken th) s) in *.
  exists (set_mutexes (insert m (Some thr)) s1). split.
  - unfold kmutex_unlock, set_holder. msimpl.
    rewrite (run_cur _ _ Hrun), Hh, !bool_decide_eq_true_2 by eauto. cbn [andb obind].
    rewrite sched_queue_empty_spec. cbn [obind].
    rewrite bool_decide_eq_false_2 by (rewrite Hq; by destruct l). cbn [obind].
    rewrite (sched_wakeup_on_spec _ thr th) by done. cbn [obind]. fold s1.
    rewrite km_holder_insert, decide_True by done.
    change (curthr (set_mutexes _ s1)) with (curthr s). rewrite (run_cur _ _ Hrun).
    rewrite bool_decide_eq_true_2 by congruence. done.
  - assert (∀ m', m' ≠ m → qlist s1 (km_waitq m') = qlist s (km_waitq m')) as Qo.
    { intros m' Hm'. apply Q3; congruence. }
    split; rewrite ?km_holder_insert, ?(decide_True _ _ (eq_refl m)), ?Hl, ?Hq; auto.
    + apply Inv_set_holder; [unfold s1; auto with sched| |].
      * intros m' Hm'. unfold mutex_ok. rewrite Qo by done.
        apply (inv_mutex s Hinv m').
      * unfold mutex_ok. rewrite Q1. pose proof (wf_nodup s (wf_queues s Hs) (km_waitq m)) as Hn.
        rewrite Hq in Hn. apply NoDup_app in Hn as (_ & Hd & _). set_solver.
    + apply (running_ext s1); [done..|by apply running_move].
    + intros u Hu. destruct (decide (u = thr)) as [->|Hut].
      * intros m'.
        assert (kt_wchan th = Some (km_waitq m)) as Hw.
        { apply (wf_chan s (wf_queues s Hs) _ _ _ Hth). rewrite Hq. set_solver. }
        split; rewrite ?km_holder_insert.
        -- by case_decide.
        -- intros [Hin _]. right. apply (wf_chan s (wf_queues s Hs) _ _ _ Hth) in Hin.
           rewrite decide_True; [done|congruence].
        -- case_decide; [|by left]. intros _. right. subst m'. rewrite Hq. set_solver.
        -- destruct (decide (m' = m)) as [->|Hmm].
           ++ change (qlist (set_mutexes _ s1)) with (qlist s1). rewrite Q1, Hq. set_solver.
           ++ change (qlist (set_mutexes _ s1)) with (qlist s1). by rewrite Qo.
      * transitivity s1; [by apply evolves_move_other|].
        apply evolves_set_holder; change (km_holder s1 m) with (km_holder s m); congruence.
    + intros m' Hm'. rewrite km_holder_insert, decide_False by done.
      split; [done|apply (Qo m' Hm')].
    + change (qlist (set_mutexes _ _)) with (qlist s1). by rewrite Q1.
Qed.

Lemma kmutex_unlock_spec m t s :
  Inv s → running s t → km_holder s m = Some t →
  ∃ s', kmutex_unlock m s = Ret () s' ∧ unlocked m t s s'.
Proof.
  intros Hinv Hrun Hh. destruct (qlist s (km_waitq m)) as [|thr l _] eqn:Hq using rev_ind.
  - by apply kmutex_unlock_free.
  - by eapply kmutex_unlock_handover.
Qed.

(** What a successful lock establishes for the calling thread [t]. *)
Record locked (m : mid) (t : tid) (s : kst) (s0 s' : kst) : Prop := {
  lk_inv : Inv s';
  lk_running : running s' t;
  lk_holder : km_holder s' m = Some t;
  lk_keeps : keeps t s0 s';
  lk_retains : ∀ m', km_holder s m' = Some t → km_holder s' m' = Some t;
  lk_only : ∀ m', km_holder s' m' = Some t → m' = m ∨ km_holder s m' = Some t;
  lk_ipl : ipl s' = ipl s;
}.

Lemma set_ipl_core l s : same_core s (set_ipl l s).
Proof. done. Qed.

(** Falling asleep on a mutex that another thread holds. *)
Lemma mutex_sleep_inv m t th h s st :
  Inv s → running s t → threads s !! t = Some th → km_holder s m = Some h → h ≠ t →
  st = KT_SLEEP ∨ st = KT_SLEEP_CANCELLABLE →
  let s1 := move t (with_wchan (Some (km_waitq m)) (with_kstate st th)) s in
  Inv s1 ∧ keeps t s s1.
Proof.
  intros Hinv Hrun Hth Hh Hne Hst s1. split_and!.
  - split; [apply sched_wf_move; [apply Hinv|by destruct Hst; subst; [left|right]]|].
    intros m'. change (km_holder s1 m') with (km_holder s m').
    pose proof (inv_mutex s Hinv m') as Hm. unfold s1. rewrite qlist_move.
    rewrite (filter_absent _ _ (running_absent s t (km_waitq m') Hinv Hrun)). simpl.
    case_decide as Hc; [|done]. simplify_eq. rewrite Hh in *. set_solver.
  - intros u Hu. by apply evolves_move_other.
Qed.

Section lock_rg.
Context `{IntrOk}.

Lemma kmutex_lock_rg m t s0 s :
  Inv s → running s t → keeps t s0 s → km_holder s m ≠ Some t →
  rg (Rely t) (Guar t) (λ s0' _ s', locked m t s s0' s') s0 (kmutex_lock m s).
Proof.
  intros Hinv Hrun Hk Hh. unfold kmutex_lock, set_holder. msimpl.
  rewrite (run_cur _ _ Hrun). rewrite (bool_decide_eq_true_2 (is_Some _)) by eauto.
  rewrite (bool_decide_eq_true_2 (Some t ≠ _)) by congruence. cbn [andb obind].
  destruct (km_holder s m) as [h|] eqn:Hhm.
  - rewrite bool_decide_eq_true_2 by done.
    destruct (run_thread _ _ Hrun) as (th & Hth & Hw & Hst & Hp).
    unfold sched_sleep_on, cur_thread, upd_thread. msimpl. rewrite (run_cur _ _ Hrun). cbn [obind].
    rewrite Hth. cbn [obind].
    pose proof (wf_queues _ (inv_sched _ Hinv)) as Hwfq.
    rewrite (upd_thread_move t th) by done.
    rewrite (ktqueue_enqueue_spec _ _ (with_kstate KT_SLEEP th))
      by (try apply queues_wf_move; try apply lookup_move; done).
    cbn [obind]. rewrite move_move by done.
    destruct (mutex_sleep_inv m t th h s KT_SLEEP) as (I1 & K1); auto; [congruence|].
    set (s1 := move t _ s) in *.
    apply sched_switch_rg; [done|apply (run_cur _ _ Hrun)|by transitivity s|].
    intros s' (Hi & Hr & He). pose proof (set_ipl_core (ipl s1) s') as Hc.
    assert (km_holder s' m = Some t) as Hgot.
    { destruct (ev_asleep _ _ _ _ (He m)) as [Ha|]; [|by destruct (running_not_asleep s' t m Hi Hr)|done].
      split; [unfold s1; rewrite qlist_move, decide_True by done; set_solver|].
      eexists. split; [apply lookup_move|done]. }
    split; auto.
    + by apply (Inv_core s').
    + by apply (running_ext s').
    + intros u _. by apply evolves_core.
    + intros m' Hm'. apply (ev_holder _ _ _ _ (He m')). done.
    + intros m' Hm'. destruct (ev_given _ _ _ _ (He m') Hm') as [|Hin]; [by right|left].
      destruct (decide (m' = m)) as [|Hmm]; [done|]. unfold s1 in Hin.
      rewrite mutex_queue_move in Hin by (simpl; congruence || by apply running_absent).
      by destruct (running_absent s t (km_waitq m') Hinv Hrun).
  - rewrite bool_decide_eq_false_2 by naive_solver. constructor.
    pose proof (inv_mutex s Hinv m) as Hm. rewrite Hhm in Hm.
    split; try done.
    + apply Inv_set_holder; [apply Hinv|intros; apply Hinv|]. unfold mutex_ok. rewrite Hm. set_solver.
    + by apply (running_ext s).
    + by rewrite km_holder_insert, decide_True.
    + transitivity s; [done|]. intros u Hu. apply evolves_set_holder; congruence.
    + intros m' Hm'. rewrite km_holder_insert. by case_decide.
    + intros m'. rewrite km_holder_insert. case_decide; auto.
Qed.
End lock_rg.

(** Between two operations thread [t] runs and holds exactly the mutexes in
    [L]; since it was last switched to, in [s0], it has respected the other
    threads. *)
Record ready (t : tid) (L : gset mid) (s0 s : kst) : Prop := {
  rd_inv : Inv s;
  rd_running : running s t;
  rd_keeps : keeps t s0 s;
  rd_holds : ∀ m, km_holder s m = Some t ↔ m ∈ L;
}.

(** A critical section: the body starts while the caller holds the mutex and
    must end so; the whole starts and ends without it, and every intermediate
    hand-over of the processor respects the other threads. *)
Section critical.
Context `{IntrOk}.

Definition critical (m : mid) (body : K ()) : K () :=
  kmutex_lock m;; body;; kmutex_unlock m.

Lemma critical_rg m t L body s0 s :
  m ∉ L →
  (∀ s1 s2, ready t ({[m]} ∪ L) s1 s2 →
    rg (Rely t) (Guar t) (λ s1' _ s3, ready t ({[m]} ∪ L) s1' s3) s1 (body s2)) →
  ready t L s0 s →
  rg (Rely t) (Guar t) (λ s0' _ s', ready t L s0' s') s0 (critical m body s).
Proof.
  intros Hm Hbody [Hinv Hrun Hk Hh]. unfold critical. rewrite bind_unfold.
  eapply rg_bind; [apply kmutex_lock_rg; auto; by rewrite Hh|].
  intros s1 _ s2 [Hi Hr Hho Hke Hret Honly _]. simpl. rewrite bind_unfold.
  eapply rg_bind; [apply Hbody; split; try done|].
  { intros m'. rewrite elem_of_union, elem_of_singleton, <- Hh. naive_solver. }
  intros s1' _ s3 [Hi3 Hr3 Hk3 Hh3]. simpl.
  destruct (kmutex_unlock_spec m t s3) as (s4 & -> & Hu); auto; [by apply Hh3; set_solver|].
  constructor. split; [apply Hu..| |].
  - transitivity s3; [done|apply Hu].
  - intros m'. destruct (decide (m' = m)) as [->|Hne].
    + split; [|done]. rewrite (ul_holder _ _ _ _ Hu). intros Hl%last_Some_elem_of.
      by destruct (running_absent s3 t (km_waitq m) Hi3 Hr3).
    + destruct (ul_others _ _ _ _ Hu m' Hne) as [-> _]. rewrite Hh3. set_solver.
Qed.
End critical.

(** ** Cancellable locking *)

Section cancellable.
Context `{Machine} `{Errno}.

Lemma cancellable_free m t s :
  running s t → km_holder s m = None →
  kmutex_lock_cancellable m s = Ret 0 (set_mutexes (insert m (Some t)) s).
Proof.
  intros Hrun Hh. unfold kmutex_lock_cancellable, set_holder. msimpl.
  rewrite (run_cur _ _ Hrun), Hh. rewrite (bool_decide_eq_true_2 (is_Some _)) by eauto.
  by rewrite bool_decide_eq_true_2.
Qed.

(** The assertion of [kmutex_unlock] fails when the holder was cancelled. *)
Lemma cancellable_cancelled_holder m t h th s :
  running s t → km_holder s m = Some h → h ≠ t →
  threads s !! h = Some th → kt_cancelled th = true →
  kmutex_lock_cancellable m s = Panic "curthr && (curthr == mtx->km_holder)".
Proof.
  intros Hrun Hh Hne Hth Hc. unfold kmutex_lock_cancellable, thread_at. msimpl.
  rewrite (run_cur _ _ Hrun), Hh. rewrite (bool_decide_eq_true_2 (is_Some _)) by eauto.
  rewrite bool_decide_eq_true_2 by congruence. cbn [andb obind]. rewrite Hth. cbn [obind].
  rewrite Hc. unfold kmutex_unlock. msimpl. rewrite (run_cur _ _ Hrun), Hh.
  rewrite (bool_decide_eq_true_2 (is_Some _)) by eauto.
  rewrite bool_decide_eq_false_2 by congruence. done.
Qed.

Lemma cancellable_already_cancelled m t th h thh s :
  running s t → km_holder s m = Some h → h ≠ t →
  threads s !! h = Some thh → kt_cancelled thh = false →
  threads s !! t = Some th → kt_cancelled th = true →
  kmutex_lock_cancellable m s = Ret (- EINTR) s.
Proof.
  intros Hrun Hh Hne Hthh Hch Hth Hc.
  unfold kmutex_lock_cancellable, sched_cancellable_sleep_on, cur_thread, thread_at. msimpl.
  rewrite (run_cur _ _ Hrun), Hh. rewrite (bool_decide_eq_true_2 (is_Some _)) by eauto.
  rewrite bool_decide_eq_true_2 by congruence. cbn [andb obind]. rewrite Hthh. cbn [obind].
  rewrite Hch. cbn [obind]. rewrite (run_cur _ _ Hrun). cbn [obind]. rewrite Hth. cbn [obind].
  by rewrite Hc.
Qed.

(** Otherwise the caller sleeps on the mutex queue, and the value returned
    after it runs again depends on its own cancelled flag alone. *)
Lemma cancellable_sleep m t th h thh s k u tu :
  Inv s → running s t → km_holder s m = Some h → h ≠ t →
  threads s !! h = Some thh → kt_cancelled thh = false →
  threads s !! t = Some th → kt_cancelled th = false →
  let s1 := move t (with_wchan (Some (km_waitq m)) (with_kstate KT_SLEEP_CANCELLABLE th)) s in
  (k <= intr_fuel)%nat →
  (∀ j, (j < k)%nat → qlist (after_intrs j 0 s1) kt_runq = []) →
  let s2 := after_intrs k 0 s1 in
  queues_wf s2 → is_Some (curthr s2) →
  last (qlist s2 kt_runq) = Some u → threads s2 !! u = Some tu →
  ∃ resume, kmutex_lock_cancellable m s = Yield (switch_to u tu s2) resume ∧
    ∀ s' th', curthr s' = Some t → threads s' !! t = Some th' →
      resume s' = Ret (if kt_cancelled th' then - EINTR else 0) (set_ipl (ipl s) s').
Proof.
  intros Hinv Hrun Hh Hne Hthh Hch Hth Hc s1 Hk Hj s2 Hwf2 [c Hcur] Hl Hu.
  destruct (run_thread _ _ Hrun) as (th0 & Hth0 & Hw & _). simplify_eq.
  eexists. split.
  - unfold kmutex_lock_cancellable, sched_cancellable_sleep_on, cur_thread, thread_at, upd_thread.
    msimpl.
    rewrite (run_cur _ _ Hrun), Hh. rewrite (bool_decide_eq_true_2 (is_Some _)) by eauto.
    rewrite bool_decide_eq_true_2 by congruence. cbn [andb obind]. rewrite Hthh. cbn [obind].
    rewrite Hch. cbn [obind]. rewrite (run_cur _ _ Hrun). cbn [obind]. rewrite Hth. cbn [obind].
    rewrite Hc. cbn [obind]. rewrite Hth. cbn [obind].
    pose proof (wf_queues _ (inv_sched _ Hinv)) as Hwfq.
    rewrite (upd_thread_move t th) by done.
    rewrite (ktqueue_enqueue_spec _ _ (with_kstate KT_SLEEP_CANCELLABLE th))
      by (try apply queues_wf_move; try apply lookup_move; done).
    cbn [obind]. rewrite move_move by done. fold s1.
    rewrite (sched_switch_spec k u tu s1 c) by done. cbn [obind]. done.
  - intros s' th' Hc' Ht'. cbn [obind]. simpl. rewrite Hc'. cbn. rewrite Ht'. cbn.
    by destruct (kt_cancelled th').
Qed.
End cancellable.

(** ** Properties of mutexes *)

(** [kmutex_lock] is a lock under every interleaving: as long as the rest
    of the system keeps the protocol ([Rely]: the invariant, no mutex taken
    away, no sleeper of a mutex queue woken except by handing it the mutex),
    a caller that does not hold the mutex returns from [kmutex_lock] only as
    its holder, still holding every mutex it held before and at its old
    interrupt level; whenever it gives the processor away it keeps the
    protocol towards all other threads. *)
Theorem kmutex_lock_acquires `{IntrOk} m t s :
  Inv s → running s t → km_holder s m ≠ Some t →
  rg (Rely t) (Guar t) (λ s0 _ s', locked m t s s0 s') s (kmutex_lock m s).
Proof. intros Hi Hr Hh. by apply kmutex_lock_rg. Qed.

(** C6. [kmutex_unlock] by the holder never fails and hands the mutex over
    directly: the oldest waiter becomes the holder and the newest runnable
    thread, or, when nobody waits, the mutex becomes free; all other mutexes
    and their waiters are unaffected and the caller goes on running. *)
Theorem kmutex_unlock_hands_over m t s :
  Inv s → running s t → km_holder s m = Some t →
  ∃ s', kmutex_unlock m s = Ret () s' ∧ unlocked m t s s'.
Proof. intros Hi Hr Hh. by apply kmutex_unlock_spec. Qed.

(** C25. [kmutex_lock_cancellable] stops the machine when the present holder
    of the mutex has been cancelled: it then calls [kmutex_unlock], whose
    assertion that the caller is the holder fails. *)
Theorem kmutex_lock_cancellable_panics `{Machine} `{Errno} m t h th s :
  running s t → km_holder s m = Some h → h ≠ t →
  threads s !! h = Some th → kt_cancelled th = true →
  kmutex_lock_cancellable m s = Panic "curthr && (curthr == mtx->km_holder)".
Proof. intros. by eapply cancellable_cancelled_holder. Qed.

(** A thread that has to wait in [kmutex_lock_cancellable], is handed the
    mutex, and is cancelled before it runs again, gets -EINTR although it is
    the holder of the mutex: the mutex is then locked by a thread that was
    told it did not get it. *)
Theorem kmutex_lock_cancellable_leaks `{Machine} `{Errno} m t th h thh s u tu :
  Inv s → running s t → km_holder s m = Some h → h ≠ t →
  threads s !! h = Some thh → kt_cancelled thh = false →
  threads s !! t = Some th → kt_cancelled th = false →
  last (qlist s kt_runq) = Some u → threads s !! u = Some tu →
  ∃ s2 resume, kmutex_lock_cancellable m s = Yield s2 resume ∧ curthr s2 = Some u ∧
    (∀ s' th', curthr s' = Some t → threads s' !! t = Some th' → kt_cancelled th' = true →
      km_holder s' m = Some t →
      ∃ s'', resume s' = Ret (- EINTR) s'' ∧ km_holder s'' m = Some t).
Proof.
  intros Hi Hr Hh Hne Hthh Hch Hth Hc Hl Hu.
  destruct (run_thread _ _ Hr) as (th0 & Hth0 & Hw & Hst & _). simplify_eq.
  set (s1 := move t (with_wchan (Some (km_waitq m)) (with_kstate KT_SLEEP_CANCELLABLE th)) s).
  assert (u ≠ t) as Hut.
  { intros ->. apply last_Some_elem_of in Hl. by eapply running_absent. }
  destruct (mutex_sleep_inv m t th h s KT_SLEEP_CANCELLABLE) as [Hi1 _]; [auto..|].
  assert (Inv (set_ipl IPL_LOW s1)) as Hi2 by (by apply (Inv_core s1)).
  assert (qlist s1 kt_runq = qlist s kt_runq) as Hq.
  { unfold s1. rewrite qlist_move, decide_False by done. apply filter_absent.
    by apply running_absent. }
  destruct (cancellable_sleep m t th h thh s 0 u tu) as (res & Hres & Hback); try done.
  - lia.
  - intros j Hj. lia.
  - apply wf_queues, Hi2.
  - simpl. rewrite (run_cur _ _ Hr). by eexists.
  - fold s1. cbn [after_intrs]. change (qlist (set_ipl IPL_LOW s1)) with (qlist s1). by rewrite Hq.
  - fold s1. cbn [after_intrs]. simpl. rewrite lookup_insert_ne by done. done.
  - eexists _, res. split; [done|]. split; [done|]. intros s' th' Hc' Ht' Hca Hho.
    rewrite (Hback s' th') by done. rewrite Hca. eexists. split; [done|]. done.
Qed.

(** ** Thread 1 runs, thread 2 is runnable and holds mutex 7, thread 3 waits
    for it. *)
Module KmutexEx.
#[local] Instance quiet : Machine := {| intr_wait := λ _ s, s; intr_fuel := 4 |}.
#[local] Instance quiet_ok : IntrOk.
Proof. intros n s Hs. split_and!; auto. reflexivity. Qed.

Definition mk (c : bool) (st : kthread_state) (w : option qid) : kthread :=
  Kthread (context_setup 0 0 0 (Some 0) 0 None) (Some 0) 0 0 None c st w.

(** [c]: has thread 2 been cancelled? *)
Definition st0 (c : bool) (cur : tid) : kst :=
  Kst (list_to_map [(1%positive, mk false KT_RUN (if decide (cur = 1%positive) then None else Some kt_runq));
         (2%positive, mk c KT_RUN (if decide (cur = 2%positive) then None else Some kt_runq));
         (3%positive, mk false KT_SLEEP (Some (km_waitq 7)))])
      (list_to_map [(kt_runq, Ktqueue [if decide (cur = 1%positive) then 2%positive else 1%positive] 1);
         (km_waitq 7, Ktqueue [3%positive] 1)])
      {[ 7%positive := Some 2%positive ]} ∅ (Some cur) None IPL_LOW [] None 0.

Lemma st0_inv c cur : cur = 1%positive ∨ cur = 2%positive → Inv (st0 c cur).
Proof.
  intros Hcur. split.
  - apply sched_fin_wf. destruct c, Hcur as [->| ->]; by_computation.
  - intros m. unfold km_holder, qlist, queue, st0; simpl.
    destruct (decide (m = 7%positive)) as [->|Hm].
    + change (2%positive ∉ [3%positive]). by_computation.
    + rewrite lookup_singleton_ne by done. simpl. by rewrite !lookup_insert_ne by congruence.
Qed.

Lemma st0_running c cur : cur = 1%positive ∨ cur = 2%positive → running (st0 c cur) cur.
Proof. intros [-> | ->]; (split; [done|]); eexists; (split; [reflexivity|done]). Qed.

Lemma kmutex_lock_acquires_witness :
  rg (Rely 1%positive) (Guar 1%positive)
    (λ s0 _ s', locked 7%positive 1%positive (st0 false 1%positive) s0 s')
    (st0 false 1%positive) (kmutex_lock 7%positive (st0 false 1%positive)).
Proof.
  apply (kmutex_lock_acquires 7%positive 1%positive (st0 false 1%positive));
    [apply st0_inv; auto|apply st0_running; auto|done].
Defined.

Lemma kmutex_unlock_hands_over_witness :
  ∃ s', kmutex_unlock 7%positive (st0 false 2%positive) = Ret () s' ∧
    km_holder s' 7%positive = Some 3%positive.
Proof.
  destruct (kmutex_unlock_hands_over 7%positive 2%positive (st0 false 2%positive)) as (s' & Hx & Hu);
    [apply st0_inv; auto|apply st0_running; auto|reflexivity|].
  exists s'. split; [done|]. rewrite (ul_holder _ _ _ _ Hu). reflexivity.
Defined.

#[local] Existing Instance some_errno.

Lemma kmutex_lock_cancellable_panics_witness :
  kmutex_lock_cancellable 7%positive (st0 true 1%positive) =
    Panic "curthr && (curthr == mtx->km_holder)".
Proof.
  apply (kmutex_lock_cancellable_panics 7%positive 1%positive 2%positive (mk true KT_RUN (Some kt_runq)));
    [apply st0_running; auto|done..].
Defined.

(** Thread 1 runs, thread 2 is runnable and holds mutex 7. *)
Definition st2 : kst :=
  Kst (list_to_map [(1%positive, mk false KT_RUN None); (2%positive, mk false KT_RUN (Some kt_runq))])
      {[ kt_runq := Ktqueue [2%positive] 1 ]}
      {[ 7%positive := Some 2%positive ]} ∅ (Some 1%positive) None IPL_LOW [] None 0.

Lemma st2_inv : Inv st2.
Proof.
  split; [apply sched_fin_wf; by_computation|].
  intros m. unfold km_holder, qlist, queue, st2; simpl.
  destruct (decide (m = 7%positive)) as [->|Hm]; [change (2%positive ∉ []); by_computation|].
  by rewrite lookup_singleton_ne.
Qed.

(** What thread 2 does next: it unlocks the mutex, cancels thread 1 and
    gives the processor away. *)
Definition race : K () :=
  kmutex_unlock 7;; sched_cancel 1;; sched_make_runnable 2;; sched_switch.

Definition yielded {A} (o : outcome kst A) : option kst :=
  match o with Yield s _ => Some s | _ => None end.

Lemma kmutex_lock_cancellable_leaks_witness :
  ∃ s2 resume s3 s4, kmutex_lock_cancellable 7%positive st2 = Yield s2 resume ∧
    yielded (race s2) = Some s3 ∧
    resume s3 = Ret (- EINTR) s4 ∧ km_holder s4 7%positive = Some 1%positive.
Proof.
  destruct (kmutex_lock_cancellable_leaks 7%positive 1%positive (mk false KT_RUN None) 2%positive
    (mk false KT_RUN (Some kt_runq)) st2 2%positive (mk false KT_RUN (Some kt_runq)))
    as (s2 & r & Hx & Hc & Hback); [apply st2_inv| |done..|].
  { split; [done|]. eexists. split; [reflexivity|done]. }
  assert (∃ s3, yielded (race s2) = Some s3 ∧ curthr s3 = Some 1%positive ∧
    km_holder s3 7%positive = Some 1%positive ∧
    kt_cancelled <$> threads s3 !! 1%positive = Some true) as (s3 & Hr & Hcur & Hh & Ht).
  { assert (yielded (kmutex_lock_cancellable 7%positive st2) = Some s2) as Hs2 by (by rewrite Hx).
    vm_compute in Hs2. injection Hs2 as <-. eexists. vm_compute. split; [reflexivity|]. done. }
  apply fmap_Some in Ht as (th' & Ht & Hca).
  destruct (Hback s3 th') as (s4 & Hres & Hho); [done..|]. by exists s2, r, s3, s4.
Defined.
End KmutexEx.
