(* ===== verification/Machine.v ===== *)
(** * The single processor: a pool of threads

    [sched_switch] is the only place where the processor changes hands.  A
    configuration is the kernel state together with the saved context of
    every thread that has given the processor away; one step runs the current
    thread until its next [context_switch]. *)

From S2P Require Import Prelude Kstate Sched Kmutex.
Local Open Scope Z_scope.

Record config := Config {
  c_st : kst;
  c_saved : gmap tid (kst → outcome kst ());
}.

(** [SYS_thr_yield]: back to the run queue, and switch. *)
Definition thr_yield `{Machine} : K () :=
  cur ← cur_thread;
  sched_make_runnable cur;;
  sched_switch.

(** Leaving the processor with the mutexes one holds, for the run queue or
    for a queue that belongs to no mutex. *)
Lemma park_rg `{IntrOk} t L th th' s0 s :
  ready t L s0 s → threads s !! t = Some th → thread_ok th' →
  (∀ m, kt_wchan th' ≠ Some (km_waitq m)) →
  rg (Rely t) (Guar t) (λ s0' _ s', ready t L s0' s') s0 (sched_switch (move t th' s)).
Proof.
  intros [Hinv Hrun Hk Hh] Hth Hok Hq. set (s1 := move t th' s).
  pose proof (λ m, running_absent s t (km_waitq m) Hinv Hrun) as Habs.
  assert (∀ m, qlist s1 (km_waitq m) = qlist s (km_waitq m)) as Hsame.
  { intros m. by apply mutex_queue_move. }
  apply sched_switch_rg.
  - split; [apply sched_wf_move; [apply Hinv|done]|]. intros m.
    change (km_holder s1 m) with (km_holder s m). rewrite Hsame. apply Hinv.
  - apply (run_cur _ _ Hrun).
  - transitivity s; [done|]. intros u Hu. by apply evolves_move_other.
  - intros s' (Hi & Hr & Hev). split.
    + by apply (Inv_core s').
    + by apply (running_ext s').
    + intros u _. by apply evolves_core.
    + intros m. change (km_holder (set_ipl _ s') m) with (km_holder s' m).
      destruct (Hev m) as [Ev1 _ Ev2 _]. rewrite Hsame in Ev2.
      change (km_holder s1 m) with (km_holder s m) in *. rewrite <- Hh. naive_solver.
Qed.

Lemma thr_yield_rg `{IntrOk} t L s0 s :
  ready t L s0 s →
  rg (Rely t) (Guar t) (λ s0' _ s', ready t L s0' s') s0 (thr_yield s).
Proof.
  intros Hrd. pose proof Hrd as [Hinv Hrun _ _]. unfold thr_yield, cur_thread. msimpl.
  rewrite (run_cur _ _ Hrun). cbn [obind].
  destruct (run_thread _ _ Hrun) as (th & Hth & Hw & _).
  pose proof (inv_sched _ Hinv) as Hs.
  rewrite (sched_make_runnable_spec t th) by auto with sched. cbn [obind].
  by eapply park_rg.
Qed.

Lemma sleep_other_rg `{IntrOk} t L q s0 s :
  ready t L s0 s →
  rg (Rely t) (Guar t) (λ s0' _ s', ready t L s0' s') s0 (sched_sleep_on (other_q q) s).
Proof.
  intros Hrd. pose proof Hrd as [Hinv Hrun _ _].
  destruct (run_thread _ _ Hrun) as (th & Hth & Hw & _).
  pose proof (wf_queues _ (inv_sched _ Hinv)) as Hwfq.
  unfold sched_sleep_on, cur_thread, upd_thread. msimpl. rewrite (run_cur _ _ Hrun). cbn [obind].
  rewrite Hth. cbn [obind]. rewrite (upd_thread_move t th) by done.
  rewrite (ktqueue_enqueue_spec _ _ (with_kstate KT_SLEEP th))
    by (try apply queues_wf_move; try apply lookup_move; done).
  cbn [obind]. rewrite move_move by done. eapply park_rg; [done..|by left|done].
Qed.

(** ** What a thread does with mutexes

    A thread yields, sleeps on a queue of its own, runs a critical section,
    and may assert in it that it holds the mutex.  [cmd_ok L] says that with
    the mutexes in [L] held no critical section is entered twice and only
    mutexes that are held are asserted to be. *)
Inductive cmd :=
| DoYield
| DoSleep (q : positive)
| DoCritical (m : mid) (c : cmd)
| AssertHeld (m : mid)
| DoSeq (c1 c2 : cmd).

Fixpoint exec `{Machine} (c : cmd) : K () :=
  match c with
  | DoYield => thr_yield
  | DoSleep q => sched_sleep_on (other_q q)
  | DoCritical m c => critical m (exec c)
  | AssertHeld m => s ← get; KASSERT (bool_decide (km_holder s m = curthr s)) "km_holder == curthr"
  | DoSeq c1 c2 => exec c1;; exec c2
  end.

Fixpoint cmd_ok (L : gset mid) (c : cmd) : Prop :=
  match c with
  | DoYield | DoSleep _ => True
  | DoCritical m c => m ∉ L ∧ cmd_ok ({[m]} ∪ L) c
  | AssertHeld m => m ∈ L
  | DoSeq c1 c2 => cmd_ok L c1 ∧ cmd_ok L c2
  end.

Lemma exec_rg `{IntrOk} t c : ∀ L s0 s,
  cmd_ok L c → ready t L s0 s →
  rg (Rely t) (Guar t) (λ s0' _ s', ready t L s0' s') s0 (exec c s).
Proof.
  induction c as [|q|m c IH|m|c1 IH1 c2 IH2]; intros L s0 s Hok Hrd; simpl.
  - by apply thr_yield_rg.
  - by apply sleep_other_rg.
  - destruct Hok. apply critical_rg; auto.
  - msimpl. rewrite (run_cur _ _ (rd_running _ _ _ _ Hrd)).
    rewrite bool_decide_eq_true_2 by (by apply (rd_holds _ _ _ _ Hrd)). by constructor.
  - destruct Hok. rewrite bind_unfold. eapply rg_bind; eauto.
Qed.

Section pool.
(** [entry t] is the function thread [t] starts in. *)
Context (entry : tid → K ()).

Definition resume (c : config) (t : tid) : K () :=
  default (entry t) (c_saved c !! t).

Inductive step : config → config → Prop :=
| step_switch c t s' k :
    curthr (c_st c) = Some t →
    resume c t (c_st c) = Yield s' k →
    step c (Config s' (<[t := k]> (c_saved c))).

(** Runs the current thread up to [n] times. *)
Fixpoint run (n : nat) (c : config) : option config :=
  match n with
  | O => Some c
  | S n' =>
      match curthr (c_st c) with
      | Some t =>
          match resume c t (c_st c) with
          | Yield s' k => run n' (Config s' (<[t := k]> (c_saved c)))
          | _ => None
          end
      | None => None
      end
  end.

Lemma run_steps n : ∀ c c', run n c = Some c' → rtc step c c'.
Proof.
  induction n as [|n IH]; intros c c'; simpl; [intros [= ->]; apply rtc_refl|].
  destruct (curthr (c_st c)) as [t|] eqn:Hc; [|done].
  destruct (resume c t (c_st c)) as [| | |s' k] eqn:Hr; try done. intros Hn.
  eapply rtc_l; [by eapply step_switch|]. by apply IH.
Qed.

Definition crashed (c : config) : Prop :=
  ∃ t why, curthr (c_st c) = Some t ∧ resume c t (c_st c) = Panic why.

(** Every thread that gave the processor away may be resumed in the present
    state: what it relies on has been preserved since. *)
Definition suspended_ok (Q : tid → kst → () → kst → Prop) (c : config) : Prop :=
  ∀ t k, c_saved c !! t = Some k →
    ∃ sy, evolves t sy (c_st c) ∧
      ∀ s', Rely t sy s' → rg (Rely t) (Guar t) (Q t) s' (k s').

(** A thread that has not run yet holds no mutex and waits for none. *)
Definition unstarted (t : tid) (s : kst) : Prop :=
  ∀ m, km_holder s m ≠ Some t ∧ t ∉ qlist s (km_waitq m).

Record pool_ok Q (c : config) : Prop := {
  po_inv : Inv (c_st c);
  po_running : ∃ t, running (c_st c) t;
  po_suspended : suspended_ok Q c;
  po_unstarted : ∀ t, c_saved c !! t = None → unstarted t (c_st c);
}.

Definition entries_ok (Q : tid → kst → () → kst → Prop) : Prop :=
  ∀ t s, Inv s → running s t → unstarted t s →
    rg (Rely t) (Guar t) (Q t) s (entry t s).

Lemma resume_rg Q c t :
  entries_ok Q → pool_ok Q c → curthr (c_st c) = Some t →
  rg (Rely t) (Guar t) (Q t) (c_st c) (resume c t (c_st c)).
Proof.
  intros He [Hi [u Hr] Hs Hu] Hcur.
  assert (u = t) as -> by (pose proof (run_cur _ _ Hr); congruence).
  unfold resume. destruct (c_saved c !! t) as [k|] eqn:Hk; simpl; [|by apply He; auto].
  destruct (Hs t k Hk) as (sy & Hev & Hrg). by apply Hrg.
Qed.

Lemma unstarted_evolves t s s' : evolves t s s' → unstarted t s → unstarted t s'.
Proof.
  intros Hev Hu m. destruct (Hu m) as [H1 H2], (Hev m) as [_ _ Hg Hq].
  split; naive_solver.
Qed.

Lemma pool_ok_step Q c c' :
  entries_ok Q → pool_ok Q c → step c c' → pool_ok Q c'.
Proof.
  intros He Hok Hst. revert Hok. destruct Hst as [c0 t s' k Hcur Hres]. intros Hok.
  pose proof (resume_rg Q c0 t He Hok Hcur) as Hrg. rewrite Hres in Hrg.
  inversion Hrg as [| |? ? ? (Hi & Hr & Hk) Hcont]; subst. split; simpl; [done..| |].
  - intros u ku. simpl. rewrite lookup_insert_Some. intros [[<- <-]|[Hne Hu]].
    + by exists s'.
    + destruct (po_suspended _ _ Hok u ku Hu) as (sy & Hev & Hru). exists sy.
      split; [|done]. transitivity (c_st c0); [done|]. by apply Hk.
  - intros u. rewrite lookup_insert_None. intros [Hu Hne].
    apply (unstarted_evolves u (c_st c0)); [by apply Hk|by apply Hok].
Qed.

Lemma pool_ok_no_crash Q c : entries_ok Q → pool_ok Q c → ¬ crashed c.
Proof.
  intros He Hok (t & why & Hcur & Hp).
  pose proof (resume_rg Q c t He Hok Hcur) as Hrg. rewrite Hp in Hrg. inversion Hrg.
Qed.

Lemma pool_ok_reach Q s c :
  entries_ok Q → Inv s → (∃ t, running s t) → (∀ m, km_holder s m = None) →
  rtc step (Config s ∅) c → pool_ok Q c.
Proof.
  intros He Hi Hr Hm Hsteps.
  assert (pool_ok Q (Config s ∅)) as Hok; [|induction Hsteps; eauto using pool_ok_step].
  split; [done..| |]; simpl.
  - intros t k Hk. simpl in Hk. by rewrite lookup_empty in Hk.
  - intros t _ m. pose proof (inv_mutex s Hi m) as Hq. rewrite Hm in Hq |- *.
    rewrite Hq. set_solver.
Qed.
End pool.

Lemma exec_entries_ok `{IntrOk} (p : tid → cmd) :
  (∀ t, cmd_ok ∅ (p t)) → entries_ok (λ t, exec (p t)) (λ t s0 _ s, ready t ∅ s0 s).
Proof.
  intros Hp t s Hi Hr Hu. apply exec_rg; [done|]. split; [done..|].
  intros m. destruct (Hu m). set_solver.
Qed.

(** C1. Mutual exclusion and freedom from assertion failures under every
    interleaving: let every thread yield, sleep and run nested critical
    sections between [kmutex_lock] and [kmutex_unlock] as it likes, without
    locking a mutex it holds.  Then in every configuration reachable from one
    in which no mutex is held, the scheduler's and the mutexes' invariant
    holds (each thread on the one queue its [kt_wchan] names, run queue =
    runnable threads, a free mutex has no waiters, the holder does not wait),
    exactly the current thread runs, and it does not panic before it next
    gives the processor away: in particular, whatever happened while it was
    switched out, in its critical sections it still is the holder. *)
Theorem pool_invariant `{IntrOk} (p : tid → cmd) s c :
  (∀ t, cmd_ok ∅ (p t)) → Inv s → (∃ t, running s t) → (∀ m, km_holder s m = None) →
  rtc (step (λ t, exec (p t))) (Config s ∅) c →
  Inv (c_st c) ∧ (∃ t, running (c_st c) t) ∧ ¬ crashed (λ t, exec (p t)) c.
Proof.
  intros Hp Hi Hr Hm Hsteps. apply exec_entries_ok in Hp.
  pose proof (pool_ok_reach _ _ s c Hp Hi Hr Hm Hsteps) as Hc.
  split_and!; [apply Hc..|by eapply pool_ok_no_crash].
Qed.

(** ** Two threads contending for two mutexes *)

Module Contention.
#[local] Instance quiet : Machine := {| intr_wait := λ _ s, s; intr_fuel := 4 |}.

#[local] Instance quiet_ok : IntrOk.
Proof. intros n s Hs. split_and!; auto. reflexivity. Qed.

Definition ctx0 : context := context_setup 0 0 0 None 0 None.
Definition thread0 (w : option qid) : kthread :=
  Kthread ctx0 None 0 0 None false KT_RUN w.

(** Thread 1 runs, thread 2 is runnable, the mutexes are free. *)
Definition start : kst :=
  Kst {[ 1%positive := thread0 None; 2%positive := thread0 (Some kt_runq) ]}
      {[ kt_runq := Ktqueue [2%positive] 1 ]} ∅ ∅
      (Some 1%positive) None IPL_LOW [] None 0.

Definition worker (t : tid) : cmd :=
  DoSeq (DoCritical 7 (DoSeq (DoCritical 8 (DoSeq DoYield (AssertHeld 7))) (AssertHeld 7)))
        (DoSleep 3).

Lemma start_inv : Inv start.
Proof.
  split; [apply sched_fin_wf; by_computation|].
  intros m. unfold km_holder, qlist, queue; simpl. by rewrite lookup_empty.
Qed.

Lemma start_running : running start 1%positive.
Proof. split; [done|]. eexists. split; [reflexivity|done]. Qed.

(** After two steps thread 2 waits for the mutex thread 1 holds. *)
Lemma pool_invariant_witness :
  ∃ c, rtc (step (λ t, exec (worker t))) (Config start ∅) c ∧
    km_holder (c_st c) 7%positive = Some 1%positive ∧
    qlist (c_st c) (km_waitq 7%positive) = [2%positive] ∧
    Inv (c_st c) ∧ (∃ t, running (c_st c) t) ∧ ¬ crashed (λ t, exec (worker t)) c.
Proof.
  assert ((λ c, (km_holder (c_st c) 7%positive, qlist (c_st c) (km_waitq 7%positive))) <$>
    run (λ t, exec (worker t)) 2 (Config start ∅) = Some (Some 1%positive, [2%positive])) as Hrun
    by (vm_compute; reflexivity).
  destruct (run (λ t, exec (worker t)) 2 (Config start ∅)) as [c|] eqn:Hc; [|discriminate Hrun].
  injection Hrun as H1 H2. exists c. apply run_steps in Hc.
  split; [done|]. split; [done|]. split; [done|].
  apply (pool_invariant worker start c); eauto using start_inv, start_running.
  intros t. simpl. set_solver.
Defined.
End Contention.
