(* ===== verification/Proc.v ===== *)
(** * Processes and threads (proc.c, kthread.c)

    Creation, cancellation and exit of threads; creation, clean-up, killing
    and reaping of processes. *)

From S2P Require Import Prelude Kstate Sched Kmutex.
Local Open Scope Z_scope.

(** Configuration constants, and the allocators: a slab or page allocator
    may fail, and otherwise returns an address that is not in use. *)
Class ProcEnv := {
  PROC_MAX_COUNT : Z;
  PROC_NAME_LEN : Z;
  PID_IDLE : Z;
  PID_INIT : Z;
  DEFAULT_STACK_SIZE : Z;
  PAGE_SHIFT : Z;
  slab_alloc_proc : kst → option pptr;
  slab_alloc_thread : kst → option tid;
  page_alloc_n : Z → kst → option Z;
  pt_create_pagedir : kst → option Z;
  proc_max_bounds : 1 < PROC_MAX_COUNT < 2 ^ 31;
  pid_idle_0 : PID_IDLE = 0;
  pid_init_1 : PID_INIT = 1;
  slab_proc_fresh : ∀ s p, slab_alloc_proc s = Some p → procs s !! p = None;
  slab_thread_fresh : ∀ s t, slab_alloc_thread s = Some t → threads s !! t = None;
}.

Section proc.
Context `{Machine} `{Errno} `{ProcEnv}.

(** [list_iterate_begin(&_proc_list, ...)] of [proc_lookup]. *)
Fixpoint proc_lookup_in (pid : Z) (l : list pptr) : K (option pptr) :=
  match l with
  | [] => mret None
  | p :: l' =>
      x ← proc_at p;
      if p_pid x =? pid then mret (Some p) else proc_lookup_in pid l'
  end.

Definition proc_lookup (pid : Z) : K (option pptr) :=
  s ← get; proc_lookup_in pid (proc_list s).

(** One pass over [_proc_list]: is [pid] taken? *)
Fixpoint pid_taken (pid : Z) (l : list pptr) : K bool :=
  match l with
  | [] => mret false
  | p :: l' =>
      x ← proc_at p;
      if p_pid x =? pid then mret true else pid_taken pid l'
  end.

(** The [while (1)] loop with its [goto failed]. *)
Fixpoint proc_getid_loop (fuel : nat) (pid : Z) : K Z :=
  s ← get;
  taken ← pid_taken pid (proc_list s);
  if taken : bool then
    let pid' := (pid + 1) mod PROC_MAX_COUNT in
    if pid' =? next_pid s then mret (-1)
    else match fuel with
         | O => idle
         | S fuel' => proc_getid_loop fuel' pid'
         end
  else
    modify (set_next_pid ((pid + 1) mod PROC_MAX_COUNT));;
    mret pid.

Definition proc_getid : K Z :=
  s ← get; proc_getid_loop (Z.to_nat PROC_MAX_COUNT) (next_pid s).

(** [strncpy(p_comm, name, PROC_NAME_LEN); p_comm[PROC_NAME_LEN-1] = 0] *)
Definition comm_of (name : string) : string :=
  String.substring 0 (Z.to_nat (PROC_NAME_LEN - 1)) name.

Definition proc_create (name : string) : K pptr :=
  s0 ← get;
  p ← deref (slab_alloc_proc s0) "p";
  pid ← proc_getid;
  s1 ← get;
  KASSERT (negb (PID_IDLE =? pid) || bool_decide (proc_list s1 = []))
    "PID_IDLE != p->p_pid || list_empty(&_proc_list)";;
  (if PID_INIT =? pid then
     c ← cur_proc;
     x ← proc_at c;
     KASSERT (PID_IDLE =? p_pid x) "PID_INIT != p->p_pid || PID_IDLE == curproc->p_pid"
   else mret ());;
  modify (set_procs (insert p
    (Proc pid (comm_of name) [] [] (curproc s1) 0 PROC_RUNNING (pt_create_pagedir s1))));;
  (if pid =? PID_INIT then modify (set_initproc (Some p)) else mret ());;
  sched_queue_init (p_wait p);;
  match curproc s1 with
  | Some c => upd_proc c (with_children (λ l, l ++ [p]))
  | None => mret ()
  end;;
  modify (set_proc_list (λ l, l ++ [p]));;
  mret p.

(** The loop that hands the children over to the init process.  The links
    are not removed from the list of the dying process; that list is not
    read again.  For the init process itself the loop would relink the list
    it is walking over, which has no meaning here. *)
Fixpoint reparent (initp : pptr) (l : list pptr) : K () :=
  match l with
  | [] => mret ()
  | c :: l' =>
      upd_proc initp (with_children (λ l, l ++ [c]));;
      upd_proc c (with_pproc (Some initp));;
      reparent initp l'
  end.

Definition proc_cleanup (status : Z) : K () :=
  s ← get;
  initp ← deref (proc_initproc s) "NULL != proc_initproc";
  cp ← cur_proc;
  x ← proc_at cp;
  KASSERT (1 <=? p_pid x) "1 <= curproc->p_pid";;
  pp ← deref (p_pproc x) "NULL != curproc->p_pproc";
  _ ← proc_at pp;
  _ ← sched_wakeup_on (p_wait pp);
  KASSERT (negb (bool_decide (cp = initp)) || bool_decide (p_children x = []))
    "the init process has no children when it exits";;
  reparent initp (p_children x);;
  upd_proc cp (with_exit status PROC_DEAD);;
  x' ← proc_at cp;
  KASSERT (bool_decide (is_Some (p_pproc x'))) "NULL != curproc->p_pproc";;
  t ← cur_thread;
  th ← thread_at t;
  KASSERT (bool_decide (kt_state th = KT_EXITED)) "KT_EXITED == curthr->kt_state".

Definition proc_thread_exited (retval : Z) : K () :=
  proc_cleanup retval;;
  sched_switch.

Definition alloc_stack (s : kst) : option Z :=
  page_alloc_n (1 + Z.shiftr DEFAULT_STACK_SIZE PAGE_SHIFT) s.

Definition kthread_create (p : pptr) (func arg1 arg2 : Z) : K tid :=
  s ← get;
  kthr ← deref (slab_alloc_thread s) "kthread";
  x ← proc_at p;
  let kstack := alloc_stack s in
  modify (set_threads (insert kthr
    (Kthread (context_setup func arg1 arg2 kstack DEFAULT_STACK_SIZE (p_pagedir x))
       kstack 0 0 (Some p) false KT_RUN None)));;
  upd_proc p (with_threads (λ l, l ++ [kthr]));;
  mret kthr.

Definition kthread_clone (thr : tid) : K tid :=
  s ← get;
  clone_thr ← deref (slab_alloc_thread s) "clone_thr";
  t ← thread_at thr;
  p ← deref (kt_proc t) "thr->kt_proc";
  x ← proc_at p;
  let kstack := alloc_stack s in
  modify (set_threads (insert clone_thr
    (Kthread (context_setup 0 0 0 kstack DEFAULT_STACK_SIZE (p_pagedir x))
       kstack (kt_retval t) (kt_errno t) None (kt_cancelled t) (kt_state t) (kt_wchan t))));;
  mret clone_thr.

Definition kthread_destroy (t : tid) : K () :=
  th ← thread_at t;
  KASSERT (bool_decide (is_Some (kt_kstack th))) "t && t->kt_kstack";;
  modify (set_procs (fmap (with_threads (filter (λ u, u ≠ t)))));;
  modify (set_threads (delete t)).

Definition kthread_exit (retval : Z) : K () :=
  t ← cur_thread;
  th ← thread_at t;
  KASSERT (bool_decide (kt_wchan th = None)) "!curthr->kt_wchan";;
  s ← get;
  KASSERT (negb (qlink_linked s t)) "!curthr->kt_qlink.l_next && !curthr->kt_qlink.l_prev";;
  KASSERT (bool_decide (kt_proc th = curproc s)) "curthr->kt_proc == curproc";;
  upd_thread t (with_retval retval);;
  upd_thread t (with_kstate KT_EXITED);;
  proc_thread_exited retval.

Definition do_exit (status : Z) : K () := kthread_exit status.

Definition kthread_cancel (kthr : tid) (retval : Z) : K () :=
  upd_thread kthr (with_cancelled true);;
  s ← get;
  if bool_decide (Some kthr = curthr s) then kthread_exit retval
  else
    upd_thread kthr (with_retval retval);;
    sched_cancel kthr.

Fixpoint cancel_all (l : list tid) (status : Z) : K () :=
  match l with
  | [] => mret ()
  | kthr :: l' => kthread_cancel kthr status;; cancel_all l' status
  end.

Definition proc_kill (p : pptr) (status : Z) : K () :=
  s ← get;
  if bool_decide (Some p = curproc s) then do_exit status
  else
    x ← proc_at p;
    cancel_all (p_threads x) status.

(** [q->p_pproc != NULL && q->p_pproc->p_pid != PID_IDLE] *)
Definition parent_not_idle (x : proc) : K bool :=
  match p_pproc x with
  | None => mret false
  | Some pp => y ← proc_at pp; mret (negb (p_pid y =? PID_IDLE))
  end.

Fixpoint kill_each (l : list pptr) : K () :=
  match l with
  | [] => mret ()
  | p :: l' =>
      x ← proc_at p;
      b ← parent_not_idle x;
      s ← get;
      (if b && negb (p_pid x =? PID_IDLE) && negb (bool_decide (Some p = curproc s))
       then proc_kill p 0 else mret ());;
      kill_each l'
  end.

Definition proc_kill_all : K () :=
  s ← get;
  kill_each (proc_list s);;
  cp ← cur_proc;
  x ← proc_at cp;
  b ← parent_not_idle x;
  if b : bool then proc_kill cp 0 else mret ().

(** Disposing of the dead child [p]; returns nothing. *)
Definition dispose (p : pptr) : K () :=
  cp ← cur_proc;
  modify (set_proc_list (filter (λ q, q ≠ p)));;
  upd_proc cp (with_children (filter (λ q, q ≠ p)));;
  x ← proc_at p;
  kthr ← deref (head (p_threads x)) "list_head(&(p->p_threads))";
  kthread_destroy kthr;;
  modify (set_procs (delete p)).

Fixpoint find_dead (l : list pptr) : K (option pptr) :=
  match l with
  | [] => mret None
  | p :: l' =>
      x ← proc_at p;
      if bool_decide (p_state x = PROC_DEAD) then mret (Some p) else find_dead l'
  end.

Fixpoint find_child (pid : Z) (l : list pptr) : K (option pptr) :=
  match l with
  | [] => mret None
  | p :: l' =>
      x ← proc_at p;
      if p_pid x =? pid then mret (Some p) else find_child pid l'
  end.

(** The [while (1)] loop for [pid == -1]; [fuel] bounds the number of times
    the caller sleeps.  The result is the value returned and what was
    stored in [*status]. *)
Fixpoint waitpid_any (fuel : nat) : K (Z * option Z) :=
  cp ← cur_proc;
  x ← proc_at cp;
  r ← find_dead (p_children x);
  match r with
  | Some p =>
      y ← proc_at p;
      KASSERT (bool_decide (is_Some (p_pagedir y))) "NULL != p->p_pagedir";;
      dispose p;;
      mret (p_pid y, Some (p_status y))
  | None =>
      match fuel with
      | O => idle
      | S fuel' => sched_sleep_on (p_wait cp);; waitpid_any fuel'
      end
  end.

(** [while (p->p_state != PROC_DEAD) sched_sleep_on(&(curproc->p_wait));] *)
Fixpoint wait_until_dead (fuel : nat) (p : pptr) : K () :=
  x ← proc_at p;
  if bool_decide (p_state x = PROC_DEAD) then mret ()
  else match fuel with
       | O => idle
       | S fuel' =>
           cp ← cur_proc;
           sched_sleep_on (p_wait cp);;
           wait_until_dead fuel' p
       end.

Definition do_waitpid (fuel : nat) (pid : Z) (options : Z) : K (Z * option Z) :=
  cp ← cur_proc;
  x ← proc_at cp;
  if bool_decide (p_children x = []) then mret (- ECHILD, None)
  else if pid =? -1 then waitpid_any fuel
  else if 0 <? pid then
    r ← find_child pid (p_children x);
    match r with
    | Some p =>
        y ← proc_at p;
        KASSERT (bool_decide (is_Some (p_pagedir y))) "NULL != p->p_pagedir";;
        let status := p_status y in
        let pidReturn := p_pid y in
        wait_until_dead fuel p;;
        dispose p;;
        mret (pidReturn, Some status)
    | None => mret (- ECHILD, None)
    end
  else mret (- ECHILD, None).
End proc.

(** ** Process identifiers *)

(** Every process of a list is live. *)
Definition live (s : kst) (l : list pptr) : Prop := ∀ p, p ∈ l → is_Some (procs s !! p).

(** The identifiers in use. *)
Definition pids (s : kst) (l : list pptr) : list Z :=
  omap (λ p, p_pid <$> procs s !! p) l.

Lemma live_cons s p l : live s (p :: l) → is_Some (procs s !! p) ∧ live s l.
Proof. intros Hl. split; [apply Hl; set_solver|]. intros q Hq. apply Hl. set_solver. Qed.

Section pid_proofs.
Context `{Machine} `{Errno} `{ProcEnv}.

Lemma pid_taken_spec pid l s :
  live s l → pid_taken pid l s = Ret (bool_decide (pid ∈ pids s l)) s.
Proof.
  induction l as [|p l IH]; intros Hl; [done|].
  apply live_cons in Hl as [[x Hx] Hl]. unfold pids in *.
  cbn [pid_taken]. unfold proc_at. msimpl. rewrite Hx. cbn [obind].
  cbn [omap list_omap]. rewrite Hx. cbn [fmap option_fmap option_map].
  destruct (Z.eqb_spec (p_pid x) pid) as [->|Hne].
  - rewrite bool_decide_eq_true_2; [done|set_solver].
  - rewrite IH by done. f_equal. apply bool_decide_ext. set_solver.
Qed.

(** The [i]-th identifier the search tries. *)
Definition candidate (s : kst) (i : Z) : Z := (next_pid s + i) mod PROC_MAX_COUNT.

(** What the search for a free identifier finds. *)
Definition getid_result (s : kst) (r : Z) (s' : kst) : Prop :=
  (r = -1 ∧ s' = s ∧ (∀ i, 0 <= i < PROC_MAX_COUNT → i ∈ pids s (proc_list s))) ∨
  (∃ k, 0 <= k < PROC_MAX_COUNT ∧ r = candidate s k ∧ r ∉ pids s (proc_list s) ∧
     (∀ j, 0 <= j < k → candidate s j ∈ pids s (proc_list s)) ∧
     s' = set_next_pid ((r + 1) mod PROC_MAX_COUNT) s).

Lemma candidate_surj s i :
  0 <= next_pid s < PROC_MAX_COUNT → 0 <= i < PROC_MAX_COUNT →
  ∃ k, 0 <= k < PROC_MAX_COUNT ∧ candidate s k = i.
Proof.
  intros Hn Hi. exists ((i - next_pid s) mod PROC_MAX_COUNT). split.
  - apply Z.mod_pos_bound. lia.
  - unfold candidate. rewrite Z.add_mod_idemp_r by lia.
    replace (next_pid s + (i - next_pid s)) with i by lia. by apply Z.mod_small.
Qed.

Lemma candidate_wrap s i :
  0 <= next_pid s < PROC_MAX_COUNT → 0 <= i < PROC_MAX_COUNT →
  candidate s (i + 1) = next_pid s ↔ i + 1 = PROC_MAX_COUNT.
Proof.
  intros Hn Hi. unfold candidate. split.
  - intros He. destruct (Z.lt_ge_cases (next_pid s + (i + 1)) PROC_MAX_COUNT) as [Hlt|Hge].
    + rewrite Z.mod_small in He by lia. lia.
    + assert (next_pid s + (i + 1) = (next_pid s + (i + 1) - PROC_MAX_COUNT) + 1 * PROC_MAX_COUNT)
        as Heq by lia.
      rewrite Heq, Z_mod_plus_full in He.
      destruct (Z.eq_dec (i + 1) PROC_MAX_COUNT); [done|].
      rewrite Z.mod_small in He by lia. lia.
  - intros ->. rewrite <- (Z.mul_1_l PROC_MAX_COUNT) at 1. rewrite Z_mod_plus_full.
    by apply Z.mod_small.
Qed.

Lemma candidate_next s i :
  (candidate s i + 1) mod PROC_MAX_COUNT = candidate s (i + 1).
Proof.
  unfold candidate. rewrite Z.add_mod_idemp_l by (pose proof proc_max_bounds; lia).
  f_equal. lia.
Qed.

Lemma proc_getid_loop_spec s :
  live s (proc_list s) → 0 <= next_pid s < PROC_MAX_COUNT →
  ∀ fuel i, 0 <= i < PROC_MAX_COUNT → PROC_MAX_COUNT - 1 - i <= Z.of_nat fuel →
  (∀ j, 0 <= j < i → candidate s j ∈ pids s (proc_list s)) →
  ∃ r s', proc_getid_loop fuel (candidate s i) s = Ret r s' ∧ getid_result s r s'.
Proof.
  intros Hl Hn. induction fuel as [|fuel IH]; intros i Hi Hf Hj;
    cbn [proc_getid_loop]; msimpl; rewrite pid_taken_spec by done; cbn [obind];
    case_bool_decide as Ht; rewrite ?candidate_next.
  - (* the last candidate is taken *)
    replace (candidate s (i + 1)) with (next_pid s) by (symmetry; apply candidate_wrap; lia).
    rewrite Z.eqb_refl. eexists _, _. split; [done|]. left. split_and!; [done..|].
    intros v Hv. destruct (candidate_surj s v) as (k & Hk & <-); [lia..|].
    destruct (Z.eq_dec k i) as [->|]; [done|]. apply Hj. lia.
  - eexists _, _. split; [done|]. right. exists i. by rewrite candidate_next.
  - destruct (Z.eqb_spec (candidate s (i + 1)) (next_pid s)) as [He|He].
    + apply candidate_wrap in He; [|lia..]. eexists _, _. split; [done|]. left. split_and!; [done..|].
      intros v Hv. destruct (candidate_surj s v) as (k & Hk & <-); [lia..|].
      destruct (Z.eq_dec k i) as [->|]; [done|]. apply Hj. lia.
    + assert (i + 1 ≠ PROC_MAX_COUNT) by (intros Hx; apply He; apply candidate_wrap; lia).
      apply IH; [lia..|]. intros j Hjj.
      destruct (Z.eq_dec j i) as [->|]; [done|]. apply Hj. lia.
  - eexists _, _. split; [done|]. right. exists i. by rewrite candidate_next.
Qed.

Lemma proc_getid_spec s :
  live s (proc_list s) → 0 <= next_pid s < PROC_MAX_COUNT →
  ∃ r s', proc_getid s = Ret r s' ∧ getid_result s r s'.
Proof.
  intros Hl Hn. unfold proc_getid. msimpl.
  assert (candidate s 0 = next_pid s) as <-.
  { unfold candidate. rewrite Z.add_0_r. by apply Z.mod_small. }
  apply proc_getid_loop_spec; try done; pose proof proc_max_bounds; lia.
Qed.
End pid_proofs.
