(* ===== verification/ProcTree.v ===== *)
(** * The process table and the process tree

    The invariant that [proc_create], [proc_cleanup] and [do_waitpid]
    maintain, and what these operations do to the table and to the tree. *)

From S2P Require Import Prelude Kstate Sched Kmutex Proc.
Local Open Scope Z_scope.

(** ** Invariant

    Process identifiers are unique and in range, and [_proc_list] links
    exactly the live processes. *)
Record table_wf `{ProcEnv} (s : kst) : Prop := {
  tb_list : ∀ p, p ∈ proc_list s ↔ is_Some (procs s !! p);
  tb_nodup : NoDup (proc_list s);
  tb_pids : ∀ p q x y, procs s !! p = Some x → procs s !! q = Some y →
    p_pid x = p_pid y → p = q;
  tb_range : ∀ p x, procs s !! p = Some x → 0 <= p_pid x < PROC_MAX_COUNT;
  tb_next : 0 <= next_pid s < PROC_MAX_COUNT;
}.

(** Every process that has a parent is on the list of children of that
    parent, which is another process and still running, and conversely.  The
    list of children of a dead process is meaningless. *)
Record tree_wf (ps : gmap pptr proc) : Prop := {
  tr_parent : ∀ c x p, ps !! c = Some x → p_pproc x = Some p →
    c ≠ p ∧ ∃ y, ps !! p = Some y ∧ p_state y = PROC_RUNNING ∧ c ∈ p_children y;
  tr_child : ∀ p y c, ps !! p = Some y → p_state y = PROC_RUNNING → c ∈ p_children y →
    ∃ x, ps !! c = Some x ∧ p_pproc x = Some p;
  tr_nodup : ∀ p y, ps !! p = Some y → p_state y = PROC_RUNNING → NoDup (p_children y);
}.

Record proc_wf `{ProcEnv} (s : kst) : Prop := {
  pw_table : table_wf s;
  pw_tree : tree_wf (procs s);
}.

Lemma table_wf_live `{ProcEnv} s : table_wf s → live s (proc_list s).
Proof. intros Hwf p. apply (tb_list s Hwf). Qed.

Lemma elem_of_pids s l v :
  v ∈ pids s l ↔ ∃ p x, p ∈ l ∧ procs s !! p = Some x ∧ p_pid x = v.
Proof.
  unfold pids. rewrite list_elem_of_omap. setoid_rewrite fmap_Some. naive_solver.
Qed.

(** Updating every process. *)
Definition pmap (f : pptr → proc → proc) (ps : gmap pptr proc) : gmap pptr proc :=
  map_imap (λ q z, Some (f q z)) ps.

Lemma lookup_pmap f ps q : pmap f ps !! q = f q <$> ps !! q.
Proof. unfold pmap. rewrite map_lookup_imap. by destruct (ps !! q). Qed.

Lemma pmap_Some f ps q z : pmap f ps !! q = Some z → ∃ y, ps !! q = Some y ∧ z = f q y.
Proof. rewrite lookup_pmap, fmap_Some. naive_solver. Qed.

Lemma insert_pmap c f (ps : gmap pptr proc) x :
  ps !! c = Some x → <[c:=f x]> ps = pmap (λ q z, if decide (q = c) then f z else z) ps.
Proof.
  intros Hx. apply map_eq. intros q. rewrite lookup_pmap.
  destruct (decide (q = c)) as [->|Hne]; [by rewrite lookup_insert_eq, Hx|].
  rewrite lookup_insert_ne by done. by destruct (ps !! q).
Qed.

Lemma pmap_pmap f g ps : pmap g (pmap f ps) = pmap (λ q z, g q (f q z)) ps.
Proof. apply map_eq. intros q. rewrite !lookup_pmap. by destruct (ps !! q). Qed.

Lemma pmap_ext f g ps : (∀ q z, f q z = g q z) → pmap f ps = pmap g ps.
Proof. intros He. apply map_eq. intros q. rewrite !lookup_pmap. destruct (ps !! q); simpl; by rewrite ?He. Qed.

(** The table does not change when no process changes its identifier. *)
Lemma table_wf_pmap `{ProcEnv} f s s' :
  table_wf s → procs s' = pmap f (procs s) → (∀ q z, p_pid (f q z) = p_pid z) →
  proc_list s' = proc_list s → next_pid s' = next_pid s → table_wf s'.
Proof.
  intros [Hl Hn Hp Hr Hx] Hps Hf Hpl Hnp. split; rewrite ?Hpl, ?Hnp; auto.
  - intros p. rewrite Hps, lookup_pmap, fmap_is_Some. apply Hl.
  - intros p q x y. rewrite Hps.
    intros (x' & Hx' & ->)%pmap_Some (y' & Hy' & ->)%pmap_Some. rewrite !Hf. eauto.
  - intros p x. rewrite Hps. intros (x' & Hx' & ->)%pmap_Some. rewrite Hf. eauto.
Qed.

(** ** Creation *)

Section create_proofs.
Context `{Machine} `{Errno} `{ProcEnv}.

(** The process [proc_create] adds under the current process [c]. *)
Definition new_proc (pid : Z) (name : string) (c : pptr) (s : kst) : proc :=
  Proc pid (comm_of name) [] [] (Some c) 0 PROC_RUNNING (pt_create_pagedir s).

Definition add_proc (p : pptr) (x : proc) (c : pptr) (y : proc) (s : kst) : kst :=
  set_proc_list (λ l, l ++ [p])
    (set_procs (insert c (with_children (λ l, l ++ [p]) y))
      (set_queues (insert (p_wait p) (Ktqueue [] 0))
        (set_procs (insert p x) s))).

Lemma proc_create_eval name c y p s :
  table_wf s → curproc s = Some c → procs s !! c = Some y →
  slab_alloc_proc s = Some p →
  PID_IDLE ∈ pids s (proc_list s) → PID_INIT ∈ pids s (proc_list s) →
  ∃ pid s1, getid_result s pid s1 ∧
    proc_create name s = Ret p (add_proc p (new_proc pid name c s1) c y s1).
Proof.
  intros Hwf Hc Hy Hp Hidle Hinit.
  destruct (proc_getid_spec s) as (pid & s1 & Hget & Hres);
    [by apply table_wf_live|apply Hwf|].
  exists pid, s1. split; [done|]. unfold proc_create. msimpl. rewrite Hp. cbn [obind].
  rewrite Hget. cbn [obind].
  assert (pid ∉ pids s (proc_list s)) as Hfree.
  { destruct Hres as [(-> & _)|(k & _ & _ & Hn & _)]; [|done].
    rewrite elem_of_pids. intros (q & x & _ & Hx & Hv).
    pose proof (tb_range s Hwf _ _ Hx). lia. }
  destruct (Z.eqb_spec PID_IDLE pid) as [<-|_]; [done|]. cbn [negb orb obind].
  destruct (Z.eqb_spec PID_INIT pid) as [<-|Hni]; [done|]. cbn [obind].
  assert (pid =? PID_INIT = false) as -> by (apply Z.eqb_neq; congruence). cbn [obind].
  unfold sched_queue_init, upd_queue. cbn [obind].
  assert (curproc s1 = Some c ∧ procs s1 = procs s) as [Hc1 Hp1].
  { destruct Hres as [(_ & -> & _)|(k & _ & _ & _ & _ & ->)]; done. }
  rewrite Hc1. unfold upd_proc.
  assert (p ≠ c) as Hpc by (intros <-; apply slab_proc_fresh in Hp; congruence).
  simpl. rewrite lookup_insert_ne, Hp1, Hy by done. done.
Qed.

(** Hanging a fresh leaf under a running process. *)
Definition add_leaf (p : pptr) (x : proc) (c : pptr) (y : proc) (ps : gmap pptr proc) :=
  <[c := with_children (λ l, l ++ [p]) y]> (<[p := x]> ps).

Lemma add_leaf_lookup p x c y ps q z :
  p ≠ c → add_leaf p x c y ps !! q = Some z →
  (q = c ∧ z = with_children (λ l, l ++ [p]) y) ∨ (q = p ∧ z = x) ∨
  (q ≠ c ∧ q ≠ p ∧ ps !! q = Some z).
Proof. intros Hne. unfold add_leaf. rewrite !lookup_insert_Some. naive_solver. Qed.

(** The processes that were there keep their state and parent. *)
Lemma add_leaf_keeps p x c y ps q z :
  ps !! p = None → ps !! c = Some y → ps !! q = Some z →
  ∃ z', add_leaf p x c y ps !! q = Some z' ∧ p_state z' = p_state z ∧
    (∀ d, d ∈ p_children z → d ∈ p_children z') ∧ p_pproc z' = p_pproc z ∧ p_pid z' = p_pid z.
Proof.
  intros Hp Hc Hq. unfold add_leaf. destruct (decide (q = c)) as [->|Hqc].
  - rewrite lookup_insert_eq. simplify_eq. eexists. split; [done|]. simpl. set_solver.
  - rewrite !lookup_insert_ne by congruence. eauto 10.
Qed.

Lemma add_leaf_tree p x c y ps :
  tree_wf ps → ps !! p = None → ps !! c = Some y → p_state y = PROC_RUNNING →
  p_pproc x = Some c → p_children x = [] →
  tree_wf (add_leaf p x c y ps).
Proof.
  intros Hwf Hp Hy Hyr Hxp Hxc.
  assert (p ≠ c) as Hne by congruence.
  pose proof (λ q z, add_leaf_keeps p x c y ps q z Hp Hy) as Hkeep.
  assert (∀ q z r, ps !! q = Some z → p_pproc z = Some r →
    q ≠ r ∧ ∃ w, add_leaf p x c y ps !! r = Some w ∧ p_state w = PROC_RUNNING ∧ q ∈ p_children w) as Hpar.
  { intros q z r Hq Hr. destruct (tr_parent ps Hwf q z r) as (Hqr & w & Hw & Hwr & Hin); [done..|].
    destruct (Hkeep r w Hw) as (w' & Hw' & Hst & Hch & _). split; [done|]. exists w'. rewrite Hst. auto. }
  assert (∀ q z d, ps !! q = Some z → p_state z = PROC_RUNNING → d ∈ p_children z →
    ∃ w, add_leaf p x c y ps !! d = Some w ∧ p_pproc w = Some q) as Hchd.
  { intros q z d Hq Hr Hd. destruct (tr_child ps Hwf q z d) as (w & Hw & Hwp); [done..|].
    destruct (Hkeep d w Hw) as (w' & Hw' & _ & _ & Hpp & _). exists w'. by rewrite Hpp. }
  split.
  - intros q z r Hq Hr. apply add_leaf_lookup in Hq as [(-> & ->)|[(-> & ->)|(_ & _ & Hq)]];
      [by eapply Hpar| |by eapply Hpar|done].
    rewrite Hxp in Hr. simplify_eq. unfold add_leaf. rewrite lookup_insert_eq.
    split; [done|]. eexists. split; [done|]. simpl. split; [done|]. apply elem_of_app. right. by left.
  - intros q z d Hq Hzr Hd. apply add_leaf_lookup in Hq as [(-> & ->)|[(-> & ->)|(_ & _ & Hq)]];
      [| |by eapply Hchd|done].
    + simpl in Hd. apply elem_of_app in Hd as [Hd|Hd%list_elem_of_singleton]; [by eapply Hchd|].
      subst d. exists x. split; [|done]. unfold add_leaf. by rewrite lookup_insert_ne, lookup_insert_eq.
    + rewrite Hxc in Hd. by apply elem_of_nil in Hd.
  - intros q z Hq Hzr. apply add_leaf_lookup in Hq as [(-> & ->)|[(-> & ->)|(_ & _ & Hq)]];
      [| |by eapply (tr_nodup ps Hwf)|done].
    + simpl. apply NoDup_app. split_and!; [by eapply (tr_nodup ps Hwf)| |apply NoDup_singleton].
      intros d Hd Hd'. apply list_elem_of_singleton in Hd' as ->.
      destruct (tr_child ps Hwf c y p) as (w & Hw & _); [done..|]. congruence.
    + rewrite Hxc. constructor.
Qed.

Lemma add_proc_table p x c y s :
  table_wf s → procs s !! p = None → procs s !! c = Some y →
  0 <= p_pid x < PROC_MAX_COUNT → p_pid x ∉ pids s (proc_list s) →
  table_wf (add_proc p x c y s).
Proof.
  intros Hwf Hp Hy Hxr Hfree.
  assert (p ≠ c) as Hne by congruence.
  assert (∀ q z, procs s !! q = Some z → p_pid z ≠ p_pid x) as Hpid.
  { intros q z Hq He. apply Hfree, elem_of_pids. exists q, z.
    split_and!; [apply (tb_list s Hwf); by eexists|done|done]. }
  split; cbn [add_proc set_proc_list set_procs procs proc_list next_pid set_queues];
    fold (add_leaf p x c y (procs s)).
  - intros q. rewrite elem_of_app, list_elem_of_singleton, (tb_list s Hwf).
    unfold add_leaf. rewrite !lookup_insert_is_Some'. naive_solver.
  - apply NoDup_app. split_and!; [apply Hwf| |apply NoDup_singleton].
    intros q Hq Hq'. apply list_elem_of_singleton in Hq' as ->.
    apply (tb_list s Hwf) in Hq as [z Hz]. congruence.
  - intros q1 q2 z1 z2 H1' H2' He.
    apply add_leaf_lookup in H1' as [(-> & ->)|[(-> & ->)|(_ & _ & H1')]];
      apply add_leaf_lookup in H2' as [(-> & ->)|[(-> & ->)|(_ & _ & H2')]]; try done; simpl in He.
    all: try by eapply (tb_pids s Hwf).
    all: exfalso; eapply Hpid; eauto.
  - intros q z Hq. apply add_leaf_lookup in Hq as [(-> & ->)|[(-> & ->)|(_ & _ & Hq)]];
      [exact (tb_range s Hwf _ _ Hy)|done|exact (tb_range s Hwf _ _ Hq)|done].
  - apply Hwf.
Qed.
(** ** Starting processes *)

(** A queue that is initialised while nobody waits in it. *)
Lemma queues_wf_init q s :
  queues_wf s → qlist s q = [] → queues_wf (set_queues (insert q (Ktqueue [] 0)) s).
Proof.
  intros [Hc Hd Hn Hs] Hq.
  assert (∀ q', qlist (set_queues (insert q (Ktqueue [] 0)) s) q' = qlist s q') as E.
  { intros q'. unfold qlist, queue in *. simpl. destruct (decide (q' = q)) as [->|].
    - by rewrite lookup_insert_eq.
    - by rewrite lookup_insert_ne. }
  split.
  - intros t th q'. rewrite E. apply Hc.
  - intros t q'. rewrite E. apply Hd.
  - intros q'. rewrite E. apply Hn.
  - intros q'. rewrite E, <- Hs. unfold queue; simpl. destruct (decide (q' = q)) as [->|].
    + rewrite lookup_insert_eq. simpl. specialize (Hs q). unfold queue in Hs. rewrite Hs, Hq. done.
    + by rewrite lookup_insert_ne.
Qed.

(** A new thread, on no queue. *)
Lemma sched_wf_new t th s :
  sched_wf s → threads s !! t = None → kt_wchan th = None → kt_state th = KT_RUN →
  sched_wf (set_threads (insert t th) s).
Proof.
  intros [[Hc Hd Hn Hs] Ht] Hnew Hw Hst. split; [split|]; try done.
  - intros u uh q. simpl. change (qlist (set_threads _ s) q) with (qlist s q).
    rewrite lookup_insert_Some. intros [[<- <-]|[_ Hu]]; [|by apply Hc].
    rewrite Hw. split; [done|]. intros [? Hx]%Hd. congruence.
  - intros u q Hu. simpl. rewrite lookup_insert_is_Some'. right. by eapply Hd.
  - intros u uh. simpl. rewrite lookup_insert_Some. intros [[_ <-]|[_ Hu]]; [|by eapply Ht].
    unfold thread_ok. rewrite Hw, Hst. done.
Qed.

(** The new process [c] of process [p], with its thread [tc]. *)
Definition spawned (c : pptr) (z : proc) (p : pptr) (x : proc) (tc : tid) (th : kthread) (s : kst) : kst :=
  move tc (woken th) (set_threads (insert tc th) (add_proc c z p x s)).

Definition newborn (pid : Z) (name : string) (tc : tid) (p : pptr) (s : kst) : proc :=
  Proc pid (comm_of name) [tc] [] (Some p) 0 PROC_RUNNING (pt_create_pagedir s).

Lemma add_proc_sched c z p x s :
  sched_wf s → qlist s (p_wait c) = [] → sched_wf (add_proc c z p x s).
Proof.
  intros [Hq Ht] Hc. split; [|done]. pose proof (queues_wf_init (p_wait c) s Hq Hc) as [A D E F]. by split.
Qed.

Lemma spawned_eq c pid name p s1 x tc tch s :
  c ≠ p →
  set_procs (insert c (with_threads (λ l, l ++ [tc]) (new_proc pid name p s1)))
    (set_threads (insert tc tch) (add_proc c (new_proc pid name p s1) p x s)) =
  set_threads (insert tc tch) (add_proc c (newborn pid name tc p s1) p x s).
Proof.
  intros Hne. unfold add_proc, set_procs, set_threads, set_proc_list, set_queues; simpl. f_equal.
  rewrite insert_insert_ne by done. by rewrite insert_insert_eq.
Qed.

Lemma pids_length s l : (length (pids s l) ≤ length l)%nat.
Proof.
  induction l as [|p l IH]; [done|]. change (pids s (p :: l)) with
    (match p_pid <$> procs s !! p with Some v => v :: pids s l | None => pids s l end).
  destruct (procs s !! p); simpl; lia.
Qed.

Lemma in_pids s p x : table_wf s → procs s !! p = Some x → p_pid x ∈ pids s (proc_list s).
Proof. intros Htb Hx. apply elem_of_pids. exists p, x. split_and!; [apply (tb_list s Htb); eauto|done..]. Qed.
End create_proofs.

(** ** Clean-up *)

Section cleanup_proofs.
Context `{Machine} `{Errno} `{ProcEnv}.

(** What adopting the processes [l] does to each process. *)
Definition adopt (initp : pptr) (l : list pptr) (q : pptr) (z : proc) : proc :=
  if decide (q = initp) then with_children (λ k, k ++ l) z
  else if decide (q ∈ l) then with_pproc (Some initp) z else z.

Lemma reparent_spec initp l : ∀ s,
  live s (initp :: l) → initp ∉ l →
  reparent initp l s = Ret () (set_procs (pmap (adopt initp l)) s).
Proof.
  induction l as [|c l IH]; intros s Hl Hin; cbn [reparent].
  - unfold mret, M_ret. f_equal. destruct s; unfold set_procs; simpl. f_equal.
    apply map_eq. intros q. rewrite lookup_pmap. destruct (_ !! q) as [z|]; [|done]. simpl. f_equal.
    unfold adopt. repeat case_decide; [|by apply elem_of_nil in H3|done].
    destruct z; unfold with_children; simpl. by rewrite app_nil_r.
  - apply not_elem_of_cons in Hin as [Hne Hin].
    destruct (Hl initp) as [i Hi]; [by left|]. destruct (Hl c) as [x Hx]; [by right; left|].
    unfold upd_proc. msimpl. rewrite Hi. cbn [obind]. simpl.
    rewrite lookup_insert_ne, Hx by done. cbn [obind]. rewrite IH; [|  |done].
    + f_equal. destruct s; unfold set_procs; simpl in *. f_equal.
      rewrite (insert_pmap initp (with_children _)), (insert_pmap c (with_pproc _)) by
        (rewrite ?lookup_pmap, ?Hx; simpl; rewrite ?decide_False by done; done).
      rewrite !pmap_pmap. apply pmap_ext. intros q z. unfold adopt.
      destruct (decide (q = initp)) as [->|].
      * rewrite decide_False by done. unfold with_children; simpl. by rewrite <- app_assoc.
      * destruct (decide (q = c)) as [->|].
        { rewrite (decide_True (P := c ∈ c :: l)) by (by left). by case_decide. }
        destruct (decide (q ∈ l)); [rewrite decide_True by (by right)|rewrite decide_False]; [done|done|].
        rewrite not_elem_of_cons. done.
    + intros q Hq. simpl. rewrite !lookup_insert_is_Some'.
      right; right. apply Hl. set_solver.
Qed.

(** What the exit of [cp], whose children are [l], does to each process. *)
Definition exit_tree (initp cp : pptr) (l : list pptr) (status : Z) (q : pptr) (z : proc) : proc :=
  if decide (q = cp) then with_exit status PROC_DEAD (adopt initp l q z) else adopt initp l q z.

Lemma adopt_state initp l q z : p_state (adopt initp l q z) = p_state z.
Proof. unfold adopt. by repeat case_decide. Qed.

Lemma adopt_pid initp l q z : p_pid (adopt initp l q z) = p_pid z.
Proof. unfold adopt. by repeat case_decide. Qed.

Lemma adopt_children initp l q z :
  p_children (adopt initp l q z) = p_children z ++ (if decide (q = initp) then l else []).
Proof. unfold adopt. repeat case_decide; simpl; by rewrite ?app_nil_r. Qed.

Lemma adopt_pproc initp l q z : initp ∉ l →
  p_pproc (adopt initp l q z) = if decide (q ∈ l) then Some initp else p_pproc z.
Proof.
  intros Hn. unfold adopt. destruct (decide (q = initp)) as [->|]; [by rewrite decide_False|].
  by case_decide.
Qed.

Lemma exit_tree_pproc initp cp l status q z : initp ∉ l →
  p_pproc (exit_tree initp cp l status q z) = if decide (q ∈ l) then Some initp else p_pproc z.
Proof. intros Hn. unfold exit_tree. case_decide; simpl; by apply adopt_pproc. Qed.

Lemma exit_tree_children initp cp l status q z :
  p_children (exit_tree initp cp l status q z) =
    p_children z ++ (if decide (q = initp) then l else []).
Proof. unfold exit_tree. case_decide; simpl; by apply adopt_children. Qed.

Lemma exit_tree_running initp cp l status q z :
  p_state (exit_tree initp cp l status q z) = PROC_RUNNING ↔ q ≠ cp ∧ p_state z = PROC_RUNNING.
Proof. unfold exit_tree. case_decide; simpl; rewrite ?adopt_state; naive_solver. Qed.

Lemma exit_tree_pid initp cp l status q z : p_pid (exit_tree initp cp l status q z) = p_pid z.
Proof. unfold exit_tree. case_decide; simpl; apply adopt_pid. Qed.

Lemma exit_tree_wf initp i cp x status ps :
  tree_wf ps → ps !! cp = Some x → p_state x = PROC_RUNNING →
  ps !! initp = Some i → p_state i = PROC_RUNNING → initp ≠ cp → initp ∉ p_children x →
  tree_wf (pmap (exit_tree initp cp (p_children x) status) ps).
Proof.
  intros Hwf Hx Hxr Hi Hir Hic Hin. set (l := p_children x) in *.
  assert (∀ d z, ps !! d = Some z → d ∈ l ↔ p_pproc z = Some cp) as Hl.
  { intros d z Hd. split.
    - intros Hdl. destruct (tr_child ps Hwf cp x d) as (z' & Hz' & Hp); [done..|]. congruence.
    - intros Hp. destruct (tr_parent ps Hwf d z cp) as (_ & y & Hy & _ & Hyc); [done..|].
      by simplify_eq. }
  split.
  - intros c z p (y & Hy & ->)%pmap_Some. rewrite exit_tree_pproc by done. case_decide as Hc.
    + intros [= <-]. split; [by intros ->|]. rewrite lookup_pmap, Hi. eexists. split; [done|].
      rewrite exit_tree_running, exit_tree_children, decide_True by done. set_solver.
    + intros Hp. destruct (tr_parent ps Hwf c y p) as (Hne & w & Hw & Hwr & Hcw); [done..|].
      split; [done|]. rewrite lookup_pmap, Hw. eexists. split; [done|].
      rewrite exit_tree_running, exit_tree_children, elem_of_app. split_and!; [|done|by left].
      intros ->. apply Hc. by apply (Hl c y).
  - intros p z c (y & Hy & ->)%pmap_Some. rewrite exit_tree_running, exit_tree_children, elem_of_app.
    intros [Hpc Hyr] Hc. rewrite lookup_pmap. destruct Hc as [Hc|Hc].
    + destruct (tr_child ps Hwf p y c) as (w & Hw & Hwp); [done..|]. rewrite Hw. eexists. split; [done|].
      rewrite exit_tree_pproc, decide_False; [done| |done]. rewrite (Hl c w Hw). congruence.
    + case_decide as Hpi; [|by apply elem_of_nil in Hc]. subst p.
      destruct (tr_child ps Hwf cp x c) as (w & Hw & Hwp); [done..|]. rewrite Hw. eexists. split; [done|].
      by rewrite exit_tree_pproc, decide_True.
  - intros p z (y & Hy & ->)%pmap_Some. rewrite exit_tree_running, exit_tree_children. intros [Hpc Hyr].
    apply NoDup_app. split_and!; [by eapply (tr_nodup ps Hwf)| |case_decide; [by eapply (tr_nodup ps Hwf)|constructor]].
    intros d Hd Hd'. case_decide; [|by apply elem_of_nil in Hd'].
    destruct (tr_child ps Hwf p y d) as (w & Hw & Hwp); [done..|].
    apply (Hl d w Hw) in Hd'. congruence.
Qed.

(** What waking a parent that may be waiting does. *)
Definition notified (q : qid) (s s' : kst) : Prop :=
  (qlist s q = [] ∧ s' = s) ∨
  (∃ thr t, last (qlist s q) = Some thr ∧ threads s !! thr = Some t ∧ s' = move thr (woken t) s).

Lemma sched_wakeup_on_notified q s :
  sched_wf s → q ≠ kt_runq →
  ∃ r s', sched_wakeup_on q s = Ret r s' ∧ notified q s s' ∧ sched_wf s' ∧ frame s s'.
Proof.
  intros Hwf Hq. destruct (last (qlist s q)) as [thr|] eqn:Hl.
  - destruct (wf_dom s (wf_queues s Hwf) thr q) as [t Ht]; [by apply last_Some_elem_of|].
    eexists _, _. rewrite (sched_wakeup_on_spec q thr t) by done.
    split; [done|]. split; [right; eauto|]. auto with sched.
  - apply last_None in Hl. eexists _, _. rewrite sched_wakeup_on_nil by done.
    split; [done|]. split; [by left|]. by split.
Qed.

Lemma notified_thread q s s' u t :
  notified q s s' → threads s !! u = Some t → u ∉ qlist s q → threads s' !! u = Some t.
Proof.
  intros [[_ ->]|(thr & t' & Hl & Ht & ->)] Hu Hn; [done|].
  rewrite lookup_move_ne; [done|]. intros ->. by apply Hn, last_Some_elem_of.
Qed.

(** The state in which a process that is not the init process cleans up:
    its thread has been marked as exited, it has a parent, and the init
    process, which is not one of its children, runs. *)
Record exiting (s : kst) (cp : pptr) (x : proc) (pp initp : pptr) (i : proc) : Prop := {
  ex_cur : curproc s = Some cp;
  ex_proc : procs s !! cp = Some x;
  ex_running : p_state x = PROC_RUNNING;
  ex_pid : 1 <= p_pid x;
  ex_parent : p_pproc x = Some pp;
  ex_initproc : proc_initproc s = Some initp;
  ex_init : procs s !! initp = Some i;
  ex_init_running : p_state i = PROC_RUNNING;
  ex_not_init : initp ≠ cp;
  ex_init_child : initp ∉ p_children x;
  ex_thread : ∃ t th, curthr s = Some t ∧ threads s !! t = Some th ∧
    kt_state th = KT_EXITED ∧ kt_wchan th = None;
}.

Lemma proc_cleanup_eval status s cp x pp initp i :
  sched_wf s → tree_wf (procs s) → exiting s cp x pp initp i →
  ∃ s1, notified (p_wait pp) s s1 ∧ sched_wf s1 ∧ frame s s1 ∧
    proc_cleanup status s =
      Ret () (set_procs (pmap (exit_tree initp cp (p_children x) status)) s1).
Proof.
  intros Hwf Htr [Hcur Hx Hxr Hpid Hpp Hip Hi Hir Hni Hnc (t & th & Ht & Hth & Hst & Hwc)].
  destruct (tr_parent _ Htr cp x pp) as (_ & y & Hy & _); [done..|].
  destruct (sched_wakeup_on_notified (p_wait pp) s) as (r & s1 & Hwk & Hno & Hwf1 & Hfr); [done..|].
  exists s1. split_and!; [done..|].
  unfold proc_cleanup, cur_proc, cur_thread, proc_at. msimpl. rewrite Hip. cbn [obind].
  rewrite Hcur. cbn [obind]. rewrite Hx. cbn [obind].
  rewrite (proj2 (Z.leb_le _ _)) by done. cbn [obind].
  rewrite Hpp. cbn [obind]. rewrite Hy. cbn [obind]. rewrite Hwk. cbn [obind].
  rewrite (bool_decide_eq_false_2 (cp = initp)) by done. cbn [negb orb obind].
  rewrite reparent_spec; [|  |done].
  2:{ intros q Hq. rewrite (fr_procs _ _ Hfr). apply elem_of_cons in Hq as [->|Hq]; [by eexists|].
      destruct (tr_child _ Htr cp x q) as (z & Hz & _); [done..|]. by eexists. }
  cbn [obind]. unfold upd_proc at 1. simpl. rewrite lookup_pmap, (fr_procs _ _ Hfr), Hx. simpl.
  rewrite lookup_insert_eq. cbn [obind]. simpl.
  assert (is_Some (p_pproc (adopt initp (p_children x) cp x))) as Hsome.
  { rewrite adopt_pproc by done. case_decide; [by eexists|]. rewrite Hpp. by eexists. }
  rewrite (bool_decide_eq_true_2 (is_Some _)) by done. cbn [obind].
  simpl. rewrite (fr_curthr _ _ Hfr), Ht. cbn [obind]. unfold thread_at. simpl.
  rewrite (notified_thread _ _ _ _ _ Hno Hth) by (eapply wchan_none_absent; eauto with sched).
  cbn [obind]. rewrite bool_decide_eq_true_2 by done. cbn [obind].
  f_equal. unfold set_procs; simpl. rewrite (fr_procs _ _ Hfr). f_equal.
  rewrite (insert_pmap cp (with_exit status PROC_DEAD)) by (by rewrite lookup_pmap, Hx).
  rewrite pmap_pmap. apply pmap_ext. intros q z. unfold exit_tree. by case_decide.
Qed.
End cleanup_proofs.

(** ** Reaping *)

Section wait_proofs.
Context `{Machine} `{Errno} `{ProcEnv}.

Definition is_dead (s : kst) (p : pptr) : Prop := p_state <$> procs s !! p = Some PROC_DEAD.
Definition has_pid (s : kst) (pid : Z) (p : pptr) : Prop := p_pid <$> procs s !! p = Some pid.

#[global] Instance is_dead_dec s p : Decision (is_dead s p).
Proof. unfold is_dead. apply _. Defined.
#[global] Instance has_pid_dec s pid p : Decision (has_pid s pid p).
Proof. unfold has_pid. apply _. Defined.

Lemma find_dead_spec l s :
  live s l → find_dead l s = Ret (head (filter (is_dead s) l)) s.
Proof.
  induction l as [|p l IH]; intros Hl; [done|]. apply live_cons in Hl as [[x Hx] Hl].
  cbn [find_dead]. unfold proc_at. msimpl. rewrite Hx. cbn [obind].
  case_bool_decide as Hd.
  - rewrite filter_cons_True; [done|]. unfold is_dead. rewrite Hx. simpl. by rewrite Hd.
  - rewrite filter_cons_False; [auto|]. unfold is_dead. rewrite Hx. simpl. congruence.
Qed.

Lemma find_child_spec pid l s :
  live s l → find_child pid l s = Ret (head (filter (has_pid s pid) l)) s.
Proof.
  induction l as [|p l IH]; intros Hl; [done|]. apply live_cons in Hl as [[x Hx] Hl].
  cbn [find_child]. unfold proc_at. msimpl. rewrite Hx. cbn [obind].
  destruct (Z.eqb_spec (p_pid x) pid) as [Hd|Hd].
  - rewrite filter_cons_True; [done|]. unfold has_pid. rewrite Hx. simpl. by rewrite Hd.
  - rewrite filter_cons_False; [auto|]. unfold has_pid. rewrite Hx. simpl. congruence.
Qed.

Lemma children_live s cp x :
  tree_wf (procs s) → procs s !! cp = Some x → p_state x = PROC_RUNNING → live s (p_children x).
Proof.
  intros Htr Hx Hr p Hp. destruct (tr_child _ Htr cp x p) as (z & Hz & _); [done..|]. by eexists.
Qed.

(** What reaping [p], whose thread is [t], leaves of each process. *)
Definition unlink_child (cp p : pptr) (t : tid) (q : pptr) (z : proc) : proc :=
  with_threads (filter (λ u, u ≠ t))
    (if decide (q = cp) then with_children (filter (λ r, r ≠ p)) z else z).

Definition reaped (cp p : pptr) (t : tid) (s : kst) : kst :=
  set_threads (delete t)
    (set_procs (λ ps, delete p (pmap (unlink_child cp p t) ps))
      (set_proc_list (filter (λ q, q ≠ p)) s)).

(** A zombie: a dead process, its one thread exited and off every queue. *)
Record zombie (s : kst) (p : pptr) (x : proc) (t : tid) : Prop := {
  zo_proc : procs s !! p = Some x;
  zo_dead : p_state x = PROC_DEAD;
  zo_pagedir : is_Some (p_pagedir x);
  zo_threads : head (p_threads x) = Some t;
  zo_thread : ∃ th, threads s !! t = Some th ∧ is_Some (kt_kstack th) ∧ kt_wchan th = None;
}.

Lemma dispose_eval cp y p x t s :
  curproc s = Some cp → procs s !! cp = Some y → p_state y = PROC_RUNNING → zombie s p x t →
  dispose p s = Ret () (reaped cp p t s).
Proof.
  intros Hc Hy Hyr [Hx Hd _ Ht (th & Hth & Hk & _)].
  assert (p ≠ cp) as Hne by congruence.
  unfold dispose, cur_proc, upd_proc, proc_at, kthread_destroy, thread_at. msimpl.
  rewrite Hc. cbn [obind]. simpl. rewrite Hy. cbn [obind]. simpl.
  rewrite lookup_insert_ne by done. rewrite Hx. cbn [obind]. rewrite Ht. cbn [obind]. simpl.
  rewrite Hth. cbn [obind]. rewrite bool_decide_eq_true_2 by done. cbn [obind].
  f_equal. unfold reaped, set_threads, set_procs, set_proc_list; simpl. f_equal. f_equal.
  rewrite (insert_pmap cp (with_children _)) by done.
  apply map_eq. intros q. rewrite lookup_fmap, !lookup_pmap. by destruct (procs s !! q).
Qed.

Lemma unlink_child_pproc cp p t q z : p_pproc (unlink_child cp p t q z) = p_pproc z.
Proof. unfold unlink_child. by case_decide. Qed.
Lemma unlink_child_state cp p t q z : p_state (unlink_child cp p t q z) = p_state z.
Proof. unfold unlink_child. by case_decide. Qed.
Lemma unlink_child_pid cp p t q z : p_pid (unlink_child cp p t q z) = p_pid z.
Proof. unfold unlink_child. by case_decide. Qed.
Lemma unlink_child_children cp p t q z :
  p_children (unlink_child cp p t q z) =
    if decide (q = cp) then filter (λ r, r ≠ p) (p_children z) else p_children z.
Proof. unfold unlink_child. by case_decide. Qed.

Lemma reaped_tree cp p x t ps :
  tree_wf ps → ps !! p = Some x → p_state x = PROC_DEAD → p_pproc x = Some cp →
  tree_wf (delete p (pmap (unlink_child cp p t) ps)).
Proof.
  intros Hwf Hx Hd Hp. split.
  - intros c z q [Hpc (y & Hy & ->)%pmap_Some]%lookup_delete_Some. rewrite unlink_child_pproc. intros Hq.
    destruct (tr_parent ps Hwf c y q) as (Hne & w & Hw & Hwr & Hin); [done..|]. split; [done|].
    exists (unlink_child cp p t q w). rewrite lookup_delete_Some, lookup_pmap, Hw.
    rewrite unlink_child_state, unlink_child_children. split_and!; [by intros ->; congruence|done|done|].
    case_decide; [|done]. rewrite list_elem_of_filter. done.
  - intros q z c [Hpc (y & Hy & ->)%pmap_Some]%lookup_delete_Some.
    rewrite unlink_child_state, unlink_child_children. intros Hr Hc.
    assert (c ∈ p_children y) as Hcy by (case_decide; [apply list_elem_of_filter in Hc as [_ ?]|]; done).
    destruct (tr_child ps Hwf q y c) as (w & Hw & Hwp); [done..|].
    exists (unlink_child cp p t c w). rewrite lookup_delete_Some, lookup_pmap, Hw, unlink_child_pproc.
    split_and!; [|done|done]. intros <-. simplify_eq.
    rewrite decide_True in Hc by done. apply list_elem_of_filter in Hc as [? _]. done.
  - intros q z [Hpc (y & Hy & ->)%pmap_Some]%lookup_delete_Some.
    rewrite unlink_child_state, unlink_child_children. intros Hr.
    pose proof (tr_nodup ps Hwf q y Hy Hr). case_decide; [by apply NoDup_filter|done].
Qed.

Lemma reaped_table cp p t s : table_wf s → table_wf (reaped cp p t s).
Proof.
  intros [Hl Hn Hp Hr Hx].
  split; cbn [reaped set_threads set_procs set_proc_list procs proc_list next_pid]; auto.
  - intros q. rewrite list_elem_of_filter, Hl, lookup_delete_is_Some, lookup_pmap, fmap_is_Some.
    naive_solver.
  - by apply NoDup_filter.
  - intros q1 q2 z1 z2 [_ (y1 & Hy1 & ->)%pmap_Some]%lookup_delete_Some
      [_ (y2 & Hy2 & ->)%pmap_Some]%lookup_delete_Some. rewrite !unlink_child_pid. eauto.
  - intros q z [_ (y & Hy & ->)%pmap_Some]%lookup_delete_Some. rewrite unlink_child_pid. eauto.
Qed.

Lemma waitpid_any_dead fuel cp y p x t s :
  tree_wf (procs s) → curproc s = Some cp → procs s !! cp = Some y → p_state y = PROC_RUNNING →
  head (filter (is_dead s) (p_children y)) = Some p → zombie s p x t →
  waitpid_any fuel s = Ret (p_pid x, Some (p_status x)) (reaped cp p t s).
Proof.
  intros Htr Hc Hy Hyr Hp Hz. pose proof (zo_proc _ _ _ _ Hz) as Hx.
  assert (live s (p_children y)) as Hl by (by eapply children_live).
  destruct fuel; cbn [waitpid_any]; unfold cur_proc, proc_at; msimpl; rewrite Hc; cbn [obind];
    rewrite Hy; cbn [obind]; rewrite find_dead_spec by done; cbn [obind]; rewrite Hp, Hx; cbn [obind];
    rewrite (bool_decide_eq_true_2 (is_Some _)) by apply Hz; cbn [obind];
    rewrite (dispose_eval cp y p x t) by done; done.
Qed.

(** With no dead child the caller sleeps on its own queue and, when it
    runs again, looks again. *)
Lemma waitpid_any_sleeps fuel cp y cur th s :
  sched_wf s → tree_wf (procs s) → curproc s = Some cp → procs s !! cp = Some y →
  p_state y = PROC_RUNNING → filter (is_dead s) (p_children y) = [] →
  curthr s = Some cur → threads s !! cur = Some th → kt_wchan th = None →
  waitpid_any (S fuel) s =
    obind (λ _, waitpid_any fuel) (sched_switch (move cur (slept (p_wait cp) KT_SLEEP th) s)).
Proof.
  intros Hwf Htr Hc Hy Hyr Hn Hcur Hth Hw.
  assert (live s (p_children y)) as Hl by (by eapply children_live).
  cbn [waitpid_any]. unfold cur_proc, proc_at. msimpl. rewrite Hc. cbn [obind].
  rewrite Hy. cbn [obind]. rewrite find_dead_spec by done. cbn [obind]. rewrite Hn. cbn [head].
  by rewrite (sched_sleep_on_eval _ cur th) by eauto with sched.
Qed.

Lemma wait_until_dead_done fuel p x s :
  procs s !! p = Some x → p_state x = PROC_DEAD → wait_until_dead fuel p s = Ret () s.
Proof.
  intros Hx Hd. destruct fuel; cbn [wait_until_dead]; unfold proc_at; msimpl; rewrite Hx; cbn [obind];
    by rewrite bool_decide_eq_true_2.
Qed.

Lemma wait_until_dead_sleeps fuel p x cp cur th s :
  queues_wf s → procs s !! p = Some x → p_state x ≠ PROC_DEAD → curproc s = Some cp →
  curthr s = Some cur → threads s !! cur = Some th → kt_wchan th = None →
  wait_until_dead (S fuel) p s =
    obind (λ _, wait_until_dead fuel p) (sched_switch (move cur (slept (p_wait cp) KT_SLEEP th) s)).
Proof.
  intros Hwf Hx Hd Hc Hcur Hth Hw. cbn [wait_until_dead]. unfold proc_at, cur_proc. msimpl.
  rewrite Hx. cbn [obind]. rewrite bool_decide_eq_false_2 by done. rewrite Hc. cbn [obind].
  by rewrite (sched_sleep_on_eval _ cur th).
Qed.

(** The prefix of [do_waitpid] for a child that exists. *)
Lemma do_waitpid_pid fuel pid options cp y p x s :
  tree_wf (procs s) → curproc s = Some cp → procs s !! cp = Some y → p_state y = PROC_RUNNING →
  0 < pid → head (filter (has_pid s pid) (p_children y)) = Some p → procs s !! p = Some x →
  is_Some (p_pagedir x) →
  do_waitpid fuel pid options s =
    obind (λ _, dispose p;; mret (p_pid x, Some (p_status x))) (wait_until_dead fuel p s).
Proof.
  intros Htr Hc Hy Hyr Hpid Hp Hx Hpd.
  assert (live s (p_children y)) as Hl by (by eapply children_live).
  unfold do_waitpid, cur_proc, proc_at. msimpl. rewrite Hc. cbn [obind]. rewrite Hy. cbn [obind].
  rewrite bool_decide_eq_false_2 by (intros He; by rewrite He in Hp).
  rewrite (proj2 (Z.eqb_neq pid (-1))), (proj2 (Z.ltb_lt 0 pid)) by lia.
  rewrite find_child_spec by done. cbn [obind]. rewrite Hp, Hx. cbn [obind].
  rewrite (bool_decide_eq_true_2 (is_Some _)) by done. done.
Qed.
End wait_proofs.

(** ** Deciding well-formedness of a concrete table and tree *)

Definition parent_fin (ps : gmap pptr proc) (c : pptr) (x : proc) : Prop :=
  match p_pproc x with
  | None => True
  | Some p => c ≠ p ∧ match ps !! p with
                      | Some y => p_state y = PROC_RUNNING ∧ c ∈ p_children y
                      | None => False
                      end
  end.

Definition children_fin (ps : gmap pptr proc) (p : pptr) (y : proc) : Prop :=
  p_state y = PROC_DEAD ∨
  (NoDup (p_children y) ∧ Forall (λ c, p_pproc <$> ps !! c = Some (Some p)) (p_children y)).

Definition tree_fin (ps : gmap pptr proc) : Prop :=
  map_Forall (λ p y, parent_fin ps p y ∧ children_fin ps p y) ps.

#[global] Instance parent_fin_dec ps c x : Decision (parent_fin ps c x).
Proof. unfold parent_fin. destruct (p_pproc x) as [p|]; [destruct (ps !! p)|]; apply _. Defined.
#[global] Instance children_fin_dec ps p y : Decision (children_fin ps p y).
Proof. unfold children_fin. apply _. Defined.
#[global] Instance tree_fin_dec ps : Decision (tree_fin ps).
Proof. unfold tree_fin. apply _. Defined.

Lemma tree_fin_wf ps : tree_fin ps → tree_wf ps.
Proof.
  intros Hf. split.
  - intros c x p Hc Hp. destruct (Hf c x Hc) as [Hpar _]. unfold parent_fin in Hpar.
    rewrite Hp in Hpar. destruct (ps !! p) as [y|]; naive_solver.
  - intros p y c Hp Hr Hc. destruct (Hf p y Hp) as [_ [Hd|[_ Hch]]]; [congruence|].
    rewrite Forall_forall in Hch. specialize (Hch c Hc). by apply fmap_Some in Hch as (x & Hx & ->); eauto.
  - intros p y Hp Hr. destruct (Hf p y Hp) as [_ [Hd|[Hn _]]]; [congruence|done].
Qed.

Definition table_fin `{ProcEnv} (s : kst) : Prop :=
  NoDup (proc_list s) ∧ Forall (λ p, is_Some (procs s !! p)) (proc_list s) ∧
  map_Forall (λ p x, p ∈ proc_list s ∧ 0 <= p_pid x < PROC_MAX_COUNT) (procs s) ∧
  NoDup (pids s (proc_list s)) ∧ 0 <= next_pid s < PROC_MAX_COUNT.

#[global] Instance table_fin_dec `{ProcEnv} s : Decision (table_fin s).
Proof. unfold table_fin. apply _. Defined.

Lemma pids_inj s l p q x y :
  NoDup (pids s l) → p ∈ l → q ∈ l → procs s !! p = Some x → procs s !! q = Some y →
  p_pid x = p_pid y → p = q.
Proof.
  induction l as [|r l IH]; intros Hn Hp Hq Hx Hy He; [by apply elem_of_nil in Hp|].
  assert (pids s (r :: l) = match p_pid <$> procs s !! r with
    | Some v => v :: pids s l | None => pids s l end) as Hc by done. rewrite Hc in Hn.
  apply elem_of_cons in Hp as [->|Hp]; apply elem_of_cons in Hq as [->|Hq]; auto.
  - rewrite Hx in Hn. apply NoDup_cons in Hn as [Hn _]. destruct Hn. apply elem_of_pids; eauto.
  - rewrite Hy in Hn. apply NoDup_cons in Hn as [Hn _]. destruct Hn. apply elem_of_pids; eauto.
  - apply IH; auto. destruct (procs s !! r); [by apply NoDup_cons in Hn as [_ ?]|done].
Qed.

Lemma table_fin_wf `{ProcEnv} s : table_fin s → table_wf s.
Proof.
  intros (Hn & Hl & Hm & Hp & Hx). rewrite Forall_forall in Hl. split; auto.
  - intros p. split; [apply Hl|]. intros [x Hpx]. by apply (Hm p x).
  - intros p q x y Hpx Hqy He. eapply pids_inj; eauto; [by eapply Hm|by eapply Hm].
  - intros p x Hpx. by apply (Hm p x).
Qed.

(** ** Cancelling *)

Section kill_proofs.
Context `{Machine} `{Errno} `{ProcEnv}.

(** What cancelling a thread other than the caller's does to it. *)
Record cancelled_with (status : Z) (th' : kthread) : Prop := {
  cw_cancelled : kt_cancelled th' = true;
  cw_retval : kt_retval th' = status;
  cw_awake : kt_state th' ≠ KT_SLEEP_CANCELLABLE;
}.

Lemma kthread_cancel_other kthr th status s :
  sched_wf s → threads s !! kthr = Some th → curthr s ≠ Some kthr →
  ∃ s' th', kthread_cancel kthr status s = Ret () s' ∧ sched_wf s' ∧ frame s s' ∧
    threads s' = <[kthr := th']> (threads s) ∧ cancelled_with status th'.
Proof.
  intros Hwf Hth Hne. unfold kthread_cancel, upd_thread. msimpl. rewrite Hth. cbn [obind].
  rewrite bool_decide_eq_false_2 by (simpl; congruence). simpl. rewrite lookup_insert_eq. simpl.
  set (th1 := with_retval status (with_cancelled true th)).
  set (s1 := set_threads _ _).
  assert (s1 = set_threads (insert kthr th1) s) as ->.
  { unfold s1, set_threads; simpl. f_equal. apply insert_insert_eq. }
  assert (sched_wf (set_threads (insert kthr th1) s)) as Hwf1.
  { eapply sched_wf_upd; eauto. by apply (wf_threads s Hwf _ _ Hth). }
  assert (threads (set_threads (insert kthr th1) s) !! kthr = Some th1) as Hth1 by apply lookup_insert_eq.
  rewrite (sched_cancel_spec kthr th1) by done. pose proof (cancelled_wf kthr th1 _ Hwf1 Hth1) as Hwf2.
  unfold cancelled in *. case_decide as Hc.
  - eexists _, (woken (with_cancelled true th1)). split; [done|]. split_and!; try done.
    simpl. by rewrite insert_insert_eq.
  - eexists _, (with_cancelled true th1). split; [done|]. split_and!; try done.
    simpl. by rewrite insert_insert_eq.
Qed.

Lemma cancel_all_spec l status : ∀ s,
  sched_wf s → (∀ t, t ∈ l → is_Some (threads s !! t) ∧ curthr s ≠ Some t) →
  ∃ s', cancel_all l status s = Ret () s' ∧ sched_wf s' ∧ frame s s' ∧
    dom (threads s') = dom (threads s) ∧
    (∀ t th', t ∈ l → threads s' !! t = Some th' → cancelled_with status th') ∧
    (∀ u, u ∉ l → threads s' !! u = threads s !! u).
Proof.
  induction l as [|t l IH]; intros s Hwf Hl; cbn [cancel_all].
  - exists s. split_and!; try done. intros t th' Ht. by apply elem_of_nil in Ht.
  - destruct (Hl t) as [[th Hth] Hcur]; [by left|].
    destruct (kthread_cancel_other t th status s) as (s1 & th1 & Hx & Hwf1 & Hf1 & Ht1 & Hc1); [done..|].
    assert (dom (threads s1) = dom (threads s)) as Hd1.
    { rewrite Ht1, dom_insert_L. apply elem_of_dom_2 in Hth. set_solver. }
    destruct (IH s1) as (s2 & Hx2 & Hwf2 & Hf2 & Hd2 & Hc2 & Hu2); [done| |].
    { intros u Hu. destruct (Hl u) as [Hs Hn]; [by right|]. rewrite (fr_curthr _ _ Hf1). split; [|done].
      rewrite Ht1. apply lookup_insert_is_Some'. by right. }
    exists s2. unfold mbind, M_bind. rewrite Hx. cbn [obind]. rewrite Hx2.
    split_and!; [done|done|by transitivity s1|congruence| |].
    + intros u th' Hu Hth'. destruct (decide (u ∈ l)) as [Hin|Hin]; [by eapply Hc2|].
      apply elem_of_cons in Hu as [->|]; [|done].
      rewrite Hu2, Ht1, lookup_insert_eq in Hth' by done. by injection Hth' as <-.
    + intros u [Hne Hin]%not_elem_of_cons. rewrite Hu2, Ht1 by done. by apply lookup_insert_ne.
Qed.

(** [q->p_pproc != NULL && q->p_pproc->p_pid != PID_IDLE], as a predicate. *)
Definition killable (s : kst) (p : pptr) : Prop :=
  Some p ≠ curproc s ∧
  match procs s !! p with
  | Some x => p_pid x ≠ PID_IDLE ∧
      match p_pproc x with
      | Some pp => match procs s !! pp with Some y => p_pid y ≠ PID_IDLE | None => False end
      | None => False
      end
  | None => False
  end.

#[global] Instance killable_dec s p : Decision (killable s p).
Proof.
  unfold killable. destruct (procs s !! p) as [x|]; [destruct (p_pproc x) as [pp|]; [destruct (procs s !! pp)|]|];
    apply _.
Defined.

Lemma killable_frame s s' p : frame s s' → killable s' p ↔ killable s p.
Proof. intros Hf. unfold killable. by rewrite (fr_procs _ _ Hf), (fr_curproc _ _ Hf). Qed.

(** The threads of the processes of [l] that are to be killed. *)
Definition doomed (s : kst) (l : list pptr) (t : tid) : Prop :=
  ∃ p x, p ∈ l ∧ killable s p ∧ procs s !! p = Some x ∧ t ∈ p_threads x.

#[global] Instance doomed_dec s l t : Decision (doomed s l t).
Proof.
  refine (cast_if (decide (Exists (λ p, killable s p ∧ t ∈ default [] (p_threads <$> procs s !! p)) l))).
  - apply Exists_exists in e as (p & Hp & Hk & Ht). destruct (procs s !! p) as [x|] eqn:Hx.
    + by exists p, x.
    + by apply elem_of_nil in Ht.
  - intros (p & x & Hp & Hk & Hx & Ht). apply n, Exists_exists. exists p. by rewrite Hx.
Defined.

Lemma doomed_cons s p x l t : procs s !! p = Some x →
  doomed s (p :: l) t ↔ (killable s p ∧ t ∈ p_threads x) ∨ doomed s l t.
Proof.
  intros Hx. split.
  - intros (q & y & [->|Hq]%elem_of_cons & Hk & Hy & Ht); [left; by simplify_eq|].
    right. by exists q, y.
  - intros [[Hk Ht]|(q & y & Hq & Hk & Hy & Ht)]; [exists p, x|exists q, y];
      (split; [by constructor|done]).
Qed.

Lemma doomed_frame s s' l t : frame s s' → doomed s' l t ↔ doomed s l t.
Proof.
  intros Hf. unfold doomed. rewrite (fr_procs _ _ Hf).
  by setoid_rewrite (killable_frame _ _ _ Hf).
Qed.

(** The test the loop makes. *)
Lemma killable_test s p x :
  tree_wf (procs s) → procs s !! p = Some x →
  ∃ b, parent_not_idle x s = Ret b s ∧
    b && negb (p_pid x =? PID_IDLE) && negb (bool_decide (Some p = curproc s)) =
      bool_decide (killable s p).
Proof.
  intros Htr Hx. unfold parent_not_idle.
  destruct (p_pproc x) as [pp|] eqn:Hpp.
  - destruct (tr_parent _ Htr p x pp) as (_ & y & Hy & _); [done..|].
    assert (killable s p ↔ Some p ≠ curproc s ∧ p_pid x ≠ PID_IDLE ∧ p_pid y ≠ PID_IDLE) as Hk.
    { unfold killable. by rewrite Hx, Hpp, Hy. }
    unfold proc_at. msimpl. rewrite Hy. cbn [obind]. eexists. split; [done|].
    destruct (Z.eqb_spec (p_pid y) PID_IDLE), (Z.eqb_spec (p_pid x) PID_IDLE);
      repeat case_bool_decide; simpl; first [reflexivity | exfalso; tauto].
  - eexists. split; [done|]. symmetry. apply bool_decide_eq_false_2.
    unfold killable. rewrite Hx, Hpp. tauto.
Qed.

Lemma kill_each_spec l : ∀ s,
  sched_wf s → tree_wf (procs s) → live s l →
  (∀ t, doomed s l t → is_Some (threads s !! t) ∧ curthr s ≠ Some t) →
  ∃ s', kill_each l s = Ret () s' ∧ sched_wf s' ∧ frame s s' ∧
    dom (threads s') = dom (threads s) ∧
    (∀ t th', doomed s l t → threads s' !! t = Some th' → cancelled_with 0 th') ∧
    (∀ u, ¬ doomed s l u → threads s' !! u = threads s !! u).
Proof.
  induction l as [|p l IH]; intros s Hwf Htr Hl Hd; cbn [kill_each].
  - exists s. split_and!; try done. intros t th' (p & x & Hp & _). by apply elem_of_nil in Hp.
  - apply live_cons in Hl as [[x Hx] Hl].
    destruct (killable_test s p x) as (b & Hb & Htest); [done..|].
    unfold proc_at. msimpl. rewrite Hx. cbn [obind]. rewrite Hb. cbn [obind]. rewrite Htest.
    assert (∃ s1, (if bool_decide (killable s p) then proc_kill p 0 else λ s, Ret () s) s = Ret () s1 ∧
      sched_wf s1 ∧ frame s s1 ∧ dom (threads s1) = dom (threads s) ∧
      (∀ t th', killable s p → t ∈ p_threads x → threads s1 !! t = Some th' → cancelled_with 0 th') ∧
      (∀ u, ¬ (killable s p ∧ u ∈ p_threads x) → threads s1 !! u = threads s !! u)) as
      (s1 & Hx1 & Hwf1 & Hf1 & Hd1 & Hc1 & Hu1).
    { destruct (decide (killable s p)) as [Hk|Hk];
        [rewrite bool_decide_eq_true_2 by done|rewrite bool_decide_eq_false_2 by done].
      2:{ exists s. split; [done|]. split; [done|]. split; [reflexivity|]. split; [done|].
          split; [|done]. intros t th' Hk'. by destruct (Hk Hk'). }
      unfold proc_kill, proc_at. msimpl. rewrite bool_decide_eq_false_2 by apply Hk. rewrite Hx. cbn [obind].
      destruct (cancel_all_spec (p_threads x) 0 s Hwf) as (s1 & Hx1 & Hwf1 & Hf1 & Hd1 & Hc1 & Hu1).
      { intros t Ht. apply Hd. exists p, x. split_and!; [by left|done..]. }
      exists s1. split_and!; try done; [by intros; eapply Hc1|]. intros u Hu. apply Hu1. tauto. }
    unfold mret, M_ret. rewrite Hx1. cbn [obind].
    pose proof (λ t, doomed_frame s s1 l t Hf1) as Hdoom.
    pose proof (λ t, doomed_cons s p x l t Hx) as Hcons.
    destruct (IH s1) as (s2 & Hx2 & Hwf2 & Hf2 & Hd2 & Hc2 & Hu2); [done|by rewrite (fr_procs _ _ Hf1)| | |].
    { intros q Hq. rewrite (fr_procs _ _ Hf1). by apply Hl. }
    { intros t Ht. rewrite (fr_curthr _ _ Hf1). apply Hdoom in Ht.
      destruct (Hd t) as [Hs Hn]; [apply Hcons; by right|]. split; [|done].
      apply elem_of_dom. rewrite Hd1. by apply elem_of_dom. }
    exists s2. split_and!; [done|done|by transitivity s1|congruence| |].
    + intros t th' Ht Hth'. destruct (decide (doomed s l t)) as [Hin|Hin].
      { apply (Hc2 t); [by apply Hdoom|done]. }
      rewrite Hu2 in Hth' by (by rewrite Hdoom). apply Hcons in Ht as [[Hk Ht]|]; [|done].
      by apply (Hc1 t).
    + intros u Hu. rewrite Hcons in Hu. rewrite Hu2 by (rewrite Hdoom; tauto). apply Hu1. tauto.
Qed.
End kill_proofs.
