(* ===== verification/ProcProps.v ===== *)
(** * Properties of processes

    What creating, exiting, reaping and killing processes promise, proved
    from the lemmas of the process table and tree, and a small system in
    which each is exercised. *)

From S2P Require Import Prelude Kstate Sched Kmutex Proc ProcTree.
Local Open Scope Z_scope.

Section props.
Context `{Machine} `{Errno} `{ProcEnv}.

(** [_proc_getid] always terminates within the fuel of one pass over
    the identifiers.  It returns the first identifier in cyclic order from
    [next_pid] that no process has, and moves [next_pid] behind it; it
    returns -1, and changes nothing, exactly when every identifier below
    [PROC_MAX_COUNT] is in use. *)
Theorem proc_getid_first_free s :
  table_wf s →
  ∃ r s', proc_getid s = Ret r s' ∧ getid_result s r s' ∧
    (r = -1 ↔ ∀ i, 0 <= i < PROC_MAX_COUNT → i ∈ pids s (proc_list s)).
Proof.
  intros Hwf. destruct (proc_getid_spec s) as (r & s' & Hg & Hr); [by apply table_wf_live|apply Hwf|].
  exists r, s'. split_and!; [done..|]. split.
  - intros ->. destruct Hr as [(_ & _ & Hall)|(k & Hk & Hc & _)]; [done|].
    unfold candidate in Hc. pose proof (Z.mod_pos_bound (next_pid s + k) PROC_MAX_COUNT). lia.
  - intros Hall. destruct Hr as [(-> & _)|(k & Hk & Hc & Hn & _)]; [done|]. destruct Hn. apply Hall.
    rewrite Hc. unfold candidate. apply Z.mod_pos_bound. lia.
Qed.

(** [proc_create], called by a running process [c] while an identifier
    is free, adds one process to the table and to the tree: a running
    process without threads or children, child of [c], with an identifier
    no other process has; table and tree stay well formed. *)
Theorem proc_create_adds_child name c y p s :
  proc_wf s → curproc s = Some c → procs s !! c = Some y → p_state y = PROC_RUNNING →
  slab_alloc_proc s = Some p →
  PID_IDLE ∈ pids s (proc_list s) → PID_INIT ∈ pids s (proc_list s) →
  (∃ i, 0 <= i < PROC_MAX_COUNT ∧ i ∉ pids s (proc_list s)) →
  ∃ s' x, proc_create name s = Ret p s' ∧ proc_wf s' ∧
    procs s' !! p = Some x ∧ p_pproc x = Some c ∧ p_state x = PROC_RUNNING ∧
    p_threads x = [] ∧ p_children x = [] ∧ p_comm x = comm_of name ∧
    p_pid x ∉ pids s (proc_list s) ∧ next_pid s' = (p_pid x + 1) mod PROC_MAX_COUNT ∧
    p_children <$> procs s' !! c = Some (p_children y ++ [p]) ∧
    proc_list s' = proc_list s ++ [p].
Proof.
  intros [Htb Htr] Hc Hy Hyr Hp Hidle Hinit (i & Hi & Hfree).
  destruct (proc_create_eval name c y p s) as (pid & s1 & Hres & Hcr); [done..|].
  pose proof (slab_proc_fresh s p Hp) as Hpn.
  destruct Hres as [(-> & -> & Hall)|(k & Hk & Hpid & Hn & _ & ->)]; [by destruct Hfree; apply Hall|].
  assert (0 <= pid < PROC_MAX_COUNT) as Hpr.
  { rewrite Hpid. unfold candidate. apply Z.mod_pos_bound. lia. }
  set (s1 := set_next_pid _ s) in *.
  assert (table_wf s1) as Htb1.
  { destruct Htb as [A B C D E]. split; try done. unfold s1; simpl. apply Z.mod_pos_bound. lia. }
  assert (p ≠ c) as Hpc by congruence.
  eexists _, (new_proc pid name c s1). split; [done|].
  split; [split; [by apply add_proc_table|by apply add_leaf_tree]|].
  split; [simpl; by rewrite lookup_insert_ne, lookup_insert_eq|].
  split_and!; try done. simpl. by rewrite lookup_insert_eq.
Qed.

(** The failure of [_proc_getid] is not checked: when every identifier
    is in use, [proc_create] still creates a process, whose identifier
    is -1. *)
Theorem proc_create_when_full name c y p s :
  proc_wf s → curproc s = Some c → procs s !! c = Some y →
  slab_alloc_proc s = Some p →
  (∀ i, 0 <= i < PROC_MAX_COUNT → i ∈ pids s (proc_list s)) →
  ∃ s' x, proc_create name s = Ret p s' ∧ procs s' !! p = Some x ∧ p_pid x = -1.
Proof.
  intros [Htb Htr] Hc Hy Hp Hall. pose proof proc_max_bounds.
  destruct (proc_create_eval name c y p s) as (pid & s1 & Hres & Hcr);
    [done..|apply Hall; rewrite pid_idle_0; lia|apply Hall; rewrite pid_init_1; lia|].
  pose proof (slab_proc_fresh s p Hp) as Hpn. assert (p ≠ c) as Hpc by congruence.
  destruct Hres as [(-> & -> & _)|(k & Hk & Hpid & Hn & _)].
  - eexists _, (new_proc (-1) name c s). split; [done|].
    split; [simpl; by rewrite lookup_insert_ne, lookup_insert_eq|done].
  - destruct Hn. apply Hall. rewrite Hpid. unfold candidate. apply Z.mod_pos_bound. lia.
Qed.

(** C26. [proc_cleanup], run by the exited thread of a process other than
    init, never fails.  The process becomes a zombie with the given status,
    still a child of its parent; its children become children of init,
    behind those init had; the thread that has waited longest on the
    parent's [p_wait] queue, if any, becomes runnable.  Table, tree and
    queues stay well formed. *)
Theorem proc_cleanup_reparents status s cp x pp initp i :
  sched_wf s → proc_wf s → exiting s cp x pp initp i →
  ∃ s' s1, proc_cleanup status s = Ret () s' ∧ sched_wf s' ∧ proc_wf s' ∧
    notified (p_wait pp) s s1 ∧ threads s' = threads s1 ∧ queues s' = queues s1 ∧
    procs s' !! cp = Some (with_exit status PROC_DEAD (adopt initp (p_children x) cp x)) ∧
    p_children <$> procs s' !! initp = Some (p_children i ++ p_children x) ∧
    (∀ c, c ∈ p_children x → p_pproc <$> procs s' !! c = Some (Some initp)) ∧
    (∀ q, q ≠ cp → q ≠ initp → q ∉ p_children x → procs s' !! q = procs s !! q).
Proof.
  intros Hs [Htb Htr] Hex. destruct (proc_cleanup_eval status s cp x pp initp i) as (s1 & Hno & Hs1 & Hf & Hcl); [done..|].
  pose proof (ex_proc _ _ _ _ _ _ Hex) as Hx. pose proof (ex_init _ _ _ _ _ _ Hex) as Hi.
  pose proof (ex_running _ _ _ _ _ _ Hex) as Hxr. pose proof (ex_init_child _ _ _ _ _ _ Hex) as Hnc.
  pose proof (ex_not_init _ _ _ _ _ _ Hex) as Hni.
  exists (set_procs (pmap (exit_tree initp cp (p_children x) status)) s1), s1.
  split; [done|]. split; [by apply (sched_wf_ext s1)|].
  split; [split|].
  - eapply (table_wf_pmap _ s); [done|simpl; by rewrite (fr_procs _ _ Hf)|intros; apply exit_tree_pid| |];
      simpl; apply Hf.
  - simpl. rewrite (fr_procs _ _ Hf). eapply exit_tree_wf; eauto. apply Hex.
  - simpl. rewrite (fr_procs _ _ Hf). split_and!; try done.
    + rewrite lookup_pmap, Hx. simpl. unfold exit_tree. by rewrite decide_True.
    + rewrite lookup_pmap, Hi. simpl. by rewrite exit_tree_children, decide_True.
    + intros c Hc. destruct (tr_child _ Htr cp x c) as (z & Hz & _); [done..|].
      rewrite lookup_pmap, Hz. simpl. by rewrite exit_tree_pproc, decide_True.
    + intros q H1' H2' H3'. rewrite lookup_pmap. destruct (procs s !! q) as [z|]; [|done]. simpl. f_equal.
      unfold exit_tree, adopt. by rewrite !decide_False.
Qed.

(** C27. [do_waitpid(-1, ...)] with a dead child disposes of the first dead
    child in the list of children and returns its identifier and exit
    status: the child and its thread are gone from the table, the tree and
    the threads, everything else is as before, and table, tree and queues
    stay well formed. *)
Theorem do_waitpid_reaps fuel options cp y p x t s :
  sched_wf s → proc_wf s → curproc s = Some cp → procs s !! cp = Some y → p_state y = PROC_RUNNING →
  head (filter (is_dead s) (p_children y)) = Some p → zombie s p x t →
  ∃ s', do_waitpid fuel (-1) options s = Ret (p_pid x, Some (p_status x)) s' ∧
    sched_wf s' ∧ proc_wf s' ∧
    procs s' !! p = None ∧ p ∉ proc_list s' ∧ threads s' = delete t (threads s) ∧
    p_children <$> procs s' !! cp = Some (filter (λ q, q ≠ p) (p_children y)) ∧
    (∀ q, q ≠ cp → q ≠ p → p_children <$> procs s' !! q = p_children <$> procs s !! q) ∧
    p_pid x ∉ pids s' (proc_list s').
Proof.
  intros Hs [Htb Htr] Hc Hy Hyr Hp Hz.
  assert (p ∈ p_children y) as Hpy.
  { apply head_Some_elem_of in Hp. by apply list_elem_of_filter in Hp as [_ ?]. }
  pose proof (zo_proc _ _ _ _ Hz) as Hx. pose proof (zo_dead _ _ _ _ Hz) as Hd.
  assert (p ≠ cp) as Hpc by congruence.
  destruct (tr_child _ Htr cp y p) as (x' & Hx' & Hpp); [done..|]. rewrite Hx in Hx'. injection Hx' as <-.
  exists (reaped cp p t s). split.
  { unfold do_waitpid, cur_proc, proc_at. msimpl. rewrite Hc. cbn [obind]. rewrite Hy. cbn [obind].
    rewrite bool_decide_eq_false_2 by (intros He; rewrite He in Hpy; by apply elem_of_nil in Hpy).
    by apply (waitpid_any_dead fuel cp y). }
  destruct (zo_thread _ _ _ _ Hz) as (th & Hth & _ & Hw).
  split; [apply (sched_wf_ext (set_threads (delete t) s)); [done..|by eapply sched_wf_delete]|].
  split; [split; [by apply reaped_table|by eapply reaped_tree]|].
  simpl. split_and!; try done.
  - apply lookup_delete_eq.
  - rewrite list_elem_of_filter. by intros [? _].
  - rewrite lookup_delete_ne, lookup_pmap, Hy by done. cbn [fmap option_fmap option_map].
    by rewrite unlink_child_children, decide_True.
  - intros q H1' H2'. rewrite lookup_delete_ne, lookup_pmap by done. destruct (procs s !! q); [|done].
    cbn [fmap option_fmap option_map]. by rewrite unlink_child_children, decide_False.
  - rewrite elem_of_pids. simpl. intros (q & z & _ & [Hqp (w & Hw' & ->)%pmap_Some]%lookup_delete_Some & He).
    rewrite unlink_child_pid in He. apply Hqp. symmetry. by eapply (tb_pids s Htb).
Qed.

(** The error cases of [do_waitpid]: a caller without children, a [pid]
    that is neither -1 nor positive, and a positive [pid] that is not the
    identifier of a child all give -ECHILD at once, without storing a
    status and without changing anything. *)
Theorem do_waitpid_echild fuel pid options cp y s :
  tree_wf (procs s) → curproc s = Some cp → procs s !! cp = Some y → p_state y = PROC_RUNNING →
  p_children y = [] ∨ (pid <= 0 ∧ pid ≠ -1) ∨
    (0 < pid ∧ ∀ c x, c ∈ p_children y → procs s !! c = Some x → p_pid x ≠ pid) →
  do_waitpid fuel pid options s = Ret (- ECHILD, None) s.
Proof.
  intros Htr Hc Hy Hyr Hcase.
  assert (live s (p_children y)) as Hl by (by eapply children_live).
  unfold do_waitpid, cur_proc, proc_at. msimpl. rewrite Hc. cbn [obind]. rewrite Hy. cbn [obind].
  case_bool_decide as Hnil; [done|]. destruct Hcase as [|[[Hle Hne]|[Hlt Hno]]]; [done| |].
  - by rewrite (proj2 (Z.eqb_neq pid (-1))), (proj2 (Z.ltb_ge 0 pid)) by lia.
  - rewrite (proj2 (Z.eqb_neq pid (-1))), (proj2 (Z.ltb_lt 0 pid)) by lia.
    rewrite find_child_spec by done. cbn [obind].
    destruct (filter (has_pid s pid) (p_children y)) as [|p l] eqn:Hf; [done|].
    assert (p ∈ filter (has_pid s pid) (p_children y)) as Hin by (rewrite Hf; by left).
    apply list_elem_of_filter in Hin as [Hp Hin]. apply fmap_Some in Hp as (x & Hx & Hpid).
    by destruct (Hno p x Hin Hx).
Qed.

(** C28. [do_waitpid(pid, ...)] with a positive [pid] of a child that is still
    running stores the wrong status.  The caller sleeps on its own [p_wait]
    queue; when it runs again and finds the child dead it reaps it, but the
    status it reports is the one the child had before it exited, which was
    read before the wait. *)
Theorem do_waitpid_stale_status fuel pid options cp y p x cur th u tu s :
  sched_wf s → tree_wf (procs s) → curproc s = Some cp → procs s !! cp = Some y →
  p_state y = PROC_RUNNING → 0 < pid → head (filter (has_pid s pid) (p_children y)) = Some p →
  procs s !! p = Some x → p_state x = PROC_RUNNING → is_Some (p_pagedir x) →
  curthr s = Some cur → threads s !! cur = Some th → kt_wchan th = None →
  last (qlist s kt_runq) = Some u → threads s !! u = Some tu →
  ∃ s1 resume, do_waitpid (S fuel) pid options s = Yield s1 resume ∧ curthr s1 = Some u ∧
    cur ∈ qlist s1 (p_wait cp) ∧
    (∀ s2 y2 x2 t2, curproc s2 = Some cp → procs s2 !! cp = Some y2 → p_state y2 = PROC_RUNNING →
      zombie s2 p x2 t2 →
      ∃ s3, resume s2 = Ret (p_pid x, Some (p_status x)) s3 ∧ procs s3 !! p = None).
Proof.
  intros Hs Htr Hc Hy Hyr Hpid Hp Hx Hxr Hpd Hcur Hth Hw Hl Hu.
  rewrite (do_waitpid_pid (S fuel) pid options cp y p x) by done.
  rewrite (wait_until_dead_sleeps fuel p x cp cur th) by (first [done|apply Hs|congruence]).
  set (s0 := move cur _ s).
  assert (u ≠ cur) as Huc.
  { intros ->. apply last_Some_elem_of in Hl. by eapply (wchan_none_absent s cur th); eauto with sched. }
  assert (sched_wf s0) as Hs0 by (apply sched_wf_move; [done|by left]).
  assert (qlist s0 kt_runq = qlist s kt_runq) as Hq.
  { unfold s0. rewrite qlist_move, decide_False by done. apply filter_absent.
    by eapply (wchan_none_absent s cur th); eauto with sched. }
  rewrite (sched_switch_spec 0 u tu s0 cur); [|lia|intros; lia|..].
  - cbn [obind]. eexists _, _. split; [done|]. split; [done|]. split.
    { change (qlist (switch_to _ _ _)) with (qlist (move u (with_wchan None tu) s0)).
      rewrite qlist_move, decide_False by done. apply list_elem_of_filter. split; [done|].
      unfold s0. rewrite qlist_move, decide_True by done. by left. }
    intros s2 y2 x2 t2 Hc2 Hy2 Hyr2 Hz. cbn [obind].
    rewrite (wait_until_dead_done fuel p x2) by (try apply Hz). cbn [obind]. unfold mbind, M_bind.
    rewrite (dispose_eval cp y2 p x2 t2) by (try done; destruct Hz; by split). cbn [obind].
    eexists. split; [done|]. simpl. apply lookup_delete_eq.
  - by apply (wf_queues (set_ipl IPL_LOW s0)), (sched_wf_ext s0).
  - done.
  - change (qlist (after_intrs 0 0 s0)) with (qlist s0). by rewrite Hq.
  - simpl. by rewrite lookup_insert_ne.
Qed.

Lemma find_unique_child s pid p x l :
  table_wf s → procs s !! p = Some x → p_pid x = pid → p ∈ l →
  head (filter (has_pid s pid) l) = Some p.
Proof.
  intros Htb Hx Hpid Hp.
  assert (p ∈ filter (has_pid s pid) l) as Hin.
  { apply list_elem_of_filter. split; [|done]. unfold has_pid. rewrite Hx. simpl. by rewrite Hpid. }
  destruct (filter (has_pid s pid) l) as [|r k] eqn:Hf; [by apply elem_of_nil in Hin|]. simpl. f_equal.
  assert (r ∈ filter (has_pid s pid) l) as Hr by (rewrite Hf; by left).
  apply list_elem_of_filter in Hr as [Hr _]. apply fmap_Some in Hr as (z & Hz & Hzp).
  apply (tb_pids s Htb r p z x); congruence.
Qed.


End props.

(** ** A small system

    Process 10 is idle, 11 its child init, 12 a child of init and 13 a child
    of 12; threads 1, 2 and 3 belong to 11, 12 and 13. *)
Module ProcEx.
Local Open Scope positive_scope.
#[local] Instance quiet : Machine := {| intr_wait := λ _ s, s; intr_fuel := 4%nat |}.
#[local] Existing Instance some_errno.

(** Allocators that never fail, and [max] process identifiers. *)
Definition env (max : Z) (Hmax : (1 < max < 2 ^ 31)%Z) : ProcEnv.
Proof.
  refine {| PROC_MAX_COUNT := max; PROC_NAME_LEN := 256%Z; PID_IDLE := 0%Z; PID_INIT := 1%Z;
    DEFAULT_STACK_SIZE := 57344%Z; PAGE_SHIFT := 12%Z;
    slab_alloc_proc := λ s, Some (fresh (dom (procs s)));
    slab_alloc_thread := λ s, Some (fresh (dom (threads s)));
    page_alloc_n := λ _ _, Some 4096%Z; pt_create_pagedir := λ _, Some 8192%Z |}; try done.
  - intros s p [= <-]. apply not_elem_of_dom, is_fresh.
  - intros s t [= <-]. apply not_elem_of_dom, is_fresh.
Defined.

Definition env8 : ProcEnv.
Proof. refine (env 8 _). by split. Defined.
Definition env4 : ProcEnv.
Proof. refine (env 4 _). by split. Defined.

Definition mkp (pid : Z) (ts : list tid) (children : list pptr) (parent : option pptr)
  (status : Z) (st : proc_state) : proc :=
  Proc pid "p" ts children parent status st (Some 8192%Z).
Definition mkt (p : pptr) (st : kthread_state) (w : option qid) : kthread :=
  Kthread (context_setup 0 0 0 (Some 4096%Z) 57344 (Some 8192%Z)) (Some 4096%Z) 0 0 (Some p) false st w.

(** The states of the three threads, and the state of process 13. *)
Definition system (w1 w2 w3 : kthread_state * option qid) (st : proc_state) (status : Z)
  (qs : list (qid * ktqueue)) (curt : tid) (curp : pptr) : kst :=
  Kst (list_to_map [(1, mkt 11 w1.1 w1.2); (2, mkt 12 w2.1 w2.2); (3, mkt 13 w3.1 w3.2)])
      (list_to_map qs) ∅
      (list_to_map [(10, mkp 0 [] [11] None 0 PROC_RUNNING);
                    (11, mkp 1 [1] [12] (Some 10) 0 PROC_RUNNING);
                    (12, mkp 2 [2] [13] (Some 11) 0 PROC_RUNNING);
                    (13, mkp 3 [3] [] (Some 12) status st)])
      (Some curt) (Some curp) IPL_LOW [10; 11; 12; 13] (Some 11) 4.

Definition waiting : qid * ktqueue := (p_wait 11, Ktqueue [1] 1).

(** 12 is exiting while init waits for its children. *)
Definition exit_st : kst :=
  system (KT_SLEEP, Some (p_wait 11)) (KT_EXITED, None) (KT_RUN, Some kt_runq) PROC_RUNNING 0
    [waiting; (kt_runq, Ktqueue [3] 1)] 2 12.
(** 12 runs and its child 13 has exited with status 42. *)
Definition reap_st : kst :=
  system (KT_SLEEP, Some (p_wait 11)) (KT_RUN, None) (KT_EXITED, None) PROC_DEAD 42 [waiting] 2 12.
(** 12 runs and its child 13 is runnable. *)
Definition wait_st : kst :=
  system (KT_SLEEP, Some (p_wait 11)) (KT_RUN, None) (KT_RUN, Some kt_runq) PROC_RUNNING 0
    [waiting; (kt_runq, Ktqueue [3] 1)] 2 12.
(** init runs, 13 sleeps on a device and can be cancelled. *)
Definition kill_st : kst :=
  system (KT_RUN, None) (KT_RUN, Some kt_runq) (KT_SLEEP_CANCELLABLE, Some (other_q 5)) PROC_RUNNING 0
    [(kt_runq, Ktqueue [2] 1); (other_q 5, Ktqueue [3] 1)] 1 11.

Ltac sched_ok := apply sched_fin_wf; by_computation.
Ltac tree_ok := apply tree_fin_wf; by_computation.
Ltac proc_ok := split; [apply table_fin_wf; by_computation|tree_ok].

Section with_env.
#[local] Existing Instance env8.

Lemma proc_getid_first_free_witness :
  ∃ s', proc_getid wait_st = Ret 4%Z s' ∧ getid_result wait_st 4 s'.
Proof.
  destruct (proc_getid_first_free wait_st) as (r & s' & Hx & Hr & _);
    [apply table_fin_wf; by_computation|].
  exists s'. vm_compute in Hx. injection Hx as <- <-. by split.
Defined.

Lemma proc_create_adds_child_witness :
  ∃ p s' x, proc_create "sh" wait_st = Ret p s' ∧ procs s' !! p = Some x ∧ p_pproc x = Some 12.
Proof.
  destruct (proc_create_adds_child "sh" 12 (mkp 2 [2] [13] (Some 11) 0 PROC_RUNNING)
    (fresh (dom (procs wait_st))) wait_st) as (s' & x & Hx & _ & Hp & Hpp & _);
    [proc_ok|reflexivity..|by_computation|by_computation| |].
  - exists 4%Z. split; [by_computation|by_computation].
  - by exists (fresh (dom (procs wait_st))), s', x.
Defined.

Lemma exit_exiting :
  exiting exit_st 12 (mkp 2 [2] [13] (Some 11) 0 PROC_RUNNING) 11 11
    (mkp 1 [1] [12] (Some 10) 0 PROC_RUNNING).
Proof.
  split; try reflexivity; try done; [by_computation|].
  exists 2, (mkt 12 KT_EXITED None). by split_and!.
Qed.

(** Thread 1, which waits in init, is woken, and 13 becomes a child of init. *)
Lemma proc_cleanup_reparents_witness :
  ∃ s', proc_cleanup 7 exit_st = Ret () s' ∧ qlist s' kt_runq = [1; 3] ∧
    p_children <$> procs s' !! 11 = Some [12; 13].
Proof.
  destruct (proc_cleanup_reparents 7 exit_st 12 (mkp 2 [2] [13] (Some 11) 0 PROC_RUNNING) 11 11
    (mkp 1 [1] [12] (Some 10) 0 PROC_RUNNING)) as (s' & s1 & Hx & _ & _ & Hno & _ & Hq & _ & Hch & _);
    [sched_ok|proc_ok|apply exit_exiting|].
  exists s'. split; [done|]. split; [|done]. unfold qlist, queue. rewrite Hq.
  destruct Hno as [[Hn _]|(thr & t & Hl & Ht & ->)]; [discriminate Hn|].
  vm_compute in Hl. injection Hl as <-. vm_compute in Ht. injection Ht as <-. reflexivity.
Defined.


Lemma do_waitpid_reaps_witness :
  ∃ s', do_waitpid 0 (-1) 0 reap_st = Ret (3%Z, Some 42%Z) s' ∧ procs s' !! 13 = None.
Proof.
  destruct (do_waitpid_reaps 0 0 12 (mkp 2 [2] [13] (Some 11) 0 PROC_RUNNING) 13
    (mkp 3 [3] [] (Some 12) 42 PROC_DEAD) 3 reap_st) as (s' & Hx & _ & _ & Hn & _);
    [sched_ok|proc_ok|reflexivity..| |].
  - split; try reflexivity; [by eexists|]. exists (mkt 13 KT_EXITED None).
    split; [reflexivity|]. split; [by eexists|reflexivity].
  - by exists s'.
Defined.

Lemma do_waitpid_echild_witness :
  do_waitpid 0 5 0 wait_st = Ret (- ECHILD, None)%Z wait_st.
Proof.
  apply (do_waitpid_echild 0 5 0 12 (mkp 2 [2] [13] (Some 11) 0 PROC_RUNNING));
    [tree_ok|reflexivity..|]. right; right. split; [done|].
  intros c x Hc Hx. apply list_elem_of_singleton in Hc as ->. vm_compute in Hx. by injection Hx as <-.
Defined.

(** While 12 sleeps its child exits with status 42; 12 still reports 0. *)
Lemma do_waitpid_stale_status_witness :
  ∃ s1 resume s3, do_waitpid 1 3 0 wait_st = Yield s1 resume ∧
    resume reap_st = Ret (3%Z, Some 0%Z) s3.
Proof.
  destruct (do_waitpid_stale_status 0 3 0 12 (mkp 2 [2] [13] (Some 11) 0 PROC_RUNNING) 13
    (mkp 3 [3] [] (Some 12) 0 PROC_RUNNING) 2 (mkt 12 KT_RUN None) 3 (mkt 13 KT_RUN (Some kt_runq)) wait_st)
    as (s1 & r & Hx & _ & _ & Hback); [sched_ok|tree_ok|first [reflexivity|by eexists]..|].
  destruct (Hback reap_st (mkp 2 [2] [13] (Some 11) 0 PROC_RUNNING)
    (mkp 3 [3] [] (Some 12) 42 PROC_DEAD) 3) as (s3 & Hr & _); [reflexivity..| |].
  - split; try reflexivity; [by eexists|]. exists (mkt 13 KT_EXITED None).
    split; [reflexivity|]. split; [by eexists|reflexivity].
  - by exists s1, r, s3.
Defined.

End with_env.

(** With four identifiers the table is full. *)
Definition full_st : kst := set_next_pid 0 wait_st.

Lemma proc_create_when_full_witness :
  ∃ p s' x, @proc_create env4 "sh" full_st = Ret p s' ∧ procs s' !! p = Some x ∧ p_pid x = (-1)%Z.
Proof.
  destruct (@proc_create_when_full env4 "sh" 12 (mkp 2 [2] [13] (Some 11) 0 PROC_RUNNING)
    (fresh (dom (procs full_st))) full_st) as (s' & x & Hx & Hp & Hpid); [proc_ok|reflexivity..| |].
  - intros i Hi. simpl in Hi. assert (i = 0 ∨ i = 1 ∨ i = 2 ∨ i = 3)%Z as [->|[->|[->| ->]]] by lia;
      by_computation.
  - by exists (fresh (dom (procs full_st))), s', x.
Defined.
End ProcEx.
