(* ===== verification/Boot.v ===== *)
(** * Booting (K1/kmain.c), and the programs processes run

    From [kmain] to the init process and back to a halted machine, in the
    configuration of K1: with device drivers, without file systems.  Code
    outside the sources (hardware, the kernel shell) is a parameter.  The
    functions that run in processes of their own, of which the sources have
    only the names, are arbitrary programs over the calls of proc.c. *)

From S2P Require Import Prelude Kstate Sched Kmutex Machine Proc.
Local Open Scope Z_scope.

(** ** Programs

    What a thread does with the process calls: yield the processor, create a
    process that runs the function at some address, wait for a child (any
    child for -1), or wait for all of them; what it does next may depend on
    the results. *)
Inductive prog :=
| PExit (retval : Z)
| PYield (k : prog)
| PSpawn (name : string) (func : Z) (k : Z → prog)
| PWait (pid : Z) (k : Z * option Z → prog)
| PReap (k : prog).

(** Functions called through hardware, drivers and debugger hooks. *)
Inductive hw_call :=
| dbg_init | page_init | pt_init | slab_init | pframe_init | acpi_init | apic_init | pci_init | intr_init
| gdt_init | bytedev_init | blockdev_init | pt_template_init | driver_init | intr_enable
| vt_print_shutdown | cli_hlt.

Class BootEnv := {
  config_vm : bool;                       (* __VM__ is defined *)
  hw : hw_call → K ();
  slab_allocator_create : string → option Z;
  bstack : option Z;                      (* page_alloc() of kmain *)
  gdb_wait : Z;
  idleproc_run_p : Z;                     (* addresses of functions *)
  initproc_run_p : Z;
  sunghan_test_p : Z;
  sunghan_deadlock_test_p : Z;
  faber_thread_test_p : Z;
  kshell_create : Z → K (option Z);
  kshell_execute_next : list (string * (Z → K Z)) → Z → nat → K Z;   (* the n-th line *)
  kshell_destroy : Z → K ();
}.

Section boot.
Context `{Machine} `{Errno} `{ProcEnv} `{BootEnv} (fuel : nat).

(** [while (do_waitpid(-1, 0, &status) != -ECHILD);] *)
Fixpoint reap_all (n : nat) : K () :=
  r ← do_waitpid fuel (-1) 0;
  if r.1 =? - ECHILD then mret ()
  else match n with O => idle | S n' => reap_all n' end.

(** Creating a process with one runnable thread. *)
Definition spawn (name : string) (func : Z) : K pptr :=
  p ← proc_create name;
  k ← kthread_create p func 0 0;
  sched_make_runnable k;;
  mret p.

Fixpoint den (c : prog) : K Z :=
  match c with
  | PExit retval => mret retval
  | PYield k => thr_yield;; den k
  | PSpawn name func k => p ← spawn name func; x ← proc_at p; den (k (p_pid x))
  | PWait pid k => r ← do_waitpid fuel pid 0; den (k r)
  | PReap k => reap_all fuel;; den k
  end.

(** ** Initialisation *)

Definition create_allocator (name : string) : K () :=
  KASSERT (bool_decide (is_Some (slab_allocator_create name))) "allocator != NULL".

Definition vmmap_init : K () := create_allocator "vmmap";; create_allocator "vmarea".

Definition anon_init : K () := create_allocator "anon_slab".

Definition shadow_init : K () := create_allocator "shadow_slab".

Definition proc_init : K () :=
  modify (set_proc_list (λ _, []));;
  create_allocator "proc".

Definition kthread_init : K () := create_allocator "kthread".

Definition sched_init : K () := sched_queue_init kt_runq.

(** Runs the functions registered with [init_func]: the scheduler's and those
    of the drivers. *)
Definition init_call_all : K () := sched_init;; hw driver_init.

(** [context_make_active]: nothing is saved, so that what follows the call
    runs only if the processor is handed back to nobody. *)
Definition context_make_active : K () := context_switch.

Definition bootstrap : K () :=
  hw pt_template_init;;
  p ← proc_create "IDLE";
  modify (set_curproc (Some p));;
  x ← proc_at p;
  KASSERT (PID_IDLE =? p_pid x) "PID_IDLE == curproc->p_pid";;
  t ← kthread_create p idleproc_run_p 0 0;
  modify (set_curthr (Some t));;
  context_make_active;;
  panic "weenix returned to bootstrap()!!! BAD!!!".

(** Making [bootstrap_context] active enters [bootstrap] on the new stack. *)
Definition kmain : K () :=
  hw dbg_init;;
  hw page_init;;
  hw pt_init;;
  hw slab_init;;
  hw pframe_init;;
  hw acpi_init;;
  hw apic_init;;
  hw pci_init;;
  hw intr_init;;
  hw gdt_init;;
  (if config_vm then anon_init;; shadow_init else mret ());;
  vmmap_init;;
  proc_init;;
  kthread_init;;
  hw bytedev_init;;
  hw blockdev_init;;
  KASSERT (bool_decide (is_Some bstack)) "Ran out of memory while booting.";;
  (if negb (gdb_wait =? 0) then idle else mret ());;
  bootstrap;;
  panic "Returned to kmain()!!!".

(** The processor stops; the model returns. *)
Definition hard_shutdown : K () := hw vt_print_shutdown;; hw cli_hlt.

Definition initproc_create : K tid :=
  initP ← proc_create "INIT";
  x ← proc_at initP;
  KASSERT (PID_INIT =? p_pid x) "PID_INIT == initP->p_pid";;
  kthread_create initP initproc_run_p 0 0.

Definition idleproc_run : K () :=
  initthr ← initproc_create;
  init_call_all;;
  hw intr_enable;;
  sched_make_runnable initthr;;
  r ← do_waitpid fuel (-1) 0;
  KASSERT (PID_INIT =? r.1) "PID_INIT == child";;
  hard_shutdown.

(** ** The commands of the kernel shell *)

Definition do_sunghan (kshell : Z) : K Z :=
  KASSERT (negb (kshell =? 0)) "kshell != NULL";;
  p ← spawn "sunghan" sunghan_test_p;
  x ← proc_at p;
  _ ← do_waitpid fuel (p_pid x) 0;
  mret 0.

Definition do_sunghan_deadlock (kshell : Z) : K Z :=
  KASSERT (negb (kshell =? 0)) "kshell != NULL";;
  p ← spawn "deadlock" sunghan_deadlock_test_p;
  x ← proc_at p;
  _ ← do_waitpid fuel (p_pid x) 0;
  mret 0.

Definition do_faber (kshell : Z) : K Z :=
  KASSERT (negb (kshell =? 0)) "kshell != NULL";;
  p ← spawn "faber" faber_thread_test_p;
  x ← proc_at p;
  _ ← do_waitpid fuel (p_pid x) 0;
  mret 0.

(** The calls of [kshell_add_command]. *)
Definition commands : list (string * (Z → K Z)) :=
  [("sunghan", do_sunghan); ("deadlock", do_sunghan_deadlock); ("faber", do_faber)].

(** [while (kshell_execute_next(kshell));], from the [i]-th line on. *)
Fixpoint shell_loop (n i : nat) (kshell : Z) : K () :=
  r ← kshell_execute_next commands kshell i;
  if r =? 0 then mret ()
  else match n with O => idle | S n' => shell_loop n' (S i) kshell end.

Definition initproc_run : K Z :=
  r ← kshell_create 0;
  kshell ← deref r "init: Couldn't create kernel shell";
  shell_loop fuel 0 kshell;;
  kshell_destroy kshell;;
  reap_all fuel;;
  mret 0.

(** ** The processor

    A thread starts in the function its context was set up with, and exits
    with what the function returns.  [context_switch] stores the stack
    pointer in the context it leaves; a context in which none was stored is
    as [context_setup] made it.  A step runs the current thread up to its next
    [context_switch]. *)
Context (tests : Z → prog).

Definition thread_func (func : Z) : K Z :=
  if func =? initproc_run_p then initproc_run else den (tests func).

Definition start (t : tid) : K () :=
  th ← thread_at t;
  if c_func (kt_ctx th) =? idleproc_run_p then idleproc_run
  else r ← thread_func (c_func (kt_ctx th)); kthread_exit r.

Definition context_saved (c : context) : context :=
  Context (c_func c) (c_arg1 c) (c_arg2 c) (c_kstack c) (c_kstacksz c) (c_pdptr c) (c_eip c) (Some 0).

Definition park (t : tid) (s : kst) : kst :=
  set_threads (alter (λ th, with_ctx (context_saved (kt_ctx th)) th) t) s.

Definition resume_at (c : config) (t : tid) : K () :=
  match threads (c_st c) !! t ≫= (λ th, c_esp (kt_ctx th)) with
  | None => start t
  | Some _ => default (start t) (c_saved c !! t)
  end.

Inductive sys_step : config → config → Prop :=
| sys_switch c t s' k :
    curthr (c_st c) = Some t →
    resume_at c t (c_st c) = Yield s' k →
    sys_step c (Config (park t s') (<[t := k]> (c_saved c))).

(** The machine has stopped, in state [s']. *)
Definition halted (c : config) (s' : kst) : Prop :=
  ∃ t, curthr (c_st c) = Some t ∧ resume_at c t (c_st c) = Ret () s'.
End boot.

(** Before [kmain]: the initial values of the static variables. *)
Definition boot_st : kst := Kst ∅ ∅ ∅ ∅ None None IPL_HIGH [] None 0.
