(* ===== verification/System.v ===== *)
(** * Scheduler and processes together

    The invariant of the whole of K1 under the process calls of arbitrary
    programs: every process has one thread, every thread is running, waiting
    for the processor, asleep for a child that lives, or exited, and its saved
    context continues the program where it was left; and a budget that every
    switch uses up. *)

From S2P Require Import Prelude Kstate Sched Kmutex Machine Proc ProcTree Boot.
Local Open Scope Z_scope.

(** ** The order of a list *)

Definition before {A} (l : list A) (x y : A) : Prop := ∃ l1 l2, l = l1 ++ x :: l2 ∧ y ∈ l2.

Section before.
Context {A : Type}.
Implicit Types (x y : A) (l : list A).

Lemma before_app l l' x y : before l x y → before (l ++ l') x y.
Proof. intros (l1 & l2 & -> & Hy). exists l1, (l2 ++ l'). split; [by rewrite <- app_assoc|set_solver]. Qed.

Lemma before_end l x y : x ∈ l → before (l ++ [y]) x y.
Proof.
  intros (l1 & l2 & ->)%list_elem_of_split. exists l1, (l2 ++ [y]).
  split; [by rewrite <- app_assoc|set_solver].
Qed.

Lemma before_filter (P : A → Prop) `{∀ x, Decision (P x)} l x y :
  before l x y → P x → P y → before (filter P l) x y.
Proof.
  intros (l1 & l2 & -> & Hy) Hx HPy. exists (filter P l1), (filter P l2).
  rewrite filter_app, filter_cons_True by done. split; [done|]. by apply list_elem_of_filter.
Qed.

Lemma before_second x y l z : z ∈ l → before (x :: y :: l) y z.
Proof. intros Hz. by exists [x], l. Qed.

(** The last element with a property. *)
Lemma last_split (P : A → Prop) `{∀ x, Decision (P x)} l x :
  x ∈ l → P x → ∃ l1 y l2, l = l1 ++ y :: l2 ∧ P y ∧ ∀ z, z ∈ l2 → ¬ P z.
Proof.
  revert x. induction l as [|a l IH]; intros x; [by intros ?%elem_of_nil|]. intros Hx HP.
  destruct (decide (Exists P l)) as [(b & Hb & HPb)%Exists_exists|Hno].
  - destruct (IH b Hb HPb) as (l1 & y & l2 & -> & Hy & Hl2). by exists (a :: l1), y, l2.
  - exists [], a, l. rewrite Exists_exists in Hno. split_and!; [done| |by intros z Hz HPz; apply Hno; eauto].
    apply elem_of_cons in Hx as [->|Hx]; [done|]. destruct Hno. eauto.
Qed.

Lemma last_such (P : A → Prop) `{∀ x, Decision (P x)} l x :
  NoDup l → x ∈ l → P x → ∃ y, y ∈ l ∧ P y ∧ ∀ z, before l y z → ¬ P z.
Proof.
  intros Hn Hx HP. destruct (last_split P l x Hx HP) as (l1 & y & l2 & -> & Hy & Hl2).
  exists y. split_and!; [set_solver|done|]. intros z (k1 & k2 & E & Hz). apply Hl2.
  apply NoDup_app in Hn as (_ & Hd & Hn). apply NoDup_cons in Hn as [Hy2 _].
  apply app_eq_inv in E as [(k & E1 & E2)|(k & E1 & E2)]; destruct k; simplify_eq/=; try done;
    exfalso; [eapply Hd; [apply elem_of_app; right; left|left]|apply Hy2; set_solver].
Qed.
End before.

(** ** What a thread is about to do

    Where a thread was when it gave the processor away: before its first
    instruction, in [thr_yield], in the loop of [do_waitpid] for any child
    (called by the program, by [reap_all] or by the idle process) or for one
    child, or in its exit. *)
Inductive point :=
| PtEntry (func : Z)
| PtRun (k : prog)
| PtAny (w : nat) (k : Z * option Z → prog)
| PtAll (n w : nat) (k : prog)
| PtPid (w : nat) (c : pptr) (r : Z * option Z) (k : Z * option Z → prog)
| PtIdle (w : nat)
| PtExited.

(** The budgets of the threads that are at some point. *)
Definition total (pc : gmap tid (point * nat)) : nat := map_fold (λ _ x n, (x.2 + n)%nat) 0%nat pc.

Lemma total_insert t x pc : pc !! t = None → total (<[t:=x]> pc) = (x.2 + total pc)%nat.
Proof. intros Ht. unfold total. apply (map_fold_insert_L (λ _ x n, (x.2 + n)%nat)); [|done]. intros. lia. Qed.

Lemma total_delete t x pc : pc !! t = Some x → total pc = (x.2 + total (delete t pc))%nat.
Proof. intros Ht. rewrite <- (total_insert t x) by apply lookup_delete_eq. by rewrite insert_delete_id. Qed.

Section system.
Context `{Machine} `{Errno} `{ProcEnv} `{BootEnv} (fuel : nat).

(** The budget of a program: an upper bound for what it and the processes it
    creates may cost, where the functions it starts are ordinary ones and
    [budget func] is that of the function at [func]. *)
Context (budget : Z → nat).

Definition ordinary (func : Z) : Prop := func ≠ idleproc_run_p ∧ func ≠ initproc_run_p.

Inductive costs : prog → nat → Prop :=
| costs_exit r n : (3 ≤ n)%nat → costs (PExit r) n
| costs_yield k n m : costs k n → (2 + n ≤ m)%nat → costs (PYield k) m
| costs_spawn name f k n m :
    ordinary f → (∀ pid, costs (k pid) n) → (budget f + 3 + n ≤ m)%nat → costs (PSpawn name f k) m
| costs_wait pid k n m : (∀ r, costs (k r) n) → (1 + n ≤ m)%nat → costs (PWait pid k) m
| costs_reap k n m : costs k n → (1 + n ≤ m)%nat → costs (PReap k) m.

(** Programs that have no child left when they exit. *)
Inductive reaps : prog → Prop :=
| reaps_exit r : reaps (PReap (PExit r))
| reaps_yield k : reaps k → reaps (PYield k)
| reaps_spawn name f k : (∀ pid, reaps (k pid)) → reaps (PSpawn name f k)
| reaps_wait pid k : (∀ r, reaps (k r)) → reaps (PWait pid k)
| reaps_reap k : reaps k → reaps (PReap k).

Lemma costs_pos k n : costs k n → (3 ≤ n)%nat.
Proof. induction 1 as [| | |? ? ? ? _ IH|]; try lia. specialize (IH (0, None)). lia. Qed.

(** The rest of a thread's function, then its exit. *)
Definition finish (m : K Z) : K () := r ← m; kthread_exit r.

Definition idle_tail (r : Z * option Z) : K () :=
  KASSERT (PID_INIT =? r.1) "PID_INIT == child";; hard_shutdown.

(** The loop of [reap_all] after one call of [do_waitpid]. *)
Definition reap_tail (n : nat) (r : Z * option Z) : K () :=
  if r.1 =? - ECHILD then mret ()
  else match n with O => idle | S n' => reap_all fuel n' end.

Definition continue (pt : point) : K () :=
  match pt with
  | PtEntry _ | PtExited => mret ()
  | PtRun k => finish (den fuel k)
  | PtAny w k => finish (r ← waitpid_any w; den fuel (k r))
  | PtAll n w k => finish ((r ← waitpid_any w; reap_tail n r);; den fuel k)
  | PtPid w c r k => finish ((wait_until_dead w c;; dispose c;; mret r) ≫= (λ r, den fuel (k r)))
  | PtIdle w => waitpid_any w ≫= idle_tail
  end.

(** ** The invariant

    [ip] and [jp] are the idle and the init process. *)
Context (ip jp : pptr).

Definition alive (s : kst) (p : pptr) : Prop := p_state <$> procs s !! p = Some PROC_RUNNING.

#[global] Instance alive_dec s p : Decision (alive s p).
Proof. unfold alive. apply _. Defined.

Definition started (th : kthread) : Prop := is_Some (c_esp (kt_ctx th)).
Definition runnable (th : kthread) : Prop := kt_wchan th = Some kt_runq.

(** Asleep for one of the children that [P] selects, which lives, or woken. *)
Definition waits (s : kst) (th : kthread) (p : pptr) (x : proc) (P : pptr → Prop) : Prop :=
  runnable th ∨ (kt_wchan th = Some (p_wait p) ∧ ∃ c, c ∈ p_children x ∧ alive s c ∧ P c).

(** The program of the init process leaves no children. *)
Definition fits (p : pptr) (k : prog) : Prop := p = jp → reaps k.

(** Where the thread [th] of process [p] is queued when it is at [pt]. *)
Definition place (s : kst) (th : kthread) (p : pptr) (x : proc) (pt : point) : Prop :=
  match pt with
  | PtExited => p_state x = PROC_DEAD ∧ kt_wchan th = None
  | PtEntry _ | PtRun _ => p_state x = PROC_RUNNING ∧ runnable th
  | PtAny _ _ | PtAll _ _ _ | PtIdle _ => p_state x = PROC_RUNNING ∧ waits s th p x (λ _, True)
  | PtPid _ c _ _ => p_state x = PROC_RUNNING ∧ waits s th p x (λ c', c' = c)
  end.

(** What it is to do there with its budget [n], when [m] is left to the
    whole system. *)
Definition task (m : nat) (s : kst) (th : kthread) (p : pptr) (x : proc) (pt : point) (n : nat) : Prop :=
  match pt with
  | PtExited => p ≠ ip
  | PtEntry f =>
      p ≠ ip ∧ c_esp (kt_ctx th) = None ∧ c_func (kt_ctx th) = f ∧ f ≠ idleproc_run_p ∧
      (f = initproc_run_p ↔ p = jp) ∧ (budget f ≤ n)%nat
  | PtRun k => p ≠ ip ∧ started th ∧ fits p k ∧ costs k n
  | PtAny w k =>
      p ≠ ip ∧ started th ∧ (m ≤ w)%nat ∧ (∃ c, c ∈ p_children x) ∧
      fits p (PWait (-1) k) ∧ costs (PWait (-1) k) n
  | PtAll l w k =>
      p ≠ ip ∧ started th ∧ (m ≤ w)%nat ∧ (∃ c, c ∈ p_children x) ∧ (length (proc_list s) + m ≤ l)%nat ∧
      fits p (PReap k) ∧ costs (PReap k) n
  | PtPid w c r k =>
      p ≠ ip ∧ started th ∧ (m ≤ w)%nat ∧ c ∈ p_children x ∧
      fits p (PWait (-1) k) ∧ costs (PWait (-1) k) n
  | PtIdle w => p = ip ∧ started th ∧ (m ≤ w)%nat ∧ (∃ c, c ∈ p_children x) ∧ (1 ≤ n)%nat
  end.

(** [cur], if any, is executing; all other threads are at some point. *)
Definition executing (s : kst) (t : tid) : Prop :=
  ∃ th p x, curthr s = Some t ∧ threads s !! t = Some th ∧ kt_wchan th = None ∧ kt_state th = KT_RUN ∧
    kt_proc th = Some p ∧ curproc s = Some p ∧ procs s !! p = Some x ∧ p_state x = PROC_RUNNING.

(** The idle process, whose only child is init, and the init process, which
    dies last. *)
Record roots (s : kst) : Prop := {
  rt_list : ∃ l, proc_list s = ip :: jp :: l;
  rt_idle : ∃ x, procs s !! ip = Some x ∧ p_pid x = PID_IDLE ∧ p_state x = PROC_RUNNING ∧
    p_pproc x = None ∧ p_children x = [jp];
  rt_init : ∃ x, procs s !! jp = Some x ∧ p_pid x = PID_INIT ∧ p_pproc x = Some ip ∧
    (p_state x = PROC_DEAD → proc_list s = [ip; jp]);
  rt_initproc : proc_initproc s = Some jp;
  rt_parent : ∀ p x, procs s !! p = Some x → p ≠ ip → is_Some (p_pproc x);
}.

(** Processes and threads: each process has one thread, and is younger than
    its parent. *)
Record shape (s : kst) : Prop := {
  sh_table : table_wf s;
  sh_tree : tree_wf (procs s);
  sh_roots : roots s;
  sh_born : ∀ c x p, procs s !! c = Some x → p_pproc x = Some p → before (proc_list s) p c;
  sh_proc : ∀ p x, procs s !! p = Some x → is_Some (p_pagedir x) ∧
    ∃ t th, p_threads x = [t] ∧ threads s !! t = Some th ∧ kt_proc th = Some p ∧ is_Some (kt_kstack th);
  sh_thread : ∀ t th, threads s !! t = Some th →
    ∃ p x, kt_proc th = Some p ∧ procs s !! p = Some x ∧ p_threads x = [t];
}.

(** All threads but [cur] are at some point. *)
Record points (m : nat) (cur : option tid) (s : kst) (pc : gmap tid (point * nat)) : Prop := {
  pts_at : ∀ t th p x, threads s !! t = Some th → kt_proc th = Some p → procs s !! p = Some x →
    cur ≠ Some t → ∃ pt n, pc !! t = Some (pt, n) ∧ place s th p x pt ∧ task m s th p x pt n;
  pts_dom : ∀ t, is_Some (pc !! t) → is_Some (threads s !! t) ∧ cur ≠ Some t;
}.

Record sys (m : nat) (cur : option tid) (s : kst) (pc : gmap tid (point * nat)) : Prop := {
  sy_sched : sched_wf s;
  sy_shape : shape s;
  sy_points : points m cur s pc;
  sy_cur : ∀ t, cur = Some t → executing s t;
}.

(** ** Stability *)

(** A thread that is left alone or woken. *)
Definition undisturbed (th th' : kthread) : Prop :=
  kt_ctx th' = kt_ctx th ∧ kt_kstack th' = kt_kstack th ∧ kt_proc th' = kt_proc th ∧
  (kt_wchan th' = kt_wchan th ∨ (is_Some (kt_wchan th) ∧ runnable th')).

Lemma undisturbed_refl th : undisturbed th th.
Proof. split_and!; auto. Qed.

Lemma waits_mono s s' th th' p x x' P :
  waits s th p x P → undisturbed th th' → (∀ c, c ∈ p_children x → c ∈ p_children x') →
  (kt_wchan th' = Some (p_wait p) → ∀ c, c ∈ p_children x → alive s c → alive s' c) →
  waits s' th' p x' P.
Proof.
  intros [Hr|(Hw & c & Hc & Ha & HP)] (_ & _ & _ & Hu) Hch Hal; unfold waits, runnable in *.
  - left. destruct Hu as [->|[_ ?]]; done.
  - destruct Hu as [Hu|[_ ?]]; [|by left]. right. rewrite Hu. split; [done|]. exists c. split_and!; auto.
    apply Hal; [congruence|done..].
Qed.

Lemma place_mono s s' th th' p x x' pt :
  place s th p x pt → undisturbed th th' → p_state x' = p_state x →
  (p_state x = PROC_RUNNING → ∀ c, c ∈ p_children x → c ∈ p_children x') →
  (p_state x = PROC_RUNNING → kt_wchan th' = Some (p_wait p) →
     ∀ c, c ∈ p_children x → alive s c → alive s' c) →
  place s' th' p x' pt.
Proof.
  intros Hp Hu Hst Hch Hal. pose proof Hu as (_ & _ & _ & Hw).
  destruct pt; simpl in *; destruct Hp as [E Hp]; rewrite Hst; split; auto; unfold runnable in *;
    try (by eapply waits_mono; eauto); destruct Hw as [->|[[? Hw] ?]]; auto. congruence.
Qed.

Lemma task_mono m m' s s' th th' p x x' pt n :
  task m s th p x pt n → kt_ctx th' = kt_ctx th → (m' ≤ m)%nat →
  (length (proc_list s') + m' ≤ length (proc_list s) + m)%nat →
  (pt ≠ PtExited → ∀ c, c ∈ p_children x → c ∈ p_children x') →
  task m' s' th' p x' pt n.
Proof.
  intros Ht Hc Hm Hl Hch. unfold started in *.
  assert (pt ≠ PtExited → (∃ c, c ∈ p_children x) → ∃ c, c ∈ p_children x') as Hex by naive_solver.
  destruct pt; simpl in *; unfold started in *; rewrite ?Hc; try tauto; intuition (auto; lia).
Qed.

(** ** Switching *)

Lemma alive_lookup s p : alive s p ↔ ∃ x, procs s !! p = Some x ∧ p_state x = PROC_RUNNING.
Proof. unfold alive. rewrite fmap_Some. naive_solver. Qed.

Lemma asleep_child s th p x P :
  shape s → procs s !! p = Some x → p_state x = PROC_RUNNING → waits s th p x P →
  runnable th ∨ ∃ c, before (proc_list s) p c ∧ alive s c.
Proof.
  intros Hsh Hx Hr [?|(_ & c & Hc & Ha & _)]; [by left|right]. exists c. split; [|done].
  destruct (tr_child _ (sh_tree _ Hsh) p x c) as (z & Hz & Hp); [done..|].
  by apply (sh_born _ Hsh c z p).
Qed.

(** The youngest process that lives has no child that lives, so its thread
    waits for the processor: the run queue is not empty. *)
Lemma someone_runs m s pc : sys m None s pc → qlist s kt_runq ≠ [].
Proof.
  intros [Hs Hsh Hpt _]. destruct (rt_idle _ (sh_roots _ Hsh)) as (ix & Hix & _ & Hir & _).
  pose proof (sh_table _ Hsh) as Htb.
  destruct (last_such (alive s) (proc_list s) ip) as (p & Hp & Ha & Hlast).
  { apply Htb. } { apply (tb_list s Htb). by eexists. } { apply alive_lookup. eauto. }
  apply alive_lookup in Ha as (x & Hx & Hr).
  destruct (sh_proc _ Hsh p x Hx) as (_ & t & th & Hts & Hth & Hkp & _).
  destruct (pts_at _ _ _ _ Hpt t th p x Hth Hkp Hx) as (pt & n & _ & Hpl & _); [done|].
  assert (runnable th) as Hrun.
  { destruct pt; simpl in Hpl; destruct Hpl as [E Hpl]; try done; try congruence;
      (eapply asleep_child in Hpl as [?|(d & Hb & Hd)]; [done|by destruct (Hlast d)|done..]). }
  unfold runnable in Hrun. apply (wf_chan s (wf_queues s Hs) t th) in Hrun; [|done].
  intros He. rewrite He in Hrun. by apply elem_of_nil in Hrun.
Qed.

(** What [shape] reads. *)
Record same_procs (s s' : kst) : Prop := {
  sp_procs : procs s' = procs s;
  sp_list : proc_list s' = proc_list s;
  sp_initproc : proc_initproc s' = proc_initproc s;
  sp_next : next_pid s' = next_pid s;
}.

Lemma table_wf_ext s s' : same_procs s s' → table_wf s → table_wf s'.
Proof. intros [E1 E2 _ E3] []. by split; rewrite ?E1, ?E2, ?E3. Qed.

Lemma roots_ext s s' : same_procs s s' → roots s → roots s'.
Proof. intros [E1 E2 E3 _] []. by split; rewrite ?E1, ?E2, ?E3. Qed.

(** Replacing the structure of thread [t]. *)
Lemma shape_thread s s' t th th' :
  shape s → same_procs s s' → threads s !! t = Some th → threads s' = <[t := th']> (threads s) →
  kt_proc th' = kt_proc th → kt_kstack th' = kt_kstack th → shape s'.
Proof.
  intros [A B C D E F] Hsp Hth Ht Hp Hk. pose proof Hsp as [E1 E2 _ _].
  split; rewrite ?E1, ?E2; try done; [by eapply table_wf_ext|by eapply roots_ext| |].
  - intros p x Hx. destruct (E p x Hx) as (Hd & u & uh & Hu & Huh & Hup & Huk). split; [done|].
    rewrite Ht. destruct (decide (u = t)) as [->|Hne].
    + exists t, th'. rewrite lookup_insert_eq. simplify_eq. split_and!; congruence.
    + exists u, uh. by rewrite lookup_insert_ne.
  - intros u uh. rewrite Ht, lookup_insert_Some. intros [[<- <-]|[Hne Hu]]; [|by apply F].
    rewrite Hp. by apply F.
Qed.

(** The points of the threads other than [t]. *)
Lemma points_thread m cur cur' s s' pc pc' t th th' :
  points m cur s pc → same_procs s s' → threads s !! t = Some th → threads s' = <[t := th']> (threads s) →
  (∀ u, u ≠ t → pc' !! u = pc !! u) → (∀ u, u ≠ t → cur' = Some u ↔ cur = Some u) →
  (is_Some (pc' !! t) → cur' ≠ Some t) →
  (∀ p x, kt_proc th' = Some p → procs s !! p = Some x → cur' ≠ Some t →
     ∃ pt n, pc' !! t = Some (pt, n) ∧ place s' th' p x pt ∧ task m s' th' p x pt n) →
  points m cur' s' pc'.
Proof.
  intros [A B] [E1 E2 _ _] Hth Ht Hpc Hcur Hdom Hpt. split.
  - intros u uh p x. rewrite Ht, lookup_insert_Some, E1. intros [[<- <-]|[Hne Hu]] Hp Hx Hc; [by apply Hpt|].
    rewrite Hpc by done. rewrite Hcur in Hc by done.
    destruct (A u uh p x Hu Hp Hx Hc) as (pt & n & Hn & Hpl & Htk). exists pt, n. split_and!; [done| |].
    + eapply place_mono; eauto using undisturbed_refl. intros _ _ c _. unfold alive. by rewrite E1.
    + eapply task_mono; eauto. rewrite E2. lia.
  - intros u. rewrite Ht. destruct (decide (u = t)) as [->|Hne].
    + rewrite lookup_insert_eq. eauto.
    + rewrite Hpc, lookup_insert_ne, Hcur by done. apply B.
Qed.

Lemma sys_mono m m' cur s pc : sys m cur s pc → (m' ≤ m)%nat → sys m' cur s pc.
Proof.
  intros [A B [C C'] D] Hm. split; try done. split; [|done]. intros t th p x Hth Hp Hx Hc.
  destruct (C t th p x Hth Hp Hx Hc) as (pt & n & Hpt & Hpl & Ht). exists pt, n. split_and!; [done..|].
  eapply task_mono; eauto. lia.
Qed.

(** The length of a queue when a thread leaves it or another one enters. *)
Lemma length_remove (t : positive) l : NoDup l → t ∈ l → S (length (filter (λ u, u ≠ t) l)) = length l.
Proof.
  intros Hn Hin. apply list_elem_of_split in Hin as (l1 & l2 & ->).
  apply NoDup_app in Hn as (_ & Hd & [Hn _]%NoDup_cons).
  rewrite filter_app, filter_cons_False, !length_app by tauto. simpl.
  rewrite !filter_absent by (done || by intros Hi; apply (Hd t Hi); left). lia.
Qed.

Lemma length_leave s t th th' q :
  queues_wf s → threads s !! t = Some th → kt_wchan th = Some q → kt_wchan th' ≠ Some q →
  S (length (qlist (move t th' s) q)) = length (qlist s q).
Proof.
  intros Hwf Ht Hw Hw'. rewrite qlist_move, decide_False by done. simpl.
  apply length_remove; [by apply wf_nodup|by apply (wf_chan s Hwf t th q)].
Qed.

Lemma length_enter s t th th' q :
  queues_wf s → threads s !! t = Some th → kt_wchan th ≠ Some q → kt_wchan th' = Some q →
  length (qlist (move t th' s) q) = S (length (qlist s q)).
Proof.
  intros Hwf Ht Hw Hw'. rewrite qlist_move, decide_True by done. simpl.
  rewrite filter_absent; [done|]. intros Hin. by apply Hw, (wf_chan s Hwf t th q Ht).
Qed.

Lemma length_stay s t th th' q :
  queues_wf s → threads s !! t = Some th → kt_wchan th ≠ Some q → kt_wchan th' ≠ Some q →
  qlist (move t th' s) q = qlist s q.
Proof.
  intros Hwf Ht Hw Hw'. rewrite qlist_move, decide_False by done. simpl.
  rewrite filter_absent; [done|]. intros Hin. by apply Hw, (wf_chan s Hwf t th q Ht).
Qed.

(** The thread at the end of the run queue is dispatched. *)
Lemma dispatch_ok m s pc :
  sys m None s pc →
  ∃ thr th p x pt n,
    let s' := switch_to thr th (set_ipl IPL_LOW s) in
    last (qlist s kt_runq) = Some thr ∧ threads s !! thr = Some th ∧
    sys m (Some thr) s' (delete thr pc) ∧ pc !! thr = Some (pt, n) ∧
    threads s' !! thr = Some (with_wchan None th) ∧ kt_proc th = Some p ∧ procs s' !! p = Some x ∧
    pt ≠ PtExited ∧ task m s' (with_wchan None th) p x pt n ∧
    S (length (qlist s' kt_runq)) = length (qlist s kt_runq).
Proof.
  intros Hsys. pose proof (someone_runs _ _ _ Hsys) as Hne.
  destruct Hsys as [Hs Hsh Hpt _].
  destruct (last (qlist s kt_runq)) as [thr|] eqn:Hl; [|by apply last_None in Hl].
  assert (thr ∈ qlist s kt_runq) as Hin by (by apply last_Some_elem_of).
  destruct (wf_dom s (wf_queues s Hs) thr _ Hin) as [th Hth].
  assert (runnable th) as Hrun by (by apply (wf_chan s (wf_queues s Hs) thr th)).
  destruct (sh_thread _ Hsh thr th Hth) as (p & x & Hkp & Hx & Hts).
  destruct (pts_at _ _ _ _ Hpt thr th p x Hth Hkp Hx) as (pt & n & Hpc & Hpl & Htk); [done|].
  exists thr, th, p, x, pt, n. set (s' := switch_to _ _ _). simpl.
  assert (pt ≠ PtExited) as Hnx.
  { intros ->. destruct Hpl as [_ Hw]. unfold runnable in Hrun. congruence. }
  assert (sched_wf s') as Hs'.
  { apply (sched_wf_ext (move thr (with_wchan None th) s)); [done..|]. apply sched_wf_move; [done|].
    pose proof (wf_threads s Hs _ _ Hth) as Hok. unfold thread_ok in *. rewrite Hrun in Hok. simpl. congruence. }
  split; [done|]. split; [done|]. split; [|split_and!; [done|by apply lookup_insert_eq|done|done|done| |]].
  - split; [done| | |].
    + by eapply (shape_thread s s' thr th).
    + eapply (points_thread m None _ s s' pc _ thr th); try done.
      * intros u Hu. by rewrite lookup_delete_ne.
      * intros u Hu. split; [congruence|done].
      * rewrite lookup_delete_eq. by intros [].
    + intros t [= <-]. exists (with_wchan None th), p, x. split_and!; try done; [by apply lookup_insert_eq| |].
      * pose proof (wf_threads s Hs _ _ Hth) as Hok. unfold thread_ok in Hok. by rewrite Hrun in Hok.
      * by destruct pt; destruct Hpl.
  - eapply task_mono; eauto.
  - change (qlist s') with (qlist (move thr (with_wchan None th) s)).
    apply (length_leave s thr th); [apply Hs|done..].
Qed.

Definition parked (th : kthread) : kthread := with_ctx (context_saved (kt_ctx th)) th.

Lemma park_insert t th s : threads s !! t = Some th → park t s = set_threads (insert t (parked th)) s.
Proof.
  intros Ht. unfold park, set_threads. f_equal. apply map_eq. intros u.
  destruct (decide (u = t)) as [->|]; [by rewrite lookup_alter_eq, Ht, lookup_insert_eq|].
  by rewrite lookup_alter_ne, lookup_insert_ne.
Qed.

Lemma park_sched t th s : sched_wf s → threads s !! t = Some th → sched_wf (park t s).
Proof.
  intros Hs Ht. rewrite (park_insert t th) by done. apply (sched_wf_upd t th); try done.
  by apply (wf_threads s Hs t th).
Qed.

Lemma park_switch t thr th s :
  park t (switch_to thr th s) =
    switch_to thr (if decide (thr = t) then parked th else th) (park t s).
Proof.
  unfold park, switch_to, move, set_curproc, set_curthr, set_threads, set_queues, set_ipl; simpl.
  f_equal; [|by case_decide..]. apply map_eq. intros u. destruct (decide (thr = t)) as [->|Hne].
  - destruct (decide (u = t)) as [->|].
    + by rewrite lookup_alter_eq, !lookup_insert_eq.
    + by rewrite lookup_alter_ne, !lookup_insert_ne, lookup_alter_ne.
  - destruct (decide (u = t)) as [->|]; [|destruct (decide (u = thr)) as [->|]].
    + by rewrite lookup_alter_eq, !lookup_insert_ne, lookup_alter_eq.
    + by rewrite lookup_alter_ne, !lookup_insert_eq.
    + by rewrite lookup_alter_ne, !lookup_insert_ne, lookup_alter_ne.
Qed.

(** [sched_switch] hands over to a thread that waits for the processor. *)
Lemma switch_ok m t s pc :
  sys m None (park t s) pc → queues_wf s → is_Some (curthr s) →
  ∃ thr p x pt n s' th,
    sched_switch s = Yield s' (λ s', Ret () (set_ipl (ipl s) s')) ∧
    sys m (Some thr) (park t s') (delete thr pc) ∧ pc !! thr = Some (pt, n) ∧
    threads (park t s') !! thr = Some th ∧ kt_proc th = Some p ∧ procs s' !! p = Some x ∧
    pt ≠ PtExited ∧ task m (park t s') th p x pt n ∧
    S (length (qlist s' kt_runq)) = length (qlist s kt_runq) ∧ proc_list s' = proc_list s.
Proof.
  intros Hsys Hwf [cur Hcur].
  destruct (dispatch_ok m (park t s) pc Hsys) as (thr & th & p & x & pt & n & Hl & Hth & Hsys' & Hpc & Hth' & Hkp & Hx & Hnx & Htk & Hlen).
  destruct (wf_dom s Hwf thr kt_runq) as [th0 Hth0]; [by apply last_Some_elem_of|].
  set (s' := switch_to thr th0 (set_ipl IPL_LOW s)).
  assert (th = if decide (thr = t) then parked th0 else th0) as Eth.
  { revert Hth. unfold park. simpl. case_decide as Hd.
    - subst. rewrite lookup_alter_eq, Hth0. by intros [= <-].
    - rewrite lookup_alter_ne by done. congruence. }
  assert (park t s' = switch_to thr th (set_ipl IPL_LOW (park t s))) as Es'.
  { unfold s'. rewrite park_switch, Eth. done. }
  exists thr, p, x, pt, n, s', (with_wchan None th). rewrite Es'. split_and!; try done.
  apply (sched_switch_spec 0 thr th0 s cur); try done; [lia|intros j Hj; lia|by split; apply Hwf].
Qed.

(** ** Giving the processor away

    [B] bounds the number of processes and what is left of the budget. *)
Context (B : nat).

(** Thread [thr] is about to go on from its point. *)
Definition at_point (m : nat) (thr : tid) (s : kst) (pc : gmap tid (point * nat)) : Prop :=
  ∃ pt n th p x, pc !! thr = Some (pt, n) ∧ sys m (Some thr) s (delete thr pc) ∧
    threads s !! thr = Some th ∧ kt_proc th = Some p ∧ procs s !! p = Some x ∧
    pt ≠ PtExited ∧ task m s th p x pt n.

(** The budgets add up to at most [m]; [n] is that of the current thread. *)
Definition within (m n : nat) (s : kst) (pc : gmap tid (point * nat)) : Prop :=
  (total pc + n + length (qlist s kt_runq) ≤ m)%nat ∧ (length (proc_list s) + m ≤ B)%nat.

(** All other threads are where they were, gone, or new. *)
Definition others (t : tid) (pc0 pc : gmap tid (point * nat)) : Prop :=
  ∀ u pt n, u ≠ t → pc !! u = Some (pt, n) → (∃ f, pt = PtEntry f) ∨ ∃ n', pc0 !! u = Some (pt, n').

(** What the current thread [t] does with budget [m] left: it gives the
    processor away, with less left. *)
Definition suspends (t : tid) (m : nat) (pc0 : gmap tid (point * nat)) (o : outcome kst ()) : Prop :=
  ∃ m' s' k old thr pc, o = Yield s' k ∧ (m' < m)%nat ∧ at_point m' thr (park t s') pc ∧
    within m' 0 s' pc ∧ others t pc0 pc ∧
    ∃ pt n, pc !! t = Some (pt, n) ∧ (∀ f, pt ≠ PtEntry f) ∧
      (pt = PtExited ∨ ∀ s, k s = continue pt (set_ipl old s)).

Lemma others_refl t pc : others t pc pc.
Proof. intros u pt n _ Hu. eauto. Qed.

Lemma others_trans t pc0 pc1 pc2 : others t pc0 pc1 → others t pc1 pc2 → others t pc0 pc2.
Proof.
  intros H1' H2' u pt n Hne Hu. destruct (H2' u pt n Hne Hu) as [?|(n' & Hn')]; [by left|].
  by apply (H1' u pt n').
Qed.

Lemma others_insert t pc x : others t pc (<[t:=x]> pc).
Proof. intros u pt n Hne. rewrite lookup_insert_ne by done. eauto. Qed.

Lemma suspends_others t m pc0 pc1 o : others t pc0 pc1 → suspends t m pc1 o → suspends t m pc0 o.
Proof.
  intros Ho (m' & s' & k & old & thr & pc & E & Hm & Ha & Hw & Ho' & Hpt).
  exists m', s', k, old, thr, pc. split_and!; try done. by eapply others_trans.
Qed.

Lemma suspends_mono t m m' pc o : suspends t m pc o → (m ≤ m')%nat → suspends t m' pc o.
Proof.
  intros (m0 & s' & k & old & thr & pc' & E & Hm & Hrest) Hle.
  exists m0, s', k, old, thr, pc'. split_and!; try done; [lia|apply Hrest..].
Qed.

(** [G] is what the thread does after [sched_switch]. *)
Lemma switch_suspends (G : outcome kst () → outcome kst ()) m t s pc0 pc pt n :
  (∀ s k, G (Yield s k) = Yield s (λ s', G (k s'))) →
  (pt = PtExited ∨ ∀ s, G (Ret () s) = continue pt s) →
  sys (m - 1) None (park t s) pc → queues_wf s → is_Some (curthr s) → others t pc0 pc →
  pc !! t = Some (pt, n) → (∀ f, pt ≠ PtEntry f) → within m 0 s pc →
  suspends t m pc0 (G (sched_switch s)).
Proof.
  intros HG Hf Hsys Hwf Hcur Ho Hpt Hne [Hw1 Hw2].
  destruct (switch_ok (m - 1) t s pc Hsys Hwf Hcur)
    as (thr & p & x & pt' & n' & s' & th & E & Hsys' & Hpc & Hth & Hkp & Hx & Hnx & Htk & Hlen & Hpl).
  exists (m - 1)%nat, s', (λ s', G (Ret () (set_ipl (ipl s) s'))), (ipl s), thr, pc.
  rewrite E, HG. split_and!; [done|lia| |unfold within; rewrite Hpl; lia|done|].
  - exists pt', n', th, p, x. by split_and!.
  - exists pt, n. split_and!; try done. destruct Hf as [->|Hf]; [by left|right]. auto.
Qed.

(** The current thread gives the processor away to wait in a queue. *)
Lemma suspend_ok m s pc t th th' p x pt n :
  sys m (Some t) s pc → threads s !! t = Some th → kt_proc th = Some p → procs s !! p = Some x →
  thread_ok th' → kt_proc th' = kt_proc th → kt_kstack th' = kt_kstack th →
  place s (parked th') p x pt → task m s (parked th') p x pt n →
  sys m None (park t (move t th' s)) (<[t := (pt, n)]> pc).
Proof.
  intros [Hs Hsh Hpt _] Hth Hkp Hx Hok E1 E2 Hpl Htk. set (s1 := park t (move t th' s)).
  assert (s1 = set_threads (insert t (parked th')) (move t th' s)) as Es1 by apply park_insert, lookup_move.
  assert (sched_wf s1) as Hs1.
  { rewrite Es1. apply (sched_wf_upd t th'); [by apply sched_wf_move|apply lookup_move|done|done]. }
  assert (same_procs s s1) as Hsp by done.
  assert (threads s1 = <[t := parked th']> (threads s)) as Et.
  { rewrite Es1. simpl. by rewrite insert_insert_eq. }
  split; [done| | |done].
  - by eapply (shape_thread s s1 t th (parked th')).
  - eapply (points_thread m (Some t) None s s1 pc _ t th (parked th')); try done.
    + intros u Hu. by rewrite lookup_insert_ne.
    + intros u Hu. split; [done|congruence].
    + intros q y Hq Hy _. assert (q = p) as -> by (simpl in Hq; congruence). simplify_eq.
      exists pt, n. rewrite lookup_insert_eq. split_and!; [done| |].
      * eapply place_mono; eauto using undisturbed_refl.
      * eapply task_mono; eauto.
Qed.

Lemma cur_no_point m t s pc : sys m (Some t) s pc → pc !! t = None.
Proof.
  intros Hsys. destruct (pc !! t) eqn:E; [|done].
  by destruct (pts_dom _ _ _ _ (sy_points _ _ _ _ Hsys) t) as [_ ?]; [eexists|].
Qed.

(** The current thread, its process, and what is known of them. *)
Record current (s : kst) (t : tid) (th : kthread) (p : pptr) (x : proc) : Prop := {
  cu_curthr : curthr s = Some t;
  cu_thread : threads s !! t = Some th;
  cu_wchan : kt_wchan th = None;
  cu_state : kt_state th = KT_RUN;
  cu_ktproc : kt_proc th = Some p;
  cu_curproc : curproc s = Some p;
  cu_proc : procs s !! p = Some x;
  cu_running : p_state x = PROC_RUNNING;
}.

Lemma sys_current m t s pc : sys m (Some t) s pc → ∃ th p x, current s t th p x.
Proof.
  intros Hsys. destruct (sy_cur _ _ _ _ Hsys t eq_refl) as (th & p & x & ?).
  exists th, p, x. by split; apply H3.
Qed.

(** The current thread enters a queue and switches. *)
Lemma queue_suspends (G : outcome kst () → outcome kst ()) m s pc t th th' p x pt n n0 :
  sys m (Some t) s pc → current s t th p x →
  thread_ok th' → kt_proc th' = kt_proc th → kt_kstack th' = kt_kstack th →
  place s (parked th') p x pt → task (m - 1) s (parked th') p x pt n → (∀ f, pt ≠ PtEntry f) →
  within m n0 s pc → (n + (if decide (runnable th') then 1 else 0) ≤ n0)%nat →
  (∀ s k, G (Yield s k) = Yield s (λ s', G (k s'))) → (∀ s, G (Ret () s) = continue pt s) →
  suspends t m pc (G (sched_switch (move t th' s))).
Proof.
  intros Hsys [Hcur Hth Hwc Hst Hkp Hcp Hx Hr] Hok E1 E2 Hpl Htk Hne [Hw1 Hw2] Hn HG Hf.
  pose proof (wf_queues _ (sy_sched _ _ _ _ Hsys)) as Hwf.
  apply (switch_suspends G m t _ pc (<[t := (pt, n)]> pc) pt n); try done.
  - by right.
  - eapply suspend_ok; eauto. eapply sys_mono; eauto. lia.
  - by apply queues_wf_move.
  - apply others_insert.
  - apply lookup_insert_eq.
  - split; [|done]. rewrite total_insert by (by eapply cur_no_point). simpl.
    case_decide as Hrun.
    + rewrite (length_enter s t th) by (done || congruence). lia.
    + rewrite (length_stay s t th) by (done || congruence). lia.
Qed.

Lemma yield_suspends m s pc t th p x k n :
  sys m (Some t) s pc → current s t th p x → p ≠ ip → fits p k → costs k n → within m (2 + n) s pc →
  suspends t m pc (finish (den fuel (PYield k)) s).
Proof.
  intros Hsys Hc Hip Hf Hk Hw. pose proof Hc as [Hcur Hth Hwc Hst Hkp Hcp Hx Hr].
  pose proof (wf_queues _ (sy_sched _ _ _ _ Hsys)) as Hwf.
  unfold finish. cbn [den]. unfold thr_yield, cur_thread. msimpl. rewrite Hcur. cbn [obind].
  rewrite (sched_make_runnable_spec t th) by done. cbn [obind].
  apply (queue_suspends (λ o, obind kthread_exit (obind (λ _, den fuel k) o)) m s pc t th (woken th) p x
    (PtRun k) n (2 + n)); try done.
  - simpl. unfold started. simpl. eauto.
  - case_decide; lia.
Qed.
End system.

(** The parameters of the section follow from the hypotheses. *)
#[global] Arguments costs_pos {H2} {budget} _ _ _.
#[global] Arguments task_mono {H2} {budget} {ip} {jp} _ _ _ _ _ _ _ _ _ _ _ _ _ _ _ _.
#[global] Arguments asleep_child {H1} {ip} {jp} _ _ _ _ _ _ _ _ _.
#[global] Arguments someone_runs {H1} {H2} {budget} {ip} {jp} _ _ _ _ _.
#[global] Arguments roots_ext {H1} {ip} {jp} _ _ _ _.
#[global] Arguments shape_thread {H1} {ip} {jp} _ _ _ _ _ _ _ _ _ _ _.
#[global] Arguments points_thread {H2} {budget} {ip} {jp} _ _ _ _ _ _ _ _ _ _ _ _ _ _ _ _ _ _.
#[global] Arguments sys_mono {H1} {H2} {budget} {ip} {jp} _ _ _ _ _ _ _.
#[global] Arguments dispatch_ok {H1} {H2} {budget} {ip} {jp} _ _ _ _.
#[global] Arguments switch_ok {H} {H1} {H2} {budget} {ip} {jp} _ _ _ _ _ _ _.
#[global] Arguments suspends_others {H} {H0} {H1} {H2} {fuel} {budget} {ip} {jp} {B} _ _ _ _ _ _ _.
#[global] Arguments suspends_mono {H} {H0} {H1} {H2} {fuel} {budget} {ip} {jp} {B} _ _ _ _ _ _ _.
#[global] Arguments switch_suspends {H} {H0} {H1} {H2} {fuel} {budget} {ip} {jp} {B} _ _ _ _ _ _ _ _ _ _ _ _ _ _ _ _ _.
#[global] Arguments suspend_ok {H1} {H2} {budget} {ip} {jp} _ _ _ _ _ _ _ _ _ _ _ _ _ _ _ _ _ _ _.
#[global] Arguments cur_no_point {H1} {H2} {budget} {ip} {jp} _ _ _ _ _.
#[global] Arguments sys_current {H1} {H2} {budget} {ip} {jp} _ _ _ _ _.
#[global] Arguments queue_suspends {H} {H0} {H1} {H2} {fuel} {budget} {ip} {jp} {B} _ _ _ _ _ _ _ _ _ _ _ _ _ _ _ _ _ _ _ _ _ _ _ _.
#[global] Arguments yield_suspends {H} {H0} {H1} {H2} {fuel} {budget} {ip} {jp} {B} _ _ _ _ _ _ _ _ _ _ _ _ _ _ _.
#[global] Arguments rt_list {H1} {ip} {jp} _ _.
#[global] Arguments rt_idle {H1} {ip} {jp} _ _.
#[global] Arguments rt_init {H1} {ip} {jp} _ _.
#[global] Arguments rt_initproc {H1} {ip} {jp} _ _.
#[global] Arguments rt_parent {H1} {ip} {jp} _ _ _ _ _ _.
#[global] Arguments sh_table {H1} {ip} {jp} _ _.
#[global] Arguments sh_tree {H1} {ip} {jp} _ _.
#[global] Arguments sh_roots {H1} {ip} {jp} _ _.
#[global] Arguments sh_born {H1} {ip} {jp} _ _ _ _ _ _ _.
#[global] Arguments sh_proc {H1} {ip} {jp} _ _ _ _ _.
#[global] Arguments sh_thread {H1} {ip} {jp} _ _ _ _ _.
#[global] Arguments pts_at {H2} {budget} {ip} {jp} _ _ _ _ _ _ _ _ _ _ _ _ _.
#[global] Arguments pts_dom {H2} {budget} {ip} {jp} _ _ _ _ _ _ _.
#[global] Arguments sy_sched {H1} {H2} {budget} {ip} {jp} _ _ _ _ _.
#[global] Arguments sy_shape {H1} {H2} {budget} {ip} {jp} _ _ _ _ _.
#[global] Arguments sy_points {H1} {H2} {budget} {ip} {jp} _ _ _ _ _.
#[global] Arguments sy_cur {H1} {H2} {budget} {ip} {jp} _ _ _ _ _ _ _.
