(* ===== verification/SystemOps.v ===== *)
(** * Process calls under the invariant of the system

    Reaping, creating, exiting and waiting keep the invariant of System, and
    so every program that stays within its budget does: it runs until it
    gives the processor away, and leaves less of the budget. *)

From S2P Require Import Prelude Kstate Sched Kmutex Machine Proc ProcTree Boot System.
Local Open Scope Z_scope.

Section calls.
Context `{Machine} `{Errno} `{ProcEnv} `{BootEnv} (fuel : nat) (budget : Z → nat) (ip jp : pptr) (B : nat).

#[local] Abbreviation costs := (costs budget).
#[local] Abbreviation fits := (fits jp).
#[local] Abbreviation task := (task budget ip jp).
#[local] Abbreviation roots := (roots ip jp).
#[local] Abbreviation shape := (shape ip jp).
#[local] Abbreviation points := (points budget ip jp).
#[local] Abbreviation sys := (sys budget ip jp).
#[local] Abbreviation reap_tail := (reap_tail fuel).
#[local] Abbreviation continue := (continue fuel).
#[local] Abbreviation within := (within B).
#[local] Abbreviation suspends := (suspends fuel budget ip jp B).

(** ** Reaping *)

Lemma thread_unique s p q x y t :
  shape s → procs s !! p = Some x → procs s !! q = Some y → p_threads x = [t] → p_threads y = [t] → p = q.
Proof.
  intros Hsh Hx Hy Htx Hty. destruct (sh_proc _ Hsh p x Hx) as (_ & t1 & th1 & E1 & Ht1 & K1 & _).
  destruct (sh_proc _ Hsh q y Hy) as (_ & t2 & th2 & E2 & Ht2 & K2 & _). congruence.
Qed.

(** A dead process is a zombie. *)
Lemma dead_zombie m t s pc c z :
  sys m (Some t) s pc → procs s !! c = Some z → p_state z = PROC_DEAD →
  ∃ tc n, zombie s c z tc ∧ p_threads z = [tc] ∧ tc ≠ t ∧ pc !! tc = Some (PtExited, n) ∧ c ≠ ip.
Proof.
  intros Hsys Hz Hd. pose proof (sy_shape _ _ _ _ Hsys) as Hsh.
  destruct (sh_proc _ Hsh c z Hz) as (Hpd & tc & th & Hts & Hth & Hkp & Hks).
  destruct (sys_current _ _ _ _ Hsys) as (th0 & p0 & x0 & [_ Hth0 _ _ Hkp0 _ Hx0 Hr0]).
  assert (tc ≠ t) as Hne by (intros ->; congruence).
  destruct (pts_at _ _ _ _ (sy_points _ _ _ _ Hsys) tc th c z Hth Hkp Hz) as (pt & n & Hpc & Hpl & Htk);
    [congruence|].
  assert (pt = PtExited ∧ kt_wchan th = None) as [-> Hw] by (destruct pt; destruct Hpl; try congruence; done).
  exists tc, n. split_and!; try done. split; try done; [by rewrite Hts|]. exists th. by split_and!.
Qed.

Section reap.
Context (m : nat) (s : kst) (pc : gmap tid (point * nat)) (t : tid) (th : kthread) (p : pptr) (x : proc)
  (c : pptr) (z : proc) (tc : tid).
Context (Hsys : sys m (Some t) s pc) (Hcu : current s t th p x) (Hip : p ≠ ip).
Context (Hz : zombie s c z tc) (Hts : p_threads z = [tc]) (Hc : c ∈ p_children x).

Lemma reap_child : p_pproc z = Some p.
Proof.
  destruct (tr_child _ (sh_tree _ (sy_shape _ _ _ _ Hsys)) p x c) as (z' & Hz' & Hp);
    [apply Hcu|apply Hcu|done|]. destruct Hz. congruence.
Qed.

Lemma reap_lookup q y :
  procs (reaped p c tc s) !! q = Some y ↔
  q ≠ c ∧ ∃ y0, procs s !! q = Some y0 ∧ y = unlink_child p c tc q y0.
Proof.
  simpl. rewrite lookup_delete_Some, lookup_pmap, fmap_Some. naive_solver.
Qed.

(** Processes other than the one reaped keep their thread. *)
Lemma reap_threads q y : procs s !! q = Some y → q ≠ c → p_threads (unlink_child p c tc q y) = p_threads y.
Proof.
  intros Hy Hq. pose proof (sy_shape _ _ _ _ Hsys) as Hsh.
  destruct (sh_proc _ Hsh q y Hy) as (_ & u & uh & Hu & _).
  assert (p_threads (unlink_child p c tc q y) = filter (λ v, v ≠ tc) (p_threads y)) as ->.
  { unfold unlink_child. by case_decide. }
  rewrite Hu. rewrite filter_cons_True; [done|]. intros ->. apply Hq.
  eapply (thread_unique s q c y z tc); eauto using zo_proc.
Qed.

Lemma reap_not_init : c ≠ jp ∧ c ≠ ip.
Proof.
  pose proof (sh_roots _ (sy_shape _ _ _ _ Hsys)) as [_ (ix & Hix & _ & Hir & _) (jx & Hjx & _ & Hjp & _) _ _].
  pose proof reap_child as Hp. destruct Hz as [Hzc Hd _ _ _]. split; intros ->; congruence.
Qed.

Lemma reap_roots : roots (reaped p c tc s).
Proof.
  pose proof reap_not_init as [Hcj Hci].
  pose proof (sh_roots _ (sy_shape _ _ _ _ Hsys)) as
    [(l & Hl) (ix & Hix & Hi1 & Hi2 & Hi3 & Hi4) (jx & Hjx & Hj1 & Hj2 & Hj3) Hin Hpar].
  assert (∀ q y, procs s !! q = Some y → q ≠ c →
    procs (reaped p c tc s) !! q = Some (unlink_child p c tc q y)) as Hlk.
  { intros q y Hy Hq. apply reap_lookup. eauto. }
  split.
  - exists (filter (λ q, q ≠ c) l). simpl. by rewrite Hl, !filter_cons_True.
  - exists (unlink_child p c tc ip ix). rewrite unlink_child_pid, unlink_child_state, unlink_child_pproc,
      unlink_child_children, decide_False by done. split_and!; auto.
  - exists (unlink_child p c tc jp jx). rewrite unlink_child_pid, unlink_child_state, unlink_child_pproc.
    split_and!; auto. intros Hd. specialize (Hj3 Hd). simpl. rewrite Hj3. by rewrite !filter_cons_True.
  - done.
  - intros q y (Hq & y0 & Hy0 & ->)%reap_lookup Hne. rewrite unlink_child_pproc. eauto.
Qed.

Lemma reap_shape : shape (reaped p c tc s).
Proof.
  pose proof (sy_shape _ _ _ _ Hsys) as [A B' C D E F]. destruct Hz as [Hzc Hd _ _ _].
  split; [by apply reaped_table|by eapply reaped_tree; eauto using reap_child|apply reap_roots| | |].
  - intros d y q (Hdc & y0 & Hy0 & ->)%reap_lookup. rewrite unlink_child_pproc. intros Hq.
    apply before_filter; [by eapply D| |done].
    destruct (tr_parent _ B' d y0 q) as (_ & w & Hw & Hwr & _); [done..|]. congruence.
  - intros q y (Hq & y0 & Hy0 & ->)%reap_lookup. rewrite reap_threads by done.
    destruct (E q y0 Hy0) as (Hpd & u & uh & Hu & Huh & Huk & Hks). split.
    + unfold unlink_child. by case_decide.
    + exists u, uh. split_and!; try done. simpl. rewrite lookup_delete_ne; [done|].
      intros <-. apply Hq. by eapply (thread_unique s q c y0 z tc); [split| | | |].
  - intros u uh. simpl. rewrite lookup_delete_Some. intros [Hne Hu].
    destruct (F u uh Hu) as (q & y & Hk & Hy & Ht). exists q, (unlink_child p c tc q y).
    assert (q ≠ c) as Hqc by (intros ->; congruence).
    split_and!; [done|by apply reap_lookup; eauto|]. by rewrite reap_threads.
Qed.

Lemma reap_alive d : alive s d → alive (reaped p c tc s) d.
Proof.
  rewrite !alive_lookup. intros (y & Hy & Hr). exists (unlink_child p c tc d y). rewrite unlink_child_state.
  split; [|done]. apply reap_lookup. destruct Hz. split; [congruence|eauto].
Qed.

Lemma reap_points : points m (Some t) (reaped p c tc s) (delete tc pc).
Proof.
  pose proof (sy_points _ _ _ _ Hsys) as [A D]. split.
  - intros u uh q y. simpl. rewrite lookup_delete_Some. intros [Hne Hu] Hk (Hq & y0 & Hy0 & ->)%reap_lookup Hcur.
    destruct (A u uh q y0 Hu Hk Hy0 Hcur) as (pt & n & Hpc & Hpl & Htk). exists pt, n.
    assert (q ≠ p) as Hqp.
    { intros ->. apply Hcur. f_equal. pose proof Hcu as [_ Hth _ _ Hkp _ Hx _].
      destruct (sh_thread _ (sy_shape _ _ _ _ Hsys) u uh Hu) as (q1 & y1 & Hk1 & Hy1 & Ht1).
      destruct (sh_thread _ (sy_shape _ _ _ _ Hsys) t th Hth) as (q2 & y2 & Hk2 & Hy2 & Ht2). congruence. }
    assert (p_children (unlink_child p c tc q y0) = p_children y0) as Ech
      by (by rewrite unlink_child_children, decide_False).
    rewrite lookup_delete_ne by done. split_and!; [done| |].
    + eapply place_mono; eauto using undisturbed_refl; [by rewrite unlink_child_state|by rewrite Ech|].
      intros _ _ d _. apply reap_alive.
    + eapply task_mono; eauto; [|by rewrite Ech]. simpl. pose proof (length_filter (λ q, q ≠ c) (proc_list s)). lia.
  - intros u. simpl. rewrite lookup_delete_is_Some. intros [Hne Hu].
    destruct (D u Hu) as [? ?]. split; [|done]. by rewrite lookup_delete_ne.
Qed.

(** Reaping leaves the invariant, and one process less. *)
Lemma reap_ok :
  sys m (Some t) (reaped p c tc s) (delete tc pc) ∧
  current (reaped p c tc s) t th p (unlink_child p c tc p x) ∧
  S (length (proc_list (reaped p c tc s))) = length (proc_list s).
Proof.
  pose proof Hcu as [Hcur Hth Hwc Hst Hkp Hcp Hx Hr]. pose proof Hz as [Hzc Hd _ _ (zh & Hzh & _ & Hzw)].
  destruct (dead_zombie m t s pc c z Hsys Hzc Hd) as (tc' & n & _ & E & Htc & _ & _).
  assert (tc' = tc) as -> by congruence.
  assert (current (reaped p c tc s) t th p (unlink_child p c tc p x)) as Hcu'.
  { split; try done; [simpl; by rewrite lookup_delete_ne|apply reap_lookup; split; [congruence|eauto]|].
    by rewrite unlink_child_state. }
  split_and!; [|done|].
  - split; [|apply reap_shape|apply reap_points|].
    + apply (sched_wf_ext (set_threads (delete tc) s)); [done..|]. by eapply sched_wf_delete; eauto using sy_sched.
    + intros u [= <-]. destruct Hcu'. by exists th, p, (unlink_child p c tc p x).
  - simpl. pose proof (sh_table _ (sy_shape _ _ _ _ Hsys)) as Htb.
    apply length_remove; [apply Htb|apply (tb_list s Htb); eauto].
Qed.
End reap.

(** ** Creating processes *)

(** Memory does not run out. *)
Context (memory : ∀ s, is_Some (slab_alloc_proc s) ∧ is_Some (slab_alloc_thread s) ∧
  is_Some (alloc_stack s) ∧ is_Some (pt_create_pagedir s)).
Context (B_max : Z.of_nat B < PROC_MAX_COUNT).

(** Threads wait for children only in the queue of their own process. *)
Lemma p_wait_owner m t s pc u uh q :
  sys m (Some t) s pc → threads s !! u = Some uh → kt_wchan uh = Some (p_wait q) → kt_proc uh = Some q.
Proof.
  intros Hsys Hu Hw. destruct (sys_current _ _ _ _ Hsys) as (th0 & p0 & x0 & Hcu).
  destruct (sh_thread _ (sy_shape _ _ _ _ Hsys) u uh Hu) as (p & x & Hk & Hx & _).
  destruct (decide (u = t)) as [->|Hne]; [destruct Hcu; congruence|].
  destruct (pts_at _ _ _ _ (sy_points _ _ _ _ Hsys) u uh p x Hu Hk Hx) as (pt & n & _ & Hpl & _); [congruence|].
  unfold place, waits, runnable in Hpl. rewrite Hw in Hpl.
  destruct pt; destruct Hpl as [_ Hpl]; try done; destruct Hpl as [?|[? _]]; congruence.
Qed.

Lemma new_queue_empty m t s pc c : sys m (Some t) s pc → procs s !! c = None → qlist s (p_wait c) = [].
Proof.
  intros Hsys Hc. destruct (qlist s (p_wait c)) as [|u l] eqn:E; [done|].
  pose proof (wf_queues _ (sy_sched _ _ _ _ Hsys)) as Hwf.
  assert (u ∈ qlist s (p_wait c)) as Hu by (rewrite E; left).
  destruct (wf_dom s Hwf u _ Hu) as [uh Huh]. apply (wf_chan s Hwf u uh) in Hu; [|done].
  destruct (sh_thread _ (sy_shape _ _ _ _ Hsys) u uh Huh) as (p & x & Hk & Hx & _).
  pose proof (p_wait_owner m t s pc u uh c Hsys Huh Hu). congruence.
Qed.

(** Fewer processes than identifiers: one is free. *)
Lemma pid_free s :
  (length (proc_list s) ≤ B)%nat → ¬ ∀ i, 0 <= i < PROC_MAX_COUNT → i ∈ pids s (proc_list s).
Proof.
  intros Hl Hall. pose proof (pids_length s (proc_list s)) as Hp.
  assert (seqZ 0 PROC_MAX_COUNT ⊆+ pids s (proc_list s)) as Hs.
  { apply NoDup_submseteq; [apply NoDup_seqZ|]. intros i Hi. apply Hall. apply elem_of_seqZ in Hi. lia. }
  apply submseteq_length in Hs. rewrite length_seqZ in Hs. lia.
Qed.

Record fresh_thread (f : Z) (c : pptr) (th : kthread) : Prop := {
  ft_proc : kt_proc th = Some c;
  ft_wchan : kt_wchan th = None;
  ft_state : kt_state th = KT_RUN;
  ft_stack : is_Some (kt_kstack th);
  ft_func : c_func (kt_ctx th) = f;
  ft_esp : c_esp (kt_ctx th) = None;
}.

Lemma add_proc_sys m t s pc c z p x :
  sys m (Some t) s pc → procs s !! c = None → sched_wf (add_proc c z p x s).
Proof. intros Hsys Hc. apply add_proc_sched; [apply Hsys|by eapply new_queue_empty]. Qed.

Lemma spawn_eval m t s pc th p x name f :
  sys m (Some t) s pc → current s t th p x → (length (proc_list s) ≤ B)%nat →
  ∃ c pid tc tch s1, let z := newborn pid name tc p s1 in
    spawn name f s = Ret c (spawned c z p x tc tch s1) ∧
    s1 = set_next_pid ((pid + 1) mod PROC_MAX_COUNT) s ∧ 0 <= pid < PROC_MAX_COUNT ∧
    pid ∉ pids s (proc_list s) ∧ procs s !! c = None ∧ threads s !! tc = None ∧ fresh_thread f c tch ∧
    is_Some (p_pagedir z).
Proof.
  intros Hsys Hcu Hlen. pose proof Hcu as [Hcur Hth Hwc Hst Hkp Hcp Hx Hr].
  pose proof (sy_shape _ _ _ _ Hsys) as Hsh. pose proof (sh_table _ Hsh) as Htb.
  destruct (sh_roots _ Hsh) as [_ (ix & Hix & Hi1 & _) (jx & Hjx & Hj1 & _) _ _].
  destruct (memory s) as ([c Hc] & _).
  destruct (proc_create_eval name p x c s) as (pid & s1 & Hres & Hcr); try done.
  { rewrite <- Hi1. by eapply in_pids. }
  { rewrite <- Hj1. by eapply in_pids. }
  pose proof (slab_proc_fresh s c Hc) as Hcn.
  destruct Hres as [(_ & _ & Hall)|(k & Hk & Hpid & Hn & _ & Es1)]; [by apply pid_free in Hlen|].
  assert (0 <= pid < PROC_MAX_COUNT) as Hpr.
  { rewrite Hpid. unfold candidate. apply Z.mod_pos_bound. lia. }
  set (s2 := add_proc c (new_proc pid name p s1) p x s1) in *.
  destruct (memory s2) as (_ & [tc Htc] & [stk Hstk] & _).
  pose proof (slab_thread_fresh s2 tc Htc) as Htcn.
  assert (c ≠ p) as Hcp' by congruence.
  set (tch := Kthread (context_setup f 0 0 (Some stk) DEFAULT_STACK_SIZE (pt_create_pagedir s1))
    (Some stk) 0 0 (Some c) false KT_RUN None).
  exists c, pid, tc, tch, s1. simpl. split_and!; try done; try apply Hpr.
  - unfold spawn, kthread_create. rewrite (bind_step _ _ _ _ _ Hcr). msimpl. rewrite Htc. cbn [obind].
    unfold proc_at at 1. simpl. rewrite lookup_insert_ne, lookup_insert_eq by done. cbn [obind].
    rewrite Hstk. unfold upd_proc at 1. simpl. rewrite lookup_insert_ne, lookup_insert_eq by done.
    cbn [obind]. fold tch. unfold s2. rewrite spawned_eq by done.
    rewrite (sched_make_runnable_spec tc tch); [done| |apply lookup_insert_eq|done].
    apply sched_wf_new; [|by subst s1|done|done]. subst s1.
    apply (sched_wf_ext (add_proc c (newborn pid name tc p s) p x s)); [done..|]. by eapply add_proc_sys.
  - by subst s1.
  - apply memory.
Qed.

Section spawn.
Context (m : nat) (s : kst) (pc : gmap tid (point * nat)) (t : tid) (th : kthread) (p : pptr) (x : proc).
Context (c : pptr) (z : proc) (tc : tid) (tch : kthread) (f nxt : Z).
Context (Hsys : sys m (Some t) s pc) (Hcu : current s t th p x) (Hip : p ≠ ip).
Context (Hc : procs s !! c = None) (Htc : threads s !! tc = None) (Hft : fresh_thread f c tch).
Context (Hord : ordinary f) (Hzpid : 0 <= p_pid z < PROC_MAX_COUNT) (Hznew : p_pid z ∉ pids s (proc_list s)).
Context (Hzt : p_threads z = [tc]) (Hzc : p_children z = []) (Hzp : p_pproc z = Some p).
Context (Hzr : p_state z = PROC_RUNNING) (Hzd : is_Some (p_pagedir z)) (Hnxt : 0 <= nxt < PROC_MAX_COUNT).

Let s' := spawned c z p x tc tch (set_next_pid nxt s).
Let x' := with_children (λ l, l ++ [c]) x.

Lemma spawn_ne : c ≠ p.
Proof. intros ->. pose proof (cu_proc _ _ _ _ _ Hcu). congruence. Qed.

Lemma spawn_roots : roots s'.
Proof.
  pose proof (sy_shape _ _ _ _ Hsys) as Hsh. pose proof spawn_ne as Hne. pose proof (cu_proc _ _ _ _ _ Hcu) as Hx.
  destruct (sh_roots _ Hsh) as
    [(l & Hl) (ix & Hix & Hi1 & Hi2 & Hi3 & Hi4) (jx & Hjx & Hj1 & Hj2 & Hj3) Hin Hpar].
  assert (∀ q y, procs s !! q = Some y → q ≠ p → procs s' !! q = Some y) as Hlk.
  { intros q y Hy Hq. simpl. rewrite !lookup_insert_ne by congruence. done. }
  assert (procs s' !! p = Some x') as Hp by (simpl; apply lookup_insert_eq).
  split.
  - exists (l ++ [c]). simpl. by rewrite Hl.
  - exists ix. split_and!; auto.
  - destruct (decide (jp = p)) as [->|Hjp].
    + exists x'. simplify_eq. split_and!; try done. intros Hd. pose proof (cu_running _ _ _ _ _ Hcu).
      simpl in Hd. congruence.
    + exists jx. split_and!; auto. intros Hd. specialize (Hj3 Hd).
      assert (p ∈ proc_list s) as Hps by (apply (tb_list s (sh_table _ Hsh)); eauto).
      rewrite Hj3 in Hps. set_solver.
  - done.
  - intros q y Hq Hqi. apply add_leaf_lookup in Hq as [(-> & ->)|[(-> & ->)|(_ & _ & Hq)]];
      [exact (Hpar p x Hx Hqi)|rewrite Hzp; eauto|exact (Hpar q y Hq Hqi)|done].
Qed.

Lemma spawn_table : table_wf s'.
Proof.
  pose proof (sh_table _ (sy_shape _ _ _ _ Hsys)) as Htb.
  assert (table_wf (set_next_pid nxt s)) as Htb1 by (by destruct Htb; split).
  apply (table_wf_ext (add_proc c z p x (set_next_pid nxt s))); [done|].
  apply add_proc_table; try done. apply Hcu.
Qed.

Lemma spawn_shape : shape s'.
Proof.
  pose proof (sy_shape _ _ _ _ Hsys) as [A T _ D E F]. pose proof spawn_ne as Hne.
  pose proof (cu_proc _ _ _ _ _ Hcu) as Hx. pose proof (cu_running _ _ _ _ _ Hcu) as Hr.
  split; [apply spawn_table|by apply add_leaf_tree|apply spawn_roots| | |].
  - intros q y r Hq Hy.
    assert (∀ y0, procs s !! q = Some y0 → p_pproc y0 = Some r → before (proc_list s') r q) as Hold.
    { intros y0 Hy0 Hr0. by eapply before_app, D. }
    apply add_leaf_lookup in Hq as [(-> & ->)|[(-> & ->)|(_ & _ & Hq)]]; [by eapply Hold| |by eapply Hold|done].
    assert (r = p) as -> by congruence. apply before_end. apply (tb_list s A). eauto.
  - intros q y Hq.
    assert (∀ y0, procs s !! q = Some y0 → p_threads y = p_threads y0 → p_pagedir y = p_pagedir y0 →
      is_Some (p_pagedir y) ∧ ∃ u uh, p_threads y = [u] ∧ threads s' !! u = Some uh ∧ kt_proc uh = Some q ∧
        is_Some (kt_kstack uh)) as Hold.
    { intros y0 Hy0 -> ->. destruct (E q y0 Hy0) as (Hd & u & uh & Hu & Huh & Hk). split; [done|].
      exists u, uh. split_and!; try apply Hk; [done|]. simpl. rewrite !lookup_insert_ne by congruence. done. }
    apply add_leaf_lookup in Hq as [(-> & ->)|[(-> & ->)|(_ & _ & Hq)]]; [by eapply Hold| |by eapply Hold|done].
    split; [done|]. exists tc, (woken tch). split_and!; [done|apply lookup_insert_eq|apply Hft|apply Hft].
  - intros u uh. simpl. rewrite insert_insert_eq, lookup_insert_Some. intros [[<- <-]|[Hu Huh]].
    + exists c, z. split_and!; [apply Hft| |done]. by rewrite lookup_insert_ne, lookup_insert_eq.
    + destruct (F u uh Huh) as (q & y & Hk & Hy & Ht). exists q.
      destruct (add_leaf_keeps c z p x (procs s) q y Hc Hx Hy) as (y' & Hy' & _).
      exists y'. split_and!; try done. revert Hy'. unfold add_leaf.
      rewrite !lookup_insert_Some. intros [[<- <-]|[_ [[<- <-]|[_ ?]]]]; simplify_eq; done.
Qed.

Lemma spawn_alive d : alive s d → alive s' d.
Proof.
  rewrite !alive_lookup. intros (y & Hy & Hr). pose proof (cu_proc _ _ _ _ _ Hcu) as Hx.
  destruct (add_leaf_keeps c z p x (procs s) d y Hc Hx Hy) as (y' & Hy' & E & _). exists y'. by rewrite E.
Qed.

Lemma spawn_points m' :
  (S m' ≤ m)%nat → points m' (Some t) s' (<[tc := (PtEntry f, budget f)]> pc).
Proof.
  intros Hm. pose proof (sy_points _ _ _ _ Hsys) as [A D]. pose proof (sy_shape _ _ _ _ Hsys) as Hsh.
  pose proof (cu_thread _ _ _ _ _ Hcu) as Hth. pose proof (cu_proc _ _ _ _ _ Hcu) as Hx.
  destruct (sh_roots _ Hsh) as [_ (ix & Hix & _) (jx & Hjx & _) _ _].
  split.
  - intros u uh q y. simpl. rewrite insert_insert_eq, lookup_insert_Some.
    intros [[<- <-]|[Hu Huh]] Hk Hy Hcur.
    + exists (PtEntry f), (budget f). rewrite lookup_insert_eq.
      assert (q = c) as -> by (pose proof (ft_proc _ _ _ Hft); simpl in Hk; congruence).
      rewrite lookup_insert_ne, lookup_insert_eq in Hy by (by apply not_eq_sym, spawn_ne). simplify_eq.
      split_and!; [done| |]; simpl; [by split|]. destruct Hord. split_and!; try apply Hft; try done; [congruence|].
      split; [done|congruence].
    + rewrite lookup_insert_ne by done. fold (add_leaf c z p x (procs s)) in Hy.
      apply add_leaf_lookup in Hy as [(-> & ->)|[(-> & ->)|(Hqp & Hqc & Hy)]]; [| | |apply spawn_ne].
      * destruct Hcur. f_equal. pose proof (cu_ktproc _ _ _ _ _ Hcu) as Hkp.
        destruct (sh_thread _ Hsh u uh Huh) as (q1 & y1 & Hk1 & Hy1 & Ht1).
        destruct (sh_thread _ Hsh t th Hth) as (q2 & y2 & Hk2 & Hy2 & Ht2). congruence.
      * destruct (sh_thread _ Hsh u uh Huh) as (q1 & y1 & Hk1 & Hy1 & Ht1). congruence.
      * destruct (A u uh q y Huh Hk Hy Hcur) as (pt & n & Hpc & Hpl & Htk). exists pt, n.
        split_and!; [done| |].
        { eapply place_mono; eauto using undisturbed_refl. intros _ _ d _. apply spawn_alive. }
        { eapply task_mono; eauto; [lia|]. simpl. rewrite length_app. simpl. lia. }
  - intros u. simpl. rewrite insert_insert_eq, !lookup_insert_is_Some'.
    intros [->|Hu]; [split; [by left|congruence]|]. destruct (D u Hu). by split; [right|].
Qed.

Lemma spawn_ok m' n n' :
  within m n s pc → (S m' = m)%nat → (budget f + 3 + n' ≤ n)%nat →
  sys m' (Some t) s' (<[tc := (PtEntry f, budget f)]> pc) ∧ current s' t th p x' ∧
  within m' n' s' (<[tc := (PtEntry f, budget f)]> pc) ∧ others t pc (<[tc := (PtEntry f, budget f)]> pc) ∧
  procs s' !! c = Some z.
Proof.
  intros [Hw1 Hw2] Hm Hn. pose proof Hcu as [Hcur Hth Hwc Hst Hkp Hcp Hx Hr].
  assert (tc ≠ t) as Htct by congruence.
  assert (sched_wf (set_threads (insert tc tch) (add_proc c z p x (set_next_pid nxt s)))) as Hs.
  { apply sched_wf_new; [|done|apply Hft..]. apply (sched_wf_ext (add_proc c z p x s)); [done..|].
    by eapply add_proc_sys. }
  assert (current s' t th p x') as Hcu'.
  { split; try done; simpl; [by rewrite !lookup_insert_ne|by rewrite lookup_insert_eq]. }
  assert (pc !! tc = None) as Hpc.
  { destruct (pc !! tc) eqn:E; [|done].
    destruct (pts_dom _ _ _ _ (sy_points _ _ _ _ Hsys) tc) as [[? ?] _]; [by eexists|congruence]. }
  assert (∀ q, q ≠ p_wait c → qlist (add_proc c z p x (set_next_pid nxt s)) q = qlist s q) as Hq.
  { intros q Hq. unfold qlist, queue. simpl. by rewrite lookup_insert_ne. }
  split_and!; [split|done|split|..].
  - by apply sched_wf_move.
  - apply spawn_shape.
  - apply spawn_points. lia.
  - intros u [= <-]. destruct Hcu'. by exists th, p, x'.
  - rewrite total_insert by done. unfold s', spawned. rewrite (length_enter _ tc tch); [|apply Hs|apply lookup_insert_eq| |done].
    + change (qlist (set_threads _ ?a)) with (qlist a). rewrite Hq by done. simpl. lia.
    + by rewrite (ft_wchan _ _ _ Hft).
  - simpl. rewrite length_app. simpl. lia.
  - intros u pt k Hu. rewrite lookup_insert_Some. intros [[<- [= <- <-]]|[_ ?]]; eauto.
  - simpl. by rewrite lookup_insert_ne, lookup_insert_eq by (apply not_eq_sym, spawn_ne).
Qed.
End spawn.

(** ** Exiting *)

Lemma before_third {A} (a b q r : A) l : NoDup (a :: b :: q :: l) → before (a :: b :: q :: l) r q → r = a ∨ r = b.
Proof.
  intros Hn (l1 & l2 & E & Hq). rewrite !NoDup_cons in Hn. destruct Hn as (_ & _ & Hn & _).
  destruct l1 as [|? [|? [|? l1]]]; simplify_eq/=; auto; [done|]. exfalso. apply Hn. set_solver.
Qed.

(** When the init process has no children, only it and the idle process are
    left. *)
Lemma init_alone s x : shape s → procs s !! jp = Some x → p_children x = [] → proc_list s = [ip; jp].
Proof.
  intros Hsh Hx Hch. destruct (sh_roots _ Hsh) as [(l & Hl) (ix & Hix & _ & _ & _ & Hi4) _ _ Hpar].
  pose proof (sh_table _ Hsh) as Htb. pose proof (tb_nodup s Htb) as Hn.
  destruct l as [|q l]; [done|]. exfalso. rewrite Hl in Hn.
  assert (q ≠ ip ∧ q ≠ jp) as [Hqi Hqj] by (rewrite !NoDup_cons in Hn; set_solver).
  destruct (proj1 (tb_list s Htb q)) as [y Hy]; [rewrite Hl; set_solver|].
  destruct (Hpar q y Hy Hqi) as [r Hr]. pose proof (sh_born _ Hsh q y r Hy Hr) as Hb. rewrite Hl in Hb.
  destruct (tr_parent _ (sh_tree _ Hsh) q y r) as (_ & w & Hw & _ & Hin); [done..|].
  apply before_third in Hb; [|done]. destruct Hb; simplify_eq.
  - rewrite Hi4 in Hin. set_solver.
  - rewrite Hch in Hin. by apply elem_of_nil in Hin.
Qed.

(** The exit of the init process itself. *)
Lemma init_cleanup_eval status s x pp t th :
  sched_wf s → curproc s = Some jp → procs s !! jp = Some x → p_pid x = PID_INIT → p_pproc x = Some pp →
  is_Some (procs s !! pp) → proc_initproc s = Some jp → p_children x = [] →
  curthr s = Some t → threads s !! t = Some th → kt_state th = KT_EXITED → kt_wchan th = None →
  ∃ s1, notified (p_wait pp) s s1 ∧ sched_wf s1 ∧ frame s s1 ∧
    proc_cleanup status s = Ret () (set_procs (pmap (exit_tree jp jp [] status)) s1).
Proof.
  intros Hs Hc Hx Hpid Hpp [y Hy] Hip Hch Ht Hth Hst Hw.
  destruct (sched_wakeup_on_notified (p_wait pp) s) as (r & s1 & Hwk & Hno & Hs1 & Hfr); [done..|].
  exists s1. split_and!; [done..|].
  unfold proc_cleanup, cur_proc, cur_thread, proc_at. msimpl. rewrite Hip. cbn [obind].
  rewrite Hc. cbn [obind]. rewrite Hx. cbn [obind].
  rewrite (proj2 (Z.leb_le _ _)) by (rewrite Hpid, pid_init_1; lia). cbn [obind].
  rewrite Hpp. cbn [obind]. rewrite Hy. cbn [obind]. rewrite Hwk. cbn [obind].
  rewrite Hch. rewrite (bool_decide_eq_true_2 (jp = jp)) by done. cbn [negb orb].
  rewrite (bool_decide_eq_true_2 ([] = [])) by done. cbn [obind reparent]. unfold mret, M_ret. cbn [obind].
  unfold upd_proc at 1. simpl. rewrite (fr_procs _ _ Hfr), Hx. simpl.
  rewrite lookup_insert_eq. cbn [obind]. simpl. rewrite Hpp.
  rewrite (bool_decide_eq_true_2 (is_Some _)) by (by eexists). cbn [obind].
  simpl. rewrite (fr_curthr _ _ Hfr), Ht. cbn [obind]. unfold thread_at. simpl.
  rewrite (notified_thread _ _ _ _ _ Hno Hth) by (eapply wchan_none_absent; eauto with sched).
  cbn [obind]. rewrite bool_decide_eq_true_2 by done. cbn [obind].
  f_equal. unfold set_procs; simpl. rewrite (fr_procs _ _ Hfr). f_equal.
  rewrite (insert_pmap jp (with_exit status PROC_DEAD)) by done. apply map_eq. intros q.
  rewrite !lookup_pmap. destruct (procs s !! q) as [z|]; [|done]. simpl. f_equal.
  unfold exit_tree, adopt. destruct (decide (q = jp)); [|by rewrite decide_False by apply not_elem_of_nil].
  destruct z. unfold with_children, with_exit; simpl. by rewrite app_nil_r.
Qed.

Section exit.
Context (m : nat) (s : kst) (pc : gmap tid (point * nat)) (t : tid) (th : kthread) (p : pptr) (x : proc) (r : Z).
Context (Hsys : sys m (Some t) s pc) (Hcu : current s t th p x) (Hip : p ≠ ip).
Context (Hinit : p = jp → p_children x = []).

Let the := with_kstate KT_EXITED (with_retval r th).
Let s0 := set_threads (insert t the) s.

Lemma exit_sched : sched_wf s0.
Proof.
  apply (sched_wf_upd t th); [apply Hsys|apply Hcu|done|]. pose proof (cu_wchan _ _ _ _ _ Hcu) as Hw.
  unfold thread_ok, the. simpl. by rewrite Hw.
Qed.

Lemma exit_init_running : p ≠ jp → ∃ i, procs s !! jp = Some i ∧ p_state i = PROC_RUNNING.
Proof.
  intros Hne. pose proof (sy_shape _ _ _ _ Hsys) as Hsh.
  destruct (sh_roots _ Hsh) as [_ _ (jx & Hjx & _ & _ & Hj3) _ _]. exists jx. split; [done|].
  destruct (p_state jx) eqn:Hd; [done|]. specialize (Hj3 eq_refl).
  assert (p ∈ proc_list s) as Hp by (apply (tb_list s (sh_table _ Hsh)); eexists; apply Hcu).
  rewrite Hj3 in Hp. set_solver.
Qed.

Lemma exit_not_child : jp ∉ p_children x ∧ ip ∉ p_children x.
Proof.
  pose proof (sy_shape _ _ _ _ Hsys) as Hsh. pose proof Hcu as [_ _ _ _ _ _ Hx Hr].
  destruct (sh_roots _ Hsh) as [_ (ix & Hix & _ & _ & Hi3 & _) (jx & Hjx & _ & Hj2 & _) _ _].
  split; intros Hin; destruct (tr_child _ (sh_tree _ Hsh) p x _ Hx Hr Hin) as (w & Hw & Hwp); congruence.
Qed.

Lemma exit_eval : ∃ pp s1, p_pproc x = Some pp ∧ notified (p_wait pp) s0 s1 ∧ sched_wf s1 ∧ frame s0 s1 ∧
  kthread_exit r s = sched_switch (set_procs (pmap (exit_tree jp p (p_children x) r)) s1).
Proof.
  pose proof Hcu as [Hcur Hth Hwc Hst Hkp Hcp Hx Hr]. pose proof (sy_shape _ _ _ _ Hsys) as Hsh.
  destruct (sh_roots _ Hsh) as [_ (ix & Hix & Hi1 & _) (jx & Hjx & Hj1 & Hj2 & _) Hin Hpar].
  destruct (Hpar p x Hx Hip) as [pp Hpp]. exists pp.
  assert (∃ s1, notified (p_wait pp) s0 s1 ∧ sched_wf s1 ∧ frame s0 s1 ∧
    proc_cleanup r s0 = Ret () (set_procs (pmap (exit_tree jp p (p_children x) r)) s1)) as
    (s1 & Hno & Hs1 & Hfr & Hcl).
  { pose proof exit_sched as Hs0. pose proof (lookup_insert_eq (threads s) t the) as Ht0.
    destruct (tr_parent _ (sh_tree _ Hsh) p x pp) as (_ & y & Hy & _); [done..|].
    destruct (decide (p = jp)) as [Hpj|Hne].
    - rewrite (Hinit Hpj). subst p. simplify_eq. eapply (init_cleanup_eval r s0 _ _ t the); eauto.
    - destruct (exit_init_running Hne) as (i & Hi & Hir). apply (proc_cleanup_eval r s0 p x pp jp i); [done|apply Hsh|].
      split; try done; [|by apply exit_not_child|by exists t, the].
      assert (p_pid x ≠ 0) as Hp0.
      { intros H0'. apply Hip. apply (tb_pids s (sh_table _ Hsh) p ip x ix); [done..|]. by rewrite H0', Hi1, pid_idle_0. }
      pose proof (tb_range s (sh_table _ Hsh) p x Hx). lia. }
  exists s1. split_and!; try done. unfold kthread_exit, cur_thread, thread_at. msimpl.
  rewrite Hcur. cbn [obind]. rewrite Hth. cbn [obind]. rewrite bool_decide_eq_true_2 by done. cbn [obind].
  destruct (qlink_linked s t) eqn:Hlk.
  { apply qlink_linked_spec in Hlk as (q & Hq).
    by destruct (wchan_none_absent s t th q (wf_queues _ (sy_sched _ _ _ _ Hsys)) Hth Hwc). }
  cbn [negb obind]. rewrite bool_decide_eq_true_2 by congruence. cbn [obind].
  unfold upd_thread. cbn beta. rewrite Hth. cbn [obind]. simpl. rewrite lookup_insert_eq. cbn [obind].
  unfold proc_thread_exited. msimpl.
  assert (set_threads (insert t the) (set_threads (insert t (with_retval r th)) s) = s0) as E.
  { unfold s0, set_threads. simpl. by rewrite insert_insert_eq. }
  unfold the in E at 1. rewrite E, Hcl. done.
Qed.

Context (pp : pptr) (s1 : kst) (Hpp : p_pproc x = Some pp) (Hno : notified (p_wait pp) s0 s1).
Context (Hs1 : sched_wf s1) (Hfr : frame s0 s1).

Let s2 := set_procs (pmap (exit_tree jp p (p_children x) r)) s1.

(** The threads of the other processes are left alone; the one that waits
    for the process that exits is woken. *)
Lemma exit_thread u uh :
  u ≠ t → threads s !! u = Some uh →
  ∃ uh', threads (park t s2) !! u = Some uh' ∧ undisturbed uh uh' ∧
    (kt_wchan uh = Some (p_wait pp) → runnable uh').
Proof.
  intros Hu Huh. pose proof (wf_queues _ exit_sched) as Hwf.
  assert (threads s0 !! u = Some uh) as Huh0 by (simpl; by rewrite lookup_insert_ne).
  unfold park. simpl. rewrite lookup_alter_ne by done.
  destruct Hno as [[Hq ->]|(thr & thh & Hl & Hthr & ->)].
  - exists uh. split_and!; [done|apply undisturbed_refl|]. intros Hw.
    apply (wf_chan s0 Hwf u uh) in Hw; [|done]. rewrite Hq in Hw. by apply elem_of_nil in Hw.
  - assert (kt_wchan thh = Some (p_wait pp)) as Hw.
    { apply (wf_chan s0 Hwf thr thh); [done|]. by apply last_Some_elem_of. }
    destruct (decide (u = thr)) as [->|Hne].
    + exists (woken thh). rewrite lookup_move. simplify_eq. split_and!; try done.
      split_and!; try done. right. by split; [eexists|].
    + exists uh. rewrite lookup_move_ne by done. split_and!; [done|apply undisturbed_refl|]. intros Hw'.
      assert (thr ≠ t) as Hthrt.
      { intros ->. revert Hthr. simpl. rewrite lookup_insert_eq. intros [= <-].
        pose proof (cu_wchan _ _ _ _ _ Hcu) as Hw0. simpl in Hw. congruence. }
      simpl in Hthr. rewrite lookup_insert_ne in Hthr by done.
      pose proof (p_wait_owner m t s pc u uh pp Hsys Huh Hw') as K1.
      pose proof (p_wait_owner m t s pc thr thh pp Hsys Hthr Hw) as K2.
      pose proof (sy_shape _ _ _ _ Hsys) as Hsh.
      destruct (sh_thread _ Hsh u uh Huh) as (q1 & y1 & L1 & M1 & N1).
      destruct (sh_thread _ Hsh thr thh Hthr) as (q2 & y2 & L2 & M2 & N2). congruence.
Qed.

Lemma exit_self : threads (park t s2) !! t = Some (parked the).
Proof.
  unfold park. simpl. rewrite lookup_alter_eq.
  rewrite (notified_thread _ _ _ t the Hno); [done|apply lookup_insert_eq|].
  eapply (wchan_none_absent s0 t the); [apply exit_sched|apply lookup_insert_eq|].
  apply (cu_wchan _ _ _ _ _ Hcu).
Qed.

Lemma exit_dom u : is_Some (threads (park t s2) !! u) → is_Some (threads s !! u).
Proof.
  pose proof (cu_thread _ _ _ _ _ Hcu) as Hth. destruct (decide (u = t)) as [->|Hne]; [by eauto|].
  unfold park. simpl. rewrite lookup_alter_ne by done.
  destruct Hno as [[_ ->]|(thr & thh & _ & Hthr & ->)]; simpl; [by rewrite lookup_insert_ne|].
  rewrite lookup_insert_is_Some'. simpl in Hthr. rewrite lookup_insert_ne by done. intros [->|?]; [|done].
  rewrite lookup_insert_ne in Hthr by done. eauto.
Qed.

Lemma exit_lookup q z : procs (park t s2) !! q = Some z ↔
  ∃ y, procs s !! q = Some y ∧ z = exit_tree jp p (p_children x) r q y.
Proof. simpl. rewrite (fr_procs _ _ Hfr), lookup_pmap, fmap_Some. done. Qed.

Lemma exit_tree_threads q z : p_threads (exit_tree jp p (p_children x) r q z) = p_threads z.
Proof. unfold exit_tree, adopt. by repeat case_decide. Qed.

Lemma exit_tree_pagedir q z : p_pagedir (exit_tree jp p (p_children x) r q z) = p_pagedir z.
Proof. unfold exit_tree, adopt. by repeat case_decide. Qed.

Lemma exit_tree_other : tree_wf (pmap (exit_tree jp p (p_children x) r) (procs s)).
Proof.
  pose proof (sy_shape _ _ _ _ Hsys) as Hsh. pose proof Hcu as [_ _ _ _ _ _ Hx Hr].
  pose proof exit_not_child as [Hnj _]. destruct (decide (p = jp)) as [Hpj|Hne].
  2: { destruct (exit_init_running Hne) as (i & Hi & Hir). by eapply exit_tree_wf; eauto; apply Hsh. }
  rewrite (Hinit Hpj) in *. subst p. pose proof (sh_tree _ Hsh) as T.
  assert (∀ q y d, procs s !! d = Some y → p_pproc y = Some q → q ≠ jp) as Hnone.
  { intros q y d Hy Hq ->. destruct (tr_parent _ T d y jp) as (_ & w & Hw & _ & Hin); [done..|].
    simplify_eq. rewrite (Hinit eq_refl) in Hin. by apply elem_of_nil in Hin. }
  assert (∀ q y, p_children (exit_tree jp jp [] r q y) = p_children y) as Ech.
  { intros q y. rewrite exit_tree_children. case_decide; by rewrite app_nil_r. }
  assert (∀ q y, p_pproc (exit_tree jp jp [] r q y) = p_pproc y) as Epp.
  { intros q y. rewrite exit_tree_pproc by done. by rewrite decide_False by apply not_elem_of_nil. }
  split.
  - intros d z q (y & Hy & ->)%pmap_Some. rewrite Epp. intros Hq.
    destruct (tr_parent _ T d y q) as (Hd & w & Hw & Hwr & Hin); [done..|]. split; [done|].
    exists (exit_tree jp jp [] r q w). rewrite lookup_pmap, Hw, Ech, exit_tree_running. eauto 10.
  - intros q z d (y & Hy & ->)%pmap_Some. rewrite Ech, exit_tree_running. intros [Hqj Hyr] Hd.
    destruct (tr_child _ T q y d) as (w & Hw & Hwp); [done..|]. rewrite lookup_pmap, Hw.
    eexists. split; [done|]. by rewrite Epp.
  - intros q z (y & Hy & ->)%pmap_Some. rewrite Ech, exit_tree_running. intros [_ Hyr]. by eapply (tr_nodup _ T).
Qed.

Lemma exit_roots : roots (park t s2).
Proof.
  pose proof (sy_shape _ _ _ _ Hsys) as Hsh. pose proof Hcu as [_ _ _ _ _ _ Hx Hr].
  pose proof exit_not_child as [Hnj Hni].
  destruct (sh_roots _ Hsh) as
    [(l & Hl) (ix & Hix & Hi1 & Hi2 & Hi3 & Hi4) (jx & Hjx & Hj1 & Hj2 & Hj3) Hin Hpar].
  assert (ip ≠ jp) as Hij by (intros E; rewrite E in Hix; congruence).
  assert (proc_list (park t s2) = proc_list s) as Epl by apply Hfr.
  split; rewrite ?Epl.
  - by exists l.
  - exists (exit_tree jp p (p_children x) r ip ix).
    rewrite exit_tree_pid, exit_tree_running, exit_tree_pproc, exit_tree_children by done.
    rewrite !decide_False by done. rewrite app_nil_r. split_and!; auto. apply exit_lookup. eauto.
  - exists (exit_tree jp p (p_children x) r jp jx). rewrite exit_tree_pid, exit_tree_pproc, decide_False by done.
    split_and!; auto; [apply exit_lookup; eauto|]. unfold exit_tree. case_decide as Hpj.
    + intros _. eapply init_alone; eauto. rewrite Hpj in Hjx. simplify_eq. auto.
    + rewrite adopt_state. apply Hj3.
  - simpl. rewrite (fr_initproc _ _ Hfr). done.
  - intros q z (y & Hy & ->)%exit_lookup Hq. rewrite exit_tree_pproc by done. case_decide; [by eexists|eauto].
Qed.

Lemma exit_shape : shape (park t s2).
Proof.
  pose proof (sy_shape _ _ _ _ Hsys) as Hsh. pose proof Hsh as [A T R D E F]. pose proof Hcu as [_ Hth _ _ Hkp _ Hx Hr].
  pose proof exit_not_child as [Hnj Hni].
  assert (proc_list (park t s2) = proc_list s) as Epl by apply Hfr.
  split; [|simpl; rewrite (fr_procs _ _ Hfr); apply exit_tree_other|apply exit_roots| | |].
  - eapply (table_wf_pmap _ s); [done|simpl; by rewrite (fr_procs _ _ Hfr)|intros; apply exit_tree_pid|done|apply Hfr].
  - intros d z q (y & Hy & ->)%exit_lookup. rewrite Epl, exit_tree_pproc by done. case_decide as Hd; [|by apply D].
    intros [= <-]. destruct (rt_list _ R) as [l Hl]. rewrite Hl.
    assert (d ∈ proc_list s) as Hin by (apply (tb_list s A); eauto). rewrite Hl in Hin.
    apply before_second. set_solver.
  - intros q z (y & Hy & ->)%exit_lookup. rewrite exit_tree_threads, exit_tree_pagedir.
    destruct (E q y Hy) as (Hd & u & uh & Hu & Huh & Hk & Hks). split; [done|]. exists u.
    destruct (decide (u = t)) as [->|Hne].
    + exists (parked the). rewrite exit_self. simplify_eq. split_and!; done.
    + destruct (exit_thread u uh Hne Huh) as (uh' & Huh' & (_ & Eks & Ek & _) & _). exists uh'.
      rewrite Eks, Ek. split_and!; done.
  - intros u uh' Hu'. destruct (decide (u = t)) as [->|Hne].
    + rewrite exit_self in Hu'. simplify_eq. destruct (F t th Hth) as (q & y & Hk & Hy & Ht).
      exists q, (exit_tree jp p (p_children x) r q y). rewrite exit_tree_threads. split_and!; [done| |done].
      apply exit_lookup. eauto.
    + destruct (exit_dom u) as [uh Huh]; [by eexists|].
      destruct (exit_thread u uh Hne Huh) as (uh2 & Huh2 & (_ & _ & Ek & _) & _). simplify_eq.
      destruct (F u uh Huh) as (q & y & Hk & Hy & Ht). rewrite Ek.
      exists q, (exit_tree jp p (p_children x) r q y). rewrite exit_tree_threads. split_and!; [done| |done].
      apply exit_lookup. eauto.
Qed.

Lemma exit_alive d : d ≠ p → alive s d → alive (park t s2) d.
Proof.
  intros Hd. rewrite !alive_lookup. intros (y & Hy & Hr). exists (exit_tree jp p (p_children x) r d y).
  rewrite exit_tree_running. split; [apply exit_lookup; eauto|done].
Qed.

Lemma exit_points : points m None (park t s2) (<[t := (PtExited, 0%nat)]> pc).
Proof.
  pose proof (sy_points _ _ _ _ Hsys) as [A D]. pose proof (sy_shape _ _ _ _ Hsys) as Hsh.
  pose proof Hcu as [_ Hth Hwc _ Hkp _ Hx Hr].
  split.
  - intros u uh' q z Hu' Hk' (y & Hy & ->)%exit_lookup _. destruct (decide (u = t)) as [->|Hne].
    + rewrite exit_self in Hu'. simplify_eq. assert (q = p) as -> by (simpl in Hk'; congruence).
      exists PtExited, 0%nat. rewrite lookup_insert_eq. split_and!; try done. simpl. split; [|done].
      unfold exit_tree. by rewrite decide_True.
    + destruct (exit_dom u) as [uh Huh]; [by eexists|].
      destruct (exit_thread u uh Hne Huh) as (uh2 & Huh2 & Hun & Hwake). simplify_eq.
      pose proof Hun as (Ectx & _ & Ek & Hw). rewrite Ek in Hk'.
      destruct (A u uh q y Huh Hk' Hy) as (pt & n & Hpc & Hpl & Htk); [congruence|].
      exists pt, n. rewrite lookup_insert_ne by done.
      assert (∀ d, d ∈ p_children y → d ∈ p_children (exit_tree jp p (p_children x) r q y)) as Hch.
      { intros d Hd. rewrite exit_tree_children. set_solver. }
      assert (q ≠ p) as Hqp.
      { intros ->. apply Hne. destruct (sh_thread _ Hsh u uh Huh) as (q1 & y1 & L1 & M1 & N1).
        destruct (sh_thread _ Hsh t th Hth) as (q2 & y2 & L2 & M2 & N2). congruence. }
      split_and!; [done| |].
      * eapply place_mono; eauto.
        { unfold exit_tree. rewrite decide_False by done. apply adopt_state. }
        intros Hyr Hsl d Hd. apply exit_alive. intros ->.
        destruct (tr_child _ (sh_tree _ Hsh) q y p) as (w & Hw' & Hwp); [done..|]. simplify_eq.
        destruct Hw as [Hw|[_ Hw]]; unfold runnable in *; [|congruence]. rewrite Hw in Hsl. specialize (Hwake Hsl). congruence.
      * eapply task_mono; eauto. simpl. rewrite (fr_proc_list _ _ Hfr). done.
  - intros u. rewrite lookup_insert_is_Some'. intros [<-|Hu]; split; try done.
    + rewrite exit_self. eauto.
    + destruct (D u Hu) as [[uh Huh] Hne]. destruct (exit_thread u uh) as (uh' & Hu' & _); [congruence|done|eauto].
Qed.
End exit.

Lemma notified_length q s s' :
  notified q s s' → (length (qlist s' kt_runq) ≤ S (length (qlist s kt_runq)))%nat.
Proof.
  intros [[_ ->]|(thr & thh & Hl & Hthr & ->)]; [lia|].
  rewrite qlist_move. simpl. pose proof (length_filter (λ t, t ≠ thr) (qlist s kt_runq)). lia.
Qed.

Lemma exit_suspends m s pc t th p x r n :
  sys m (Some t) s pc → current s t th p x → p ≠ ip → (p = jp → p_children x = []) →
  within m n s pc → (3 ≤ n)%nat → suspends t m pc (finish (mret r) s).
Proof.
  intros Hsys0 Hcu Hip Hinit [Hw1 Hw2] Hn. unfold finish. msimpl.
  assert (sys (m - 1) (Some t) s pc) as Hsys by (eapply sys_mono; eauto; lia).
  destruct (exit_eval (m - 1) s pc t th p x r Hsys Hcu Hip Hinit) as (pp & s1 & Hpp & Hno & Hs1 & Hfr & ->).
  apply (switch_suspends (λ o, o) m t _ pc (<[t := (PtExited, 0%nat)]> pc) PtExited 0%nat); try done.
  - by left.
  - split; [|by eapply exit_shape|by eapply exit_points|done].
    pose proof (exit_self (m - 1) s pc t th p x r Hsys Hcu pp s1 Hno) as Hself.
    destruct (threads s1 !! t) as [th1|] eqn:Hth1; [by apply (park_sched t th1); [apply (sched_wf_ext s1)|]|].
    unfold park in Hself. simpl in Hself. by rewrite lookup_alter_eq, Hth1 in Hself.
  - by apply (sched_wf_ext s1).
  - eexists. simpl. rewrite (fr_curthr _ _ Hfr). apply Hcu.
  - apply others_insert.
  - apply lookup_insert_eq.
  - pose proof (notified_length _ _ _ Hno) as Hlen. split; [|simpl; rewrite (fr_proc_list _ _ Hfr); done].
    rewrite total_insert by (by eapply cur_no_point). simpl.
    change (qlist (set_procs _ s1)) with (qlist s1). change (qlist (set_threads _ s)) with (qlist s) in Hlen. lia.
Qed.

(** ** Waiting *)

Context (fuel_B : (B ≤ fuel)%nat).

Lemma child_alive m t s pc p x c :
  sys m (Some t) s pc → procs s !! p = Some x → p_state x = PROC_RUNNING → c ∈ p_children x →
  ¬ is_dead s c → alive s c.
Proof.
  intros Hsys Hx Hr Hc Hd. destruct (tr_child _ (sh_tree _ (sy_shape _ _ _ _ Hsys)) p x c) as (z & Hz & _); [done..|].
  unfold alive, is_dead in *. rewrite Hz in *. simpl in *. by destruct (p_state z).
Qed.

(** [do_waitpid] for any child finds a zombie, or goes to sleep while a child
    lives. *)
Lemma any_cases m t s pc th p x w :
  sys m (Some t) s pc → current s t th p x → (∃ c, c ∈ p_children x) →
  (∃ c z tc n, c ∈ p_children x ∧ zombie s c z tc ∧ p_threads z = [tc] ∧ pc !! tc = Some (PtExited, n) ∧
     waitpid_any w s = Ret (p_pid z, Some (p_status z)) (reaped p c tc s)) ∨
  ((∃ c, c ∈ p_children x ∧ alive s c) ∧
     ∀ w', w = S w' → waitpid_any w s =
       obind (λ _, waitpid_any w') (sched_switch (move t (slept (p_wait p) KT_SLEEP th) s))).
Proof.
  intros Hsys Hcu [c0 Hc0]. pose proof Hcu as [Hcur Hth Hwc Hst Hkp Hcp Hx Hr].
  pose proof (sy_shape _ _ _ _ Hsys) as Hsh. pose proof (sh_tree _ Hsh) as T.
  destruct (filter (is_dead s) (p_children x)) as [|c l] eqn:Hf.
  - right. split.
    + exists c0. split; [done|]. eapply child_alive; eauto. intros Hd.
      assert (c0 ∈ filter (is_dead s) (p_children x)) as Hin by (by apply list_elem_of_filter).
      rewrite Hf in Hin. by apply elem_of_nil in Hin.
    + intros w' ->. eapply waitpid_any_sleeps; eauto. apply Hsys.
  - left. assert (c ∈ filter (is_dead s) (p_children x)) as Hin by (rewrite Hf; left).
    apply list_elem_of_filter in Hin as [Hd Hc]. apply fmap_Some in Hd as (z & Hz & Hd).
    destruct (dead_zombie m t s pc c z Hsys Hz) as (tc & n & Hzo & Hts & _ & Hpc & _); [done|].
    exists c, z, tc, n. split_and!; try done. eapply waitpid_any_dead; eauto. by rewrite Hf.
Qed.

Lemma within_reap m n s pc p c tc k :
  within m n s pc → pc !! tc = Some (PtExited, k) → within m n (reaped p c tc s) (delete tc pc).
Proof.
  intros [Hw1 Hw2] Hpc. split.
  - change (qlist (reaped p c tc s)) with (qlist s). rewrite (total_delete _ _ _ Hpc) in Hw1. simpl in Hw1. lia.
  - simpl. pose proof (length_filter (λ q, q ≠ c) (proc_list s)). lia.
Qed.

Lemma others_delete t pc u : others t pc (delete u pc).
Proof. intros v pt n _ [_ Hv]%lookup_delete_Some. eauto. Qed.

(** Going to sleep in the queue of one's own process. *)
Lemma sleep_suspends (G : outcome kst () → outcome kst ()) m s pc t th p x pt n :
  sys m (Some t) s pc → current s t th p x → within m n s pc →
  let th' := slept (p_wait p) KT_SLEEP th in
  place s th' p x pt → task (m - 1) s (parked th') p x pt n → (∀ f, pt ≠ PtEntry f) →
  (∀ s k, G (Yield s k) = Yield s (λ s', G (k s'))) → (∀ s, G (Ret () s) = continue pt s) →
  suspends t m pc (G (sched_switch (move t (slept (p_wait p) KT_SLEEP th) s))).
Proof.
  intros Hsys Hcu Hw th' Hpl Htk Hne HG Hf.
  apply (queue_suspends G m s pc t th th' p x pt n n); try done.
  - by left.
  - rewrite decide_False by done. lia.
Qed.

(** What program [k] does with budget [n] in a process without children, or
    in one that [k] fits. *)
Definition runs (k : prog) (n : nat) : Prop := ∀ m s pc t th p x,
  sys m (Some t) s pc → current s t th p x → p ≠ ip → (fits p k ∨ p_children x = [] ∧ fits p (PReap k)) →
  within m n s pc → suspends t m pc (finish (den fuel k) s).

Lemma within_mono m n n' s pc : within m n s pc → (n' ≤ n)%nat → within m n' s pc.
Proof. intros [H1' H2'] Hn. split; [lia|done]. Qed.

Lemma any_suspends k n n0 : (∀ r, runs (k r) n0) → costs (PWait (-1) k) n → (n0 ≤ n)%nat →
  ∀ m w s pc t th p x, sys m (Some t) s pc → current s t th p x → p ≠ ip → fits p (PWait (-1) k) →
  (∃ c, c ∈ p_children x) → (m ≤ w)%nat → within m n s pc →
  suspends t m pc (finish (r ← waitpid_any w; den fuel (k r)) s).
Proof.
  intros Hk Hc Hn m w s pc t th p x Hsys Hcu Hip Hf Hch Hw Hwi. unfold finish. msimpl.
  destruct (any_cases m t s pc th p x w Hsys Hcu Hch) as
    [(c & z & tc & nc & Hcc & Hzo & Hts & Hpc & ->)|[(c & Hcc & Ha) Hsl]].
  - cbn [obind]. destruct (reap_ok m s pc t th p x c z tc Hsys Hcu Hip Hzo Hts Hcc) as (Hsys' & Hcu' & _).
    eapply suspends_others; [apply (others_delete t pc tc)|].
    eapply (Hk _ m _ _ t th p); eauto.
    + left. intros Hp. specialize (Hf Hp). by inversion Hf.
    + eapply within_mono; [by eapply within_reap|done].
  - pose proof (costs_pos _ _ Hc) as Hpos. destruct Hwi as [Hw1 Hw2]. destruct w as [|w]; [lia|].
    rewrite (Hsl w eq_refl).
    apply (sleep_suspends (λ o, obind kthread_exit (obind (λ r, den fuel (k r)) (obind (λ _, waitpid_any w) o)))
      m s pc t th p x (PtAny w k) n); try done.
    + split; [apply Hcu|]. right. split; [done|]. eauto.
    + simpl. split_and!; try done; [by eexists|lia].
Qed.

Lemma pid_suspends k n n0 : (∀ r, runs (k r) n0) → costs (PWait (-1) k) n → (n0 ≤ n)%nat →
  ∀ m w c r s pc t th p x, sys m (Some t) s pc → current s t th p x → p ≠ ip → fits p (PWait (-1) k) →
  c ∈ p_children x → (m ≤ w)%nat → within m n s pc →
  suspends t m pc (finish ((wait_until_dead w c;; dispose c;; mret r) ≫= (λ r, den fuel (k r))) s).
Proof.
  intros Hk Hc Hn m w c r s pc t th p x Hsys Hcu Hip Hf Hch Hw Hwi. unfold finish. msimpl.
  pose proof Hcu as [Hcur Hth Hwc Hst Hkp Hcp Hx Hr]. pose proof (sy_shape _ _ _ _ Hsys) as Hsh.
  destruct (tr_child _ (sh_tree _ Hsh) p x c) as (z & Hz & _); [done..|].
  destruct (p_state z) eqn:Hd.
  - pose proof (costs_pos _ _ Hc) as Hpos. pose proof Hwi as [Hw1 Hw2]. destruct w as [|w]; [lia|].
    rewrite (wait_until_dead_sleeps w c z p t th) by (done || apply Hsys || congruence).
    apply (sleep_suspends (λ o, obind kthread_exit (obind (λ r, den fuel (k r))
      (obind (λ _ s, obind (λ _ s, Ret r s) (dispose c s)) (obind (λ _, wait_until_dead w c) o))))
      m s pc t th p x (PtPid w c r k) n); try done.
    + split; [done|]. right. split; [done|]. exists c. split_and!; [done| |done]. apply alive_lookup. eauto.
    + simpl. split_and!; try done; [by eexists|lia].
  - rewrite (wait_until_dead_done w c z) by done. cbn [obind].
    destruct (dead_zombie m t s pc c z Hsys Hz Hd) as (tc & nc & Hzo & Hts & _ & Hpc & _).
    rewrite (dispose_eval p x c z tc) by done. cbn [obind].
    destruct (reap_ok m s pc t th p x c z tc Hsys Hcu Hip Hzo Hts Hch) as (Hsys' & Hcu' & _).
    eapply suspends_others; [apply (others_delete t pc tc)|].
    eapply (Hk _ m _ _ t th p); eauto.
    + left. intros Hp. specialize (Hf Hp). by inversion Hf.
    + eapply within_mono; [by eapply within_reap|done].
Qed.

Lemma errno_ECHILD : 0 < ECHILD.
Proof. pose proof errno_pos as Hp. rewrite Forall_forall in Hp. apply Hp. unfold errnos. set_solver. Qed.

(** [reap_all], from one of its calls of [do_waitpid] on. *)
Lemma all_suspends k n n0 : runs k n0 → costs (PReap k) n → (n0 ≤ n)%nat →
  ∀ l m s pc t th p x, sys m (Some t) s pc → current s t th p x → p ≠ ip → fits p (PReap k) →
  (length (proc_list s) + m ≤ l)%nat → within m n s pc →
  (∀ w, (∃ c, c ∈ p_children x) → (m ≤ w)%nat →
     suspends t m pc (finish ((r ← waitpid_any w; reap_tail l r);; den fuel k) s)) ∧
  suspends t m pc (finish (reap_all fuel l;; den fuel k) s).
Proof.
  intros Hk Hc Hn. induction l as [|l IH]; intros m s pc t th p x Hsys Hcu Hip Hf Hl Hwi.
  { destruct (rt_list _ (sh_roots _ (sy_shape _ _ _ _ Hsys))) as [l' E]. rewrite E in Hl. simpl in Hl. lia. }
  pose proof Hcu as [Hcur Hth Hwc Hst Hkp Hcp Hx Hr]. pose proof errno_ECHILD as He.
  assert (∀ w, (∃ c, c ∈ p_children x) → (m ≤ w)%nat →
     suspends t m pc (finish ((r ← waitpid_any w; reap_tail (S l) r);; den fuel k) s)) as Hany.
  { intros w Hch Hw. unfold finish. msimpl. destruct (any_cases m t s pc th p x w Hsys Hcu Hch) as
      [(c & z & tc & nc & Hcc & Hzo & Hts & Hpc & ->)|[(c & Hcc & Ha) Hsl]].
    - cbn [obind]. destruct (reap_ok m s pc t th p x c z tc Hsys Hcu Hip Hzo Hts Hcc) as (Hsys' & Hcu' & Hlen).
      eapply suspends_others; [apply (others_delete t pc tc)|]. unfold reap_tail. simpl.
      pose proof (tb_range s (sh_table _ (sy_shape _ _ _ _ Hsys)) c z (zo_proc _ _ _ _ Hzo)).
      rewrite (proj2 (Z.eqb_neq _ _)) by lia.
      eapply (IH m _ _ t th p); eauto; [simpl in *; lia|by eapply within_reap].
    - pose proof (costs_pos _ _ Hc) as Hpos. pose proof Hwi as [Hw1 Hw2]. destruct w as [|w]; [lia|].
      rewrite (Hsl w eq_refl).
      apply (sleep_suspends (λ o, obind kthread_exit (obind (λ _, den fuel k) (obind (λ r, reap_tail (S l) r)
        (obind (λ _, waitpid_any w) o)))) m s pc t th p x (PtAll (S l) w k) n); try done.
      + split; [done|]. right. split; [done|]. eauto.
      + simpl. split_and!; try done; [by eexists|lia..]. }
  split; [done|]. unfold finish. msimpl. cbn [reap_all]. unfold do_waitpid, cur_proc, proc_at. msimpl.
  rewrite Hcp. cbn [obind]. rewrite Hx. cbn [obind].
  destruct (p_children x) as [|c ch] eqn:Hch.
  - rewrite bool_decide_eq_true_2 by done. cbn [obind]. simpl. rewrite Z.eqb_refl. cbn [obind].
    eapply (Hk m s pc t th p x); eauto using within_mono.
  - rewrite bool_decide_eq_false_2 by done. simpl. apply (Hany fuel); [set_solver|]. destruct Hwi. lia.
Qed.

Lemma wait_runs pid k n n0 : (∀ r, runs (k r) n0) → (∀ r, costs (k r) n0) → (1 + n0 ≤ n)%nat →
  runs (PWait pid k) n.
Proof.
  intros Hk Hc Hn m s pc t th p x Hsys Hcu Hip Hf Hwi.
  pose proof Hcu as [Hcur Hth Hwc Hst Hkp Hcp Hx Hr]. pose proof (sy_shape _ _ _ _ Hsys) as Hsh.
  assert (∀ r, fits p (k r)) as Hfk.
  { intros r Hp. destruct Hf as [Hf|[_ Hf]]; specialize (Hf Hp); inversion Hf; auto.
    match goal with H : reaps (PWait _ _) |- _ => inversion H; auto end. }
  assert (fits p (PWait (-1) k)) as Hfw by (intros Hp; constructor; intros r; by apply Hfk).
  assert (costs (PWait (-1) k) n) as Hcw by (econstructor; eauto).
  assert (suspends t m pc (finish (den fuel (k (- ECHILD, None))) s)) as Hnone.
  { eapply (Hk _ m); eauto. eapply within_mono; [done|lia]. }
  unfold finish. cbn [den]. msimpl.
  destruct (p_children x) as [|c ch] eqn:Hch.
  { unfold do_waitpid, cur_proc, proc_at. msimpl. rewrite Hcp. cbn [obind]. rewrite Hx. cbn [obind].
    rewrite Hch, bool_decide_eq_true_2 by done. done. }
  destruct (Z.eqb_spec pid (-1)) as [->|Hpid].
  { unfold do_waitpid, cur_proc, proc_at. msimpl. rewrite Hcp. cbn [obind]. rewrite Hx. cbn [obind].
    rewrite Hch, bool_decide_eq_false_2 by done. simpl.
    eapply (any_suspends k n n0); eauto; [lia|rewrite Hch; set_solver|destruct Hwi; lia]. }
  destruct (head (filter (has_pid s pid) (p_children x))) as [d|] eqn:Hd; [destruct (Z.ltb_spec 0 pid) as [Hpos|Hneg]|].
  - assert (d ∈ filter (has_pid s pid) (p_children x)) as Hin.
    { destruct (filter _ (p_children x)); simplify_eq/=. left. }
    apply list_elem_of_filter in Hin as [Hhp Hin]. apply fmap_Some in Hhp as (z & Hz & _).
    rewrite (do_waitpid_pid fuel pid 0 p x d z) by (done || apply Hsh || by apply (sh_proc _ Hsh d z)).
    eapply (pid_suspends k n n0 Hk Hcw); eauto; [lia|destruct Hwi; lia].
  - unfold do_waitpid, cur_proc, proc_at. msimpl. rewrite Hcp. cbn [obind]. rewrite Hx. cbn [obind].
    rewrite Hch, bool_decide_eq_false_2 by done. rewrite (proj2 (Z.eqb_neq pid (-1))), (proj2 (Z.ltb_ge 0 pid)) by done.
    done.
  - unfold do_waitpid, cur_proc, proc_at. msimpl. rewrite Hcp. cbn [obind]. rewrite Hx. cbn [obind].
    rewrite bool_decide_eq_false_2 by (by rewrite Hch). rewrite (proj2 (Z.eqb_neq pid (-1))) by done.
    destruct (0 <? pid); [|done]. rewrite find_child_spec by (by eapply children_live; [apply Hsh|..]).
    cbn [obind]. by rewrite Hd.
Qed.

Lemma fits_spawn p name f k pid : fits p (PSpawn name f k) → fits p (k pid).
Proof. intros Hf Hp. specialize (Hf Hp). inversion Hf; auto. Qed.

Lemma spawn_runs name f k n n0 : ordinary f → (∀ pid, runs (k pid) n0) → (budget f + 3 + n0 ≤ n)%nat →
  runs (PSpawn name f k) n.
Proof.
  intros Hord Hk Hn m s pc t th p x Hsys Hcu Hip Hf Hwi. pose proof Hwi as [Hw1 Hw2].
  assert (∀ pid, fits p (k pid)) as Hfk.
  { intros pid. destruct Hf as [Hf|[_ Hf]]; [by eapply fits_spawn|]. intros Hp. specialize (Hf Hp).
    inversion Hf as [| | | |? Hr]. inversion Hr; auto. }
  destruct (spawn_eval m t s pc th p x name f Hsys Hcu) as
    (c & pid & tc & tch & s1 & Hsp & Es1 & Hpid & Hnew & Hc & Htc & Hft & Hpd); [lia|]. simpl in Hpd.
  destruct (spawn_ok m s pc t th p x c (newborn pid name tc p s1) tc tch f ((pid + 1) mod PROC_MAX_COUNT)
    Hsys Hcu Hip Hc Htc Hft Hord) with (m' := (m - 1)%nat) (n := n) (n' := n0)
    as (Hsys' & Hcu' & Hwi' & Hot & Hz); try done; [by apply Z.mod_pos_bound; lia|lia|].
  rewrite <- Es1 in *. unfold finish. cbn [den]. msimpl. rewrite Hsp. cbn [obind].
  unfold proc_at. rewrite Hz. cbn [obind]. simpl p_pid.
  eapply suspends_mono; [eapply suspends_others; [exact Hot|]|].
  - eapply (Hk pid (m - 1)%nat); eauto.
  - lia.
Qed.

(** A program within its budget gives the processor away, with less left. *)
Lemma den_runs k n : costs k n → runs k n.
Proof.
  induction 1 as [r n Hn|k n n' Hc IH Hn|name f k n n' Hord Hc IH Hn|pid k n n' Hc IH Hn|k n n' Hc IH Hn].
  - intros m s pc t th p x Hsys Hcu Hip Hf Hwi. eapply exit_suspends; eauto. intros Hp.
    destruct Hf as [Hf|[? _]]; [|done]. specialize (Hf Hp). inversion Hf.
  - intros m s pc t th p x Hsys Hcu Hip Hf Hwi. eapply yield_suspends; eauto; [|by eapply within_mono].
    intros Hp. destruct Hf as [Hf|[_ Hf]]; specialize (Hf Hp); inversion Hf as [| | | |? Hr]; auto.
    by inversion Hr.
  - by eapply spawn_runs.
  - by eapply wait_runs.
  - intros m s pc t th p x Hsys Hcu Hip Hf Hwi. cbn [den].
    assert (fits p (PReap k)) as Hfk.
    { destruct Hf as [Hf|[_ Hf]]; [done|]. intros Hp. specialize (Hf Hp). inversion Hf; auto. }
    eapply (all_suspends k n' n); eauto; [by econstructor|lia|]. destruct Hwi. lia.
Qed.
End calls.
