(* ===== verification/BootProps.v ===== *)
(** * From boot to halt

    The kernel boots, the init process runs the commands that are typed, each
    in a process of its own with whatever processes that one creates, all of
    them are scheduled, exit and are waited for, and the machine halts with
    nothing but the idle process left. *)

From Stdlib Require Import FunctionalExtensionality.
From S2P Require Import Prelude Kstate Sched Kmutex Machine Proc ProcTree ProcProps Boot System SystemOps.
Local Open Scope Z_scope.

(** Binding is associative. *)
Lemma bind_assoc {S A C D} (m : M S A) (f : A → M S C) (g : C → M S D) :
  (m ≫= f) ≫= g = m ≫= (λ a, f a ≫= g).
Proof.
  apply functional_extensionality. intros s. rewrite !bind_unfold.
  induction (m s) as [a s'|w| |s' k IH]; simpl; try done.
  f_equal. apply functional_extensionality. apply IH.
Qed.

Lemma bind_ret {S A C} (a : A) (f : A → M S C) : mret a ≫= f = f a.
Proof. by apply functional_extensionality. Qed.

Section boot_proofs.
Context `{Machine} `{Errno} `{ProcEnv} `{BootEnv} (fuel : nat) (tests : Z → prog) (lines : list string).

(** ** The shell *)

Definition command_of {A} (line : string) (cmds : list (string * A)) : option A :=
  snd <$> List.find (λ c, String.eqb c.1 line) cmds.

(** The kernel shell, on the lines that are typed: it runs the command a line
    names, passes over other lines, and ends with the input. *)
Record kshell_ok : Prop := {
  ks_create : ∃ k, k ≠ 0 ∧ kshell_create 0 = mret (Some k);
  ks_known : ∀ cmds k i line f, lines !! i = Some line → command_of line cmds = Some f →
    kshell_execute_next cmds k i = (f k;; mret 1);
  ks_unknown : ∀ cmds k i line, lines !! i = Some line → command_of line cmds = None →
    kshell_execute_next cmds k i = mret 1;
  ks_end : ∀ cmds k i, lines !! i = None → kshell_execute_next cmds k i = mret 0;
  ks_destroy : ∀ k, kshell_destroy k = mret ();
}.

(** The test a line starts, and the name of its process. *)
Definition test_of (line : string) : option (string * Z) :=
  (λ f, (line, f)) <$> command_of line
    [("sunghan"%string, sunghan_test_p); ("deadlock"%string, sunghan_deadlock_test_p);
     ("faber"%string, faber_thread_test_p)].

(** The init process as a program. *)
Fixpoint script (ls : list string) : prog :=
  match ls with
  | [] => PReap (PExit 0)
  | line :: ls' =>
      match test_of line with
      | Some (name, func) => PSpawn name func (λ pid, PWait pid (λ _, script ls'))
      | None => script ls'
      end
  end.

Lemma command_cases line :
  (∃ name func f, test_of line = Some (name, func) ∧ command_of line (commands fuel) = Some f ∧
     ∀ k, k ≠ 0 → f k = (p ← spawn name func; x ← proc_at p; _ ← do_waitpid fuel (p_pid x) 0; mret 0)) ∨
  (test_of line = None ∧ command_of line (commands fuel) = None).
Proof.
  unfold test_of, command_of, commands. cbn [List.find fst].
  destruct (String.eqb_spec "sunghan" line) as [<-|_]; [left|destruct (String.eqb_spec "deadlock" line) as [<-|_];
    [left|destruct (String.eqb_spec "faber" line) as [<-|_]; [left|right; done]]];
    eexists _, _, _; (split; [done|]; split; [done|]); intros k Hk;
    cbn [snd]; unfold do_sunghan, do_sunghan_deadlock, do_faber; cbn beta; rewrite (proj2 (Z.eqb_neq k 0)) by done;
    by apply functional_extensionality.
Qed.

Lemma script_reaps ls : reaps (script ls).
Proof.
  induction ls as [|line ls IH]; simpl; [constructor|].
  destruct (test_of line) as [[name func]|]; [|done]. constructor. intros pid. by constructor.
Qed.

Context (Hks : kshell_ok).

Lemma shell_den k ls : ∀ i n, k ≠ 0 → drop i lines = ls → (length ls ≤ n)%nat →
  (shell_loop fuel n i k;; kshell_destroy k;; reap_all fuel fuel;; mret 0) = den fuel (script ls).
Proof.
  induction ls as [|line ls IH]; intros i n Hk Hd Hn.
  - assert (lines !! i = None) as Hi.
    { apply lookup_ge_None. apply (f_equal length) in Hd. rewrite length_drop in Hd. simpl in Hd. lia. }
    destruct n; simpl; rewrite (ks_end Hks) by done; rewrite bind_ret; simpl; rewrite bind_ret, (ks_destroy Hks), bind_ret; done.
  - destruct n as [|n]; [simpl in Hn; lia|].
    assert (lines !! i = Some line) as Hi.
    { rewrite <- (Nat.add_0_r i), <- lookup_drop, Hd. done. }
    assert (drop (S i) lines = ls) as Hd'.
    { rewrite <- Nat.add_1_r, <- drop_drop, Hd. done. }
    specialize (IH (S i) n Hk Hd'). simpl in Hn. cbn [shell_loop script].
    destruct (command_cases line) as [(name & func & f & -> & Hf & E)|[-> Hf]].
    + rewrite (ks_known Hks _ _ _ _ _ Hi Hf), E by done. rewrite !bind_assoc. cbn [den]. f_equal.
      apply functional_extensionality. intros p. rewrite !bind_assoc. f_equal.
      apply functional_extensionality. intros x. rewrite !bind_assoc. f_equal.
      apply functional_extensionality. intros r. rewrite !bind_ret. simpl. apply IH. lia.
    + rewrite (ks_unknown Hks _ _ _ _ Hi Hf), bind_ret. simpl. apply IH. lia.
Qed.

(** The init process runs its script. *)
Lemma initproc_run_den : (length lines ≤ fuel)%nat → initproc_run fuel = den fuel (script lines).
Proof.
  intros Hl. destruct (ks_create Hks) as (k & Hk & E). unfold initproc_run. rewrite E, bind_ret.
  rewrite <- (shell_den k lines 0 fuel) by done. by apply functional_extensionality.
Qed.

(** ** Running to the end *)

Definition program (func : Z) : prog :=
  if func =? initproc_run_p then script lines else tests func.

Context (budget : Z → nat) (ip jp : pptr) (B : nat).
Context (memory : ∀ s, is_Some (slab_alloc_proc s) ∧ is_Some (slab_alloc_thread s) ∧
  is_Some (alloc_stack s) ∧ is_Some (pt_create_pagedir s)).
Context (B_max : Z.of_nat B < PROC_MAX_COUNT) (fuel_B : (B ≤ fuel)%nat).
Context (hw_ok : ∀ f s, hw f s = Ret () s).

Definition saved_ok (saved : gmap tid (kst → outcome kst ())) (pc : gmap tid (point * nat)) : Prop :=
  ∀ t pt n, pc !! t = Some (pt, n) → (∀ f, pt ≠ PtEntry f) → pt ≠ PtExited →
    ∃ k old, saved !! t = Some k ∧ ∀ s, k s = continue fuel pt (set_ipl old s).

Definition config_ok (m : nat) (c : config) : Prop :=
  ∃ thr pc, at_point budget ip jp m thr (c_st c) pc ∧ saved_ok (c_saved c) pc ∧ within B m 0 (c_st c) pc.

(** Only the idle process and its thread are left. *)
Definition only_idle (s : kst) (t : tid) : Prop :=
  proc_list s = [ip] ∧ (∀ p, is_Some (procs s !! p) ↔ p = ip) ∧ (∀ u, is_Some (threads s !! u) ↔ u = t).

Lemma sys_ipl m cur s pc l : sys budget ip jp m cur s pc → sys budget ip jp m cur (set_ipl l s) pc.
Proof.
  intros [Hs [B1 B2 [] B4 B5 B6] [] Hc]. split; [by apply (sched_wf_ext s)| |by split|done].
  by split; [destruct B1| |split| | |].
Qed.

Lemma current_ipl s t th p x l : current s t th p x → current (set_ipl l s) t th p x.
Proof. by intros []; split. Qed.

(** Thread [thr] of process [p] goes on from its point. *)
Lemma point_runs m s pc thr th p x pt n l :
  sys budget ip jp m (Some thr) s (delete thr pc) → pc !! thr = Some (pt, n) → current s thr th p x →
  task budget ip jp m s th p x pt n → pt ≠ PtExited → p ≠ ip → (∀ f, pt ≠ PtEntry f) →
  within B m 0 s pc → suspends fuel budget ip jp B thr m (delete thr pc) (continue fuel pt (set_ipl l s)).
Proof.
  intros Hsys Hpc Hcu Htk Hnx Hip Hne [Hw1 Hw2].
  assert (within B m n (set_ipl l s) (delete thr pc)) as Hwi.
  { split; [|done]. rewrite (total_delete _ _ _ Hpc) in Hw1. change (qlist (set_ipl l s)) with (qlist s). simpl in Hw1. lia. }
  apply (sys_ipl _ _ _ _ l) in Hsys. apply (current_ipl _ _ _ _ _ l) in Hcu.
  destruct pt as [f|k|w k|n' w k|w c r k|w|]; simpl in Htk; try done.
  - by destruct (Hne f).
  - destruct Htk as (_ & _ & Hf & Hc). eapply den_runs; eauto.
  - destruct Htk as (_ & _ & Hw & Hch & Hf & Hc). inversion Hc as [| | |? ? n0 ? Hk Hn|]; subst.
    eapply (any_suspends fuel budget ip jp B fuel_B k n n0); eauto; [|lia].
    intros r. by apply den_runs.
  - destruct Htk as (_ & _ & Hw & Hch & Hl & Hf & Hc). inversion Hc as [| | | |? n0 ? Hk Hn]; subst.
    eapply (all_suspends fuel budget ip jp B) with (n := n) (n0 := n0); eauto; [by apply den_runs|lia].
  - destruct Htk as (_ & _ & Hw & Hch & Hf & Hc). inversion Hc as [| | |? ? n0 ? Hk Hn|]; subst.
    eapply (pid_suspends fuel budget ip jp B fuel_B k n n0); eauto; [|lia].
    intros r'. by apply den_runs.
  - by destruct Htk.
Qed.

Lemma idle_sleeps m s pc thr th x w n :
  sys budget ip jp m (Some thr) s pc → current s thr th ip x → (m ≤ w)%nat → (1 ≤ n)%nat → within B m n s pc →
  (∃ c, c ∈ p_children x ∧ alive s c) →
  (∀ w', w = S w' → waitpid_any w s =
     obind (λ _, waitpid_any w') (sched_switch (move thr (slept (p_wait ip) KT_SLEEP th) s))) →
  suspends fuel budget ip jp B thr m pc (continue fuel (PtIdle w) s).
Proof.
  intros Hsys Hcu Hw Hn Hwi (c & Hcc & Ha) Hsl. pose proof Hwi as [Hw1 Hw2].
  destruct w as [|w]; [lia|]. cbn [continue]. rewrite bind_unfold, (Hsl w eq_refl).
  apply (sleep_suspends fuel budget ip jp B fuel_B (λ o, obind idle_tail (obind (λ _, waitpid_any w) o))
    m s _ thr th ip x (PtIdle w) n); try done.
  - split; [apply Hcu|]. right. split; [done|]. eauto.
  - simpl. split_and!; try done; [by eexists|lia|eauto].
Qed.

(** The idle process goes on waiting, or finds the init process dead. *)
Lemma idle_runs m s pc thr th x w n l :
  sys budget ip jp m (Some thr) s (delete thr pc) → pc !! thr = Some (PtIdle w, n) → current s thr th ip x →
  task budget ip jp m s th ip x (PtIdle w) n → within B m 0 s pc →
  suspends fuel budget ip jp B thr m (delete thr pc) (continue fuel (PtIdle w) (set_ipl l s)) ∨
  ∃ s', continue fuel (PtIdle w) (set_ipl l s) = Ret () s' ∧ only_idle s' thr.
Proof.
  intros Hsys Hpc Hcu (_ & Hst & Hw & Hch & Hn) [Hw1 Hw2].
  rewrite (total_delete _ _ _ Hpc) in Hw1. simpl in Hw1.
  apply (sys_ipl _ _ _ _ l) in Hsys. apply (current_ipl _ _ _ _ _ l) in Hcu.
  assert (within B m n (set_ipl l s) (delete thr pc)) as Hwi.
  { split; [|done]. change (qlist (set_ipl l s)) with (qlist s). lia. }
  generalize dependent (set_ipl l s). intros s1 Hsys Hcu Hwi.
  pose proof (sy_shape _ _ _ _ Hsys) as Hsh. pose proof Hcu as [Hcur Hth _ _ Hkp _ Hx Hr].
  destruct (any_cases budget ip jp m thr _ _ th ip x w Hsys Hcu Hch) as
    [(c & z & tc & nc & Hcc & Hzo & Hts & Hpct & E)|[(c & Hcc & Ha) Hsl]].
  - right. cbn [continue]. rewrite bind_unfold, E. cbn [obind].
    destruct (sh_roots _ Hsh) as [_ (ix & Hix & _ & _ & _ & Hi4) (jx & Hjx & Hj1 & _ & Hj3) _ _].
    simplify_eq. rewrite Hi4 in Hcc. apply list_elem_of_singleton in Hcc as ->.
    pose proof Hzo as [Hzp Hzd _ _ _]. simplify_eq. specialize (Hj3 Hzd).
    eexists. split.
    { unfold idle_tail, hard_shutdown. msimpl. simpl. rewrite Hj1, Z.eqb_refl. cbn [obind].
      rewrite hw_ok. cbn [obind]. apply hw_ok. }
    pose proof (tb_list _ (sh_table _ Hsh)) as Htl. rewrite Hj3 in Htl.
    assert (jp ≠ ip) as Hji by congruence.
    split_and!.
    + simpl in *. rewrite Hj3. rewrite filter_cons_True, filter_cons_False by (done || tauto). done.
    + intros q. simpl. rewrite lookup_delete_is_Some, lookup_pmap, fmap_is_Some, <- Htl. set_solver.
    + intros u. simpl. rewrite lookup_delete_is_Some. split.
      * intros [Hu [uh Huh]]. destruct (sh_thread _ Hsh u uh Huh) as (q & y & Hk & Hy & Ht).
        assert (q = ip ∨ q = jp) as [->| ->].
        { assert (q ∈ [ip; jp]) as Hq by (apply Htl; by eexists). set_solver. }
        -- destruct (sh_thread _ Hsh thr th Hth) as (q2 & y2 & L2 & M2 & N2). congruence.
        -- congruence.
      * intros ->. split; [|by eexists].
        intros <-. by rewrite lookup_delete_eq in Hpct.
  - left. apply (idle_sleeps _ _ _ _ th x _ n); eauto.
Qed.

Lemma others_saved saved t pc0 pc k old pt n :
  saved_ok saved pc0 → others t (delete t pc0) pc → pc !! t = Some (pt, n) →
  (pt = PtExited ∨ ∀ s, k s = continue fuel pt (set_ipl old s)) → saved_ok (<[t := k]> saved) pc.
Proof.
  intros Hok Ho Hpt Hk u pt' n' Hu Hne Hnx. destruct (decide (u = t)) as [->|Hut].
  - simplify_eq. destruct Hk as [->|Hk]; [done|]. exists k, old. by rewrite lookup_insert_eq.
  - rewrite lookup_insert_ne by done. destruct (Ho u pt' n' Hut Hu) as [[f ->]|(n0 & Hn0)]; [by destruct (Hne f)|].
    rewrite lookup_delete_ne in Hn0 by done. by eapply Hok.
Qed.

Lemma task_started m s th p x pt n :
  task budget ip jp m s th p x pt n → (∀ f, pt ≠ PtEntry f) → pt ≠ PtExited →
  started th ∧ ((∃ w, pt = PtIdle w ∧ p = ip) ∨ p ≠ ip).
Proof. intros Htk Hne Hnx. destruct pt; simpl in Htk; naive_solver. Qed.

Context (Hlines : (length lines ≤ fuel)%nat).
Context (Hcosts : ∀ f, f ≠ idleproc_run_p → costs budget (program f) (budget f)).

(** A thread that starts runs its program. *)
Lemma entry_runs m s pc thr th p x f n :
  sys budget ip jp m (Some thr) s (delete thr pc) → pc !! thr = Some (PtEntry f, n) → current s thr th p x →
  task budget ip jp m s th p x (PtEntry f) n → within B m 0 s pc →
  suspends fuel budget ip jp B thr m (delete thr pc) (start fuel tests thr s).
Proof.
  intros Hsys Hpc Hcu (Hip & _ & Hfn & Hni & Hfi & Hb) [Hw1 Hw2].
  rewrite (total_delete _ _ _ Hpc) in Hw1. simpl in Hw1. pose proof (cu_thread _ _ _ _ _ Hcu) as Hth.
  unfold start, thread_at. msimpl. rewrite Hth. cbn [obind]. rewrite Hfn, (proj2 (Z.eqb_neq f idleproc_run_p)) by done.
  assert (thread_func fuel tests f = den fuel (program f)) as E.
  { unfold thread_func, program. destruct (f =? initproc_run_p); [by apply initproc_run_den|done]. }
  rewrite E. eapply (den_runs fuel budget ip jp B memory B_max fuel_B); eauto.
  - left. intros Hp. unfold program. rewrite (proj2 (Z.eqb_eq f initproc_run_p)) by (by apply Hfi). apply script_reaps.
  - split; [lia|done].
Qed.

Lemma suspends_step m c thr pc :
  curthr (c_st c) = Some thr → saved_ok (c_saved c) pc →
  suspends fuel budget ip jp B thr m (delete thr pc) (resume_at fuel tests c thr (c_st c)) →
  ∃ m' c', sys_step fuel tests c c' ∧ config_ok m' c' ∧ (m' < m)%nat.
Proof.
  intros Hcu Hsv (m' & s' & k & old & thr' & pc' & E & Hm & Ha & [W1 W2] & Ho & pt' & n' & Hpt' & Hne & Hk).
  exists m', (Config (park thr s') (<[thr := k]> (c_saved c))). split_and!; [|exists thr', pc'; split_and!|done].
  - by econstructor.
  - done.
  - by eapply others_saved.
  - by split.
Qed.

(** Each step leaves less, until the machine halts. *)
Lemma config_step m c :
  config_ok m c →
  (∃ s' t, halted fuel tests c s' ∧ only_idle s' t) ∨
  ∃ m' c', sys_step fuel tests c c' ∧ config_ok m' c' ∧ (m' < m)%nat.
Proof.
  intros (thr & pc & (pt & n & th & p & x & Hpc & Hsys & Hth & Hkp & Hx & Hnx & Htk) & Hsv & Hwi).
  destruct c as [s saved]. simpl in *.
  destruct (sys_current _ _ _ _ Hsys) as (th' & p' & x' & Hcu).
  assert (th' = th ∧ p' = p ∧ x' = x) as (-> & -> & ->).
  { destruct Hcu. split_and!; congruence. }
  assert ((∃ s', resume_at fuel tests (Config s saved) thr s = Ret () s' ∧ only_idle s' thr) ∨
    suspends fuel budget ip jp B thr m (delete thr pc) (resume_at fuel tests (Config s saved) thr s)) as [Hh|Hs].
  2: { left. destruct Hh as (s' & E & Hi). exists s', thr. split; [|done]. exists thr. split; [apply Hcu|done]. }
  2: { right. eapply (suspends_step m (Config s saved)); [apply Hcu|done..]. }
  unfold resume_at. simpl. rewrite Hth. simpl.
  assert ((∃ f, pt = PtEntry f) ∨ ∀ f, pt ≠ PtEntry f) as [[f ->]|Hne] by (destruct pt; eauto).
  { right. pose proof Htk as (_ & He & _). rewrite He. by eapply entry_runs. }
  destruct (task_started _ _ _ _ _ _ _ Htk Hne Hnx) as [[esp He] Hcase]. rewrite He.
  destruct (Hsv thr pt n Hpc Hne Hnx) as (k & old & Hk & Ek).
  assert (default (start fuel tests thr) (saved !! thr) = k) as ->
    by exact (f_equal (default (start fuel tests thr)) Hk). rewrite Ek.
  destruct Hcase as [(w & -> & ->)|Hip]; [|right; by eapply point_runs].
  destruct (idle_runs m s pc thr th x w n old) as [?|?]; auto.
Qed.

(** From a configuration that satisfies the invariant the machine halts. *)
Lemma config_halts m : ∀ c, config_ok m c →
  ∃ c' s' t, rtc (sys_step fuel tests) c c' ∧ halted fuel tests c' s' ∧ only_idle s' t.
Proof.
  induction m as [m IH] using lt_wf_ind. intros c Hc.
  destruct (config_step m c Hc) as [(s' & t & Hh & Ho)|(m' & c1 & Hst & Hc1 & Hm)].
  - exists c, s', t. split_and!; [apply rtc_refl|done..].
  - destruct (IH m' Hm c1 Hc1) as (c' & s' & t & Hr & Hh). exists c', s', t. split; [by eapply rtc_l|done].
Qed.

Lemma sys_step_det c c1 c2 : sys_step fuel tests c c1 → sys_step fuel tests c c2 → c1 = c2.
Proof. intros [? t s1 k1 Ht E1] Hst. inversion Hst as [? t2 s2 k2 Ht2 E2]; subst. congruence. Qed.

(** The invariant holds in every configuration that is reached. *)
Lemma config_reach c c' : rtc (sys_step fuel tests) c c' → ∀ m, config_ok m c → ∃ m', config_ok m' c'.
Proof.
  induction 1 as [c|c c1 c' Hst _ IH]; intros m Hc; [by exists m|].
  destruct (config_step m c Hc) as [(s' & t & (t' & Ht & Hh) & _)|(m' & c2 & Hst2 & Hc2 & _)].
  - destruct Hst as [c u s1 k Hu E]. congruence.
  - rewrite (sys_step_det _ _ _ Hst Hst2) in *. by eapply IH.
Qed.
End boot_proofs.

(** ** Booting *)

Section booting.
Context `{Machine} `{Errno} `{ProcEnv} `{BootEnv}.

(** What booting relies on: the functions outside the sources return, with
    the process state as it was; there is memory; no debugger is waited
    for. *)
Record boot_ok : Prop := {
  bo_hw : ∀ f s, hw f s = Ret () s;
  bo_slabs : ∀ name, is_Some (slab_allocator_create name);
  bo_stack : is_Some bstack;
  bo_gdb : gdb_wait = 0;
  bo_funcs : initproc_run_p ≠ idleproc_run_p;
  bo_memory : ∀ s, is_Some (slab_alloc_proc s) ∧ is_Some (slab_alloc_thread s) ∧
    is_Some (alloc_stack s) ∧ is_Some (pt_create_pagedir s);
}.

Context (Hbo : boot_ok).

(** The first thread of a new process, in function [func]. *)
Definition first_thread (func : Z) (p : pptr) (stk pd : Z) : kthread :=
  Kthread (context_setup func 0 0 (Some stk) DEFAULT_STACK_SIZE (Some pd)) (Some stk) 0 0 (Some p) false KT_RUN None.

(** When [idleproc_run] starts. *)
Definition idle_st (ip : pptr) (it : tid) (pd stk : Z) : kst :=
  Kst {[ it := first_thread idleproc_run_p ip stk pd ]} {[ p_wait ip := Ktqueue [] 0 ]} ∅
    {[ ip := Proc PID_IDLE (comm_of "IDLE") [it] [] None 0 PROC_RUNNING (Some pd) ]}
    (Some it) (Some ip) IPL_HIGH [ip] None 1.

Lemma getid_free s x :
  pid_taken (next_pid s) (proc_list s) s = Ret false s → x = next_pid s →
  proc_getid s = Ret x (set_next_pid ((x + 1) mod PROC_MAX_COUNT) s).
Proof.
  intros Ht ->. unfold proc_getid. msimpl. destruct (Z.to_nat PROC_MAX_COUNT); cbn [proc_getid_loop]; msimpl;
    by rewrite Ht.
Qed.

Lemma allocators_vm s : (if config_vm then anon_init;; shadow_init else mret ()) s = Ret () s.
Proof.
  destruct config_vm; [|done]. unfold anon_init, shadow_init, create_allocator.
  by rewrite !bool_decide_eq_true_2 by apply (bo_slabs Hbo).
Qed.

Lemma kmain_eval : ∃ ip it pd stk k, kmain boot_st = Yield (idle_st ip it pd stk) k.
Proof.
  destruct Hbo as [Hhw Hsl [bs Hbs] Hgdb _ Hmem]. pose proof proc_max_bounds as Hmax.
  destruct (Hmem boot_st) as ([ip Hip] & _).
  assert (proc_getid boot_st = Ret 0 (set_next_pid 1 boot_st)) as Hgid.
  { rewrite (getid_free _ 0) by done. by rewrite Z.mod_small by lia. }
  destruct (Hmem (set_next_pid 1 boot_st)) as (_ & _ & _ & [pd Hpd]).
  set (s1 := set_curproc (Some ip) (set_proc_list (λ l, l ++ [ip]) (set_queues (insert (p_wait ip) (Ktqueue [] 0))
    (set_procs (insert ip (Proc 0 (comm_of "IDLE") [] [] None 0 PROC_RUNNING (Some pd))) (set_next_pid 1 boot_st))))).
  destruct (Hmem s1) as (_ & [it Hit] & [stk Hstk] & _).
  exists ip, it, pd, stk. eexists. unfold kmain, vmmap_init, proc_init, kthread_init. msimpl.
  repeat (rewrite Hhw; cbn [obind]). rewrite allocators_vm. cbn [obind]. unfold create_allocator. msimpl.
  rewrite !bool_decide_eq_true_2 by (apply Hsl || by rewrite Hbs). cbn [obind].
  repeat (rewrite Hhw; cbn [obind]). rewrite Hgdb. cbn [Z.eqb negb obind].
  unfold bootstrap. msimpl. rewrite Hhw. cbn [obind]. change (set_proc_list (λ _, []) boot_st) with boot_st.
  unfold proc_create. msimpl. rewrite Hip. cbn [obind]. rewrite Hgid. cbn [obind].
  rewrite pid_idle_0, pid_init_1. cbn [Z.eqb negb orb].
  rewrite (bool_decide_eq_true_2 (_ = [])) by done. cbn [obind]. rewrite Hpd.
  unfold sched_queue_init, upd_queue. cbn [obind curproc set_next_pid boot_st].
  unfold proc_at at 1. simpl. rewrite lookup_insert_eq. cbn [obind]. cbn [p_pid Z.eqb obind].
  unfold kthread_create. msimpl. fold s1. rewrite Hit, Hstk. cbn [obind].
  unfold proc_at, upd_proc. simpl. rewrite lookup_insert_eq. cbn [obind]. simpl. rewrite lookup_insert_eq. cbn [obind].
  f_equal. apply kst_ext; simpl; try done. by rewrite insert_insert_eq, pid_idle_0.
Qed.

(** When the init process has been created. *)
Definition init_st (ip jp : pptr) (it jt : tid) (pd stk pd' stk' nxt : Z) : kst :=
  Kst (<[ jt := first_thread initproc_run_p jp stk' pd' ]> {[ it := first_thread idleproc_run_p ip stk pd ]})
    (<[ kt_runq := Ktqueue [] 0 ]> (<[ p_wait jp := Ktqueue [] 0 ]> {[ p_wait ip := Ktqueue [] 0 ]})) ∅
    (<[ ip := Proc PID_IDLE (comm_of "IDLE") [it] [jp] None 0 PROC_RUNNING (Some pd) ]>
       {[ jp := Proc PID_INIT (comm_of "INIT") [jt] [] (Some ip) 0 PROC_RUNNING (Some pd') ]})
    (Some it) (Some ip) IPL_HIGH [ip; jp] (Some jp) nxt.

(** Threads that are on no queue. *)
Lemma quiet_sched s :
  (∀ q, queue s q = Ktqueue [] 0) →
  (∀ u uh, threads s !! u = Some uh → kt_wchan uh = None ∧ kt_state uh = KT_RUN) → sched_wf s.
Proof.
  intros Hq Ht. split; [split|]; unfold qlist; try setoid_rewrite Hq; simpl.
  - intros u uh q Hu. destruct (Ht u uh Hu) as [-> _]. split; [done|]. by intros ?%elem_of_nil.
  - by intros u q ?%elem_of_nil.
  - constructor.
  - done.
  - intros u uh Hu. destruct (Ht u uh Hu) as [Hw Hst]. unfold thread_ok. by rewrite Hw, Hst.
Qed.

Lemma init_st_queue ip jp it jt pd stk pd' stk' nxt q :
  queue (init_st ip jp it jt pd stk pd' stk' nxt) q = Ktqueue [] 0.
Proof.
  unfold queue. simpl. rewrite lookup_insert. case_decide; [done|].
  rewrite lookup_insert. case_decide; [done|]. rewrite lookup_singleton. by case_decide.
Qed.

Lemma init_st_thread ip jp it jt pd stk pd' stk' nxt u uh :
  threads (init_st ip jp it jt pd stk pd' stk' nxt) !! u = Some uh → kt_wchan uh = None ∧ kt_state uh = KT_RUN.
Proof. simpl. rewrite lookup_insert_Some, lookup_singleton_Some. by intros [[_ <-]|[_ [_ <-]]]. Qed.

Lemma init_st_sched ip jp it jt pd stk pd' stk' nxt : sched_wf (init_st ip jp it jt pd stk pd' stk' nxt).
Proof. apply quiet_sched; [apply init_st_queue|apply init_st_thread]. Qed.

Lemma initproc_create_eval ip it pd stk :
  ∃ jp jt pd' stk' nxt, ip ≠ jp ∧ it ≠ jt ∧ 0 <= nxt < PROC_MAX_COUNT ∧
    (initthr ← initproc_create; init_call_all;; mret initthr) (idle_st ip it pd stk) =
      Ret jt (init_st ip jp it jt pd stk pd' stk' nxt).
Proof.
  destruct Hbo as [Hhw Hsl _ _ _ Hmem]. pose proof proc_max_bounds as Hmax.
  set (s0 := idle_st ip it pd stk).
  destruct (Hmem s0) as ([jp Hjp] & _). pose proof (slab_proc_fresh _ _ Hjp) as Hjn.
  assert (ip ≠ jp) as Hij by (intros ->; simpl in Hjn; by rewrite lookup_singleton_eq in Hjn).
  set (nxt := 2 mod PROC_MAX_COUNT).
  assert (proc_getid s0 = Ret 1 (set_next_pid nxt s0)) as Hgid.
  { apply getid_free; [|done]. simpl. unfold proc_at. msimpl. simpl. rewrite lookup_singleton_eq. cbn [obind p_pid].
    by rewrite pid_idle_0. }
  destruct (Hmem (set_next_pid nxt s0)) as (_ & _ & _ & [pd' Hpd']).
  set (s1 := add_proc jp (Proc 1 (comm_of "INIT") [] [] (Some ip) 0 PROC_RUNNING (Some pd')) ip
    (Proc PID_IDLE (comm_of "IDLE") [it] [] None 0 PROC_RUNNING (Some pd)) (set_initproc (Some jp) (set_next_pid nxt s0))).
  assert (proc_create "INIT" s0 = Ret jp s1) as Hcr.
  { unfold proc_create. msimpl. rewrite Hjp. cbn [obind]. rewrite Hgid. cbn [obind].
    rewrite pid_idle_0, pid_init_1. cbn [Z.eqb Pos.eqb negb orb obind].
    unfold cur_proc, proc_at. msimpl. simpl. rewrite lookup_singleton_eq. cbn [obind p_pid]. rewrite pid_idle_0. cbn [Z.eqb obind].
    unfold sched_queue_init, upd_queue, upd_proc. simpl. rewrite lookup_insert_ne, lookup_singleton_eq by done. cbn [obind].
    rewrite Hpd'. done. }
  destruct (Hmem s1) as (_ & [jt Hjt] & [stk' Hstk'] & _). pose proof (slab_thread_fresh _ _ Hjt) as Hjtn.
  assert (it ≠ jt) as Hijt by (intros ->; simpl in Hjtn; by rewrite lookup_singleton_eq in Hjtn).
  exists jp, jt, pd', stk', nxt. split_and!; try done; try (apply Z.mod_pos_bound; lia).
  unfold initproc_create, init_call_all, sched_init, sched_queue_init, upd_queue, kthread_create, proc_at, upd_proc.
  msimpl. rewrite Hcr. cbn [obind]. assert (procs s1 !! jp = Some (Proc 1 (comm_of "INIT") [] [] (Some ip) 0 PROC_RUNNING (Some pd'))) as E1.
  { simpl. by rewrite lookup_insert_ne, lookup_insert_eq by done. }
  rewrite E1. cbn [obind p_pid]. rewrite pid_init_1. cbn [Z.eqb Pos.eqb obind]. rewrite Hjt. cbn [obind]. rewrite E1. cbn [obind].
  rewrite Hstk'. cbn [procs set_threads]. rewrite E1. cbn [obind]. rewrite Hhw. cbn [obind].
  f_equal. apply kst_ext; simpl; try done. rewrite pid_init_1.
  apply map_eq. intros q. rewrite !lookup_insert, !lookup_singleton. repeat case_decide; simplify_eq; try done.
Qed.

(** The idle process creates the init process and waits for it. *)
Lemma idle_eval fuel ip it pd stk :
  ∃ jp jt pd' stk' nxt, ip ≠ jp ∧ it ≠ jt ∧ 0 <= nxt < PROC_MAX_COUNT ∧
    idleproc_run fuel (idle_st ip it pd stk) =
      obind (idle_tail) (waitpid_any fuel
        (move jt (woken (first_thread initproc_run_p jp stk' pd')) (init_st ip jp it jt pd stk pd' stk' nxt))).
Proof.
  destruct (initproc_create_eval ip it pd stk) as (jp & jt & pd' & stk' & nxt & Hij & Hijt & Hn & E).
  exists jp, jt, pd', stk', nxt. split_and!; try done; try lia.
  set (s1 := init_st _ _ _ _ _ _ _ _ _) in *.
  assert (idleproc_run fuel = ((initthr ← initproc_create; init_call_all;; mret initthr) ≫= λ initthr,
    hw intr_enable;; sched_make_runnable initthr;; r ← do_waitpid fuel (-1) 0; idle_tail r)) as ->.
  { rewrite bind_assoc. unfold idleproc_run. f_equal. apply functional_extensionality. intros i. by rewrite bind_assoc. }
  rewrite bind_unfold, E. cbn [obind]. rewrite bind_unfold, (bo_hw Hbo). cbn [obind].
  assert (threads s1 !! jt = Some (first_thread initproc_run_p jp stk' pd')) as Hjt by (simpl; by rewrite lookup_insert_eq).
  rewrite bind_unfold, (sched_make_runnable_spec _ _ s1 (wf_queues s1 (init_st_sched _ _ _ _ _ _ _ _ _)) Hjt) by done.
  cbn [obind]. rewrite bind_unfold. unfold do_waitpid, cur_proc, proc_at. msimpl. cbn [curproc move s1 init_st]. simpl. rewrite lookup_insert_eq. cbn [obind]. done.
Qed.

(** The invariant holds when the idle process waits for the first time. *)
Section first.
Context (budget : Z → nat) (ip jp : pptr) (it jt : tid) (pd stk pd' stk' nxt : Z).
Context (Hij : ip ≠ jp) (Hijt : it ≠ jt) (Hnxt : 0 <= nxt < PROC_MAX_COUNT).

Definition ix : proc := Proc PID_IDLE (comm_of "IDLE") [it] [jp] None 0 PROC_RUNNING (Some pd).
Definition jx : proc := Proc PID_INIT (comm_of "INIT") [jt] [] (Some ip) 0 PROC_RUNNING (Some pd').

Definition first_st : kst :=
  move jt (woken (first_thread initproc_run_p jp stk' pd')) (init_st ip jp it jt pd stk pd' stk' nxt).

Lemma first_procs p x : procs first_st !! p = Some x → (p = ip ∧ x = ix) ∨ (p = jp ∧ x = jx).
Proof. simpl. rewrite lookup_insert_Some, lookup_singleton_Some. naive_solver. Qed.

Lemma first_ip : procs first_st !! ip = Some ix.
Proof. simpl. by rewrite lookup_insert_eq. Qed.

Lemma first_jp : procs first_st !! jp = Some jx.
Proof. simpl. by rewrite lookup_insert_ne, lookup_singleton_eq. Qed.

Lemma first_threads t th : threads first_st !! t = Some th →
  (t = it ∧ th = first_thread idleproc_run_p ip stk pd) ∨
  (t = jt ∧ th = woken (first_thread initproc_run_p jp stk' pd')).
Proof.
  unfold first_st. rewrite threads_move. simpl. rewrite !lookup_insert_Some, lookup_singleton_Some. naive_solver.
Qed.

Lemma first_it : threads first_st !! it = Some (first_thread idleproc_run_p ip stk pd).
Proof. unfold first_st. rewrite threads_move. simpl. by rewrite !lookup_insert_ne, lookup_singleton_eq. Qed.

Lemma first_jt : threads first_st !! jt = Some (woken (first_thread initproc_run_p jp stk' pd')).
Proof. unfold first_st. rewrite threads_move. simpl. by rewrite lookup_insert_eq. Qed.

Lemma first_current : current first_st it (first_thread idleproc_run_p ip stk pd) ip ix.
Proof. split; try done; [apply first_it|apply first_ip]. Qed.

Lemma first_table : table_wf first_st.
Proof.
  pose proof proc_max_bounds as Hmax. split.
  - intros p. change (proc_list first_st) with [ip; jp]. split.
    + intros [->|[->|?%elem_of_nil]%elem_of_cons]%elem_of_cons; [rewrite first_ip|rewrite first_jp|done]; eauto.
    + intros [x Hx]. destruct (first_procs p x Hx) as [[-> _]|[-> _]]; set_solver.
  - change (proc_list first_st) with [ip; jp]. repeat constructor; set_solver.
  - intros p q x y Hx Hy. destruct (first_procs p x Hx) as [[-> ->]|[-> ->]], (first_procs q y Hy) as [[-> ->]|[-> ->]];
      simpl; rewrite ?pid_idle_0, ?pid_init_1; done.
  - intros p x Hx. destruct (first_procs p x Hx) as [[-> ->]|[-> ->]]; simpl; rewrite ?pid_idle_0, ?pid_init_1; lia.
  - done.
Qed.

Lemma first_tree : tree_wf (procs first_st).
Proof.
  split.
  - intros c x p Hx. destruct (first_procs c x Hx) as [[-> ->]|[-> ->]]; [done|]. intros [= <-]. split; [done|].
    exists ix. rewrite first_ip. split_and!; [done..|]. by left.
  - intros p y c Hy _. destruct (first_procs p y Hy) as [[-> ->]|[-> ->]]; simpl; [|by intros ?%elem_of_nil].
    intros ->%list_elem_of_singleton. exists jx. split; [apply first_jp|done].
  - intros p y Hy _. destruct (first_procs p y Hy) as [[-> ->]|[-> ->]]; simpl; repeat constructor. by intros ?%elem_of_nil.
Qed.

Lemma first_shape : shape ip jp first_st.
Proof.
  pose proof first_procs as Hp. split; [apply first_table|apply first_tree|split| | |].
  - by exists [].
  - exists ix. by rewrite first_ip.
  - exists jx. by rewrite first_jp.
  - done.
  - intros p x Hx Hne. destruct (Hp p x Hx) as [[-> ->]|[-> ->]]; [done|by eexists].
  - intros c x p Hx. destruct (Hp c x Hx) as [[-> ->]|[-> ->]]; [done|]. intros [= <-]. exists [], [jp]. set_solver.
  - intros p x Hx. destruct (Hp p x Hx) as [[-> ->]|[-> ->]]; (split; [by eexists|]);
      [exists it; rewrite first_it|exists jt; rewrite first_jt]; eexists; split_and!; try done; by eexists.
  - intros t th Ht. destruct (first_threads t th Ht) as [[-> ->]|[-> ->]];
      [exists ip, ix; rewrite first_ip|exists jp, jx; rewrite first_jp]; done.
Qed.

Lemma first_sys m :
  sys budget ip jp m (Some it) first_st {[ jt := (PtEntry initproc_run_p, budget initproc_run_p) ]}.
Proof.
  split; [|apply first_shape|split|].
  - apply sched_wf_move; [apply init_st_sched|done].
  - intros t th p x Ht Hp Hx Hne. destruct (first_threads t th Ht) as [[-> ->]|[-> ->]]; [done|].
    injection Hp as <-. destruct (first_procs jp x Hx) as [[? _]|[_ ->]]; [done|].
    eexists _, _. rewrite lookup_singleton_eq. split_and!; try done. simpl. split_and!; try done. apply Hbo.
  - intros t [y [<- _]%lookup_singleton_Some]. rewrite first_jt. split; [by eexists|congruence].
  - intros t [= <-]. destruct first_current. by repeat eexists.
Qed.

Lemma first_suspends fuel :
  let m := (budget initproc_run_p + 2)%nat in
  (m + 2 ≤ fuel)%nat →
  suspends fuel budget ip jp (m + 2) it m {[ jt := (PtEntry initproc_run_p, budget initproc_run_p) ]}
    (continue fuel (PtIdle fuel) first_st).
Proof.
  intros m Hf. pose proof (first_sys m) as Hsys. pose proof first_current as Hcu.
  destruct (any_cases budget ip jp m it _ _ _ ip ix fuel Hsys Hcu) as
    [(c & z & tc & nc & Hcc & Hzo & _)|[Hc Hsl]].
  - exists jp. by left.
  - apply list_elem_of_singleton in Hcc as ->. destruct Hzo as [Hz Hd _ _ _]. rewrite first_jp in Hz. by injection Hz as <-.
  - eapply (idle_sleeps fuel budget ip jp (m + 2)) with (n := 1%nat); eauto; [lia|]. split.
    + unfold total. rewrite map_fold_singleton. unfold first_st. rewrite qlist_move, decide_True by done. unfold qlist, queue. simpl. rewrite lookup_insert_eq. simpl. lia.
    + simpl. lia.
Qed.
End first.
End booting.

(** ** From boot to halt *)

Section machine.
Context `{Machine} `{Errno} `{ProcEnv} `{BootEnv} (fuel B : nat) (tests : Z → prog) (lines : list string).
Context (budget : Z → nat).

(** What is typed and what the tests do, within the budget [B], for which the
    process identifiers suffice. *)
Record session_ok : Prop := {
  se_boot : boot_ok;
  se_kshell : kshell_ok lines;
  se_lines : (length lines ≤ fuel)%nat;
  se_costs : ∀ f, f ≠ idleproc_run_p → costs budget (program tests lines f) (budget f);
  se_budget : (budget initproc_run_p + 4 = B)%nat;
  se_fuel : (B ≤ fuel)%nat;
  se_max : Z.of_nat B < PROC_MAX_COUNT;
}.

Context (Hse : session_ok).

Lemma boot_first : ∃ s0 k ip jp m c1, kmain boot_st = Yield s0 k ∧
  sys_step fuel tests (Config s0 ∅) c1 ∧ config_ok fuel budget ip jp B m c1.
Proof.
  destruct Hse as [Hbo _ _ _ HB Hfuel _].
  destruct (kmain_eval Hbo) as (ip & it & pd & stk & k & Hk).
  destruct (idle_eval Hbo fuel ip it pd stk) as (jp & jt & pd' & stk' & nxt & Hij & Hijt & Hnxt & E).
  pose proof (first_suspends Hbo budget ip jp it jt pd stk pd' stk' nxt Hij Hijt Hnxt fuel ltac:(lia)) as Hsus.
  set (pc := {[ jt := (PtEntry initproc_run_p, budget initproc_run_p) ]} : gmap tid (point * nat)) in *.
  replace (budget initproc_run_p + 2 + 2)%nat with B in Hsus by lia.
  assert (saved_ok fuel ∅ pc) as Hsv.
  { intros t pt n [_ [= <- <-]]%lookup_singleton_Some Hne. by destruct (Hne initproc_run_p). }
  destruct (suspends_step fuel tests budget ip jp B (budget initproc_run_p + 2) (Config (idle_st ip it pd stk) ∅) it pc)
    as (m' & c1 & Hst & Hc1 & _); [done..| |by exists (idle_st ip it pd stk), k, ip, jp, m', c1].
  unfold pc. rewrite delete_singleton_ne by done. unfold resume_at, idle_st at 1. simpl. rewrite lookup_singleton_eq. simpl.
  unfold start, thread_at. msimpl. simpl. rewrite lookup_singleton_eq. cbn [obind]. simpl. rewrite Z.eqb_refl.
  rewrite E. exact Hsus.
Qed.

(** Every process has one thread, and every thread a process. *)
Definition single_threaded (s : kst) : Prop :=
  (∀ p x, procs s !! p = Some x → ∃ t th, p_threads x = [t] ∧ threads s !! t = Some th ∧ kt_proc th = Some p) ∧
  (∀ t th, threads s !! t = Some th → ∃ p x, kt_proc th = Some p ∧ procs s !! p = Some x ∧ p_threads x = [t]).


End machine.

(** ** A session

    Three of the four lines typed name a test.  The first test creates two
    processes, one of which leaves a child behind, and waits for one of them
    and then for the rest; the second leaves a child behind for init. *)
Module BootEx.
#[local] Existing Instance ProcEx.quiet.
#[local] Existing Instance some_errno.

Definition env128 : ProcEnv.
Proof. refine (ProcEx.env 128 _). by split. Defined.
#[local] Existing Instance env128.

Definition typed : list string := ["faber"; "hello"; "sunghan"; "deadlock"].

#[local] Instance pc : BootEnv := {|
  config_vm := false;
  hw := λ _ s, Ret () s;
  slab_allocator_create := λ _, Some 1;
  bstack := Some 4096;
  gdb_wait := 0;
  idleproc_run_p := 1;
  initproc_run_p := 2;
  sunghan_test_p := 3;
  sunghan_deadlock_test_p := 4;
  faber_thread_test_p := 5;
  kshell_create := λ _, mret (Some 1);
  kshell_execute_next := λ cmds k i,
    match typed !! i with
    | Some line => match command_of line cmds with Some f => f k;; mret 1 | None => mret 1 end
    | None => mret 0
    end;
  kshell_destroy := λ _, mret () |}.

Definition worker : prog := PYield (PYield (PExit 0)).
Definition tests (func : Z) : prog :=
  match func with
  | 3 => PSpawn "worker" 10 (λ _, PExit 0)
  | 4 => PYield (PExit 0)
  | 5 => PSpawn "worker" 10 (λ pid, PSpawn "parent" 11 (λ _, PWait pid (λ _, PReap (PExit 0))))
  | 10 => worker
  | 11 => PSpawn "worker" 10 (λ _, PExit 7)
  | _ => PExit 0
  end.
Definition budget (func : Z) : nat :=
  match func with 2 => 65 | 3 => 13 | 4 => 5 | 5 => 31 | 10 => 7 | 11 => 13 | _ => 3 end.

Lemma tests_cost f : f ≠ 1 → costs budget (program tests typed f) (budget f).
Proof.
  intros Hf. unfold program. destruct (Z.eqb_spec f initproc_run_p) as [->|Hn].
  - simpl. repeat (econstructor; simpl; intros; try done).
  - unfold tests, budget, worker. repeat case_match; simplify_eq; try done; repeat (econstructor; simpl; intros; try done).
Qed.

Lemma session : session_ok 100 69 tests typed budget.
Proof.
  split; [split; try done; by eexists|split; try done|simpl; lia|apply tests_cost|done|lia|done].
  - by exists 1.
  - intros cmds k i line f Hl Hf. simpl. by rewrite Hl, Hf.
  - intros cmds k i line Hl Hf. simpl. by rewrite Hl, Hf.
  - intros cmds k i Hl. simpl. by rewrite Hl.
Qed.


End BootEx.
