(* ===== verification/Vfsstate.v ===== *)
(** * The state of the file system code

    The structures of kernel/fs that vnode.c, namev.c, open.c and
    vfs_syscall.c operate on: vnodes, open files, the file descriptor table
    and working directory of each process, and the block devices. *)

From S2P Require Import Prelude Kstate.
Local Open Scope Z_scope.

Abbreviation optr := positive.   (* mmobj_t * *)
Abbreviation vnptr := positive.  (* vnode_t * *)
Abbreviation fptr := positive.   (* file_t * *)
Abbreviation path := (list Ascii.ascii). (* const char *, up to the NUL *)

(** The tables of operations a vnode can have: those of special files, and
    those of the file systems. *)
Inductive vops := bytedev_spec_vops | blockdev_spec_vops | fs_vops (n : positive).

#[global] Instance vops_eq_dec : EqDecision vops.
Proof. solve_decision. Defined.

(** [vnode_t]; [vn_refcount], [vn_nrespages] and the resident pages are those
    of the embedded [vn_mmobj]; [vn_waitq] is a queue of its own, and
    [vn_link] is represented by membership in [vnode_inuse_list]. *)
Record vnode := Vnode {
  vn_ops : option vops;
  vn_fs : positive;
  vn_vno : Z;
  vn_mode : Z;
  vn_len : Z;
  vn_devid : Z;
  vn_i : Z;
  vn_dev : option positive;     (* vn_cdev or vn_bdev *)
  vn_busy : bool;               (* VN_BUSY in vn_flags *)
  vn_mmobj : optr;
}.

Record file := File {
  f_pos : Z;
  f_mode : Z;
  f_refcount : Z;
  f_vnode : option vnptr;
}.

(** The fields of [proc_t] the file system code adds. *)
Record proc_fs := ProcFs { p_files : list (option fptr); p_cwd : option vnptr }.

Record fsst := Fsst {
  vnodes : gmap vnptr vnode;
  vnode_inuse_list : list vnptr;
  files : gmap fptr file;
  procfs : gmap pptr proc_fs;
  vfs_root_vn : option vnptr;
  disk : Z → Z;                 (* the block devices, a byte per address *)
}.

Definition set_vnodes f s := Fsst (f (vnodes s)) (vnode_inuse_list s) (files s) (procfs s)
  (vfs_root_vn s) (disk s).
Definition set_inuse f s := Fsst (vnodes s) (f (vnode_inuse_list s)) (files s) (procfs s)
  (vfs_root_vn s) (disk s).
Definition set_files f s := Fsst (vnodes s) (vnode_inuse_list s) (f (files s)) (procfs s)
  (vfs_root_vn s) (disk s).
Definition set_procfs f s := Fsst (vnodes s) (vnode_inuse_list s) (files s) (f (procfs s))
  (vfs_root_vn s) (disk s).
Definition set_disk d s := Fsst (vnodes s) (vnode_inuse_list s) (files s) (procfs s)
  (vfs_root_vn s) d.

Definition with_vbusy b v := Vnode (vn_ops v) (vn_fs v) (vn_vno v) (vn_mode v) (vn_len v)
  (vn_devid v) (vn_i v) (vn_dev v) b (vn_mmobj v).
Definition with_special ops dev v := Vnode (Some ops) (vn_fs v) (vn_vno v) (vn_mode v) (vn_len v)
  (vn_devid v) (vn_i v) dev (vn_busy v) (vn_mmobj v).

Definition with_pos n f := File n (f_mode f) (f_refcount f) (f_vnode f).
Definition with_fmode n f := File (f_pos f) n (f_refcount f) (f_vnode f).
Definition with_frefcount g f := File (f_pos f) (f_mode f) (g (f_refcount f)) (f_vnode f).

(** Before [vfs_init]. *)
Definition no_fs : fsst := Fsst ∅ [] ∅ ∅ None (λ _, 0).
