(* ===== verification/Vmstate.v ===== *)
(** * The state of the virtual memory code

    The structures of kernel/vm and kernel/mm that the sources operate on:
    memory objects, page frames, address spaces, page tables and physical
    memory, next to the process and thread state; and the interfaces to the
    code below (allocators, page tables) and to the objects themselves (the
    table of function pointers [mmobj_ops_t]). *)

From S2P Require Import Prelude Kstate Sched.
From S2P Require Export Vfsstate.
Local Open Scope Z_scope.

Abbreviation pfptr := positive.  (* pframe_t * *)
Abbreviation aptr := positive.   (* vmarea_t * *)
Abbreviation vmid := positive.   (* vmmap_t * *)

(** The value of a 32 bit unsigned expression. *)
Definition u32 (x : Z) : Z := x mod 2 ^ 32.

(** Conversion of an unsigned value to [int]. *)
Definition int32 (x : Z) : Z := if x <? 2 ^ 31 then x else x - 2 ^ 32.

(** [vmarea_t], with its address [vma_id]; [vma_plink] is represented by the
    position in [vmm_list] and [vma_olink] by membership in [mmo_vmas]. *)
Record vmarea := Vmarea {
  vma_id : aptr;
  vma_start : Z;
  vma_end : Z;
  vma_off : Z;
  vma_prot : Z;
  vma_flags : Z;
  vma_vmmap : option vmid;
  vma_obj : option optr;
}.

Record vmmap := Vmmap { vmm_list : list vmarea; vmm_proc : option pptr }.

(** Which table of operations an object has. *)
Inductive ops_kind := shadow_mmobj_ops | anon_mmobj_ops | vnode_mmobj_ops (vn : vnptr).

#[global] Instance ops_kind_eq_dec : EqDecision ops_kind.
Proof. solve_decision. Defined.

(** [mmo_un]: the areas that map an object, or the bottom object of a shadow
    object. *)
Inductive mmo_union := mmo_vmas (l : list aptr) | mmo_bottom_obj (o : optr).

Record mmobj := Mmobj {
  mmo_ops : ops_kind;
  mmo_refcount : Z;
  mmo_nrespages : Z;
  mmo_respages : list pfptr;
  mmo_un : mmo_union;
  mmo_shadowed : option optr;
}.

(** [pframe_t]; [pf_waitq] is a queue of its own. *)
Record pframe := Pframe {
  pf_addr : Z;
  pf_obj : option optr;
  pf_pagenum : Z;
  pf_busy : bool;           (* PF_BUSY in pf_flags *)
  pf_dirty : bool;          (* PF_DIRTY in pf_flags *)
  pf_pincount : Z;
}.

(** The fields of [proc_t] the virtual memory code adds. *)
Record proc_vm := ProcVm { p_vmmap : option vmid; p_brk : Z; p_start_brk : Z }.

(** Page tables: page directory and virtual page address to physical page
    address and flags. *)
Abbreviation pagetables := (gmap (Z * Z) (Z * Z)).

Record vst := Vst {
  v_k : kst;
  mmobjs : gmap optr mmobj;
  pframes : gmap pfptr pframe;
  alloc_list : list pfptr;
  pinned_list : list pfptr;
  nallocated : Z;
  npinned : Z;
  pframe_hash : gmap Z (list pfptr);
  mem : Z → Z;                       (* physical memory, a byte per address *)
  vmaps : gmap vmid vmmap;
  procvm : gmap pptr proc_vm;
  pts : pagetables;
  v_fs : fsst;                       (* the file system code *)
}.

(** States with equal parts. *)
Lemma vst_ext s s' :
  v_k s = v_k s' → mmobjs s = mmobjs s' → pframes s = pframes s' → alloc_list s = alloc_list s' →
  pinned_list s = pinned_list s' → nallocated s = nallocated s' → npinned s = npinned s' →
  pframe_hash s = pframe_hash s' → mem s = mem s' → vmaps s = vmaps s' → procvm s = procvm s' →
  pts s = pts s' → v_fs s = v_fs s' → s = s'.
Proof. destruct s, s'. simpl. by intros; subst. Qed.

Abbreviation V := (M vst).

Definition set_k f s := Vst (f (v_k s)) (mmobjs s) (pframes s) (alloc_list s) (pinned_list s)
  (nallocated s) (npinned s) (pframe_hash s) (mem s) (vmaps s) (procvm s) (pts s) (v_fs s).
Definition set_mmobjs f s := Vst (v_k s) (f (mmobjs s)) (pframes s) (alloc_list s) (pinned_list s)
  (nallocated s) (npinned s) (pframe_hash s) (mem s) (vmaps s) (procvm s) (pts s) (v_fs s).
Definition set_pframes f s := Vst (v_k s) (mmobjs s) (f (pframes s)) (alloc_list s) (pinned_list s)
  (nallocated s) (npinned s) (pframe_hash s) (mem s) (vmaps s) (procvm s) (pts s) (v_fs s).
Definition set_alloc_list f s := Vst (v_k s) (mmobjs s) (pframes s) (f (alloc_list s)) (pinned_list s)
  (nallocated s) (npinned s) (pframe_hash s) (mem s) (vmaps s) (procvm s) (pts s) (v_fs s).
Definition set_pinned_list f s := Vst (v_k s) (mmobjs s) (pframes s) (alloc_list s) (f (pinned_list s))
  (nallocated s) (npinned s) (pframe_hash s) (mem s) (vmaps s) (procvm s) (pts s) (v_fs s).
Definition set_nallocated f s := Vst (v_k s) (mmobjs s) (pframes s) (alloc_list s) (pinned_list s)
  (f (nallocated s)) (npinned s) (pframe_hash s) (mem s) (vmaps s) (procvm s) (pts s) (v_fs s).
Definition set_npinned f s := Vst (v_k s) (mmobjs s) (pframes s) (alloc_list s) (pinned_list s)
  (nallocated s) (f (npinned s)) (pframe_hash s) (mem s) (vmaps s) (procvm s) (pts s) (v_fs s).
Definition set_hash f s := Vst (v_k s) (mmobjs s) (pframes s) (alloc_list s) (pinned_list s)
  (nallocated s) (npinned s) (f (pframe_hash s)) (mem s) (vmaps s) (procvm s) (pts s) (v_fs s).
Definition set_mem f s := Vst (v_k s) (mmobjs s) (pframes s) (alloc_list s) (pinned_list s)
  (nallocated s) (npinned s) (pframe_hash s) (f (mem s)) (vmaps s) (procvm s) (pts s) (v_fs s).
Definition set_vmaps f s := Vst (v_k s) (mmobjs s) (pframes s) (alloc_list s) (pinned_list s)
  (nallocated s) (npinned s) (pframe_hash s) (mem s) (f (vmaps s)) (procvm s) (pts s) (v_fs s).
Definition set_procvm f s := Vst (v_k s) (mmobjs s) (pframes s) (alloc_list s) (pinned_list s)
  (nallocated s) (npinned s) (pframe_hash s) (mem s) (vmaps s) (f (procvm s)) (pts s) (v_fs s).
Definition set_pts f s := Vst (v_k s) (mmobjs s) (pframes s) (alloc_list s) (pinned_list s)
  (nallocated s) (npinned s) (pframe_hash s) (mem s) (vmaps s) (procvm s) (f (pts s)) (v_fs s).
Definition set_fs f s := Vst (v_k s) (mmobjs s) (pframes s) (alloc_list s) (pinned_list s)
  (nallocated s) (npinned s) (pframe_hash s) (mem s) (vmaps s) (procvm s) (pts s) (f (v_fs s)).

(** Process and thread code run by the virtual memory code. *)
Fixpoint olift {A} (s : vst) (o : outcome kst A) : outcome vst A :=
  match o with
  | Ret a k => Ret a (set_k (λ _, k) s)
  | Panic w => Panic w
  | Idle => Idle
  | Yield k c => Yield (set_k (λ _, k) s) (λ s', olift s' (c (v_k s')))
  end.

Definition lift {A} (m : K A) : V A := λ s, olift s (m (v_k s)).

Lemma set_k_id s : set_k (λ _, v_k s) s = s.
Proof. by destruct s. Qed.

(** Process code that only reads. *)
Lemma lift_read {A} (m : K A) a s : m (v_k s) = Ret a (v_k s) → lift m s = Ret a s.
Proof. intros Hm. unfold lift. rewrite Hm. cbn [olift]. by rewrite set_k_id. Qed.

Lemma lift_cur_proc s cp : curproc (v_k s) = Some cp → lift cur_proc s = Ret cp s.
Proof. intros Hc. apply lift_read. unfold cur_proc. msimpl. by rewrite Hc. Qed.

Lemma lift_proc_at s cp p : procs (v_k s) !! cp = Some p → lift (proc_at cp) s = Ret p s.
Proof. intros Hp. apply lift_read. unfold proc_at. by rewrite Hp. Qed.

Lemma lift_Ret {A} (m : K A) a k' s : m (v_k s) = Ret a k' → lift m s = Ret a (set_k (λ _, k') s).
Proof. intros Hm. unfold lift. by rewrite Hm. Qed.

Lemma broadcast_empty s q : tq_list (queue (v_k s) q) = [] → lift (sched_broadcast_on q) s = Ret () s.
Proof.
  intros Hq. apply lift_read. unfold sched_broadcast_on. msimpl. rewrite Hq.
  cbn [length sched_broadcast_loop]. unfold sched_queue_empty. msimpl. by rewrite Hq.
Qed.

(** Use of the pointers. *)
Definition mmobj_at (o : optr) : V mmobj :=
  λ s, match mmobjs s !! o with Some x => Ret x s | None => Panic "mmobj_t" end.
Definition upd_mmobj (o : optr) (f : mmobj → mmobj) : V () :=
  λ s, match mmobjs s !! o with
       | Some x => Ret () (set_mmobjs (insert o (f x)) s)
       | None => Panic "mmobj_t"
       end.
Definition pframe_at (p : pfptr) : V pframe :=
  λ s, match pframes s !! p with Some x => Ret x s | None => Panic "pframe_t" end.
Definition upd_pframe (p : pfptr) (f : pframe → pframe) : V () :=
  λ s, match pframes s !! p with
       | Some x => Ret () (set_pframes (insert p (f x)) s)
       | None => Panic "pframe_t"
       end.
Definition vmmap_at (m : vmid) : V vmmap :=
  λ s, match vmaps s !! m with Some x => Ret x s | None => Panic "vmmap_t" end.
Definition upd_vmmap (m : vmid) (f : vmmap → vmmap) : V () :=
  λ s, match vmaps s !! m with
       | Some x => Ret () (set_vmaps (insert m (f x)) s)
       | None => Panic "vmmap_t"
       end.

Definition with_refcount f o := Mmobj (mmo_ops o) (f (mmo_refcount o)) (mmo_nrespages o)
  (mmo_respages o) (mmo_un o) (mmo_shadowed o).
Definition with_nrespages f o := Mmobj (mmo_ops o) (mmo_refcount o) (f (mmo_nrespages o))
  (mmo_respages o) (mmo_un o) (mmo_shadowed o).
Definition with_respages f o := Mmobj (mmo_ops o) (mmo_refcount o) (mmo_nrespages o)
  (f (mmo_respages o)) (mmo_un o) (mmo_shadowed o).
Definition with_un u o := Mmobj (mmo_ops o) (mmo_refcount o) (mmo_nrespages o)
  (mmo_respages o) u (mmo_shadowed o).
Definition with_shadowed x o := Mmobj (mmo_ops o) (mmo_refcount o) (mmo_nrespages o)
  (mmo_respages o) (mmo_un o) x.

Definition with_list f m := Vmmap (f (vmm_list m)) (vmm_proc m).

Definition with_range st en off a := Vmarea (vma_id a) st en off (vma_prot a) (vma_flags a)
  (vma_vmmap a) (vma_obj a).
Definition with_obj o a := Vmarea (vma_id a) (vma_start a) (vma_end a) (vma_off a) (vma_prot a)
  (vma_flags a) (vma_vmmap a) o.
Definition with_vmmap m a := Vmarea (vma_id a) (vma_start a) (vma_end a) (vma_off a) (vma_prot a)
  (vma_flags a) m (vma_obj a).

(** ** Below the virtual memory code

    Address space constants, allocators, the header functions of mmobj.h and
    the page table functions, with what their documentation says of them. *)
Class VmEnv := {
  USER_MEM_LOW : Z;
  USER_MEM_HIGH : Z;
  MAP_SHARED : Z;
  MAP_PRIVATE : Z;
  PF_HASH_SIZE : Z;
  slab_alloc_vmarea : vst → option aptr;
  slab_alloc_vmmap : vst → option vmid;
  slab_alloc_mmobj : ops_kind → vst → option optr;
  slab_alloc_pframe : vst → option pfptr;
  page_alloc : vst → option Z;
  page_free_count : vst → Z;
  vn_mmap : vnptr → vmarea → V (Z * option optr);
  mmobj_init : ops_kind → mmobj;
  mmobj_bottom_obj : gmap optr mmobj → optr → optr;
  pt_unmap : Z → Z → pagetables → pagetables;
  pt_unmap_range : Z → Z → Z → pagetables → pagetables;
  user_mem_aligned : USER_MEM_LOW mod 2 ^ 12 = 0 ∧ USER_MEM_HIGH mod 2 ^ 12 = 0;
  user_mem_bounds : 0 < USER_MEM_LOW < USER_MEM_HIGH ∧ USER_MEM_HIGH < 2 ^ 32;
  vmarea_fresh : ∀ s a m mp v, slab_alloc_vmarea s = Some a →
    vmaps s !! m = Some mp → v ∈ vmm_list mp → vma_id v ≠ a;
  vmmap_fresh : ∀ s m, slab_alloc_vmmap s = Some m → vmaps s !! m = None;
  mmobj_fresh : ∀ k s o, slab_alloc_mmobj k s = Some o → mmobjs s !! o = None;
  pframe_fresh : ∀ s p, slab_alloc_pframe s = Some p → pframes s !! p = None;
  page_nonnull : ∀ s a, page_alloc s = Some a → a ≠ 0;
  page_fresh : ∀ s a p x, page_alloc s = Some a → pframes s !! p = Some x →
    a + 2 ^ 12 <= pf_addr x ∨ pf_addr x + 2 ^ 12 <= a;
  mmobj_init_ops : ∀ k, mmo_ops (mmobj_init k) = k;
  mmobj_init_empty : ∀ k, mmo_nrespages (mmobj_init k) = 0 ∧ mmo_respages (mmobj_init k) = [];
  mmobj_init_shadowed : ∀ k, mmo_shadowed (mmobj_init k) = None;
  mmobj_init_un : ∀ k, mmo_un (mmobj_init k) = mmo_vmas [];
  mmobj_bottom_self : ∀ h o x, h !! o = Some x → mmo_shadowed x = None → mmobj_bottom_obj h o = o;
  mmobj_bottom_shadow : ∀ h o x b, h !! o = Some x → is_Some (mmo_shadowed x) →
    mmo_un x = mmo_bottom_obj b → mmobj_bottom_obj h o = b;
  pt_unmap_range_spec : ∀ pd lo hi t pd' a,
    pt_unmap_range pd lo hi t !! (pd', a) =
      if decide (pd' = pd ∧ lo <= a < hi) then None else t !! (pd', a);
}.

Definition PAGE_SIZE : Z := 4096.
Definition ADDR_TO_PN (a : Z) : Z := Z.shiftr a 12.
Definition PN_TO_ADDR (n : Z) : Z := u32 (Z.shiftl n 12).
Definition PAGE_OFFSET (a : Z) : Z := Z.land a (PAGE_SIZE - 1).
Definition PAGE_ALIGNED (a : Z) : bool := PAGE_OFFSET a =? 0.

(** The functions of [mmobj_ops_t], called through the object's [mmo_ops]. *)
Record vtable := Vtable {
  o_ref : optr → V ();
  o_put : optr → V ();
  o_lookuppage : optr → Z → Z → V (Z * option pfptr);
  o_fillpage : optr → pfptr → V Z;
  o_dirtypage : optr → pfptr → V Z;
  o_cleanpage : optr → pfptr → V Z;
}.
