(* ===== verification/Pframe.v ===== *)
(** * Page frames (pframe.c)

    The cache of resident pages: looking up, allocating, filling, pinning,
    dirtying, cleaning and freeing page frames.  The operations of the
    objects that own the pages are called through a table [ops]. *)

From S2P Require Import Prelude Kstate Sched Vmstate.
Local Open Scope Z_scope.

Definition pf_waitq (pf : pfptr) : qid := other_q pf~0.

Definition with_busy b p := Pframe (pf_addr p) (pf_obj p) (pf_pagenum p) b (pf_dirty p) (pf_pincount p).
Definition with_dirty b p := Pframe (pf_addr p) (pf_obj p) (pf_pagenum p) (pf_busy p) b (pf_pincount p).
Definition with_pincount n p := Pframe (pf_addr p) (pf_obj p) (pf_pagenum p) (pf_busy p) (pf_dirty p) n.
Definition with_pfobj o p := Pframe (pf_addr p) o (pf_pagenum p) (pf_busy p) (pf_dirty p) (pf_pincount p).

(** The macros of pframe.h on [pf_flags], [pf_pincount] and [pf_obj]. *)
Definition pframe_set_busy (pf : pfptr) : V () := upd_pframe pf (with_busy true).
Definition pframe_clear_busy (pf : pfptr) : V () := upd_pframe pf (with_busy false).
Definition pframe_set_dirty (pf : pfptr) : V () := upd_pframe pf (with_dirty true).
Definition pframe_clear_dirty (pf : pfptr) : V () := upd_pframe pf (with_dirty false).
Definition pframe_is_pinned (x : pframe) : bool := negb (pf_pincount x =? 0).
Definition pframe_is_free (x : pframe) : bool := bool_decide (pf_obj x = None).

(** [list_remove] of [pf_link], [pf_hlink] and [pf_olink]. *)
Definition drop_pf (pf : pfptr) : list pfptr → list pfptr := filter (λ q, q ≠ pf).
Definition remove_link (pf : pfptr) : V () :=
  modify (λ s, set_alloc_list (drop_pf pf) (set_pinned_list (drop_pf pf) s)).
Definition remove_hlink (pf : pfptr) : V () := modify (set_hash (fmap (drop_pf pf))).
Definition remove_olink (pf : pfptr) : V () :=
  modify (set_mmobjs (fmap (with_respages (drop_pf pf)))).

Section pframe.
Context `{VmEnv}.

Definition hash_page (o : optr) (pagenum : Z) : Z := u32 (Zpos o + pagenum) mod PF_HASH_SIZE.

(** The chain of a bucket. *)
Definition hashchain (s : vst) (o : optr) (pagenum : Z) : list pfptr :=
  default [] (pframe_hash s !! hash_page o pagenum).

Fixpoint find_in_chain (o : optr) (pagenum : Z) (l : list pfptr) : V (option pfptr) :=
  match l with
  | [] => mret None
  | pf :: l' =>
      x ← pframe_at pf;
      if bool_decide (pf_obj x = Some o) && (pagenum =? pf_pagenum x) then
        (if negb (pframe_is_pinned x) then
           remove_link pf;; modify (set_alloc_list (λ l, l ++ [pf]))
         else mret ());;
        mret (Some pf)
      else find_in_chain o pagenum l'
  end.

Definition pframe_get_resident (o : optr) (pagenum : Z) : V (option pfptr) :=
  s ← get; find_in_chain o pagenum (hashchain s o pagenum).

Definition pframe_pin (pf : pfptr) : V () :=
  x ← pframe_at pf;
  KASSERT (negb (pframe_is_free x)) "!pframe_is_free(pf)";;
  KASSERT (0 <=? pf_pincount x) "pf->pf_pincount >= 0";;
  (if negb (pframe_is_pinned x) then
     remove_link pf;;
     modify (set_pinned_list (λ l, l ++ [pf]));;
     modify (set_nallocated (λ n, n - 1));;
     modify (set_npinned (λ n, n + 1))
   else mret ());;
  upd_pframe pf (λ p, with_pincount (pf_pincount p + 1) p).

Definition pframe_unpin (pf : pfptr) : V () :=
  x ← pframe_at pf;
  KASSERT (negb (pframe_is_free x)) "!pframe_is_free(pf)";;
  KASSERT (0 <? pf_pincount x) "pf->pf_pincount > 0";;
  upd_pframe pf (λ p, with_pincount (pf_pincount p - 1) p);;
  (if pf_pincount x - 1 =? 0 then
     remove_link pf;;
     modify (set_alloc_list (λ l, l ++ [pf]));;
     modify (set_nallocated (λ n, n + 1));;
     modify (set_npinned (λ n, n - 1))
   else mret ()).

(** The areas on [mmobj_bottom_vmas(o)]. *)
Definition bottom_vmas (o : optr) : V (list aptr) :=
  s ← get;
  x ← mmobj_at (mmobj_bottom_obj (mmobjs s) o);
  match mmo_un x with
  | mmo_vmas l => mret l
  | mmo_bottom_obj _ => panic "mmo_un.mmo_vmas"
  end.

(** The area at address [a], on the list of some address space. *)
Definition area_at (a : aptr) : V vmarea :=
  s ← get;
  deref (list_find (λ v, vma_id v = a) (concat (vmm_list <$> (map_to_list (vmaps s)).*2)) ≫= (λ iv, Some iv.2))
    "vmarea_t".

Fixpoint unmap_each (x : pframe) (l : list aptr) : V () :=
  match l with
  | [] => mret ()
  | a :: l' =>
      vma ← area_at a;
      (if (vma_off vma <=? pf_pagenum x)
          && (pf_pagenum x <? u32 (vma_off vma + u32 (vma_end vma - vma_start vma)))
       then
         let vaddr := PN_TO_ADDR (u32 (vma_start vma + pf_pagenum x - vma_off vma)) in
         m ← deref (vma_vmmap vma) "vma->vma_vmmap";
         mp ← vmmap_at m;
         match vmm_proc mp with
         | Some p =>
             pr ← lift (proc_at p);
             pd ← deref (p_pagedir pr) "p_pagedir";
             modify (set_pts (pt_unmap pd vaddr))
         | None => mret ()
         end
       else mret ());;
      unmap_each x l'
  end.

Definition pframe_remove_from_pts (pf : pfptr) : V () :=
  x ← pframe_at pf;
  o ← deref (pf_obj x) "pf->pf_obj";
  l ← bottom_vmas o;
  unmap_each x l.

Section with_ops.
Context `{Machine} `{Errno} (ops : vtable).

Definition pframe_lookup (o : optr) (pagenum forwrite : Z) : V (Z * option pfptr) :=
  o_lookuppage ops o pagenum forwrite.

Definition pframe_alloc (o : optr) (pagenum : Z) : V (option pfptr) :=
  s ← get;
  match slab_alloc_pframe s with
  | None => mret None
  | Some pf =>
      match page_alloc s with
      | None => mret None
      | Some addr =>
          modify (set_nallocated (λ n, n + 1));;
          modify (set_alloc_list (λ l, l ++ [pf]));;
          modify (set_pframes (insert pf (Pframe addr (Some o) pagenum false false 0)));;
          lift (sched_queue_init (pf_waitq pf));;
          modify (set_hash (λ h, <[hash_page o pagenum := pf :: default [] (h !! hash_page o pagenum)]> h));;
          o_ref ops o;;
          upd_mmobj o (with_nrespages (λ n, n + 1));;
          upd_mmobj o (with_respages (λ l, pf :: l));;
          mret (Some pf)
      end
  end.

Definition pframe_fill (pf : pfptr) : V Z :=
  pframe_set_busy pf;;
  x ← pframe_at pf;
  o ← deref (pf_obj x) "pf->pf_obj";
  ret ← o_fillpage ops o pf;
  pframe_clear_busy pf;;
  lift (sched_broadcast_on (pf_waitq pf));;
  mret ret.

(** The links are taken out before the frame itself goes; the source uses
    [pf->pf_olink] just after [slab_obj_free]. *)
Definition pframe_free (pf : pfptr) : V () :=
  x ← pframe_at pf;
  KASSERT (negb (pframe_is_pinned x)) "!pframe_is_pinned(pf)";;
  KASSERT (negb (pframe_is_free x)) "!pframe_is_free(pf)";;
  KASSERT (negb (pf_busy x)) "!pframe_is_busy(pf)";;
  o ← deref (pf_obj x) "pf->pf_obj";
  pframe_remove_from_pts pf;;
  remove_hlink pf;;
  upd_pframe pf (with_pfobj None);;
  modify (set_nallocated (λ n, n - 1));;
  remove_link pf;;
  upd_mmobj o (with_nrespages (λ n, n - 1));;
  remove_olink pf;;
  modify (set_pframes (delete pf));;
  o_put ops o.

Definition pframe_get (o : optr) (pagenum : Z) : V (Z * option pfptr) :=
  r ← pframe_get_resident o pagenum;
  match r with
  | Some pf =>
      x ← pframe_at pf;
      (if pf_busy x then lift (sched_sleep_on (pf_waitq pf)) else mret ());;
      y ← pframe_at pf;
      KASSERT (negb (pf_busy y)) "!pframe_is_busy(*result)";;
      mret (0, Some pf)
  | None =>
      r' ← pframe_alloc o pagenum;
      pf ← deref r' "NULL != *result";
      fill_frame ← pframe_fill pf;
      if fill_frame <? 0 then
        x ← pframe_at pf;
        pframe_free pf;;
        KASSERT (negb (pf_busy x)) "!pframe_is_busy(*result)";;
        mret (- EFAULT, Some pf)
      else
        y ← pframe_at pf;
        KASSERT (negb (pf_busy y)) "!pframe_is_busy(*result)";;
        mret (0, Some pf)
  end.

Definition pframe_dirty (pf : pfptr) : V Z :=
  x ← pframe_at pf;
  KASSERT (negb (pf_busy x)) "!pframe_is_busy(pf)";;
  pframe_set_busy pf;;
  o ← deref (pf_obj x) "pf->pf_obj";
  ret ← o_dirtypage ops o pf;
  (if ret =? 0 then pframe_set_dirty pf else mret ());;
  pframe_clear_busy pf;;
  lift (sched_broadcast_on (pf_waitq pf));;
  mret ret.

Definition pframe_clean (pf : pfptr) : V Z :=
  x ← pframe_at pf;
  KASSERT (pf_dirty x) "pframe_is_dirty(pf)";;
  KASSERT (pf_pincount x =? 0) "pf->pf_pincount == 0";;
  pframe_clear_dirty pf;;
  pframe_remove_from_pts pf;;
  pframe_set_busy pf;;
  o ← deref (pf_obj x) "pf->pf_obj";
  ret ← o_cleanpage ops o pf;
  (if ret <? 0 then pframe_set_dirty pf else mret ());;
  pframe_clear_busy pf;;
  lift (sched_broadcast_on (pf_waitq pf));;
  mret ret.

Definition pframe_migrate (pf : pfptr) (dest : optr) : V () :=
  x ← pframe_at pf;
  KASSERT (negb (pf_busy x)) "!pframe_is_busy(pf)";;
  r ← pframe_get_resident dest (pf_pagenum x);
  match r with
  | Some _ => pframe_unpin pf;; pframe_clean pf;; pframe_free pf
  | None =>
      src ← deref (pf_obj x) "pf->pf_obj";
      upd_pframe pf (with_pfobj (Some dest));;
      remove_hlink pf;;
      remove_olink pf;;
      upd_mmobj src (with_nrespages (λ n, n - 1));;
      o_put ops src;;
      modify (set_hash (λ h, <[hash_page dest (pf_pagenum x) :=
        pf :: default [] (h !! hash_page dest (pf_pagenum x))]> h));;
      upd_mmobj dest (with_respages (λ l, pf :: l));;
      upd_mmobj dest (with_nrespages (λ n, n + 1));;
      o_ref ops dest
  end.
End with_ops.
End pframe.
