(* ===== verification/Mmobj.v ===== *)
(** * Memory objects (anon.c, shadow.c)

    Anonymous and shadow objects, and the table of operations through which
    page frames and address spaces call them. *)

From S2P Require Import Prelude Kstate Sched Vmstate Pframe.
Local Open Scope Z_scope.

(** [memcpy] and [memset] on whole pages of physical memory. *)
Definition copy_page (dst src : Z) (m : Z → Z) : Z → Z :=
  λ a, if decide (dst <= a < dst + PAGE_SIZE) then m (src + (a - dst)) else m a.
Definition zero_page (dst : Z) (m : Z → Z) : Z → Z :=
  λ a, if decide (dst <= a < dst + PAGE_SIZE) then 0 else m a.

Section create.
Context `{VmEnv}.

Definition anon_create : V optr :=
  s ← get;
  o ← deref (slab_alloc_mmobj anon_mmobj_ops s) "anon_obj";
  modify (set_mmobjs (insert o (with_refcount (λ _, 1) (mmobj_init anon_mmobj_ops))));;
  mret o.

Definition shadow_create : V optr :=
  s ← get;
  o ← deref (slab_alloc_mmobj shadow_mmobj_ops s) "shad_obj";
  modify (set_mmobjs (insert o (with_refcount (λ _, 1) (mmobj_init shadow_mmobj_ops))));;
  mret o.
End create.

Definition anon_ref (o : optr) : V () :=
  x ← mmobj_at o;
  KASSERT ((0 <? mmo_refcount x) && bool_decide (mmo_ops x = anon_mmobj_ops))
    "o && (0 < o->mmo_refcount) && (&anon_mmobj_ops == o->mmo_ops)";;
  upd_mmobj o (with_refcount (λ n, n + 1)).

Definition shadow_ref (o : optr) : V () :=
  x ← mmobj_at o;
  KASSERT ((0 <? mmo_refcount x) && bool_decide (mmo_ops x = shadow_mmobj_ops))
    "o && (0 < o->mmo_refcount) && (&shadow_mmobj_ops == o->mmo_ops)";;
  upd_mmobj o (with_refcount (λ n, n + 1)).

Section ops.
Context `{VmEnv} `{Machine} `{Errno} (ops : vtable).

Fixpoint anon_uncache (l : list pfptr) : V () :=
  match l with
  | [] => mret ()
  | pf :: l' =>
      x ← pframe_at pf;
      (if negb (pf_dirty x) then pframe_free ops pf
       else _ ← pframe_clean ops pf; pframe_free ops pf);;
      anon_uncache l'
  end.

(** The decrement after [slab_obj_free] has no effect on a live object. *)
Definition anon_put (o : optr) : V () :=
  x ← mmobj_at o;
  KASSERT ((0 <? mmo_refcount x) && bool_decide (mmo_ops x = anon_mmobj_ops))
    "o && (0 < o->mmo_refcount) && (&anon_mmobj_ops == o->mmo_ops)";;
  if negb (mmo_refcount x =? mmo_nrespages x + 1) then
    upd_mmobj o (with_refcount (λ n, n - 1))
  else
    anon_uncache (mmo_respages x);;
    modify (set_mmobjs (delete o)).

Definition anon_lookuppage (o : optr) (pagenum forwrite : Z) : V (Z * option pfptr) :=
  pframe_get ops o pagenum.

Definition anon_fillpage (o : optr) (pf : pfptr) : V Z :=
  x ← pframe_at pf;
  KASSERT (pf_busy x) "pframe_is_busy(pf)";;
  KASSERT (negb (pframe_is_pinned x)) "!pframe_is_pinned(pf)";;
  pframe_pin pf;;
  modify (set_mem (zero_page (pf_addr x)));;
  pframe_unpin pf;;
  mret 0.

Definition anon_dirtypage (o : optr) (pf : pfptr) : V Z := pframe_set_dirty pf;; mret 1.
Definition anon_cleanpage (o : optr) (pf : pfptr) : V Z := pframe_clear_dirty pf;; mret 1.

Fixpoint shadow_uncache (l : list pfptr) : V () :=
  match l with
  | [] => mret ()
  | pf :: l' =>
      pframe_unpin pf;;
      _ ← pframe_clean ops pf;
      pframe_free ops pf;;
      shadow_uncache l'
  end.

Definition shadow_put (o : optr) : V () :=
  x ← mmobj_at o;
  KASSERT ((0 <? mmo_refcount x) && bool_decide (mmo_ops x = shadow_mmobj_ops))
    "o && (0 < o->mmo_refcount) && (&shadow_mmobj_ops == o->mmo_ops)";;
  if negb (mmo_refcount x =? mmo_nrespages x + 1) then
    upd_mmobj o (with_refcount (λ n, n - 1))
  else
    shadow_uncache (mmo_respages x);;
    y ← mmobj_at o;
    sh ← deref (mmo_shadowed y) "o->mmo_shadowed";
    o_put ops sh;;
    modify (set_mmobjs (delete o)).

(** The loop of [shadow_lookuppage]: down the chain from [o], as long as
    objects are shadow objects, to the first one with the page resident; what
    is returned is that page or the object at the bottom. *)
Fixpoint lookup_chain (fuel : nat) (o : optr) (pagenum : Z) : V (pfptr + optr) :=
  x ← mmobj_at o;
  match mmo_shadowed x with
  | None => mret (inr o)
  | Some next =>
      r ← pframe_get_resident o pagenum;
      match r with
      | Some pf => mret (inl pf)
      | None => match fuel with
                | O => idle
                | S fuel' => lookup_chain fuel' next pagenum
                end
      end
  end.

Definition shadow_dirtypage (o : optr) (pf : pfptr) : V Z := pframe_set_dirty pf;; mret 0.

Definition shadow_lookuppage (o : optr) (pagenum forwrite : Z) : V (Z * option pfptr) :=
  if negb (forwrite =? 1) then
    s ← get;
    r ← lookup_chain (size (mmobjs s)) o pagenum;
    match r with
    | inl pf => mret (0, Some pf)
    | inr shad_next =>
        '(retVal, pf) ← pframe_lookup ops shad_next pagenum 0;
        if retVal <? 0 then mret (retVal, pf)
        else
          p ← deref pf "NULL != (*pf)";
          x ← pframe_at p;
          KASSERT ((pagenum =? pf_pagenum x) && negb (pf_busy x))
            "(pagenum == (*pf)->pf_pagenum) && (!pframe_is_busy(*pf))";;
          mret (0, Some p)
    end
  else
    r ← pframe_get_resident o pagenum;
    match r with
    | None =>
        '(retVal, pf) ← pframe_get ops o pagenum;
        if negb (retVal =? 0) then mret (retVal, pf)
        else
          p ← deref pf "*pf";
          shadow_dirtypage o p;;
          mret (0, Some p)
    | Some pf => mret (0, Some pf)
    end.

(** The loop of [shadow_fillpage]: the first object strictly below [o] that
    has the page resident. *)
Fixpoint fill_chain (fuel : nat) (o : optr) (pagenum : Z) : V (option pfptr) :=
  x ← mmobj_at o;
  match mmo_shadowed x with
  | None => mret None
  | Some next =>
      r ← pframe_get_resident next pagenum;
      match r with
      | Some pf => mret (Some pf)
      | None => match fuel with
                | O => idle
                | S fuel' => fill_chain fuel' next pagenum
                end
      end
  end.

Definition shadow_fillpage (o : optr) (pf : pfptr) : V Z :=
  x ← pframe_at pf;
  KASSERT (pf_busy x) "pframe_is_busy(pf)";;
  KASSERT (negb (pframe_is_pinned x)) "!pframe_is_pinned(pf)";;
  s ← get;
  r ← fill_chain (size (mmobjs s)) o (pf_pagenum x);
  match r with
  | Some pf_temp =>
      pframe_pin pf;;
      y ← pframe_at pf_temp;
      modify (set_mem (copy_page (pf_addr x) (pf_addr y)));;
      mret 0
  | None =>
      ob ← mmobj_at o;
      b ← match mmo_un ob with
          | mmo_bottom_obj b => mret b
          | mmo_vmas _ => panic "mmo_un.mmo_bottom_obj"
          end;
      '(retVal, pft) ← pframe_lookup ops b (pf_pagenum x) 0;
      if negb (retVal =? 0) then mret retVal
      else
        pf_temp ← deref pft "pf_temp";
        pframe_pin pf;;
        y ← pframe_at pf_temp;
        modify (set_mem (copy_page (pf_addr x) (pf_addr y)));;
        mret 0
  end.

Definition shadow_cleanpage (o : optr) (pf : pfptr) : V Z :=
  x ← pframe_at pf;
  '(_, pft) ← o_lookuppage ops o (pf_pagenum x) 1;
  pf_temp ← deref pft "pf_temp";
  y ← pframe_at pf_temp;
  modify (set_mem (copy_page (pf_addr y) (pf_addr x)));;
  pframe_clear_dirty pf_temp;;
  mret 0.

(** Calling through [o->mmo_ops]; [vnode_ops] are the operations of the
    objects that back files. *)
Definition dispatch (vnode_ops : vtable) : vtable := {|
  o_ref := λ o, x ← mmobj_at o;
    match mmo_ops x with
    | shadow_mmobj_ops => shadow_ref o
    | anon_mmobj_ops => anon_ref o
    | vnode_mmobj_ops _ => o_ref vnode_ops o
    end;
  o_put := λ o, x ← mmobj_at o;
    match mmo_ops x with
    | shadow_mmobj_ops => shadow_put o
    | anon_mmobj_ops => anon_put o
    | vnode_mmobj_ops _ => o_put vnode_ops o
    end;
  o_lookuppage := λ o n w, x ← mmobj_at o;
    match mmo_ops x with
    | shadow_mmobj_ops => shadow_lookuppage o n w
    | anon_mmobj_ops => anon_lookuppage o n w
    | vnode_mmobj_ops _ => o_lookuppage vnode_ops o n w
    end;
  o_fillpage := λ o pf, x ← mmobj_at o;
    match mmo_ops x with
    | shadow_mmobj_ops => shadow_fillpage o pf
    | anon_mmobj_ops => anon_fillpage o pf
    | vnode_mmobj_ops _ => o_fillpage vnode_ops o pf
    end;
  o_dirtypage := λ o pf, x ← mmobj_at o;
    match mmo_ops x with
    | shadow_mmobj_ops => shadow_dirtypage o pf
    | anon_mmobj_ops => anon_dirtypage o pf
    | vnode_mmobj_ops _ => o_dirtypage vnode_ops o pf
    end;
  o_cleanpage := λ o pf, x ← mmobj_at o;
    match mmo_ops x with
    | shadow_mmobj_ops => shadow_cleanpage o pf
    | anon_mmobj_ops => anon_cleanpage o pf
    | vnode_mmobj_ops _ => o_cleanpage vnode_ops o pf
    end |}.
End ops.

Definition no_ops : vtable := {|
  o_ref := λ _, idle; o_put := λ _, idle; o_lookuppage := λ _ _ _, idle;
  o_fillpage := λ _ _, idle; o_dirtypage := λ _ _, idle; o_cleanpage := λ _ _, idle |}.

(** The objects' operations call page frame operations, which call the
    operations of the same and of other objects; [mmobj_table n] allows for
    [n] nested calls through the table. *)
Fixpoint mmobj_table `{VmEnv} `{Machine} `{Errno} (vnode_ops : vtable) (n : nat) : vtable :=
  match n with
  | O => no_ops
  | S n' => dispatch (mmobj_table vnode_ops n') vnode_ops
  end.
