(* ===== verification/Vmmap.v ===== *)
(** * Address spaces (vmmap.c)

    The sorted list of areas of an address space: inserting, finding a free
    range, looking up, cloning, mapping, removing, and copying to and from
    the pages mapped. *)

From S2P Require Import Prelude Kstate Sched Vmstate Pframe Mmobj.
Local Open Scope Z_scope.

Inductive vmmap_dir := VMMAP_DIR_HILO | VMMAP_DIR_LOHI.

Section vmmap.
Context `{VmEnv} `{Machine} `{Errno} (ops : vtable).

Definition PN_LOW : Z := ADDR_TO_PN USER_MEM_LOW.
Definition PN_HIGH : Z := ADDR_TO_PN USER_MEM_HIGH.

(** The fields that are not set read as zero and NULL. *)
Definition vmarea_alloc : V (option vmarea) :=
  s ← get;
  match slab_alloc_vmarea s with
  | Some a => mret (Some (Vmarea a 0 0 0 0 0 None None))
  | None => mret None
  end.

Definition vmmap_create : V (option vmid) :=
  s ← get;
  match slab_alloc_vmmap s with
  | Some m => modify (set_vmaps (insert m (Vmmap [] None)));; mret (Some m)
  | None => mret None
  end.

(** [list_remove(&vma->vma_olink)] and [list_remove(&vma->vma_plink)]. *)
Definition unlink_area (u : mmo_union) (a : aptr) : mmo_union :=
  match u with
  | mmo_vmas l => mmo_vmas (filter (λ b, b ≠ a) l)
  | mmo_bottom_obj o => mmo_bottom_obj o
  end.
Definition vma_olink_remove (a : aptr) : V () :=
  modify (set_mmobjs (fmap (λ o, with_un (unlink_area (mmo_un o) a) o))).
Definition vma_plink_remove (map : vmid) (a : aptr) : V () :=
  upd_vmmap map (with_list (filter (λ v, vma_id v ≠ a))).

(** Replacing the area [a] on the list of [map]. *)
Definition replace_area (a : aptr) (l' : list vmarea) (l : list vmarea) : list vmarea :=
  concat (map (λ v, if decide (vma_id v = a) then l' else [v]) l).

(** The areas mapping an object: [obj->mmo_un.mmo_vmas]. *)
Definition upd_vmas (o : optr) (f : list aptr → list aptr) : V () :=
  x ← mmobj_at o;
  match mmo_un x with
  | mmo_vmas l => upd_mmobj o (with_un (mmo_vmas (f l)))
  | mmo_bottom_obj _ => panic "mmo_un.mmo_vmas"
  end.

(** Taking an area out of the address space and dropping its reference. *)
Definition release_area (map : vmid) (iter : vmarea) : V () :=
  vma_olink_remove (vma_id iter);;
  vma_plink_remove map (vma_id iter);;
  o ← deref (vma_obj iter) "iter->vma_obj";
  o_put ops o.

Fixpoint destroy_areas (map : vmid) (l : list vmarea) : V () :=
  match l with
  | [] => mret ()
  | iter :: l' => release_area map iter;; destroy_areas map l'
  end.

Definition vmmap_destroy (map : vmid) : V () :=
  m ← vmmap_at map;
  destroy_areas map (vmm_list m);;
  modify (set_vmaps (delete map)).

(** Before the first area that does not start below the new one. *)
Fixpoint insert_sorted (newvma : vmarea) (l : list vmarea) : list vmarea :=
  match l with
  | [] => [newvma]
  | iter :: l' =>
      if vma_start newvma <=? vma_start iter then newvma :: l
      else iter :: insert_sorted newvma l'
  end.

Definition vmmap_insert (map : vmid) (newvma : vmarea) : V () :=
  KASSERT (bool_decide (vma_vmmap newvma = None)) "NULL == newvma->vma_vmmap";;
  KASSERT (vma_start newvma <? vma_end newvma) "newvma->vma_start < newvma->vma_end";;
  KASSERT ((PN_LOW <=? vma_start newvma) && (vma_end newvma <=? PN_HIGH))
    "ADDR_TO_PN(USER_MEM_LOW) <= newvma->vma_start && ADDR_TO_PN(USER_MEM_HIGH) >= newvma->vma_end";;
  upd_vmmap map (with_list (insert_sorted (with_vmmap (Some map) newvma))).

(** The two loops of [vmmap_find_range]: [retVal] and [holder] after them;
    [retVal] is -1 when the loop ran to the end. *)
Fixpoint scan_hilo (npages : Z) (holder : option vmarea) (l : list vmarea) : Z * option vmarea :=
  match l with
  | [] => (-1, holder)
  | iter :: l' =>
      match holder with
      | None =>
          if npages <=? u32 (PN_HIGH - vma_end iter) then (int32 (u32 (PN_HIGH - npages)), holder)
          else scan_hilo npages (Some iter) l'
      | Some h =>
          if npages <=? u32 (vma_start h - vma_end iter) then (int32 (u32 (vma_start h - npages)), holder)
          else scan_hilo npages (Some iter) l'
      end
  end.

Fixpoint scan_lohi (npages : Z) (holder : option vmarea) (l : list vmarea) : Z * option vmarea :=
  match l with
  | [] => (-1, holder)
  | iter :: l' =>
      match holder with
      | None =>
          if npages <=? u32 (vma_start iter - PN_LOW) then (int32 PN_LOW, holder)
          else scan_lohi npages (Some iter) l'
      | Some h =>
          if npages <=? u32 (vma_start iter - vma_end h) then (int32 (vma_end h), holder)
          else scan_lohi npages (Some iter) l'
      end
  end.

Definition vmmap_find_range (map : vmid) (npages : Z) (dir : vmmap_dir) : V Z :=
  m ← vmmap_at map;
  match dir with
  | VMMAP_DIR_HILO =>
      let '(retVal, holder) := scan_hilo npages None (reverse (vmm_list m)) in
      if retVal <? 0 then
        h ← deref holder "holder";
        if npages <=? u32 (vma_start h - PN_LOW) then mret (int32 (u32 (vma_start h - npages)))
        else mret retVal
      else mret retVal
  | VMMAP_DIR_LOHI =>
      let '(retVal, holder) := scan_lohi npages None (vmm_list m) in
      if retVal <? 0 then
        if bool_decide (holder = None) && (npages <=? u32 (PN_HIGH - PN_LOW)) then mret (int32 PN_LOW)
        else
          h ← deref holder "holder";
          if npages <=? u32 (PN_HIGH - vma_end h) then mret (int32 (vma_end h)) else mret retVal
      else mret retVal
  end.

Fixpoint lookup_area (vfn : Z) (l : list vmarea) : option vmarea :=
  match l with
  | [] => None
  | iter :: l' =>
      if (vma_start iter <=? vfn) && (vfn <? vma_end iter) then Some iter else lookup_area vfn l'
  end.

Definition vmmap_lookup (map : vmid) (vfn : Z) : V (option vmarea) :=
  m ← vmmap_at map; mret (lookup_area vfn (vmm_list m)).

Fixpoint clone_areas (ret_map : vmid) (l : list vmarea) : V () :=
  match l with
  | [] => mret ()
  | iter :: l' =>
      r ← vmarea_alloc;
      area ← deref r "area";
      upd_vmmap ret_map (with_list (λ k, k ++
        [Vmarea (vma_id area) (vma_start iter) (vma_end iter) (vma_off iter) (vma_prot iter)
           (vma_flags iter) (Some ret_map) (vma_obj area)]));;
      clone_areas ret_map l'
  end.

Definition vmmap_clone (map : vmid) : V (option vmid) :=
  r ← vmmap_create;
  m ← vmmap_at map;
  match vmm_list m with
  | [] => mret r
  | l => ret_map ← deref r "ret_map"; clone_areas ret_map l;; mret (Some ret_map)
  end.

Fixpoint range_empty (startvfn sum_pages : Z) (l : list vmarea) : Z :=
  match l with
  | [] => 1
  | iter :: l' =>
      if startvfn <? vma_end iter then
        if sum_pages <=? vma_start iter then range_empty startvfn sum_pages l' else 0
      else range_empty startvfn sum_pages l'
  end.

Definition vmmap_is_range_empty (map : vmid) (startvfn npages : Z) : V Z :=
  let sum_pages := u32 (startvfn + npages) in
  m ← vmmap_at map;
  KASSERT ((startvfn <? sum_pages) && (PN_LOW <=? startvfn) && (sum_pages <=? PN_HIGH))
    "(startvfn < endvfn) && (ADDR_TO_PN(USER_MEM_LOW) <= startvfn) && (ADDR_TO_PN(USER_MEM_HIGH) >= endvfn)";;
  mret (range_empty startvfn sum_pages (vmm_list m)).

(** Setting [vma_obj] of two areas. *)
Definition set_objs (a1 : aptr) (o1 : optr) (a2 : aptr) (o2 : optr) (v : vmarea) : vmarea :=
  if decide (vma_id v = a1) then with_obj (Some o1) v
  else if decide (vma_id v = a2) then with_obj (Some o2) v else v.

(** The second half of case 1 of [vmmap_remove]: the areas [iter] and [area],
    which share [object], get a shadow object of their own each. *)
Definition share_object (m : vmid) (iter area : aptr) (object : optr) : V () :=
  first_shad ← shadow_create;
  second_shad ← shadow_create;
  upd_vmmap m (with_list (map (set_objs iter first_shad area second_shad)));;
  s ← get;
  let b := mmobj_bottom_obj (mmobjs s) first_shad in
  upd_mmobj second_shad (with_un (mmo_bottom_obj b));;
  upd_mmobj first_shad (with_un (mmo_bottom_obj b));;
  upd_mmobj first_shad (with_shadowed (Some object));;
  upd_mmobj second_shad (with_shadowed (Some object));;
  o_ref ops object;;
  s' ← get;
  upd_vmas (mmobj_bottom_obj (mmobjs s') object) (λ l, l ++ [area]).

(** Case 1 of [vmmap_remove]: [iter] is split around the region. *)
Definition split_area (m : vmid) (lopage sum_pages : Z) (iter : vmarea) : V () :=
  r ← vmarea_alloc;
  area ← deref r "area";
  let iter' := with_range (vma_start iter) lopage (vma_off iter) iter in
  let area' := Vmarea (vma_id area) sum_pages (vma_end iter)
    (u32 (vma_off iter + sum_pages - vma_start iter)) (vma_prot iter) (vma_flags iter)
    (Some m) (vma_obj iter) in
  upd_vmmap m (with_list (replace_area (vma_id iter) [iter'; area']));;
  object ← deref (vma_obj iter) "object";
  share_object m (vma_id iter) (vma_id area) object.

(** One iteration of the loop of [vmmap_remove]. *)
Definition remove_from_area (map : vmid) (lopage sum_pages : Z) (iter : vmarea) : V () :=
  if vma_start iter <? lopage then
    if sum_pages <? vma_end iter then split_area map lopage sum_pages iter
    else if (lopage <? vma_end iter) && (vma_end iter <=? sum_pages) then
      upd_vmmap map (with_list (replace_area (vma_id iter)
        [with_range (vma_start iter) lopage (vma_off iter) iter]))
    else mret ()
  else
    if vma_end iter <=? sum_pages then release_area map iter
    else if (sum_pages <? vma_end iter) && (vma_start iter <? sum_pages) then
      upd_vmmap map (with_list (replace_area (vma_id iter)
        [with_range sum_pages (vma_end iter)
           (u32 (vma_off iter + sum_pages - vma_start iter)) iter]))
    else mret ().

Fixpoint remove_areas (map : vmid) (lopage sum_pages : Z) (l : list vmarea) : V () :=
  match l with
  | [] => mret ()
  | iter :: l' => remove_from_area map lopage sum_pages iter;; remove_areas map lopage sum_pages l'
  end.

Definition vmmap_remove (map : vmid) (lopage npages : Z) : V Z :=
  let sum_pages := u32 (lopage + npages) in
  m ← vmmap_at map;
  remove_areas map lopage sum_pages (vmm_list m);;
  cp ← lift cur_proc;
  p ← lift (proc_at cp);
  pd ← deref (p_pagedir p) "curproc->p_pagedir";
  modify (set_pts (pt_unmap_range pd (PN_TO_ADDR lopage) (PN_TO_ADDR sum_pages)));;
  mret 0.

Definition vmmap_map (map : vmid) (file : option vnptr) (lopage npages prot flags off : Z)
    (dir : vmmap_dir) : V (Z * option vmarea) :=
  KASSERT (0 <? npages) "0 < npages";;
  KASSERT (negb (Z.land MAP_SHARED flags =? 0) || negb (Z.land MAP_PRIVATE flags =? 0))
    "(MAP_SHARED & flags) || (MAP_PRIVATE & flags)";;
  KASSERT ((0 =? lopage) || (PN_LOW <=? lopage)) "(0 == lopage) || (ADDR_TO_PN(USER_MEM_LOW) <= lopage)";;
  KASSERT ((0 =? lopage) || (u32 (lopage + npages) <=? PN_HIGH))
    "(0 == lopage) || (ADDR_TO_PN(USER_MEM_HIGH) >= (lopage + npages))";;
  KASSERT (PAGE_ALIGNED off) "PAGE_ALIGNED(off)";;
  r ← vmarea_alloc;
  lo ← (if negb (lopage =? 0) then
          res ← vmmap_is_range_empty map lopage npages;
          (if res =? 0 then _ ← vmmap_remove map lopage npages; mret () else mret ());;
          mret lopage
        else vmmap_find_range map npages dir);
  if lo =? -1 then mret (-1, None)
  else
    ar ← deref r "area";
    let area := Vmarea (vma_id ar) lo (u32 (lo + npages)) (ADDR_TO_PN off) prot flags
      (vma_vmmap ar) None in
    obj ← match file with
          | Some f => '(_, o) ← vn_mmap f area; mret o
          | None => o ← anon_create; mret (Some o)
          end;
    if Z.land flags MAP_PRIVATE =? 0 then
      o ← deref obj "obj";
      upd_vmas o (λ l, vma_id area :: l);;
      vmmap_insert map (with_obj (Some o) area);;
      mret (0, Some (with_vmmap (Some map) (with_obj (Some o) area)))
    else
      shad_obj ← shadow_create;
      upd_mmobj shad_obj (with_shadowed obj);;
      o ← deref obj "new_bottom";
      upd_mmobj shad_obj (with_un (mmo_bottom_obj o));;
      upd_vmas o (λ l, vma_id area :: l);;
      vmmap_insert map (with_obj (Some shad_obj) area);;
      mret (0, Some (with_vmmap (Some map) (with_obj (Some shad_obj) area))).

(** [memcpy] between a buffer, a list of bytes, and physical memory. *)
Definition mem_read (a n : Z) (s : vst) : list Z := (λ i, mem s (a + i)) <$> seqZ 0 n.
Definition mem_write (a : Z) (bytes : list Z) (m : Z → Z) : Z → Z :=
  λ x, if decide (0 <= x - a < Z.of_nat (length bytes)) then default 0 (bytes !! Z.to_nat (x - a)) else m x.

(** The frame of page [vfn] of the address space. *)
Definition frame_of (map : vmid) (vfn : Z) : V (Z * pfptr) :=
  r ← vmmap_lookup map vfn;
  area ← deref r "area";
  o ← deref (vma_obj area) "area->vma_obj";
  '(result, f) ← pframe_lookup ops o (u32 (vfn - vma_start area + vma_off area)) 1;
  frame ← deref f "frame";
  mret (result, frame).

(** The pages [curr_page] to the last one, [n] of them; [size] bytes are
    copied from the start of each. *)
Fixpoint read_pages (map : vmid) (n : nat) (curr_page size : Z) : V (list Z) :=
  match n with
  | O => mret []
  | S n' =>
      '(_, f) ← frame_of map curr_page;
      x ← pframe_at f;
      s ← get;
      let bytes := mem_read (pf_addr x) size s in
      rest ← read_pages map n' (curr_page + 1) size;
      mret (bytes ++ rest)
  end.

(** The result is the value returned, always 0, and what was stored in
    [buf]. *)
Definition vmmap_read (map : vmid) (vaddr count : Z) : V (Z * list Z) :=
  let vend := u32 (vaddr + count) in
  if ADDR_TO_PN vaddr =? ADDR_TO_PN vend then
    '(_, f) ← frame_of map (ADDR_TO_PN vaddr);
    x ← pframe_at f;
    s ← get;
    mret (0, mem_read (pf_addr x + PAGE_OFFSET vaddr) count s)
  else
    let curr_page := ADDR_TO_PN vaddr in
    if curr_page <=? ADDR_TO_PN vend then
      '(_, f) ← frame_of map curr_page;
      x ← pframe_at f;
      s ← get;
      let first := mem_read (pf_addr x + PAGE_OFFSET vaddr) (PAGE_SIZE - PAGE_OFFSET vaddr) s in
      rest ← read_pages map (Z.to_nat (ADDR_TO_PN vend - curr_page)) (curr_page + 1) (PAGE_OFFSET vend);
      mret (0, first ++ rest)
    else mret (0, []).

Fixpoint write_pages (map : vmid) (n : nat) (curr_page size : Z) (buf : list Z) : V () :=
  match n with
  | O => mret ()
  | S n' =>
      '(_, f) ← frame_of map curr_page;
      x ← pframe_at f;
      modify (set_mem (mem_write (pf_addr x) (take (Z.to_nat size) buf)));;
      _ ← pframe_dirty ops f;
      write_pages map n' (curr_page + 1) size (drop (Z.to_nat size) buf)
  end.

Definition vmmap_write (map : vmid) (vaddr : Z) (buf : list Z) (count : Z) : V Z :=
  let vlast := u32 (vaddr - 1 + count) in
  if ADDR_TO_PN vaddr =? ADDR_TO_PN vlast then
    '(_, f) ← frame_of map (ADDR_TO_PN vaddr);
    x ← pframe_at f;
    modify (set_mem (mem_write (pf_addr x + PAGE_OFFSET vaddr) (take (Z.to_nat count) buf)));;
    _ ← pframe_dirty ops f;
    mret 0
  else
    let curr_page := ADDR_TO_PN vaddr in
    if curr_page <=? ADDR_TO_PN vlast then
      let n := PAGE_SIZE - PAGE_OFFSET vaddr in
      '(_, f) ← frame_of map curr_page;
      x ← pframe_at f;
      modify (set_mem (mem_write (pf_addr x + PAGE_OFFSET vaddr) (take (Z.to_nat n) buf)));;
      _ ← pframe_dirty ops f;
      write_pages map (Z.to_nat (ADDR_TO_PN vlast - curr_page)) (curr_page + 1) (PAGE_OFFSET vlast)
        (drop (Z.to_nat n) buf);;
      mret 0
    else mret 0.
End vmmap.
