(* ===== verification/Areas.v ===== *)
(** * Sorted, disjoint areas

    What the pure parts of vmmap.c do to the list of areas of an address
    space, seen page by page. *)

From S2P Require Import Prelude Kstate Vmstate Pframe Mmobj Vmmap.
Local Open Scope Z_scope.

Create HintDb areas.

(** Page [v] lies in the area [a]. *)
Definition covers (a : vmarea) (v : Z) : Prop := vma_start a <= v < vma_end a.

#[global] Instance covers_dec a v : Decision (covers a v).
Proof. unfold covers. apply _. Defined.

(** The areas are non-empty, sorted and disjoint, and lie within [lo, hi). *)
Fixpoint areas_in (lo hi : Z) (l : list vmarea) : Prop :=
  match l with
  | [] => lo <= hi
  | a :: l' => lo <= vma_start a < vma_end a ∧ areas_in (vma_end a) hi l'
  end.

#[global] Instance areas_in_dec lo hi l : Decision (areas_in lo hi l).
Proof. revert lo. induction l as [|a l IH]; intros lo; simpl; apply _. Defined.

Lemma areas_in_le lo hi l : areas_in lo hi l → lo <= hi.
Proof. revert lo. induction l as [|a l IH]; simpl; [done|]. intros lo [H1 H2%IH]. lia. Qed.

Lemma areas_in_mono lo lo' hi hi' l :
  lo' <= lo → hi <= hi' → areas_in lo hi l → areas_in lo' hi' l.
Proof.
  revert lo lo'. induction l as [|a l IH]; simpl; [lia|]. intros lo lo' H1 H2 [H3 H4].
  split; [lia|]. by apply (IH (vma_end a)).
Qed.

Lemma areas_in_elem lo hi l a :
  areas_in lo hi l → a ∈ l → lo <= vma_start a < vma_end a ∧ vma_end a <= hi.
Proof.
  revert lo. induction l as [|b l IH]; simpl; intros lo Hl Ha; [by apply elem_of_nil in Ha|].
  destruct Hl as [Hb Hl]. apply elem_of_cons in Ha as [->|Ha].
  - apply areas_in_le in Hl. lia.
  - specialize (IH _ Hl Ha). lia.
Qed.

Lemma areas_in_app lo hi l1 l2 :
  areas_in lo hi (l1 ++ l2) ↔ ∃ mid, areas_in lo mid l1 ∧ areas_in mid hi l2.
Proof.
  revert lo. induction l1 as [|a l1 IH]; intros lo; simpl.
  - split; [intros Hl; exists lo; split; [lia|done]|].
    intros (mid & Hm & Hl). by apply (areas_in_mono mid lo hi hi).
  - rewrite IH. split.
    + intros [Ha (mid & H1 & H2)]. by exists mid.
    + intros (mid & [Ha H1] & H2). split; [done|]. by exists mid.
Qed.

(** Looking up a page. *)
Lemma lookup_area_Some v l a : lookup_area v l = Some a → a ∈ l ∧ covers a v.
Proof.
  induction l as [|b l IH]; simpl; [done|].
  destruct (Z.leb_spec (vma_start b) v); destruct (Z.ltb_spec v (vma_end b)); simpl;
    try (intros Hl; destruct (IH Hl); split; [by right|done]).
  intros [= ->]. split; [by left|]. unfold covers. lia.
Qed.

Lemma lookup_area_None v l : lookup_area v l = None ↔ ∀ a, a ∈ l → ¬ covers a v.
Proof.
  induction l as [|b l IH]; simpl.
  - split; [|done]. intros _ a Ha. by apply elem_of_nil in Ha.
  - destruct (Z.leb_spec (vma_start b) v); destruct (Z.ltb_spec v (vma_end b)); simpl.
    2-4: rewrite IH; split; [intros Hl a [->|Ha]%elem_of_cons; [unfold covers; lia|auto]|
      intros Hl a Ha; apply Hl; by right].
    split; [done|]. intros Hl. destruct (Hl b); [by left|]. unfold covers. lia.
Qed.

(** Disjointness makes the area that covers a page unique. *)
Lemma areas_unique lo hi l a b v :
  areas_in lo hi l → a ∈ l → b ∈ l → covers a v → covers b v → a = b.
Proof.
  revert lo. induction l as [|c l IH]; intros lo Hl Ha Hb Hva Hvb; [by apply elem_of_nil in Ha|].
  destruct Hl as [Hc Hl]. unfold covers in *.
  apply elem_of_cons in Ha as [->|Ha]; apply elem_of_cons in Hb as [->|Hb]; auto.
  - destruct (areas_in_elem _ _ _ _ Hl Hb). lia.
  - destruct (areas_in_elem _ _ _ _ Hl Ha). lia.
  - by apply (IH (vma_end c)).
Qed.

Lemma lookup_area_covers lo hi l a v :
  areas_in lo hi l → a ∈ l → covers a v → lookup_area v l = Some a.
Proof.
  intros Hl Ha Hv. destruct (lookup_area v l) as [b|] eqn:Hb.
  - apply lookup_area_Some in Hb as [Hb Hvb]. f_equal. symmetry. by eapply areas_unique.
  - by destruct (proj1 (lookup_area_None v l) Hb a).
Qed.

(** ** Insertion *)

Lemma insert_sorted_elem n l a : a ∈ insert_sorted n l ↔ a = n ∨ a ∈ l.
Proof.
  induction l as [|b l IH]; simpl; [rewrite list_elem_of_singleton, elem_of_nil; tauto|].
  destruct (Z.leb_spec (vma_start n) (vma_start b)); rewrite !elem_of_cons; [tauto|]. rewrite IH. tauto.
Qed.

Lemma insert_sorted_in lo hi n l :
  areas_in lo hi l → lo <= vma_start n < vma_end n → vma_end n <= hi →
  (∀ a v, a ∈ l → covers n v → ¬ covers a v) →
  areas_in lo hi (insert_sorted n l).
Proof.
  revert lo. induction l as [|b l IH]; intros lo Hl Hlo Hhi Hd; simpl; [split; [done|lia]|].
  destruct Hl as [Hb Hl].
  assert (vma_end n <= vma_start b ∨ vma_end b <= vma_start n) as Hcase.
  { destruct (Z.le_gt_cases (vma_end n) (vma_start b)); [by left|].
    destruct (Z.le_gt_cases (vma_end b) (vma_start n)); [by right|].
    exfalso. apply (Hd b (Z.max (vma_start n) (vma_start b))); [by left|unfold covers; lia..]. }
  destruct (Z.leb_spec (vma_start n) (vma_start b)); simpl.
  - split; [done|]. split; [lia|done].
  - split; [done|]. apply IH; [done|lia|done|]. intros a v Ha. apply Hd. by right.
Qed.

Lemma lookup_insert_sorted lo hi n l v :
  areas_in lo hi (insert_sorted n l) →
  lookup_area v (insert_sorted n l) = if decide (covers n v) then Some n else lookup_area v l.
Proof.
  intros Hl. case_decide as Hv.
  - eapply lookup_area_covers; [done| |done]. apply insert_sorted_elem. by left.
  - destruct (lookup_area v l) as [a|] eqn:Ha.
    + apply lookup_area_Some in Ha as [Ha Hav].
      eapply lookup_area_covers; [done| |done]. apply insert_sorted_elem. by right.
    + rewrite lookup_area_None in Ha |- *. intros a [->|Hin]%insert_sorted_elem; auto.
Qed.

(** ** Emptiness of a range *)

(** The area [a] does not meet the pages from [st] up to [en]. *)
Definition apart (st en : Z) (a : vmarea) : Prop := en <= vma_start a ∨ vma_end a <= st.

#[global] Instance apart_dec st en a : Decision (apart st en a).
Proof. unfold apart. apply _. Defined.

Lemma range_empty_spec lo hi l st en :
  areas_in lo hi l → st < en →
  range_empty st en l = if decide (Forall (apart st en) l) then 1 else 0.
Proof.
  revert lo. induction l as [|b l IH]; intros lo Hl Hlt; cbn [range_empty]; [by rewrite decide_True|].
  destruct Hl as [Hb Hl]. rewrite (IH _ Hl Hlt).
  destruct (Z.ltb_spec st (vma_end b)); [destruct (Z.leb_spec en (vma_start b))|].
  2: { rewrite decide_False; [done|]. intros [Ha _]%Forall_cons. unfold apart in Ha. lia. }
  all: apply decide_ext; rewrite Forall_cons; unfold apart; split; [split; [lia|done]|by intros [_ ?]].
Qed.

(** No page of the range is mapped. *)
Lemma range_free_iff lo hi l st en :
  areas_in lo hi l → st < en →
  Forall (apart st en) l ↔ (∀ v, st <= v < en → lookup_area v l = None).
Proof.
  intros Hl Hlt. rewrite Forall_forall. split.
  - intros Ha v Hv. apply lookup_area_None. intros a Hin Hc. unfold covers in Hc.
    destruct (Ha a Hin); lia.
  - intros Hv a Hin. destruct (areas_in_elem _ _ _ _ Hl Hin) as [Ha Ha'].
    destruct (Z.le_gt_cases en (vma_start a)); [by left|].
    destruct (Z.le_gt_cases (vma_end a) st); [by right|]. exfalso.
    assert (lookup_area (Z.max st (vma_start a)) l = None) as Hn by (apply Hv; lia).
    apply (proj1 (lookup_area_None _ _) Hn a Hin). unfold covers. lia.
Qed.

(** ** First fit

    Reference definitions of the search for [n] free pages from [lo] upwards
    and from [hi] downwards. *)

Fixpoint first_gap (n lo hi : Z) (l : list vmarea) : option Z :=
  match l with
  | [] => if decide (lo + n <= hi) then Some lo else None
  | a :: l' => if decide (lo + n <= vma_start a) then Some lo else first_gap n (vma_end a) hi l'
  end.

(** On the reversed list. *)
Fixpoint last_gap (n lo hi : Z) (l : list vmarea) : option Z :=
  match l with
  | [] => if decide (lo + n <= hi) then Some (hi - n) else None
  | a :: l' => if decide (vma_end a + n <= hi) then Some (hi - n) else last_gap n lo (vma_start a) l'
  end.

(** [n] free pages from [r] on. *)
Definition fits (n lo hi : Z) (l : list vmarea) (r : Z) : Prop :=
  lo <= r ∧ r + n <= hi ∧ ∀ a, a ∈ l → r + n <= vma_start a ∨ vma_end a <= r.

Lemma fits_cons n lo hi a l r :
  fits n lo hi (a :: l) r ↔ fits n lo hi l r ∧ (r + n <= vma_start a ∨ vma_end a <= r).
Proof.
  unfold fits. setoid_rewrite elem_of_cons. split.
  - intros (H1 & H2 & H3). split_and!; [done|done|intros b Hb; apply H3; by right|apply H3; by left].
  - intros ((H1 & H2 & H3) & H4). split_and!; [done|done|]. intros b [->|Hb]; auto.
Qed.

Lemma first_gap_Some n lo hi l r :
  0 < n → areas_in lo hi l → first_gap n lo hi l = Some r →
  fits n lo hi l r ∧ ∀ r', fits n lo hi l r' → r <= r'.
Proof.
  intros Hn. revert lo. induction l as [|a l IH]; intros lo Hl; simpl.
  - case_decide; [|done]. intros [= <-]. split; [|by intros r' [? _]].
    split_and!; [lia|done|]. intros a Ha. by apply elem_of_nil in Ha.
  - destruct Hl as [Ha Hl]. case_decide as Hg.
    + intros [= <-]. split; [|by intros r' [? _]]. pose proof (areas_in_le _ _ _ Hl).
      split_and!; [lia|lia|]. intros b Hb. left.
      apply elem_of_cons in Hb as [->|Hb]; [done|]. destruct (areas_in_elem _ _ _ _ Hl Hb). lia.
    + intros Hr. destruct (IH _ Hl Hr) as [(F1 & F2 & F3) Hmin]. split.
      * split_and!; [lia|done|]. intros b Hb. apply elem_of_cons in Hb as [->|Hb]; [by right|auto].
      * intros r' [(G1 & G2 & G3) [Hlow|Hhigh]]%fits_cons; [lia|]. apply Hmin. by split_and!.
Qed.

Lemma first_gap_None n lo hi l :
  0 < n → areas_in lo hi l → first_gap n lo hi l = None → ∀ r, ¬ fits n lo hi l r.
Proof.
  intros Hn. revert lo. induction l as [|a l IH]; intros lo Hl; simpl.
  - case_decide; [done|]. intros _ r (H1 & H2 & _). lia.
  - destruct Hl as [Ha Hl]. case_decide as Hg; [done|]. intros Hr r [(G1 & G2 & G3) [Hlow|Hhigh]]%fits_cons; [lia|].
    apply (IH _ Hl Hr r). by split_and!.
Qed.

(** The reversed list: areas below [hi], downwards. *)
Fixpoint areas_down (lo hi : Z) (l : list vmarea) : Prop :=
  match l with
  | [] => lo <= hi
  | a :: l' => vma_start a < vma_end a <= hi ∧ areas_down lo (vma_start a) l'
  end.

Lemma areas_down_reverse lo hi l : areas_in lo hi l → areas_down lo hi (reverse l).
Proof.
  revert hi. induction l as [|a l IH] using rev_ind; intros hi Hl; [done|].
  rewrite reverse_snoc. apply areas_in_app in Hl as (mid & Hl & Ha & Hm). simpl in *. split; [lia|].
  apply IH. apply (areas_in_mono lo lo mid (vma_start a)); lia || done.
Qed.

Lemma areas_down_elem lo hi l a :
  areas_down lo hi l → a ∈ l → lo <= vma_start a < vma_end a ∧ vma_end a <= hi.
Proof.
  assert (∀ l hi, areas_down lo hi l → lo <= hi) as Hle.
  { clear. induction l as [|b l IH]; simpl; [done|]. intros hi [Hb Hl%IH]. lia. }
  revert hi. induction l as [|b l IH]; simpl; intros hi Hl Ha; [by apply elem_of_nil in Ha|].
  destruct Hl as [Hb Hl]. apply elem_of_cons in Ha as [->|Ha].
  - apply Hle in Hl. lia.
  - specialize (IH _ Hl Ha). lia.
Qed.

Lemma last_gap_Some n lo hi l r :
  0 < n → areas_down lo hi l → last_gap n lo hi l = Some r →
  fits n lo hi l r ∧ ∀ r', fits n lo hi l r' → r' <= r.
Proof.
  intros Hn. revert hi. induction l as [|a l IH]; intros hi Hl; simpl.
  - case_decide; [|done]. intros [= <-]. split; [|intros r' (? & ? & _); lia].
    split_and!; [lia|lia|]. intros a Ha. by apply elem_of_nil in Ha.
  - assert (lo <= vma_start a) as Hlo by (destruct (areas_down_elem lo hi (a :: l) a Hl); [by left|lia]).
    destruct Hl as [Ha Hl]. case_decide as Hg.
    + intros [= <-]. split; [|intros r' (? & ? & _); lia]. split_and!; [lia|lia|].
      intros b Hb. right. apply elem_of_cons in Hb as [->|Hb]; [lia|].
      destruct (areas_down_elem _ _ _ _ Hl Hb). lia.
    + intros Hr. destruct (IH _ Hl Hr) as [(F1 & F2 & F3) Hmax]. split.
      * split_and!; [done|lia|]. intros b Hb. apply elem_of_cons in Hb as [->|Hb]; [by left|auto].
      * intros r' [(G1 & G2 & G3) [Hlow|Hhigh]]%fits_cons; [|lia]. apply Hmax. by split_and!.
Qed.

Lemma last_gap_None n lo hi l :
  0 < n → areas_down lo hi l → last_gap n lo hi l = None → ∀ r, ¬ fits n lo hi l r.
Proof.
  intros Hn. revert hi. induction l as [|a l IH]; intros hi Hl; simpl.
  - case_decide; [done|]. intros _ r (H1 & H2 & _). lia.
  - destruct Hl as [Ha Hl]. case_decide as Hg; [done|]. intros Hr r [(G1 & G2 & G3) [Hlow|Hhigh]]%fits_cons; [|lia].
    apply (IH _ Hl Hr r). by split_and!.
Qed.

(** ** The search of [vmmap_find_range] *)

Section find.
Context `{VmEnv}.

Lemma pn_bounds : 0 < PN_LOW < PN_HIGH ∧ PN_HIGH < 2 ^ 20.
Proof.
  destruct user_mem_bounds as [[H1 H2] H3], user_mem_aligned as [H4 H5].
  unfold PN_LOW, PN_HIGH, ADDR_TO_PN. rewrite !Z.shiftr_div_pow2 by lia.
  apply Z.mod_divide in H4 as [a Ha]; [|lia]. apply Z.mod_divide in H5 as [b Hb]; [|lia].
  rewrite Ha, Hb, !Z.div_mul by lia. lia.
Qed.

Lemma u32_small x : 0 <= x < 2 ^ 32 → u32 x = x.
Proof. apply Z.mod_small. Qed.

Lemma int32_small x : x < 2 ^ 31 → int32 x = x.
Proof. intros Hx. unfold int32. by rewrite (proj2 (Z.ltb_lt _ _)). Qed.

(** The address space holds these areas. *)
Definition areas_wf (l : list vmarea) : Prop := areas_in PN_LOW PN_HIGH l.

#[global] Instance areas_wf_dec l : Decision (areas_wf l).
Proof. unfold areas_wf. apply _. Defined.

Lemma scan_lohi_gap n l : 0 < n → ∀ h, 0 <= vma_end h → areas_in (vma_end h) PN_HIGH l →
  first_gap n (vma_end h) PN_HIGH l =
    let '(r, h') := scan_lohi n (Some h) l in
    if r <? 0 then
      match h' with
      | Some h'' => if n <=? u32 (PN_HIGH - vma_end h'') then Some (vma_end h'') else None
      | None => None
      end
    else Some r.
Proof.
  intros Hn. pose proof pn_bounds as Hb.
  induction l as [|a l IH]; intros h Hh Hl; simpl.
  - simpl in Hl. rewrite u32_small by lia.
    destruct (Z.leb_spec n (PN_HIGH - vma_end h)); case_decide; done || lia.
  - destruct Hl as [Ha Hl]. pose proof (areas_in_le _ _ _ Hl). rewrite u32_small by lia.
    destruct (Z.leb_spec n (vma_start a - vma_end h)); case_decide; try lia.
    + rewrite int32_small by lia. by rewrite (proj2 (Z.ltb_ge _ _)).
    + apply IH; [lia|done].
Qed.

Lemma scan_hilo_gap n l : 0 < n → ∀ h, vma_start h <= PN_HIGH → areas_down PN_LOW (vma_start h) l →
  last_gap n PN_LOW (vma_start h) l =
    let '(r, h') := scan_hilo n (Some h) l in
    if r <? 0 then
      match h' with
      | Some h'' => if n <=? u32 (vma_start h'' - PN_LOW) then Some (vma_start h'' - n) else None
      | None => None
      end
    else Some r.
Proof.
  intros Hn. pose proof pn_bounds as Hb.
  induction l as [|a l IH]; intros h Hh Hl; simpl.
  - simpl in Hl. rewrite u32_small by lia.
    destruct (Z.leb_spec n (vma_start h - PN_LOW)); case_decide; done || lia.
  - assert (PN_LOW <= vma_start a) as Hlo by
      (destruct (areas_down_elem _ _ (a :: l) a Hl); [by left|lia]).
    destruct Hl as [Ha Hl]. rewrite u32_small by lia.
    destruct (Z.leb_spec n (vma_start h - vma_end a)); case_decide; try lia.
    + rewrite u32_small, int32_small by lia. by rewrite (proj2 (Z.ltb_ge _ _)) by lia.
    + apply IH; [lia|done].
Qed.

(** The loops end with an area in [holder] and -1 or a page number. *)
Lemma scan_lohi_end n l : 0 < n → ∀ a, 0 <= vma_end a → areas_in (vma_end a) PN_HIGH l →
  ∃ r h, scan_lohi n (Some a) l = (r, Some h) ∧ 0 <= vma_end h <= PN_HIGH ∧ (r = -1 ∨ 0 <= r).
Proof.
  intros Hn. pose proof pn_bounds as Hb.
  induction l as [|b l IH]; intros a Ha Hl; simpl; [exists (-1), a; simpl in Hl; auto|].
  destruct Hl as [Hb' Hl]. pose proof (areas_in_le _ _ _ Hl). case_match.
  - exists (int32 (vma_end a)), a. rewrite int32_small by lia. split_and!; auto; lia.
  - apply IH; [lia|done].
Qed.

Lemma scan_hilo_end n l : 0 < n → ∀ a, vma_start a <= PN_HIGH → areas_down PN_LOW (vma_start a) l →
  ∃ r h, scan_hilo n (Some a) l = (r, Some h) ∧ PN_LOW <= vma_start h <= PN_HIGH ∧ (r = -1 ∨ 0 <= r).
Proof.
  intros Hn. pose proof pn_bounds as Hb.
  induction l as [|b l IH]; intros a Ha Hl; simpl; [exists (-1), a; simpl in Hl; auto|].
  assert (PN_LOW <= vma_start b) as Hlo by (destruct (areas_down_elem _ _ (b :: l) b Hl); [by left|lia]).
  destruct Hl as [Hb' Hl]. rewrite u32_small by lia.
  destruct (Z.leb_spec n (vma_start a - vma_end b)).
  - rewrite u32_small, int32_small by lia. exists (vma_start a - n), a. split_and!; auto; lia.
  - apply IH; [lia|done].
Qed.

Lemma find_range_lohi m mp n s :
  vmaps s !! m = Some mp → areas_wf (vmm_list mp) → 0 < n →
  vmm_list mp ≠ [] ∨ n <= PN_HIGH - PN_LOW →
  vmmap_find_range m n VMMAP_DIR_LOHI s =
    Ret (default (-1) (first_gap n PN_LOW PN_HIGH (vmm_list mp))) s.
Proof.
  intros Hm Hl Hn Hne. pose proof pn_bounds as Hb. unfold vmmap_find_range, vmmap_at. msimpl. rewrite Hm. cbn [obind].
  destruct (vmm_list mp) as [|a l]; simpl.
  - destruct Hne as [|Hne]; [done|]. rewrite u32_small by lia.
    rewrite (proj2 (Z.leb_le _ _)) by lia. rewrite decide_True by lia. simpl. by rewrite int32_small by lia.
  - destruct Hl as [Ha Hl]. pose proof (areas_in_le _ _ _ Hl). rewrite u32_small by lia.
    destruct (Z.leb_spec n (vma_start a - PN_LOW)); case_decide; try lia.
    { rewrite int32_small by lia. by rewrite (proj2 (Z.ltb_ge _ _)) by lia. }
    rewrite scan_lohi_gap by (try done; lia).
    destruct (scan_lohi_end n l Hn a) as (r & h & -> & Hh & Hr); [lia|done|].
    destruct (Z.ltb_spec r 0); [|done]. rewrite bool_decide_eq_false_2 by done. cbn [andb obind].
    case_match; [by rewrite int32_small by lia|]. destruct Hr as [->|]; [done|lia].
Qed.

Lemma find_range_hilo m mp n s :
  vmaps s !! m = Some mp → areas_wf (vmm_list mp) → 0 < n → vmm_list mp ≠ [] →
  vmmap_find_range m n VMMAP_DIR_HILO s =
    Ret (default (-1) (last_gap n PN_LOW PN_HIGH (reverse (vmm_list mp)))) s.
Proof.
  intros Hm Hl Hn Hne. pose proof pn_bounds as Hb. unfold vmmap_find_range, vmmap_at. msimpl. rewrite Hm. cbn [obind].
  apply areas_down_reverse in Hl. assert (reverse (vmm_list mp) ≠ []) as Hne'.
  { intros He. apply Hne. by rewrite <- (reverse_involutive (vmm_list mp)), He. }
  destruct (reverse (vmm_list mp)) as [|a l]; [done|]. simpl.
  assert (PN_LOW <= vma_start a) as Hlo by (destruct (areas_down_elem _ _ (a :: l) a Hl); [by left|lia]).
  destruct Hl as [Ha Hl]. rewrite u32_small by lia.
  destruct (Z.leb_spec n (PN_HIGH - vma_end a)); case_decide; try lia.
  { rewrite u32_small, int32_small by lia. by rewrite (proj2 (Z.ltb_ge _ _)) by lia. }
  rewrite scan_hilo_gap by (try done; lia).
  destruct (scan_hilo_end n l Hn a) as (r & h & -> & Hh & Hr); [lia|done|].
  destruct (Z.ltb_spec r 0); [|done]. cbn [obind]. rewrite u32_small by lia.
  destruct (Z.leb_spec n (vma_start h - PN_LOW)); [rewrite u32_small by lia; by rewrite int32_small by lia|].
  destruct Hr as [->|]; [done|lia].
Qed.
End find.

(** ** Removing a region *)

(** What the map says of a page: the page of the object, and how it may be
    used. *)
Definition page_info (l : list vmarea) (v : Z) : option (Z * Z * Z) :=
  (λ a, (v - vma_start a + vma_off a, vma_prot a, vma_flags a)) <$> lookup_area v l.

(** What is left of an area when the pages from [lo] up to [hi] go. *)
Inductive cut (lo hi : Z) (a : vmarea) : list vmarea → Prop :=
| cut_apart : apart lo hi a → cut lo hi a [a]
| cut_all : lo <= vma_start a → vma_end a <= hi → cut lo hi a []
| cut_tail : vma_start a < lo < vma_end a → vma_end a <= hi →
    cut lo hi a [with_range (vma_start a) lo (vma_off a) a]
| cut_head : lo <= vma_start a < hi → hi < vma_end a →
    cut lo hi a [with_range hi (vma_end a) (u32 (vma_off a + hi - vma_start a)) a]
| cut_split o1 b : vma_start a < lo → hi < vma_end a →
    vma_start b = hi → vma_end b = vma_end a → vma_off b = u32 (vma_off a + hi - vma_start a) →
    vma_prot b = vma_prot a → vma_flags b = vma_flags a →
    cut lo hi a [with_obj o1 (with_range (vma_start a) lo (vma_off a) a); b].

(** The pages of the object an area maps are below 2^32. *)
Definition off_ok (a : vmarea) : Prop :=
  0 <= vma_off a ∧ vma_off a + (vma_end a - vma_start a) < 2 ^ 32.

#[global] Instance off_ok_dec a : Decision (off_ok a).
Proof. unfold off_ok. apply _. Defined.

Lemma lookup_area_app v l1 l2 :
  lookup_area v (l1 ++ l2) = match lookup_area v l1 with Some a => Some a | None => lookup_area v l2 end.
Proof. induction l1 as [|a l1 IH]; simpl; [done|]. by destruct (_ && _). Qed.

Lemma page_info_app l1 l2 v :
  page_info (l1 ++ l2) v = match page_info l1 v with Some x => Some x | None => page_info l2 v end.
Proof. unfold page_info. rewrite lookup_area_app. by destruct (lookup_area v l1). Qed.

Lemma cut_in lo hi a l1 lo0 hi0 :
  lo < hi → vma_start a < vma_end a → cut lo hi a l1 → lo0 <= vma_start a → vma_end a <= hi0 →
  areas_in lo0 hi0 l1.
Proof. intros Hlt Ha Hc H1 H2. destruct Hc; unfold apart in *; simpl; lia. Qed.

Lemma page_info_one a v :
  page_info [a] v = if decide (covers a v)
    then Some (v - vma_start a + vma_off a, vma_prot a, vma_flags a) else None.
Proof.
  unfold page_info, covers. cbn [lookup_area].
  destruct (Z.leb_spec (vma_start a) v), (Z.ltb_spec v (vma_end a)); cbn [andb fmap option_fmap option_map];
    case_decide; done || lia.
Qed.

Lemma cut_page lo hi a l1 v :
  lo < hi → off_ok a → 0 <= vma_start a < vma_end a → cut lo hi a l1 →
  page_info l1 v = if decide (lo <= v < hi) then None else page_info [a] v.
Proof.
  intros Hlt [Ho1 Ho2] Ha Hc. destruct Hc as [Hap|H1 H2|H1 H2|H1 H2|o1 b H1 H2 B1 B2 B3 B4 B5].
  - rewrite page_info_one. unfold covers, apart in *. repeat case_decide; done || lia.
  - rewrite page_info_one. unfold covers. repeat case_decide; done || lia.
  - rewrite !page_info_one. unfold covers. cbn [vma_start vma_end vma_off vma_prot vma_flags with_range with_obj]. repeat case_decide; done || lia.
  - rewrite !page_info_one. unfold covers. cbn [vma_start vma_end vma_off vma_prot vma_flags with_range with_obj]. rewrite u32_small by lia.
    repeat case_decide; try done; try lia. do 3 f_equal. lia.
  - change [with_obj o1 (with_range (vma_start a) lo (vma_off a) a); b] with
      ([with_obj o1 (with_range (vma_start a) lo (vma_off a) a)] ++ [b]).
    rewrite page_info_app, !page_info_one.
    repeat case_decide; unfold covers in *; cbn [vma_start vma_end vma_off with_range with_obj] in *;
      try done; try lia. rewrite B1, B3, B4, B5, u32_small by lia. do 3 f_equal. lia.
Qed.

(** The whole list. *)
Lemma cut_areas_in lo hi l ls lo0 hi0 :
  lo < hi → areas_in lo0 hi0 l → Forall2 (cut lo hi) l ls → areas_in lo0 hi0 (concat ls).
Proof.
  intros Hlt Hl Hc. revert lo0 Hl. induction Hc as [|a l1 l ls Ha Hc IH]; intros lo0 Hl; simpl; [done|].
  destruct Hl as [Hsa Hl]. apply areas_in_app. exists (vma_end a). split; [|by apply IH].
  eapply cut_in; eauto; lia.
Qed.

Lemma cut_areas_page lo hi l ls lo0 hi0 v :
  lo < hi → 0 <= lo0 → areas_in lo0 hi0 l → Forall off_ok l → Forall2 (cut lo hi) l ls →
  page_info (concat ls) v = if decide (lo <= v < hi) then None else page_info l v.
Proof.
  intros Hlt H0 Hl Ho Hc. revert lo0 H0 Hl. induction Hc as [|a l1 l ls Ha Hc IH]; intros lo0 H0 Hl; cbn [concat].
  - by case_decide.
  - apply Forall_cons in Ho as [Hoa Ho]. destruct Hl as [Hsa Hl].
    rewrite page_info_app, (cut_page lo hi a l1) by (done || lia).
    rewrite (IH Ho (vma_end a)) by (done || lia).
    change (a :: l) with ([a] ++ l). rewrite page_info_app. by case_decide.
Qed.
