(* ===== verification/VmmapProps.v ===== *)
(** * Properties of address spaces

    The operations of vmmap.c on the kernel state, page by page. *)

From S2P Require Import Prelude Kstate Sched Vmstate Pframe Mmobj Vmmap Areas.
Local Open Scope Z_scope.

(** The state of the process code. *)
Definition kpart (s : vst) : kst * gmap pptr proc_vm := (v_k s, procvm s).

(** ** What an address space asks of the objects it maps

    [obj_inv] is the invariant of the memory objects, their reference counts
    and resident pages with respect to the areas that map them.  Releasing an
    area of an address space succeeds and affects, of the address spaces,
    only the list the area is on; the invariant does not depend on how much
    of an object an area maps. *)
Class ObjIface `{VmEnv} `{Machine} (ops : vtable) := {
  obj_inv : vst → Prop;
  obj_release : ∀ s m mp a, obj_inv s → vmaps s !! m = Some mp → a ∈ vmm_list mp →
    ∃ s', release_area ops m a s = Ret () s' ∧ obj_inv s' ∧ kpart s' = kpart s ∧
      vmaps s' = <[m := with_list (filter (λ v, vma_id v ≠ vma_id a)) mp]> (vmaps s);
  obj_resize : ∀ s m mp a st en off, obj_inv s → vmaps s !! m = Some mp → a ∈ vmm_list mp →
    obj_inv (set_vmaps (insert m
      (with_list (replace_area (vma_id a) [with_range st en off a]) mp)) s);
  obj_pts : ∀ s f, obj_inv s → obj_inv (set_pts f s);
}.

(** Areas on one list have different addresses. *)
Definition ids (l : list vmarea) : list aptr := vma_id <$> l.

Lemma replace_area_other a l' l : a ∉ ids l → replace_area a l' l = l.
Proof.
  unfold replace_area, ids. induction l as [|b l IH]; [done|]. rewrite fmap_cons, not_elem_of_cons.
  intros [Hne Hl]. cbn [map concat]. rewrite decide_False by congruence. simpl. f_equal. auto.
Qed.

Lemma replace_area_at pre a l' l :
  NoDup (ids (pre ++ a :: l)) → replace_area (vma_id a) l' (pre ++ a :: l) = pre ++ l' ++ l.
Proof.
  unfold ids. rewrite fmap_app, fmap_cons. intros (_ & Hd & Hn)%NoDup_app.
  apply NoDup_cons in Hn as [Hn _].
  unfold replace_area. rewrite map_app, concat_app. cbn [map concat]. rewrite decide_True by done.
  fold (replace_area (vma_id a) l' pre). fold (replace_area (vma_id a) l' l).
  rewrite !replace_area_other; [done|done|]. intros Hin. eapply Hd; eauto. by left.
Qed.

Lemma filter_area_other a l : a ∉ ids l → filter (λ v, vma_id v ≠ a) l = l.
Proof.
  unfold ids. induction l as [|b l IH]; [done|]. rewrite fmap_cons, not_elem_of_cons.
  intros [Hne Hl]. rewrite filter_cons_True by congruence. f_equal. auto.
Qed.

Lemma filter_area_at pre a l :
  NoDup (ids (pre ++ a :: l)) → filter (λ v, vma_id v ≠ vma_id a) (pre ++ a :: l) = pre ++ l.
Proof.
  unfold ids. rewrite fmap_app, fmap_cons. intros (_ & Hd & Hn)%NoDup_app.
  apply NoDup_cons in Hn as [Hn _].
  rewrite filter_app, filter_cons_False by naive_solver.
  rewrite !filter_area_other; [done|done|]. intros Hin. eapply Hd; eauto. by left.
Qed.

Lemma ids_drop pre a l : NoDup (ids (pre ++ a :: l)) → NoDup (ids (pre ++ l)).
Proof.
  unfold ids. rewrite !fmap_app, fmap_cons. rewrite !NoDup_app, NoDup_cons.
  intros (H1 & H2 & H3 & H4). split_and!; [done| |done]. intros x Hx Hl. apply (H2 x Hx). by right.
Qed.

Lemma ids_resize pre a b l :
  vma_id b = vma_id a → NoDup (ids (pre ++ a :: l)) → NoDup (ids ((pre ++ [b]) ++ l)).
Proof. intros He. unfold ids. rewrite <- app_assoc. simpl. rewrite !fmap_app, !fmap_cons. by rewrite He. Qed.

(** No area strictly contains the pages from [lo] up to [hi]: removing them
    splits nothing. *)
Definition no_split (lo hi : Z) (a : vmarea) : Prop := lo <= vma_start a ∨ vma_end a <= hi ∨ vma_end a <= lo.

#[global] Instance no_split_dec lo hi a : Decision (no_split lo hi a).
Proof. unfold no_split. apply _. Defined.

Section remove.
Context `{VmEnv} `{Machine} (ops : vtable) `{!ObjIface ops}.

(** One iteration, on the area behind the part [pre] already treated. *)
Lemma remove_from_area_spec m mp lo hi pre a l s :
  obj_inv s → vmaps s !! m = Some mp → vmm_list mp = pre ++ a :: l →
  NoDup (ids (pre ++ a :: l)) → vma_start a < vma_end a → no_split lo hi a → lo < hi →
  ∃ s' la, remove_from_area ops m lo hi a s = Ret () s' ∧ obj_inv s' ∧ kpart s' = kpart s ∧
    cut lo hi a la ∧ NoDup (ids ((pre ++ la) ++ l)) ∧
    vmaps s' = <[m := with_list (λ _, (pre ++ la) ++ l) mp]> (vmaps s).
Proof.
  intros Hinv Hm Hl Hnd Ha Hns Hlt.
  assert (a ∈ vmm_list mp) as Hin by (rewrite Hl; set_solver).
  assert (∀ st en off, ∃ s', upd_vmmap m (with_list (replace_area (vma_id a) [with_range st en off a])) s = Ret () s' ∧
    obj_inv s' ∧ kpart s' = kpart s ∧ NoDup (ids ((pre ++ [with_range st en off a]) ++ l)) ∧
    vmaps s' = <[m := with_list (λ _, (pre ++ [with_range st en off a]) ++ l) mp]> (vmaps s)) as Hupd.
  { intros st en off. eexists. unfold upd_vmmap. rewrite Hm. split; [done|].
    split_and!; [by apply obj_resize|done|by apply (ids_resize pre a)|].
    simpl. unfold with_list. rewrite Hl, replace_area_at, <- app_assoc by done. done. }
  assert (apart lo hi a → ∃ s' la, (mret () : V ()) s = Ret () s' ∧ obj_inv s' ∧ kpart s' = kpart s ∧
    cut lo hi a la ∧ NoDup (ids ((pre ++ la) ++ l)) ∧
    vmaps s' = <[m := with_list (λ _, (pre ++ la) ++ l) mp]> (vmaps s)) as Hskip.
  { intros Hap. exists s, [a]. split; [done|]. split_and!; [done|done|by constructor|by rewrite <- app_assoc|].
    rewrite <- app_assoc. simpl. rewrite <- Hl. symmetry. apply insert_id. rewrite Hm. by destruct mp. }
  unfold remove_from_area, no_split, apart in *.
  destruct (Z.ltb_spec (vma_start a) lo).
  - rewrite (proj2 (Z.ltb_ge hi (vma_end a))) by lia. destruct (Z.ltb_spec lo (vma_end a)).
    + rewrite (proj2 (Z.leb_le _ _)) by lia. cbn [andb].
      destruct (Hupd (vma_start a) lo (vma_off a)) as (s' & Hr & Hi & Hk & Hn & Hv).
      eexists s', _. split; [done|]. split_and!; [done|done|apply cut_tail; lia|done|done].
    + cbn [andb]. apply Hskip. lia.
  - destruct (Z.leb_spec (vma_end a) hi).
    + destruct (obj_release s m mp a) as (s' & Hr & Hi & Hk & Hv); [done..|].
      exists s', []. split; [done|]. rewrite app_nil_r. split_and!; [done|done|apply cut_all; lia|by eapply ids_drop|].
      rewrite Hv. unfold with_list. by rewrite Hl, filter_area_at.
    + rewrite (proj2 (Z.ltb_lt hi (vma_end a))) by lia. destruct (Z.ltb_spec (vma_start a) hi); cbn [andb].
      * destruct (Hupd hi (vma_end a) (u32 (vma_off a + hi - vma_start a))) as (s' & Hr & Hi & Hk & Hn & Hv).
        eexists s', _. split; [done|]. split_and!; [done|done|apply cut_head; lia|done|done].
      * apply Hskip. lia.
Qed.

Lemma remove_areas_spec m lo hi l : ∀ pre mp s lo0 hi0,
  obj_inv s → vmaps s !! m = Some mp → vmm_list mp = pre ++ l →
  NoDup (ids (pre ++ l)) → areas_in lo0 hi0 l → Forall (no_split lo hi) l → lo < hi →
  ∃ s' ls, remove_areas ops m lo hi l s = Ret () s' ∧ obj_inv s' ∧ kpart s' = kpart s ∧
    Forall2 (cut lo hi) l ls ∧ NoDup (ids (pre ++ concat ls)) ∧
    vmaps s' = <[m := with_list (λ _, pre ++ concat ls) mp]> (vmaps s).
Proof.
  induction l as [|a l IH]; intros pre mp s lo0 hi0 Hinv Hm Hl Hnd Hin Hns Hlt; cbn [remove_areas].
  - exists s, []. split; [done|]. split_and!; [done|done|constructor|done|].
    simpl. rewrite <- Hl. symmetry. apply insert_id. rewrite Hm. by destruct mp.
  - destruct Hin as [Ha Hin]. apply Forall_cons in Hns as [Hna Hns].
    destruct (remove_from_area_spec m mp lo hi pre a l s) as (s1 & la & Hr & Hi & Hk & Hc & Hn & Hv); [done..|lia|done|done|].
    destruct (IH (pre ++ la) (with_list (λ _, (pre ++ la) ++ l) mp) s1 (vma_end a) hi0)
      as (s2 & ls & Hr2 & Hi2 & Hk2 & Hc2 & Hn2 & Hv2); try done.
    { by rewrite Hv, lookup_insert_eq. }
    exists s2, (la :: ls). unfold mbind, M_bind. rewrite Hr. cbn [obind]. rewrite Hr2. cbn [concat].
    rewrite app_assoc. split_and!; [done|done|congruence|by constructor|done|].
    rewrite Hv2, Hv, insert_insert_eq. done.
Qed.
End remove.

(** ** Splitting an area *)

Lemma mmobj_at_eval o x s : mmobjs s !! o = Some x → mmobj_at o s = Ret x s.
Proof. intros Hx. unfold mmobj_at. by rewrite Hx. Qed.

Lemma upd_mmobj_eval o x f s :
  mmobjs s !! o = Some x → upd_mmobj o f s = Ret () (set_mmobjs (insert o (f x)) s).
Proof. intros Hx. unfold upd_mmobj. by rewrite Hx. Qed.

Lemma upd_vmas_eval o x l f s :
  mmobjs s !! o = Some x → mmo_un x = mmo_vmas l →
  upd_vmas o f s = Ret () (set_mmobjs (insert o (with_un (mmo_vmas (f l)) x)) s).
Proof.
  intros Hx Hl. unfold upd_vmas. msimpl. rewrite (mmobj_at_eval o x) by done. cbn [obind].
  rewrite Hl. by apply upd_mmobj_eval.
Qed.

Lemma upd_vmmap_eval m mp f s :
  vmaps s !! m = Some mp → upd_vmmap m f s = Ret () (set_vmaps (insert m (f mp)) s).
Proof. intros Hm. unfold upd_vmmap. by rewrite Hm. Qed.

Section split.
Context `{VmEnv} `{Machine} `{Errno}.

Definition shadow0 : mmobj := with_refcount (λ _, 1) (mmobj_init shadow_mmobj_ops).

Lemma shadow_create_eval s o :
  slab_alloc_mmobj shadow_mmobj_ops s = Some o →
  shadow_create s = Ret o (set_mmobjs (insert o shadow0) s).
Proof. intros Ho. unfold shadow_create. msimpl. by rewrite Ho. Qed.

(** A shadow object over [o] with bottom object [b]. *)
Definition shadow_over (o b : optr) : mmobj :=
  with_shadowed (Some o) (with_un (mmo_bottom_obj b) shadow0).

(** Referencing an object through the table. *)
Lemma table_ref vn k o x s :
  mmobjs s !! o = Some x → mmo_ops x = shadow_mmobj_ops → 0 < mmo_refcount x →
  o_ref (mmobj_table vn (S k)) o s = Ret () (set_mmobjs (insert o (with_refcount (λ n, n + 1) x)) s).
Proof.
  intros Hx Hops Href. cbn [mmobj_table dispatch o_ref]. msimpl. rewrite (mmobj_at_eval o x) by done. cbn [obind].
  rewrite Hops. unfold shadow_ref. msimpl. rewrite (mmobj_at_eval o x) by done. cbn [obind].
  rewrite (proj2 (Z.ltb_lt _ _)), bool_decide_eq_true_2 by done. cbn [andb obind]. by apply upd_mmobj_eval.
Qed.

Lemma share_object_eval vn k m mp ia ar o x b y l0 s :
  vmaps s !! m = Some mp →
  mmobjs s !! o = Some x → mmo_ops x = shadow_mmobj_ops → 0 < mmo_refcount x →
  is_Some (mmo_shadowed x) → mmo_un x = mmo_bottom_obj b →
  b ≠ o → mmobjs s !! b = Some y → mmo_un y = mmo_vmas l0 →
  (∀ q t, is_Some (slab_alloc_mmobj q t)) →
  ∃ s' o1 o2, share_object (mmobj_table vn (S k)) m ia ar o s = Ret () s' ∧
    v_k s' = v_k s ∧ vmaps s' = <[m := with_list (map (set_objs ia o1 ar o2)) mp]> (vmaps s) ∧
    mmobjs s' !! o1 = Some (shadow_over o o1) ∧ mmobjs s' !! o2 = Some (shadow_over o o1) ∧
    mmobjs s' !! o = Some (with_refcount (λ n, n + 1) x).
Proof.
  intros Hm Hx Hops Href Hsh Hun Hbo Hy Hyl Halloc.
  destruct (Halloc shadow_mmobj_ops s) as [o1 Ho1]. pose proof (mmobj_fresh _ _ _ Ho1) as Hf1.
  set (s1 := set_mmobjs (insert o1 shadow0) s).
  destruct (Halloc shadow_mmobj_ops s1) as [o2 Ho2]. pose proof (mmobj_fresh _ _ _ Ho2) as Hf2.
  assert (o1 ≠ o2) as H12. { intros ->. simpl in Hf2. by rewrite lookup_insert_eq in Hf2. }
  simpl in Hf2. rewrite lookup_insert_ne in Hf2 by done.
  assert (o1 ≠ o ∧ o2 ≠ o ∧ o1 ≠ b ∧ o2 ≠ b) as (N1 & N2 & N3 & N4).
  { split_and!; intros ->; congruence. }
  unfold share_object. msimpl. rewrite (shadow_create_eval s o1) by done. cbn [obind]. fold s1.
  rewrite (shadow_create_eval s1 o2) by done. cbn [obind].
  rewrite (upd_vmmap_eval m mp) by done. cbn [obind].
  rewrite (mmobj_bottom_self _ o1 shadow0);
    [|simpl; by rewrite lookup_insert_ne, lookup_insert_eq|apply mmobj_init_shadowed].
  rewrite (upd_mmobj_eval o2 shadow0) by (simpl; apply lookup_insert_eq). cbn [obind].
  rewrite (upd_mmobj_eval o1 shadow0) by (simpl; rewrite !lookup_insert_ne by done; apply lookup_insert_eq). cbn [obind].
  erewrite (upd_mmobj_eval o1) by (simpl; apply lookup_insert_eq). cbn [obind].
  erewrite (upd_mmobj_eval o2) by (simpl; rewrite !lookup_insert_ne by done; apply lookup_insert_eq). cbn [obind].
  rewrite (table_ref vn k o x) by (try done; simpl; by rewrite !lookup_insert_ne by congruence). cbn [obind].
  rewrite (mmobj_bottom_shadow _ o (with_refcount (λ n, n + 1) x) b)
    by (try done; simpl; by rewrite lookup_insert_eq).
  rewrite (upd_vmas_eval b y l0) by (try done; simpl; by rewrite !lookup_insert_ne by congruence).
  eexists _, o1, o2. split; [done|]. split_and!; try done; simpl.
  - rewrite lookup_insert_ne by congruence. rewrite lookup_insert_ne by congruence.
    rewrite lookup_insert_ne by congruence. by rewrite lookup_insert_eq.
  - rewrite lookup_insert_ne by congruence. rewrite lookup_insert_ne by congruence. by rewrite lookup_insert_eq.
  - rewrite lookup_insert_ne by congruence. by rewrite lookup_insert_eq.
Qed.

(** Areas that do not meet the region are left alone. *)
Lemma remove_areas_skip ops m lo hi l l2 s :
  lo < hi → Forall (λ a, vma_start a < vma_end a) l → Forall (apart lo hi) l →
  remove_areas ops m lo hi (l ++ l2) s = remove_areas ops m lo hi l2 s.
Proof.
  intros Hlt. revert s. induction l as [|a l IH]; intros s Hne Hap; [done|].
  apply Forall_cons in Hne as [Ha Hne]. apply Forall_cons in Hap as [Hap Hap'].
  cbn [app remove_areas]. unfold mbind, M_bind.
  assert (remove_from_area ops m lo hi a s = Ret () s) as ->; [|cbn [obind]; by apply IH].
  unfold remove_from_area, apart in *. destruct (Z.ltb_spec (vma_start a) lo).
  - rewrite (proj2 (Z.ltb_ge hi (vma_end a))), (proj2 (Z.ltb_ge lo (vma_end a))) by lia. done.
  - rewrite (proj2 (Z.leb_gt (vma_end a) hi)), (proj2 (Z.ltb_lt hi (vma_end a))),
      (proj2 (Z.ltb_ge (vma_start a) hi)) by lia. done.
Qed.

(** The neighbours of an area that contains the region. *)
Lemma areas_in_apart lo0 hi0 pre a l lo hi :
  areas_in lo0 hi0 (pre ++ a :: l) → vma_start a <= lo → hi <= vma_end a →
  Forall (apart lo hi) pre ∧ Forall (apart lo hi) l ∧
  Forall (λ b, vma_start b < vma_end b) pre ∧ Forall (λ b, vma_start b < vma_end b) l.
Proof.
  intros (mid & Hp & Ha & Hl)%areas_in_app H1' H2'. rewrite !Forall_forall. unfold apart.
  split_and!; intros b Hb;
    first [destruct (areas_in_elem _ _ _ _ Hp Hb)|destruct (areas_in_elem _ _ _ _ Hl Hb)]; lia.
Qed.

Lemma map_set_objs_other ia o1 ar o2 l :
  ia ∉ ids l → ar ∉ ids l → map (set_objs ia o1 ar o2) l = l.
Proof.
  unfold ids. induction l as [|b l IH]; [done|]. rewrite fmap_cons, !not_elem_of_cons.
  intros [N1 Hl1] [N2 Hl2]. cbn [map]. unfold set_objs at 1. rewrite !decide_False by congruence.
  f_equal. auto.
Qed.

(** The two areas after the split. *)
Definition left_part (a : vmarea) (lo : Z) (o : option optr) : vmarea :=
  with_obj o (with_range (vma_start a) lo (vma_off a) a).
Definition right_part (a : vmarea) (ar : aptr) (m : vmid) (hi : Z) (o : option optr) : vmarea :=
  Vmarea ar hi (vma_end a) (u32 (vma_off a + hi - vma_start a)) (vma_prot a) (vma_flags a) (Some m) o.

Lemma split_area_eval vn k m mp pre a l lo hi o x b y l0 s :
  vmaps s !! m = Some mp → vmm_list mp = pre ++ a :: l → NoDup (ids (vmm_list mp)) →
  vma_obj a = Some o → mmobjs s !! o = Some x → mmo_ops x = shadow_mmobj_ops → 0 < mmo_refcount x →
  is_Some (mmo_shadowed x) → mmo_un x = mmo_bottom_obj b →
  b ≠ o → mmobjs s !! b = Some y → mmo_un y = mmo_vmas l0 →
  (∀ t, is_Some (slab_alloc_vmarea t)) → (∀ q t, is_Some (slab_alloc_mmobj q t)) →
  ∃ s' ar o1 o2, split_area (mmobj_table vn (S k)) m lo hi a s = Ret () s' ∧ v_k s' = v_k s ∧
    vmaps s' = <[m := with_list (λ _, pre ++ [left_part a lo (Some o1); right_part a ar m hi (Some o2)] ++ l) mp]> (vmaps s) ∧
    mmobjs s' !! o1 = Some (shadow_over o o1) ∧ mmobjs s' !! o2 = Some (shadow_over o o1) ∧
    mmobjs s' !! o = Some (with_refcount (λ n, n + 1) x).
Proof.
  intros Hm Hl Hnd Ho Hx Hops Href Hsh Hun Hbo Hy Hyl Hall1 Hall2.
  destruct (Hall1 s) as [ar Har].
  assert (∀ v, v ∈ vmm_list mp → vma_id v ≠ ar) as Hfr by (intros v Hv; by eapply vmarea_fresh).
  assert (ar ∉ ids (vmm_list mp)) as Hnar.
  { unfold ids. rewrite list_elem_of_fmap. intros (v & He & Hv). by apply (Hfr v Hv). }
  rewrite Hl in Hnd, Hnar. unfold split_area, vmarea_alloc. msimpl. rewrite Har. cbn [obind].
  rewrite (upd_vmmap_eval m mp) by done. cbn [obind]. rewrite Ho. cbn [obind].
  set (s1 := set_vmaps _ s). set (mp1 := with_list _ mp) in s1.
  destruct (share_object_eval vn k m mp1 (vma_id a) ar o x b y l0 s1)
    as (s' & o1 & o2 & Hs & Hk & Hv & H1' & H2' & H3'); try done.
  { unfold s1. simpl. apply lookup_insert_eq. }
  exists s', ar, o1, o2. split_and!; try done.
  rewrite Hv. unfold s1; simpl. rewrite insert_insert_eq. f_equal. unfold mp1, with_list; simpl. f_equal.
  rewrite Hl, replace_area_at by done. rewrite !map_app. cbn [map].
  unfold ids in Hnd, Hnar. rewrite fmap_app, fmap_cons in Hnd, Hnar.
  apply NoDup_app in Hnd as (_ & Hd & [Hna _]%NoDup_cons).
  rewrite not_elem_of_app, not_elem_of_cons in Hnar. destruct Hnar as (A1 & A2 & A3).
  rewrite !map_set_objs_other; [|done|done| |done].
  - unfold set_objs. rewrite (decide_True _ _ (P := vma_id (with_range _ _ _ a) = vma_id a)) by done.
    rewrite decide_False, decide_True by done. done.
  - intros Hin. apply (Hd (vma_id a) Hin). by left.
Qed.
End split.

(** ** Properties *)

Section props.
Context `{VmEnv} `{Machine} `{Errno}.

Lemma vmmap_insert_eval m mp n s :
  vmaps s !! m = Some mp → vma_vmmap n = None →
  PN_LOW <= vma_start n < vma_end n → vma_end n <= PN_HIGH →
  vmmap_insert m n s =
    Ret () (set_vmaps (insert m (with_list (insert_sorted (with_vmmap (Some m) n)) mp)) s).
Proof.
  intros Hm Hn Hlo Hhi. unfold vmmap_insert, upd_vmmap. msimpl.
  rewrite bool_decide_eq_true_2 by done. cbn [obind].
  rewrite (proj2 (Z.ltb_lt _ _)) by lia. cbn [obind].
  rewrite !(proj2 (Z.leb_le _ _)) by lia. cbn [andb obind]. by rewrite Hm.
Qed.

(** A free range takes an area. *)
Lemma insert_free_range l n n' r :
  areas_wf l → 0 < n → fits n PN_LOW PN_HIGH l r → vma_start n' = r → vma_end n' = r + n →
  areas_wf (insert_sorted n' l).
Proof.
  intros Hl Hn (F1 & F2 & F3) Hs He. apply insert_sorted_in; [done|lia|lia|].
  intros a v Ha Hv Hav. unfold covers in *. destruct (F3 a Ha); lia.
Qed.

(** [vmmap_insert] of a valid area that meets no mapped page keeps the
    list of areas sorted and disjoint; afterwards the pages of the new area
    look up to it and all other pages look up as before. *)
Theorem vmmap_insert_adds m mp n s :
  vmaps s !! m = Some mp → areas_wf (vmm_list mp) → vma_vmmap n = None →
  PN_LOW <= vma_start n < vma_end n → vma_end n <= PN_HIGH →
  (∀ v, covers n v → lookup_area v (vmm_list mp) = None) →
  ∃ s' mp', vmmap_insert m n s = Ret () s' ∧ vmaps s' = <[m := mp']> (vmaps s) ∧
    areas_wf (vmm_list mp') ∧
    ∀ v, lookup_area v (vmm_list mp') =
      if decide (covers n v) then Some (with_vmmap (Some m) n) else lookup_area v (vmm_list mp).
Proof.
  intros Hm Hl Hn Hlo Hhi Hfree. set (n' := with_vmmap (Some m) n).
  assert (areas_wf (insert_sorted n' (vmm_list mp))) as Hwf.
  { apply insert_sorted_in; [done|done|done|]. intros a v Ha Hv.
    by apply (proj1 (lookup_area_None v (vmm_list mp)) (Hfree v Hv)). }
  eexists _, (with_list (insert_sorted n') mp). split; [by apply vmmap_insert_eval|].
  split_and!; [done|done|]. intros v. simpl. by rewrite (lookup_insert_sorted PN_LOW PN_HIGH).
Qed.

Lemma is_range_empty_eq m mp st n s :
  vmaps s !! m = Some mp → areas_wf (vmm_list mp) → PN_LOW <= st → 0 < n → st + n <= PN_HIGH →
  vmmap_is_range_empty m st n s = Ret (if decide (Forall (apart st (st + n)) (vmm_list mp)) then 1 else 0) s.
Proof.
  intros Hm Hl Hst Hn Hen. pose proof pn_bounds as Hb.
  unfold vmmap_is_range_empty, vmmap_at. msimpl. rewrite Hm. cbn [obind].
  rewrite u32_small by lia. rewrite (proj2 (Z.ltb_lt _ _)), !(proj2 (Z.leb_le _ _)) by lia. cbn [andb obind].
  by rewrite (range_empty_spec PN_LOW PN_HIGH) by (done || lia).
Qed.

(** [vmmap_is_range_empty] on a range within user memory returns 1 when
    no page of the range is mapped, and 0 otherwise. *)
Theorem vmmap_is_range_empty_correct m mp st n s :
  vmaps s !! m = Some mp → areas_wf (vmm_list mp) → PN_LOW <= st → 0 < n → st + n <= PN_HIGH →
  ∃ r, vmmap_is_range_empty m st n s = Ret r s ∧ (r = 0 ∨ r = 1) ∧
    (r = 1 ↔ ∀ v, st <= v < st + n → lookup_area v (vmm_list mp) = None).
Proof.
  intros Hm Hl Hst Hn Hen. rewrite (is_range_empty_eq m mp) by done. assert (st < st + n) as Hlt by lia.
  pose proof (range_free_iff PN_LOW PN_HIGH (vmm_list mp) st (st + n) Hl Hlt) as Hf.
  case_decide as Hd; eexists; (split; [done|]); (split; [auto|]); rewrite <- Hf; split; done || lia.
Qed.

(** C30. [vmmap_find_range] from low to high is a first fit: it returns the
    lowest page from which the given number of pages of user memory is free,
    or -1 if there is none. *)
Theorem vmmap_find_range_lowest m mp n s :
  vmaps s !! m = Some mp → areas_wf (vmm_list mp) → 0 < n →
  vmm_list mp ≠ [] ∨ n <= PN_HIGH - PN_LOW →
  ∃ r, vmmap_find_range m n VMMAP_DIR_LOHI s = Ret r s ∧
    ((r = -1 ∧ ∀ r', ¬ fits n PN_LOW PN_HIGH (vmm_list mp) r') ∨
     (fits n PN_LOW PN_HIGH (vmm_list mp) r ∧ ∀ r', fits n PN_LOW PN_HIGH (vmm_list mp) r' → r <= r')).
Proof.
  intros Hm Hl Hn Hne. rewrite (find_range_lohi m mp) by done. eexists. split; [done|].
  destruct (first_gap n PN_LOW PN_HIGH (vmm_list mp)) as [r|] eqn:Hg; simpl.
  - right. by apply first_gap_Some.
  - left. split; [done|]. by apply first_gap_None.
Qed.

(** [vmmap_find_range] from high to low, on an address space with at
    least one area, returns the highest page from which the given number of
    pages of user memory is free, or -1 if there is none. *)
Theorem vmmap_find_range_highest m mp n s :
  vmaps s !! m = Some mp → areas_wf (vmm_list mp) → 0 < n → vmm_list mp ≠ [] →
  ∃ r, vmmap_find_range m n VMMAP_DIR_HILO s = Ret r s ∧
    ((r = -1 ∧ ∀ r', ¬ fits n PN_LOW PN_HIGH (vmm_list mp) r') ∨
     (fits n PN_LOW PN_HIGH (vmm_list mp) r ∧ ∀ r', fits n PN_LOW PN_HIGH (vmm_list mp) r' → r' <= r)).
Proof.
  intros Hm Hl Hn Hne. rewrite (find_range_hilo m mp) by done. eexists. split; [done|].
  assert (∀ r, fits n PN_LOW PN_HIGH (reverse (vmm_list mp)) r ↔ fits n PN_LOW PN_HIGH (vmm_list mp) r) as Hf.
  { intros r. unfold fits. by setoid_rewrite elem_of_reverse. }
  pose proof (areas_down_reverse _ _ _ Hl) as Hd.
  destruct (last_gap n PN_LOW PN_HIGH (reverse (vmm_list mp))) as [r|] eqn:Hg; simpl.
  - right. setoid_rewrite <- Hf. by apply last_gap_Some.
  - left. split; [done|]. setoid_rewrite <- Hf. by apply last_gap_None.
Qed.

(** On an address space without areas the search from high to low, for
    whatever number of pages, uses a NULL pointer: every range is free but
    the code stops the machine. *)
Theorem vmmap_find_range_empty_panics m mp n s :
  vmaps s !! m = Some mp → vmm_list mp = [] →
  vmmap_find_range m n VMMAP_DIR_HILO s = Panic "holder".
Proof.
  intros Hm Hl. unfold vmmap_find_range, vmmap_at. msimpl. rewrite Hm. cbn [obind]. by rewrite Hl.
Qed.

Lemma vmmap_remove_spec (ops : vtable) `{!ObjIface ops} m mp lo n cp p pd s :
  obj_inv s → vmaps s !! m = Some mp → areas_wf (vmm_list mp) → NoDup (ids (vmm_list mp)) →
  Forall off_ok (vmm_list mp) → 0 <= lo → 0 < n → lo + n <= PN_HIGH →
  Forall (no_split lo (lo + n)) (vmm_list mp) →
  curproc (v_k s) = Some cp → procs (v_k s) !! cp = Some p → p_pagedir p = Some pd →
  ∃ s' mp', vmmap_remove ops m lo n s = Ret 0 s' ∧ obj_inv s' ∧ kpart s' = kpart s ∧
    vmaps s' = <[m := mp']> (vmaps s) ∧ areas_wf (vmm_list mp') ∧ NoDup (ids (vmm_list mp')) ∧
    (∀ v, page_info (vmm_list mp') v =
      if decide (lo <= v < lo + n) then None else page_info (vmm_list mp) v) ∧
    (∀ v, lo <= v < lo + n → pts s' !! (pd, PN_TO_ADDR v) = None).
Proof.
  intros Hinv Hm Hl Hnd Hoff Hlo Hn Hhi Hns Hcp Hp Hpd. pose proof pn_bounds as Hb.
  destruct (remove_areas_spec ops m lo (lo + n) (vmm_list mp) [] mp s PN_LOW PN_HIGH)
    as (s1 & ls & Hr & Hi & Hk & Hc & Hnd' & Hv); [done..|lia|].
  eexists _, (with_list (λ _, concat ls) mp). split_and!.
  - unfold vmmap_remove, vmmap_at. msimpl. rewrite u32_small by lia. rewrite Hm. cbn [obind].
    rewrite Hr. cbn [obind]. rewrite (lift_cur_proc s1 cp) by (by rewrite (f_equal fst Hk : v_k s1 = v_k s)). cbn [obind].
    rewrite (lift_proc_at s1 cp p) by (by rewrite (f_equal fst Hk : v_k s1 = v_k s)). cbn [obind]. by rewrite Hpd.
  - by apply obj_pts.
  - done.
  - simpl. done.
  - eapply cut_areas_in; [|done|done]. lia.
  - done.
  - intros v. eapply cut_areas_page; [|  |done|done|done]; lia.
  - intros v Hv'. simpl. rewrite pt_unmap_range_spec. rewrite decide_True; [done|]. split; [done|].
    unfold PN_TO_ADDR. rewrite !u32_small; rewrite ?Z.shiftl_mul_pow2 by lia; lia.
Qed.


(** The end of [vmmap_map], for anonymous memory at [lo]. *)
Definition map_anon (m : vmid) (lo npages prot flags off : Z) (r : option vmarea) : V (Z * option vmarea) :=
  ar ← deref r "area";
  let area := Vmarea (vma_id ar) lo (u32 (lo + npages)) (ADDR_TO_PN off) prot flags (vma_vmmap ar) None in
  obj ← (o ← anon_create; mret (Some o));
  if Z.land flags MAP_PRIVATE =? 0 then
    o ← deref obj "obj";
    upd_vmas o (λ l, vma_id area :: l);;
    vmmap_insert m (with_obj (Some o) area);;
    mret (0, Some (with_vmmap (Some m) (with_obj (Some o) area)))
  else
    shad_obj ← shadow_create;
    upd_mmobj shad_obj (with_shadowed obj);;
    o ← deref obj "new_bottom";
    upd_mmobj shad_obj (with_un (mmo_bottom_obj o));;
    upd_vmas o (λ l, vma_id area :: l);;
    vmmap_insert m (with_obj (Some shad_obj) area);;
    mret (0, Some (with_vmmap (Some m) (with_obj (Some shad_obj) area))).

Lemma vmmap_map_anon_eq ops m lopage n prot flags off dir ar s :
  0 < n → Z.land flags MAP_PRIVATE ≠ 0 → lopage = 0 ∨ PN_LOW <= lopage ∧ lopage + n <= PN_HIGH →
  PAGE_ALIGNED off = true → slab_alloc_vmarea s = Some ar →
  vmmap_map ops m None lopage n prot flags off dir s =
    (lo ← (if negb (lopage =? 0) then
             res ← vmmap_is_range_empty m lopage n;
             (if res =? 0 then _ ← vmmap_remove ops m lopage n; mret () else mret ());;
             mret lopage
           else vmmap_find_range m n dir);
     if lo =? -1 then mret (-1, None)
     else map_anon m lo n prot flags off (Some (Vmarea ar 0 0 0 0 0 None None))) s.
Proof.
  intros Hn Hpriv Hlo Hoff Har. pose proof pn_bounds as Hb. unfold vmmap_map.
  assert ((0 <? n) = true) as -> by lia. erewrite bind_step by reflexivity.
  assert (negb (Z.land MAP_SHARED flags =? 0) || negb (Z.land MAP_PRIVATE flags =? 0) = true) as ->.
  { rewrite (Z.land_comm MAP_PRIVATE), (proj2 (Z.eqb_neq (Z.land flags MAP_PRIVATE) 0)) by done. apply orb_true_r. }
  erewrite bind_step by reflexivity.
  assert ((0 =? lopage) || (PN_LOW <=? lopage) = true) as -> by lia. erewrite bind_step by reflexivity.
  assert ((0 =? lopage) || (u32 (lopage + n) <=? PN_HIGH) = true) as ->.
  { destruct Hlo as [->|Hlo]; [done|]. rewrite u32_small by lia. lia. }
  erewrite bind_step by reflexivity. rewrite Hoff. erewrite bind_step by reflexivity.
  unfold vmarea_alloc. erewrite bind_step by (msimpl; by rewrite Har). reflexivity.
Qed.

(** A new anonymous object, mapped by area [a]. *)
Definition anon_for (a : aptr) : mmobj :=
  with_un (mmo_vmas [a]) (with_refcount (λ _, 1) (mmobj_init anon_mmobj_ops)).

(** What [map_anon] leaves behind. *)
Record mapped_anon (s s' : vst) (m : vmid) (mp : vmmap) (lo n prot flags off : Z) (area : vmarea)
    (o sh : optr) : Prop := {
  ma_area : vma_start area = lo ∧ vma_end area = lo + n ∧ vma_off area = ADDR_TO_PN off ∧
    vma_prot area = prot ∧ vma_flags area = flags ∧ vma_obj area = Some sh;
  ma_vmaps : vmaps s' = <[m := with_list (insert_sorted area) mp]> (vmaps s);
  ma_wf : areas_wf (insert_sorted area (vmm_list mp));
  ma_lookup : ∀ v, lookup_area v (insert_sorted area (vmm_list mp)) =
    if decide (covers area v) then Some area else lookup_area v (vmm_list mp);
  ma_shadow : mmobjs s' !! sh = Some (shadow_over o o);
  ma_anon : mmobjs s' !! o = Some (anon_for (vma_id area));
  ma_others : ∀ q, q ≠ o → q ≠ sh → mmobjs s' !! q = mmobjs s !! q;
  ma_kept : kpart s' = kpart s;
  ma_new : mmobjs s !! o = None ∧ mmobjs s !! sh = None ∧ sh ≠ o;
  ma_frames : pframes s' = pframes s ∧ pframe_hash s' = pframe_hash s ∧ v_fs s' = v_fs s;
  ma_home : vma_vmmap area = Some m;
}.

Lemma map_anon_spec m mp lo n prot flags off ar s :
  vmaps s !! m = Some mp → areas_wf (vmm_list mp) → 0 < n → fits n PN_LOW PN_HIGH (vmm_list mp) lo →
  Z.land flags MAP_PRIVATE ≠ 0 → (∀ q t, is_Some (slab_alloc_mmobj q t)) →
  ∃ s' area o sh, map_anon m lo n prot flags off (Some (Vmarea ar 0 0 0 0 0 None None)) s = Ret (0, Some area) s' ∧
    vma_id area = ar ∧ pts s' = pts s ∧ mapped_anon s s' m mp lo n prot flags off area o sh.
Proof.
  intros Hm Hwf Hn Hfit Hpriv Hall. pose proof pn_bounds as Hb. pose proof Hfit as (F1 & F2 & _).
  destruct (Hall anon_mmobj_ops s) as [o Ho]. pose proof (mmobj_fresh _ _ _ Ho) as Hof.
  set (anon0 := with_refcount (λ _, 1) (mmobj_init anon_mmobj_ops)).
  set (s1 := set_mmobjs (insert o anon0) s).
  destruct (Hall shadow_mmobj_ops s1) as [sh Hsh]. pose proof (mmobj_fresh _ _ _ Hsh) as Hsf.
  assert (sh ≠ o) as Hso by (intros ->; simpl in Hsf; by rewrite lookup_insert_eq in Hsf).
  unfold map_anon, anon_create. msimpl. rewrite Ho. cbn [obind]. fold anon0. fold s1.
  rewrite (proj2 (Z.eqb_neq _ 0)) by done. rewrite (shadow_create_eval s1 sh) by done. cbn [obind].
  rewrite (upd_mmobj_eval sh shadow0) by (simpl; apply lookup_insert_eq). cbn [obind].
  erewrite (upd_mmobj_eval sh) by (simpl; apply lookup_insert_eq). cbn [obind].
  rewrite (upd_vmas_eval o anon0 []) by
    (first [simpl; rewrite !lookup_insert_ne by done; apply lookup_insert_eq|apply mmobj_init_un]). cbn [obind].
  rewrite (u32_small (lo + n)) by lia.
  rewrite (vmmap_insert_eval m mp) by (simpl; done || lia). cbn [obind].
  set (area := with_vmmap (Some m) _).
  assert (areas_wf (insert_sorted area (vmm_list mp))) as Hwf' by (apply (insert_free_range _ n _ lo); done || lia).
  eexists _, area, o, sh. split; [done|]. split; [done|]. split; [done|]. split; try done; simpl.
  - intros v. by rewrite (lookup_insert_sorted PN_LOW PN_HIGH).
  - rewrite lookup_insert_ne by done. by rewrite lookup_insert_eq.
  - by rewrite lookup_insert_eq.
  - intros q Hqo Hqs. by rewrite !lookup_insert_ne by done.
  - split_and!; try done. simpl in Hsf. by rewrite lookup_insert_ne in Hsf.
Qed.

(** [vmmap_map] of anonymous private memory at a place of the kernel's
    choosing, from low to high, maps the lowest free range: exactly its pages
    become mapped, to the pages of a new shadow object, private to the area,
    over a new anonymous object with one reference; everything else that was
    mapped stays so.  If no range is free it returns -1 and changes nothing. *)
Theorem vmmap_map_anon_private (ops : vtable) m mp n prot flags s :
  vmaps s !! m = Some mp → areas_wf (vmm_list mp) → vmm_list mp ≠ [] → 0 < n < 2 ^ 31 →
  Z.land flags MAP_PRIVATE ≠ 0 →
  (∀ t, is_Some (slab_alloc_vmarea t)) → (∀ q t, is_Some (slab_alloc_mmobj q t)) →
  (vmmap_map ops m None 0 n prot flags 0 VMMAP_DIR_LOHI s = Ret (-1, None) s ∧
     ∀ r, ¬ fits n PN_LOW PN_HIGH (vmm_list mp) r) ∨
  (∃ s' mp' area o sh, vmmap_map ops m None 0 n prot flags 0 VMMAP_DIR_LOHI s = Ret (0, Some area) s' ∧
    fits n PN_LOW PN_HIGH (vmm_list mp) (vma_start area) ∧
    (∀ r, fits n PN_LOW PN_HIGH (vmm_list mp) r → vma_start area <= r) ∧
    vma_end area = vma_start area + n ∧ vma_prot area = prot ∧ vma_flags area = flags ∧
    vma_obj area = Some sh ∧ vmaps s' = <[m := mp']> (vmaps s) ∧ areas_wf (vmm_list mp') ∧
    (∀ v, lookup_area v (vmm_list mp') =
      if decide (covers area v) then Some area else lookup_area v (vmm_list mp)) ∧
    mmobjs s' !! sh = Some (shadow_over o o) ∧
    (∃ x, mmobjs s' !! o = Some x ∧ mmo_ops x = anon_mmobj_ops ∧ mmo_refcount x = 1 ∧
       mmo_un x = mmo_vmas [vma_id area]) ∧
    (∀ q, q ≠ o → q ≠ sh → mmobjs s' !! q = mmobjs s !! q)).
Proof.
  intros Hm Hwf Hne Hn Hpriv Hall1 Hall2. pose proof pn_bounds as Hb. destruct (Hall1 s) as [ar Har].
  rewrite (vmmap_map_anon_eq ops m 0 n prot flags 0 _ ar) by (done || lia). cbn [Z.eqb negb].
  erewrite bind_step by (apply (find_range_lohi m mp); first [done|lia|by left]).
  destruct (first_gap n PN_LOW PN_HIGH (vmm_list mp)) as [r|] eqn:Hg; simpl (default _ _).
  2:{ left. split; [done|]. apply first_gap_None; done || lia. }
  apply first_gap_Some in Hg as [Hfit Hmin]; [|lia|done]. right. pose proof Hfit as (F1 & _).
  rewrite (proj2 (Z.eqb_neq r (-1))) by lia.
  destruct (map_anon_spec m mp r n prot flags 0 ar s) as (s' & area & o & sh & E & _ & _ & [Ha ? ? ? ? ? ? _ _ _ _]); [done..|lia|done|done|done|].
  destruct Ha as (<- & ? & _ & ? & ? & ?).
  exists s', (with_list (insert_sorted area) mp), area, o, sh. split_and!; try done.
  eexists. split; [done|]. split_and!; [apply mmobj_init_ops|done|done].
Qed.

Lemma mem_write_out a bs f x : ¬ (a <= x < a + Z.of_nat (length bs)) → mem_write a bs f x = f x.
Proof. intros Hx. unfold mem_write. by rewrite decide_False by lia. Qed.

Lemma mem_write_same a bs f : (λ i, mem_write a bs f (a + i)) <$> seqZ 0 (Z.of_nat (length bs)) = bs.
Proof.
  apply list_eq. intros i. rewrite list_lookup_fmap. destruct (decide (i < length bs)%nat) as [Hi|Hi].
  - rewrite lookup_seqZ_lt by lia. simpl. unfold mem_write. rewrite decide_True by lia.
    replace (Z.to_nat (a + (0 + Z.of_nat i) - a)) with i by lia. by destruct (lookup_lt_is_Some_2 bs i Hi) as [x ->].
  - rewrite lookup_seqZ_ge, (lookup_ge_None_2 bs) by lia. done.
Qed.

Lemma mem_read_length a n s : 0 <= n → Z.of_nat (length (mem_read a n s)) = n.
Proof. intros Hn. unfold mem_read. rewrite length_fmap, length_seqZ. lia. Qed.

Lemma page_offset_range a : 0 <= PAGE_OFFSET a < PAGE_SIZE.
Proof.
  unfold PAGE_OFFSET, PAGE_SIZE. change (4096 - 1) with (Z.ones 12). rewrite Z.land_ones by lia.
  apply Z.mod_pos_bound. lia.
Qed.

Lemma read_pages_length ops m size n : ∀ cp s bytes s',
  0 <= size → read_pages ops m n cp size s = Ret bytes s' →
  Z.of_nat (length bytes) = Z.of_nat n * size.
Proof.
  induction n as [|n IH]; intros cp s bytes s' Hsz; cbn [read_pages]; msimpl.
  - intros [= <- _]. done.
  - intros ([r f] & s1 & _ & (x & s2 & _ & (rest & s3 & Hr & Hb)%obind_Ret_inv)%obind_Ret_inv)%obind_Ret_inv.
    injection Hb as <- _. apply IH in Hr; [|done]. rewrite length_app, Nat2Z.inj_add, mem_read_length, Hr by done. lia.
Qed.

(** [vmmap_read] across more than two pages copies too few bytes: of
    every page behind the first one it copies as many bytes as belong to the
    last page, so that whenever it returns it has stored fewer bytes than
    asked for, although it reports success. *)
Theorem vmmap_read_short ops m vaddr count s r bytes s' :
  0 <= vaddr → 0 <= count → vaddr + count < 2 ^ 32 →
  ADDR_TO_PN vaddr + 2 <= ADDR_TO_PN (vaddr + count) →
  vmmap_read ops m vaddr count s = Ret (r, bytes) s' →
  r = 0 ∧ Z.of_nat (length bytes) < count.
Proof.
  intros Hv Hc Hlt Hpages. unfold vmmap_read. rewrite u32_small by lia.
  rewrite (proj2 (Z.eqb_neq _ _)), (proj2 (Z.leb_le _ _)) by lia. msimpl.
  intros ([q f] & s1 & _ & (x & s2 & _ & (rest & s3 & Hr & Hb)%obind_Ret_inv)%obind_Ret_inv)%obind_Ret_inv.
  pose proof (page_offset_range vaddr) as Ho. pose proof (page_offset_range (vaddr + count)) as Ho2.
  injection Hb as <- <- _. split; [done|].
  apply read_pages_length in Hr; [|lia]. rewrite length_app, Nat2Z.inj_add, mem_read_length, Hr by lia.
  assert (∀ a, a = PAGE_SIZE * ADDR_TO_PN a + PAGE_OFFSET a) as Hsplit.
  { intros a. unfold ADDR_TO_PN, PAGE_OFFSET, PAGE_SIZE. change (4096 - 1) with (Z.ones 12).
    rewrite Z.land_ones, Z.shiftr_div_pow2 by lia. apply Z.div_mod. lia. }
  pose proof (Hsplit vaddr) as E1. pose proof (Hsplit (vaddr + count)) as E2.
  rewrite Z2Nat.id by lia. unfold PAGE_SIZE in *. nia.
Qed.
End props.

(** ** A concrete address space *)

Module VmmapEx.
Definition all_ids (s : vst) : list aptr :=
  concat ((λ mp, ids (vmm_list mp)) <$> (map_to_list (vmaps s)).*2).

(** An address above all page frames. *)
Definition above (s : vst) : Z := map_fold (λ _ x m, Z.max (pf_addr x + 4096) m) 4096 (pframes s).

Lemma above_frames s p x : pframes s !! p = Some x → pf_addr x + 4096 <= above s.
Proof.
  unfold above. revert p x. apply (map_fold_weak_ind (λ b m, ∀ p x, m !! p = Some x → pf_addr x + 4096 <= b)).
  - intros p x Hx. by rewrite lookup_empty in Hx.
  - intros q y m b Hm IH p x [[-> ->]|[_ Hx%IH]]%lookup_insert_Some; lia.
Qed.

Lemma above_nonnull s : above s ≠ 0.
Proof.
  enough (4096 <= above s) by lia. unfold above. apply (map_fold_weak_ind (λ b _, 4096 <= b)); lia.
Qed.

#[local] Instance env : VmEnv.
Proof.
  refine {|
    USER_MEM_LOW := 4194304; USER_MEM_HIGH := 3221225472; MAP_SHARED := 1; MAP_PRIVATE := 2;
    PF_HASH_SIZE := 17;
    slab_alloc_vmarea := λ s, Some (fresh (all_ids s));
    slab_alloc_vmmap := λ s, Some (fresh (dom (vmaps s)));
    slab_alloc_mmobj := λ _ s, Some (fresh (dom (mmobjs s)));
    slab_alloc_pframe := λ s, Some (fresh (dom (pframes s)));
    page_alloc := λ s, Some (above s); page_free_count := λ _, 0;
    vn_mmap := λ _ _, mret (0, None);
    mmobj_init := λ k, Mmobj k 0 0 [] (mmo_vmas []) None;
    mmobj_bottom_obj := λ h o, match h !! o with
      | Some x => match mmo_shadowed x, mmo_un x with
                  | Some _, mmo_bottom_obj b => b
                  | _, _ => o
                  end
      | None => o
      end;
    pt_unmap := λ pd a t, delete (pd, a) t;
    pt_unmap_range := λ pd lo hi t, filter (λ kv, ¬ (kv.1.1 = pd ∧ lo <= kv.1.2 < hi)) t;
  |}.
  - done.
  - done.
  - intros s a m mp v [= <-] Hm Hv He. apply (infinite_is_fresh (all_ids s)). rewrite <- He.
    unfold all_ids. apply list_elem_of_In, in_concat. exists (ids (vmm_list mp)). split.
    + apply list_elem_of_In, list_elem_of_fmap. exists mp. split; [done|].
      apply list_elem_of_fmap. exists (m, mp). split; [done|]. by apply elem_of_map_to_list.
    + apply list_elem_of_In. unfold ids. apply list_elem_of_fmap. eauto.
  - intros s m [= <-]. apply not_elem_of_dom, is_fresh.
  - intros k s o [= <-]. apply not_elem_of_dom, is_fresh.
  - intros s p [= <-]. apply not_elem_of_dom, is_fresh.
  - intros s a [= <-]. apply above_nonnull.
  - intros s a p x [= <-] Hx%above_frames. by right.
  - done.
  - done.
  - done.
  - done.
  - intros h o x -> ->. done.
  - intros h o x b -> [q ->] ->. done.
  - intros pd lo hi t pd' a. rewrite map_lookup_filter. case_decide as Hd.
    + destruct (t !! (pd', a)); simpl; [|done]. by rewrite option_guard_False by tauto.
    + destruct (t !! (pd', a)); simpl; [|done]. by rewrite option_guard_True.
Defined.

#[local] Instance quiet : Machine := {| intr_wait := λ _ s, s; intr_fuel := 4%nat |}.
#[local] Existing Instance some_errno.

(** Objects that need nothing done when a reference is dropped. *)
Definition plain : vtable := {|
  o_ref := λ _, mret (); o_put := λ _, mret (); o_lookuppage := λ _ _ _, mret (0, None);
  o_fillpage := λ _ _, mret 0; o_dirtypage := λ _ _, mret 0; o_cleanpage := λ _ _, mret 0 |}.

Definition area (id : aptr) (st en : Z) (o : optr) : vmarea :=
  Vmarea id st en 0 3 2 (Some 1%positive) (Some o).
Definition map1 : vmmap := Vmmap [area 1 1024 1030 5; area 2 1040 1050 5] (Some 12%positive).
Definition proc1 : proc := Proc 2 "p" [] [] None 0 PROC_RUNNING (Some 8192).
Definition k0 : kst :=
  Kst ∅ ∅ ∅ {[12%positive := proc1]} None (Some 12%positive) IPL_LOW [] None 0.
(** Object 5 shadows object 6; [l] are the areas of address space 1. *)
Definition st (l : list vmarea) : vst :=
  Vst k0 (list_to_map [(5%positive, Mmobj shadow_mmobj_ops 2 0 [] (mmo_bottom_obj 6%positive) (Some 6%positive));
                       (6%positive, Mmobj anon_mmobj_ops 1 0 [] (mmo_vmas []) None)])
      ∅ [] [] 0 0 ∅ (λ _, 0) {[1%positive := Vmmap l (Some 12%positive)]} ∅ ∅ no_fs.
Definition areas1 : list vmarea := [area 1 1024 1030 5; area 2 1040 1050 5].
Definition st1 : vst := st areas1.

Lemma vmmap_insert_adds_witness :
  ∃ s' mp', vmmap_insert 1 (Vmarea 3 1030 1035 0 3 2 None (Some 5%positive)) st1 = Ret () s' ∧
    vmaps s' = <[1%positive := mp']> (vmaps st1) ∧ vma_id <$> lookup_area 1032 (vmm_list mp') = Some 3%positive.
Proof.
  destruct (vmmap_insert_adds 1%positive (Vmmap areas1 (Some 12%positive))
    (Vmarea 3 1030 1035 0 3 2 None (Some 5%positive)) st1) as (s' & mp' & Hx & Hv & _ & Hl);
    [reflexivity|by_computation|reflexivity|by_computation|by_computation| |].
  - intros v [H1 H2]. simpl in H1, H2. apply lookup_area_None. intros a Ha Hc.
    repeat (apply elem_of_cons in Ha as [->|Ha]; [unfold covers in Hc; simpl in Hc; lia|]).
    by apply elem_of_nil in Ha.
  - exists s', mp'. split; [done|]. split; [done|]. rewrite Hl. reflexivity.
Defined.

Lemma vmmap_is_range_empty_correct_witness :
  ∃ r, vmmap_is_range_empty 1 1028 4 st1 = Ret r st1 ∧ r = 0.
Proof.
  destruct (vmmap_is_range_empty_correct 1%positive (Vmmap areas1 (Some 12%positive)) 1028 4 st1)
    as (r & Hx & [->| ->] & Hr); [reflexivity|by_computation..| |].
  - by exists 0.
  - exfalso. pose proof (proj1 Hr eq_refl 1028 ltac:(lia)) as Hn. discriminate Hn.
Defined.

Lemma vmmap_find_range_lowest_witness : ∃ r, vmmap_find_range 1 8 VMMAP_DIR_LOHI st1 = Ret r st1 ∧ r <= 1030.
Proof.
  destruct (vmmap_find_range_lowest 1%positive (Vmmap areas1 (Some 12%positive)) 8 st1)
    as (r & Hx & [[-> Hn]|[_ Hmin]]); [reflexivity|by_computation|done|by left| |].
  - by exists (-1).
  - exists r. split; [done|]. apply Hmin. split_and!; [by_computation|by_computation|].
    intros a Ha. repeat (apply elem_of_cons in Ha as [->|Ha]; [simpl; lia|]). by apply elem_of_nil in Ha.
Defined.

Lemma vmmap_find_range_highest_witness : ∃ r, vmmap_find_range 1 8 VMMAP_DIR_HILO st1 = Ret r st1 ∧ r = 786424.
Proof.
  destruct (vmmap_find_range_highest 1%positive (Vmmap areas1 (Some 12%positive)) 8 st1) as (r & Hx & _);
    [reflexivity|by_computation|done|done|].
  exists r. split; [done|]. vm_compute in Hx. by injection Hx as <-.
Defined.

Lemma vmmap_find_range_empty_panics_witness : vmmap_find_range 1 8 VMMAP_DIR_HILO (st []) = Panic "holder".
Proof. apply (vmmap_find_range_empty_panics 1%positive (Vmmap [] (Some 12%positive))); reflexivity. Defined.


Lemma vmmap_map_anon_private_witness :
  ∃ s' a, vmmap_map plain 1 None 0 8 3 2 0 VMMAP_DIR_LOHI st1 = Ret (0, Some a) s' ∧ vma_start a <= 1030.
Proof.
  destruct (vmmap_map_anon_private plain 1%positive (Vmmap areas1 (Some 12%positive)) 8 3 2 st1)
    as [[_ Hn]|(s' & mp' & a & o & sh & Hx & _ & Hmin & _)];
    [reflexivity|by_computation|done|by_computation|by_computation|intros; by eexists|intros; by eexists| |].
  all: assert (fits 8 PN_LOW PN_HIGH areas1 1030) as Hf by
    (split_and!; [by_computation|by_computation|]; intros b Hb;
     repeat (apply elem_of_cons in Hb as [->|Hb]; [simpl; lia|]); by apply elem_of_nil in Hb).
  - by destruct (Hn 1030).
  - exists s', a. split; [done|]. by apply Hmin.
Defined.

(** Every page is resident in frame 1. *)
Definition resident : vtable := {|
  o_ref := λ _, mret (); o_put := λ _, mret (); o_lookuppage := λ _ _ _, mret (0, Some 1%positive);
  o_fillpage := λ _ _, mret 0; o_dirtypage := λ _ _, mret 0; o_cleanpage := λ _ _, mret 0 |}.
Definition st2 : vst :=
  set_pframes (insert 1%positive (Pframe 8192 (Some 5%positive) 0 false false 0)) st1.

(** 8202 bytes from the start of page 1024 on: three pages. *)
Lemma vmmap_read_short_witness :
  ∃ bytes s', vmmap_read resident 1 4194304 8202 st2 = Ret (0, bytes) s' ∧ Z.of_nat (length bytes) < 8202.
Proof.
  assert (match vmmap_read resident 1 4194304 8202 st2 with Ret _ _ => true | _ => false end = true) as Hr
    by (vm_compute; reflexivity).
  destruct (vmmap_read resident 1 4194304 8202 st2) as [[r bytes] s'| | |] eqn:Hx; try discriminate Hr.
  destruct (vmmap_read_short resident 1%positive 4194304 8202 st2 r bytes s') as [-> Hl]; try by_computation; [done|].
  by exists bytes, s'.
Defined.
End VmmapEx.
