(* ===== verification/Vnode.v ===== *)
(** * Vnodes (vnode.c)

    The table of vnodes in use and their reference counts, and the
    operations of special files.  The operations of the file systems and of
    the devices are parameters, called through their tables of function
    pointers. *)

From S2P Require Import Prelude Kstate Sched Kmutex Vmstate Pframe.
Local Open Scope Z_scope.

(** [vnode_ops_t]; NULL entries are [None].  A name is the text at a
    [const char *] with a length; [*result] is [None] where the operation
    does not assign it. *)
Record vnode_ops_t := VnodeOps {
  op_read : option (vnptr → Z → Z → Z → V Z);
  op_write : option (vnptr → Z → Z → Z → V Z);
  op_mmap : option (vnptr → vmarea → V (Z * option optr));
  op_create : option (vnptr → path → nat → V (Z * option vnptr));
  op_mknod : option (vnptr → path → nat → Z → Z → V Z);
  op_lookup : option (vnptr → path → nat → V (Z * option vnptr));
  op_link : option (vnptr → vnptr → path → nat → V Z);
  op_unlink : option (vnptr → path → nat → V Z);
  op_mkdir : option (vnptr → path → nat → V Z);
  op_rmdir : option (vnptr → path → nat → V Z);
  op_readdir : option (vnptr → Z → Z → V Z);
  op_stat : option (vnptr → Z → V Z);
  op_fillpage : option (vnptr → Z → Z → V Z);
  op_dirtypage : option (vnptr → Z → V Z);
  op_cleanpage : option (vnptr → Z → Z → V Z);
}.

(** [bytedev_ops_t]. *)
Record bytedev_ops_t := BytedevOps {
  cd_read : option (Z → Z → Z → V Z);
  cd_write : option (Z → Z → Z → V Z);
  cd_mmap : vnptr → vmarea → V (Z * option optr);
  cd_fillpage : vnptr → Z → Z → V Z;
  cd_dirtypage : vnptr → Z → V Z;
  cd_cleanpage : vnptr → Z → Z → V Z;
}.

(** Around vnode.c: the file types of stat.h, the allocator, the file
    systems' tables of operations, and the devices. *)
Class VfsEnv := {
  S_ISDIR : Z → bool;
  S_ISCHR : Z → bool;
  S_ISBLK : Z → bool;
  S_ISREG : Z → bool;
  slab_alloc_vnode : vst → option (vnptr * optr);
  read_vnode : positive → option (vnptr → V ());
  query_vnode : positive → vnptr → V Z;
  delete_vnode : positive → option (vnptr → V ());
  fs_root : positive → vnptr;
  fs_vnode_ops : positive → vnode_ops_t;
  bytedev_lookup : Z → option positive;
  blockdev_lookup : Z → option positive;
  cd_ops : positive → option bytedev_ops_t;
  mode_excl : ∀ m, (Nat.b2n (S_ISDIR m) + Nat.b2n (S_ISCHR m) + Nat.b2n (S_ISBLK m)
    + Nat.b2n (S_ISREG m) <= 1)%nat;
}.

(** The operations of the memory objects, as page frames call them, and a
    bound on how often one call waits for a page. *)
Class Objects := { mm_ops : vtable; wait_fuel : nat }.

(** Reading and writing through a [vnode_t *]. *)
Definition vnode_at (vn : vnptr) : V vnode :=
  λ s, match vnodes (v_fs s) !! vn with Some x => Ret x s | None => Panic "vnode_t" end.
Definition upd_vnode (vn : vnptr) (f : vnode → vnode) : V () :=
  λ s, match vnodes (v_fs s) !! vn with
       | Some x => Ret () (set_fs (set_vnodes (insert vn (f x))) s)
       | None => Panic "vnode_t"
       end.

(** [vn_mmobj], with [vn_refcount] and [vn_nrespages]. *)
Definition mmobj_of (vn : vnptr) : V mmobj := v ← vnode_at vn; mmobj_at (vn_mmobj v).
Definition upd_mmobj_of (vn : vnptr) (f : mmobj → mmobj) : V () :=
  v ← vnode_at vn; upd_mmobj (vn_mmobj v) f.

Definition vn_waitq (vn : vnptr) : qid := other_q vn~1.
Definition vn_mutex (vn : vnptr) : mid := vn.

Definition vref (vn : vnptr) : V () :=
  o ← mmobj_of vn;
  KASSERT (0 <? mmo_refcount o) "0 < vn->vn_refcount";;
  upd_mmobj_of vn (with_refcount (λ n, n + 1)).

Section vnode.
Context `{VmEnv} `{VfsEnv} `{Machine} `{Errno}.

Definition init_special_vnode (vn : vnptr) : V () :=
  v ← vnode_at vn;
  if S_ISCHR (vn_mode v) then
    upd_vnode vn (with_special bytedev_spec_vops (bytedev_lookup (vn_devid v)))
  else
    KASSERT (S_ISBLK (vn_mode v)) "S_ISBLK(vn->vn_mode)";;
    upd_vnode vn (with_special blockdev_spec_vops (blockdev_lookup (vn_devid v))).

(** The search of [vnode_inuse_list]. *)
Fixpoint find_vnode (fs : positive) (vno : Z) (l : list vnptr) : V (option vnptr) :=
  match l with
  | [] => mret None
  | vn :: l' =>
      v ← vnode_at vn;
      if bool_decide (vn_fs v = fs) && (vn_vno v =? vno) then mret (Some vn)
      else find_vnode fs vno l'
  end.

(** Initialising a vnode just allocated at [vn], its memory object at [o],
    and reading it in. *)
Definition bring_in (fs : positive) (vno : Z) (vn : vnptr) (o : optr) : V vnptr :=
  modify (set_fs (set_vnodes (insert vn (Vnode None fs vno 0 0 0 0 None false o))));;
  lift (kmutex_init (vn_mutex vn));;
  modify (set_mmobjs (insert o (mmobj_init (vnode_mmobj_ops vn))));;
  lift (sched_queue_init (vn_waitq vn));;
  upd_vnode vn (with_vbusy true);;
  modify (set_fs (set_inuse (cons vn)));;
  rd ← deref (read_vnode fs) "vn->vn_fs->fs_op && vn->vn_fs->fs_op->read_vnode";
  rd vn;;
  upd_vnode vn (with_vbusy false);;
  v ← vnode_at vn;
  (if S_ISCHR (vn_mode v) || S_ISBLK (vn_mode v) then init_special_vnode vn else mret ());;
  upd_mmobj_of vn (with_refcount (λ _, 1));;
  mret vn.

(** [goto find] after waiting is the recursive call. *)
Fixpoint vget (fuel : nat) (fs : positive) (vno : Z) : V vnptr :=
  s ← get;
  r ← find_vnode fs vno (vnode_inuse_list (v_fs s));
  match r with
  | Some vn =>
      v ← vnode_at vn;
      if vn_busy v then
        lift (sched_sleep_on (vn_waitq vn));;
        match fuel with O => idle | S fuel' => vget fuel' fs vno end
      else vref vn;; mret vn
  | None =>
      match slab_alloc_vnode s with
      | None =>
          t ← lift cur_thread;
          lift (sched_make_runnable t);;
          lift sched_switch;;
          match fuel with O => idle | S fuel' => vget fuel' fs vno end
      | Some (vn, o) => bring_in fs vno vn o
      end
  end.

Definition vnode_inuse (fs : positive) : V Z :=
  s ← get;
  (fix count (l : list vnptr) (n : Z) : V Z :=
     match l with
     | [] => mret n
     | vn :: l' =>
         v ← vnode_at vn;
         count l' (if bool_decide (vn_fs v = fs) then n + 1 else n)
     end) (vnode_inuse_list (v_fs s)) 0.

(** The loop of [vfs_is_in_use]. *)
Fixpoint in_use_loop (fs : positive) (l : list vnptr) (ret : Z) : V Z :=
  match l with
  | [] => mret ret
  | vn :: l' =>
      v ← vnode_at vn;
      o ← mmobj_at (vn_mmobj v);
      KASSERT (mmo_nrespages o <=? mmo_refcount o) "vn->vn_refcount >= vn->vn_nrespages";;
      KASSERT (0 <=? mmo_nrespages o) "vn->vn_nrespages >= 0";;
      if bool_decide (fs ≠ vn_fs v) then in_use_loop fs l' ret
      else
        let refs := mmo_refcount o - mmo_nrespages o in
        let root := bool_decide (fs_root (vn_fs v) = vn) in
        KASSERT (0 <=? refs) "0 <= refs";;
        KASSERT ((root && (1 <=? refs)) || (negb root && (0 <=? refs)))
          "((vn->vn_fs->fs_root == vn) && (1 <= refs)) || ((vn->vn_fs->fs_root != vn) && (0 <= refs))";;
        in_use_loop fs l'
          (if (root && (1 <? refs)) || (negb root && negb (refs =? 0)) then - EBUSY else ret)
  end.

Definition vfs_is_in_use (fs : positive) : V Z :=
  s ← get; in_use_loop fs (vnode_inuse_list (v_fs s)) 0.

(** ** Special files *)

Definition special_file_stat (vn : vnptr) (ss : Z) : V Z :=
  v ← vnode_at vn;
  r ← vnode_at (fs_root (vn_fs v));
  match vn_ops r with
  | Some (fs_vops n) =>
      st ← deref (op_stat (fs_vnode_ops n)) "vnode->vn_fs->fs_root->vn_ops->stat != NULL";
      st vn ss
  | _ => panic "vnode->vn_fs->fs_root->vn_ops"
  end.

Definition special_file_read (vn : vnptr) (offset buf count : Z) : V Z :=
  v ← vnode_at vn;
  KASSERT (S_ISCHR (vn_mode v) || S_ISBLK (vn_mode v)) "S_ISCHR || S_ISBLK";;
  if S_ISBLK (vn_mode v) then mret (- ENOTSUP)
  else
    d ← deref (vn_dev v) "file->vn_cdev";
    ops ← deref (cd_ops d) "file->vn_cdev->cd_ops";
    rd ← deref (cd_read ops) "file->vn_cdev->cd_ops->read";
    rd offset buf count.

Definition special_file_write (vn : vnptr) (offset buf count : Z) : V Z :=
  v ← vnode_at vn;
  KASSERT (S_ISCHR (vn_mode v) || S_ISBLK (vn_mode v)) "S_ISCHR || S_ISBLK";;
  if S_ISBLK (vn_mode v) then mret (- ENOTSUP)
  else
    d ← deref (vn_dev v) "file->vn_cdev";
    ops ← deref (cd_ops d) "file->vn_cdev->cd_ops";
    wr ← deref (cd_write ops) "file->vn_cdev->cd_ops->write";
    wr offset buf count.

(** The virtual memory operations of a special file pass the call on to the
    device. *)
Definition to_device {A} (vn : vnptr) (unsupported : A) (f : bytedev_ops_t → V A) : V A :=
  v ← vnode_at vn;
  if S_ISBLK (vn_mode v) then mret unsupported
  else
    d ← deref (vn_dev v) "file->vn_cdev";
    ops ← deref (cd_ops d) "file->vn_cdev->cd_ops";
    f ops.

Definition special_file_mmap (vn : vnptr) (vma : vmarea) : V (Z * option optr) :=
  to_device vn (- ENOTSUP, None) (λ ops, cd_mmap ops vn vma).
Definition special_file_fillpage (vn : vnptr) (offset pagebuf : Z) : V Z :=
  to_device vn (- ENOTSUP) (λ ops, cd_fillpage ops vn offset pagebuf).
Definition special_file_dirtypage (vn : vnptr) (offset : Z) : V Z :=
  to_device vn (- ENOTSUP) (λ ops, cd_dirtypage ops vn offset).
Definition special_file_cleanpage (vn : vnptr) (offset pagebuf : Z) : V Z :=
  to_device vn (- ENOTSUP) (λ ops, cd_cleanpage ops vn offset pagebuf).

Definition bytedev_vops : vnode_ops_t := {|
  op_read := Some special_file_read;
  op_write := Some special_file_write;
  op_mmap := Some special_file_mmap;
  op_create := None; op_mknod := None; op_lookup := None; op_link := None;
  op_unlink := None; op_mkdir := None; op_rmdir := None; op_readdir := None;
  op_stat := Some special_file_stat;
  op_fillpage := Some special_file_fillpage;
  op_dirtypage := Some special_file_dirtypage;
  op_cleanpage := Some special_file_cleanpage |}.

Definition blockdev_vops : vnode_ops_t := {|
  op_read := None; op_write := None; op_mmap := None;
  op_create := None; op_mknod := None; op_lookup := None; op_link := None;
  op_unlink := None; op_mkdir := None; op_rmdir := None; op_readdir := None;
  op_stat := Some special_file_stat;
  op_fillpage := None; op_dirtypage := None; op_cleanpage := None |}.

(** [vn->vn_ops]. *)
Definition vops_tab (k : vops) : vnode_ops_t :=
  match k with
  | bytedev_spec_vops => bytedev_vops
  | blockdev_spec_vops => blockdev_vops
  | fs_vops n => fs_vnode_ops n
  end.

Definition vops_of (vn : vnptr) : V vnode_ops_t :=
  v ← vnode_at vn;
  k ← deref (vn_ops v) "vn->vn_ops";
  mret (vops_tab k).

(** ** Giving references up *)

Section vput.
Context `{Objects}.

(** [while (pframe_is_busy(vp)) sched_sleep_on(&(vp->pf_waitq));] *)
Fixpoint wait_not_busy (fuel : nat) (pf : pfptr) : V () :=
  x ← pframe_at pf;
  if pf_busy x then
    lift (sched_sleep_on (pf_waitq pf));;
    match fuel with O => idle | S fuel' => wait_not_busy fuel' pf end
  else mret ().

Fixpoint uncache_pages (l : list pfptr) : V () :=
  match l with
  | [] => mret ()
  | pf :: l' => wait_not_busy wait_fuel pf;; pframe_free mm_ops pf;; uncache_pages l'
  end.

(** What [vput] does when the last reference is gone. *)
Definition free_vnode (vn : vnptr) : V () :=
  v ← vnode_at vn;
  o ← mmobj_at (vn_mmobj v);
  KASSERT (mmo_refcount o =? 0) "0 == vn->vn_refcount";;
  KASSERT (mmo_nrespages o =? 0) "0 == vn->vn_nrespages";;
  upd_vnode vn (with_vbusy true);;
  match delete_vnode (vn_fs v) with Some del => del vn | None => mret () end;;
  lift (sched_broadcast_on (vn_waitq vn));;
  modify (set_fs (set_inuse (filter (λ x, x ≠ vn))));;
  modify (set_fs (set_vnodes (delete vn)));;
  modify (set_mmobjs (delete (vn_mmobj v))).

Definition vput (vn : vnptr) : V () :=
  v ← vnode_at vn;
  o ← mmobj_at (vn_mmobj v);
  KASSERT (0 <=? mmo_nrespages o) "0 <= vn->vn_nrespages";;
  KASSERT (mmo_nrespages o <? mmo_refcount o) "vn->vn_nrespages < vn->vn_refcount";;
  KASSERT (negb (vn_busy v)) "!(VN_BUSY & vn->vn_flags)";;
  (if mmo_nrespages o =? mmo_refcount o - 1 then
     q ← query_vnode (vn_fs v) vn;
     if q =? 0 then
       o1 ← mmobj_of vn;
       uncache_pages (mmo_respages o1);;
       o2 ← mmobj_of vn;
       KASSERT (mmo_nrespages o2 =? 0) "0 == vn->vn_nrespages";;
       KASSERT (mmo_refcount o2 =? 1) "1 == vn->vn_refcount"
     else mret ()
   else mret ());;
  upd_mmobj_of vn (with_refcount (λ n, n - 1));;
  o3 ← mmobj_of vn;
  if 0 <? mmo_refcount o3 then mret () else free_vnode vn.

(** The first dirty page of a vnode in use, in the order of the loops. *)
Fixpoint dirty_page (l : list pfptr) : V (option pfptr) :=
  match l with
  | [] => mret None
  | p :: l' => x ← pframe_at p; if pf_dirty x then mret (Some p) else dirty_page l'
  end.

Fixpoint dirty_vnode_page (l : list vnptr) : V (option pfptr) :=
  match l with
  | [] => mret None
  | vn :: l' =>
      o ← mmobj_of vn;
      r ← dirty_page (mmo_respages o);
      match r with Some p => mret (Some p) | None => dirty_vnode_page l' end
  end.

(** [clean:] and [goto clean]. *)
Fixpoint flush_dirty (fuel : nat) : V () :=
  s ← get;
  r ← dirty_vnode_page (vnode_inuse_list (v_fs s));
  match r with
  | None => mret ()
  | Some p =>
      err ← pframe_clean mm_ops p;
      KASSERT (err =? 0) "!err";;
      match fuel with O => idle | S fuel' => flush_dirty fuel' end
  end.

Fixpoint free_clean (l : list pfptr) : V () :=
  match l with
  | [] => mret ()
  | p :: l' =>
      x ← pframe_at p;
      KASSERT (negb (pf_dirty x)) "!pframe_is_dirty(p)";;
      pframe_free mm_ops p;;
      free_clean l'
  end.

Fixpoint uncache_vnodes (l : list vnptr) : V () :=
  match l with
  | [] => mret ()
  | vn :: l' => o ← mmobj_of vn; free_clean (mmo_respages o);; uncache_vnodes l'
  end.

Definition vnode_flush_all (fs : positive) : V () :=
  flush_dirty wait_fuel;;
  s ← get;
  uncache_vnodes (vnode_inuse_list (v_fs s)).
End vput.
End vnode.
