(* ===== verification/VnodeProps.v ===== *)
(** * Properties of vnodes

    The references that users of vnodes hold, and how [vref], [vput] and
    [vget] account for them.  A file system is seen through the directory
    entries, the type and the link count of its inodes. *)

From S2P Require Import Prelude Kstate Sched Kmutex Vmstate Pframe Vnode.
Local Open Scope Z_scope.

(** An inode: its file system and number. *)
Abbreviation ino := (positive * Z)%type.

(** File systems keep their data in memory and on the block devices. *)
Abbreviation fsdata := ((Z → Z) * (Z → Z))%type.
Definition data (s : vst) : fsdata := (mem s, disk (v_fs s)).
Definition set_data (m d : Z → Z) (s : vst) : vst := set_mem (λ _, m) (set_fs (set_disk d) s).

Definition inode (x : vnode) : ino := (vn_fs x, vn_vno x).

(** The references to a vnode other than those of its resident pages. *)
Definition held (s : vst) (v : vnptr) : Z :=
  match vnodes (v_fs s) !! v with
  | Some x => match mmobjs s !! vn_mmobj x with
              | Some o => mmo_refcount o - mmo_nrespages o
              | None => 0
              end
  | None => 0
  end.

Definition refcount (s : vst) (v : vnptr) : Z :=
  match vnodes (v_fs s) !! v with
  | Some x => default 0 (mmo_refcount <$> mmobjs s !! vn_mmobj x)
  | None => 0
  end.

(** [one v w] is the contribution to [held] of [w] of a reference to [v]. *)
Definition one (v w : vnptr) : Z := if decide (w = v) then 1 else 0.

Lemma one_nonneg v w : 0 <= one v w.
Proof. unfold one. case_decide; lia. Qed.

Lemma one_same v : one v v = 1.
Proof. unfold one. by rewrite decide_True. Qed.

(** Accounting of references: the goal is about [held], sums of [one], and
    references [G] known to be nonnegative. *)
Ltac ledger :=
  let w := fresh "w" in
  intros w; cbn beta;
  repeat match goal with Hh : ∀ u, held ?s u = _ |- context [held ?s w] => rewrite (Hh w) end;
  repeat match goal with Hg : ∀ u, 0 <= _ |- _ => specialize (Hg w) end; cbn beta in *;
  repeat match goal with
         | |- context [one ?v w] =>
             lazymatch goal with
             | _ : 0 <= one v w |- _ => fail
             | _ => pose proof (one_nonneg v w)
             end
         end;
  lia.

(** What the data of a file system says of its inodes. *)
Class FsView := {
  dirent : fsdata → ino → path → option ino;
  isdir : fsdata → ino → bool;
  linked : fsdata → ino → bool;
  dirent_linked : ∀ D i n j, linked D i = true → dirent D i n = Some j → linked D j = true;
}.

Definition same_at `{FsView} (D D' : fsdata) (i : ino) : Prop :=
  linked D' i = linked D i ∧ isdir D' i = isdir D i ∧ ∀ n, dirent D' i n = dirent D i n.

(** Directories, and only they, have the operations on directories. *)
Definition dir_ops (b : bool) (ops : vnode_ops_t) : Prop :=
  (is_Some (op_lookup ops) ↔ b = true) ∧ (is_Some (op_mkdir ops) ↔ b = true) ∧
  (is_Some (op_rmdir ops) ↔ b = true).

Section vinv.
Context {VE : VmEnv} {FE : VfsEnv} {MA : Machine} {ER : Errno} {FV : FsView}.

Record vnode_ok (s : vst) (v : vnptr) (x : vnode) : Prop := {
  ok_obj : ∃ o, mmobjs s !! vn_mmobj x = Some o ∧ mmo_ops o = vnode_mmobj_ops v ∧
    0 < mmo_refcount o ∧ mmo_nrespages o <= mmo_refcount o ∧
    mmo_nrespages o = Z.of_nat (length (mmo_respages o)) ∧
    (linked (data s) (inode x) = false → mmo_respages o = []);
  ok_busy : vn_busy x = false;
  ok_waitq : tq_list (queue (v_k s) (vn_waitq v)) = [];
  ok_mode : S_ISDIR (vn_mode x) = isdir (data s) (inode x);
  ok_ops : ∃ k, vn_ops x = Some k ∧ dir_ops (isdir (data s) (inode x)) (vops_tab k);
}.

(** Outside [vget] and [vput]. *)
Record vinv (s : vst) : Prop := {
  vi_ok : ∀ v x, vnodes (v_fs s) !! v = Some x → vnode_ok s v x;
  vi_uniq : ∀ v w x y, vnodes (v_fs s) !! v = Some x → vnodes (v_fs s) !! w = Some y →
    inode x = inode y → v = w;
  vi_list : ∀ v, v ∈ vnode_inuse_list (v_fs s) ↔ is_Some (vnodes (v_fs s) !! v);
}.

(** In the state of the processes only the mutexes of vnodes may differ, and
    queues of vnodes may have been initialised. *)
Record same_procs (k k' : kst) : Prop := {
  sp_threads : threads k' = threads k;
  sp_queues : ∀ q, queue k' q = queue k q ∨
    queue k' q = Ktqueue [] 0 ∧ ∃ v, q = vn_waitq v ∨ q = km_waitq (vn_mutex v);
  sp_procs : procs k' = procs k;
  sp_curthr : curthr k' = curthr k;
  sp_curproc : curproc k' = curproc k;
  sp_ipl : ipl k' = ipl k;
  sp_list : proc_list k' = proc_list k;
  sp_init : proc_initproc k' = proc_initproc k;
  sp_next : next_pid k' = next_pid k;
}.

#[global] Instance same_procs_preorder : PreOrder same_procs.
Proof.
  split; [split; auto|]. intros k1 k2 k3 H12 H23. destruct H12 as [? Q12], H23 as [? Q23]. split; try congruence.
  intros q. destruct (Q23 q) as [->|?]; [apply Q12|by right].
Qed.

(** What does not change for the users of the file system, apart from their
    references: open files, descriptors and working directories, the root,
    linked inodes, and the vnodes that stay referenced. *)
Record vframe (s s' : vst) : Prop := {
  vf_files : files (v_fs s') = files (v_fs s);
  vf_procfs : procfs (v_fs s') = procfs (v_fs s);
  vf_root : vfs_root_vn (v_fs s') = vfs_root_vn (v_fs s);
  vf_procs : same_procs (v_k s) (v_k s');
  vf_view : ∀ i, linked (data s) i = true → same_at (data s) (data s') i;
  vf_vnode : ∀ v x, vnodes (v_fs s) !! v = Some x → 1 <= held s v → 1 <= held s' v →
    vnodes (v_fs s') !! v = Some x;
}.

Lemma vframe_refl s : vframe s s.
Proof. split; try done. Qed.

Lemma vframe_trans s1 s2 s3 :
  vframe s1 s2 → vframe s2 s3 →
  (∀ v, 1 <= held s1 v → 1 <= held s3 v → 1 <= held s2 v) →
  vframe s1 s3.
Proof.
  intros F1 F2 Hh. split.
  - rewrite (vf_files _ _ F2). apply F1.
  - rewrite (vf_procfs _ _ F2). apply F1.
  - rewrite (vf_root _ _ F2). apply F1.
  - by etrans; [apply F1|apply F2].
  - intros i Hi. destruct (vf_view _ _ F1 i Hi) as (L1 & D1 & E1).
    destruct (vf_view _ _ F2 i) as (L2 & D2 & E2); [congruence|].
    split; [congruence|]. split; [congruence|]. intros n. by rewrite E2.
  - intros v x Hx H1 H3. apply (vf_vnode _ _ F2); [|auto..]. apply F1; auto.
Qed.

(** Vnodes have different memory objects. *)
Lemma mmobj_inj s v w x y :
  vinv s → vnodes (v_fs s) !! v = Some x → vnodes (v_fs s) !! w = Some y →
  vn_mmobj x = vn_mmobj y → v = w.
Proof.
  intros Hi Hx Hy Heq. destruct (ok_obj _ _ _ (vi_ok _ Hi _ _ Hx)) as (o & Ho & Hv & _).
  destruct (ok_obj _ _ _ (vi_ok _ Hi _ _ Hy)) as (o' & Ho' & Hw & _). congruence.
Qed.

Lemma held_pos s v : 1 <= held s v → ∃ x o, vnodes (v_fs s) !! v = Some x ∧
  mmobjs s !! vn_mmobj x = Some o ∧ held s v = mmo_refcount o - mmo_nrespages o.
Proof.
  unfold held. destruct (vnodes _ !! v) as [x|]; [|lia].
  destruct (mmobjs s !! vn_mmobj x) as [o|] eqn:?; [eauto|lia].
Qed.

Lemma held_nonneg s v : vinv s → 0 <= held s v.
Proof.
  intros Hi. unfold held. destruct (vnodes _ !! v) as [x|] eqn:Hx; [|done].
  destruct (ok_obj _ _ _ (vi_ok _ Hi _ _ Hx)) as (o & -> & _ & _ & ? & _). lia.
Qed.

(** The state with [n] more references to the vnode whose object is at [p]. *)
Definition bump (p : optr) (o : mmobj) (n : Z) (s : vst) : vst :=
  set_mmobjs (insert p (with_refcount (λ r, r + n) o)) s.

Lemma bump_ok s v x o n :
  vinv s → vnodes (v_fs s) !! v = Some x → mmobjs s !! vn_mmobj x = Some o →
  0 < mmo_refcount o + n → mmo_nrespages o <= mmo_refcount o + n →
  vinv (bump (vn_mmobj x) o n s) ∧ vframe s (bump (vn_mmobj x) o n s) ∧
  ∀ w, held (bump (vn_mmobj x) o n s) w = held s w + n * one v w.
Proof.
  intros Hi Hx Ho Hpos Hres. split_and!.
  - split; [|apply Hi..]. intros w y Hy. change (vnodes (v_fs s) !! w = Some y) in Hy.
    destruct (vi_ok _ Hi w y Hy) as [(o' & Ho' & Hr) ? ? ? ?].
    split; [|done..]. unfold bump. simpl. destruct (decide (w = v)) as [->|Hne].
    + assert (y = x) as -> by congruence. assert (o' = o) as -> by congruence.
      rewrite lookup_insert_eq. eexists. split; [done|]. simpl. tauto.
    + rewrite lookup_insert_ne; [by exists o'|].
      intros Heq. by destruct Hne, (mmobj_inj s v w x y).
  - split; try done.
  - intros w. unfold held, bump, one. cbn [v_fs mmobjs set_mmobjs]. case_decide as Hw.
    + subst w. rewrite Hx, Ho, lookup_insert_eq. simpl. lia.
    + destruct (vnodes _ !! w) as [y|] eqn:Hy; [|lia].
      rewrite lookup_insert_ne; [lia|]. intros Heq. by destruct Hw, (mmobj_inj s v w x y).
Qed.

Lemma vnode_at_eq s v x : vnodes (v_fs s) !! v = Some x → vnode_at v s = Ret x s.
Proof. intros Hx. unfold vnode_at. by rewrite Hx. Qed.

Lemma upd_vnode_eq s v x f :
  vnodes (v_fs s) !! v = Some x → upd_vnode v f s = Ret () (set_fs (set_vnodes (insert v (f x))) s).
Proof. intros Hx. unfold upd_vnode. by rewrite Hx. Qed.

Lemma mmobj_at_eq s p o : mmobjs s !! p = Some o → mmobj_at p s = Ret o s.
Proof. intros Ho. unfold mmobj_at. by rewrite Ho. Qed.

Lemma mmobj_of_eq s v x o :
  vnodes (v_fs s) !! v = Some x → mmobjs s !! vn_mmobj x = Some o → mmobj_of v s = Ret o s.
Proof. intros Hx Ho. unfold mmobj_of. msimpl. rewrite (vnode_at_eq _ _ _ Hx). by apply mmobj_at_eq. Qed.

Lemma upd_mmobj_of_eq s v x o f :
  vnodes (v_fs s) !! v = Some x → mmobjs s !! vn_mmobj x = Some o →
  upd_mmobj_of v f s = Ret () (set_mmobjs (insert (vn_mmobj x) (f o)) s).
Proof.
  intros Hx Ho. unfold upd_mmobj_of, upd_mmobj. msimpl. rewrite (vnode_at_eq _ _ _ Hx). cbn [obind].
  by rewrite Ho.
Qed.

(** [vref] adds one reference; the vnode may be referenced by its pages
    only. *)
Lemma vref_spec s v x :
  vinv s → vnodes (v_fs s) !! v = Some x →
  ∃ s', vref v s = Ret () s' ∧ vinv s' ∧ vframe s s' ∧ vnodes (v_fs s') = vnodes (v_fs s) ∧
    1 < refcount s' v ∧ ∀ w, held s' w = held s w + one v w.
Proof.
  intros Hi Hx. destruct (ok_obj _ _ _ (vi_ok _ Hi _ _ Hx)) as (o & Ho & _ & Hr & Hn & _).
  exists (bump (vn_mmobj x) o 1 s).
  destruct (bump_ok s v x o 1) as (Hi' & Hf & Hh); [done..|lia|lia|].
  split_and!; [|done..| |intros w; rewrite Hh; lia].
  2:{ unfold refcount. change (vnodes (v_fs (bump _ _ _ _))) with (vnodes (v_fs s)). rewrite Hx.
      unfold bump. simpl. rewrite lookup_insert_eq. simpl. lia. }
  unfold vref. msimpl. rewrite (mmobj_of_eq _ _ _ _ Hx Ho). cbn [obind].
  replace (0 <? mmo_refcount o) with true by lia. cbn [obind]. by rewrite (upd_mmobj_of_eq _ _ _ _ _ Hx Ho).
Qed.

(** What the file systems' operations on inodes do: [query_vnode] tells
    whether the inode is linked, [delete_vnode] writes it back, or frees it
    when it is not linked. *)
Class FsInodes := {
  query_spec : ∀ s v x, vinv s → vnodes (v_fs s) !! v = Some x →
    ∃ q, query_vnode (vn_fs x) v s = Ret q s ∧ (q = 0 ↔ linked (data s) (inode x) = false);
  delete_spec : ∀ s v x del, vnodes (v_fs s) !! v = Some x → delete_vnode (vn_fs x) = Some del →
    ∃ m d, del v s = Ret () (set_data m d s) ∧
      ∀ i, i ≠ inode x ∨ linked (data s) i = true → same_at (data s) (m, d) i;
}.

Section vput.
Context {FI : FsInodes} {OB : Objects}.

Lemma set_data_id s : set_data (mem s) (disk (v_fs s)) s = s.
Proof. by destruct s as [??????????? ? []]. Qed.

Lemma delete_vnode_eq s v x :
  vnodes (v_fs s) !! v = Some x →
  ∃ m d, (match delete_vnode (vn_fs x) with Some del => del v | None => mret () end) s =
    Ret () (set_data m d s) ∧ ∀ i, i ≠ inode x ∨ linked (data s) i = true → same_at (data s) (m, d) i.
Proof.
  intros Hx. destruct (delete_vnode (vn_fs x)) as [del|] eqn:Hd; [by eapply delete_spec|].
  exists (mem s), (disk (v_fs s)). by rewrite set_data_id.
Qed.

(** The state after the vnode is freed. *)
Definition freed (v : vnptr) (p : optr) (m d : Z → Z) (s s' : vst) : Prop :=
  vnodes (v_fs s') = delete v (vnodes (v_fs s)) ∧ mmobjs s' = delete p (mmobjs s) ∧
  vnode_inuse_list (v_fs s') = filter (λ w, w ≠ v) (vnode_inuse_list (v_fs s)) ∧
  files (v_fs s') = files (v_fs s) ∧ procfs (v_fs s') = procfs (v_fs s) ∧
  vfs_root_vn (v_fs s') = vfs_root_vn (v_fs s) ∧ v_k s' = v_k s ∧ data s' = (m, d).

Lemma free_vnode_eq s v x o :
  vnodes (v_fs s) !! v = Some x → mmobjs s !! vn_mmobj x = Some o →
  tq_list (queue (v_k s) (vn_waitq v)) = [] → mmo_refcount o = 1 → mmo_nrespages o = 0 →
  ∃ m d s', free_vnode v (bump (vn_mmobj x) o (-1) s) = Ret () s' ∧ freed v (vn_mmobj x) m d s s' ∧
    ∀ i, i ≠ inode x ∨ linked (data s) i = true → same_at (data s) (m, d) i.
Proof.
  intros Hx Ho Hq Hr Hn. set (s1 := bump (vn_mmobj x) o (-1) s).
  set (s2 := set_fs (set_vnodes (insert v (with_vbusy true x))) s1).
  destruct (delete_vnode_eq s2 v (with_vbusy true x)) as (m & d & Hdel & Hsame);
    [apply lookup_insert_eq|].
  exists m, d. eexists. split; [|split; [|exact Hsame]].
  - unfold free_vnode. msimpl. rewrite (vnode_at_eq s1 v x Hx). cbn [obind].
    rewrite (mmobj_at_eq s1 _ (with_refcount (λ r, r + -1) o)) by apply lookup_insert_eq.
    cbn [obind mmo_refcount mmo_nrespages with_refcount]. rewrite Hr, Hn.
    change (1 + -1 =? 0) with true. change (0 =? 0) with true. cbn [obind].
    rewrite (upd_vnode_eq s1 v x _ Hx). cbn [obind].
    change (vn_fs (with_vbusy true x)) with (vn_fs x) in Hdel. unfold mret, M_ret in Hdel.
    fold s2. rewrite Hdel. cbn [obind]. rewrite broadcast_empty by done. cbn [obind]. reflexivity.
  - unfold freed. cbn. by rewrite delete_insert_eq, delete_insert_eq.
Qed.

Lemma freed_ok s v x o m d s' :
  vinv s → vnodes (v_fs s) !! v = Some x → mmobjs s !! vn_mmobj x = Some o →
  mmo_refcount o = 1 → mmo_nrespages o = 0 →
  freed v (vn_mmobj x) m d s s' →
  (∀ i, i ≠ inode x ∨ linked (data s) i = true → same_at (data s) (m, d) i) →
  vinv s' ∧ vframe s s' ∧ ∀ w, held s' w = held s w - one v w.
Proof.
  intros Hi Hx Ho Hr Hn (Hv & Hm & Hl & Hf & Hp & Hroot & Hk & Hd) Hsame.
  assert (∀ w, w ≠ v → ∀ y, vnodes (v_fs s) !! w = Some y →
    mmobjs s' !! vn_mmobj y = mmobjs s !! vn_mmobj y) as Hobj.
  { intros w Hw y Hy. rewrite Hm. apply lookup_delete_ne. intros He. by destruct Hw, (mmobj_inj s w v y x). }
  split_and!.
  - split.
    + intros w y. rewrite Hv. intros [Hw Hy]%lookup_delete_Some.
      destruct (Hsame (inode y)) as (Hlk & Hdir & _).
      { left. intros He. by destruct Hw, (vi_uniq _ Hi v w x y). }
      destruct (vi_ok _ Hi w y Hy) as [Hob Hb Hq Hmo Hop].
      split; rewrite ?Hd, ?Hk, ?(Hobj w), ?Hdir, ?Hlk by done; done.
    + intros w w' y y'. rewrite Hv. intros [_ Hy]%lookup_delete_Some [_ Hy']%lookup_delete_Some.
      by eapply vi_uniq.
    + intros w. rewrite Hl, Hv, list_elem_of_filter, (vi_list _ Hi), lookup_delete_is_Some. naive_solver.
  - split; [done..|by rewrite Hk| |].
    + intros i Hli. rewrite Hd. auto.
    + intros w y Hy Hh1 Hh2. rewrite Hv, lookup_delete_ne; [done|]. intros <-.
      unfold held in Hh2. rewrite Hv, lookup_delete_eq in Hh2. lia.
  - intros w. unfold held, one. rewrite Hv. case_decide as Hw.
    + subst w. rewrite lookup_delete_eq, Hx, Ho. lia.
    + rewrite lookup_delete_ne by done. destruct (vnodes _ !! w) as [y|] eqn:Hy; [|lia].
      rewrite (Hobj w) by done. lia.
Qed.

(** The part of [vput] that frees the pages of an unlinked file has no pages
    to free. *)
Lemma vput_prepare s v x o :
  vinv s → vnodes (v_fs s) !! v = Some x → mmobjs s !! vn_mmobj x = Some o →
  (if mmo_nrespages o =? mmo_refcount o - 1 then
     q ← query_vnode (vn_fs x) v;
     if q =? 0 then
       o1 ← mmobj_of v;
       uncache_pages (mmo_respages o1);;
       o2 ← mmobj_of v;
       KASSERT (mmo_nrespages o2 =? 0) "0 == vn->vn_nrespages";;
       KASSERT (mmo_refcount o2 =? 1) "1 == vn->vn_refcount"
     else mret ()
   else mret ()) s = Ret () s.
Proof.
  intros Hi Hx Ho. destruct (mmo_nrespages o =? mmo_refcount o - 1) eqn:Hlast; [|done].
  destruct (ok_obj _ _ _ (vi_ok _ Hi _ _ Hx)) as (o' & Ho' & _ & _ & _ & Hlen & Hunl).
  assert (o' = o) as -> by congruence.
  destruct (query_spec s v x Hi Hx) as (q & Hq & Hlk). msimpl. rewrite Hq. cbn [obind].
  destruct (q =? 0) eqn:Hq0; [|done].
  rewrite (Hunl (proj1 Hlk ltac:(lia))) in Hlen. cbn in Hlen.
  rewrite (mmobj_of_eq _ _ _ _ Hx Ho). cbn [obind]. rewrite (Hunl (proj1 Hlk ltac:(lia))).
  cbn [uncache_pages]. unfold mret, M_ret. cbn [obind]. rewrite (mmobj_of_eq _ _ _ _ Hx Ho). cbn [obind].
  replace (mmo_nrespages o =? 0) with true by lia. replace (mmo_refcount o =? 1) with true by lia. done.
Qed.

(** [vput] on the branches that are left. *)
Lemma vput_run s v x o :
  vinv s → vnodes (v_fs s) !! v = Some x → mmobjs s !! vn_mmobj x = Some o →
  mmo_nrespages o < mmo_refcount o →
  vput v s = (if 0 <? mmo_refcount o - 1 then mret () else free_vnode v) (bump (vn_mmobj x) o (-1) s).
Proof.
  intros Hi Hx Ho Hlt. destruct (vi_ok _ Hi _ _ Hx) as [(o' & Ho' & _ & _ & _ & Hlen & _) Hb _ _ _].
  assert (o' = o) as -> by congruence. unfold vput.
  rewrite (bind_step _ _ _ _ _ (vnode_at_eq _ _ _ Hx)), (bind_step _ _ _ _ _ (mmobj_at_eq _ _ _ Ho)).
  rewrite !bind_assert by (rewrite ?Hb; done || lia).
  rewrite (bind_step _ _ _ _ _ (vput_prepare s v x o Hi Hx Ho)).
  rewrite (bind_step _ _ _ _ _ (upd_mmobj_of_eq _ _ _ _ _ Hx Ho)).
  erewrite bind_step by (apply (mmobj_of_eq _ v x); [done|apply lookup_insert_eq]). done.
Qed.

(** [vput] gives one reference up, and frees the vnode with the last one. *)
Lemma vput_spec s v :
  vinv s → 1 <= held s v →
  ∃ s', vput v s = Ret () s' ∧ vinv s' ∧ vframe s s' ∧
    (vnodes (v_fs s') = if decide (refcount s v = 1) then delete v (vnodes (v_fs s)) else vnodes (v_fs s)) ∧
    ∀ w, held s' w = held s w - one v w.
Proof.
  intros Hi Hh. destruct (held_pos _ _ Hh) as (x & o & Hx & Ho & Heq).
  destruct (vi_ok _ Hi _ _ Hx) as [(o' & Ho' & _ & Hr & Hn & Hlen & _) _ Hq _ _].
  assert (o' = o) as -> by congruence.
  assert (refcount s v = mmo_refcount o) as Href by (unfold refcount; by rewrite Hx, Ho).
  rewrite (vput_run s v x o) by (done || lia). rewrite Href.
  destruct (0 <? mmo_refcount o - 1) eqn:Hlast.
  - exists (bump (vn_mmobj x) o (-1) s).
    destruct (bump_ok s v x o (-1)) as (Hi' & Hf & Hh'); [done..|lia|lia|].
    rewrite decide_False by lia. split_and!; [done..|]. intros w. rewrite Hh'. lia.
  - destruct (free_vnode_eq s v x o) as (m & d & s' & Hs' & Hfr & Hsame); [done..|lia|lia|].
    exists s'. rewrite decide_True by lia.
    destruct (freed_ok s v x o m d s') as (? & ? & ?); [done..|lia|lia|done|done|].
    split_and!; try done. apply Hfr.
Qed.
End vput.

(** [read_vnode] fills in what the inode says of the file; a vnode and its
    memory object are allocated where there was none. *)
Class FsRead := {
  vnode_fresh : ∀ s v p, slab_alloc_vnode s = Some (v, p) →
    vnodes (v_fs s) !! v = None ∧ mmobjs s !! p = None;
  read_spec : ∀ s v x rd, read_vnode (vn_fs x) = Some rd → vnodes (v_fs s) !! v = Some x →
    ∃ y, rd v s = Ret () (set_fs (set_vnodes (insert v y)) s) ∧ inode y = inode x ∧
      vn_mmobj y = vn_mmobj x ∧ vn_busy y = vn_busy x ∧
      S_ISDIR (vn_mode y) = isdir (data s) (inode x) ∧
      (S_ISCHR (vn_mode y) || S_ISBLK (vn_mode y) = false →
       ∃ k, vn_ops y = Some k ∧ dir_ops (isdir (data s) (inode x)) (vops_tab k));
}.

Section vget.
Context {FR : FsRead}.

Lemma find_vnode_spec s fs vno l :
  (∀ v, v ∈ l → is_Some (vnodes (v_fs s) !! v)) →
  ∃ r, find_vnode fs vno l s = Ret r s ∧
    match r with
    | Some v => v ∈ l ∧ ∃ x, vnodes (v_fs s) !! v = Some x ∧ inode x = (fs, vno)
    | None => ∀ v x, v ∈ l → vnodes (v_fs s) !! v = Some x → inode x ≠ (fs, vno)
    end.
Proof.
  induction l as [|v l IH]; intros Hl.
  { exists None. split; [done|]. by intros v x ?%elem_of_nil. }
  destruct (Hl v) as [x Hx]; [by left|].
  cbn [find_vnode]. rewrite (bind_step _ _ _ _ _ (vnode_at_eq _ _ _ Hx)).
  destruct (bool_decide (vn_fs x = fs) && (vn_vno x =? vno)) eqn:Hm.
  - exists (Some v). split; [done|]. split; [by left|]. exists x. split; [done|].
    apply andb_true_iff in Hm as [?%bool_decide_eq_true ?]. unfold inode. f_equal; [done|lia].
  - destruct IH as (r & Hr & Hs); [intros w Hw; apply Hl; by right|].
    exists r. split; [done|]. destruct r as [w|].
    + destruct Hs as [Hw Hs]. split; [by right|done].
    + intros w y [->|Hw]%elem_of_cons Hy; [|by apply (Hs w)].
      rewrite Hx in Hy. simplify_eq. unfold inode. intros [= <- <-].
      by rewrite bool_decide_eq_true_2, Z.eqb_refl in Hm.
Qed.

Lemma special_not_dir m : S_ISCHR m || S_ISBLK m = true → S_ISDIR m = false.
Proof.
  intros Hs. pose proof (mode_excl m). destruct (S_ISDIR m), (S_ISCHR m), (S_ISBLK m); simpl in *; done || lia.
Qed.

Lemma init_special_vnode_spec s v x :
  vnodes (v_fs s) !! v = Some x → S_ISCHR (vn_mode x) || S_ISBLK (vn_mode x) = true →
  ∃ k dev, init_special_vnode v s = Ret () (set_fs (set_vnodes (insert v (with_special k dev x))) s) ∧
    dir_ops false (vops_tab k).
Proof.
  intros Hx Hs. unfold init_special_vnode. rewrite (bind_step _ _ _ _ _ (vnode_at_eq _ _ _ Hx)).
  assert (∀ ops, op_lookup ops = None → op_mkdir ops = None → op_rmdir ops = None → dir_ops false ops) as Hno.
  { intros ops H1 H2 H3. unfold dir_ops. rewrite H1, H2, H3.
    split_and!; split; [intros []|done|intros []|done|intros []|done]; done. }
  destruct (S_ISCHR (vn_mode x)) eqn:Hc.
  - do 2 eexists. rewrite (upd_vnode_eq _ _ _ _ Hx). split; [done|]. by apply Hno.
  - do 2 eexists. rewrite bind_assert by done. rewrite (upd_vnode_eq _ _ _ _ Hx). split; [done|]. by apply Hno.
Qed.

(** A state with a vnode [y] at [v] more, its memory object [b] at [p]. *)
Definition brought_in (v : vnptr) (p : optr) (b : mmobj) (y : vnode) (s s' : vst) : Prop :=
  vnodes (v_fs s') = <[v := y]> (vnodes (v_fs s)) ∧ mmobjs s' = <[p := b]> (mmobjs s) ∧
  vnode_inuse_list (v_fs s') = v :: vnode_inuse_list (v_fs s) ∧
  files (v_fs s') = files (v_fs s) ∧ procfs (v_fs s') = procfs (v_fs s) ∧
  vfs_root_vn (v_fs s') = vfs_root_vn (v_fs s) ∧ same_procs (v_k s) (v_k s') ∧
  data s' = data s ∧ tq_list (queue (v_k s') (vn_waitq v)) = [] ∧
  ∀ w, w ≠ v → queue (v_k s') (vn_waitq w) = queue (v_k s) (vn_waitq w).

Lemma brought_in_vnode v p b y z s s' :
  brought_in v p b y s s' → brought_in v p b z s (set_fs (set_vnodes (insert v z)) s').
Proof. intros (Hv & Hrest). split; [|exact Hrest]. simpl. by rewrite Hv, insert_insert_eq. Qed.

Lemma brought_in_mmobj v p b c y s s' :
  brought_in v p b y s s' → brought_in v p c y s (set_mmobjs (insert p c) s').
Proof. intros (Hv & Hm & Hrest). split_and!; [exact Hv| |apply Hrest..]. simpl. by rewrite Hm, insert_insert_eq. Qed.

(** Up to [read_vnode]. *)
Lemma bring_in_read fs vno v p s rd :
  read_vnode fs = Some rd →
  ∃ y s', bring_in fs vno v p s =
      ((if S_ISCHR (vn_mode y) || S_ISBLK (vn_mode y) then init_special_vnode v else mret ());;
       upd_mmobj_of v (with_refcount (λ _, 1));; mret v) s' ∧
    brought_in v p (mmobj_init (vnode_mmobj_ops v)) y s s' ∧ inode y = (fs, vno) ∧
    vn_mmobj y = p ∧ vn_busy y = false ∧ S_ISDIR (vn_mode y) = isdir (data s) (fs, vno) ∧
    (S_ISCHR (vn_mode y) || S_ISBLK (vn_mode y) = false →
     ∃ k, vn_ops y = Some k ∧ dir_ops (isdir (data s) (fs, vno)) (vops_tab k)).
Proof.
  intros Hrd. set (x0 := Vnode None fs vno 0 0 0 0 None false p).
  set (s1 := set_fs (set_vnodes (insert v x0)) s).
  set (k1 := set_mutexes (insert (vn_mutex v) None)
    (set_queues (insert (km_waitq (vn_mutex v)) (Ktqueue [] 0)) (v_k s))).
  set (s2 := set_mmobjs (insert p (mmobj_init (vnode_mmobj_ops v))) (set_k (λ _, k1) s1)).
  set (k2 := set_queues (insert (vn_waitq v) (Ktqueue [] 0)) k1).
  set (s3 := set_fs (set_inuse (cons v)) (set_fs (set_vnodes (insert v (with_vbusy true x0))) (set_k (λ _, k2) s2))).
  destruct (read_spec s3 v (with_vbusy true x0) rd) as (y & Hy & Hino & Hp & _ & Hdir & Hops);
    [done|apply lookup_insert_eq|].
  exists (with_vbusy false y), (set_fs (set_vnodes (insert v (with_vbusy false y))) (set_fs (set_vnodes (insert v y)) s3)).
  split_and!; [|apply (brought_in_vnode _ _ _ y), (brought_in_vnode _ _ _ (with_vbusy true x0))|done..].
  - unfold bring_in.
    erewrite bind_step by reflexivity. fold x0 s1. erewrite bind_step by (apply lift_Ret; reflexivity).
    erewrite bind_step by reflexivity. fold k1 s2. erewrite bind_step by (apply lift_Ret; reflexivity).
    fold k2. erewrite bind_step by (apply (upd_vnode_eq _ _ x0), lookup_insert_eq).
    erewrite bind_step by reflexivity. fold s3. rewrite Hrd. erewrite bind_step by reflexivity.
    erewrite bind_step by exact Hy. erewrite bind_step by (apply (upd_vnode_eq _ _ y), lookup_insert_eq).
    by erewrite bind_step by (apply (vnode_at_eq _ _ (with_vbusy false y)), lookup_insert_eq).
  - assert (∀ q, q ≠ vn_waitq v → q ≠ km_waitq (vn_mutex v) → queue (v_k s3) q = queue (v_k s) q) as Hq.
    { intros q H1 H2. unfold queue. simpl. by rewrite !lookup_insert_ne by done. }
    split_and!; try done.
    + simpl. by rewrite insert_insert_eq.
    + split; try done. intros q. destruct (decide (q = vn_waitq v)) as [->|H1].
      { right. unfold queue. simpl. rewrite lookup_insert_eq. eauto. }
      destruct (decide (q = km_waitq (vn_mutex v))) as [->|H2]; [|left; by apply Hq].
      right. unfold queue. simpl. rewrite lookup_insert_ne, lookup_insert_eq by done. eauto.
    + unfold queue. simpl. by rewrite lookup_insert_eq.
    + intros w Hw. apply Hq; unfold vn_waitq; congruence.
Qed.

Lemma bring_in_eq fs vno v p s rd :
  read_vnode fs = Some rd →
  ∃ y s', bring_in fs vno v p s = Ret v s' ∧
    brought_in v p (with_refcount (λ _, 1) (mmobj_init (vnode_mmobj_ops v))) y s s' ∧ inode y = (fs, vno) ∧
    vn_mmobj y = p ∧ vn_busy y = false ∧ S_ISDIR (vn_mode y) = isdir (data s) (fs, vno) ∧
    ∃ k, vn_ops y = Some k ∧ dir_ops (isdir (data s) (fs, vno)) (vops_tab k).
Proof.
  intros Hrd. destruct (bring_in_read fs vno v p s rd Hrd) as (y & s' & -> & Hb & Hino & Hp & Hbu & Hd & Ho).
  assert (∀ z s1, brought_in v p (mmobj_init (vnode_mmobj_ops v)) z s s1 → vn_mmobj z = p →
    (upd_mmobj_of v (with_refcount (λ _, 1));; mret v) s1 =
    Ret v (set_mmobjs (insert p (with_refcount (λ _, 1) (mmobj_init (vnode_mmobj_ops v)))) s1)) as Hend.
  { intros z s1 (Hv & Hm & _) <-. erewrite bind_step; [done|]. apply upd_mmobj_of_eq.
    - rewrite Hv. apply lookup_insert_eq.
    - rewrite Hm. apply lookup_insert_eq. }
  assert (vnodes (v_fs s') !! v = Some y) as Hy by (destruct Hb as (-> & _); apply lookup_insert_eq).
  destruct (S_ISCHR (vn_mode y) || S_ISBLK (vn_mode y)) eqn:Hs.
  - destruct (init_special_vnode_spec s' v y Hy Hs) as (k & dev & Hinit & Hk).
    pose proof (brought_in_vnode _ _ _ _ (with_special k dev y) _ _ Hb) as Hb'.
    exists (with_special k dev y). eexists. rewrite (bind_step _ _ _ _ _ Hinit), (Hend _ _ Hb' Hp).
    split_and!; [done|by eapply brought_in_mmobj|done..|].
    exists k. split; [done|]. rewrite <- Hd. by rewrite (special_not_dir _ Hs).
  - exists y. eexists. erewrite bind_step by done. rewrite (Hend _ _ Hb Hp).
    split_and!; [done|by eapply brought_in_mmobj|done..|]. by apply Ho.
Qed.

Lemma brought_in_ok v p y s s' :
  vinv s → vnodes (v_fs s) !! v = None → mmobjs s !! p = None →
  (∀ w x, vnodes (v_fs s) !! w = Some x → inode x ≠ inode y) →
  brought_in v p (with_refcount (λ _, 1) (mmobj_init (vnode_mmobj_ops v))) y s s' →
  vn_mmobj y = p → vn_busy y = false → S_ISDIR (vn_mode y) = isdir (data s) (inode y) →
  (∃ k, vn_ops y = Some k ∧ dir_ops (isdir (data s) (inode y)) (vops_tab k)) →
  vinv s' ∧ vframe s s' ∧ ∀ w, held s' w = held s w + one v w.
Proof.
  intros Hi Hnv Hnp Hnew (Hv & Hm & Hl & Hf & Hpf & Hroot & Hk & Hd & Hq & Hqs) Hp Hb Hdir Hops.
  destruct (mmobj_init_empty (vnode_mmobj_ops v)) as [Hn0 Hr0].
  assert (∀ w x, vnodes (v_fs s) !! w = Some x → mmobjs s' !! vn_mmobj x = mmobjs s !! vn_mmobj x) as Hobj.
  { intros w x Hx. destruct (ok_obj _ _ _ (vi_ok _ Hi w x Hx)) as (o & Ho & _).
    rewrite Hm. apply lookup_insert_ne. congruence. }
  split_and!.
  - split.
    + intros w x. rewrite Hv. intros [[<- <-]|[Hw Hx]]%lookup_insert_Some.
      * split; rewrite ?Hd; [|done..]. eexists. rewrite Hm, Hp, lookup_insert_eq. split; [done|]. simpl.
        rewrite mmobj_init_ops, Hn0, Hr0. split_and!; done || lia.
      * destruct (vi_ok _ Hi w x Hx) as [Hob Hbu Hwq Hmo Hop].
        split; rewrite ?Hd, ?(Hobj w), ?Hqs by congruence; done.
    + intros w1 w2 x1 x2. rewrite Hv. intros [[<- <-]|[_ H1]]%lookup_insert_Some [[<- <-]|[_ H2]]%lookup_insert_Some He;
        [done|by destruct (Hnew w2 x2)|by destruct (Hnew w1 x1)|by eapply vi_uniq].
    + intros w. rewrite Hl, Hv, elem_of_cons, (vi_list _ Hi), lookup_insert_is_Some. split.
      * intros [->|?]; [by left|]. destruct (decide (v = w)); auto.
      * intros [->|[_ ?]]; auto.
  - split; [done..|by intros i _; rewrite Hd|].
    intros w x Hx _ _. rewrite Hv, lookup_insert_ne; [done|]. congruence.
  - intros w. unfold held, one. rewrite Hv. case_decide as Hw.
    + subst w. rewrite lookup_insert_eq, Hm, Hp, lookup_insert_eq, Hnv. simpl. lia.
    + rewrite lookup_insert_ne by done. destruct (vnodes _ !! w) as [x|] eqn:Hx; [|lia].
      rewrite (Hobj w) by done. lia.
Qed.

(** [vget] returns the one vnode of the inode, with a reference to it. *)
Lemma vget_spec fuel fs vno s :
  vinv s →
  ((∀ w x, vnodes (v_fs s) !! w = Some x → inode x ≠ (fs, vno)) →
   is_Some (slab_alloc_vnode s) ∧ is_Some (read_vnode fs)) →
  ∃ v x s', vget fuel fs vno s = Ret v s' ∧ vinv s' ∧ vframe s s' ∧
    vnodes (v_fs s') !! v = Some x ∧ inode x = (fs, vno) ∧
    (vnodes (v_fs s') = vnodes (v_fs s) ∧ 1 < refcount s' v ∨
     vnodes (v_fs s) !! v = None ∧ vnodes (v_fs s') = <[v := x]> (vnodes (v_fs s)) ∧ refcount s' v = 1) ∧
    ∀ w, held s' w = held s w + one v w.
Proof.
  intros Hi Hres.
  destruct (find_vnode_spec s fs vno (vnode_inuse_list (v_fs s))) as (r & Hr & Hs); [intros; by apply Hi|].
  destruct r as [w|].
  - destruct Hs as (_ & x & Hx & Hino).
    destruct (vref_spec s w x Hi Hx) as (s' & Hs' & Hi' & Hf & Hvn & Href & Hh).
    exists w, x, s'. split_and!; [|done..|by rewrite Hvn|done|by left|done].
    destruct fuel; cbn [vget]; erewrite bind_step by reflexivity;
      rewrite (bind_step _ _ _ _ _ Hr), (bind_step _ _ _ _ _ (vnode_at_eq _ _ _ Hx)),
        (ok_busy _ _ _ (vi_ok _ Hi _ _ Hx)); by rewrite (bind_step _ _ _ _ _ Hs').
  - assert (∀ w x, vnodes (v_fs s) !! w = Some x → inode x ≠ (fs, vno)) as Hnew.
    { intros w x Hx. apply (Hs w); [|done]. apply Hi. eauto. }
    destruct (Hres Hnew) as [[[v p] Ha] [rd Hrd]]. destruct (vnode_fresh s v p Ha) as [Hnv Hnp].
    destruct (bring_in_eq fs vno v p s rd Hrd) as (y & s' & Hs' & Hb & Hino & Hp & Hbu & Hd & Ho).
    destruct (brought_in_ok v p y s s') as (Hi' & Hf & Hh); try done; [by rewrite Hino..|].
    destruct Hb as (Hv & Hm & _).
    exists v, y, s'. split_and!; [|done|done|by rewrite Hv, lookup_insert_eq|done| |done].
    + destruct fuel; cbn [vget]; erewrite bind_step by reflexivity;
        rewrite (bind_step _ _ _ _ _ Hr), Ha; done.
    + right. split_and!; [done..|]. unfold refcount. by rewrite Hv, lookup_insert_eq, Hm, Hp, lookup_insert_eq.
Qed.

(** There is one vnode per inode: as long as the first reference is kept,
    a second [vget] of the inode returns the same vnode, which then has two
    references more, and no reference to another vnode is affected. *)
Theorem vget_twice fuel fs vno s :
  vinv s → is_Some (slab_alloc_vnode s) → is_Some (read_vnode fs) →
  ∃ v s1 s2, vget fuel fs vno s = Ret v s1 ∧ vget fuel fs vno s1 = Ret v s2 ∧ vinv s2 ∧
    held s2 v = held s v + 2 ∧ ∀ w, w ≠ v → held s2 w = held s w.
Proof.
  intros Hi Ha Hr.
  destruct (vget_spec fuel fs vno s) as (v & x & s1 & E1 & Hi1 & _ & Hx & Hino & _ & Hh1); [done|auto|].
  destruct (vget_spec fuel fs vno s1) as (w & y & s2 & E2 & Hi2 & _ & Hy & Hino2 & Hvn & Hh2); [done| |].
  { intros Hno. by destruct (Hno v x). }
  assert (vnodes (v_fs s2) !! v = Some x) as Hx2.
  { destruct Hvn as [[-> _]|(Hn & -> & _)]; [done|]. rewrite lookup_insert_ne; [done|congruence]. }
  assert (w = v) as -> by (eapply (vi_uniq _ Hi2); [done..|congruence]).
  exists v, s1, s2. split_and!; [done..| |].
  - rewrite Hh2, Hh1. unfold one. rewrite decide_True by done. lia.
  - intros w Hw. rewrite Hh2, Hh1. unfold one. rewrite decide_False by done. lia.
Qed.

(** [vput] undoes [vget]: the vnode table is what it was, also when the
    inode had to be brought in, and so are all references. *)
Theorem vget_vput `{FsInodes} `{Objects} fuel fs vno s :
  vinv s → is_Some (slab_alloc_vnode s) → is_Some (read_vnode fs) →
  ∃ v s1 s2, vget fuel fs vno s = Ret v s1 ∧ vput v s1 = Ret () s2 ∧ vinv s2 ∧ vframe s s2 ∧
    vnodes (v_fs s2) = vnodes (v_fs s) ∧ ∀ w, held s2 w = held s w.
Proof.
  intros Hi Ha Hr.
  destruct (vget_spec fuel fs vno s) as (v & x & s1 & E1 & Hi1 & Hf1 & Hx & Hino & Hvn1 & Hh1); [done|auto|].
  destruct (vput_spec s1 v) as (s2 & E2 & Hi2 & Hf2 & Hvn2 & Hh2); [done| |].
  { rewrite Hh1. unfold one. rewrite decide_True by done. pose proof (held_nonneg s v Hi). lia. }
  exists v, s1, s2. split_and!; [done..| | |].
  - eapply vframe_trans; [done..|]. intros w Hw _. rewrite Hh1. unfold one. destruct (decide (w = v)); lia.
  - rewrite Hvn2. destruct Hvn1 as [[-> Hc]|(Hn & -> & Hc)].
    + by rewrite decide_False by lia.
    + by rewrite decide_True, delete_insert_id by done.
  - intros w. rewrite Hh2, Hh1. lia.
Qed.
End vget.
End vinv.
