(* ===== verification/Namev.v ===== *)
(** * Name resolution (namev.c)

    [lookup], [dir_namev] and [open_namev].  A path is the text of a C string
    without its NUL; the character past its end is the NUL. *)

From Stdlib Require Import Ascii.
From S2P Require Import Prelude Kstate Sched Vmstate Vnode.
Local Open Scope Z_scope.

(** Limits and flags of the headers. *)
Class NameEnv := {
  NAME_LEN : nat;
  O_RDONLY : Z;
  O_WRONLY : Z;
  O_RDWR : Z;
  O_CREAT : Z;
  O_APPEND : Z;
  o_rdonly : O_RDONLY = 0;
  o_bits : ∃ a b c d, 0 <= a ∧ 0 <= b ∧ 0 <= c ∧ 0 <= d ∧ NoDup [a; b; c; d] ∧
    O_WRONLY = 2 ^ a ∧ O_RDWR = 2 ^ b ∧ O_CREAT = 2 ^ c ∧ O_APPEND = 2 ^ d;
}.

Definition slash : Ascii.ascii := "/"%char.
Definition nul : Ascii.ascii := Ascii.zero.
Definition dot : path := ["."%char].

(** [pathname[i]] *)
Definition char_at (pathname : path) (i : nat) : Ascii.ascii := nth i pathname nul.

(** [while (pathname[i] == '/') i++;] and the scan of a component; the fuel
    is at least the number of characters left. *)
Fixpoint skip_slashes (fuel : nat) (pathname : path) (i : nat) : nat :=
  match fuel with
  | O => i
  | S fuel' =>
      if bool_decide (char_at pathname i = slash) then skip_slashes fuel' pathname (S i) else i
  end.

Fixpoint scan_name (fuel : nat) (pathname : path) (i : nat) : nat :=
  match fuel with
  | O => i
  | S fuel' =>
      if bool_decide (char_at pathname i ≠ slash) && bool_decide (char_at pathname i ≠ nul)
      then scan_name fuel' pathname (S i) else i
  end.

Section namev.
Context `{VmEnv} `{VfsEnv} `{Machine} `{Errno} `{Objects} `{NameEnv}.

Definition lookup (dir : vnptr) (name : path) (len : nat) : V (Z * option vnptr) :=
  ops ← vops_of dir;
  match op_lookup ops with
  | None => mret (- ENOTDIR, None)
  | Some f => f dir name len
  end.

(** How the [do ... while] loop of [dir_namev] is left: by a [return], or
    with the values of the variables. *)
Inductive loop_exit :=
| Return (r : Z) (out : option (path * nat * vnptr))
| Exit (i offset nameLength : nat) (prev_vnode base_vnode : vnptr) (returncode : Z).

(** [base_vnode] keeps its value where [lookup] does not assign it. *)
Fixpoint dir_namev_loop (fuel : nat) (pathname : path) (i : nat)
    (prev_vnode : option vnptr) (base_vnode : vnptr) : V loop_exit :=
  if bool_decide (char_at pathname i = nul) && bool_decide (prev_vnode = None) then
    mret (Return 0 (Some (dot, 1%nat, base_vnode)))
  else
    match prev_vnode with Some p => vput p | None => mret () end;;
    let prev := base_vnode in
    let j := scan_name (length pathname) pathname i in
    let nameLength := (j - i)%nat in
    if (NAME_LEN <? nameLength)%nat then
      vput prev;; mret (Return (- ENAMETOOLONG) None)
    else
      '(returncode, res) ← lookup prev (drop i pathname) nameLength;
      let base := default base_vnode res in
      if (returncode =? - ENOTDIR) || ((returncode <? 0) && negb (returncode =? - ENOENT)) then
        vput prev;; mret (Return returncode None)
      else
        let i' := skip_slashes (length pathname) pathname j in
        if bool_decide (char_at pathname i' ≠ nul) && (0 <=? returncode) then
          match fuel with
          | O => idle
          | S fuel' => dir_namev_loop fuel' pathname i' (Some prev) base
          end
        else mret (Exit i' i nameLength prev base returncode).

(** After the loop. *)
Definition dir_namev_end (pathname : path) (e : loop_exit) : V (Z * option (path * nat * vnptr)) :=
  match e with
  | Return r out => mret (r, out)
  | Exit i offset nameLength prev_vnode base_vnode returncode =>
      notdir ←
        (if bool_decide (char_at pathname (i - 1) = slash) then
           v ← vnode_at base_vnode; mret (negb (S_ISDIR (vn_mode v)))
         else mret false);
      if (notdir : bool) then
        vput prev_vnode;; vput base_vnode;; mret (- ENOTDIR, None)
      else if bool_decide (char_at pathname i ≠ nul) then
        vput prev_vnode;; mret (- ENOENT, None)
      else
        (if returncode =? 0 then vput base_vnode else mret ());;
        mret (0, Some (drop offset pathname, nameLength, prev_vnode))
  end.

(** [base] is the vnode to start from, [None] for the working directory; what
    is returned besides the code are [*name], [*namelen] and [*res_vnode].
    Each iteration consumes a component. *)
Definition dir_namev (pathname : path) (base : option vnptr)
    : V (Z * option (path * nat * vnptr)) :=
  if bool_decide (char_at pathname 0 = nul) then mret (- EINVAL, None)
  else
    s ← get;
    base_vnode ←
      (if bool_decide (char_at pathname 0 = slash) then deref (vfs_root_vn (v_fs s)) "vfs_root_vn"
       else match base with
            | Some b => mret b
            | None =>
                cp ← lift cur_proc;
                pf ← deref (procfs (v_fs s) !! cp) "proc_t";
                deref (p_cwd pf) "curproc->p_cwd"
            end);
    vref base_vnode;;
    let i := skip_slashes (length pathname) pathname 0 in
    e ← dir_namev_loop (length pathname) pathname i None base_vnode;
    dir_namev_end pathname e.

Definition open_namev (pathname : path) (flag : Z) (base : option vnptr) : V (Z * option vnptr) :=
  '(dirReturnCode, out) ← dir_namev pathname base;
  if dirReturnCode <? 0 then mret (dirReturnCode, None)
  else
    '(name, namelen, res_dir_vnode) ← deref out "res_dir_vnode";
    '(lookupReturnCode, res_vnode) ← lookup res_dir_vnode name namelen;
    if lookupReturnCode <? 0 then
      ops ← vops_of res_dir_vnode;
      (if negb (Z.land flag O_CREAT =? 0) then
         KASSERT (bool_decide (is_Some (op_create ops))) "NULL != res_dir_vnode->vn_ops->create"
       else mret ());;
      if negb (Z.land flag O_CREAT =? 0) && (lookupReturnCode =? - ENOENT) then
        create ← deref (op_create ops) "res_dir_vnode->vn_ops->create";
        '(createReturnCode, r) ← create res_dir_vnode name namelen;
        vput res_dir_vnode;;
        mret (createReturnCode, r)
      else
        vput res_dir_vnode;;
        mret (lookupReturnCode, res_vnode)
    else
      r ← deref res_vnode "*res_vnode";
      rops ← vops_of r;
      if (negb (Z.land flag O_WRONLY =? 0) || negb (Z.land flag O_RDWR =? 0))
         && bool_decide (is_Some (op_mkdir rops)) then
        vput r;;
        vput res_dir_vnode;;
        mret (- EISDIR, None)
      else
        vput res_dir_vnode;;
        mret (0, res_vnode).
End namev.
