(* ===== verification/NamevProps.v ===== *)
(** * Properties of name resolution

    A reference resolver on the contents of the file systems, and that
    [dir_namev] and [open_namev] compute what it says and return with exactly
    the references they promise. *)

From S2P Require Import Prelude Kstate Sched Vmstate Pframe Vnode VnodeProps Namev.
Local Open Scope Z_scope.

(** ** Paths *)

Fixpoint split_slash (p : path) : list path :=
  match p with
  | [] => [[]]
  | c :: p' =>
      if decide (c = slash) then [] :: split_slash p'
      else match split_slash p' with w :: ws => (c :: w) :: ws | [] => [[c]] end
  end.

(** The components of a path; empty ones do not count. *)
Definition components (p : path) : list path := filter (λ w, w ≠ []) (split_slash p).

Definition trailing (p : path) : bool := bool_decide (last p = Some slash).

(** The characters up to the next slash, and what follows the slashes at the
    start. *)
Fixpoint name_of (p : path) : path :=
  match p with
  | [] => []
  | c :: p' => if decide (c = slash) then [] else c :: name_of p'
  end.

Fixpoint after_slashes (p : path) : path :=
  match p with
  | [] => []
  | c :: p' => if decide (c = slash) then after_slashes p' else p
  end.

Lemma split_slash_cons p : ∃ w ws, split_slash p = w :: ws.
Proof. destruct p as [|c p]; simpl; [eauto|]. case_decide; [eauto|]. destruct (split_slash p); eauto. Qed.

Lemma components_slash p : components (slash :: p) = components p.
Proof.
  unfold components. cbn [split_slash]. rewrite decide_True by done. by rewrite filter_cons_False by auto.
Qed.

Lemma components_after p : components (after_slashes p) = components p.
Proof. induction p as [|c p IH]; [done|]. simpl. case_decide; [|done]. subst. by rewrite components_slash. Qed.

Lemma split_name p :
  split_slash p = name_of p :: match drop (length (name_of p)) p with
                               | [] => []
                               | _ :: q => split_slash q
                               end.
Proof.
  induction p as [|c p IH]; [done|]. simpl. case_decide; [done|].
  rewrite IH. simpl. by destruct (drop _ p).
Qed.

Lemma drop_name p : match drop (length (name_of p)) p with [] => True | c :: _ => c = slash end.
Proof. induction p as [|c p IH]; [done|]. simpl. case_decide; [by simpl|]. simpl. apply IH. Qed.

(** The first component and the rest. *)
Lemma components_name p :
  name_of p ≠ [] →
  components p = name_of p :: components (after_slashes (drop (length (name_of p)) p)).
Proof.
  intros Hne. rewrite components_after. unfold components at 1. rewrite split_name.
  rewrite filter_cons_True by done. f_equal. pose proof (drop_name p) as Hd.
  destruct (drop _ p) as [|c q]; [done|]. subst. by rewrite components_slash.
Qed.

Lemma components_nil p : components p = [] → after_slashes p = [].
Proof.
  induction p as [|c p IH]; [done|]. simpl. case_decide as Hc.
  - subst. rewrite components_slash. auto.
  - rewrite components_name by (simpl; by rewrite decide_False by done). done.
Qed.

Lemma after_slashes_hd p : match after_slashes p with [] => True | c :: _ => c ≠ slash end.
Proof. induction p as [|c p IH]; [done|]. simpl. by case_decide. Qed.

Lemma after_slashes_drop p : after_slashes p = drop (length p - length (after_slashes p)) p.
Proof.
  induction p as [|c p IH]; [done|]. simpl. case_decide.
  - rewrite IH at 1. assert (length (after_slashes p) ≤ length p)%nat.
    { clear. induction p as [|c p IH]; simpl; [lia|]. case_decide; simpl; lia. }
    replace (S (length p) - length (after_slashes p))%nat with (S (length p - length (after_slashes p))) by lia.
    done.
  - simpl. by rewrite Nat.sub_diag.
Qed.

Lemma after_slashes_length p : (length (after_slashes p) ≤ length p)%nat.
Proof. induction p as [|c p IH]; simpl; [lia|]. case_decide; simpl; lia. Qed.

Lemma name_of_length p : (length (name_of p) ≤ length p)%nat.
Proof. induction p as [|c p IH]; simpl; [lia|]. case_decide; simpl; lia. Qed.

Lemma take_name_of p : take (length (name_of p)) p = name_of p.
Proof. induction p as [|c p IH]; [done|]. simpl. case_decide; [done|]. simpl. by f_equal. Qed.

(** The scans compute them. *)
Lemma char_at_drop p i : char_at p i = match drop i p with [] => nul | c :: _ => c end.
Proof. unfold char_at. revert i. induction p as [|c p IH]; intros [|i]; simpl; try done. Qed.

Lemma drop_tail {A} (p : list A) i c q : drop i p = c :: q → drop (S i) p = q.
Proof. intros Hd. replace (S i) with (i + 1)%nat by lia. rewrite <- drop_drop, Hd. done. Qed.

Lemma skip_slashes_spec p fuel i :
  (length (drop i p) ≤ fuel)%nat → drop (skip_slashes fuel p i) p = after_slashes (drop i p).
Proof.
  revert i. induction fuel as [|fuel IH]; intros i Hf; cbn [skip_slashes].
  { by destruct (drop i p) eqn:Hd; [|simpl in Hf; lia]. }
  rewrite char_at_drop. destruct (drop i p) as [|c q] eqn:Hd; [done|]. simpl in *.
  case_decide as Hc.
  - rewrite bool_decide_eq_true_2 by done. rewrite IH; rewrite (drop_tail _ _ _ _ Hd); [done|lia].
  - by rewrite bool_decide_eq_false_2.
Qed.

Lemma scan_name_spec p fuel i :
  nul ∉ p → (length (drop i p) ≤ fuel)%nat → scan_name fuel p i = (i + length (name_of (drop i p)))%nat.
Proof.
  intros Hn. revert i. induction fuel as [|fuel IH]; intros i Hf; cbn [scan_name].
  { destruct (drop i p) eqn:Hd; simpl in *; lia. }
  rewrite char_at_drop. destruct (drop i p) as [|c q] eqn:Hd.
  { rewrite (bool_decide_eq_false_2 (nul ≠ nul)) by auto. rewrite andb_false_r. simpl. lia. }
  simpl in *. case_decide as Hc.
  - rewrite bool_decide_eq_false_2 by auto. simpl. lia.
  - rewrite !bool_decide_eq_true_2; [|..].
    + simpl. rewrite IH; rewrite (drop_tail _ _ _ _ Hd); [simpl; lia|lia].
    + intros ->. apply Hn. rewrite <- (take_drop i p), Hd. apply elem_of_app. right. by left.
    + done.
Qed.

Lemma char_at_end p i : nul ∉ p → char_at p i = nul ↔ drop i p = [].
Proof.
  intros Hn. rewrite char_at_drop. destruct (drop i p) as [|c q] eqn:Hd; [done|]. split; [|done].
  intros ->. destruct Hn. rewrite <- (take_drop i p), Hd. apply elem_of_app. right. by left.
Qed.

Lemma skip_slashes_le p fuel i : (i ≤ length p)%nat → (skip_slashes fuel p i ≤ length p)%nat.
Proof.
  revert i. induction fuel as [|fuel IH]; intros i Hi; [done|]. cbn [skip_slashes].
  case_bool_decide as Hc; [|done]. apply IH. rewrite char_at_drop in Hc.
  destruct (drop i p) as [|c q] eqn:Hd; [done|].
  assert (length (drop i p) = S (length q)) by (by rewrite Hd). rewrite length_drop in *. lia.
Qed.

Lemma char_at_trailing p : p ≠ [] → bool_decide (char_at p (length p - 1) = slash) = trailing p.
Proof.
  destruct p as [|c p _] using rev_ind; [done|]. intros _. unfold trailing. rewrite last_snoc, length_app.
  simpl. replace (length p + 1 - 1)%nat with (length p) by lia.
  unfold char_at. rewrite app_nth2, Nat.sub_diag by lia. simpl. apply bool_decide_ext. naive_solver.
Qed.

(** ** The reference resolver *)

Section resolve.
Context {ER : Errno} {NE : NameEnv} {FV : FsView}.

(** The directory that contains the last component, from directory [i]; the
    last component need not exist, but with a trailing slash it is not
    anything else than a directory. *)
Fixpoint resolve (D : fsdata) (i : ino) (cs : list path) (trail : bool) : Z + ino * path :=
  match cs with
  | [] => inr (i, dot)
  | c :: cs' =>
      if (NAME_LEN <? length c)%nat then inl ENAMETOOLONG
      else if negb (isdir D i) then inl ENOTDIR
      else match cs', dirent D i c with
           | [], Some j => if trail && negb (isdir D j) then inl ENOTDIR else inr (i, c)
           | [], None => inr (i, c)
           | _, Some j => resolve D j cs' trail
           | _, None => inl ENOENT
           end
  end.

Definition resolve_path (D : fsdata) (i : ino) (p : path) : Z + ino * path :=
  match p with [] => inl EINVAL | _ => resolve D i (components p) (trailing p) end.

Lemma resolve_same D D' i cs t :
  (∀ j, linked D j = true → same_at D D' j) → linked D i = true →
  resolve D' i cs t = resolve D i cs t.
Proof.
  intros Hs. revert i. induction cs as [|c cs IH]; intros i Hi; [done|]. simpl.
  destruct (Hs i Hi) as (_ & -> & He). rewrite He.
  destruct (_ <? _)%nat; [done|]. destruct (negb _); [done|].
  destruct (dirent D i c) as [j|] eqn:Hj; [|done].
  pose proof (dirent_linked _ _ _ _ Hi Hj) as Hlj. rewrite (IH j Hlj).
  destruct (Hs j Hlj) as (_ & -> & _). done.
Qed.

(** The inode a path names. *)
Definition resolve_file (D : fsdata) (i : ino) (p : path) : Z + ino :=
  match resolve_path D i p with
  | inl e => inl e
  | inr (d, n) =>
      if negb (isdir D d) then inl ENOTDIR
      else match dirent D d n with Some j => inr j | None => inl ENOENT end
  end.

Lemma resolve_linked D i cs t j n :
  linked D i = true → resolve D i cs t = inr (j, n) → linked D j = true.
Proof.
  revert i. induction cs as [|c cs IH]; intros i Hi; cbn [resolve]; [by intros [= <- <-]|].
  destruct (_ <? _)%nat; [done|]. destruct (negb _); [done|].
  destruct (dirent D i c) as [k|] eqn:Hk; destruct cs as [|c' cs']; try done.
  - destruct (t && _); [done|]. by intros [= <- <-].
  - apply IH. by eapply dirent_linked.
  - by intros [= <- <-].
Qed.

Lemma resolve_path_linked D i p j n :
  linked D i = true → resolve_path D i p = inr (j, n) → linked D j = true.
Proof. intros Hi. destruct p; [done|]. by apply resolve_linked. Qed.

Lemma resolve_error_pos D i p e : resolve_path D i p = inl e → 0 < e.
Proof.
  pose proof errno_pos as Hp. unfold errnos in Hp. rewrite !Forall_cons in Hp.
  destruct p as [|a p]; cbn [resolve_path]; [intros [= <-]; tauto|]. generalize (components (a :: p)), (trailing (a :: p)).
  intros cs t. revert i. induction cs as [|c cs IH]; intros i; cbn [resolve]; [done|].
  destruct (_ <? _)%nat; [intros [= <-]; tauto|]. destruct (negb _); [intros [= <-]; tauto|].
  destruct (dirent D i c), cs; try done; [|apply IH|by intros [= <-]; tauto].
  destruct (t && _); [|done]. intros [= <-]; tauto.
Qed.

Lemma resolve_file_linked D i p j : linked D i = true → resolve_file D i p = inr j → linked D j = true.
Proof.
  unfold resolve_file. intros Hi. destruct (resolve_path D i p) as [e|[d n]] eqn:Hr; [done|].
  pose proof (resolve_path_linked _ _ _ _ _ Hi Hr) as Hd. destruct (negb _); [done|].
  destruct (dirent D d n) as [k|] eqn:Hk; [|done]. intros [= <-]. by eapply dirent_linked.
Qed.

Lemma resolve_file_error_pos D i p e : resolve_file D i p = inl e → 0 < e.
Proof.
  pose proof errno_pos as Hp. unfold errnos in Hp. rewrite !Forall_cons in Hp.
  unfold resolve_file. destruct (resolve_path D i p) as [e'|[d n]] eqn:Hr.
  - intros [= <-]. by eapply resolve_error_pos.
  - destruct (negb _); [intros [= <-]; tauto|]. destruct (dirent D d n); [done|]. intros [= <-]; tauto.
Qed.
End resolve.

Section namev_props.
Context {VE : VmEnv} {FE : VfsEnv} {MA : Machine} {ER : Errno} {OB : Objects} {NE : NameEnv} {FV : FsView}.

(** What the file systems' [lookup] does: it returns the vnode of the entry
    with a reference, or -ENOENT. *)
Class FsLookup := {
  lookup_spec : ∀ s d x k f name len,
    vinv s → vnodes (v_fs s) !! d = Some x → 1 <= held s d → linked (data s) (inode x) = true →
    vn_ops x = Some k → op_lookup (vops_tab k) = Some f →
    match dirent (data s) (inode x) (take len name) with
    | None => ∃ s', f d name len s = Ret (- ENOENT, None) s' ∧ vinv s' ∧ vframe s s' ∧
        ∀ w, held s' w = held s w
    | Some i => ∃ v y s', f d name len s = Ret (0, Some v) s' ∧ vinv s' ∧ vframe s s' ∧
        vnodes (v_fs s') !! v = Some y ∧ inode y = i ∧ ∀ w, held s' w = held s w + one v w
    end;
}.

Context {FI : FsInodes} {FL : FsLookup}.

(** What does not change between two states in which the references [H] are
    held throughout. *)
Record hframe (H : vnptr → Z) (s s' : vst) : Prop := {
  hf_files : files (v_fs s') = files (v_fs s);
  hf_procfs : procfs (v_fs s') = procfs (v_fs s);
  hf_root : vfs_root_vn (v_fs s') = vfs_root_vn (v_fs s);
  hf_procs : same_procs (v_k s) (v_k s');
  hf_view : ∀ i, linked (data s) i = true → same_at (data s) (data s') i;
  hf_vnode : ∀ v x, vnodes (v_fs s) !! v = Some x → 1 <= H v → vnodes (v_fs s') !! v = Some x;
}.

Lemma hf_cur H s s' : hframe H s s' → curproc (v_k s') = curproc (v_k s).
Proof. intros F. apply (hf_procs _ _ _ F). Qed.

Lemma hframe_trans H s1 s2 s3 : hframe H s1 s2 → hframe H s2 s3 → hframe H s1 s3.
Proof.
  intros F1 F2. split.
  - rewrite (hf_files _ _ _ F2). apply F1.
  - rewrite (hf_procfs _ _ _ F2). apply F1.
  - rewrite (hf_root _ _ _ F2). apply F1.
  - by etrans; [apply F1|apply F2].
  - intros i Hi. destruct (hf_view _ _ _ F1 i Hi) as (L1 & D1 & E1).
    destruct (hf_view _ _ _ F2 i) as (L2 & D2 & E2); [congruence|].
    split; [congruence|]. split; [congruence|]. intros n. by rewrite E2.
  - intros v x Hx Hv. apply F2; [|done]. by apply F1.
Qed.

Lemma hframe_mono H H' s s' : (∀ w, H w <= H' w) → hframe H' s s' → hframe H s s'.
Proof. intros HH F. split; try apply F. intros u z Hz Hu. apply F; [done|]. specialize (HH u). lia. Qed.

Lemma vframe_hframe H s s' :
  vframe s s' → (∀ w, H w <= held s w) → (∀ w, H w <= held s' w) → hframe H s s'.
Proof.
  intros F Hs Hs'. split; try apply F. intros v x Hx Hv. apply F; [done|..].
  - specialize (Hs v). lia.
  - specialize (Hs' v). lia.
Qed.

Lemma hframe_vframe s s' : hframe (held s) s s' → vframe s s'.
Proof. intros F. split; try apply F. intros v x Hx Hv _. by apply F. Qed.

(** [vput] of a reference held besides [G]. *)
Lemma put_step G v s :
  vinv s → (∀ w, held s w = G w + one v w) → (∀ w, 0 <= G w) →
  ∃ s', vput v s = Ret () s' ∧ vinv s' ∧ (∀ w, held s' w = G w) ∧ hframe G s s'.
Proof.
  intros Hi Hh Hg. destruct (vput_spec s v) as (s' & E & Hi' & Hf & _ & Hh'); [done| |].
  { rewrite Hh, one_same. specialize (Hg v). lia. }
  assert (∀ w, held s' w = G w) as Hh2 by (intros w; rewrite Hh', Hh; lia).
  exists s'. split_and!; [done..|]. apply vframe_hframe; [done|..]; intros w.
  - rewrite Hh. pose proof (one_nonneg v w). lia.
  - rewrite Hh2. lia.
Qed.

(** [lookup] in a directory to which a reference is held besides [G]. *)
Lemma lookup_step G d x s name len :
  vinv s → vnodes (v_fs s) !! d = Some x → linked (data s) (inode x) = true →
  (∀ w, held s w = G w + one d w) → (∀ w, 0 <= G w) →
  if isdir (data s) (inode x) then
    match dirent (data s) (inode x) (take len name) with
    | None => ∃ s', lookup d name len s = Ret (- ENOENT, None) s' ∧ vinv s' ∧
        (∀ w, held s' w = G w + one d w) ∧ hframe (λ w, G w + one d w) s s'
    | Some i => ∃ v y s', lookup d name len s = Ret (0, Some v) s' ∧ vinv s' ∧
        vnodes (v_fs s') !! v = Some y ∧ inode y = i ∧
        (∀ w, held s' w = G w + one d w + one v w) ∧ hframe (λ w, G w + one d w) s s'
    end
  else lookup d name len s = Ret (- ENOTDIR, None) s.
Proof.
  intros Hi Hx Hl Hh Hg. destruct (ok_ops _ _ _ (vi_ok _ Hi _ _ Hx)) as (k & Hk & Hdir & _).
  assert (∀ r, match op_lookup (vops_tab k) with None => mret (- ENOTDIR, None) | Some f => f d name len end s = r →
    lookup d name len s = r) as Hrun.
  { intros r <-. unfold lookup, vops_of. erewrite bind_step; [done|].
    rewrite (bind_step _ _ _ _ _ (vnode_at_eq _ _ _ Hx)), Hk. done. }
  destruct (op_lookup (vops_tab k)) as [f|] eqn:Hf.
  2:{ destruct (isdir _ _); [by destruct (proj2 Hdir eq_refl)|]. by apply Hrun. }
  rewrite (proj1 Hdir) by eauto.
  assert (1 <= held s d) as Hd by (rewrite Hh, one_same; specialize (Hg d); lia).
  pose proof (lookup_spec s d x k f name len Hi Hx Hd Hl Hk Hf) as Hls.
  destruct (dirent _ _ _) as [i|].
  - destruct Hls as (v & y & s' & E & Hi' & Hfr & Hy & Hino & Hh').
    exists v, y, s'. split_and!; [by apply Hrun|done..|intros w; rewrite Hh', Hh; lia|].
    apply vframe_hframe; [done|..]; intros w; [by rewrite Hh|]. rewrite Hh', Hh. pose proof (one_nonneg v w). lia.
  - destruct Hls as (s' & E & Hi' & Hfr & Hh').
    exists s'. split_and!; [by apply Hrun|done|intros w; by rewrite Hh', Hh|].
    apply vframe_hframe; [done|..]; intros w; rewrite ?Hh', Hh; lia.
Qed.

(** What [dir_namev] returns for a result of the resolver; [G] are the
    references held by others. *)
Definition dir_result (G : vnptr → Z) (R : Z + ino * path) (r : Z * option (path * nat * vnptr)) (s : vst) : Prop :=
  match R with
  | inl e => r = (- e, None) ∧ ∀ w, held s w = G w
  | inr (j, n) => ∃ name len d y, r = (0, Some (name, len, d)) ∧ take len name = n ∧
      vnodes (v_fs s) !! d = Some y ∧ inode y = j ∧ ∀ w, held s w = G w + one d w
  end.

Lemma errno_enoent_enotdir : ENOENT ≠ ENOTDIR ∧ 0 < ENOENT ∧ 0 < ENOTDIR.
Proof.
  pose proof errno_nodup as Hn. pose proof errno_pos as Hp. unfold errnos in *.
  rewrite !NoDup_cons in Hn. rewrite !Forall_cons in Hp. set_solver.
Qed.

(** After the loop, when the last component looked up does not exist. *)
Lemma end_missing G p i off len d x s :
  nul ∉ p → vinv s → vnodes (v_fs s) !! d = Some x → isdir (data s) (inode x) = true →
  (∀ w, held s w = G w + one d w) → (∀ w, 0 <= G w) →
  ∃ r s', dir_namev_end p (Exit i off len d d (- ENOENT)) s = Ret r s' ∧ vinv s' ∧ hframe G s s' ∧
    dir_result G (match drop i p with [] => inr (inode x, take len (drop off p)) | _ => inl ENOENT end) r s'.
Proof.
  intros Hn Hi Hx Hdir Hh Hg. cbn [dir_namev_end].
  erewrite (bind_step _ _ _ false).
  2:{ case_bool_decide; [|done]. rewrite (bind_step _ _ _ _ _ (vnode_at_eq _ _ _ Hx)).
      by rewrite (ok_mode _ _ _ (vi_ok _ Hi _ _ Hx)), Hdir. }
  pose proof (char_at_end p i Hn) as Hend. destruct errno_enoent_enotdir as (_ & ? & _).
  destruct (drop i p) as [|c q].
  - rewrite bool_decide_eq_false_2 by naive_solver. replace (- ENOENT =? 0) with false by lia.
    do 2 eexists. split_and!; [reflexivity|done|by split|]. do 4 eexists. by split_and!.
  - rewrite bool_decide_eq_true_2 by naive_solver.
    destruct (put_step G d s) as (s' & E & Hi' & Hh' & Hf); [done..|].
    do 2 eexists. rewrite (bind_step _ _ _ _ _ E). by split_and!.
Qed.

(** After the loop, when it exists. *)
Lemma end_found G p off len d x v y s :
  nul ∉ p → p ≠ [] → vinv s → vnodes (v_fs s) !! d = Some x → vnodes (v_fs s) !! v = Some y →
  (∀ w, held s w = G w + one d w + one v w) → (∀ w, 0 <= G w) →
  ∃ r s', dir_namev_end p (Exit (length p) off len d v 0) s = Ret r s' ∧ vinv s' ∧ hframe G s s' ∧
    dir_result G (if trailing p && negb (isdir (data s) (inode y)) then inl ENOTDIR
                  else inr (inode x, take len (drop off p))) r s'.
Proof.
  intros Hn Hp Hi Hx Hy Hh Hg. cbn [dir_namev_end]. rewrite (char_at_trailing p Hp).
  erewrite (bind_step _ _ _ (trailing p && negb (isdir (data s) (inode y)))).
  2:{ destruct (trailing p); [|done]. rewrite (bind_step _ _ _ _ _ (vnode_at_eq _ _ _ Hy)).
      by rewrite (ok_mode _ _ _ (vi_ok _ Hi _ _ Hy)). }
  destruct (trailing p && _).
  - destruct (put_step (λ w, G w + one v w) d s) as (s1 & E1 & Hi1 & Hh1 & Hf1);
      [done|ledger..|].
    destruct (put_step G v s1) as (s2 & E2 & Hi2 & Hh2 & Hf2); [done..|].
    do 2 eexists. rewrite (bind_step _ _ _ _ _ E1), (bind_step _ _ _ _ _ E2). split_and!; [done..| |done].
    eapply hframe_trans; [|done]. eapply hframe_mono; [|done]. ledger.
  - rewrite bool_decide_eq_false_2 by (rewrite char_at_end, drop_all by done; auto).
    destruct (put_step (λ w, G w + one d w) v s) as (s1 & E1 & Hi1 & Hh1 & Hf1);
      [done|ledger..|].
    do 2 eexists. change (0 =? 0) with true. rewrite (bind_step _ _ _ _ _ E1). split_and!; [done..| |].
    + eapply hframe_mono; [|done]. ledger.
    + do 4 eexists. split_and!; [done..| |done|done]. apply Hf1; [done|]. cbn beta. rewrite one_same. specialize (Hg d). lia.
Qed.

(** ** The loop *)

Definition oone (prev : option vnptr) (w : vnptr) : Z := match prev with Some v => one v w | None => 0 end.

Lemma walk_prev G prev base s :
  vinv s → (∀ w, held s w = G w + one base w + oone prev w) → (∀ w, 0 <= G w) →
  ∃ s', match prev with Some p => vput p | None => mret () end s = Ret () s' ∧ vinv s' ∧
    (∀ w, held s' w = G w + one base w) ∧ hframe (λ w, G w + one base w) s s'.
Proof.
  intros Hi Hh Hg. destruct prev as [p|].
  - apply put_step; [done|done|ledger].
  - exists s. split_and!; [done..|intros w; rewrite Hh; simpl; lia|by split].
Qed.

(** An iteration at the component that starts at [i]. *)
Lemma loop_body fuel p i prev base s s1 :
  nul ∉ p → drop i p ≠ [] →
  match prev with Some v => vput v | None => mret () end s = Ret () s1 →
  dir_namev_loop fuel p i prev base s =
    (let n := length (name_of (drop i p)) in
     let i' := skip_slashes (length p) p (i + n) in
     if (NAME_LEN <? n)%nat then vput base;; mret (Return (- ENAMETOOLONG) None)
     else
       '(rc, res) ← lookup base (drop i p) n;
       if (rc =? - ENOTDIR) || ((rc <? 0) && negb (rc =? - ENOENT)) then vput base;; mret (Return rc None)
       else if bool_decide (char_at p i' ≠ nul) && (0 <=? rc) then
         match fuel with O => idle | S fuel' => dir_namev_loop fuel' p i' (Some base) (default base res) end
       else mret (Exit i' i n base (default base res) rc)) s1.
Proof.
  intros Hn Hr Hs. assert (char_at p i ≠ nul) by (by rewrite char_at_end).
  assert (scan_name (length p) p i - i = length (name_of (drop i p)) ∧
    scan_name (length p) p i = i + length (name_of (drop i p)))%nat as [E1 E2].
  { rewrite scan_name_spec by (done || rewrite length_drop; lia). lia. }
  destruct fuel; cbn [dir_namev_loop]; rewrite bool_decide_eq_false_2 by done; cbn [andb];
    rewrite (bind_step _ _ _ _ _ Hs), E1, E2; done.
Qed.

Lemma skip_name p i :
  drop (skip_slashes (length p) p (i + length (name_of (drop i p)))) p =
  after_slashes (drop (length (name_of (drop i p))) (drop i p)).
Proof. rewrite skip_slashes_spec, drop_drop by (rewrite length_drop; lia). done. Qed.

Lemma dir_result_same G R R' r s : R = R' → dir_result G R r s → dir_result G R' r s.
Proof. by intros ->. Qed.

(** The view of the linked inodes in a framed state. *)
Lemma hframe_resolve G s s' i cs t :
  hframe G s s' → linked (data s) i = true → resolve (data s') i cs t = resolve (data s) i cs t.
Proof. intros F. apply resolve_same. apply F. Qed.

Lemma hframe_linked G s s' i : hframe G s s' → linked (data s) i = true → linked (data s') i = true.
Proof. intros F Hl. by destruct (hf_view _ _ _ F i Hl) as (-> & _). Qed.

(** What is left of a path after a component. *)
Lemma skip_length p i :
  name_of (drop i p) ≠ [] →
  let i' := skip_slashes (length p) p (i + length (name_of (drop i p))) in
  (length (drop i' p) < length (drop i p))%nat ∧ (i' ≤ length p)%nat ∧
  (drop i' p = [] → i' = length p) ∧ (drop i' p ≠ [] → name_of (drop i' p) ≠ []).
Proof.
  intros Hc i'.
  assert (i' ≤ length p)%nat.
  { apply skip_slashes_le. pose proof (name_of_length (drop i p)) as Hle. rewrite length_drop in Hle.
    destruct (decide (i ≤ length p)%nat); [lia|]. by rewrite drop_ge in Hc by lia. }
  pose proof (skip_name p i) as Hd. fold i' in Hd. split_and!; [|done|..].
  - rewrite Hd. pose proof (after_slashes_length (drop (length (name_of (drop i p))) (drop i p))) as Hle.
    rewrite length_drop in Hle. destruct (name_of (drop i p)) eqn:Hnm; [done|].
    pose proof (name_of_length (drop i p)) as Hle'. rewrite Hnm in Hle'. simpl in *. lia.
  - intros He. assert (length (drop i' p) = 0%nat) as Hz by (by rewrite He). rewrite length_drop in Hz. lia.
  - intros Hne. pose proof (after_slashes_hd (drop (length (name_of (drop i p))) (drop i p))) as Hh.
    rewrite <- Hd in Hh. destruct (drop i' p) as [|c q]; [done|]. simpl. by rewrite decide_False.
Qed.

Lemma walk_spec G p fuel : ∀ i prev base x s,
  nul ∉ p → vinv s → vnodes (v_fs s) !! base = Some x → linked (data s) (inode x) = true →
  (∀ w, held s w = G w + one base w + oone prev w) → (∀ w, 0 <= G w) →
  name_of (drop i p) ≠ [] → (length (drop i p) ≤ S fuel)%nat → (i ≤ length p)%nat →
  ∃ r s', (dir_namev_loop fuel p i prev base ≫= dir_namev_end p) s = Ret r s' ∧ vinv s' ∧ hframe G s s' ∧
    dir_result G (resolve (data s) (inode x) (components (drop i p)) (trailing p)) r s'.
Proof.
  induction fuel as [fuel IH] using lt_wf_ind. intros i prev base x s Hn Hi Hx Hl Hh Hg Hc Hfuel Hip.
  assert (drop i p ≠ []) as Hr by (intros He; by rewrite He in Hc).
  destruct (walk_prev G prev base s) as (s1 & E1 & Hi1 & Hh1 & Hf1); [done..|].
  assert (hframe G s s1) as HG1 by (eapply hframe_mono; [|done]; ledger).
  assert (vnodes (v_fs s1) !! base = Some x) as Hx1.
  { apply Hf1; [done|]. cbn beta. rewrite one_same. specialize (Hg base). lia. }
  pose proof (hframe_linked _ _ _ _ Hf1 Hl) as Hl1.
  rewrite <- (hframe_resolve _ _ _ _ _ _ Hf1 Hl), bind_unfold, (loop_body fuel p i prev base s s1) by done.
  rewrite (components_name _ Hc), <- skip_name.
  pose proof (skip_length p i Hc) as Hsk. cbn zeta in *. remember (skip_slashes _ _ _) as i' eqn:Hi'.
  destruct Hsk as (Hlt & Hle & Hend & Hnext). set (c := name_of (drop i p)).
  cbn [resolve]. destruct (NAME_LEN <? length c)%nat.
  { destruct (put_step G base s1) as (s2 & E2 & Hi2 & Hh2 & Hf2); [done..|].
    do 2 eexists. rewrite (bind_step _ _ _ _ _ E2). split_and!; [done..|by eapply hframe_trans|done]. }
  pose proof (lookup_step G base x s1 (drop i p) (length c) Hi1 Hx1 Hl1 Hh1 Hg) as Hlk.
  destruct errno_enoent_enotdir as (Hne & ? & ?).
  destruct (isdir (data s1) (inode x)) eqn:Hdir; cbn [negb].
  2:{ destruct (put_step G base s1) as (s2 & E2 & Hi2 & Hh2 & Hf2); [done..|].
      do 2 eexists. rewrite (bind_step _ _ _ _ _ Hlk). cbn beta iota. rewrite Z.eqb_refl. cbn [orb].
      rewrite (bind_step _ _ _ _ _ E2). split_and!; [done..|by eapply hframe_trans|done]. }
  assert (take (length c) (drop i p) = c) as Htake by apply take_name_of. rewrite Htake in Hlk.
  destruct (dirent (data s1) (inode x) c) as [j|] eqn:Hj.
  - destruct Hlk as (v & y & s2 & E2 & Hi2 & Hy & <- & Hh2 & Hf2).
    rewrite (bind_step _ _ _ _ _ E2). cbn beta iota. replace (0 =? - ENOTDIR) with false by lia. cbn [orb andb].
    assert (hframe G s s2) as HG2 by (eapply hframe_trans; [done|]; eapply hframe_mono; [|done]; ledger).
    pose proof (hframe_linked _ _ _ _ Hf2 (dirent_linked _ _ _ _ Hl1 Hj)) as Hly.
    destruct (decide (drop i' p = [])) as [He|He].
    + rewrite bool_decide_eq_false_2 by (rewrite char_at_end; auto). cbn [andb default].
      rewrite He, (Hend He). cbn [components split_slash].
      destruct (end_found G p i (length c) base x v y s2) as (r & s3 & E3 & Hi3 & Hf3 & HR); try done.
      { intros ->. by rewrite drop_nil in Hr. }
      { apply Hf2; [done|]. cbn beta. rewrite one_same. specialize (Hg base). lia. }
      exists r, s3. split_and!; [done..|by eapply hframe_trans|]. rewrite Htake in HR.
      destruct (hf_view _ _ _ Hf2 (inode y)) as (_ & Hd & _); [by eapply dirent_linked|]. by rewrite Hd in HR.
    + rewrite bool_decide_eq_true_2 by (rewrite char_at_end; auto). cbn [andb default].
      change (0 <=? 0) with true. cbn iota.
      destruct (components (drop i' p)) as [|c' cs] eqn:Hcs; [by rewrite components_name in Hcs by auto|].
      cbn iota. rewrite <- Hcs.
      destruct fuel as [|fuel]; [destruct (drop i' p); simpl in *; done || lia|].
      destruct (IH fuel ltac:(lia) i' (Some base) v y s2) as (r & s3 & E3 & Hi3 & Hf3 & HR);
        [done..|by intros w; rewrite Hh2; simpl; lia|done|auto|lia|done|].
      exists r, s3. split_and!; [done..|by eapply hframe_trans|].
      rewrite (hframe_resolve _ _ _ _ _ _ Hf2) in HR; [done|]. by eapply dirent_linked.
  - destruct Hlk as (s2 & E2 & Hi2 & Hh2 & Hf2).
    rewrite (bind_step _ _ _ _ _ E2). cbn beta iota. replace (- ENOENT =? - ENOTDIR) with false by lia.
    rewrite Z.eqb_refl. cbn [orb andb negb]. rewrite andb_false_r.
    replace (0 <=? - ENOENT) with false by lia. rewrite andb_false_r. cbn [default].
    assert (hframe G s s2) as HG2 by (eapply hframe_trans; [done|]; eapply hframe_mono; [|done]; ledger).
    destruct (end_missing G p i' i (length c) base x s2) as (r & s3 & E3 & Hi3 & Hf3 & HR); try done.
    { apply Hf2; [done|]. cbn beta. rewrite one_same. specialize (Hg base). lia. }
    { by destruct (hf_view _ _ _ Hf2 _ Hl1) as (_ & -> & _). }
    exists r, s3. split_and!; [done..|by eapply hframe_trans|]. rewrite Htake in HR.
    destruct (drop i' p) as [|c' q] eqn:He; [done|].
    destruct (components (c' :: q)) as [|? ?] eqn:Hcs; [|done]. by rewrite components_name in Hcs by auto.
Qed.

(** ** [dir_namev] *)

(** Where resolution starts. *)
Definition start_vnode (s : vst) (p : path) (base : option vnptr) : option vnptr :=
  if bool_decide (char_at p 0 = slash) then vfs_root_vn (v_fs s)
  else match base with
       | Some b => Some b
       | None => curproc (v_k s) ≫= λ cp, procfs (v_fs s) !! cp ≫= p_cwd
       end.

Lemma start_vnode_eq s p base b :
  start_vnode s p base = Some b →
  (if bool_decide (char_at p 0 = slash) then deref (vfs_root_vn (v_fs s)) "vfs_root_vn"
   else match base with
        | Some b => mret b
        | None =>
            cp ← lift cur_proc;
            pf ← deref (procfs (v_fs s) !! cp) "proc_t";
            deref (p_cwd pf) "curproc->p_cwd"
        end) s = Ret b s.
Proof.
  unfold start_vnode. case_bool_decide; [by intros ->|]. destruct base as [b'|]; [by intros [= ->]|].
  intros Hb. apply bind_Some in Hb as (cp & Hcp & Hb). apply bind_Some in Hb as (pf & Hpf & Hb).
  rewrite (bind_step _ _ _ _ _ (lift_cur_proc s cp Hcp)), Hpf. erewrite bind_step by reflexivity. by rewrite Hb.
Qed.

Lemma after_slashes_name p : after_slashes p ≠ [] → name_of (after_slashes p) ≠ [].
Proof. pose proof (after_slashes_hd p) as Hh. destruct (after_slashes p); [done|]. simpl. by rewrite decide_False. Qed.

Lemma dir_namev_spec p base b x s :
  vinv s → nul ∉ p → start_vnode s p base = Some b → vnodes (v_fs s) !! b = Some x →
  linked (data s) (inode x) = true →
  ∃ r s', dir_namev p base s = Ret r s' ∧ vinv s' ∧ hframe (held s) s s' ∧
    dir_result (held s) (resolve_path (data s) (inode x) p) r s'.
Proof.
  intros Hi Hn Hb Hx Hl. pose proof (char_at_end p 0 Hn) as H0. rewrite drop_0 in H0.
  destruct (decide (p = [])) as [->|Hne].
  { exists (- EINVAL, None), s. by split_and!. }
  replace (resolve_path _ _ p) with (resolve (data s) (inode x) (components p) (trailing p)) by (by destruct p).
  destruct (vref_spec s b x Hi Hx) as (s1 & E1 & Hi1 & Hf1 & Hvn & _ & Hh1).
  assert (∀ w, 0 <= held s w) as Hg by (intros w; by apply held_nonneg).
  assert (hframe (held s) s s1) as HG1 by (apply vframe_hframe; [done|done|ledger]).
  unfold dir_namev. rewrite bool_decide_eq_false_2 by naive_solver.
  erewrite bind_step by reflexivity. rewrite (bind_step _ _ _ _ _ (start_vnode_eq _ _ _ _ Hb)).
  rewrite (bind_step _ _ _ _ _ E1). cbn zeta.
  pose proof (skip_slashes_spec p (length p) 0) as Hsk. rewrite drop_0 in Hsk. specialize (Hsk ltac:(lia)).
  pose proof (skip_slashes_le p (length p) 0 ltac:(lia)) as Hle.
  rewrite <- (components_after p), <- Hsk. remember (skip_slashes (length p) p 0) as i eqn:Hi0.
  destruct (decide (drop i p = [])) as [He|He].
  - assert (dir_namev_loop (length p) p i None b s1 = Ret (Return 0 (Some (dot, 1%nat, b))) s1) as Hloop.
    { destruct p; [done|]. cbn [dir_namev_loop length].
      by rewrite bool_decide_eq_true_2 by (by rewrite char_at_end). }
    rewrite (bind_step _ _ _ _ _ Hloop), He. do 2 eexists. split_and!; [reflexivity|done..|].
    do 4 eexists. split_and!; [done..|by rewrite Hvn|done|done].
  - rewrite <- (hframe_resolve _ _ _ _ _ _ HG1 Hl).
    destruct (walk_spec (held s) p (length p) i None b x s1) as (r & s' & E & Hi' & Hf' & HR); try done.
    + by rewrite Hvn.
    + by eapply hframe_linked.
    + intros w. rewrite Hh1. simpl. lia.
    + rewrite Hsk in *. by apply after_slashes_name.
    + rewrite length_drop. lia.
    + exists r, s'. split_and!; [done..|by eapply hframe_trans|done].
Qed.

(** C18. [dir_namev] refines the reference resolver: for every path, and from
    the root, the given base or the working directory, it returns the
    directory and last component the resolver gives, with one reference to
    that directory, or the resolver's error (EINVAL for the empty path,
    ENAMETOOLONG, ENOTDIR, also for a file name followed by a slash, ENOENT
    for a missing intermediate component), with no reference left over; no
    other reference, open file or working directory is affected. *)
Theorem dir_namev_resolves p base b x s :
  vinv s → nul ∉ p → start_vnode s p base = Some b → vnodes (v_fs s) !! b = Some x →
  linked (data s) (inode x) = true →
  ∃ r s', dir_namev p base s = Ret r s' ∧ vinv s' ∧ vframe s s' ∧
    match resolve_path (data s) (inode x) p with
    | inl e => r = (- e, None) ∧ ∀ w, held s' w = held s w
    | inr (j, n) => ∃ name len d y, r = (0, Some (name, len, d)) ∧ take len name = n ∧
        vnodes (v_fs s') !! d = Some y ∧ inode y = j ∧ ∀ w, held s' w = held s w + one d w
    end.
Proof.
  intros Hi Hn Hb Hx Hl.
  destruct (dir_namev_spec p base b x s) as (r & s' & E & Hi' & Hf & HR); [done..|].
  exists r, s'. split_and!; [done..|by apply hframe_vframe|exact HR].
Qed.

(** ** [open_namev] *)

Definition wants_write (flag : Z) : bool :=
  negb (Z.land flag O_WRONLY =? 0) || negb (Z.land flag O_RDWR =? 0).

(** What [open_namev] returns for a file of the reference resolver. *)
Definition open_result (G : vnptr → Z) (D : fsdata) (flag : Z) (R : Z + ino) (r : Z * option vnptr) (s : vst) : Prop :=
  match R with
  | inl e => r = (- e, None) ∧ ∀ w, held s w = G w
  | inr j =>
      if wants_write flag && isdir D j then r = (- EISDIR, None) ∧ ∀ w, held s w = G w
      else ∃ v y, r = (0, Some v) ∧ vnodes (v_fs s) !! v = Some y ∧ inode y = j ∧
        ∀ w, held s w = G w + one v w
  end.

Lemma vops_of_eq s v x k : vnodes (v_fs s) !! v = Some x → vn_ops x = Some k → vops_of v s = Ret (vops_tab k) s.
Proof. intros Hx Hk. unfold vops_of. rewrite (bind_step _ _ _ _ _ (vnode_at_eq _ _ _ Hx)), Hk. done. Qed.

(** The vnode of a reference held throughout. *)
Lemma hframe_held G b s s' x :
  hframe (λ w, G w + one b w) s s' → vnodes (v_fs s) !! b = Some x → (∀ w, 0 <= G w) →
  vnodes (v_fs s') !! b = Some x.
Proof. intros F Hx Hg. apply F; [done|]. cbn beta. rewrite one_same. specialize (Hg b). lia. Qed.

(** The end of [open_namev], when the file exists. *)
Lemma open_found G d x v y s flag :
  vinv s → vnodes (v_fs s) !! d = Some x → vnodes (v_fs s) !! v = Some y →
  (∀ w, held s w = G w + one d w + one v w) → (∀ w, 0 <= G w) →
  ∃ r s', (rops ← vops_of v;
     if (negb (Z.land flag O_WRONLY =? 0) || negb (Z.land flag O_RDWR =? 0))
        && bool_decide (is_Some (op_mkdir rops)) then
       vput v;; vput d;; mret (- EISDIR, None)
     else vput d;; mret (0, Some v)) s = Ret r s' ∧ vinv s' ∧ hframe G s s' ∧
    open_result G (data s) flag (inr (inode y)) r s'.
Proof.
  intros Hi Hx Hy Hh Hg. destruct (ok_ops _ _ _ (vi_ok _ Hi _ _ Hy)) as (k & Hk & _ & Hmk & _).
  rewrite (bind_step _ _ _ _ _ (vops_of_eq _ _ _ _ Hy Hk)). unfold open_result.
  assert (bool_decide (is_Some (op_mkdir (vops_tab k))) = isdir (data s) (inode y)) as ->.
  { rewrite (bool_decide_ext _ _ Hmk). by destruct (isdir _ _). }
  fold (wants_write flag). destruct (wants_write flag && _).
  - destruct (put_step (λ w, G w + one d w) v s) as (s1 & E1 & Hi1 & Hh1 & Hf1); [done|ledger..|].
    destruct (put_step G d s1) as (s2 & E2 & Hi2 & Hh2 & Hf2); [done..|].
    do 2 eexists. rewrite (bind_step _ _ _ _ _ E1), (bind_step _ _ _ _ _ E2). split_and!; [done|done| |done|done].
    eapply hframe_trans; [|done]. eapply hframe_mono; [|done]. ledger.
  - destruct (put_step (λ w, G w + one v w) d s) as (s1 & E1 & Hi1 & Hh1 & Hf1); [done|ledger..|].
    do 2 eexists. rewrite (bind_step _ _ _ _ _ E1). split_and!; [done|done| |].
    + eapply hframe_mono; [|done]. ledger.
    + exists v, y. split_and!; [done| |done..]. by eapply hframe_held.
Qed.

(** When it does not. *)
Lemma open_missing G d y s0 s flag e name len :
  vinv s → vnodes (v_fs s) !! d = Some y → (∀ w, held s w = G w + one d w) → (∀ w, 0 <= G w) →
  hframe G s0 s → Z.land flag O_CREAT = 0 →
  ∃ r s', (ops ← vops_of d;
      (if negb (Z.land flag O_CREAT =? 0) then
         KASSERT (bool_decide (is_Some (op_create ops))) "NULL != res_dir_vnode->vn_ops->create"
       else mret ());;
      if negb (Z.land flag O_CREAT =? 0) && (- e =? - ENOENT) then
        create ← deref (op_create ops) "res_dir_vnode->vn_ops->create";
        '(createReturnCode, r) ← create d name len;
        vput d;;
        mret (createReturnCode, r)
      else vput d;; mret (- e, None)) s = Ret r s' ∧ vinv s' ∧ hframe G s0 s' ∧
    open_result G (data s0) flag (inl e) r s'.
Proof.
  intros Hi Hy Hh Hg Hf Hcr. destruct (ok_ops _ _ _ (vi_ok _ Hi _ _ Hy)) as (k & Hk & _).
  rewrite (bind_step _ _ _ _ _ (vops_of_eq _ _ _ _ Hy Hk)), Hcr. change (negb (0 =? 0)) with false. cbn [andb].
  erewrite bind_step by reflexivity. destruct (put_step G d s) as (s1 & E1 & Hi1 & Hh1 & Hf1); [done..|].
  do 2 eexists. rewrite (bind_step _ _ _ _ _ E1). split_and!; [done..|by eapply hframe_trans|done].
Qed.

Lemma open_namev_spec p flag base b x s :
  vinv s → nul ∉ p → start_vnode s p base = Some b → vnodes (v_fs s) !! b = Some x →
  linked (data s) (inode x) = true → Z.land flag O_CREAT = 0 →
  ∃ r s', open_namev p flag base s = Ret r s' ∧ vinv s' ∧ hframe (held s) s s' ∧
    open_result (held s) (data s) flag (resolve_file (data s) (inode x) p) r s'.
Proof.
  intros Hi Hn Hb Hx Hl Hcr. assert (∀ w, 0 <= held s w) as Hg by (intros w; by apply held_nonneg).
  destruct (dir_namev_spec p base b x s) as (r & s1 & E1 & Hi1 & Hf1 & HR); [done..|].
  unfold open_namev, resolve_file. rewrite (bind_step _ _ _ _ _ E1).
  destruct (resolve_path _ _ p) as [e|[j n]] eqn:Hres.
  { destruct HR as [-> Hh]. pose proof (resolve_error_pos _ _ _ _ Hres).
    replace (- e <? 0) with true by lia. by exists (- e, None), s1. }
  destruct HR as (name & len & d & y & -> & <- & Hy & <- & Hh1). change (0 <? 0) with false. cbn iota.
  erewrite bind_step by reflexivity.
  pose proof (resolve_path_linked _ _ _ _ _ Hl Hres) as Hlj.
  destruct (hf_view _ _ _ Hf1 _ Hlj) as (Hlj1 & Hdj & Hej). rewrite Hlj in Hlj1.
  pose proof (lookup_step (held s) d y s1 name len Hi1 Hy Hlj1 Hh1 Hg) as Hlk. rewrite Hdj, Hej in Hlk.
  destruct errno_enoent_enotdir as (_ & ? & ?).
  destruct (isdir (data s) (inode y)); cbn [negb].
  2:{ rewrite (bind_step _ _ _ _ _ Hlk). cbn iota. replace (- ENOTDIR <? 0) with true by lia.
      by apply (open_missing (held s) d y s s1). }
  destruct (dirent (data s) (inode y) (take len name)) as [j|] eqn:Hj.
  - destruct Hlk as (v & z & s2 & E2 & Hi2 & Hz & <- & Hh2 & Hf2).
    assert (hframe (held s) s s2) by (eapply hframe_trans; [done|]; eapply hframe_mono; [|done]; ledger).
    rewrite (bind_step _ _ _ _ _ E2). change (0 <? 0) with false. cbn iota. erewrite bind_step by reflexivity.
    destruct (open_found (held s) d y v z s2 flag) as (r & s3 & E3 & Hi3 & Hf3 & HR); [done| |done..|].
    { by eapply hframe_held. }
    exists r, s3. split_and!; [done..|by eapply hframe_trans|].
    destruct (hf_view (held s) s s2 ltac:(done) (inode z)) as (_ & Hd & _).
    { by eapply dirent_linked. }
    unfold open_result in *. by rewrite Hd in HR.
  - destruct Hlk as (s2 & E2 & Hi2 & Hh2 & Hf2). rewrite (bind_step _ _ _ _ _ E2). cbn iota.
    replace (- ENOENT <? 0) with true by lia. apply (open_missing (held s) d y s s2); try done.
    + by eapply hframe_held.
    + eapply hframe_trans; [done|]. eapply hframe_mono; [|done]. ledger.
Qed.

(** C38. Without O_CREAT, [open_namev] refines the reference resolver: it
    returns the vnode of the inode the path names, with one reference to it,
    or the resolver's error, or EISDIR where the flags ask to write to a
    directory; in the error cases no reference is left over. *)
Theorem open_namev_resolves p flag base b x s :
  vinv s → nul ∉ p → start_vnode s p base = Some b → vnodes (v_fs s) !! b = Some x →
  linked (data s) (inode x) = true → Z.land flag O_CREAT = 0 →
  ∃ r s', open_namev p flag base s = Ret r s' ∧ vinv s' ∧ vframe s s' ∧
    match resolve_file (data s) (inode x) p with
    | inl e => r = (- e, None) ∧ ∀ w, held s' w = held s w
    | inr j =>
        if wants_write flag && isdir (data s) j then r = (- EISDIR, None) ∧ ∀ w, held s' w = held s w
        else ∃ v y, r = (0, Some v) ∧ vnodes (v_fs s') !! v = Some y ∧ inode y = j ∧
          ∀ w, held s' w = held s w + one v w
    end.
Proof.
  intros Hi Hn Hb Hx Hl Hcr.
  destruct (open_namev_spec p flag base b x s) as (r & s' & E & Hi' & Hf & HR); [done..|].
  exists r, s'. split_and!; [done..|by apply hframe_vframe|exact HR].
Qed.
End namev_props.
