(* ===== verification/Vfs.v ===== *)
(** * Open files and file system calls (open.c, vfs_syscall.c) *)

From S2P Require Import Prelude Kstate Sched Vmstate Vnode Namev.
Local Open Scope Z_scope.

Definition file_at (f : fptr) : V file :=
  λ s, match files (v_fs s) !! f with Some x => Ret x s | None => Panic "file_t" end.
Definition upd_file (f : fptr) (g : file → file) : V () :=
  λ s, match files (v_fs s) !! f with
       | Some x => Ret () (set_fs (set_files (insert f (g x))) s)
       | None => Panic "file_t"
       end.

(** [curproc->p_files] and [curproc->p_cwd]. *)
Definition cur_fs : V proc_fs :=
  cp ← lift cur_proc;
  s ← get;
  deref (procfs (v_fs s) !! cp) "proc_t".
Definition upd_cur_fs (g : proc_fs → proc_fs) : V () :=
  cp ← lift cur_proc;
  pf ← cur_fs;
  modify (set_fs (set_procfs (insert cp (g pf)))).
Definition get_fd (fd : Z) : V (option fptr) :=
  pf ← cur_fs; deref (p_files pf !! Z.to_nat fd) "p_files[fd]".
Definition with_fd (fd : Z) (o : option fptr) (pf : proc_fs) : proc_fs :=
  ProcFs (<[Z.to_nat fd := o]> (p_files pf)) (p_cwd pf).
Definition set_fd (fd : Z) (o : option fptr) : V () := upd_cur_fs (with_fd fd o).
Definition set_cwd (v : vnptr) : V () := upd_cur_fs (λ pf, ProcFs (p_files pf) (Some v)).

(** A 32 bit signed result. *)
Definition sint (x : Z) : Z := int32 (u32 x).

Section files.
Context `{VmEnv} `{VfsEnv} `{Machine} `{Errno} `{Objects} `{NameEnv}.

(** The functions of file.c, and constants of the headers: [fget] of a
    descriptor takes a reference to its file, [fget(-1)] allocates a file
    with one reference, [fput] gives a reference up, with the last one the
    vnode and the file itself. *)
Class FileTable := {
  NFILES : Z;
  MAXPATHLEN : nat;
  FMODE_READ : Z;
  FMODE_WRITE : Z;
  FMODE_APPEND : Z;
  SEEK_SET : Z;
  SEEK_CUR : Z;
  SEEK_END : Z;
  sizeof_dirent : Z;
  name_match : path → path → nat → bool;
  fget : Z → V (option fptr);
  fput : fptr → V ();
  nfiles_pos : 0 < NFILES;
  seek_nodup : NoDup [SEEK_SET; SEEK_CUR; SEEK_END];
  fmode_bits : ∃ a b c, 0 <= a ∧ 0 <= b ∧ 0 <= c ∧ NoDup [a; b; c] ∧
    FMODE_READ = 2 ^ a ∧ FMODE_WRITE = 2 ^ b ∧ FMODE_APPEND = 2 ^ c;
  fget_open : ∀ s cp pf fd f x, curproc (v_k s) = Some cp → procfs (v_fs s) !! cp = Some pf →
    0 <= fd < NFILES → p_files pf !! Z.to_nat fd = Some (Some f) → files (v_fs s) !! f = Some x →
    fget fd s = Ret (Some f) (set_fs (set_files (insert f (with_frefcount (λ n, n + 1) x))) s);
  fget_closed : ∀ s cp pf fd, curproc (v_k s) = Some cp → procfs (v_fs s) !! cp = Some pf →
    0 <= fd < NFILES → p_files pf !! Z.to_nat fd = Some None → fget fd s = Ret None s;
  fget_new : ∀ s, fget (-1) s = Ret None s ∨
    ∃ f, files (v_fs s) !! f = None ∧
      fget (-1) s = Ret (Some f) (set_fs (set_files (insert f (File 0 0 1 None))) s);
  fput_shared : ∀ s f x, files (v_fs s) !! f = Some x → 1 < f_refcount x →
    fput f s = Ret () (set_fs (set_files (insert f (with_frefcount (λ n, n - 1) x))) s);
  fput_last : ∀ s f x, files (v_fs s) !! f = Some x → f_refcount x = 1 →
    fput f s = (match f_vnode x with Some v => vput v | None => mret () end;;
                modify (set_fs (set_files (delete f)))) s;
}.

Context `{FileTable}.

(** ** open.c *)

Fixpoint empty_fd_loop (l : list (option fptr)) (fd : Z) : Z :=
  match l with
  | [] => - EMFILE
  | None :: _ => fd
  | Some _ :: l' => empty_fd_loop l' (fd + 1)
  end.

Definition get_empty_fd : V Z :=
  pf ← cur_fs; mret (empty_fd_loop (take (Z.to_nat NFILES) (p_files pf)) 0).

Definition do_open (filename : path) (oflags : Z) : V Z :=
  let has b := negb (Z.land oflags b =? 0) in
  let readAndWrite := has O_RDWR && negb (has O_WRONLY) && negb (has O_RDONLY) in
  let writeOnly := has O_WRONLY && negb (has O_RDWR) in
  let readOnly := ((oflags =? O_RDONLY) || (oflags =? Z.lor O_RDONLY O_CREAT)) && negb (has O_RDWR) in
  let append := has O_APPEND in
  if (readOnly && writeOnly) || (readAndWrite && (readOnly || writeOnly)) then mret (- EINVAL)
  else
    fd ← get_empty_fd;
    if fd =? - EMFILE then mret (- EMFILE)
    else
      r ← fget (-1);
      match r with
      | None => mret (- ENOMEM)
      | Some f =>
          set_fd fd (Some f);;
          upd_file f (with_fmode 0);;
          (if append then upd_file f (with_fmode FMODE_APPEND) else mret ());;
          x ← file_at f;
          let set_mode m := upd_file f (with_fmode m) in
          let rest :=
            '(open_result, res_vnode) ← open_namev filename oflags None;
            if open_result <? 0 then
              set_fd fd None;;
              fput f;;
              mret open_result
            else
              upd_file f (λ y, File 0 (f_mode y) 1 res_vnode);;
              mret fd in
          if writeOnly then set_mode (Z.lor (f_mode x) FMODE_WRITE);; rest
          else if readAndWrite then set_mode (Z.lor (Z.lor (f_mode x) FMODE_READ) FMODE_WRITE);; rest
          else if readOnly then set_mode (Z.lor (f_mode x) FMODE_READ);; rest
          else fput f;; set_fd fd None;; mret (- EINVAL)
      end.

(** ** vfs_syscall.c *)

Definition bad_fd (fd : Z) : bool := (fd <? 0) || (NFILES <=? fd).

Definition do_lseek (fd offset whence : Z) : V Z :=
  if bad_fd fd then mret (- EBADF)
  else
    r ← fget fd;
    match r with
    | None => mret (- EBADF)
    | Some f =>
        if (whence =? SEEK_SET) || (whence =? SEEK_CUR) || (whence =? SEEK_END) then
          x ← file_at f;
          newPos ←
            (if whence =? SEEK_SET then mret offset
             else if whence =? SEEK_CUR then mret (sint (f_pos x + offset))
             else
               vn ← deref (f_vnode x) "file->f_vnode";
               v ← vnode_at vn;
               mret (sint (vn_len v + offset)));
          if newPos <? 0 then fput f;; mret (- EINVAL)
          else upd_file f (with_pos newPos);; fput f;; mret newPos
        else fput f;; mret (- EINVAL)
    end.

Definition do_read (fd buf nbytes : Z) : V Z :=
  if bad_fd fd then mret (- EBADF)
  else
    r ← fget fd;
    match r with
    | None => mret (- EBADF)
    | Some f =>
        x ← file_at f;
        if negb (Z.land (f_mode x) FMODE_READ =? 0) then
          vn ← deref (f_vnode x) "file->f_vnode";
          v ← vnode_at vn;
          ops ← vops_of vn;
          match op_read ops with
          | Some read =>
              if negb (S_ISDIR (vn_mode v)) then
                n ← read vn (f_pos x) buf nbytes;
                let bytesRead := u32 n in
                seekResult ←
                  (if 0 <? bytesRead then do_lseek fd (int32 bytesRead) SEEK_CUR
                   else if negb (nbytes =? 0) then do_lseek fd 0 SEEK_END
                   else mret 0);
                fput f;;
                mret (if seekResult <? 0 then seekResult else int32 bytesRead)
              else fput f;; mret (- EISDIR)
          | None => fput f;; mret (- EISDIR)
          end
        else fput f;; mret (- EBADF)
    end.

Definition do_write (fd buf nbytes : Z) : V Z :=
  if bad_fd fd then mret (- EBADF)
  else
    r ← fget fd;
    match r with
    | None => mret (- EBADF)
    | Some f =>
        x ← file_at f;
        if negb (Z.land (f_mode x) FMODE_WRITE =? 0) then
          vn ← deref (f_vnode x) "file->f_vnode";
          v ← vnode_at vn;
          ops ← vops_of vn;
          match op_write ops with
          | Some write =>
              if negb (S_ISDIR (vn_mode v)) then
                seek1 ←
                  (if negb (Z.land (f_mode x) FMODE_APPEND =? 0) then do_lseek fd 0 SEEK_END else mret 0);
                y ← file_at f;
                bytesWritten ← write vn (f_pos y) buf nbytes;
                seekResult ←
                  (if 0 <? bytesWritten then
                     v' ← vnode_at vn;
                     z ← file_at f;
                     KASSERT (S_ISCHR (vn_mode v') || S_ISBLK (vn_mode v')
                              || (S_ISREG (vn_mode v') && (f_pos z <=? vn_len v')))
                       "S_ISCHR || S_ISBLK || (S_ISREG && file->f_pos <= file->f_vnode->vn_len)";;
                     do_lseek fd bytesWritten SEEK_CUR
                   else mret seek1);
                fput f;;
                mret (if seekResult <? 0 then seekResult else bytesWritten)
              else fput f;; mret (- EISDIR)
          | None => fput f;; mret (- EISDIR)
          end
        else fput f;; mret (- EBADF)
    end.

Definition do_close (fd : Z) : V Z :=
  if bad_fd fd then mret (- EBADF)
  else
    o ← get_fd fd;
    match o with
    | Some f => fput f;; set_fd fd None;; mret 0
    | None => mret (- EBADF)
    end.

Definition do_dup (fd : Z) : V Z :=
  if bad_fd fd then mret (- EBADF)
  else
    o ← get_fd fd;
    match o with
    | None => mret (- EBADF)
    | Some _ =>
        r ← fget fd;
        nextFD ← get_empty_fd;
        if nextFD <? 0 then
          f ← deref r "file";
          fput f;; mret nextFD
        else
          o' ← get_fd fd;
          set_fd nextFD o';;
          mret nextFD
    end.

(** The inner [closeResult] of the source shadows the outer one, which is 0. *)
Definition do_dup2 (ofd nfd : Z) : V Z :=
  if bad_fd ofd || bad_fd nfd then mret (- EBADF)
  else
    o ← get_fd ofd;
    match o with
    | None => mret (- EBADF)
    | Some _ =>
        if ofd =? nfd then mret ofd
        else
          c ← get_fd nfd;
          match c with Some _ => _ ← do_close nfd; mret () | None => mret () end;;
          r ← fget ofd;
          set_fd nfd r;;
          mret nfd
    end.

Definition do_mknod (p : path) (mode devid : Z) : V Z :=
  if S_ISCHR mode || S_ISBLK mode then
    '(dirResult, out) ← dir_namev p None;
    if dirResult =? 0 then
      '(name, len, dir) ← deref out "dirVnode";
      '(lookupResult, result) ← lookup dir name len;
      if lookupResult =? 0 then
        r ← deref result "result";
        vput r;; vput dir;; mret (- EEXIST)
      else if lookupResult =? - ENOTDIR then vput dir;; mret lookupResult
      else
        ops ← vops_of dir;
        mknod ← deref (op_mknod ops) "NULL != dirVnode->vn_ops->mknod";
        mknodResult ← mknod dir name len mode devid;
        vput dir;; mret mknodResult
    else mret dirResult
  else mret (- EINVAL).

Definition do_mkdir (p : path) : V Z :=
  '(dirResult, out) ← dir_namev p None;
  if dirResult <? 0 then mret dirResult
  else
    '(name, len, dir) ← deref out "dirVnode";
    '(lookupResult, result) ← lookup dir name len;
    if lookupResult =? 0 then
      r ← deref result "resVnode";
      vput r;; vput dir;; mret (- EEXIST)
    else if lookupResult =? - ENOTDIR then vput dir;; mret lookupResult
    else
      ops ← vops_of dir;
      mkdir ← deref (op_mkdir ops) "NULL != dirVnode->vn_ops->mkdir";
      mkdirResult ← mkdir dir name len;
      vput dir;; mret mkdirResult.

Definition do_rmdir (p : path) : V Z :=
  '(dirResult, out) ← dir_namev p None;
  if dirResult <? 0 then mret dirResult
  else
    '(name, len, dir) ← deref out "dirVnode";
    ops ← vops_of dir;
    match op_rmdir ops with
    | None => vput dir;; mret (- ENOTDIR)
    | Some rmdir =>
        if name_match name dot len then vput dir;; mret (- EINVAL)
        else if name_match name (dot ++ dot) len then vput dir;; mret (- ENOTEMPTY)
        else
          '(lookupResult, result) ← lookup dir name len;
          if negb (lookupResult =? 0) then vput dir;; mret lookupResult
          else
            r ← deref result "resVnode";
            rops ← vops_of r;
            if bool_decide (is_Some (op_rmdir rops)) then
              rmdirResult ← rmdir dir name len;
              vput r;; vput dir;; mret rmdirResult
            else vput r;; vput dir;; mret (- ENOTDIR)
    end.

Definition do_unlink (p : path) : V Z :=
  '(dirResult, out) ← dir_namev p None;
  if dirResult <? 0 then mret dirResult
  else
    '(name, len, dir) ← deref out "dirVnode";
    ops ← vops_of dir;
    match op_unlink ops with
    | None => vput dir;; mret (- ENOTDIR)
    | Some unlink =>
        '(lookupResult, result) ← lookup dir name len;
        if negb (lookupResult =? 0) then vput dir;; mret lookupResult
        else
          r ← deref result "resVnode";
          rops ← vops_of r;
          if bool_decide (is_Some (op_rmdir rops)) then vput r;; vput dir;; mret (- EPERM)
          else
            unlinkResult ← unlink dir name len;
            vput r;; vput dir;; mret unlinkResult
    end.

Definition do_link (from to : path) : V Z :=
  if (MAXPATHLEN <? length from)%nat || (MAXPATHLEN <? length to)%nat then mret (- ENAMETOOLONG)
  else
    '(openResult, fr) ← open_namev from O_RDONLY None;
    if openResult <? 0 then mret openResult
    else
      fromVnode ← deref fr "fromVnode";
      '(dirResult, out) ← dir_namev to None;
      if dirResult <? 0 then vput fromVnode;; mret dirResult
      else
        '(name, len, toVnode) ← deref out "toVnode";
        ops ← vops_of toVnode;
        match op_link ops with
        | None => mret (- ENOTDIR)
        | Some link =>
            '(lookupResult, result) ← lookup toVnode name len;
            if negb (lookupResult =? 0) then
              linkResult ← link fromVnode toVnode name len;
              vput fromVnode;; vput toVnode;; mret linkResult
            else
              r ← deref result "resVnode";
              vput r;; vput fromVnode;; vput toVnode;; mret (- EEXIST)
        end.

Definition do_rename (oldname newname : path) : V Z :=
  linkResult ← do_link oldname newname;
  if linkResult <? 0 then mret linkResult else do_unlink oldname.

Definition do_chdir (p : path) : V Z :=
  '(openResult, r) ← open_namev p O_RDONLY None;
  if openResult <? 0 then mret openResult
  else
    newDir ← deref r "newDirVnode";
    v ← vnode_at newDir;
    ops ← vops_of newDir;
    if S_ISDIR (vn_mode v) && bool_decide (is_Some (op_mkdir ops)) then
      pf ← cur_fs;
      old ← deref (p_cwd pf) "curproc->p_cwd";
      vput old;;
      set_cwd newDir;;
      mret 0
    else vput newDir;; mret (- ENOTDIR).

Definition do_getdent (fd dirp : Z) : V Z :=
  if bad_fd fd then mret (- EBADF)
  else
    r ← fget fd;
    match r with
    | None => mret (- EBADF)
    | Some f =>
        x ← file_at f;
        vn ← deref (f_vnode x) "file->f_vnode";
        ops ← vops_of vn;
        match op_readdir ops with
        | None => fput f;; mret (- ENOTDIR)
        | Some readdir =>
            bytesCopied ← readdir vn (f_pos x) dirp;
            if bytesCopied <=? 0 then fput f;; mret bytesCopied
            else
              seekResult ← do_lseek fd bytesCopied SEEK_CUR;
              fput f;;
              mret (if seekResult <? 0 then seekResult else sizeof_dirent)
        end
    end.

Definition do_stat (p : path) (buf : Z) : V Z :=
  '(openResult, r) ← open_namev p O_RDONLY None;
  if openResult <? 0 then mret openResult
  else
    res ← deref r "resVnode";
    ops ← vops_of res;
    stat ← deref (op_stat ops) "NULL != resVnode->vn_ops->stat";
    statResult ← stat res buf;
    vput res;; mret statResult.

(** Mounting is not implemented; the strings are buffers that nothing reads. *)
Definition do_mount (source : option (list Z)) (target type : list Z) : V Z := mret (- EINVAL).
Definition do_umount (target : list Z) : V Z := mret (- EINVAL).
End files.
