(* ===== verification/VfsProps.v ===== *)
(** * Properties of open files and file system calls *)

From S2P Require Import Prelude Kstate Sched Vmstate Pframe Vnode VnodeProps Namev NamevProps Vfs.
Local Open Scope Z_scope.

Section vfs_props.
Context {VE : VmEnv} {FE : VfsEnv} {MA : Machine} {ER : Errno} {OB : Objects} {NE : NameEnv}
  {FT : FileTable} {FV : FsView}.

(** ** The tables of files and descriptors *)

Lemma file_at_eq s f x : files (v_fs s) !! f = Some x → file_at f s = Ret x s.
Proof. intros Hx. unfold file_at. by rewrite Hx. Qed.

Lemma upd_file_eq s f x g :
  files (v_fs s) !! f = Some x → upd_file f g s = Ret () (set_fs (set_files (insert f (g x))) s).
Proof. intros Hx. unfold upd_file. by rewrite Hx. Qed.

(** The current process and its descriptors. *)
Definition cur_is (s : vst) (cp : pptr) (pf : proc_fs) : Prop :=
  curproc (v_k s) = Some cp ∧ procfs (v_fs s) !! cp = Some pf.

Lemma cur_fs_eq s cp pf : cur_is s cp pf → cur_fs s = Ret pf s.
Proof.
  intros [Hc Hp]. unfold cur_fs. rewrite (bind_step _ _ _ _ _ (lift_cur_proc _ _ Hc)).
  erewrite bind_step by reflexivity. by rewrite Hp.
Qed.

Lemma upd_cur_fs_eq s cp pf g :
  cur_is s cp pf → upd_cur_fs g s = Ret () (set_fs (set_procfs (insert cp (g pf))) s).
Proof.
  intros Hc. unfold upd_cur_fs. rewrite (bind_step _ _ _ _ _ (lift_cur_proc _ _ (proj1 Hc))).
  by rewrite (bind_step _ _ _ _ _ (cur_fs_eq _ _ _ Hc)).
Qed.

Lemma get_fd_eq s cp pf fd o :
  cur_is s cp pf → p_files pf !! Z.to_nat fd = Some o → get_fd fd s = Ret o s.
Proof. intros Hc Ho. unfold get_fd. by rewrite (bind_step _ _ _ _ _ (cur_fs_eq _ _ _ Hc)), Ho. Qed.

(** [s] with other tables of files and descriptors. *)
Definition tables (F : gmap fptr file) (P : gmap pptr proc_fs) (s : vst) : vst :=
  set_fs (λ fs, Fsst (vnodes fs) (vnode_inuse_list fs) F P (vfs_root_vn fs) (disk fs)) s.

Lemma tables_files g F P s : set_fs (set_files g) (tables F P s) = tables (g F) P s.
Proof. done. Qed.
Lemma tables_procfs g F P s : set_fs (set_procfs g) (tables F P s) = tables F (g P) s.
Proof. done. Qed.
Lemma tables_self s : tables (files (v_fs s)) (procfs (v_fs s)) s = s.
Proof. by destruct s as [??????????? ? []]. Qed.
Lemma tables_tables F P F' P' s : tables F P (tables F' P' s) = tables F P s.
Proof. done. Qed.

Lemma tables_vinv F P s : vinv s → vinv (tables F P s).
Proof.
  intros Hi. split; [|apply Hi..]. intros v x Hx. destruct (vi_ok _ Hi v x Hx) as [Hobj ????]. by split.
Qed.

Lemma tables_held F P s w : held (tables F P s) w = held s w.
Proof. done. Qed.

(** [get_empty_fd] finds the least free descriptor. *)
Lemma empty_fd_loop_spec l n :
  let r := empty_fd_loop l n in
  (r = - EMFILE ∧ Forall is_Some l) ∨
  (∃ i, r = n + Z.of_nat i ∧ l !! i = Some None ∧ Forall is_Some (take i l)).
Proof.
  revert n. induction l as [|[f|] l IH]; intros n; simpl.
  - left. by split.
  - destruct (IH (n + 1)) as [[-> Hl]|(i & -> & Hi & Hl)].
    + left. split; [done|]. constructor; eauto.
    + right. exists (S i). split; [lia|]. split; [done|]. simpl. constructor; eauto.
  - right. exists 0%nat. split; [lia|]. split; [done|]. constructor.
Qed.

Lemma get_empty_fd_eq s cp pf :
  cur_is s cp pf → get_empty_fd s = Ret (empty_fd_loop (take (Z.to_nat NFILES) (p_files pf)) 0) s.
Proof. intros Hc. unfold get_empty_fd. by rewrite (bind_step _ _ _ _ _ (cur_fs_eq _ _ _ Hc)). Qed.

Lemma empty_fd_free pf n :
  empty_fd_loop (take (Z.to_nat NFILES) (p_files pf)) 0 = n → 0 <= n →
  p_files pf !! Z.to_nat n = Some None ∧ n < NFILES.
Proof.
  intros <- Hn. pose proof errno_pos as Hp. unfold errnos in Hp. rewrite !Forall_cons in Hp.
  destruct (empty_fd_loop_spec (take (Z.to_nat NFILES) (p_files pf)) 0) as [[E _]|(i & E & Hi & _)]; [lia|].
  rewrite E in *. apply lookup_take_Some in Hi as [Hi Hlt].
  replace (Z.to_nat (0 + Z.of_nat i)) with i by lia. split; [done|lia].
Qed.

Lemma with_fd_undo pf n o :
  p_files pf !! Z.to_nat n = Some None → with_fd n None (with_fd n o pf) = pf.
Proof.
  intros Hn. destruct pf as [l c]. unfold with_fd. simpl in *. by rewrite list_insert_insert_eq, list_insert_id.
Qed.

(** ** Using a descriptor *)

(** Descriptor [fd] of the current process is open, on file [f]. *)
Definition open_fd (s : vst) (fd : Z) (f : fptr) (x : file) : Prop :=
  0 <= fd < NFILES ∧ files (v_fs s) !! f = Some x ∧ 1 <= f_refcount x ∧
  ∃ cp pf, cur_is s cp pf ∧ p_files pf !! Z.to_nat fd = Some (Some f).

(** [s] with file [f] changed to [x]. *)
Definition put_file (f : fptr) (x : file) (s : vst) : vst := set_fs (set_files (insert f x)) s.

Lemma put_file_twice f x y s : put_file f x (put_file f y s) = put_file f x s.
Proof. destruct s as [??????????? ? []]. unfold put_file, set_fs, set_files. simpl. by rewrite insert_insert_eq. Qed.

Lemma put_file_same f x s : files (v_fs s) !! f = Some x → put_file f x s = s.
Proof.
  destruct s as [??????????? ? []]. unfold put_file, set_fs, set_files. simpl. intros Hx. by rewrite insert_id.
Qed.

Definition plus_ref (x : file) : file := with_frefcount (λ n, n + 1) x.

Lemma bad_fd_open fd : 0 <= fd < NFILES → bad_fd fd = false.
Proof. unfold bad_fd. intros ?. apply orb_false_iff. lia. Qed.

Lemma fget_eq s fd f x : open_fd s fd f x → fget fd s = Ret (Some f) (put_file f (plus_ref x) s).
Proof. intros (Hr & Hx & _ & cp & pf & [Hc Hp] & Hfd). by apply (fget_open s cp pf). Qed.

(** Giving back a reference taken by [fget]. *)
Lemma fput_eq s f x y : f_refcount y = f_refcount x + 1 → 1 <= f_refcount x →
  fput f (put_file f y s) = Ret () (put_file f (with_frefcount (λ n, n - 1) y) s).
Proof.
  intros Hy Hx. rewrite (fput_shared _ f y); [|apply lookup_insert_eq|lia].
  change (Ret () (put_file f (with_frefcount (λ n, n - 1) y) (put_file f y s)) =
    Ret () (put_file f (with_frefcount (λ n, n - 1) y) s)). by rewrite put_file_twice.
Qed.

Lemma minus_plus x : with_frefcount (λ n, n - 1) (plus_ref x) = x.
Proof. destruct x. unfold plus_ref, with_frefcount. simpl. f_equal. lia. Qed.

(** The position [do_lseek] goes to. *)
Definition seek_target (len : Z) (x : file) (offset whence : Z) : option Z :=
  if whence =? SEEK_SET then Some offset
  else if whence =? SEEK_CUR then Some (sint (f_pos x + offset))
  else if whence =? SEEK_END then Some (sint (len + offset))
  else None.

Lemma do_lseek_spec s fd f x vn v offset whence :
  open_fd s fd f x → f_vnode x = Some vn → vnodes (v_fs s) !! vn = Some v →
  do_lseek fd offset whence s =
    match seek_target (vn_len v) x offset whence with
    | Some n => if n <? 0 then Ret (- EINVAL) s else Ret n (put_file f (with_pos n x) s)
    | None => Ret (- EINVAL) s
    end.
Proof.
  intros Ho Hvn Hv. destruct Ho as (Hr & Hx & Hc & Hrest) eqn:Heq. clear Heq.
  unfold do_lseek, seek_target. rewrite (bad_fd_open _ Hr), (bind_step _ _ _ _ _ (fget_eq _ _ _ _ Ho)). cbn iota.
  set (s1 := put_file f (plus_ref x) s).
  assert (fput f s1 = Ret () s) as Hput.
  { unfold s1. rewrite (fput_eq _ _ x), minus_plus by done. by rewrite put_file_same. }
  assert (∀ n, (if n <? 0 then fput f;; mret (- EINVAL)
     else upd_file f (with_pos n);; fput f;; mret n) s1 =
    if n <? 0 then Ret (- EINVAL) s else Ret n (put_file f (with_pos n x) s)) as Hend.
  { intros n. destruct (n <? 0); [by rewrite (bind_step _ _ _ _ _ Hput)|].
    erewrite bind_step by (apply (upd_file_eq _ _ (plus_ref x)), lookup_insert_eq).
    change (set_fs (set_files (insert f (with_pos n (plus_ref x)))) s1) with (put_file f (with_pos n (plus_ref x)) s1).
    unfold s1. rewrite put_file_twice. erewrite bind_step by (by apply (fput_eq _ _ x)).
    change (with_frefcount _ (with_pos n (plus_ref x))) with (with_pos n (with_frefcount (λ n, n - 1) (plus_ref x))).
    by rewrite minus_plus. }
  assert (file_at f s1 = Ret (plus_ref x) s1) as Hat by (apply file_at_eq, lookup_insert_eq).
  destruct (whence =? SEEK_SET) eqn:E1; [|destruct (whence =? SEEK_CUR) eqn:E2;
    [|destruct (whence =? SEEK_END) eqn:E3]]; cbn [orb]; rewrite ?(bind_step _ _ _ _ _ Hat);
    [| | |by rewrite (bind_step _ _ _ _ _ Hput)].
  - erewrite bind_step by reflexivity. apply Hend.
  - erewrite bind_step by reflexivity. apply Hend.
  - erewrite bind_step; [apply Hend|]. change (f_vnode (plus_ref x)) with (f_vnode x). rewrite Hvn.
    erewrite bind_step by reflexivity. erewrite bind_step by (by apply vnode_at_eq). done.
Qed.

Lemma sint_id x : - 2 ^ 31 <= x < 2 ^ 31 → sint x = x.
Proof.
  intros Hx. unfold sint, int32, u32. destruct (decide (0 <= x)).
  - rewrite Z.mod_small by lia. by replace (x <? 2 ^ 31) with true by lia.
  - rewrite <- (Z.mod_unique x (2 ^ 32) (-1) (x + 2 ^ 32)) by lia.
    replace (x + 2 ^ 32 <? 2 ^ 31) with false by lia. lia.
Qed.

Lemma seek_distinct : SEEK_SET ≠ SEEK_CUR ∧ SEEK_SET ≠ SEEK_END ∧ SEEK_CUR ≠ SEEK_END.
Proof. pose proof seek_nodup as Hn. rewrite !NoDup_cons in Hn. set_solver. Qed.

(** [do_lseek] on an open descriptor: the new position is the offset, or
    the offset from the current position or from the end of the file; it is
    stored in the file and returned, and nothing else changes; a position
    that would be negative and an unknown [whence] give EINVAL and change
    nothing at all. *)
Theorem do_lseek_moves s fd f x vn v offset whence start :
  open_fd s fd f x → f_vnode x = Some vn → vnodes (v_fs s) !! vn = Some v →
  (whence = SEEK_SET ∧ start = 0 ∨ whence = SEEK_CUR ∧ start = f_pos x ∨
   whence = SEEK_END ∧ start = vn_len v ∨
   whence ∉ [SEEK_SET; SEEK_CUR; SEEK_END]) →
  - 2 ^ 31 <= start + offset < 2 ^ 31 →
  do_lseek fd offset whence s =
    if decide (whence ∈ [SEEK_SET; SEEK_CUR; SEEK_END] ∧ 0 <= start + offset)
    then Ret (start + offset) (put_file f (with_pos (start + offset) x) s)
    else Ret (- EINVAL) s.
Proof.
  intros Ho Hvn Hv Hw Hb. rewrite (do_lseek_spec s fd f x vn v) by done.
  destruct seek_distinct as (N1 & N2 & N3). unfold seek_target.
  assert (whence ∈ [SEEK_SET; SEEK_CUR; SEEK_END] →
    (if start + offset <? 0 then Ret (- EINVAL) s else Ret (start + offset) (put_file f (with_pos (start + offset) x) s)) =
    if decide (whence ∈ [SEEK_SET; SEEK_CUR; SEEK_END] ∧ 0 <= start + offset)
    then Ret (start + offset) (put_file f (with_pos (start + offset) x) s) else Ret (- EINVAL) s) as Hin.
  { intros Hin. destruct (start + offset <? 0) eqn:Hlt.
    - rewrite decide_False by lia. done.
    - rewrite decide_True by (split; [done|lia]). done. }
  destruct Hw as [[-> ->]|[[-> ->]|[[-> ->]|Hno]]].
  - rewrite Z.eqb_refl. by rewrite <- Hin by set_solver.
  - replace (SEEK_CUR =? SEEK_SET) with false by lia. rewrite Z.eqb_refl, sint_id by done.
    by rewrite <- Hin by set_solver.
  - replace (SEEK_END =? SEEK_SET) with false by lia. replace (SEEK_END =? SEEK_CUR) with false by lia.
    rewrite Z.eqb_refl, sint_id by done.
    by rewrite <- Hin by set_solver.
  - rewrite decide_False by tauto. rewrite !not_elem_of_cons in Hno.
    by replace (whence =? SEEK_SET) with false by lia; replace (whence =? SEEK_CUR) with false by lia;
      replace (whence =? SEEK_END) with false by lia.
Qed.

(** A state that another one agrees with on files and descriptors. *)
Definition same_files (s s' : vst) : Prop :=
  files (v_fs s') = files (v_fs s) ∧ procfs (v_fs s') = procfs (v_fs s) ∧ curproc (v_k s') = curproc (v_k s).

Lemma same_files_open s s' fd f x : same_files s s' → open_fd s fd f x → open_fd s' fd f x.
Proof. intros (Hf & Hp & Hc) Ho. unfold open_fd, cur_is in *. by rewrite Hf, Hp, Hc. Qed.

Lemma put_file_open s fd f x y :
  open_fd s fd f x → f_refcount x <= f_refcount y → open_fd (put_file f y s) fd f y.
Proof.
  intros (Hr & Hx & Hc & Hrest) Hy.
  split; [done|]. split; [apply lookup_insert_eq|]. split; [lia|done].
Qed.

(** [do_read] up to the call of the file's [read], which returns [n] in
    state [s2]. *)
Lemma do_read_run s s2 fd f x vn v k read buf nbytes n :
  open_fd s fd f x → Z.land (f_mode x) FMODE_READ ≠ 0 →
  f_vnode x = Some vn → vnodes (v_fs s) !! vn = Some v → S_ISDIR (vn_mode v) = false →
  vn_ops v = Some k → op_read (vops_tab k) = Some read →
  read vn (f_pos x) buf nbytes (put_file f (plus_ref x) s) = Ret n s2 →
  do_read fd buf nbytes s =
    (seekResult ←
       (if 0 <? u32 n then do_lseek fd (int32 (u32 n)) SEEK_CUR
        else if negb (nbytes =? 0) then do_lseek fd 0 SEEK_END
        else mret 0);
     fput f;;
     mret (if seekResult <? 0 then seekResult else int32 (u32 n))) s2.
Proof.
  intros Ho Hm Hvn Hv Hd Hk Hop Hread. unfold do_read.
  rewrite (bad_fd_open _ (proj1 Ho)), (bind_step _ _ _ _ _ (fget_eq _ _ _ _ Ho)). cbn iota.
  erewrite bind_step by (apply file_at_eq, lookup_insert_eq).
  change (f_mode (plus_ref x)) with (f_mode x). change (f_vnode (plus_ref x)) with (f_vnode x).
  change (f_pos (plus_ref x)) with (f_pos x).
  replace (Z.land (f_mode x) FMODE_READ =? 0) with false by lia. cbn [negb]. rewrite Hvn.
  erewrite bind_step by reflexivity. erewrite bind_step by (by apply vnode_at_eq).
  erewrite bind_step by (by eapply vops_of_eq). rewrite Hop, Hd. cbn [negb].
  by rewrite (bind_step _ _ _ _ _ Hread).
Qed.

Lemma u32_int n : - 2 ^ 31 <= n < 2 ^ 31 → int32 (u32 n) = n.
Proof. apply sint_id. Qed.

(** The end of [do_read]: [fput] after the position is set. *)
Lemma seek_fput s2 f x np :
  files (v_fs s2) !! f = Some (plus_ref x) → 1 <= f_refcount x →
  fput f (put_file f (with_pos np (plus_ref x)) s2) = Ret () (put_file f (with_pos np x) s2).
Proof.
  intros Hx Hc. rewrite (fput_eq _ _ x) by done.
  change (with_frefcount _ (with_pos np (plus_ref x))) with (with_pos np (with_frefcount (λ n, n - 1) (plus_ref x))).
  by rewrite minus_plus.
Qed.

(** [do_read] on a file open for reading, when the file's [read] returns
    [n] bytes: it returns [n], and the position has advanced by [n]; at the
    end of the file ([n] is 0 though bytes were asked for) it returns 0 and
    the position is the length of the file.  References to the open file
    are as before. *)
Theorem do_read_advances s s2 fd f x vn v v2 k read buf nbytes n :
  open_fd s fd f x → Z.land (f_mode x) FMODE_READ ≠ 0 →
  f_vnode x = Some vn → vnodes (v_fs s) !! vn = Some v → S_ISDIR (vn_mode v) = false →
  vn_ops v = Some k → op_read (vops_tab k) = Some read →
  read vn (f_pos x) buf nbytes (put_file f (plus_ref x) s) = Ret n s2 →
  same_files (put_file f (plus_ref x) s) s2 → vnodes (v_fs s2) !! vn = Some v2 →
  0 <= n → 0 <= f_pos x → f_pos x + n < 2 ^ 31 → 0 <= vn_len v2 < 2 ^ 31 → nbytes ≠ 0 →
  do_read fd buf nbytes s =
    Ret n (put_file f (with_pos (if n =? 0 then vn_len v2 else f_pos x + n) x) s2).
Proof.
  intros Ho Hm Hvn Hv Hd Hk Hop Hread Hsame Hv2 Hn Hp Hpn Hlen Hnb.
  rewrite (do_read_run s s2 fd f x vn v k read buf nbytes n) by done.
  assert (open_fd s2 fd f (plus_ref x)) as Ho2.
  { eapply same_files_open; [done|]. apply (put_file_open _ _ _ x); [done|]. simpl. lia. }
  destruct Ho as (_ & _ & Hc & _). pose proof (proj1 (proj2 Ho2)) as Hf2.
  destruct seek_distinct as (N1 & N2 & N3).
  replace (u32 n) with n by (unfold u32; rewrite Z.mod_small; lia).
  replace (int32 n) with n by (unfold int32; by replace (n <? 2 ^ 31) with true by lia).
  destruct (n =? 0) eqn:E0.
  - replace (0 <? n) with false by lia. replace (nbytes =? 0) with false by lia. cbn [negb].
    erewrite bind_step.
    2:{ rewrite (do_lseek_spec s2 fd f (plus_ref x) vn v2) by done. unfold seek_target.
        replace (SEEK_END =? SEEK_SET) with false by lia. replace (SEEK_END =? SEEK_CUR) with false by lia.
        rewrite Z.eqb_refl, sint_id by lia. replace (vn_len v2 + 0 <? 0) with false by lia. reflexivity. }
    rewrite (bind_step _ _ _ _ _ (seek_fput s2 f x _ Hf2 Hc)).
    replace (vn_len v2 + 0 <? 0) with false by lia. rewrite Z.add_0_r. done.
  - replace (0 <? n) with true by lia.
    erewrite bind_step.
    2:{ rewrite (do_lseek_spec s2 fd f (plus_ref x) vn v2) by done. unfold seek_target.
        replace (SEEK_CUR =? SEEK_SET) with false by lia. change (f_pos (plus_ref x)) with (f_pos x).
        rewrite Z.eqb_refl, sint_id by lia. replace (f_pos x + n <? 0) with false by lia. reflexivity. }
    rewrite (bind_step _ _ _ _ _ (seek_fput s2 f x _ Hf2 Hc)).
    by replace (f_pos x + n <? 0) with false by lia.
Qed.

Lemma with_pos_same x : with_pos (f_pos x) x = x.
Proof. by destruct x. Qed.

(** When the file's [read] fails, [do_read] treats the error number as a
    count of bytes: the position is moved back by it, or, if it is too small
    for that, the error returned is EINVAL instead of the one [read] gave. *)
Theorem do_read_error_moves_back s s2 fd f x vn v v2 k read buf nbytes e :
  open_fd s fd f x → Z.land (f_mode x) FMODE_READ ≠ 0 →
  f_vnode x = Some vn → vnodes (v_fs s) !! vn = Some v → S_ISDIR (vn_mode v) = false →
  vn_ops v = Some k → op_read (vops_tab k) = Some read →
  read vn (f_pos x) buf nbytes (put_file f (plus_ref x) s) = Ret (- e) s2 →
  same_files (put_file f (plus_ref x) s) s2 → vnodes (v_fs s2) !! vn = Some v2 →
  0 < e <= 2 ^ 31 → 0 <= f_pos x < 2 ^ 31 →
  do_read fd buf nbytes s =
    if e <=? f_pos x then Ret (- e) (put_file f (with_pos (f_pos x - e) x) s2)
    else Ret (- EINVAL) (put_file f x s2).
Proof.
  intros Ho Hm Hvn Hv Hd Hk Hop Hread Hsame Hv2 He Hp.
  rewrite (do_read_run s s2 fd f x vn v k read buf nbytes (- e)) by done.
  assert (open_fd s2 fd f (plus_ref x)) as Ho2.
  { eapply same_files_open; [done|]. apply (put_file_open _ _ _ x); [done|]. simpl. lia. }
  destruct Ho as (_ & _ & Hc & _). pose proof (proj1 (proj2 Ho2)) as Hf2.
  destruct seek_distinct as (N1 & _ & _). rewrite u32_int by lia.
  assert ((0 <? u32 (- e)) = true) as ->.
  { unfold u32. rewrite <- (Z.mod_unique (- e) (2 ^ 32) (-1) (2 ^ 32 - e)) by lia. lia. }
  assert (do_lseek fd (- e) SEEK_CUR s2 = if e <=? f_pos x
    then Ret (f_pos x - e) (put_file f (with_pos (f_pos x - e) (plus_ref x)) s2) else Ret (- EINVAL) s2) as Hseek.
  { rewrite (do_lseek_spec s2 fd f (plus_ref x) vn v2) by done. unfold seek_target.
    replace (SEEK_CUR =? SEEK_SET) with false by lia. change (f_pos (plus_ref x)) with (f_pos x).
    rewrite Z.eqb_refl, sint_id by lia. replace (f_pos x + - e) with (f_pos x - e) by lia.
    destruct (e <=? f_pos x) eqn:Hle; [by replace (f_pos x - e <? 0) with false by lia|].
    by replace (f_pos x - e <? 0) with true by lia. }
  destruct (e <=? f_pos x) eqn:Hle; rewrite (bind_step _ _ _ _ _ Hseek).
  - rewrite (bind_step _ _ _ _ _ (seek_fput s2 f x _ Hf2 Hc)). by replace (f_pos x - e <? 0) with false by lia.
  - pose proof errno_pos as He0. unfold errnos in He0. rewrite !Forall_cons in He0.
    rewrite <- (put_file_same f (plus_ref x) s2 Hf2) at 1.
    erewrite bind_step by (by apply (fput_eq _ _ x)). rewrite minus_plus.
    by replace (- EINVAL <? 0) with true by lia.
Qed.

(** ** Descriptors and the references to files *)

(** How many of the descriptors [l] are open on [f]. *)
Definition occ (f : fptr) (l : list (option fptr)) : Z := Z.of_nat (length (filter (λ o, o = Some f) l)).

(** How many descriptors of all processes are. *)
Definition fd_refs (P : gmap pptr proc_fs) (f : fptr) : Z :=
  map_fold (λ _ pf n, occ f (p_files pf) + n) 0 P.

(** The reference count of a file is the number of descriptors open on it;
    there is a file for every open descriptor. *)
Definition files_inv (s : vst) : Prop :=
  ∀ f, match files (v_fs s) !! f with
       | Some x => f_refcount x = fd_refs (procfs (v_fs s)) f ∧ 1 <= f_refcount x
       | None => fd_refs (procfs (v_fs s)) f = 0
       end.

Definition is_fd (f : fptr) (o : option fptr) : Z := if decide (o = Some f) then 1 else 0.

Lemma occ_cons f o l : occ f (o :: l) = is_fd f o + occ f l.
Proof. unfold occ, is_fd. rewrite filter_cons. case_decide; simpl; lia. Qed.

Lemma occ_insert f l n o o' :
  l !! n = Some o → occ f (<[n := o']> l) = occ f l - is_fd f o + is_fd f o'.
Proof.
  revert n. induction l as [|a l IH]; intros n Hn; [done|]. destruct n as [|n]; simpl in *.
  - injection Hn as ->. rewrite !occ_cons. lia.
  - rewrite !occ_cons, (IH n Hn). lia.
Qed.

Lemma fd_refs_insert P cp pf pf' f :
  P !! cp = Some pf →
  fd_refs (<[cp := pf']> P) f = fd_refs P f - occ f (p_files pf) + occ f (p_files pf').
Proof.
  intros Hp. unfold fd_refs. rewrite <- (insert_delete_id P cp pf Hp) at 2. rewrite <- insert_delete_eq.
  rewrite !map_fold_insert_L by (intros; lia || apply lookup_delete_eq). lia.
Qed.

(** Changing a descriptor. *)
Lemma fd_refs_set s cp pf n o o' f :
  cur_is s cp pf → p_files pf !! Z.to_nat n = Some o →
  fd_refs (<[cp := with_fd n o' pf]> (procfs (v_fs s))) f =
    fd_refs (procfs (v_fs s)) f - is_fd f o + is_fd f o'.
Proof. intros [_ Hp] Hn. rewrite (fd_refs_insert _ _ _ _ _ Hp). simpl. rewrite (occ_insert _ _ _ o) by done. lia. Qed.

Lemma set_fd_eq s cp pf n o :
  cur_is s cp pf → set_fd n o s = Ret () (set_fs (set_procfs (insert cp (with_fd n o pf))) s).
Proof. apply upd_cur_fs_eq. Qed.

Lemma fd_refs_nonneg P f : 0 <= fd_refs P f.
Proof.
  unfold fd_refs. apply (map_fold_weak_ind (λ n _, 0 <= n)); [done|].
  intros _ pf _ n _ Hn. unfold occ. lia.
Qed.

Lemma occ_pos f l n : l !! n = Some (Some f) → 1 <= occ f l.
Proof.
  intros Hn. pose proof (occ_insert f l n _ None Hn) as E. unfold is_fd in E.
  rewrite decide_True, decide_False in E by done. unfold occ in *. lia.
Qed.

(** A file some descriptor is open on has references. *)
Lemma fd_refs_pos s cp pf fd f :
  cur_is s cp pf → p_files pf !! Z.to_nat fd = Some (Some f) → 1 <= fd_refs (procfs (v_fs s)) f.
Proof.
  intros [_ Hp] Hfd. pose proof (fd_refs_insert _ _ _ (ProcFs [] None) f Hp) as E.
  pose proof (fd_refs_nonneg (<[cp := ProcFs [] None]> (procfs (v_fs s))) f).
  pose proof (occ_pos _ _ _ Hfd). change (occ f (p_files (ProcFs [] None))) with 0 in E. lia.
Qed.

Lemma files_inv_open s cp pf fd f :
  files_inv s → cur_is s cp pf → 0 <= fd < NFILES → p_files pf !! Z.to_nat fd = Some (Some f) →
  ∃ x, open_fd s fd f x.
Proof.
  intros Hi Hc Hr Hfd. pose proof (fd_refs_pos _ _ _ _ _ Hc Hfd). specialize (Hi f).
  destruct (files (v_fs s) !! f) as [x|] eqn:Hx; [|lia].
  exists x. split; [done|]. split; [done|]. split; [lia|]. by exists cp, pf.
Qed.

(** Opening one more descriptor on a file. *)
Lemma files_inv_add s cp pf n f x :
  files_inv s → cur_is s cp pf → p_files pf !! Z.to_nat n = Some None → files (v_fs s) !! f = Some x →
  files_inv (set_fs (set_procfs (insert cp (with_fd n (Some f) pf))) (put_file f (plus_ref x) s)).
Proof.
  intros Hi Hc Hn Hx g. simpl. rewrite (fd_refs_set s cp pf n None) by done. specialize (Hi g). unfold is_fd.
  rewrite (decide_False (P := None = Some g)) by done. destruct (decide (f = g)) as [<-|Hne].
  - rewrite lookup_insert_eq, (decide_True (P := Some f = Some f)) by done. rewrite Hx in Hi. simpl. lia.
  - rewrite lookup_insert_ne, (decide_False (P := Some f = Some g)) by congruence.
    revert Hi. destruct (files _ !! g); lia.
Qed.

(** Closing one: [F] are the files left. *)
Lemma files_inv_remove s s1 cp pf n f x :
  files_inv s → cur_is s cp pf → p_files pf !! Z.to_nat n = Some (Some f) → files (v_fs s) !! f = Some x →
  procfs (v_fs s1) = <[cp := with_fd n None pf]> (procfs (v_fs s)) →
  files (v_fs s1) = (if decide (f_refcount x = 1) then delete f (files (v_fs s))
                     else <[f := with_frefcount (λ n, n - 1) x]> (files (v_fs s))) →
  files_inv s1.
Proof.
  intros Hi Hc Hn Hx HP HF g. rewrite HP, HF, (fd_refs_set s cp pf n (Some f)) by done.
  pose proof (Hi f) as Hif. rewrite Hx in Hif. specialize (Hi g). unfold is_fd.
  rewrite (decide_False (P := None = Some g)) by done.
  destruct (decide (f = g)) as [<-|Hne].
  - rewrite (decide_True (P := Some f = Some f)) by done.
    case_decide; rewrite ?lookup_delete_eq, ?lookup_insert_eq; simpl; lia.
  - rewrite (decide_False (P := Some f = Some g)) by congruence.
    revert Hi. case_decide; rewrite ?lookup_delete_ne, ?lookup_insert_ne by done; destruct (files _ !! g); lia.
Qed.

Section do_close.
Context {FI : FsInodes}.

(** The vnode of a file is referenced. *)
Definition vnode_held (s : vst) (x : file) : Prop := ∀ v, f_vnode x = Some v → 1 <= held s v.

Lemma fput_spec s f x :
  vinv s → files (v_fs s) !! f = Some x → 1 <= f_refcount x → vnode_held s x →
  ∃ s', fput f s = Ret () s' ∧ vinv s' ∧ procfs (v_fs s') = procfs (v_fs s) ∧
    curproc (v_k s') = curproc (v_k s) ∧
    files (v_fs s') = (if decide (f_refcount x = 1) then delete f (files (v_fs s))
                       else <[f := with_frefcount (λ n, n - 1) x]> (files (v_fs s))).
Proof.
  intros Hi Hx Hr Hv. case_decide as H1.
  - rewrite (fput_last s f x) by done. destruct (f_vnode x) as [v|] eqn:Hvn.
    + destruct (vput_spec s v) as (s1 & E & Hi1 & Hf & _); [done|by apply Hv|].
      eexists. rewrite (bind_step _ _ _ _ _ E). split; [done|]. split; [by apply tables_vinv|].
      split; [apply Hf|]. split; [apply Hf|]. simpl. by rewrite (vf_files _ _ Hf).
    + eexists. erewrite bind_step by reflexivity. split; [done|]. split; [by apply tables_vinv|]. done.
  - rewrite (fput_shared s f x) by (done || lia).
    eexists. split; [done|]. split; [by apply tables_vinv|]. done.
Qed.

Lemma do_close_spec s fd f x cp pf :
  vinv s → files_inv s → open_fd s fd f x → vnode_held s x → cur_is s cp pf →
  p_files pf !! Z.to_nat fd = Some (Some f) →
  ∃ s', do_close fd s = Ret 0 s' ∧ vinv s' ∧ files_inv s' ∧
    procfs (v_fs s') = <[cp := with_fd fd None pf]> (procfs (v_fs s)) ∧ cur_is s' cp (with_fd fd None pf).
Proof.
  intros Hi Hfi Ho Hv Hc Hfd. destruct Ho as (Hr & Hx & Hrc & _).
  destruct (fput_spec s f x) as (s1 & E1 & Hi1 & HP & Hcur & HF); [done..|].
  assert (cur_is s1 cp pf) as Hc1 by (split; [rewrite Hcur|rewrite HP]; apply Hc).
  set (s2 := set_fs (set_procfs (insert cp (with_fd fd None pf))) s1).
  assert (procfs (v_fs s2) = <[cp := with_fd fd None pf]> (procfs (v_fs s))) as HP2 by (unfold s2; simpl; by rewrite HP).
  exists s2. split_and!.
  - unfold do_close. rewrite bad_fd_open by done. erewrite bind_step by (by eapply get_fd_eq). cbn iota.
    rewrite (bind_step _ _ _ _ _ E1). by erewrite bind_step by (by apply set_fd_eq).
  - by apply tables_vinv.
  - by apply (files_inv_remove s s2 cp pf fd f x).
  - done.
  - split; [apply Hc1|]. rewrite HP2. apply lookup_insert_eq.
Qed.

(** C39. [do_dup2] to another descriptor: it is closed if it was open, and then
    refers to the same open file; all other descriptors are unchanged, and
    every file has as many references as there are descriptors open on it. *)
Theorem do_dup2_aliases s ofd nfd f x cp pf o :
  vinv s → files_inv s → open_fd s ofd f x → 0 <= nfd < NFILES → ofd ≠ nfd → cur_is s cp pf →
  p_files pf !! Z.to_nat ofd = Some (Some f) → p_files pf !! Z.to_nat nfd = Some o →
  (∀ g y, o = Some g → files (v_fs s) !! g = Some y → vnode_held s y) →
  ∃ s', do_dup2 ofd nfd s = Ret nfd s' ∧ vinv s' ∧ files_inv s' ∧
    procfs (v_fs s') = <[cp := with_fd nfd (Some f) pf]> (procfs (v_fs s)).
Proof.
  intros Hi Hfi Ho Hr Hne Hc Hfd Hnfd Hheld.
  assert (∃ s1, (match o with Some _ => (_ ← do_close nfd; mret ()) | None => mret () end) s = Ret () s1 ∧
    vinv s1 ∧ files_inv s1 ∧ procfs (v_fs s1) = <[cp := with_fd nfd None pf]> (procfs (v_fs s)) ∧
    cur_is s1 cp (with_fd nfd None pf)) as (s1 & E1 & Hi1 & Hfi1 & HP1 & Hc1).
  { destruct o as [g|].
    - destruct (files_inv_open s cp pf nfd g) as [y Hy]; [done..|].
      destruct (do_close_spec s nfd g y cp pf) as (s1 & E & ?); [done..| |done|done|].
      { apply (Hheld g); [done|apply Hy]. }
      exists s1. by rewrite (bind_step _ _ _ _ _ E).
    - assert (with_fd nfd None pf = pf) as -> by (destruct pf; unfold with_fd; simpl in *; by rewrite list_insert_id).
      exists s. by rewrite insert_id by apply Hc. }
  assert (p_files (with_fd nfd None pf) !! Z.to_nat ofd = Some (Some f)) as Hfd1.
  { simpl. rewrite list_lookup_insert_ne by (destruct Ho; lia). done. }
  destruct (files_inv_open s1 cp (with_fd nfd None pf) ofd f) as [x1 Ho1]; [done|done|apply Ho|done|].
  eexists. split_and!.
  - unfold do_dup2. rewrite !bad_fd_open by (done || apply Ho). cbn [orb].
    erewrite bind_step by (by eapply get_fd_eq). cbn iota. replace (ofd =? nfd) with false by lia.
    erewrite bind_step by (by eapply get_fd_eq). rewrite (bind_step _ _ _ _ _ E1).
    erewrite bind_step by (by apply fget_eq). erewrite bind_step by (by apply (set_fd_eq _ cp (with_fd nfd None pf))). done.
  - by apply tables_vinv, tables_vinv.
  - apply files_inv_add; [done..| |apply Ho1]. simpl. apply list_lookup_insert_eq. by eapply lookup_lt_Some.
  - simpl. rewrite HP1, insert_insert_eq. f_equal. unfold with_fd. simpl. by rewrite list_insert_insert_eq.
Qed.
End do_close.

(** Closing a descriptor that [do_dup] returned restores the state: the
    descriptor is free again, and the file has the references it had. *)
Theorem dup_close_roundtrip s fd f x n :
  open_fd s fd f x → get_empty_fd s = Ret n s → 0 <= n →
  ∃ s1, do_dup fd s = Ret n s1 ∧ open_fd s1 n f (plus_ref x) ∧ open_fd s1 fd f (plus_ref x) ∧
    do_close n s1 = Ret 0 s.
Proof.
  intros Ho He Hn. destruct Ho as (Hr & Hx & Hc & cp & pf & Hcur & Hfd) eqn:Heq. clear Heq.
  assert (p_files pf !! Z.to_nat n = Some None ∧ n < NFILES) as [Hnone Hlt].
  { rewrite (get_empty_fd_eq _ _ _ Hcur) in He. injection He as He. apply (empty_fd_free pf n He Hn). }
  set (P := <[cp := with_fd n (Some f) pf]> (procfs (v_fs s))).
  set (s1 := set_fs (set_procfs (insert cp (with_fd n (Some f) pf))) (put_file f (plus_ref x) s)).
  assert (cur_is (put_file f (plus_ref x) s) cp pf) as Hcur' by done.
  assert (cur_is s1 cp (with_fd n (Some f) pf)) as Hcur1 by (split; [apply Hcur|apply lookup_insert_eq]).
  assert (files (v_fs s1) !! f = Some (plus_ref x)) as Hx1 by apply lookup_insert_eq.
  assert (Z.to_nat n ≠ Z.to_nat fd) by congruence.
  assert (Z.to_nat n < length (p_files pf))%nat by (by eapply lookup_lt_Some).
  exists s1. split_and!.
  - unfold do_dup. rewrite bad_fd_open by done. erewrite bind_step by (by eapply get_fd_eq). cbn iota.
    erewrite bind_step by (by apply fget_eq). erewrite (bind_step get_empty_fd).
    2:{ rewrite (get_empty_fd_eq _ _ _ Hcur'). rewrite (get_empty_fd_eq _ _ _ Hcur) in He.
        injection He as He. by rewrite He. }
    replace (n <? 0) with false by lia. erewrite bind_step by (by eapply get_fd_eq).
    by erewrite bind_step by (by apply set_fd_eq).
  - split; [lia|]. split; [done|]. split; [simpl; lia|]. exists cp, (with_fd n (Some f) pf). split; [done|].
    simpl. by rewrite list_lookup_insert_eq by lia.
  - split; [done|]. split; [done|]. split; [simpl; lia|]. exists cp, (with_fd n (Some f) pf). split; [done|].
    simpl. by rewrite list_lookup_insert_ne by done.
  - unfold do_close. rewrite bad_fd_open by lia.
    erewrite bind_step by (eapply get_fd_eq; [done|]; simpl; by rewrite list_lookup_insert_eq by lia). cbn iota.
    erewrite bind_step by (apply (fput_shared _ _ (plus_ref x)); [done|simpl; lia]).
    erewrite bind_step by (apply set_fd_eq; done).
    change (Ret 0 (tables (<[f := with_frefcount (λ n, n - 1) (plus_ref x)]> (<[f := plus_ref x]> (files (v_fs s))))
      (<[cp := with_fd n None (with_fd n (Some f) pf)]> (<[cp := with_fd n (Some f) pf]> (procfs (v_fs s)))) s) = Ret 0 s).
    rewrite minus_plus, !insert_insert_eq, with_fd_undo by done. by rewrite !insert_id, tables_self by (done || apply Hcur).
Qed.
End vfs_props.
