(* ===== verification/OpenProps.v ===== *)
(** * Properties of opening files and of system calls on paths *)

From S2P Require Import Prelude Kstate Sched Vmstate Pframe Vnode VnodeProps Namev NamevProps Vfs VfsProps.
Local Open Scope Z_scope.

Section open_props.
Context {VE : VmEnv} {FE : VfsEnv} {MA : Machine} {ER : Errno} {OB : Objects} {NE : NameEnv}
  {FT : FileTable} {FV : FsView} {FI : FsInodes} {FL : FsLookup}.

(** ** [do_open] *)

Definition has (oflags b : Z) : bool := negb (Z.land oflags b =? 0).

(** The mode of a file opened with [oflags]. *)
Definition open_mode (oflags : Z) : option Z :=
  let append := if has oflags O_APPEND then FMODE_APPEND else 0 in
  if has oflags O_WRONLY && negb (has oflags O_RDWR) then Some (Z.lor append FMODE_WRITE)
  else if has oflags O_RDWR && negb (has oflags O_WRONLY) then
    Some (Z.lor (Z.lor append FMODE_READ) FMODE_WRITE)
  else if (oflags =? O_RDONLY) || (oflags =? O_CREAT) then Some (Z.lor append FMODE_READ)
  else None.

Lemma creat_bits : Z.land O_CREAT O_WRONLY = 0 ∧ Z.land O_CREAT O_RDWR = 0.
Proof.
  destruct o_bits as (a & b & c & d & ? & ? & ? & ? & Hn & -> & -> & -> & _).
  rewrite !NoDup_cons, !not_elem_of_cons in Hn. destruct Hn as ((? & ? & ?) & (? & ?) & _).
  split; apply land_pow2_ne; congruence || done.
Qed.

Lemma append_bits : Z.land O_APPEND O_WRONLY = 0 ∧ Z.land O_APPEND O_RDWR = 0 ∧
  O_APPEND ≠ O_CREAT ∧ 0 < O_APPEND.
Proof.
  destruct o_bits as (a & b & c & d & ? & ? & ? & ? & Hn & -> & -> & -> & ->).
  rewrite !NoDup_cons, !not_elem_of_cons in Hn. destruct Hn as ((? & ? & ? & _) & (? & ? & _) & (? & _) & _).
  split_and!; [apply land_pow2_ne; congruence || done..| |lia].
  intros E%Z.pow_inj_r; congruence || lia.
Qed.

(** The test of the flags at the start of [do_open] never fails. *)
Lemma flags_consistent oflags :
  (oflags =? O_RDONLY) || (oflags =? Z.lor O_RDONLY O_CREAT) = true →
  has oflags O_WRONLY = false ∧ has oflags O_RDWR = false.
Proof.
  destruct creat_bits as [H1 H2]. rewrite o_rdonly, Z.lor_0_l. unfold has.
  intros [E%Z.eqb_eq|E%Z.eqb_eq]%orb_true_iff; rewrite E.
  - by rewrite !Z.land_0_l.
  - by rewrite H1, H2.
Qed.

(** What [do_open] does once the file has its mode. *)
Definition open_rest (p : path) (oflags fd : Z) (f : fptr) : V Z :=
  '(open_result, res_vnode) ← open_namev p oflags None;
  if open_result <? 0 then
    set_fd fd None;;
    fput f;;
    mret open_result
  else
    upd_file f (λ y, File 0 (f_mode y) 1 res_vnode);;
    mret fd.

(** The state then. *)
Definition opening (s : vst) (cp : pptr) (pf : proc_fs) (fd : Z) (f : fptr) (m : Z) : vst :=
  tables (<[f := File 0 m 1 None]> (files (v_fs s))) (<[cp := with_fd fd (Some f) pf]> (procfs (v_fs s))) s.

Lemma opening_mode s cp pf fd f m m' :
  upd_file f (with_fmode m') (opening s cp pf fd f m) = Ret () (opening s cp pf fd f m').
Proof.
  rewrite (upd_file_eq _ _ (File 0 m 1 None)) by apply lookup_insert_eq. f_equal. unfold opening.
  rewrite tables_files. by rewrite insert_insert_eq.
Qed.

(** Up to the allocation of the file. *)
Lemma do_open_alloc s p oflags fd r s1 :
  get_empty_fd s = Ret fd s → 0 <= fd → fget (-1) s = Ret r s1 →
  do_open p oflags s =
    match r with
    | None => mret (- ENOMEM)
    | Some f =>
        set_fd fd (Some f);;
        upd_file f (with_fmode 0);;
        (if has oflags O_APPEND then upd_file f (with_fmode FMODE_APPEND) else mret ());;
        x ← file_at f;
        if has oflags O_WRONLY && negb (has oflags O_RDWR) then
          upd_file f (with_fmode (Z.lor (f_mode x) FMODE_WRITE));; open_rest p oflags fd f
        else if has oflags O_RDWR && negb (has oflags O_WRONLY) then
          upd_file f (with_fmode (Z.lor (Z.lor (f_mode x) FMODE_READ) FMODE_WRITE));; open_rest p oflags fd f
        else if (oflags =? O_RDONLY) || (oflags =? O_CREAT) then
          upd_file f (with_fmode (Z.lor (f_mode x) FMODE_READ));; open_rest p oflags fd f
        else fput f;; set_fd fd None;; mret (- EINVAL)
    end s1.
Proof.
  intros Hfd Hpos Hget. pose proof (flags_consistent oflags) as Hcons. unfold do_open.
  fold (has oflags O_RDONLY) (has oflags O_WRONLY) (has oflags O_RDWR) (has oflags O_APPEND).
  assert (has oflags O_RDONLY = false) as -> by (unfold has; by rewrite o_rdonly, Z.land_0_r).
  rewrite o_rdonly, Z.lor_0_l in *. cbn zeta. cbn [negb]. rewrite !andb_true_r.
  assert (((oflags =? 0) || (oflags =? O_CREAT)) && negb (has oflags O_RDWR) = ((oflags =? 0) || (oflags =? O_CREAT))) as ->.
  { destruct (_ || _); [|done]. by destruct Hcons as [_ ->]. }
  assert (∀ a w r : bool, (a = true → w = false ∧ r = false) →
    a && (w && negb r) || r && negb w && (a || w && negb r) = false) as Hflag.
  { intros [] w r' Hr; [by destruct Hr as [-> ->]|]. by destruct r', w. }
  rewrite (Hflag _ _ _ Hcons).
  rewrite (bind_step _ _ _ _ _ Hfd).
  pose proof errno_pos as He. unfold errnos in He. rewrite !Forall_cons in He.
  replace (fd =? - EMFILE) with false by lia. by rewrite (bind_step _ _ _ _ _ Hget).
Qed.

Lemma do_open_run s p oflags fd f m cp pf :
  open_mode oflags = Some m → cur_is s cp pf → get_empty_fd s = Ret fd s → 0 <= fd →
  fget (-1) s = Ret (Some f) (set_fs (set_files (insert f (File 0 0 1 None))) s) →
  do_open p oflags s = open_rest p oflags fd f (opening s cp pf fd f m).
Proof.
  intros Hm Hc Hfd Hpos Hget. rewrite (do_open_alloc s p oflags fd _ _ Hfd Hpos Hget).
  erewrite bind_step by (by apply (set_fd_eq _ cp pf)).
  change (set_fs (set_procfs _) (set_fs (set_files _) s)) with (opening s cp pf fd f 0).
  rewrite (bind_step _ _ _ _ _ (opening_mode _ _ _ _ _ _ _)).
  rewrite (bind_step _ _ _ () (opening s cp pf fd f (if has oflags O_APPEND then FMODE_APPEND else 0)))
    by (destruct (has oflags O_APPEND); [apply opening_mode|done]).
  erewrite bind_step by (apply file_at_eq, lookup_insert_eq). cbn [f_mode]. unfold open_mode in Hm. cbn zeta in Hm.
  destruct (has oflags O_WRONLY && _); [|destruct (has oflags O_RDWR && _); [|destruct (_ || _); [|done]]];
    injection Hm as <-; by rewrite (bind_step _ _ _ _ _ (opening_mode _ _ _ _ _ _ _)).
Qed.

(** When the name does not resolve, what was set up is undone. *)
Lemma open_undo s s1 cp pf fd f m (e : Z) :
  vinv s1 → hframe (held s) (opening s cp pf fd f m) s1 → (∀ w, held s1 w = held s w) →
  cur_is s cp pf → p_files pf !! Z.to_nat fd = Some None → files (v_fs s) !! f = None →
  ∃ s', (set_fd fd None;; fput f;; mret e) s1 = Ret e s' ∧ vinv s' ∧ vframe s s' ∧ ∀ w, held s' w = held s w.
Proof.
  intros Hi Hf Hh Hc Hfd Hnf.
  assert (cur_is s1 cp (with_fd fd (Some f) pf)) as Hc1.
  { split; [rewrite (hf_cur _ _ _ Hf); apply Hc|]. rewrite (hf_procfs _ _ _ Hf). apply lookup_insert_eq. }
  set (s2 := tables (files (v_fs s)) (procfs (v_fs s)) s1).
  assert ((set_fd fd None;; fput f;; mret e) s1 = Ret e s2) as E.
  { erewrite bind_step by (by apply set_fd_eq). erewrite bind_step; [done|].
    rewrite (fput_last _ f (File 0 m 1 None)); [|simpl; rewrite (hf_files _ _ _ Hf); apply lookup_insert_eq|done].
    erewrite bind_step by reflexivity. unfold modify. f_equal.
    change (tables (delete f (files (v_fs s1)))
      (<[cp := with_fd fd None (with_fd fd (Some f) pf)]> (procfs (v_fs s1))) s1 = s2).
    rewrite (hf_files _ _ _ Hf), (hf_procfs _ _ _ Hf), with_fd_undo by done. simpl.
    by rewrite delete_insert_id, insert_insert_eq, insert_id by (done || apply Hc). }
  exists s2. split_and!; [done|by apply tables_vinv| |done].
  split; [done..|apply (hf_root _ _ _ Hf)|apply (hf_procs _ _ _ Hf)|apply (hf_view _ _ _ Hf)|].
  intros v x Hx Hv _. by apply (hf_vnode _ _ _ Hf).
Qed.

(** What a call of [do_open] leaves: [R] is what the name resolves to. *)
Definition opened (s : vst) (cp : pptr) (pf : proc_fs) (fd oflags m : Z) (R : Z + ino) (r : Z) (s' : vst) : Prop :=
  match R with
  | inl e => r = - e ∧ vframe s s' ∧ ∀ w, held s' w = held s w
  | inr j =>
      if wants_write oflags && isdir (data s) j then r = - EISDIR ∧ vframe s s' ∧ ∀ w, held s' w = held s w
      else r = fd ∧ ∃ f v y, files (v_fs s) !! f = None ∧
        files (v_fs s') = <[f := File 0 m 1 (Some v)]> (files (v_fs s)) ∧
        procfs (v_fs s') = <[cp := with_fd fd (Some f) pf]> (procfs (v_fs s)) ∧
        vnodes (v_fs s') !! v = Some y ∧ inode y = j ∧ ∀ w, held s' w = held s w + one v w
  end.

Lemma open_rest_spec s s1 r cp pf fd f oflags m p R :
  open_namev p oflags None (opening s cp pf fd f m) = Ret r s1 → vinv s1 →
  hframe (held s) (opening s cp pf fd f m) s1 → open_result (held s) (data s) oflags R r s1 →
  match R with inl e => 0 < e | _ => True end →
  cur_is s cp pf → p_files pf !! Z.to_nat fd = Some None → files (v_fs s) !! f = None →
  ∃ r' s', open_rest p oflags fd f (opening s cp pf fd f m) = Ret r' s' ∧ vinv s' ∧
    opened s cp pf fd oflags m R r' s'.
Proof.
  intros E Hi Hf HR Hpos Hc Hfd Hnf. unfold open_rest. rewrite (bind_step _ _ _ _ _ E).
  assert (∀ e, 0 < e → r = (- e, None) → (∀ w, held s1 w = held s w) → ∃ s',
    (let '(open_result, res_vnode) := r in
     if open_result <? 0 then set_fd fd None;; fput f;; mret open_result
     else upd_file f (λ y, File 0 (f_mode y) 1 res_vnode);; mret fd) s1 = Ret (- e) s' ∧ vinv s' ∧
    vframe s s' ∧ ∀ w, held s' w = held s w) as Hundo.
  { intros e He -> Hh. replace (- e <? 0) with true by lia. by apply (open_undo s s1 cp pf fd f m). }
  unfold open_result in HR. destruct R as [e|j].
  { destruct HR as [Hr Hh]. destruct (Hundo e) as (s' & E' & ? & ? & ?); [done..|]. exists (- e), s'. by split_and!. }
  unfold opened. destruct (wants_write oflags && isdir (data s) j).
  { destruct HR as [Hr Hh]. pose proof errno_pos as He. unfold errnos in He. rewrite !Forall_cons in He.
    destruct (Hundo EISDIR) as (s' & E' & ? & ? & ?); [tauto|done..|]. exists (- EISDIR), s'. by split_and!. }
  destruct HR as (v & y & -> & Hy & Hino & Hh). change (0 <? 0) with false. cbn iota.
  eexists fd, _. split_and!; [|by apply tables_vinv|done|].
  - erewrite bind_step; [done|]. apply (upd_file_eq _ _ (File 0 m 1 None)).
    rewrite (hf_files _ _ _ Hf). apply lookup_insert_eq.
  - exists f, v, y. split_and!; [done| | |done..].
    + simpl. rewrite (hf_files _ _ _ Hf). simpl. by rewrite insert_insert_eq.
    + simpl. by rewrite (hf_procfs _ _ _ Hf).
Qed.


(** Although its documentation allows O_APPEND together with O_RDONLY,
    [do_open] rejects these flags whatever the path is. *)
Theorem do_open_rdonly_append p cp pf fd s :
  cur_is s cp pf → get_empty_fd s = Ret fd s → 0 <= fd →
  do_open p (Z.lor O_RDONLY O_APPEND) s = Ret (- EINVAL) s ∨
  do_open p (Z.lor O_RDONLY O_APPEND) s = Ret (- ENOMEM) s.
Proof.
  intros Hc Hfd Hpos. destruct (fget_new s) as [Hget|(f & Hnf & Hget)].
  { right. by rewrite (do_open_alloc s p _ fd _ _ Hfd Hpos Hget). }
  left. rewrite (do_open_alloc s p _ fd _ _ Hfd Hpos Hget), o_rdonly, Z.lor_0_l.
  destruct append_bits as (H1 & H2 & H3 & H4). unfold has. rewrite H1, H2.
  replace (O_APPEND =? 0) with false by lia. replace (O_APPEND =? O_CREAT) with false by lia. cbn [negb andb orb Z.eqb].
  erewrite bind_step by (by apply (set_fd_eq _ cp pf)).
  change (set_fs (set_procfs _) (set_fs (set_files _) s)) with (opening s cp pf fd f 0).
  rewrite (bind_step _ _ _ _ _ (opening_mode _ _ _ _ _ _ _)).
  set (m := if negb (Z.land O_APPEND O_APPEND =? 0) then FMODE_APPEND else 0).
  rewrite (bind_step _ _ _ () (opening s cp pf fd f m)) by (unfold m; destruct (negb _); [apply opening_mode|done]).
  erewrite bind_step by (apply file_at_eq, lookup_insert_eq).
  erewrite bind_step by (rewrite (fput_last _ f (File 0 m 1 None)) by (apply lookup_insert_eq || done); reflexivity).
  erewrite bind_step by (apply (set_fd_eq _ cp (with_fd fd (Some f) pf)); split; [apply Hc|apply lookup_insert_eq]).
  rewrite (get_empty_fd_eq _ _ _ Hc) in Hfd. injection Hfd as Hfd. destruct (empty_fd_free pf fd Hfd Hpos) as [Hnone _].
  change (Ret (- EINVAL) (tables (delete f (<[f := File 0 m 1 None]> (files (v_fs s))))
    (<[cp := with_fd fd None (with_fd fd (Some f) pf)]> (<[cp := with_fd fd (Some f) pf]> (procfs (v_fs s)))) s) =
    Ret (- EINVAL) s).
  by rewrite delete_insert_id, with_fd_undo, insert_insert_eq, insert_id, tables_self by (done || apply Hc).
Qed.
End open_props.
