(* ===== verification/PathProps.v ===== *)
(** * Properties of system calls on paths

    That each call returns what the reference resolver and the file system
    say, and gives back the references to vnodes it takes. *)

From S2P Require Import Prelude Kstate Sched Vmstate Pframe Vnode VnodeProps Namev NamevProps Vfs VfsProps.
Local Open Scope Z_scope.

Section path_props.
Context {VE : VmEnv} {FE : VfsEnv} {MA : Machine} {ER : Errno} {OB : Objects} {NE : NameEnv}
  {FT : FileTable} {FV : FsView} {FI : FsInodes} {FL : FsLookup}.

(** What an operation that changes the contents of a file system leaves
    unchanged. *)
Record oframe (s s' : vst) : Prop := {
  of_files : files (v_fs s') = files (v_fs s);
  of_procfs : procfs (v_fs s') = procfs (v_fs s);
  of_root : vfs_root_vn (v_fs s') = vfs_root_vn (v_fs s);
  of_procs : same_procs (v_k s) (v_k s');
}.

Lemma oframe_trans s1 s2 s3 : oframe s1 s2 → oframe s2 s3 → oframe s1 s3.
Proof. intros [] []. split; [congruence..|by etrans]. Qed.

Lemma hframe_oframe G s s' : hframe G s s' → oframe s s'.
Proof. intros []. by split. Qed.

(** An operation that returns with all references as before. *)
Definition balanced (m : V Z) (s : vst) : Prop :=
  ∃ r s', m s = Ret r s' ∧ vinv s' ∧ oframe s s' ∧ ∀ w, held s' w = held s w.

(** The file systems' operations on the entries of a directory. *)
Class FsUpdate := {
  mkdir_spec : ∀ s d x k f name len, vinv s → vnodes (v_fs s) !! d = Some x → 1 <= held s d →
    vn_ops x = Some k → op_mkdir (vops_tab k) = Some f → balanced (f d name len) s;
}.

Lemma errno_neq : ENOENT ≠ ENOTDIR ∧ 0 < ENOENT ∧ 0 < ENOTDIR ∧ 0 < EEXIST.
Proof.
  destruct errno_enoent_enotdir as (? & ? & ?). pose proof errno_pos as He. unfold errnos in He.
  rewrite !Forall_cons in He. tauto.
Qed.

(** Releasing the directory at the end of a call. *)
Lemma put_end G d (r : Z) s0 s :
  vinv s → (∀ w, held s w = G w + one d w) → (∀ w, 0 <= G w) → oframe s0 s →
  ∃ s', (vput d;; mret r) s = Ret r s' ∧ vinv s' ∧ oframe s0 s' ∧ ∀ w, held s' w = G w.
Proof.
  intros Hi Hh Hg Ho. destruct (put_step G d s) as (s1 & E & Hi1 & Hh1 & Hf); [done..|].
  exists s1. rewrite (bind_step _ _ _ _ _ E). split_and!; [done..| |done].
  eapply oframe_trans; [done|by eapply hframe_oframe].
Qed.

(** Releasing the file found and the directory. *)
Lemma put_end2 G d v (r : Z) s0 s :
  vinv s → (∀ w, held s w = G w + one d w + one v w) → (∀ w, 0 <= G w) → oframe s0 s →
  ∃ s', (vput v;; vput d;; mret r) s = Ret r s' ∧ vinv s' ∧ oframe s0 s' ∧ ∀ w, held s' w = G w.
Proof.
  intros Hi Hh Hg Ho. destruct (put_step (λ w, G w + one d w) v s) as (s1 & E & Hi1 & Hh1 & Hf); [done|ledger..|].
  rewrite (bind_step _ _ _ _ _ E). apply put_end; [done..|].
  eapply oframe_trans; [done|by eapply hframe_oframe].
Qed.

Section do_mkdir.
Context {FU : FsUpdate}.

(** [do_mkdir]: the error of name resolution, EEXIST if the last component
    exists, and otherwise what the file system's [mkdir] returns, called on
    the directory and component that name resolution gives; in all cases all
    references to vnodes, open files and descriptors are as before. *)
Theorem do_mkdir_balanced p b x s :
  vinv s → nul ∉ p → start_vnode s p None = Some b → vnodes (v_fs s) !! b = Some x →
  linked (data s) (inode x) = true →
  ∃ r s', do_mkdir p s = Ret r s' ∧ vinv s' ∧ oframe s s' ∧ (∀ w, held s' w = held s w) ∧
    match resolve_path (data s) (inode x) p with
    | inl e => r = - e
    | inr (i, n) =>
        if isdir (data s) i then
          match dirent (data s) i n with
          | Some _ => r = - EEXIST
          | None => ∃ d y k f name len s1 s2, vnodes (v_fs s1) !! d = Some y ∧ inode y = i ∧
              vn_ops y = Some k ∧ op_mkdir (vops_tab k) = Some f ∧ take len name = n ∧
              f d name len s1 = Ret r s2
          end
        else r = - ENOTDIR
    end.
Proof.
  intros Hi Hn Hb Hx Hl. assert (∀ w, 0 <= held s w) as Hg by (intros w; by apply held_nonneg).
  destruct errno_neq as (Hne & ? & ? & ?).
  destruct (dir_namev_spec p None b x s) as (r & s1 & E1 & Hi1 & Hf1 & HR); [done..|].
  unfold do_mkdir. rewrite (bind_step _ _ _ _ _ E1). pose proof (hframe_oframe _ _ _ Hf1) as Ho1.
  destruct (resolve_path _ _ p) as [e|[i n]] eqn:Hres.
  { destruct HR as [-> Hh]. pose proof (resolve_error_pos _ _ _ _ Hres).
    replace (- e <? 0) with true by lia. by exists (- e), s1. }
  destruct HR as (name & len & d & y & -> & <- & Hy & <- & Hh1). change (0 <? 0) with false. cbn iota.
  erewrite bind_step by reflexivity. pose proof (resolve_path_linked _ _ _ _ _ Hl Hres) as Hlj.
  destruct (hf_view _ _ _ Hf1 _ Hlj) as (Hlj1 & Hdj & Hej). rewrite Hlj in Hlj1.
  pose proof (lookup_step (held s) d y s1 name len Hi1 Hy Hlj1 Hh1 Hg) as Hlk. rewrite Hdj, Hej in Hlk.
  destruct (isdir (data s) (inode y)) eqn:Hdir.
  2:{ rewrite (bind_step _ _ _ _ _ Hlk). cbn iota. replace (- ENOTDIR =? 0) with false by lia. rewrite Z.eqb_refl.
      destruct (put_end (held s) d (- ENOTDIR) s s1) as (s2 & E & ? & ? & ?); [done..|]. by exists (- ENOTDIR), s2. }
  destruct (dirent (data s) (inode y) (take len name)) as [j|] eqn:Hj.
  - destruct Hlk as (v & z & s2 & E2 & Hi2 & Hz & _ & Hh2 & Hf2). rewrite (bind_step _ _ _ _ _ E2).
    change (0 =? 0) with true. cbn iota. erewrite bind_step by reflexivity.
    destruct (put_end2 (held s) d v (- EEXIST) s s2) as (s3 & E & ? & ? & ?); [done..| |].
    { eapply oframe_trans; [done|by eapply hframe_oframe]. }
    by exists (- EEXIST), s3.
  - destruct Hlk as (s2 & E2 & Hi2 & Hh2 & Hf2). rewrite (bind_step _ _ _ _ _ E2). cbn iota.
    replace (- ENOENT =? 0) with false by lia. replace (- ENOENT =? - ENOTDIR) with false by lia.
    assert (vnodes (v_fs s2) !! d = Some y) as Hy2 by (by eapply hframe_held).
    destruct (ok_ops _ _ _ (vi_ok _ Hi2 _ _ Hy2)) as (k & Hk & _ & Hmk & _).
    rewrite (bind_step _ _ _ _ _ (vops_of_eq _ _ _ _ Hy2 Hk)).
    destruct (proj2 Hmk) as [f Hf].
    { by destruct (hf_view _ _ _ Hf2 _ Hlj1) as (_ & -> & _); rewrite Hdj. }
    rewrite Hf. erewrite bind_step by reflexivity.
    destruct (mkdir_spec s2 d y k f name len) as (r & s3 & E3 & Hi3 & Ho3 & Hh3); [done|done| |done..|].
    { rewrite Hh2, one_same. specialize (Hg d). lia. }
    rewrite (bind_step _ _ _ _ _ E3).
    destruct (put_end (held s) d r s s3) as (s4 & E & ? & ? & ?); [done|ledger|done| |].
    { eapply oframe_trans; [done|]. eapply oframe_trans; [by eapply hframe_oframe|done]. }
    exists r, s4. split_and!; [done..|]. by exists d, y, k, f, name, len, s2, s3.
Qed.
End do_mkdir.

(** ** [do_link] *)

Lemma start_vnode_frame s s' p base : oframe s s' → start_vnode s' p base = start_vnode s p base.
Proof. intros [? Hp Hr Hk]. unfold start_vnode. by rewrite Hr, (sp_curproc _ _ Hk), Hp. Qed.

(** When the directory of the new name is on a file system without a
    [link] operation, [do_link] fails with ENOTDIR, but keeps the references
    to the file and to the directory: neither vnode can ever be freed. *)
Theorem do_link_leaks from to b x b' x' s j i n :
  vinv s → nul ∉ from → nul ∉ to → (length from ≤ MAXPATHLEN)%nat → (length to ≤ MAXPATHLEN)%nat →
  start_vnode s from None = Some b → vnodes (v_fs s) !! b = Some x → linked (data s) (inode x) = true →
  start_vnode s to None = Some b' → vnodes (v_fs s) !! b' = Some x' → linked (data s) (inode x') = true →
  1 <= held s b' →
  resolve_file (data s) (inode x) from = inr j → resolve_path (data s) (inode x') to = inr (i, n) →
  (∀ s' d y k, vnodes (v_fs s') !! d = Some y → inode y = i → vn_ops y = Some k → op_link (vops_tab k) = None) →
  ∃ s' v d y z, do_link from to s = Ret (- ENOTDIR) s' ∧ vinv s' ∧
    vnodes (v_fs s') !! v = Some y ∧ inode y = j ∧ vnodes (v_fs s') !! d = Some z ∧ inode z = i ∧
    ∀ w, held s' w = held s w + one v w + one d w.
Proof.
  intros Hi Hn Hn' Hlen Hlen' Hb Hx Hl Hb' Hx' Hl' Hheld Hfrom Hto Hnolink.
  assert (∀ w, 0 <= held s w) as Hg by (intros w; by apply held_nonneg).
  assert (Z.land O_RDONLY O_CREAT = 0 ∧ wants_write O_RDONLY = false) as [Hcr Hww].
  { unfold wants_write. by rewrite o_rdonly, !Z.land_0_l. }
  destruct (open_namev_spec from O_RDONLY None b x s) as (r & s1 & E1 & Hi1 & Hf1 & HR); [done..|].
  rewrite Hfrom in HR. unfold open_result in HR. rewrite Hww in HR. cbn [andb] in HR.
  destruct HR as (v & y & -> & Hy & <- & Hh1).
  assert (vnodes (v_fs s1) !! b' = Some x') as Hx1 by (by apply Hf1).
  destruct (dir_namev_spec to None b' x' s1) as (r & s2 & E2 & Hi2 & Hf2 & HR); [done|done| |done| |].
  { by rewrite (start_vnode_frame s s1) by (by eapply hframe_oframe). }
  { by eapply hframe_linked. }
  assert (resolve_path (data s1) (inode x') to = inr (i, n)) as Hto1.
  { rewrite <- Hto. destruct to; [done|]. by eapply hframe_resolve. }
  rewrite Hto1 in HR. destruct HR as (name & len & d & z & -> & _ & Hz & <- & Hh2).
  destruct (ok_ops _ _ _ (vi_ok _ Hi2 _ _ Hz)) as (k & Hk & _).
  exists s2, v, d, y, z. split_and!; try done.
  - unfold do_link. rewrite (proj2 (Nat.ltb_ge _ _) Hlen), (proj2 (Nat.ltb_ge _ _) Hlen').
    cbn [orb].
    rewrite (bind_step _ _ _ _ _ E1). change (0 <? 0) with false. cbn iota. erewrite bind_step by reflexivity.
    rewrite (bind_step _ _ _ _ _ E2). change (0 <? 0) with false. cbn iota. erewrite bind_step by reflexivity.
    cbn beta iota. rewrite (bind_step _ _ _ _ _ (vops_of_eq _ _ _ _ Hz Hk)). by rewrite (Hnolink s2 d z k).
  - apply Hf2; [done|]. rewrite Hh1, one_same. specialize (Hg v). lia.
  - ledger.
Qed.

(** ** [do_chdir] *)

(** C40. [do_chdir] to a directory makes it the working directory and moves the
    reference of the process from the old directory to the new one; for a
    path that does not resolve, or resolves to something else (ENOTDIR), the
    working directory and all references are as before. *)
Theorem do_chdir_moves p b x cp pf old s :
  vinv s → nul ∉ p → start_vnode s p None = Some b → vnodes (v_fs s) !! b = Some x →
  linked (data s) (inode x) = true → cur_is s cp pf → p_cwd pf = Some old → 1 <= held s old →
  ∃ r s', do_chdir p s = Ret r s' ∧ vinv s' ∧ files (v_fs s') = files (v_fs s) ∧
    match resolve_file (data s) (inode x) p with
    | inl e => r = - e ∧ procfs (v_fs s') = procfs (v_fs s) ∧ ∀ w, held s' w = held s w
    | inr j =>
        if isdir (data s) j then
          r = 0 ∧ ∃ v y, procfs (v_fs s') = <[cp := ProcFs (p_files pf) (Some v)]> (procfs (v_fs s)) ∧
            vnodes (v_fs s') !! v = Some y ∧ inode y = j ∧
            ∀ w, held s' w = held s w - one old w + one v w
        else r = - ENOTDIR ∧ procfs (v_fs s') = procfs (v_fs s) ∧ ∀ w, held s' w = held s w
    end.
Proof.
  intros Hi Hn Hb Hx Hl Hc Hcwd Hold. assert (∀ w, 0 <= held s w) as Hg by (intros w; by apply held_nonneg).
  assert (Z.land O_RDONLY O_CREAT = 0 ∧ wants_write O_RDONLY = false) as [Hcr Hww].
  { unfold wants_write. by rewrite o_rdonly, !Z.land_0_l. }
  destruct (open_namev_spec p O_RDONLY None b x s) as (r & s1 & E1 & Hi1 & Hf1 & HR); [done..|].
  unfold do_chdir. rewrite (bind_step _ _ _ _ _ E1). unfold open_result in HR. rewrite Hww in HR. cbn [andb] in HR.
  destruct (resolve_file _ _ p) as [e|j] eqn:Hres.
  { destruct HR as [-> Hh]. pose proof (resolve_file_error_pos _ _ _ _ Hres).
    replace (- e <? 0) with true by lia. exists (- e), s1. split_and!; [done|done|apply Hf1|done|apply Hf1|done]. }
  destruct HR as (v & y & -> & Hy & <- & Hh1). change (0 <? 0) with false. cbn iota.
  erewrite bind_step by reflexivity. rewrite (bind_step _ _ _ _ _ (vnode_at_eq _ _ _ Hy)).
  destruct (vi_ok _ Hi1 _ _ Hy) as [_ _ _ Hmode (k & Hk & _ & Hmk & _)].
  rewrite (bind_step _ _ _ _ _ (vops_of_eq _ _ _ _ Hy Hk)), Hmode, (bool_decide_ext _ _ Hmk).
  assert (isdir (data s1) (inode y) = isdir (data s) (inode y)) as Hsame.
  { apply (hf_view _ _ _ Hf1). by eapply resolve_file_linked. }
  rewrite Hsame. destruct (isdir (data s) (inode y)); cbn [andb bool_decide].
  - rewrite bool_decide_eq_true_2 by done.
    assert (cur_is s1 cp pf) as Hc1 by (split; [rewrite (hf_cur _ _ _ Hf1)|rewrite (hf_procfs _ _ _ Hf1)]; apply Hc).
    rewrite (bind_step _ _ _ _ _ (cur_fs_eq _ _ _ Hc1)), Hcwd. erewrite bind_step by reflexivity.
    destruct (put_step (λ w, held s w - one old w + one v w) old s1) as (s2 & E2 & Hi2 & Hh2 & Hf2); [done| | |].
    { intros w. rewrite Hh1. lia. }
    { intros w. specialize (Hg w). unfold one. repeat case_decide; subst; lia. }
    assert (cur_is s2 cp pf) as Hc2 by (split; [rewrite (hf_cur _ _ _ Hf2)|rewrite (hf_procfs _ _ _ Hf2)]; apply Hc1).
    rewrite (bind_step _ _ _ _ _ E2). eexists 0, _.
    split_and!; [erewrite bind_step by (by apply upd_cur_fs_eq); reflexivity|by apply tables_vinv| |done|].
    { simpl. by rewrite (hf_files _ _ _ Hf2), (hf_files _ _ _ Hf1). }
    exists v, y. split_and!; [| |done..].
    + simpl. by rewrite (hf_procfs _ _ _ Hf2), (hf_procfs _ _ _ Hf1).
    + apply (hf_vnode _ _ _ Hf2); [done|]. specialize (Hg v). unfold one. repeat case_decide; subst; lia.
  - destruct (put_end (held s) v (- ENOTDIR) s s1) as (s2 & E2 & Hi2 & Ho2 & Hh2); [done..|by eapply hframe_oframe|].
    exists (- ENOTDIR), s2. split_and!; try done; apply Ho2.
Qed.
End path_props.
