(* ===== verification/CreateProps.v ===== *)
(** * Creating directories and device files

    What [do_mkdir] and [do_mknod] do to the contents of the file systems: the
    two functions share what follows name resolution, and their theorems
    share its specification. *)

From Stdlib Require Import FunctionalExtensionality.
From S2P Require Import Prelude Kstate Sched Vmstate Pframe Vnode VnodeProps Namev NamevProps Vfs VfsProps PathProps.
Local Open Scope Z_scope.

(** ** Contents of file systems that change *)
Section contents.
Context {FV : FsView} {NE : NameEnv} {ER : Errno}.

(** The same files and directories, apart from inodes that are not linked. *)
Definition same_view (D D' : fsdata) : Prop := ∀ i, linked D i = true → same_at D D' i.

(** Nothing is lost. *)
Definition grows (D D' : fsdata) : Prop := ∀ i, linked D i = true →
  linked D' i = true ∧ isdir D' i = isdir D i ∧ ∀ n j, dirent D i n = Some j → dirent D' i n = Some j.

(** A new inode [j], a directory if [b], has become entry [n] of [i]. *)
Record created (b : bool) (D D' : fsdata) (i : ino) (n : path) (j : ino) : Prop := {
  cr_new : linked D j = false;
  cr_linked : linked D' j = true;
  cr_kind : isdir D' j = b;
  cr_empty : ∀ m, m ≠ dot → m ≠ dot ++ dot → dirent D' j m = None;
  cr_entry : dirent D' i n = Some j;
  cr_kept : ∀ i', linked D i' = true → linked D' i' = true ∧ isdir D' i' = isdir D i' ∧
    ∀ m, (i', m) ≠ (i, n) → dirent D' i' m = dirent D i' m;
}.

#[global] Instance same_view_preorder : PreOrder same_view.
Proof.
  split; [by intros D i Hi|]. intros D1 D2 D3 H12 H23 i Hi. destruct (H12 i Hi) as (L & K & E).
  destruct (H23 i) as (L' & K' & E'); [congruence|]. split; [congruence|]. split; [congruence|].
  intros n. by rewrite E', E.
Qed.

#[global] Instance grows_preorder : PreOrder grows.
Proof.
  split; [by intros D i Hi|]. intros D1 D2 D3 H12 H23 i Hi. destruct (H12 i Hi) as (L & K & E).
  destruct (H23 i L) as (L' & K' & E'). split_and!; [done|congruence|auto].
Qed.

Lemma same_view_grows D D' : same_view D D' → grows D D'.
Proof. intros H i Hi. destruct (H i Hi) as (L & K & E). split_and!; [congruence|done|]. intros n j. by rewrite E. Qed.

Lemma created_grows b D D' i n j : dirent D i n = None → created b D D' i n j → grows D D'.
Proof.
  intros Hn C i' Hi'. destruct (cr_kept _ _ _ _ _ _ C i' Hi') as (L & K & E). split_and!; [done..|].
  intros m j' Hj. rewrite E; congruence.
Qed.

(** Creation seen through changes of inodes that are not linked. *)
Lemma created_same_view b D D1 D2 D3 i n j :
  linked D i = true → same_view D D1 → created b D1 D2 i n j → same_view D2 D3 → created b D D3 i n j.
Proof.
  intros Hi V1 [N L K Em E Kp] V3. destruct (V3 j L) as (L3 & K3 & E3). split; [|congruence..| | |].
  - destruct (linked D j) eqn:Hj; [|done]. destruct (V1 j Hj) as (? & _). congruence.
  - intros m H1 H2. rewrite E3. auto.
  - destruct (V1 i Hi) as (Hi1 & _). destruct (Kp i) as (Hi2 & _); [congruence|].
    destruct (V3 i Hi2) as (_ & _ & Ei). by rewrite Ei.
  - intros i' Hi'. destruct (V1 i' Hi') as (A1 & B1 & C1). destruct (Kp i') as (A2 & B2 & C2); [congruence|].
    destruct (V3 i' A2) as (A3 & B3 & C3). split_and!; [congruence..|].
    intros m Hm. by rewrite C3, C2, C1.
Qed.

(** A path that leads to a directory still does, and names the entry that has
    been added there; a path with a slash at its end only if that is a
    directory. *)
Lemma resolve_grows D D' i cs t d n j :
  grows D D' → linked D i = true → resolve D i cs t = inr (d, n) → dirent D' d n = Some j →
  t = false ∨ isdir D' j = true → resolve D' i cs t = inr (d, n).
Proof.
  intros Hg. revert i. induction cs as [|c cs IH]; intros i Hi; cbn [resolve]; [by intros [= <- <-]|].
  destruct (_ <? _)%nat; [done|]. destruct (Hg i Hi) as (_ & -> & He). destruct (negb _); [done|].
  intros Hr Hj Ht. destruct cs as [|c' cs].
  - assert ((d, n) = (i, c)) as [= -> ->].
    { destruct (dirent D i c); [destruct (t && _)|]; congruence. }
    rewrite Hj. destruct Ht as [-> | ->]; [done|]. by rewrite andb_false_r.
  - destruct (dirent D i c) as [k|] eqn:Hk; [|done]. rewrite (He c k Hk). apply IH; [|done..].
    by eapply dirent_linked.
Qed.

(** What a path names stays what it names. *)
Lemma resolve_file_grows D D' i p j :
  grows D D' → linked D i = true → resolve_file D i p = inr j → resolve_file D' i p = inr j.
Proof.
  intros Hg Hi. unfold resolve_file, resolve_path. destruct p as [|a p]; [done|].
  destruct (resolve D i _ _) as [e|[d n]] eqn:Hr; [done|].
  pose proof (resolve_linked _ _ _ _ _ _ Hi Hr) as Hd. destruct (Hg d Hd) as (_ & Kd & Ed).
  destruct (negb (isdir D d)) eqn:Hn; [done|]. destruct (dirent D d n) as [k|] eqn:Hk; [|done]. intros [= <-].
  assert (trailing (a :: p) = false ∨ isdir D' k = true ∨ components (a :: p) = []) as Ht.
  { revert Hr. pose proof (dirent_linked _ _ _ _ Hd Hk) as Hlk. destruct (Hg k Hlk) as (_ & -> & _).
    generalize (components (a :: p)), (trailing (a :: p)). clear a p. intros cs t. clear Kd Ed Hd.
    revert i Hi. induction cs as [|c cs IH]; intros i Hi; cbn [resolve]; [tauto|].
    destruct (_ <? _)%nat; [done|]. destruct (isdir D i) eqn:Hdi; [|done]. cbn [negb]. destruct cs as [|c' cs].
    - destruct (dirent D i c) as [k'|] eqn:Hk'.
      + destruct t, (isdir D k') eqn:Hdk; cbn [andb negb]; try done; intros [= <- <-]; [|tauto..].
        rewrite Hk' in Hk. injection Hk as <-. tauto.
      + intros [= <- <-]. congruence.
    - destruct (dirent D i c) as [k'|] eqn:Hk'; [|done]. intros Hr.
      destruct (IH k') as [?|[?|?]]; [by eapply dirent_linked|done|tauto..|done]. }
  destruct Ht as [Ht|[Ht|Ht]].
  1,2: rewrite (resolve_grows D D' i _ _ d n k), Kd, Hn, (Ed n k Hk) by auto; done.
  rewrite Ht in *. cbn [resolve] in *. injection Hr as -> ->. by rewrite Kd, Hn, (Ed _ _ Hk).
Qed.
End contents.

(** ** The end of [do_mkdir] and [do_mknod] *)
Section create.
Context {VE : VmEnv} {FE : VfsEnv} {MA : Machine} {ER : Errno} {OB : Objects} {NE : NameEnv}
  {FT : FileTable} {FV : FsView} {FI : FsInodes} {FL : FsLookup}.

(** The vnodes in use stay those of their inodes. *)
Definition keeps (G : vnptr → Z) (s s' : vst) : Prop := ∀ w y, vnodes (v_fs s) !! w = Some y → 1 <= G w →
  ∃ y', vnodes (v_fs s') !! w = Some y' ∧ inode y' = inode y.

Lemma hframe_keeps G s s' : hframe G s s' → keeps G s s'.
Proof. intros F w y Hy Hw. exists y. split; [by apply F|done]. Qed.

Lemma hframe_view G s s' : hframe G s s' → same_view (data s) (data s').
Proof. by intros []. Qed.

Lemma keeps_trans G s1 s2 s3 : keeps G s1 s2 → keeps G s2 s3 → keeps G s1 s3.
Proof.
  intros K1 K2 w y Hy Hw. destruct (K1 w y Hy Hw) as (y' & Hy' & E). destruct (K2 w y' Hy' Hw) as (y'' & ? & ?).
  exists y''. split; congruence.
Qed.

Lemma keeps_mono G G' s s' : (∀ w, G w <= G' w) → keeps G' s s' → keeps G s s'.
Proof. intros Hle K w y Hy Hw. apply K; [done|]. specialize (Hle w). lia. Qed.

(** An operation of a file system that adds entry [n] to directory [i], or
    fails and changes nothing; EEXIST is not among its errors, since there is
    no such entry, and it does not fail if the file system is [roomy]. *)
Definition makes (roomy : Prop) (b : bool) (m : V Z) (s : vst) (i : ino) (n : path) : Prop :=
  ∃ r s', m s = Ret r s' ∧ vinv s' ∧ oframe s s' ∧ (∀ w, held s' w = held s w) ∧ keeps (held s) s s' ∧
    ((r = 0 ∧ ∃ j, created b (data s) (data s') i n j) ∨
     (r < 0 ∧ r ≠ - EEXIST ∧ ¬ roomy ∧ same_view (data s) (data s'))).

(** [roomy]: there is always space for another file. *)
Class FsCreate := {
  roomy : Prop;
  mkdir_makes : ∀ s d x k f name len, vinv s → vnodes (v_fs s) !! d = Some x → 1 <= held s d →
    linked (data s) (inode x) = true → vn_ops x = Some k → op_mkdir (vops_tab k) = Some f →
    dirent (data s) (inode x) (take len name) = None → makes roomy true (f d name len) s (inode x) (take len name);
  mknod_makes : ∀ s d x k f name len mode devid, vinv s → vnodes (v_fs s) !! d = Some x → 1 <= held s d →
    linked (data s) (inode x) = true → vn_ops x = Some k → op_mknod (vops_tab k) = Some f →
    S_ISCHR mode || S_ISBLK mode = true → dirent (data s) (inode x) (take len name) = None →
    makes roomy false (f d name len mode devid) s (inode x) (take len name);
  mknod_dir : ∀ s d x k, vinv s → vnodes (v_fs s) !! d = Some x → vn_ops x = Some k →
    isdir (data s) (inode x) = true → is_Some (op_mknod (vops_tab k));
}.

Context {FC : FsCreate}.

(** What the call returns and does, for entry [n] of [i]. *)
Definition make_result (b : bool) (D D' : fsdata) (i : ino) (n : path) (r : Z) : Prop :=
  if isdir D i then
    match dirent D i n with
    | Some _ => r = - EEXIST ∧ same_view D D'
    | None => (r = 0 ∧ ∃ j, created b D D' i n j) ∨ (r < 0 ∧ r ≠ - EEXIST ∧ ¬ roomy ∧ same_view D D')
    end
  else r = - ENOTDIR ∧ same_view D D'.

(** What follows [dir_namev]; [sel] is the operation of the file system. *)
Definition make_in (sel : vnode_ops_t → option (vnptr → path → nat → V Z)) (w1 w2 : string)
    (dir : vnptr) (name : path) (len : nat) : V Z :=
  '(lookupResult, result) ← lookup dir name len;
  if lookupResult =? 0 then
    r ← deref result w1;
    vput r;; vput dir;; mret (- EEXIST)
  else if lookupResult =? - ENOTDIR then vput dir;; mret lookupResult
  else
    ops ← vops_of dir;
    f ← deref (sel ops) w2;
    res ← f dir name len;
    vput dir;; mret res.

Lemma make_in_spec b sel w1 w2 G d x name len s :
  vinv s → vnodes (v_fs s) !! d = Some x → linked (data s) (inode x) = true →
  (∀ w, held s w = G w + one d w) → (∀ w, 0 <= G w) →
  (∀ s y k, vinv s → vnodes (v_fs s) !! d = Some y → vn_ops y = Some k → isdir (data s) (inode y) = true →
     is_Some (sel (vops_tab k))) →
  (∀ s y k f, vinv s → vnodes (v_fs s) !! d = Some y → 1 <= held s d → linked (data s) (inode y) = true →
     vn_ops y = Some k → sel (vops_tab k) = Some f → dirent (data s) (inode y) (take len name) = None →
     makes roomy b (f d name len) s (inode y) (take len name)) →
  ∃ r s', make_in sel w1 w2 d name len s = Ret r s' ∧ vinv s' ∧ oframe s s' ∧ (∀ w, held s' w = G w) ∧
    keeps G s s' ∧ make_result b (data s) (data s') (inode x) (take len name) r.
Proof.
  intros Hi Hx Hl Hh Hg Hsel Hmk. destruct errno_neq as (Hne & ? & ? & ?). unfold make_in, make_result.
  pose proof (lookup_step G d x s name len Hi Hx Hl Hh Hg) as Hlk. destruct (isdir (data s) (inode x)) eqn:Hdir.
  2:{ destruct (put_step G d s) as (s1 & E1 & Hi1 & Hh1 & Hf1); [done..|].
      exists (- ENOTDIR), s1. rewrite (bind_step _ _ _ _ _ Hlk). cbn iota. replace (- ENOTDIR =? 0) with false by lia.
      rewrite Z.eqb_refl, (bind_step _ _ _ _ _ E1).
      split_and!; [done..|by eapply hframe_oframe|done|by apply hframe_keeps|done|by eapply hframe_view]. }
  destruct (dirent (data s) (inode x) (take len name)) as [j|] eqn:Hj.
  - destruct Hlk as (v & z & s1 & E1 & Hi1 & Hz & _ & Hh1 & Hf1).
    destruct (put_step (λ w, G w + one d w) v s1) as (s2 & E2 & Hi2 & Hh2 & Hf2); [done|ledger..|].
    destruct (put_step G d s2) as (s3 & E3 & Hi3 & Hh3 & Hf3); [done..|].
    assert (hframe G s s3) as Hf.
    { eapply hframe_trans; [eapply hframe_mono; [|done]; ledger|].
      eapply hframe_trans; [eapply hframe_mono; [|done]; ledger|done]. }
    exists (- EEXIST), s3. rewrite (bind_step _ _ _ _ _ E1). change (0 =? 0) with true. cbn iota.
    erewrite bind_step by reflexivity. rewrite (bind_step _ _ _ _ _ E2), (bind_step _ _ _ _ _ E3).
    split_and!; [done..|by eapply hframe_oframe|done|by apply hframe_keeps|done|by eapply hframe_view].
  - destruct Hlk as (s1 & E1 & Hi1 & Hh1 & Hf1). rewrite (bind_step _ _ _ _ _ E1). cbn iota.
    replace (- ENOENT =? 0) with false by lia. replace (- ENOENT =? - ENOTDIR) with false by lia.
    assert (vnodes (v_fs s1) !! d = Some x) as Hx1 by (by eapply hframe_held).
    destruct (hf_view _ _ _ Hf1 _ Hl) as (L1 & D1 & N1).
    destruct (ok_ops _ _ _ (vi_ok _ Hi1 _ _ Hx1)) as (k & Hk & _).
    rewrite (bind_step _ _ _ _ _ (vops_of_eq _ _ _ _ Hx1 Hk)).
    destruct (Hsel s1 x k) as [f Hf]; [done..|congruence|]. rewrite Hf. erewrite bind_step by reflexivity.
    destruct (Hmk s1 x k f) as (r & s2 & E2 & Hi2 & Ho2 & Hh2 & Hk2 & Hr); [done|done| |congruence|done..|by rewrite N1|].
    { rewrite Hh1, one_same. specialize (Hg d). lia. }
    rewrite (bind_step _ _ _ _ _ E2). destruct (put_step G d s2) as (s3 & E3 & Hi3 & Hh3 & Hf3); [done|ledger|done|].
    exists r, s3. rewrite (bind_step _ _ _ _ _ E3). split_and!; [done|done| |done| |].
    + eapply oframe_trans; [by eapply hframe_oframe|]. eapply oframe_trans; [done|by eapply hframe_oframe].
    + eapply keeps_trans; [eapply keeps_mono; [|by apply hframe_keeps]; ledger|].
      eapply keeps_trans; [eapply keeps_mono; [|done]; ledger|by apply hframe_keeps].
    + destruct Hr as [(-> & j & Hc)|(Hneg & Hex & Hro & Hv)]; [left|right].
      * split; [done|]. exists j. eapply created_same_view; [done|by eapply hframe_view|done|by eapply hframe_view].
      * split_and!; [done..|]. transitivity (data s1); [by eapply hframe_view|]. transitivity (data s2); [done|by eapply hframe_view].
Qed.

(** The result of a whole call on path [p], which starts at the inode of [x]:
    the references are as before, and the contents as name resolution and
    [make_result] say. *)
Record made (b : bool) (s : vst) (p : path) (x : vnode) (r : Z) (s' : vst) : Prop := {
  md_inv : vinv s';
  md_frame : oframe s s';
  md_held : ∀ w, held s' w = held s w;
  md_keeps : keeps (held s) s s';
  md_result : match resolve_path (data s) (inode x) p with
              | inl e => r = - e ∧ same_view (data s) (data s')
              | inr (i, n) => make_result b (data s) (data s') i n r
              end;
}.

Lemma make_spec b sel w1 w2 (m : Z * option (path * nat * vnptr) → V Z) p v x s :
  (∀ e, 0 < e → m (- e, None) = mret (- e)) →
  (∀ name len d, m (0, Some (name, len, d)) = make_in sel w1 w2 d name len) →
  (∀ s d y k, vinv s → vnodes (v_fs s) !! d = Some y → vn_ops y = Some k → isdir (data s) (inode y) = true →
     is_Some (sel (vops_tab k))) →
  (∀ s d y k f name len, vinv s → vnodes (v_fs s) !! d = Some y → 1 <= held s d →
     linked (data s) (inode y) = true → vn_ops y = Some k → sel (vops_tab k) = Some f →
     dirent (data s) (inode y) (take len name) = None → makes roomy b (f d name len) s (inode y) (take len name)) →
  vinv s → nul ∉ p → start_vnode s p None = Some v → vnodes (v_fs s) !! v = Some x →
  linked (data s) (inode x) = true →
  ∃ r s', (dir_namev p None ≫= m) s = Ret r s' ∧ made b s p x r s'.
Proof.
  intros Hm0 Hm1 Hsel Hmk Hi Hn Hb Hx Hl. assert (∀ w, 0 <= held s w) as Hg by (intros w; by apply held_nonneg).
  destruct (dir_namev_spec p None v x s) as (r & s1 & E1 & Hi1 & Hf1 & HR); [done..|].
  rewrite (bind_step _ _ _ _ _ E1). destruct (resolve_path _ _ p) as [e|[i n]] eqn:Hres.
  - destruct HR as [-> Hh]. pose proof (resolve_error_pos _ _ _ _ Hres). exists (- e), s1. rewrite Hm0 by done.
    split; [done|]. split; [done|by eapply hframe_oframe|done|by apply hframe_keeps|].
    rewrite Hres. split; [done|by eapply hframe_view].
  - destruct HR as (name & len & d & y & -> & <- & Hy & <- & Hh1). rewrite Hm1.
    pose proof (resolve_path_linked _ _ _ _ _ Hl Hres) as Hlj.
    destruct (hf_view _ _ _ Hf1 _ Hlj) as (L1 & D1 & N1).
    destruct (make_in_spec b sel w1 w2 (held s) d y name len s1) as (r & s2 & E2 & Hi2 & Ho2 & Hh2 & Hk2 & Hr);
      [done|done|congruence|done|done|by eauto..|].
    exists r, s2. split; [done|]. split; [done| |done| |].
    + eapply oframe_trans; [by eapply hframe_oframe|done].
    + eapply keeps_trans; [by apply hframe_keeps|done].
    + rewrite Hres. unfold make_result in *. rewrite D1, N1 in Hr. pose proof (hframe_view _ _ _ Hf1) as V1.
      destruct (isdir (data s) _); [|destruct Hr; split; [done|by transitivity (data s1)]].
      destruct (dirent (data s) _ _); [destruct Hr; split; [done|by transitivity (data s1)]|].
      destruct Hr as [(-> & j & Hc)|(? & ? & ? & ?)]; [left|right; split_and!; [done..|by transitivity (data s1)]].
      split; [done|]. exists j. eapply created_same_view; eauto. reflexivity.
Qed.

(** [do_mkdir] and [do_mknod] are such calls. *)
Lemma do_mkdir_made p v x s :
  vinv s → nul ∉ p → start_vnode s p None = Some v → vnodes (v_fs s) !! v = Some x →
  linked (data s) (inode x) = true →
  ∃ r s', do_mkdir p s = Ret r s' ∧ made true s p x r s'.
Proof.
  apply (make_spec true op_mkdir "resVnode" "NULL != dirVnode->vn_ops->mkdir").
  - intros e He. by replace (- e <? 0) with true by lia.
  - done.
  - intros s1 d y k Hi1 Hy Hk Hd. destruct (ok_ops _ _ _ (vi_ok _ Hi1 _ _ Hy)) as (k' & Hk' & _ & Hmk & _).
    rewrite Hk in Hk'. injection Hk' as <-. by apply Hmk.
  - intros. by eapply mkdir_makes.
Qed.

Lemma do_mknod_made p mode devid v x s :
  vinv s → nul ∉ p → start_vnode s p None = Some v → vnodes (v_fs s) !! v = Some x →
  linked (data s) (inode x) = true →
  if S_ISCHR mode || S_ISBLK mode then ∃ r s', do_mknod p mode devid s = Ret r s' ∧ made false s p x r s'
  else do_mknod p mode devid s = Ret (- EINVAL) s.
Proof.
  unfold do_mknod. destruct (_ || _) eqn:Hm; [|done].
  apply (make_spec false (λ ops, (λ f d name len, f d name len mode devid) <$> op_mknod ops) "result"
    "NULL != dirVnode->vn_ops->mknod").
  - intros e He. by replace (- e =? 0) with false by lia.
  - intros name len d. unfold make_in. change (0 =? 0) with true. cbn iota.
    change (deref (Some ?a) _ ≫= ?f) with (f a). cbn beta iota. f_equal.
    apply functional_extensionality. intros [r o]. repeat case_match; try done. f_equal.
    apply functional_extensionality. intros ops. by destruct (op_mknod ops).
  - intros s1 d y k Hi1 Hy Hk Hd. apply fmap_is_Some. by eapply mknod_dir.
  - intros s1 d y k f name len ????? (g & Hg & ->)%fmap_Some ?. by eapply mknod_makes.
Qed.

Lemma made_grows b s p x r s' :
  linked (data s) (inode x) = true → made b s p x r s' → grows (data s) (data s').
Proof.
  intros Hl [_ _ _ _ Hr]. destruct (resolve_path _ _ p) as [e|[i n]]; [apply same_view_grows, Hr|].
  unfold make_result in Hr. destruct (isdir _ _); [|apply same_view_grows, Hr].
  destruct (dirent (data s) i n) eqn:Hn; [apply same_view_grows, Hr|].
  destruct Hr as [(_ & j & Hc)|(_ & _ & _ & Hv)]; [by eapply created_grows|by apply same_view_grows].
Qed.

(** C21. [do_mkdir]: the error of name resolution, EEXIST if the last
    component exists, ENOTDIR if it is looked for in something else than a
    directory; otherwise a new, empty directory has been entered under that
    name and nothing else has changed, or the file system has returned an
    error and nothing at all has changed.  In all cases the references to
    vnodes, the open files and the working directories are as before, and
    what a path names it still names. *)
Theorem do_mkdir_creates p v x s :
  vinv s → nul ∉ p → start_vnode s p None = Some v → vnodes (v_fs s) !! v = Some x →
  linked (data s) (inode x) = true →
  ∃ r s', do_mkdir p s = Ret r s' ∧ vinv s' ∧ oframe s s' ∧ (∀ w, held s' w = held s w) ∧
    match resolve_path (data s) (inode x) p with
    | inl e => r = - e ∧ same_view (data s) (data s')
    | inr (i, n) => make_result true (data s) (data s') i n r
    end ∧
    ∀ i q j, linked (data s) i = true → resolve_file (data s) i q = inr j → resolve_file (data s') i q = inr j.
Proof.
  intros Hi Hn Hb Hx Hl. destruct (do_mkdir_made p v x s) as (r & s' & E & Hm); [done..|].
  exists r, s'. split_and!; [done|apply Hm..|]. intros i q j. apply resolve_file_grows. by eapply made_grows.
Qed.

End create.
