(* ===== verification/RemoveProps.v ===== *)
(** * Removing directories

    What [do_rmdir] does to the contents of the file systems, and that it
    undoes [do_mkdir]. *)

From S2P Require Import Prelude Kstate Sched Vmstate Pframe Vnode VnodeProps Namev NamevProps Vfs VfsProps PathProps.
From S2P Require Import CreateProps.
Local Open Scope Z_scope.

Section contents.
Context {FV : FsView}.

(** A name that is neither "." nor "..". *)
Definition proper (n : path) : Prop := n ≠ [] ∧ n ≠ dot ∧ n ≠ dot ++ dot.

Definition empty_dir (D : fsdata) (j : ino) : Prop := ∀ m, proper m → dirent D j m = None.

(** Entry [n] of [i] has gone, and with it inode [j], the others are as they
    were. *)
Record removed (D D' : fsdata) (i : ino) (n : path) (j : ino) : Prop := {
  rm_gone : dirent D' i n = None;
  rm_kept : ∀ i', linked D i' = true → i' ≠ j → linked D' i' = true ∧ isdir D' i' = isdir D i' ∧
    ∀ m, (i', m) ≠ (i, n) → dirent D' i' m = dirent D i' m;
}.

Lemma removed_same_view D D1 D2 D3 i n j :
  linked D i = true → i ≠ j → same_view D D1 → removed D1 D2 i n j → same_view D2 D3 → removed D D3 i n j.
Proof.
  intros Hi Hij V1 [Hg Kp] V3. split.
  - destruct (V1 i Hi) as (L1 & _). destruct (Kp i) as (L2 & _); [congruence|done|].
    destruct (V3 i L2) as (_ & _ & E). by rewrite E.
  - intros i' Hi' Hne. destruct (V1 i' Hi') as (L1 & K1 & E1). destruct (Kp i') as (L2 & K2 & E2); [congruence|done|].
    destruct (V3 i' L2) as (L3 & K3 & E3). split_and!; [congruence..|]. intros m Hm. by rewrite E3, E2, E1.
Qed.

(** Removing what has been created. *)
Lemma created_removed b D D1 D2 i n j :
  dirent D i n = None → created b D D1 i n j → removed D1 D2 i n j → same_view D D2.
Proof.
  intros Hn [N _ _ _ _ Kc] [Hg Kr] i' Hi'. destruct (Kc i' Hi') as (L1 & K1 & E1).
  destruct (Kr i') as (L2 & K2 & E2); [done|congruence|]. split_and!; [congruence..|].
  intros m. destruct (decide ((i', m) = (i, n))) as [[= -> ->]|Hne]; [congruence|]. by rewrite E2, E1.
Qed.
End contents.

Section remove.
Context {VE : VmEnv} {FE : VfsEnv} {MA : Machine} {ER : Errno} {OB : Objects} {NE : NameEnv}
  {FT : FileTable} {FV : FsView} {FI : FsInodes} {FL : FsLookup}.

(** The file systems' [rmdir], while a vnode [v] of the directory is held: it removes empty directories, and fails on
    others.  Names match only if they agree in the characters compared. *)
Class FsRemove := {
  rmdir_removes : ∀ s d x k f name len v z, vinv s → vnodes (v_fs s) !! d = Some x → 1 <= held s d →
    linked (data s) (inode x) = true → vn_ops x = Some k → op_rmdir (vops_tab k) = Some f →
    proper (take len name) → dirent (data s) (inode x) (take len name) = Some (inode z) →
    isdir (data s) (inode z) = true → vnodes (v_fs s) !! v = Some z → 1 <= held s v →
    ∃ r s', f d name len s = Ret r s' ∧ vinv s' ∧ oframe s s' ∧ (∀ w, held s' w = held s w) ∧
      ((r = 0 ∧ empty_dir (data s) (inode z) ∧ removed (data s) (data s') (inode x) (take len name) (inode z)) ∨
       (r < 0 ∧ ¬ empty_dir (data s) (inode z) ∧ same_view (data s) (data s')));
  dirent_proper : ∀ D i n j, linked D i = true → proper n → dirent D i n = Some j → i ≠ j;
  name_match_take : ∀ a b len, name_match a b len = true → take len a = take len b;
}.
Context {FR : FsRemove}.

Lemma name_match_dot name len : proper (take len name) →
  name_match name dot len = false ∧ name_match name (dot ++ dot) len = false.
Proof.
  intros (H0 & H1 & H2). split; (destruct (name_match _ _ _) eqn:Hm; [exfalso|done]); apply name_match_take in Hm.
  - destruct len as [|len]; [done|]. by rewrite (take_ge dot) in Hm by (simpl; lia).
  - destruct len as [|[|len]]; [done|done|]. by rewrite (take_ge (dot ++ dot)) in Hm by (simpl; lia).
Qed.

(** What the call returns and does, for entry [n] of [i]. *)
Definition rmdir_result (D D' : fsdata) (i : ino) (n : path) (r : Z) : Prop :=
  if isdir D i then
    match dirent D i n with
    | None => r = - ENOENT ∧ same_view D D'
    | Some j =>
        if isdir D j then
          (r = 0 ∧ empty_dir D j ∧ removed D D' i n j) ∨ (r < 0 ∧ ¬ empty_dir D j ∧ same_view D D')
        else r = - ENOTDIR ∧ same_view D D'
    end
  else r = - ENOTDIR ∧ same_view D D'.

(** What follows [dir_namev] in [do_rmdir]. *)
Definition rmdir_in (dir : vnptr) (name : path) (len : nat) : V Z :=
  ops ← vops_of dir;
  match op_rmdir ops with
  | None => vput dir;; mret (- ENOTDIR)
  | Some rmdir =>
      if name_match name dot len then vput dir;; mret (- EINVAL)
      else if name_match name (dot ++ dot) len then vput dir;; mret (- ENOTEMPTY)
      else
        '(lookupResult, result) ← lookup dir name len;
        if negb (lookupResult =? 0) then vput dir;; mret lookupResult
        else
          r ← deref result "resVnode";
          rops ← vops_of r;
          if bool_decide (is_Some (op_rmdir rops)) then
            rmdirResult ← rmdir dir name len;
            vput r;; vput dir;; mret rmdirResult
          else vput r;; vput dir;; mret (- ENOTDIR)
  end.

(** Giving back the vnode found and the directory. *)
Lemma put_both G d v s :
  vinv s → (∀ w, held s w = G w + one d w + one v w) → (∀ w, 0 <= G w) →
  ∃ s', (∀ r : Z, (vput v;; vput d;; mret r) s = Ret r s') ∧ vinv s' ∧ (∀ w, held s' w = G w) ∧ hframe G s s'.
Proof.
  intros Hi Hh Hg. destruct (put_step (λ w, G w + one d w) v s) as (s1 & E1 & Hi1 & Hh1 & Hf1); [done|ledger..|].
  destruct (put_step G d s1) as (s2 & E2 & Hi2 & Hh2 & Hf2); [done..|].
  exists s2. split_and!; [|done..|].
  - intros r. by rewrite (bind_step _ _ _ _ _ E1), (bind_step _ _ _ _ _ E2).
  - eapply hframe_trans; [eapply hframe_mono; [|done]; ledger|done].
Qed.

Lemma rmdir_in_spec G d x name len s :
  vinv s → vnodes (v_fs s) !! d = Some x → linked (data s) (inode x) = true → proper (take len name) →
  (∀ w, held s w = G w + one d w) → (∀ w, 0 <= G w) →
  ∃ r s', rmdir_in d name len s = Ret r s' ∧ vinv s' ∧ oframe s s' ∧ (∀ w, held s' w = G w) ∧
    rmdir_result (data s) (data s') (inode x) (take len name) r.
Proof.
  intros Hi Hx Hl Hpr Hh Hg. destruct errno_neq as (Hne & ? & ? & ?). unfold rmdir_in, rmdir_result.
  destruct (ok_ops _ _ _ (vi_ok _ Hi _ _ Hx)) as (k & Hk & Hlk & _ & Hrm).
  rewrite (bind_step _ _ _ _ _ (vops_of_eq _ _ _ _ Hx Hk)).
  pose proof (lookup_step G d x s name len Hi Hx Hl Hh Hg) as Hlook.
  destruct (put_step G d s) as (s9 & E9 & Hi9 & Hh9 & Hf9); [done..|].
  destruct (isdir (data s) (inode x)) eqn:Hdir; [destruct (proj2 Hrm eq_refl) as [f Hf]; rewrite Hf|].
  2:{ destruct (op_rmdir _) as [f|] eqn:Hf; [by pose proof (proj1 Hrm (ex_intro _ f eq_refl))|].
      exists (- ENOTDIR), s9. rewrite (bind_step _ _ _ _ _ E9).
      split_and!; [done..|by eapply hframe_oframe|done|done|by eapply hframe_view]. }
  clear s9 E9 Hi9 Hh9 Hf9. destruct (name_match_dot name len Hpr) as [-> ->].
  destruct (dirent (data s) (inode x) (take len name)) as [j|] eqn:Hj.
  2:{ destruct Hlook as (s1 & E1 & Hi1 & Hh1 & Hf1). rewrite (bind_step _ _ _ _ _ E1). cbn iota.
      replace (- ENOENT =? 0) with false by lia. cbn [negb].
      destruct (put_step G d s1) as (s2 & E2 & Hi2 & Hh2 & Hf2); [done..|].
      assert (hframe G s s2) as Hf0 by (apply (hframe_trans _ _ s1); [eapply hframe_mono; [|exact Hf1]; ledger|done]).
      exists (- ENOENT), s2. rewrite (bind_step _ _ _ _ _ E2).
      split_and!; [done..|by eapply hframe_oframe|done|done|by eapply hframe_view]. }
  destruct Hlook as (v & z & s1 & E1 & Hi1 & Hz & Hzj & Hh1 & Hf1). rewrite (bind_step _ _ _ _ _ E1).
  change (0 =? 0) with true. cbn [negb]. cbn iota. erewrite bind_step by reflexivity.
  destruct (ok_ops _ _ _ (vi_ok _ Hi1 _ _ Hz)) as (kz & Hkz & _ & _ & Hrz).
  rewrite (bind_step _ _ _ _ _ (vops_of_eq _ _ _ _ Hz Hkz)).
  destruct (hf_view _ _ _ Hf1 (inode x) Hl) as (L1 & _ & N1).
  destruct (hf_view _ _ _ Hf1 j) as (_ & Dj & _); [by eapply dirent_linked|]. rewrite <- Dj, <- Hzj.
  destruct (isdir (data s1) (inode z)) eqn:Hdz.
  2:{ rewrite bool_decide_eq_false_2 by (intros Hs; by pose proof (proj1 Hrz Hs)).
      destruct (put_both G d v s1) as (s2 & E2 & Hi2 & Hh2 & Hf2); [done..|].
      assert (hframe G s s2) as Hf0 by (apply (hframe_trans _ _ s1); [eapply hframe_mono; [|exact Hf1]; ledger|done]).
      exists (- ENOTDIR), s2. rewrite E2. split_and!; [done..|by eapply hframe_oframe|done|done|by eapply hframe_view]. }
  rewrite bool_decide_eq_true_2 by (by apply Hrz).
  assert (vnodes (v_fs s1) !! d = Some x) as Hx1 by (by eapply hframe_held).
  destruct (rmdir_removes s1 d x k f name len v z) as (r & s2 & E2 & Hi2 & Ho2 & Hh2 & Hr);
    [done|done| |congruence|done..|rewrite N1; congruence|done|done| |].
  { rewrite Hh1, one_same. specialize (Hg d). pose proof (one_nonneg v d). lia. }
  { rewrite Hh1, (one_same v). specialize (Hg v). pose proof (one_nonneg d v). lia. }
  rewrite (bind_step _ _ _ _ _ E2).
  destruct (put_both G d v s2) as (s3 & E3 & Hi3 & Hh3 & Hf3); [done|ledger|done|].
  exists r, s3. rewrite E3. pose proof (hframe_view _ _ _ Hf1) as V1. pose proof (hframe_view _ _ _ Hf3) as V3.
  split_and!; [done|done| |done|].
  - eapply oframe_trans; [by eapply hframe_oframe|]. eapply oframe_trans; [done|by eapply hframe_oframe].
  - assert (empty_dir (data s1) (inode z) ↔ empty_dir (data s) (inode z)) as He.
    { destruct (V1 (inode z)) as (_ & _ & E); [rewrite Hzj; by eapply dirent_linked|].
      unfold empty_dir. by setoid_rewrite E. }
    rewrite He in Hr. destruct Hr as [(-> & Hem & Hrem)|(Hneg & Hem & Hv)]; [left|right].
    + split_and!; [done..|]. eapply removed_same_view; [done| |done..]. apply (dirent_proper (data s) _ (take len name)); [done..|congruence].
    + split_and!; [done..|by transitivity (data s1); [|transitivity (data s2)]].
Qed.

(** [do_rmdir] of a path whose last component is a proper name: the error of
    name resolution; ENOTDIR if that component is looked for in something
    else than a directory or names something else; ENOENT if it does not
    exist; otherwise the directory is empty, has been removed, and nothing
    else has changed, or it is not and nothing at all has changed.  In all cases
    the references to vnodes, the open files and the working directories are
    as before. *)
Theorem do_rmdir_removes p v x s :
  vinv s → nul ∉ p → start_vnode s p None = Some v → vnodes (v_fs s) !! v = Some x →
  linked (data s) (inode x) = true →
  (∀ i n, resolve_path (data s) (inode x) p = inr (i, n) → proper n) →
  ∃ r s', do_rmdir p s = Ret r s' ∧ vinv s' ∧ oframe s s' ∧ (∀ w, held s' w = held s w) ∧
    match resolve_path (data s) (inode x) p with
    | inl e => r = - e ∧ same_view (data s) (data s')
    | inr (i, n) => rmdir_result (data s) (data s') i n r
    end.
Proof.
  intros Hi Hn Hb Hx Hl Hpr. assert (∀ w, 0 <= held s w) as Hg by (intros w; by apply held_nonneg).
  destruct (dir_namev_spec p None v x s) as (r & s1 & E1 & Hi1 & Hf1 & HR); [done..|].
  unfold do_rmdir. rewrite (bind_step _ _ _ _ _ E1). pose proof (hframe_view _ _ _ Hf1) as V1.
  destruct (resolve_path _ _ p) as [e|[i n]] eqn:Hres.
  - destruct HR as [-> Hh]. pose proof (resolve_error_pos _ _ _ _ Hres). replace (- e <? 0) with true by lia.
    exists (- e), s1. split_and!; [done..|by eapply hframe_oframe|done|done|done].
  - destruct HR as (name & len & d & y & -> & <- & Hy & <- & Hh1). change (0 <? 0) with false. cbn iota.
    erewrite bind_step by reflexivity.
    pose proof (resolve_path_linked _ _ _ _ _ Hl Hres) as Hlj. destruct (V1 _ Hlj) as (L1 & D1 & N1).
    destruct (rmdir_in_spec (held s) d y name len s1) as (r & s2 & E2 & Hi2 & Ho2 & Hh2 & Hr);
      [done|done|congruence|by eapply Hpr|done|done|].
    exists r, s2. split_and!; [exact E2|done|eapply oframe_trans; [by eapply hframe_oframe|done]|done|].
    unfold rmdir_result in *. rewrite D1, N1 in Hr.
    destruct (isdir (data s) _); [|destruct Hr; split; [done|by transitivity (data s1)]].
    destruct (dirent (data s) _ _) as [j|] eqn:Hj; [|destruct Hr; split; [done|by transitivity (data s1)]].
    destruct (V1 j) as (_ & Dj & Nj); [by eapply dirent_linked|]. rewrite Dj in Hr.
    destruct (isdir (data s) j); [|destruct Hr; split; [done|by transitivity (data s1)]].
    assert (empty_dir (data s1) j ↔ empty_dir (data s) j) as He by (unfold empty_dir; by setoid_rewrite Nj).
    rewrite He in Hr. destruct Hr as [(-> & ? & Hrem)|(? & ? & ?)]; [left|right].
    + split_and!; [done..|]. eapply removed_same_view; [done| |done..|reflexivity].
      apply (dirent_proper (data s) _ (take len name)); [done|by eapply Hpr|done].
    + split_and!; [done..|by transitivity (data s1)].
Qed.

Context {FC : FsCreate}.

(** C20. [do_rmdir] undoes [do_mkdir]: on the path of a directory that has just
    been created it succeeds, and all files and directories, the references
    to vnodes, the open files and the working directories are what they were
    before. *)
Theorem mkdir_rmdir_roundtrip p v x s s1 :
  vinv s → nul ∉ p → start_vnode s p None = Some v → vnodes (v_fs s) !! v = Some x → 1 <= held s v →
  linked (data s) (inode x) = true →
  (∀ i n, resolve_path (data s) (inode x) p = inr (i, n) → proper n) →
  do_mkdir p s = Ret 0 s1 →
  ∃ s2, do_rmdir p s1 = Ret 0 s2 ∧ vinv s2 ∧ oframe s s2 ∧ (∀ w, held s2 w = held s w) ∧
    same_view (data s) (data s2).
Proof.
  intros Hi Hn Hb Hx Hh Hl Hpr Hmk.
  destruct (do_mkdir_made p v x s) as (r & s1' & E & Hm); [done..|]. rewrite Hmk in E. injection E as <- <-.
  pose proof (made_grows _ _ _ _ _ _ Hl Hm) as Hg. destruct Hm as [Hi1 Ho1 Hh1 Hk1 Hr].
  destruct (Hk1 v x Hx Hh) as (x1 & Hx1 & Ex). destruct (Hg _ Hl) as (Hl1 & _).
  destruct errno_neq as (_ & _ & ? & ?). destruct (resolve_path (data s) (inode x) p) as [e|[i n]] eqn:Hres.
  { pose proof (resolve_error_pos _ _ _ _ Hres). destruct Hr. lia. }
  unfold make_result in Hr. destruct (isdir (data s) i) eqn:Hd; [|destruct Hr; lia].
  destruct (dirent (data s) i n) as [j|] eqn:Hj; [destruct Hr; lia|].
  destruct Hr as [(_ & j & Hc)|(? & _)]; [|lia]. pose proof Hc as [_ Lj Kj Em Ej _].
  assert (resolve_path (data s1) (inode x) p = inr (i, n)) as Hres1.
  { destruct p as [|a p]; [done|]. eapply resolve_grows; eauto. }
  destruct (do_rmdir_removes p v x1 s1) as (r & s2 & E2 & Hi2 & Ho2 & Hh2 & Hr2); try done.
  { by rewrite (start_vnode_frame s). }
  { by rewrite Ex. }
  { rewrite Ex, Hres1. intros ? ? [= <- <-]. by eapply Hpr. }
  rewrite Ex, Hres1 in Hr2. unfold rmdir_result in Hr2.
  destruct (Hg i) as (_ & -> & _) in Hr2; [by eapply resolve_path_linked|]. rewrite Hd, Ej, Kj in Hr2.
  destruct Hr2 as [(-> & _ & Hrem)|(_ & Hem & _)]; [|by destruct Hem; intros m (? & ? & ?); apply Em].
  exists s2. split_and!; [done..|by eapply oframe_trans|intros w; by rewrite Hh2, Hh1|by eapply created_removed].
Qed.
End remove.
