(* ===== verification/FsExample.v ===== *)
(** * A small file system

    A read-only file system with two directories and two files, in which the
    hypotheses about file systems hold, and the theorems about vnodes, names
    and files applied to it. *)

From S2P Require Import Prelude Kstate Sched Kmutex Vmstate Pframe Mmobj VmmapProps.
From S2P Require Import Vnode VnodeProps Namev NamevProps Vfs VfsProps OpenProps PathProps.
Local Open Scope Z_scope.

Module FsEx.
#[local] Existing Instance VmmapEx.env.
#[local] Existing Instance VmmapEx.quiet.
#[local] Existing Instance some_errno.

Definition name (n : string) : path := String.list_ascii_of_string n.

(** Directory 1 is the root and contains directory 2, "d", and file 3, "f";
    directory 2 contains file 4, "g". *)
Definition entry (i : Z) (n : path) : option Z :=
  if decide (i = 1) then
    if decide (n = name "d") then Some 2 else if decide (n = name "f") then Some 3
    else if decide (n = dot) then Some 1 else None
  else if decide (i = 2) then
    if decide (n = name "g") then Some 4 else if decide (n = dot) then Some 2
    else if decide (n = dot ++ dot) then Some 1 else None
  else None.

Definition is_directory (i : Z) : bool := bool_decide (i = 1 ∨ i = 2).

#[local] Instance view : FsView := {|
  dirent := λ _ i n, pair i.1 <$> entry i.2 n;
  isdir := λ _ i, is_directory i.2;
  linked := λ _ _, true;
  dirent_linked := λ _ _ _ _ _ _, eq_refl |}.

(** Mode 2 is a directory and mode 1 a regular file; the operations of
    directories are table 1, those of files table 2. *)
Definition fill (x : vnode) : vnode :=
  if is_directory (vn_vno x) then
    Vnode (Some (fs_vops 1)) (vn_fs x) (vn_vno x) 2 0 0 0 None (vn_busy x) (vn_mmobj x)
  else Vnode (Some (fs_vops 2)) (vn_fs x) (vn_vno x) 1 10 0 0 None (vn_busy x) (vn_mmobj x).

Definition no_vops : vnode_ops_t :=
  VnodeOps None None None None None None None None None None None None None None None.

(** [ops] are the tables of operations of the file system. *)
Definition env_with (ops : positive → vnode_ops_t) : VfsEnv.
Proof.
  refine {|
    S_ISDIR := λ m, m =? 2; S_ISCHR := λ m, m =? 3; S_ISBLK := λ m, m =? 4; S_ISREG := λ m, m =? 1;
    slab_alloc_vnode := λ s, Some (fresh (dom (vnodes (v_fs s))), fresh (dom (mmobjs s)));
    read_vnode := λ _, Some (λ v, upd_vnode v fill);
    query_vnode := λ _ _, mret 1;
    delete_vnode := λ _, None;
    fs_root := λ _, 1%positive;
    fs_vnode_ops := ops;
    bytedev_lookup := λ _, None; blockdev_lookup := λ _, None; cd_ops := λ _, None |}.
  intros m. destruct (m =? 2) eqn:?, (m =? 3) eqn:?, (m =? 4) eqn:?, (m =? 1) eqn:?; simpl; lia.
Defined.

(** [vget] does not use the operations of the vnodes. *)
Definition fs_lookup (d : vnptr) (n : path) (len : nat) : V (Z * option vnptr) :=
  x ← vnode_at d;
  match entry (vn_vno x) (take len n) with
  | None => mret (- ENOENT, None)
  | Some i => v ← vget (H0 := env_with (λ _, no_vops)) 0 (vn_fs x) i; mret (0, Some v)
  end.

(** Reading [n] bytes at a position of a file of ten bytes fails from
    position 8 on. *)
Definition fs_read (v : vnptr) (offset buf n : Z) : V Z :=
  mret (if offset <? 8 then Z.min n (8 - offset) else - EBADF).

Definition op_tables (n : positive) : vnode_ops_t :=
  match n with
  | 1%positive => VnodeOps None None None None None (Some fs_lookup) None None
      (Some (λ _ _ _, mret (- EPERM))) (Some (λ _ _ _, mret (- EPERM))) None None None None None
  | 2%positive => VnodeOps (Some fs_read) None None None None None None None None None None None None None None
  | _ => no_vops
  end.

#[local] Instance vfs_env : VfsEnv := env_with op_tables.
#[local] Instance objects : Objects := {| mm_ops := VmmapEx.plain; wait_fuel := 0 |}.

#[local] Instance inodes : FsInodes.
Proof.
  split.
  - intros s v x _ _. by exists 1.
  - done.
Qed.

Lemma fill_dir_ops x : ∃ k, vn_ops (fill x) = Some k ∧ dir_ops (is_directory (vn_vno x)) (vops_tab k).
Proof.
  unfold fill. destruct (is_directory _); eexists; (split; [done|]); unfold dir_ops; simpl;
    rewrite !is_Some_alt; done.
Qed.

#[local] Instance reads : FsRead.
Proof.
  split.
  - intros s v p [= <- <-]. split; apply not_elem_of_dom, is_fresh.
  - intros s v x rd [= <-] Hx. exists (fill x). rewrite (upd_vnode_eq _ _ _ _ Hx).
    unfold inode, fill. split_and!; try (by destruct (is_directory _)).
    + simpl. by destruct (is_directory _).
    + intros _. apply fill_dir_ops.
Qed.

#[local] Instance lookups : FsLookup.
Proof.
  split. intros s d x k f n len Hi Hx Hh _ Hk Hf.
  destruct (ok_ops _ _ _ (vi_ok _ Hi _ _ Hx)) as (k' & Hk' & Hops & _).
  assert (f = fs_lookup) as ->.
  { destruct k as [| |[|[| |]|]]; simpl in Hf; try done. by injection Hf. }
  unfold fs_lookup. rewrite (bind_step _ _ _ _ _ (vnode_at_eq _ _ _ Hx)). simpl.
  destruct (entry (vn_vno x) (take len n)) as [i|].
  - destruct (vget_spec 0 (vn_fs x) i s) as (v & y & s' & E & Hi' & Hf' & Hy & Hin & _ & Hheld); [done|done|].
    exists v, y, s'. split_and!; try done. by erewrite bind_step by exact E.
  - exists s. split_and!; done || apply vframe_refl.
Qed.

#[local] Instance updates : FsUpdate.
Proof.
  split. intros s d x k f n len Hi Hx Hh Hk Hf. exists (- EPERM), s. split_and!; try done.
  destruct k as [| |[|[| |]|]]; simpl in Hf; try done. by injection Hf as <-.
Qed.

#[local] Instance names : NameEnv.
Proof.
  refine {| NAME_LEN := 28; O_RDONLY := 0; O_WRONLY := 1; O_RDWR := 2; O_CREAT := 256; O_APPEND := 1024 |}.
  - done.
  - exists 0, 1, 8, 10. split_and!; try done. by apply (bool_decide_unpack _).
Defined.

(** The table of open files. *)
Definition file_get (fd : Z) : V (option fptr) :=
  if fd =? -1 then
    s ← get; let f := fresh (dom (files (v_fs s))) in
    modify (set_fs (set_files (insert f (File 0 0 1 None))));; mret (Some f)
  else
    pf ← cur_fs;
    match p_files pf !! Z.to_nat fd with
    | Some (Some f) => upd_file f (with_frefcount (λ n, n + 1));; mret (Some f)
    | _ => mret None
    end.

Definition file_put {FE : VfsEnv} {OB : Objects} (f : fptr) : V () :=
  x ← file_at f;
  if f_refcount x =? 1 then
    match f_vnode x with Some v => vput v | None => mret () end;;
    modify (set_fs (set_files (delete f)))
  else upd_file f (with_frefcount (λ n, n - 1)).

#[local] Instance file_table {FE : VfsEnv} {OB : Objects} : FileTable.
Proof.
  refine {| NFILES := 4; MAXPATHLEN := 1024; FMODE_READ := 1; FMODE_WRITE := 2; FMODE_APPEND := 4;
    SEEK_SET := 0; SEEK_CUR := 1; SEEK_END := 2; sizeof_dirent := 40;
    name_match := λ a b n, bool_decide (take n b = take n a); fget := file_get; fput := file_put |}.
  - done.
  - by apply (bool_decide_unpack _).
  - exists 0, 1, 2. split_and!; try done. by apply (bool_decide_unpack _).
  - intros s cp pf fd f x Hc Hp Hfd Hf Hx. unfold file_get. replace (fd =? -1) with false by lia.
    rewrite (bind_step _ _ _ _ _ (cur_fs_eq _ _ _ (conj Hc Hp))), Hf.
    by rewrite (bind_step _ _ _ _ _ (upd_file_eq _ _ _ _ Hx)).
  - intros s cp pf fd Hc Hp Hfd Hf. unfold file_get. replace (fd =? -1) with false by lia.
    by rewrite (bind_step _ _ _ _ _ (cur_fs_eq _ _ _ (conj Hc Hp))), Hf.
  - intros s. right. exists (fresh (dom (files (v_fs s)))). split; [apply not_elem_of_dom, is_fresh|done].
  - intros s f x Hx Hr. unfold file_put. rewrite (bind_step _ _ _ _ _ (file_at_eq _ _ _ Hx)).
    replace (f_refcount x =? 1) with false by lia. apply (upd_file_eq _ _ _ _ Hx).
  - intros s f x Hx Hr. unfold file_put. rewrite (bind_step _ _ _ _ _ (file_at_eq _ _ _ Hx)).
    by rewrite Hr.
Defined.

(** The root, "d" and "f" are in use.  The working directory of process 12
    is "d", and "f" is open as descriptors 0, at position [pos], and 1. *)
Definition vnode_of (i : Z) (p : optr) : vnode :=
  fill (Vnode None 1 i 0 0 0 0 None false p).
Definition obj_of (v : vnptr) (n : Z) : mmobj := Mmobj (vnode_mmobj_ops v) n 0 [] (mmo_vmas []) None.
Definition pf0 : proc_fs := ProcFs [Some 21%positive; Some 22%positive; None; None] (Some 2%positive).
Definition file0 (pos : Z) : file := File pos 3 1 (Some 3%positive).
Definition fs0 (pos : Z) : fsst :=
  Fsst (list_to_map [(1%positive, vnode_of 1 31); (2%positive, vnode_of 2 32); (3%positive, vnode_of 3 33)])
    [1%positive; 2%positive; 3%positive]
    (list_to_map [(21%positive, file0 pos); (22%positive, file0 0)])
    {[12%positive := pf0]} (Some 1%positive) (λ _, 0).
Definition s0 (pos : Z) : vst :=
  Vst VmmapEx.k0
    (list_to_map [(31%positive, obj_of 1 1); (32%positive, obj_of 2 1); (33%positive, obj_of 3 2)])
    ∅ [] [] 0 0 ∅ (λ _, 0) ∅ ∅ ∅ (fs0 pos).

Lemma vnodes0 pos v x : vnodes (v_fs (s0 pos)) !! v = Some x →
  v = 1%positive ∧ x = vnode_of 1 31 ∨ v = 2%positive ∧ x = vnode_of 2 32 ∨ v = 3%positive ∧ x = vnode_of 3 33.
Proof.
  intros Hx%elem_of_list_to_map_2. rewrite !elem_of_cons in Hx.
  destruct Hx as [[= -> ->]|[[= -> ->]|[[= -> ->]|[]%elem_of_nil]]]; tauto.
Qed.

Lemma vnode_ok0 pos v x : vnodes (v_fs (s0 pos)) !! v = Some x → vnode_ok (s0 pos) v x.
Proof.
  intros [[-> ->]|[[-> ->]|[-> ->]]]%vnodes0; (split; [|done|done|done|]);
    first [by eexists|eexists; split; [reflexivity|]; unfold dir_ops; by rewrite !is_Some_alt].
Qed.

Lemma inv0 pos : vinv (s0 pos).
Proof.
  split; [apply vnode_ok0|..].
  - intros v w x y [[-> ->]|[[-> ->]|[-> ->]]]%vnodes0 [[-> ->]|[[-> ->]|[-> ->]]]%vnodes0; done.
  - intros v. simpl. split.
    + rewrite !elem_of_cons. intros [->|[->|[->|[]%elem_of_nil]]]; by eexists.
    + intros [x [[-> _]|[[-> _]|[-> _]]]%vnodes0]; set_solver.
Qed.

Lemma files_inv0 : files_inv (s0 0).
Proof.
  intros f. destruct (decide (f = 21%positive)) as [->|]; [done|].
  destruct (decide (f = 22%positive)) as [->|]; [done|].
  replace (files (v_fs (s0 0)) !! f) with (@None file).
  - simpl. unfold fd_refs. rewrite map_fold_singleton. simpl. rewrite !occ_cons. unfold is_fd, occ.
    rewrite !decide_False by congruence. done.
  - symmetry. apply not_elem_of_list_to_map. simpl. set_solver.
Qed.

Lemma open0 pos : open_fd (s0 pos) 0 21 (file0 pos).
Proof. split_and!; try done. by exists 12%positive, pf0. Qed.

Lemma cur0 pos : cur_is (s0 pos) 12 pf0.
Proof. done. Qed.

Lemma vget_vput_witness :
  ∃ v s1 s2, vget 0 1 4 (s0 0) = Ret v s1 ∧ vput v s1 = Ret () s2 ∧ vnodes (v_fs s2) = vnodes (v_fs (s0 0)).
Proof.
  destruct (vget_vput 0 1 4 (s0 0)) as (v & s1 & s2 & H1 & H2 & _ & _ & H3 & _);
    [apply inv0|by eexists|by eexists|by exists v, s1, s2].
Defined.

Lemma dir_namev_resolves_witness :
  ∃ n len d y s', dir_namev (name "../d/g") None (s0 0) = Ret (0, Some (n, len, d)) s' ∧ take len n = name "g" ∧
    vnodes (v_fs s') !! d = Some y ∧ inode y = (1%positive, 2) ∧ held s' d = held (s0 0) d + 1.
Proof.
  destruct (dir_namev_resolves (name "../d/g") None 2%positive (vnode_of 2 32) (s0 0))
    as (r & s' & E & _ & _ & n & len & d & y & -> & Hn & Hd & Hy & Hh);
    [apply inv0|by apply (bool_decide_unpack _)|done|done|done|].
  exists n, len, d, y, s'. rewrite Hh, one_same. by split_and!.
Defined.

Lemma open_namev_resolves_witness :
  (∃ v y s', open_namev (name "/f") 2 None (s0 0) = Ret (0, Some v) s' ∧
     vnodes (v_fs s') !! v = Some y ∧ inode y = (1%positive, 3)) ∧
  ∃ s', open_namev (name "/d/") 1 None (s0 0) = Ret (- EISDIR, None) s' ∧ ∀ w, held s' w = held (s0 0) w.
Proof.
  split.
  - destruct (open_namev_resolves (name "/f") 2 None 1%positive (vnode_of 1 31) (s0 0))
      as (r & s' & E & _ & _ & v & y & -> & Hv & Hy & _);
      [apply inv0|by apply (bool_decide_unpack _)|done|done|done|done|]. by exists v, y, s'.
  - destruct (open_namev_resolves (name "/d/") 1 None 1%positive (vnode_of 1 31) (s0 0))
      as (r & s' & E & _ & _ & -> & Hh);
      [apply inv0|by apply (bool_decide_unpack _)|done|done|done|done|]. by exists s'.
Defined.

Lemma do_lseek_moves_witness :
  do_lseek 0 3 SEEK_CUR (s0 4) = Ret 7 (put_file 21 (file0 7) (s0 4)) ∧
  do_lseek 0 (-11) SEEK_END (s0 4) = Ret (- EINVAL) (s0 4).
Proof.
  split.
  - rewrite (do_lseek_moves (s0 4) 0 21%positive (file0 4) 3%positive (vnode_of 3 33) 3 SEEK_CUR 4);
      [|apply open0|done|done|by right; left|done].
    rewrite decide_True; [done|]. split; [|done]. by apply (bool_decide_unpack _).
  - rewrite (do_lseek_moves (s0 4) 0 21%positive (file0 4) 3%positive (vnode_of 3 33) (-11) SEEK_END 10);
      [|apply open0|done|done|by right; right; left|done].
    rewrite decide_False; [done|]. by intros [_ ?].
Defined.

Lemma do_read_advances_witness :
  do_read 0 4096 100 (s0 2) = Ret 6 (put_file 21 (file0 8) (put_file 21 (plus_ref (file0 2)) (s0 2))).
Proof.
  apply (do_read_advances (s0 2) (put_file 21 (plus_ref (file0 2)) (s0 2)) 0 21%positive (file0 2) 3%positive
    (vnode_of 3 33) (vnode_of 3 33) (fs_vops 2) fs_read 4096 100 6); first [exact (open0 2)|done].
Defined.

Lemma do_read_error_moves_back_witness :
  do_read 0 4096 100 (s0 9) = Ret (- EBADF) (put_file 21 (file0 0) (put_file 21 (plus_ref (file0 9)) (s0 9))).
Proof.
  apply (do_read_error_moves_back (s0 9) (put_file 21 (plus_ref (file0 9)) (s0 9)) 0 21%positive (file0 9)
    3%positive (vnode_of 3 33) (vnode_of 3 33) (fs_vops 2) fs_read 4096 100 9); first [exact (open0 9)|done].
Defined.

Lemma do_dup2_aliases_witness :
  ∃ s', do_dup2 0 1 (s0 0) = Ret 1 s' ∧
    procfs (v_fs s') !! 12%positive = Some (ProcFs [Some 21%positive; Some 21%positive; None; None] (Some 2%positive)).
Proof.
  destruct (do_dup2_aliases (s0 0) 0 1 21%positive (file0 0) 12%positive pf0 (Some 22%positive))
    as (s' & E & _ & _ & Hp); try done; [apply inv0|apply files_inv0|apply open0| |].
  - intros g y [= <-] [= <-] v [= <-]. done.
  - exists s'. by rewrite Hp.
Defined.

Lemma dup_close_roundtrip_witness :
  ∃ s1, do_dup 0 (s0 0) = Ret 2 s1 ∧ do_close 2 s1 = Ret 0 (s0 0).
Proof.
  destruct (dup_close_roundtrip (s0 0) 0 21%positive (file0 0) 2) as (s1 & E & _ & _ & E');
    [apply open0|done|done|by exists s1].
Defined.


Lemma do_open_rdonly_append_witness :
  do_open (name "g") (Z.lor O_RDONLY O_APPEND) (s0 0) = Ret (- EINVAL) (s0 0).
Proof.
  destruct (do_open_rdonly_append (name "g") 12%positive pf0 2 (s0 0)) as [E|E]; [done..|].
  vm_compute in E. discriminate.
Defined.

Lemma do_mkdir_balanced_witness :
  (∃ s', do_mkdir (name "/d/g") (s0 0) = Ret (- EEXIST) s') ∧
  ∃ r s', do_mkdir (name "h") (s0 0) = Ret r s' ∧ ∀ w, held s' w = held (s0 0) w.
Proof.
  split.
  - destruct (do_mkdir_balanced (name "/d/g") 1%positive (vnode_of 1 31) (s0 0)) as (r & s' & E & _ & _ & _ & ->);
      [apply inv0|by apply (bool_decide_unpack _)|done..|by exists s'].
  - destruct (do_mkdir_balanced (name "h") 2%positive (vnode_of 2 32) (s0 0)) as (r & s' & E & _ & _ & Hh & _);
      [apply inv0|by apply (bool_decide_unpack _)|done..|by exists r, s'].
Defined.

Lemma do_link_leaks_witness :
  ∃ s' v d, do_link (name "/f") (name "k") (s0 0) = Ret (- ENOTDIR) s' ∧
    ∀ w, held s' w = held (s0 0) w + one v w + one d w.
Proof.
  destruct (do_link_leaks (name "/f") (name "k") 1%positive (vnode_of 1 31) 2%positive (vnode_of 2 32) (s0 0)
    (1%positive, 3) (1%positive, 2) (name "k")) as (s' & v & d & _ & _ & E & _ & _ & _ & _ & _ & Hh);
    [apply inv0|by apply (bool_decide_unpack _)|by apply (bool_decide_unpack _)|by apply Nat.leb_le
    |by apply Nat.leb_le|done..| |].
  - intros _ _ _ [| |[|[| |]|]] _ _ _; done.
  - by exists s', v, d.
Defined.

Lemma do_chdir_moves_witness :
  ∃ s' v y, do_chdir (name "/") (s0 0) = Ret 0 s' ∧
    procfs (v_fs s') = {[12%positive := ProcFs (p_files pf0) (Some v)]} ∧
    vnodes (v_fs s') !! v = Some y ∧ inode y = (1%positive, 1).
Proof.
  destruct (do_chdir_moves (name "/") 1%positive (vnode_of 1 31) 12%positive pf0 2%positive (s0 0))
    as (r & s' & E & _ & _ & -> & v & y & Hp & Hv & Hy & _);
    [apply inv0|by apply (bool_decide_unpack _)|done..|exists s', v, y].
  by split_and!.
Defined.
End FsEx.
