(* ===== verification/VfsBoot.v ===== *)
(** * Booting with file systems (K2/kmain.c, vnode_init)

    The kmain.c of K2 repeats that of K1, in the larger state, and adds the
    file systems (it is configured with drivers and file systems, without
    virtual memory, S5FS, the reaper and shadowd): the idle process makes the
    root the working directory of the first two processes and creates the
    device files, and shuts the file systems down at the end; the kernel
    shell has more commands. *)

From S2P Require Import Prelude Kstate Sched Kmutex Machine Proc ProcTree ProcProps Boot System SystemOps BootProps.
From S2P Require Import Vmstate Pframe Vnode VnodeProps Namev NamevProps Vfs VfsProps PathProps CreateProps.
Local Open Scope Z_scope.

Definition path_of (s : string) : path := String.list_ascii_of_string s.

(** Outside the sources: constants of stat.h and dev.h, mounting of the root
    file system and unmounting of all, the kernel shell and the tests. *)
Class VfsBootEnv := {
  S_IFCHR : Z;
  MKDEVID : Z → Z → Z;
  vfs_init : V ();
  vfs_shutdown : V Z;
  vfstest_main_p : Z;
  faber_fs_thread_test : Z → V Z;
  faber_directory_test : Z → V Z;
  kshell_create : Z → V (option Z);
  kshell_execute_next : list (string * (Z → V Z)) → Z → nat → V Z;   (* the n-th line *)
  kshell_destroy : Z → V ();
}.

Section vfs_boot.
Context `{VmEnv} `{VfsEnv} `{Machine} `{Errno} `{Objects} `{NameEnv} `{FileTable} `{ProcEnv} `{BootEnv} `{VfsBootEnv}
  (fuel : nat).

(** ** The parts that are as in K1 *)

Definition kmain : V () := lift Boot.kmain.
Definition bootstrap : V () := lift Boot.bootstrap.
Definition hard_shutdown : V () := lift Boot.hard_shutdown.
Definition initproc_create : V tid := lift Boot.initproc_create.
Definition do_sunghan (kshell : Z) : V Z := lift (Boot.do_sunghan fuel kshell).
Definition do_sunghan_deadlock (kshell : Z) : V Z := lift (Boot.do_sunghan_deadlock fuel kshell).
Definition do_faber (kshell : Z) : V Z := lift (Boot.do_faber fuel kshell).

(** ** The idle process *)

Definition vnode_init : V () := modify (set_fs (set_inuse (λ _, []))).

(** The functions registered with [init_func], among them those of the file
    systems; mounting the root comes last. *)
Definition init_call_all : V () := lift Boot.init_call_all;; vnode_init;; vfs_init.

(** [p->p_cwd = vfs_root_vn; vref(vfs_root_vn);], for a process that may be
    new: [proc_create] does not look at [p_files] and [p_cwd]. *)
Definition start_at_root (p : pptr) : V () :=
  s ← get;
  root ← deref (vfs_root_vn (v_fs s)) "vfs_root_vn";
  modify (set_fs (set_procfs (λ P, <[p := ProcFs (default [] (p_files <$> P !! p)) (Some root)]> P)));;
  vref root.

(** The results of these calls are ignored. *)
Definition make_devices : V () :=
  _ ← do_mkdir (path_of "/dev");
  _ ← do_mknod (path_of "/dev/null") S_IFCHR (MKDEVID 1 0);
  _ ← do_mknod (path_of "/dev/zero") S_IFCHR (MKDEVID 1 1);
  _ ← do_mknod (path_of "/dev/tty0") S_IFCHR (MKDEVID 2 0);
  mret ().

(** The end of [idleproc_run], from the result of [do_waitpid]. *)
Definition shut_down (r : Z * option Z) : V () :=
  KASSERT (PID_INIT =? r.1) "PID_INIT == child";;
  pf ← cur_fs;
  cwd ← deref (p_cwd pf) "curproc->p_cwd";
  vput cwd;;
  err ← vfs_shutdown;
  (if negb (err =? 0) then panic "vfs shutdown FAILED!!" else mret ());;
  hard_shutdown.

Definition idleproc_run : V () :=
  initthr ← initproc_create;
  init_call_all;;
  cp ← lift cur_proc;
  start_at_root cp;;
  th ← lift (thread_at initthr);
  ip ← deref (kt_proc th) "initthr->kt_proc";
  start_at_root ip;;
  make_devices;;
  lift (hw intr_enable);;
  lift (sched_make_runnable initthr);;
  r ← lift (do_waitpid fuel (-1) 0);
  shut_down r.

(** ** The kernel shell *)

Definition do_vfs_test (kshell : Z) : V Z :=
  p ← lift (proc_create "vfstest");
  k ← lift (kthread_create p vfstest_main_p 1 0);
  lift (sched_make_runnable k);;
  x ← lift (proc_at p);
  _ ← lift (do_waitpid fuel (p_pid x) 0);
  mret 0.

Definition commands : list (string * (Z → V Z)) :=
  [("sunghan", do_sunghan); ("deadlock", do_sunghan_deadlock); ("faber", do_faber);
   ("vfstest", do_vfs_test); ("thrtest", faber_fs_thread_test); ("dirtest", faber_directory_test)].

(** [while (kshell_execute_next(kshell));], from the [i]-th line on. *)
Fixpoint shell_loop (n i : nat) (kshell : Z) : V () :=
  r ← kshell_execute_next commands kshell i;
  if r =? 0 then mret ()
  else match n with O => idle | S n' => shell_loop n' (S i) kshell end.

Definition initproc_run : V Z :=
  r ← kshell_create 0;
  kshell ← deref r "init: Couldn't create kernel shell";
  shell_loop fuel 0 kshell;;
  kshell_destroy kshell;;
  lift (reap_all fuel fuel);;
  mret 0.
End vfs_boot.
