(* ===== verification/VfsBootProps.v ===== *)
(** * The first steps of a system with file systems

    From the start of the idle process to the init process: the working
    directories, the device files, all references to vnodes, and the
    scheduler when the processor is handed over for the first time; and the
    end of the idle process. *)

From Stdlib Require Import FunctionalExtensionality.
From S2P Require Import Prelude Kstate Sched Kmutex Machine Proc ProcTree ProcProps Boot System SystemOps BootProps.
From S2P Require Import Vmstate Pframe Vnode VnodeProps Namev NamevProps Vfs VfsProps PathProps CreateProps VfsBoot.
Local Open Scope Z_scope.

(** ** Paths below /dev *)
Section dev.
Context {FV : FsView} {NE : NameEnv} {ER : Errno}.

Lemma resolve_dev D i j n p :
  p ≠ [] → components p = [path_of "dev"; n] → trailing p = false → (4 ≤ NAME_LEN)%nat → (length n ≤ 4)%nat →
  isdir D i = true → dirent D i (path_of "dev") = Some j → isdir D j = true → resolve_path D i p = inr (j, n).
Proof.
  intros Hp Hc Ht Hn Hl Hi Hd Hj. unfold resolve_path. destruct p; [done|]. rewrite Hc, Ht. cbn [resolve].
  replace (NAME_LEN <? length (path_of "dev"))%nat with false by (symmetry; apply Nat.ltb_ge; simpl; lia).
  replace (NAME_LEN <? length n)%nat with false by (symmetry; apply Nat.ltb_ge; lia).
  rewrite Hi, Hd. cbn [negb]. rewrite Hj. cbn [negb andb]. by destruct (dirent D j n).
Qed.

Lemma resolve_file_dev D i j n p k :
  p ≠ [] → components p = [path_of "dev"; n] → trailing p = false → (4 ≤ NAME_LEN)%nat → (length n ≤ 4)%nat →
  isdir D i = true → dirent D i (path_of "dev") = Some j → isdir D j = true → dirent D j n = Some k →
  resolve_file D i p = inr k.
Proof.
  intros ???????? Hk. unfold resolve_file. rewrite (resolve_dev D i j n p) by done. cbn iota.
  match goal with H : isdir D j = true |- _ => rewrite H end. cbn [negb]. by rewrite Hk.
Qed.

Lemma resolve_path_dev D i :
  (4 ≤ NAME_LEN)%nat → isdir D i = true → resolve_path D i (path_of "/dev") = inr (i, path_of "dev").
Proof.
  intros Hn Hi. unfold resolve_path. cbn [path_of String.list_ascii_of_string].
  change (components _) with [path_of "dev"]. change (trailing _) with false. cbn [resolve].
  replace (NAME_LEN <? length (path_of "dev"))%nat with false by (symmetry; apply Nat.ltb_ge; simpl; lia).
  rewrite Hi. cbn [negb andb]. by destruct (dirent D i _).
Qed.
End dev.

(** ** The first switch *)
Section first_switch.
Context {MA : Machine} {ER : Errno} {PE : ProcEnv} {BE : BootEnv}.
Context (ip jp : pptr) (it jt : tid) (pd stk pd' stk' nxt : Z) (k : kst).
Context (Hij : ip ≠ jp) (Hijt : it ≠ jt) (Hnxt : 0 <= nxt < PROC_MAX_COUNT).
Context (Hk : same_procs (init_st ip jp it jt pd stk pd' stk' nxt) k).

Definition idle_thread : kthread := first_thread idleproc_run_p ip stk pd.
Definition init_thread : kthread := first_thread initproc_run_p jp stk' pd'.

(** The init process runs, the idle process waits for it. *)
Definition handed_over : kst :=
  switch_to jt (woken init_thread)
    (move it (slept (p_wait ip) KT_SLEEP idle_thread) (move jt (woken init_thread) k)).

Lemma quiet_first : sched_wf k.
Proof.
  apply quiet_sched; [intros q|].
  - destruct (sp_queues _ _ Hk q) as [->|[-> _]]; [apply init_st_queue|done].
  - rewrite (sp_threads _ _ Hk). apply init_st_thread.
Qed.

Lemma init_thread_at : threads k !! jt = Some init_thread.
Proof. rewrite (sp_threads _ _ Hk). apply lookup_insert_eq. Qed.

Lemma idle_thread_at : threads k !! it = Some idle_thread.
Proof. rewrite (sp_threads _ _ Hk). simpl. by rewrite lookup_insert_ne, lookup_singleton_eq. Qed.

Lemma init_runnable : sched_make_runnable jt k = Ret () (move jt (woken init_thread) k).
Proof. apply sched_make_runnable_spec; [apply quiet_first|apply init_thread_at|done]. Qed.

Lemma idle_waits fuel : ∃ c, do_waitpid (S fuel) (-1) 0 (move jt (woken init_thread) k) = Yield handed_over c.
Proof.
  set (k1 := move jt (woken init_thread) k).
  assert (sched_wf k1) as Hwf by (apply sched_wf_move; [apply quiet_first|done]).
  assert (procs k1 = procs (first_st ip jp it jt pd stk pd' stk' nxt)) as Hp by exact (sp_procs _ _ Hk).
  assert (procs k1 !! ip = Some (ix jp it pd)) as Hix by (rewrite Hp; by apply first_ip).
  assert (curproc k1 = Some ip) as Hc by exact (sp_curproc _ _ Hk).
  assert (threads k1 !! it = Some idle_thread) as Hit.
  { unfold k1. rewrite threads_move, lookup_insert_ne by done. apply idle_thread_at. }
  unfold do_waitpid, cur_proc, proc_at. msimpl. rewrite Hc. cbn [obind]. rewrite Hix. cbn [obind ix p_children].
  rewrite bool_decide_eq_false_2 by done. change (-1 =? -1) with true. cbn iota.
  rewrite (waitpid_any_sleeps fuel ip (ix jp it pd) it idle_thread k1); try done.
  - set (k2 := move it _ k1).
    assert (sched_wf k2) as Hwf2 by (apply sched_wf_move; [done|by left]).
    assert (qlist k2 kt_runq = [jt]) as Hq.
    { unfold k2, k1. rewrite !qlist_move. rewrite decide_False, decide_True by done. cbn [app].
      assert (qlist k kt_runq = []) as ->; [|by rewrite filter_nil, filter_cons_True by congruence].
      unfold qlist. destruct (sp_queues _ _ Hk kt_runq) as [->|[-> _]]; [by rewrite init_st_queue|done]. }
    assert (threads k2 !! jt = Some (woken init_thread)) as Hjt.
    { unfold k2, k1. by rewrite threads_move, lookup_insert_ne, threads_move, lookup_insert_eq by done. }
    rewrite (sched_switch_spec 0 jt (woken init_thread) k2 it); [cbn [obind]; by eexists|lia|intros; lia|..].
    + by split; apply Hwf2.
    + exact (sp_curthr _ _ Hk).
    + change (last (qlist k2 kt_runq) = Some jt). by rewrite Hq.
    + done.
  - rewrite Hp. by apply (first_tree (λ _, 0%nat)).
  - simpl. rewrite filter_cons_False; [done|]. unfold is_dead. rewrite Hp, first_jp by done. done.
  - exact (sp_curthr _ _ Hk).
Qed.
End first_switch.

Section vfs_boot_proofs.
Context {VE : VmEnv} {FE : VfsEnv} {MA : Machine} {ER : Errno} {OB : Objects} {NE : NameEnv}
  {FT : FileTable} {PE : ProcEnv} {BE : BootEnv} {VB : VfsBootEnv}
  {FV : FsView} {FI : FsInodes} {FL : FsLookup} {FC : FsCreate}.

(** Vnode [root] of directory [i] is the root. *)
Record rooted (s : vst) (root : vnptr) (i : ino) : Prop := {
  rt_inv : vinv s;
  rt_root : vfs_root_vn (v_fs s) = Some root;
  rt_vnode : ∃ x, vnodes (v_fs s) !! root = Some x ∧ inode x = i;
  rt_linked : linked (data s) i = true;
  rt_dir : isdir (data s) i = true;
  rt_held : 1 <= held s root;
}.

(** The working directory of [p] is [root]. *)
Definition starts_at (root : vnptr) (p : pptr) (s : vst) : Prop := (procfs (v_fs s) !! p ≫= p_cwd) = Some root.

Lemma start_at_root_spec s root i p :
  rooted s root i →
  ∃ s', start_at_root p s = Ret () s' ∧ rooted s' root i ∧ same_procs (v_k s) (v_k s') ∧
    same_view (data s) (data s') ∧ (∀ w, held s' w = held s w + one root w) ∧
    starts_at root p s' ∧ ∀ q, starts_at root q s → starts_at root q s'.
Proof.
  intros [Hi Hr (x & Hx & <-) Hl Hd Hh].
  set (P := <[p := ProcFs (default [] (p_files <$> procfs (v_fs s) !! p)) (Some root)]> (procfs (v_fs s))).
  set (s1 := tables (files (v_fs s)) P s).
  destruct (vref_spec s1 root x) as (s2 & E2 & Hi2 & Hf2 & Hv2 & _ & Hh2); [by apply tables_vinv|done|].
  assert (procfs (v_fs s2) = P) as HP by (rewrite (vf_procfs _ _ Hf2); done).
  exists s2. split_and!.
  - unfold start_at_root. erewrite bind_step by reflexivity. rewrite Hr. erewrite bind_step by reflexivity.
    erewrite bind_step by reflexivity. exact E2.
  - destruct (vf_view _ _ Hf2 (inode x) Hl) as (L & K & _).
    split; [done|by rewrite (vf_root _ _ Hf2)|exists x; by rewrite Hv2|by rewrite L|by rewrite K|].
    rewrite Hh2, one_same. change (held s1 root) with (held s root). lia.
  - exact (vf_procs _ _ Hf2).
  - exact (vf_view _ _ Hf2).
  - exact Hh2.
  - unfold starts_at. rewrite HP. unfold P. by rewrite lookup_insert_eq.
  - intros q. unfold starts_at. rewrite HP. unfold P. rewrite lookup_insert. by case_decide.
Qed.

(** A call that makes a file leaves the root where it is. *)
Lemma made_rooted b s p x r s' root :
  rooted s root (inode x) → made b s p x r s' → rooted s' root (inode x).
Proof.
  intros [Hi Hr (y & Hy & E) Hl Hd Hh] Hm. destruct (made_grows _ _ _ _ _ _ Hl Hm (inode x) Hl) as (L & K & _).
  destruct (md_keeps _ _ _ _ _ _ Hm root y Hy Hh) as (y' & Hy' & E').
  split; [by eapply md_inv|by rewrite (of_root _ _ (md_frame _ _ _ _ _ _ Hm))|exists y'; split; congruence|done|congruence|].
  by rewrite (md_held _ _ _ _ _ _ Hm).
Qed.

(** ** The device files *)

(** Entry [n] of /dev is a file that is not a directory. *)
Definition device (D : fsdata) (j : ino) (n : path) (k : ino) : Prop :=
  dirent D j n = Some k ∧ linked D k = true ∧ isdir D k = false.

Lemma device_grows D D' j n k : linked D j = true → grows D D' → device D j n k → device D' j n k.
Proof. intros Hj Hg (E & L & K). destruct (Hg j Hj) as (_ & _ & Ej), (Hg k L) as (Lk & Kk & _). split_and!; auto. congruence. Qed.

Section devices.
Context (Hroomy : roomy) (Hname : (4 ≤ NAME_LEN)%nat) (Hchr : S_ISCHR S_IFCHR = true).

Lemma mkdir_dev s root i :
  rooted s root i → dirent (data s) i (path_of "dev") = None →
  ∃ s' j, do_mkdir (path_of "/dev") s = Ret 0 s' ∧ rooted s' root i ∧ oframe s s' ∧
    (∀ w, held s' w = held s w) ∧ created true (data s) (data s') i (path_of "dev") j.
Proof.
  intros Hrt Hn. pose proof Hrt as [Hi Hr (x & Hx & <-) Hl Hd Hh].
  destruct (do_mkdir_made (path_of "/dev") root x s) as (r & s' & E & Hm);
    [done|by apply (bool_decide_unpack _)|done..|].
  pose proof (md_result _ _ _ _ _ _ Hm) as Hres. rewrite resolve_path_dev in Hres by done.
  unfold make_result in Hres. rewrite Hd, Hn in Hres.
  destruct Hres as [(-> & j & Hc)|(_ & _ & Hno & _)]; [|done].
  exists s', j. split_and!; [done|exact (made_rooted _ _ _ _ _ _ _ Hrt Hm)|apply Hm|apply Hm|done].
Qed.

(** Directory [j] is /dev. *)
Record dev_ready (s : vst) (root : vnptr) (i j : ino) : Prop := {
  dr_rooted : rooted s root i;
  dr_linked : linked (data s) j = true;
  dr_entry : dirent (data s) i (path_of "dev") = Some j;
  dr_dir : isdir (data s) j = true;
}.

(** The entry made is a new device; those made before, and the names still
    free, stay. *)
Lemma mknod_dev s root i j n p devid :
  dev_ready s root i j → dirent (data s) j n = None →
  p ≠ [] → components p = [path_of "dev"; n] → trailing p = false → char_at p 0 = slash → nul ∉ p → (length n ≤ 4)%nat →
  ∃ s' k, do_mknod p S_IFCHR devid s = Ret 0 s' ∧ dev_ready s' root i j ∧ oframe s s' ∧
    (∀ w, held s' w = held s w) ∧ device (data s') j n k ∧
    (∀ m k', device (data s) j m k' → device (data s') j m k' ∧ k ≠ k') ∧
    ∀ m, m ≠ n → dirent (data s') j m = dirent (data s) j m.
Proof.
  intros [Hrt Hlj Hdev Hj] Hn Hp Hc Ht Hs Hnul Hlen. pose proof Hrt as [Hi Hr (x & Hx & <-) Hl Hd Hh].
  pose proof (do_mknod_made p S_IFCHR devid root x s Hi Hnul) as Hmk. rewrite Hchr in Hmk. cbn [orb] in Hmk.
  destruct Hmk as (r & s' & E & Hm); [|done..|].
  { unfold start_vnode. by rewrite bool_decide_eq_true_2. }
  pose proof (md_result _ _ _ _ _ _ Hm) as Hres. rewrite (resolve_dev _ _ j n) in Hres by done.
  unfold make_result in Hres. rewrite Hj, Hn in Hres.
  destruct Hres as [(-> & k & Hcr)|(_ & _ & Hno & _)]; [|done].
  pose proof (created_grows _ _ _ _ _ _ Hn Hcr) as Hg. destruct Hcr as [N L K _ En Kp].
  destruct (Kp j Hlj) as (Lj & Kj & Ej). destruct (Hg (inode x) Hl) as (_ & _ & Ei).
  exists s', k. split_and!; [done| |apply Hm|apply Hm|done|..].
  - split; [exact (made_rooted _ _ _ _ _ _ _ Hrt Hm)|done|auto|congruence].
  - intros m k' Hk'. split; [exact (device_grows _ _ _ _ _ Hlj Hg Hk')|]. destruct Hk' as (_ & ? & _). congruence.
  - intros m Hm'. apply Ej. congruence.
Qed.

(** The three devices, as different files. *)
Definition devices_in (D : fsdata) (i : ino) : Prop :=
  ∃ j k1 k2 k3, NoDup [k1; k2; k3] ∧ Forall2 (λ p k, resolve_file D i (path_of p) = inr k ∧ isdir D k = false)
      ["/dev/null"; "/dev/zero"; "/dev/tty0"] [k1; k2; k3] ∧
    resolve_file D i (path_of "/dev") = inr j ∧ isdir D j = true.

Lemma device_resolves D root i j n p k s :
  dev_ready s root i j → D = data s → device D j n k →
  p ≠ [] → components p = [path_of "dev"; n] → trailing p = false → (length n ≤ 4)%nat →
  resolve_file D i p = inr k ∧ isdir D k = false.
Proof. intros [[] ? ? ?] -> (E & _ & K) ????. split; [by eapply resolve_file_dev|done]. Qed.

Lemma make_devices_spec s root i :
  rooted s root i → dirent (data s) i (path_of "dev") = None →
  ∃ s', make_devices s = Ret () s' ∧ rooted s' root i ∧ oframe s s' ∧ (∀ w, held s' w = held s w) ∧ devices_in (data s') i.
Proof.
  intros R0 N0. destruct (mkdir_dev s root i R0 N0) as (s1 & j & E1 & R1 & O1 & H1 & [_ Lj Kj Em Ej _]).
  assert (dev_ready s1 root i j) as V1 by done.
  destruct (mknod_dev s1 root i j (path_of "null") (path_of "/dev/null") (MKDEVID 1 0))
    as (s2 & k1 & E2 & V2 & O2 & H2 & D1 & _ & M2); try done; [by apply Em|by apply (bool_decide_unpack _)|].
  destruct (mknod_dev s2 root i j (path_of "zero") (path_of "/dev/zero") (MKDEVID 1 1))
    as (s3 & k2 & E3 & V3 & O3 & H3 & D2 & P3 & M3); try done; [rewrite M2 by done; by apply Em|by apply (bool_decide_unpack _)|].
  destruct (mknod_dev s3 root i j (path_of "tty0") (path_of "/dev/tty0") (MKDEVID 2 0))
    as (s4 & k3 & E4 & V4 & O4 & H4 & D3 & P4 & _); try done; [rewrite M3, M2 by done; by apply Em|by apply (bool_decide_unpack _)|].
  destruct (P3 _ _ D1) as [D1' Hk12]. destruct (P4 _ _ D1') as [D1'' Hk13], (P4 _ _ D2) as [D2' Hk23].
  exists s4. unfold make_devices. rewrite (bind_step _ _ _ _ _ E1), (bind_step _ _ _ _ _ E2), (bind_step _ _ _ _ _ E3),
    (bind_step _ _ _ _ _ E4). split_and!; [done|apply V4| |intros w; by rewrite H4, H3, H2, H1|].
  { eapply oframe_trans; [done|]. eapply oframe_trans; [done|]. by eapply oframe_trans. }
  pose proof V4 as [[_ _ _ _ Hd _] _ Hj Hk]. exists j, k1, k2, k3. split_and!; [|repeat apply Forall2_cons_2|..].
  - rewrite !NoDup_cons. split_and!; [set_solver..|by apply NoDup_nil].
  - by apply (device_resolves _ root i j (path_of "null") _ _ s4).
  - by apply (device_resolves _ root i j (path_of "zero") _ _ s4).
  - by apply (device_resolves _ root i j (path_of "tty0") _ _ s4).
  - apply Forall2_nil_2.
  - unfold resolve_file. rewrite resolve_path_dev by done. by rewrite Hd, Hj.
  - done.
Qed.
End devices.

(** ** Up to the first switch *)

(** Besides what K1 relies on: there is space for files, and mounting the root
    gives a file system without /dev, with the reference of the mount. *)
Record vfs_boot_ok : Prop := {
  vb_boot : boot_ok;
  vb_chr : S_ISCHR S_IFCHR = true;
  vb_name : (4 ≤ NAME_LEN)%nat;
  vb_room : roomy;
  vb_mount : ∀ s, vnodes (v_fs s) = ∅ → vnode_inuse_list (v_fs s) = [] →
    ∃ s' root i, vfs_init s = Ret () s' ∧ rooted s' root i ∧ same_procs (v_k s) (v_k s') ∧
      dirent (data s') i (path_of "dev") = None ∧ ∀ w, held s' w = one root w;
}.

Lemma vinv_set_k k s :
  vinv s → (∀ v x, vnodes (v_fs s) !! v = Some x → qlist k (vn_waitq v) = []) → vinv (set_k (λ _, k) s).
Proof.
  intros Hi Hq. split; [|apply Hi..]. intros v x Hx. destruct (vi_ok _ Hi v x Hx) as [Ho ????]. split; try done.
  by apply (Hq v x).
Qed.

(** The init process [jp] runs its first thread [jt], the idle process [ip]
    waits for it. *)
Record init_runs (k : kst) (ip jp : pptr) (it jt : tid) : Prop := {
  ir_sched : sched_wf k;
  ir_cur : curproc k = Some jp ∧ curthr k = Some jt;
  ir_init : ∃ x, procs k !! jp = Some x ∧ p_pid x = PID_INIT ∧ p_pproc x = Some ip ∧ p_threads x = [jt];
  ir_thread : ∃ th, threads k !! jt = Some th ∧ c_func (kt_ctx th) = initproc_run_p ∧ kt_wchan th = None;
  ir_idle : ∃ th, threads k !! it = Some th ∧ kt_wchan th = Some (p_wait ip) ∧ kt_state th = KT_SLEEP;
}.

Lemma handed_over_runs ip jp it jt pd stk pd' stk' nxt k :
  ip ≠ jp → it ≠ jt → 0 <= nxt < PROC_MAX_COUNT → same_procs (init_st ip jp it jt pd stk pd' stk' nxt) k →
  init_runs (handed_over ip jp it jt pd stk pd' stk' k) ip jp it jt.
Proof.
  intros Hij Hijt Hn Hk. set (t1 := woken (init_thread jp pd' stk')). set (t2 := slept (p_wait ip) KT_SLEEP (idle_thread ip pd stk)).
  assert (sched_wf (move it t2 (move jt t1 k))) as Hwf.
  { apply sched_wf_move; [apply sched_wf_move; [by eapply quiet_first|done]|by left]. }
  split; [|done|..].
  - eapply (sched_wf_ext (move jt (with_wchan None t1) (move it t2 (move jt t1 k)))); [done..|]. by apply sched_wf_move.
  - exists (jx ip jt pd'). split; [|done]. change (procs k !! jp = Some (jx ip jt pd')).
    rewrite (sp_procs _ _ Hk). by apply (first_jp ip jp it jt pd stk pd' stk' nxt).
  - exists (with_wchan None t1). split; [|done]. apply lookup_insert_eq.
  - exists t2. split; [|done]. unfold handed_over, switch_to. simpl.
    by rewrite lookup_insert_ne, lookup_insert_eq by done.
Qed.

Lemma handed_over_vinv ip jp it jt pd stk pd' stk' s :
  vinv s → vinv (set_k (λ _, handed_over ip jp it jt pd stk pd' stk' (v_k s)) s).
Proof.
  intros Hi. apply vinv_set_k; [done|]. intros v x Hx. unfold handed_over, switch_to.
  change (qlist (set_curproc _ (set_curthr _ ?k)) ?q) with (qlist k q).
  rewrite qlist_move, decide_False by done. cbn [app]. change (qlist (set_ipl _ ?k) ?q) with (qlist k q).
  rewrite !qlist_move, !decide_False by done. cbn [app].
  assert (qlist (v_k s) (vn_waitq v) = []) as -> by apply (ok_waitq _ _ _ (vi_ok _ Hi v x Hx)). done.
Qed.

(** The idle process, up to the point where interrupts are enabled: the
    processes are as in K1, the rest is the file systems'. *)
Definition prepare : V tid :=
  initthr ← initproc_create;
  init_call_all;;
  cp ← lift cur_proc;
  start_at_root cp;;
  th ← lift (thread_at initthr);
  ip ← deref (kt_proc th) "initthr->kt_proc";
  start_at_root ip;;
  make_devices;;
  mret initthr.

Lemma idleproc_run_prepare fuel : idleproc_run fuel =
  initthr ← prepare; lift (hw intr_enable);; lift (sched_make_runnable initthr);;
  r ← lift (do_waitpid fuel (-1) 0); shut_down r.
Proof.
  unfold prepare, idleproc_run. repeat (rewrite bind_assoc; f_equal; apply functional_extensionality; intros ?). 
Qed.

Lemma prepare_spec s ip it pd stk :
  vfs_boot_ok → v_k s = idle_st ip it pd stk → vnodes (v_fs s) = ∅ →
  ∃ jp jt pd' stk' nxt s' root i, ip ≠ jp ∧ it ≠ jt ∧ 0 <= nxt < PROC_MAX_COUNT ∧ prepare s = Ret jt s' ∧
    same_procs (init_st ip jp it jt pd stk pd' stk' nxt) (v_k s') ∧ rooted s' root i ∧
    starts_at root ip s' ∧ starts_at root jp s' ∧ (∀ w, held s' w = 3 * one root w) ∧ devices_in (data s') i.
Proof.
  intros [Hbo Hchr Hname Hroom Hmount] Hk Hv.
  destruct (initproc_create_eval Hbo ip it pd stk) as (jp & jt & pd' & stk' & nxt & Hij & Hijt & Hn & E).
  rewrite bind_unfold in E. apply obind_Ret_inv in E as (t & k1 & E1 & E). rewrite bind_unfold in E.
  apply obind_Ret_inv in E as ([] & k2 & E2 & [= -> ->]).
  exists jp, jt, pd', stk', nxt. set (k := init_st ip jp it jt pd stk pd' stk' nxt) in *.
  set (s1 := set_k (λ _, k1) s). set (s2 := set_fs (set_inuse (λ _, [])) (set_k (λ _, k) s1)).
  destruct (Hmount s2) as (s3 & root & i & E3 & R3 & P3 & N3 & H3); [done..|].
  destruct (start_at_root_spec s3 root i ip R3) as (s4 & E4 & R4 & P4 & V4 & H4 & C4 & _).
  destruct (start_at_root_spec s4 root i jp R4) as (s5 & E5 & R5 & P5 & V5 & H5 & C5 & C5').
  destruct (make_devices_spec Hroom Hname Hchr s5 root i R5) as (s6 & E6 & R6 & O6 & H6 & D6).
  { destruct (V4 i (rt_linked _ _ _ R3)) as (L & _ & Ev). destruct (V5 i) as (_ & _ & ->); [|by rewrite Ev].
    rewrite L. apply R3. }
  exists s6, root, i. split_and!; try done; try lia.
  - assert (initproc_create s = Ret jt s1) as Ec by (apply lift_Ret; rewrite Hk; exact E1).
    assert (init_call_all s1 = Ret () s3) as Ei.
    { unfold init_call_all. rewrite (bind_step _ _ _ _ _ (lift_Ret _ _ _ s1 E2)). erewrite bind_step by reflexivity. exact E3. }
    assert (same_procs k (v_k s4)) as P34 by (etrans; [exact P3|exact P4]).
    assert (lift (thread_at jt) s4 = Ret (init_thread jp pd' stk') s4) as Et.
    { apply lift_read. unfold thread_at. by erewrite init_thread_at by exact P34. }
    unfold prepare. rewrite (bind_step _ _ _ _ _ Ec), (bind_step _ _ _ _ _ Ei).
    rewrite (bind_step _ _ _ _ _ (lift_cur_proc s3 ip (sp_curproc _ _ P3))), (bind_step _ _ _ _ _ E4), (bind_step _ _ _ _ _ Et).
    erewrite bind_step by reflexivity. by rewrite (bind_step _ _ _ _ _ E5), (bind_step _ _ _ _ _ E6).
  - etrans; [exact P3|]. etrans; [done|]. etrans; [done|apply O6].
  - unfold starts_at. rewrite (of_procfs _ _ O6). by apply C5'.
  - unfold starts_at. by rewrite (of_procfs _ _ O6).
  - intros w. rewrite H6, H5, H4, H3. lia.
Qed.

(** The end of the idle process: it gives up its working directory, and the
    machine halts if the file systems can be shut down. *)
Lemma shut_down_spec cp pf root st s :
  boot_ok → vinv s → cur_is s cp pf → p_cwd pf = Some root → 1 <= held s root →
  ∃ s1, vinv s1 ∧ oframe s s1 ∧ (∀ w, held s1 w = held s w - one root w) ∧
    ∀ err s2, vfs_shutdown s1 = Ret err s2 →
      shut_down (PID_INIT, st) s = if err =? 0 then Ret () s2 else Panic "vfs shutdown FAILED!!".
Proof.
  intros Hbo Hi Hc Hd Hh. destruct (put_step (λ w, held s w - one root w) root s) as (s1 & E & Hi1 & Hh1 & Hf1).
  - done.
  - ledger.
  - intros w. pose proof (held_nonneg s w Hi). unfold one. case_decide; [subst w|]; lia.
  - exists s1. split_and!; [done|by eapply hframe_oframe|done|]. intros err s2 Ev.
    unfold shut_down. rewrite bind_assert by (apply Z.eqb_refl). rewrite (bind_step _ _ _ _ _ (cur_fs_eq _ _ _ Hc)), Hd.
    erewrite bind_step by reflexivity. rewrite (bind_step _ _ _ _ _ E), (bind_step _ _ _ _ _ Ev).
    destruct (err =? 0); [|done]. erewrite bind_step by reflexivity.
    apply lift_read. unfold Boot.hard_shutdown.
    rewrite (bind_step _ _ _ _ _ (bo_hw Hbo _ _)). apply (bo_hw Hbo).
Qed.

End vfs_boot_proofs.
