(* ===== verification/RamFs.v ===== *)
(** * A file system in which directories and devices can be made

    A small file system that keeps its inodes in a table and never runs out
    of them.  It meets the hypotheses on file systems of CreateProps,
    RemoveProps and VfsBootProps, whose theorems are applied to it. *)

From S2P Require Import Prelude Kstate Sched Kmutex Machine Proc ProcTree ProcProps Boot System SystemOps BootProps.
From S2P Require Import Vmstate Pframe Mmobj VmmapProps Vnode VnodeProps Namev NamevProps Vfs VfsProps PathProps.
From S2P Require Import FsExample CreateProps RemoveProps VfsBoot VfsBootProps.
Local Open Scope Z_scope.

Module RamFs.
#[local] Existing Instance VmmapEx.env.
#[local] Existing Instance VmmapEx.quiet.
#[local] Existing Instance some_errno.
#[local] Existing Instance FsEx.names.

(** ** The disk

    Word 0 is the number of inodes; inode [k] has its kind at 2k (2 is a
    directory, 3 a device, 5 what was a directory) and the place of its entry
    at 2k + 1; the entries of directories are at negative addresses, each in
    the place its directory and name give. *)
Definition size (d : Z → Z) : Z := Z.max 0 (d 0).
Definition kind (d : Z → Z) (k : Z) : Z := d (2 * k).
Definition back (d : Z → Z) (k : Z) : Z := d (2 * k + 1).
Definition place (i : Z) (n : path) : Z := Z.neg (encode (i, String.string_of_list_ascii n)).

Lemma place_inj i m j n : place i m = place j n → i = j ∧ m = n.
Proof.
  intros [= E]. apply (inj encode) in E. injection E as -> E. split; [done|].
  by rewrite <- (String.list_ascii_of_string_of_list_ascii m), E, String.list_ascii_of_string_of_list_ascii.
Qed.

(** The directory a place belongs to. *)
Definition dir_of (a : Z) : option Z :=
  match a with Z.neg p => fst <$> (decode p : option (Z * string)) | _ => None end.

Lemma dir_of_place i n : dir_of (place i n) = Some i.
Proof. unfold dir_of, place. by rewrite decode_encode. Qed.

Lemma place_neg i n : place i n < 0.
Proof. done. Qed.

Definition alive (d : Z → Z) (k : Z) : bool := (1 <=? k) && (k <=? size d) && ((kind d k =? 2) || (kind d k =? 3)).
Definition is_dir (d : Z → Z) (k : Z) : bool := (1 <=? k) && ((kind d k =? 2) || (kind d k =? 5)).
Definition entry (d : Z → Z) (i : Z) (n : path) : option Z :=
  let k := d (place i n) in if alive d k && (back d k =? place i n) && negb (k =? i) then Some k else None.

(** Not an inode any more. *)
Definition dead (x : Z) : Z := if x =? 2 then 5 else if x =? 3 then 0 else x.

Lemma dead_is_dir x : ((dead x =? 2) || (dead x =? 5)) = ((x =? 2) || (x =? 5)).
Proof. unfold dead. destruct (Z.eqb_spec x 2); [by subst|]. destruct (Z.eqb_spec x 3); [by subst|]. lia. Qed.

Lemma dead_not x : (dead x =? 2) || (dead x =? 3) = false.
Proof. unfold dead. destruct (Z.eqb_spec x 2); [by subst|]. destruct (Z.eqb_spec x 3); [by subst|]. lia. Qed.

(** A new inode [k] beyond the table, entry [n] of [i]. *)
Definition add (d : Z → Z) (k i : Z) (n : path) (kd : Z) : Z → Z := λ a,
  if a =? 0 then k
  else if a =? 2 * k then kd
  else if a =? 2 * k + 1 then place i n
  else if a =? place i n then k
  else if bool_decide (dir_of a = Some k) then 0
  else if Z.even a && (2 * size d <? a) && (a <? 2 * k) then dead (d a)
  else d a.

(** Inode [k] is removed. *)
Definition remove (d : Z → Z) (k : Z) : Z → Z := λ a, if a =? 2 * k then dead (d a) else d a.

Section add.
Context (d : Z → Z) (k i : Z) (n : path) (kd : Z) (Hk : size d < k) (Hkd : kd = 2 ∨ kd = 3) (Hi : i ≠ k).

Lemma add_size : size (add d k i n kd) = k.
Proof. unfold size, add in *. rewrite Z.eqb_refl. lia. Qed.

Lemma add_kind j : 1 <= j →
  kind (add d k i n kd) j = if j =? k then kd else if (size d <? j) && (j <? k) then dead (kind d j) else kind d j.
Proof.
  intros Hj. unfold kind, add. pose proof (place_neg i n). unfold size in *.
  rewrite (proj2 (Z.eqb_neq (2 * j) 0)) by lia. destruct (Z.eqb_spec j k) as [->|Hne].
  { by rewrite (proj2 (Z.eqb_eq (2 * k) (2 * k))) by lia. }
  rewrite (proj2 (Z.eqb_neq (2 * j) (2 * k))), (proj2 (Z.eqb_neq (2 * j) (2 * k + 1))),
    (proj2 (Z.eqb_neq (2 * j) (place i n))) by lia.
  rewrite bool_decide_eq_false_2 by (destruct j; [lia|done|lia]). rewrite Z.even_mul. cbn [orb Z.even andb].
  destruct (Z.ltb_spec (Z.max 0 (d 0)) j), (Z.ltb_spec j k);
    destruct (Z.ltb_spec (2 * Z.max 0 (d 0)) (2 * j)), (Z.ltb_spec (2 * j) (2 * k)); try lia; done.
Qed.

Lemma add_back j : 1 <= j → back (add d k i n kd) j = if j =? k then place i n else back d j.
Proof.
  intros Hj. unfold back, add. pose proof (place_neg i n). unfold size in *.
  rewrite (proj2 (Z.eqb_neq (2 * j + 1) 0)), (proj2 (Z.eqb_neq (2 * j + 1) (2 * k))) by lia.
  destruct (Z.eqb_spec j k) as [->|Hne].
  { by rewrite (proj2 (Z.eqb_eq (2 * k + 1) (2 * k + 1))) by lia. }
  rewrite (proj2 (Z.eqb_neq (2 * j + 1) (2 * k + 1))), (proj2 (Z.eqb_neq (2 * j + 1) (place i n))) by lia.
  rewrite bool_decide_eq_false_2 by (destruct j; [lia|done|lia]).
  rewrite Z.add_comm, Z.even_add_mul_2. done.
Qed.

Lemma add_place j m : add d k i n kd (place j m) =
  if decide (j = i ∧ m = n) then k else if decide (j = k) then 0 else d (place j m).
Proof.
  unfold add. pose proof (place_neg j m). unfold size in *.
  rewrite (proj2 (Z.eqb_neq (place j m) 0)), (proj2 (Z.eqb_neq (place j m) (2 * k))),
    (proj2 (Z.eqb_neq (place j m) (2 * k + 1))) by lia.
  destruct (Z.eqb_spec (place j m) (place i n)) as [E|Hne].
  { apply place_inj in E. by rewrite decide_True. }
  rewrite decide_False by (by intros [-> ->]). rewrite dir_of_place.
  case_decide as Hj; [by rewrite bool_decide_eq_true_2 by congruence|]. rewrite bool_decide_eq_false_2 by congruence.
  replace (2 * Z.max 0 (d 0) <? place j m) with false by lia. by rewrite andb_false_r.
Qed.

Lemma add_alive j : alive (add d k i n kd) j = alive d j || (j =? k).
Proof.
  unfold alive. rewrite add_size. destruct (Z.leb_spec 1 j) as [H1|H1]; [|unfold size in *; simpl; lia].
  rewrite add_kind by done. destruct (Z.eqb_spec j k) as [->|Hj].
  - destruct Hkd as [-> | ->]; simpl; lia.
  - rewrite orb_false_r. destruct (Z.ltb_spec (size d) j), (Z.ltb_spec j k); cbn [andb]; try lia.
    rewrite dead_not. lia.
Qed.

Lemma add_is_dir j : is_dir (add d k i n kd) j = if j =? k then kd =? 2 else is_dir d j.
Proof.
  unfold is_dir. destruct (Z.leb_spec 1 j); [|unfold size in *; destruct (Z.eqb_spec j k); [lia|done]].
  cbn [andb]. rewrite add_kind by done. destruct (Z.eqb_spec j k) as [->|Hne].
  - destruct Hkd as [-> | ->]; done.
  - destruct (_ && _); [apply dead_is_dir|done].
Qed.

Lemma add_entry j m : entry (add d k i n kd) j m =
  if decide (j = i ∧ m = n) then Some k else if decide (j = k) then None else entry d j m.
Proof.
  unfold entry. cbn zeta. rewrite add_place. pose proof add_size as Hs. unfold size in *.
  case_decide as Hjm; [|case_decide as Hj].
  - destruct Hjm as [-> ->]. rewrite add_alive, Z.eqb_refl, orb_true_r, add_back by lia.
    by rewrite Z.eqb_refl, Z.eqb_refl, (proj2 (Z.eqb_neq k i)) by done.
  - unfold alive. done.
  - rewrite add_alive. set (j' := d (place j m)). destruct (Z.eqb_spec j' k) as [Hk'|Hne].
    + rewrite Hk', add_back, Z.eqb_refl by lia. rewrite orb_true_r. cbn [andb].
      rewrite (proj2 (Z.eqb_neq _ _)) by (intros E; by apply place_inj in E as [-> ->]; destruct Hjm).
      unfold alive, size. replace (k <=? Z.max 0 (d 0)) with false by lia. by rewrite !andb_false_r.
    + rewrite orb_false_r. destruct (alive d j') eqn:Ha; [|done]. unfold alive in Ha.
      by rewrite add_back, (proj2 (Z.eqb_neq j' k)) by lia.
Qed.
End add.

Section remove.
Context (d : Z → Z) (k : Z) (Hk : 1 <= k).

Lemma remove_kind j : kind (remove d k) j = if j =? k then dead (kind d j) else kind d j.
Proof. unfold kind, remove. destruct (Z.eqb_spec j k), (Z.eqb_spec (2 * j) (2 * k)); try lia; done. Qed.

Lemma remove_other a : a ≠ 2 * k → remove d k a = d a.
Proof. intros Ha. unfold remove. by rewrite (proj2 (Z.eqb_neq _ _)). Qed.

Lemma remove_alive j : alive (remove d k) j = alive d j && negb (j =? k).
Proof.
  unfold alive, size. rewrite (remove_other 0) by lia. rewrite remove_kind. destruct (Z.eqb_spec j k); cbn [negb].
  - by rewrite dead_not, !andb_false_r.
  - by rewrite andb_true_r.
Qed.

Lemma remove_is_dir j : is_dir (remove d k) j = is_dir d j.
Proof. unfold is_dir. rewrite remove_kind. destruct (j =? k); [by rewrite dead_is_dir|done]. Qed.

Lemma remove_entry i n : entry (remove d k) i n =
  if decide (entry d i n = Some k) then None else entry d i n.
Proof.
  unfold entry, back. cbn zeta. rewrite (remove_other (place i n)) by (pose proof (place_neg i n); lia).
  rewrite remove_other, remove_alive by lia. destruct (Z.eqb_spec (d (place i n)) k) as [->|Hne]; cbn [negb].
  - rewrite andb_false_r. cbn [andb]. destruct (alive d k && _ && _); [by rewrite decide_True|by rewrite decide_False].
  - rewrite andb_true_r. destruct (alive d _ && _ && _); [|by rewrite decide_False]. rewrite decide_False; [done|congruence].
Qed.
End remove.

Lemma entry_alive d i n k : entry d i n = Some k → alive d k = true ∧ back d k = place i n ∧ k ≠ i.
Proof.
  unfold entry. cbn zeta. destruct (alive d _) eqn:Ha; [|done]. cbn [andb].
  destruct (Z.eqb_spec (back d (d (place i n))) (place i n)); [|done]. cbn [andb].
  destruct (Z.eqb_spec (d (place i n)) i); [done|]. by intros [= <-].
Qed.

(** Whether directory [j] has no entries with proper names. *)
Definition entry_at (a : Z) : option (Z * path) :=
  match a with Z.neg p => prod_map id String.list_ascii_of_string <$> (decode p : option (Z * string)) | _ => None end.

Lemma entry_at_place i n : entry_at (place i n) = Some (i, n).
Proof.
  unfold entry_at, place. rewrite decode_encode. simpl. unfold prod_map. simpl.
  by rewrite String.list_ascii_of_string_of_list_ascii.
Qed.

#[local] Instance proper_dec n : Decision (proper n).
Proof. unfold proper. apply _. Defined.

Definition child_of (d : Z → Z) (j k : Z) : Prop :=
  match entry_at (back d k) with Some (i, m) => proper m ∧ entry d j m = Some k | None => False end.
#[local] Instance child_of_dec d j k : Decision (child_of d j k).
Proof. unfold child_of. destruct (entry_at _) as [[i m]|]; apply _. Defined.

Definition has_children (d : Z → Z) (j : Z) : bool := bool_decide (Exists (child_of d j) (seqZ 1 (size d))).

Lemma has_children_spec d j : has_children d j = false ↔ ∀ m, proper m → entry d j m = None.
Proof.
  unfold has_children. rewrite bool_decide_eq_false. rewrite Exists_exists. split.
  - intros Hn m Hm. destruct (entry d j m) as [k|] eqn:He; [|done]. destruct Hn.
    destruct (entry_alive _ _ _ _ He) as (Ha & Hb & _). exists k. split.
    + apply elem_of_seqZ. unfold alive in Ha. lia.
    + unfold child_of. by rewrite Hb, entry_at_place.
  - intros Hn (k & _ & Hc). unfold child_of in Hc. destruct (entry_at _) as [[i m]|]; [|done].
    destruct Hc as [Hm He]. by rewrite Hn in He.
Qed.

(** ** The file system *)

#[local] Instance view : FsView.
Proof.
  refine {| linked := λ D i, bool_decide (i.1 = 1%positive) && alive D.2 i.2; isdir := λ D i, is_dir D.2 i.2;
    dirent := λ D i n, if bool_decide (i.1 = 1%positive) && alive D.2 i.2 then pair 1%positive <$> entry D.2 i.2 n else None |}.
  intros D i n j Hi Hd. rewrite Hi in Hd. apply fmap_Some in Hd as (k & Hk & ->). simpl.
  by destruct (entry_alive _ _ _ _ Hk).
Defined.

(** Mode 2 is a directory, 3 a device and 1 a file; the operations of
    directories are table 1, those of files table 2. *)
Definition fill (d : Z → Z) (x : vnode) : vnode :=
  if is_dir d (vn_vno x) then
    Vnode (Some (fs_vops 1)) (vn_fs x) (vn_vno x) 2 0 0 0 None (vn_busy x) (vn_mmobj x)
  else Vnode (Some (fs_vops 2)) (vn_fs x) (vn_vno x) (if kind d (vn_vno x) =? 3 then 3 else 1) 0 0 0 None (vn_busy x) (vn_mmobj x).

Definition env_with (ops : positive → vnode_ops_t) : VfsEnv.
Proof.
  refine {|
    S_ISDIR := λ m, m =? 2; S_ISCHR := λ m, m =? 3; S_ISBLK := λ m, m =? 4; S_ISREG := λ m, m =? 1;
    slab_alloc_vnode := λ s, Some (fresh (dom (vnodes (v_fs s))), fresh (dom (mmobjs s)));
    read_vnode := λ _, Some (λ v, s ← get; upd_vnode v (fill (disk (v_fs s))));
    query_vnode := λ _ v, x ← vnode_at v; s ← get; mret (if linked (data s) (inode x) then 1 else 0);
    delete_vnode := λ _, None;
    fs_root := λ _, 1%positive;
    fs_vnode_ops := ops;
    bytedev_lookup := λ _, None; blockdev_lookup := λ _, None; cd_ops := λ _, None |}.
  intros m. destruct (m =? 2) eqn:?, (m =? 3) eqn:?, (m =? 4) eqn:?, (m =? 1) eqn:?; simpl; lia.
Defined.

Definition fs_lookup (d : vnptr) (n : path) (len : nat) : V (Z * option vnptr) :=
  x ← vnode_at d; s ← get;
  match dirent (data s) (inode x) (take len n) with
  | None => mret (- ENOENT, None)
  | Some i => v ← vget (H0 := env_with (λ _, FsEx.no_vops)) 0 i.1 i.2; mret (0, Some v)
  end.

(** An inode that is neither on disk nor in use. *)
Definition next (s : vst) : Z := foldr Z.max (size (disk (v_fs s))) (vn_vno <$> (map_to_list (vnodes (v_fs s))).*2) + 1.

Definition fs_make (kd : Z) (d : vnptr) (n : path) (len : nat) : V Z :=
  x ← vnode_at d; s ← get;
  modify (set_data (mem s) (add (disk (v_fs s)) (next s) (vn_vno x) (take len n) kd));; mret 0.

(** The pages of the directory go with it. *)
Definition drop_pages (o : mmobj) : mmobj :=
  Mmobj (mmo_ops o) (mmo_refcount o - mmo_nrespages o) 0 [] (mmo_un o) (mmo_shadowed o).

Definition fs_rmdir (d : vnptr) (n : path) (len : nat) : V Z :=
  x ← vnode_at d; s ← get;
  match dirent (data s) (inode x) (take len n) with
  | None => mret (- ENOENT)
  | Some j =>
      if has_children (disk (v_fs s)) j.2 then mret (- ENOTEMPTY)
      else
        r ← find_vnode j.1 j.2 (vnode_inuse_list (v_fs s));
        match r with Some v => z ← vnode_at v; upd_mmobj (vn_mmobj z) drop_pages | None => mret () end;;
        modify (λ s, set_data (mem s) (remove (disk (v_fs s)) j.2) s);; mret 0
  end.

Definition op_tables (n : positive) : vnode_ops_t :=
  match n with
  | 1%positive => VnodeOps None None None None (Some (λ d n len _ _, fs_make 3 d n len)) (Some fs_lookup) None None
      (Some (fs_make 2)) (Some fs_rmdir) None None None None None
  | _ => FsEx.no_vops
  end.

#[local] Instance vfs_env : VfsEnv := env_with op_tables.
#[local] Instance objects : Objects := {| mm_ops := VmmapEx.plain; wait_fuel := 0 |}.
#[local] Existing Instance FsEx.file_table.

#[local] Instance inodes : FsInodes.
Proof.
  split; [|done]. intros s v x _ Hx. exists (if linked (data s) (inode x) then 1 else 0).
  split; [|by destruct (linked _ _)]. simpl. by rewrite (bind_step _ _ _ _ _ (vnode_at_eq _ _ _ Hx)).
Qed.

Lemma ramfs_fill_ops d x : ∃ k, vn_ops (fill d x) = Some k ∧ dir_ops (is_dir d (vn_vno x)) (vops_tab k).
Proof.
  unfold fill. destruct (is_dir _ _); eexists; (split; [done|]); unfold dir_ops; simpl; rewrite !is_Some_alt; done.
Qed.

#[local] Instance reads : FsRead.
Proof.
  split.
  - intros s v p [= <- <-]. split; apply not_elem_of_dom, is_fresh.
  - intros s v x rd [= <-] Hx. exists (fill (disk (v_fs s)) x). erewrite bind_step by reflexivity.
    rewrite (upd_vnode_eq _ _ _ _ Hx).
    unfold inode, fill. split_and!; try (by destruct (is_dir _ _)).
    + simpl. destruct (is_dir _ _); [done|]. simpl. by destruct (kind _ _ =? 3).
    + intros _. apply ramfs_fill_ops.
Qed.

#[local] Instance lookups : FsLookup.
Proof.
  split. intros s d x k f n len Hi Hx Hh _ Hk Hf.
  assert (f = fs_lookup) as -> by (destruct k as [| |[| |]]; simpl in Hf; try done; by injection Hf).
  unfold fs_lookup. rewrite (bind_step _ _ _ _ _ (vnode_at_eq _ _ _ Hx)). erewrite bind_step by reflexivity.
  destruct (dirent (data s) (inode x) (take len n)) as [i|].
  - destruct (vget_spec 0 i.1 i.2 s) as (v & y & s' & E & Hi' & Hf' & Hy & Hin & _ & Hheld); [done|done|].
    exists v, y, s'. split_and!; try done; [by erewrite bind_step by exact E|by destruct i].
  - exists s. split_and!; done || apply vframe_refl.
Qed.

Lemma next_size s : size (disk (v_fs s)) < next s.
Proof.
  unfold next. generalize (vn_vno <$> (map_to_list (vnodes (v_fs s))).*2). intros l.
  induction l as [|z l IH]; simpl; lia.
Qed.

Lemma next_vnode s v x : vnodes (v_fs s) !! v = Some x → vn_vno x < next s.
Proof.
  intros Hx. assert (vn_vno x ∈ vn_vno <$> (map_to_list (vnodes (v_fs s))).*2) as Hin.
  { apply list_elem_of_fmap. exists x. split; [done|]. apply list_elem_of_fmap. exists (v, x). split; [done|].
    by apply elem_of_map_to_list. }
  unfold next. revert Hin. generalize (vn_vno <$> (map_to_list (vnodes (v_fs s))).*2). intros l.
  induction l as [|z l IH]; [by intros ?%elem_of_nil|]. intros [->|Hz]%elem_of_cons; simpl; [lia|]. specialize (IH Hz). lia.
Qed.

(** A state with other data, in which the inodes in use are as they were, but
    for those that have no pages. *)
Lemma set_data_vinv s m d :
  vinv s → (∀ v x, vnodes (v_fs s) !! v = Some x →
    (linked (m, d) (inode x) = linked (data s) (inode x) ∨ ∀ o, mmobjs s !! vn_mmobj x = Some o → mmo_respages o = []) ∧
    isdir (m, d) (inode x) = isdir (data s) (inode x)) → vinv (set_data m d s).
Proof.
  intros Hi Hs. split; [|apply Hi..]. intros v x Hx. destruct (Hs v x Hx) as [HL HD].
  destruct (vi_ok _ Hi v x Hx) as [Ho Hb Hw Hm Hop]. split; try done.
  - destruct Ho as (o & Ho & ? & ? & ? & ? & Hr). exists o. split_and!; try done.
    change (data (set_data m d s)) with (m, d). destruct HL as [->|HL]; [done|by intros _; apply HL].
  - change (data (set_data m d s)) with (m, d). by rewrite HD.
  - change (data (set_data m d s)) with (m, d). by rewrite HD.
Qed.

Lemma make_makes kd s d x n len :
  kd = 2 ∨ kd = 3 → vinv s → vnodes (v_fs s) !! d = Some x → linked (data s) (inode x) = true →
  makes True (kd =? 2) (fs_make kd d n len) s (inode x) (take len n).
Proof.
  intros Hkd Hi Hx Hl. pose proof (next_size s) as Hn. pose proof (next_vnode s d x Hx) as Hd.
  set (D := disk (v_fs s)) in *. set (k := next s) in *. set (D' := add D k (vn_vno x) (take len n) kd).
  assert (bool_decide (vn_fs x = 1%positive) && alive D (vn_vno x) = true) as Hl' by exact Hl.
  apply andb_prop in Hl' as [Hfs%bool_decide_eq_true Hal].
  assert (∀ j, j < k → alive D' j = alive D j ∧ is_dir D' j = is_dir D j) as Hold.
  { intros j Hj. unfold D'. rewrite add_alive, add_is_dir, (proj2 (Z.eqb_neq j k)), orb_false_r by (done || lia). done. }
  exists 0, (set_data (mem s) D' s). split_and!; try done.
  - unfold fs_make. by rewrite (bind_step _ _ _ _ _ (vnode_at_eq _ _ _ Hx)).
  - apply set_data_vinv; [done|]. intros v y Hy. destruct (Hold (vn_vno y) (next_vnode s v y Hy)) as [HA HD].
    split; [left|]; simpl; by rewrite ?HA, ?HD.
  - by intros w y Hy _; exists y.
  - left. split; [done|]. exists (1%positive, k). split; simpl; fold D D'.
    + unfold alive. unfold k, size in *. replace (next s <=? Z.max 0 (D 0)) with false by lia. by rewrite andb_false_r.
    + unfold D'. by rewrite add_alive, Z.eqb_refl, orb_true_r by done.
    + unfold D'. by rewrite add_is_dir, Z.eqb_refl by done.
    + intros m _ _. unfold D'. rewrite add_alive, Z.eqb_refl, orb_true_r, add_entry by (done || lia).
      rewrite decide_False, decide_True by lia. done.
    + unfold D'. rewrite add_alive, Hal, add_entry, decide_True by (done || lia). simpl. by rewrite Hfs.
    + intros [f j]. simpl. intros [Hf%bool_decide_eq_true Hj]%andb_prop. subst f.
      assert (j < k) as Hjk by (unfold alive in Hj; lia). destruct (Hold j Hjk) as [-> ->]. rewrite Hj. split_and!; [done..|].
      intros m Hm. simpl. unfold D'. rewrite add_entry by (done || lia).
      rewrite decide_False by (unfold inode in Hm; rewrite Hfs in Hm; by intros [-> ->]). by rewrite decide_False by lia.
Qed.

#[local] Instance creates : FsCreate.
Proof.
  refine {| roomy := True |}.
  - intros s d x k f n len Hi Hx Hh Hl Hk Hf _.
    assert (f = fs_make 2) as -> by (destruct k as [| |[| |]]; simpl in Hf; try done; by injection Hf).
    apply (make_makes 2); auto.
  - intros s d x k f n len mode devid Hi Hx Hh Hl Hk Hf _ _.
    assert (f = λ d n len _ _, fs_make 3 d n len) as -> by (destruct k as [| |[| |]]; simpl in Hf; try done; by injection Hf).
    apply (make_makes 3); auto.
  - intros s d x k Hi Hx Hk Hd. destruct (ok_ops _ _ _ (vi_ok _ Hi _ _ Hx)) as (k' & Hk' & _ & Hmk & _).
    rewrite Hk in Hk'. injection Hk' as <-. destruct (proj2 Hmk Hd) as [f Hf].
    by destruct k as [| |[| |]]; simpl in *; try done; eexists.
Defined.

(** Dropping the pages of a vnode that is held. *)
Lemma drop_pages_ok s v z o :
  vinv s → vnodes (v_fs s) !! v = Some z → mmobjs s !! vn_mmobj z = Some o → 1 <= held s v →
  let s' := set_mmobjs (insert (vn_mmobj z) (drop_pages o)) s in
  vinv s' ∧ (∀ w, held s' w = held s w) ∧ mmo_respages (drop_pages o) = [].
Proof.
  intros Hi Hz Ho Hh s'. assert (held s v = mmo_refcount o - mmo_nrespages o) as Hheld by (unfold held; by rewrite Hz, Ho).
  split_and!; [|intros w|done].
  - split; [|apply Hi..]. intros w y Hy. change (vnodes (v_fs s) !! w = Some y) in Hy.
    destruct (vi_ok _ Hi w y Hy) as [(o' & Ho' & Hk' & Hr) ? ? ? ?]. split; [|done..]. simpl.
    destruct (decide (w = v)) as [->|Hne].
    + assert (y = z) as -> by congruence. assert (o' = o) as -> by congruence. rewrite lookup_insert_eq.
      eexists. split; [done|]. simpl. split_and!; done || lia.
    + rewrite lookup_insert_ne; [by exists o'|]. intros Heq. by destruct Hne, (mmobj_inj s v w z y).
  - unfold held. cbn [v_fs mmobjs set_mmobjs s']. destruct (decide (w = v)) as [->|Hne].
    + rewrite Hz, Ho, lookup_insert_eq. simpl. lia.
    + destruct (vnodes _ !! w) as [y|] eqn:Hy; [|done]. rewrite lookup_insert_ne; [done|].
      intros Heq. by destruct Hne, (mmobj_inj s v w z y).
Qed.

Lemma removed_on_disk s D' m i n k :
  i.1 = 1%positive → 1 <= k → entry (disk (v_fs s)) i.2 n = Some k → D' = remove (disk (v_fs s)) k →
  removed (data s) (m, D') i n (1%positive, k).
Proof.
  intros Hi Hk He ->. assert (alive (disk (v_fs s)) k = true ∧ back (disk (v_fs s)) k = place i.2 n) as [Ha Hb].
  { by destruct (entry_alive _ _ _ _ He) as (? & ? & _). }
  split; simpl.
  - rewrite remove_entry, decide_True by done. by destruct (_ && _).
  - intros [f j]. simpl. intros Hj Hne. rewrite remove_alive, remove_is_dir by done.
    apply andb_prop in Hj as [Hf%bool_decide_eq_true Hj]. subst f.
    rewrite Hj, (proj2 (Z.eqb_neq j k)) by congruence. cbn [negb andb]. split_and!; [done..|].
    intros m' Hm. rewrite remove_entry by done. destruct (decide (entry (disk (v_fs s)) j m' = Some k)) as [E|]; [|done].
    destruct (entry_alive _ _ _ _ E) as (_ & Hb' & _). rewrite Hb in Hb'. apply place_inj in Hb' as [? ?].
    destruct Hm. f_equal; [|done]. destruct i; simpl in *. congruence.
Qed.

(** The state in which the directory [z] has been removed. *)
Definition without (s : vst) (z : vnode) (o : mmobj) : vst :=
  set_data (mem s) (remove (disk (v_fs s)) (vn_vno z)) (set_mmobjs (insert (vn_mmobj z) (drop_pages o)) s).

Lemma without_ok s v z o :
  vinv s → vnodes (v_fs s) !! v = Some z → mmobjs s !! vn_mmobj z = Some o → 1 <= held s v → 1 <= vn_vno z →
  vn_fs z = 1%positive → vinv (without s z o) ∧ ∀ w, held (without s z o) w = held s w.
Proof.
  intros Hi Hz Ho Hh Hno Hfs. destruct (drop_pages_ok s v z o Hi Hz Ho Hh) as (Hi1 & Hh1 & _).
  split; [|intros w; rewrite <- Hh1; done]. apply set_data_vinv; [done|]. intros w y Hy.
  change (vnodes (v_fs s) !! w = Some y) in Hy.
  split; [|simpl; by rewrite remove_is_dir]. destruct (decide (vn_mmobj y = vn_mmobj z)) as [E|Hne].
  - right. intros o'. cbn [mmobjs set_mmobjs]. rewrite E, lookup_insert_eq. by intros [= <-].
  - left. simpl. rewrite remove_alive by done. destruct (Z.eqb_spec (vn_vno y) (vn_vno z)) as [E|_];
      [|by rewrite andb_true_r]. destruct (bool_decide (vn_fs y = 1%positive)) eqn:Hf; [|done].
    apply bool_decide_eq_true in Hf. destruct Hne. assert (w = v) as ->; [|congruence].
    eapply (vi_uniq _ Hi w v); [done..|]. unfold inode. congruence.
Qed.

(** What [fs_rmdir] does to an entry that is there. *)
Lemma fs_rmdir_eq s d x n len v z o :
  vinv s → vnodes (v_fs s) !! d = Some x → dirent (data s) (inode x) (take len n) = Some (inode z) →
  vnodes (v_fs s) !! v = Some z → mmobjs s !! vn_mmobj z = Some o →
  fs_rmdir d n len s =
    if has_children (disk (v_fs s)) (vn_vno z) then Ret (- ENOTEMPTY) s else Ret 0 (without s z o).
Proof.
  intros Hi Hx Hd Hz Ho. unfold fs_rmdir. rewrite (bind_step _ _ _ _ _ (vnode_at_eq _ _ _ Hx)).
  erewrite bind_step by reflexivity. rewrite Hd. destruct (has_children _ _); [done|].
  destruct (find_vnode_spec s (inode z).1 (inode z).2 (vnode_inuse_list (v_fs s))) as (r & Er & Hr);
    [intros w; by apply (vi_list _ Hi)|].
  rewrite (bind_step _ _ _ _ _ Er). destruct r as [w|]; [|by destruct (Hr v z); [apply (vi_list _ Hi); eauto|..]].
  destruct Hr as (_ & z' & Hz' & Ez). assert (w = v) as -> by (by eapply (vi_uniq _ Hi)). clear Hz'.
  erewrite bind_step; [|rewrite (bind_step _ _ _ _ _ (vnode_at_eq _ _ _ Hz)); by apply upd_mmobj_eval]. done.
Qed.

#[local] Instance removes : FsRemove.
Proof.
  split.
  - intros s d x k f n len v z Hi Hx Hh Hl Hk Hf Hpr Hd Hdz Hz Hhv.
    assert (f = fs_rmdir) as -> by (destruct k as [| |[| |]]; simpl in Hf; try done; by injection Hf).
    assert (linked (data s) (inode z) = true) as Hlz by (by eapply dirent_linked).
    assert (vn_fs x = 1%positive) as Hfx by (by apply andb_prop in Hl as [?%bool_decide_eq_true _]).
    assert (vn_fs z = 1%positive ∧ 1 <= vn_vno z) as [Hfz Hno].
    { apply andb_prop in Hlz as [?%bool_decide_eq_true Ha]. split; [done|]. simpl in Ha. unfold alive in Ha. lia. }
    assert (entry (disk (v_fs s)) (vn_vno x) (take len n) = Some (vn_vno z)) as Hent.
    { simpl in Hd, Hl. rewrite Hl in Hd. apply fmap_Some in Hd as (j & Hj & [= _ ->]). done. }
    assert (empty_dir (data s) (inode z) ↔ has_children (disk (v_fs s)) (vn_vno z) = false) as Hemp.
    { rewrite has_children_spec. unfold empty_dir. simpl. simpl in Hlz. rewrite Hlz.
      split; intros Hm m Hp; [specialize (Hm m Hp); by apply fmap_None in Hm|apply fmap_None; by apply Hm]. }
    destruct (ok_obj _ _ _ (vi_ok _ Hi _ _ Hz)) as (o & Ho & _). rewrite (fs_rmdir_eq s d x n len v z o) by done.
    destruct (has_children _ _) eqn:Hch.
    + exists (- ENOTEMPTY), s. split_and!; try done. right. split_and!; [done|by rewrite Hemp|done].
    + destruct (without_ok s v z o) as [Hi1 Hh1]; [done..|]. exists 0, (without s z o). split_and!; try done.
      left. split_and!; [done|by apply Hemp|]. unfold inode at 2. rewrite Hfz. by apply removed_on_disk.
  - intros D i n j Hi Hp Hd. simpl in *. rewrite Hi in Hd. apply fmap_Some in Hd as (k & Hk & ->).
    destruct (entry_alive _ _ _ _ Hk) as (_ & _ & Hne). intros ->. done.
  - intros a b len. simpl. intros E%bool_decide_eq_true. done.
Qed.

(** ** Mounting *)

(** A disk with an empty root directory, inode 1. *)
Definition blank : Z → Z := λ a, if a =? 0 then 1 else if a =? 2 then 2 else 0.

Definition root_vnode : vnode := fill blank (Vnode None 1 1 0 0 0 0 None false 1).

(** The root is vnode 1, with object 1 and the reference of the mount. *)
Definition mounted (s : vst) : vst :=
  set_k (set_queues (insert (vn_waitq 1) (Ktqueue [] 0)))
    (set_mmobjs (insert 1%positive (Mmobj (vnode_mmobj_ops 1) 1 0 [] (mmo_vmas []) None))
      (set_fs (λ f, Fsst {[1%positive := root_vnode]} [1%positive] (files f) (procfs f) (Some 1%positive) blank) s)).

Lemma mounted_vnode s v x : vnodes (v_fs (mounted s)) !! v = Some x → v = 1%positive ∧ x = root_vnode.
Proof. change (vnodes _) with ({[1%positive := root_vnode]} : gmap vnptr vnode). by intros [<- <-]%lookup_singleton_Some. Qed.

Lemma mounted_inv s : vinv (mounted s).
Proof.
  split.
  - intros v x [-> ->]%mounted_vnode. split; try done.
    + eexists. split; [apply lookup_insert_eq|]. by split_and!.
    + unfold queue. simpl. by rewrite lookup_insert_eq.
    + apply (ramfs_fill_ops blank (Vnode None 1 1 0 0 0 0 None false 1)).
  - by intros v w x y [-> ->]%mounted_vnode [-> ->]%mounted_vnode.
  - intros v. change (v ∈ [1%positive] ↔ is_Some (({[1%positive := root_vnode]} : gmap vnptr vnode) !! v)).
    rewrite lookup_singleton_is_Some, list_elem_of_singleton. done.
Qed.

Lemma mounted_held s w : held (mounted s) w = one 1 w.
Proof.
  unfold held, one. change (vnodes _) with ({[1%positive := root_vnode]} : gmap vnptr vnode). case_decide as Hw.
  - subst w. rewrite lookup_singleton_eq. simpl. by rewrite lookup_insert_eq.
  - by rewrite lookup_singleton_ne.
Qed.

Lemma mounted_rooted s : rooted (mounted s) 1%positive (1%positive, 1).
Proof. split; try done; [apply mounted_inv|by exists root_vnode|by rewrite mounted_held]. Qed.

#[local] Existing Instance BootEx.env128.
#[local] Existing Instance BootEx.pc.

#[local] Instance boot : VfsBootEnv := {|
  S_IFCHR := 3; MKDEVID := λ a b, a * 256 + b; vfs_init := modify mounted; vfs_shutdown := mret 0;
  vfstest_main_p := 6; faber_fs_thread_test := λ _, mret 0; faber_directory_test := λ _, mret 0;
  VfsBoot.kshell_create := λ _, mret (Some 1); VfsBoot.kshell_execute_next := λ _ _ _, mret 0;
  VfsBoot.kshell_destroy := λ _, mret () |}.

Lemma boots : vfs_boot_ok.
Proof.
  split; [split; try done; by eexists|done|simpl; lia|exact I|].
  intros s _ _. exists (mounted s), 1%positive, (1%positive, 1). split_and!; try done; [apply mounted_rooted| |apply mounted_held].
  split; try done. intros q. unfold queue. simpl. rewrite lookup_insert. case_decide as Hq; [right|by left].
  subst q. split; [done|]. exists 1%positive. by left.
Qed.

(** The state in which the kernel starts. *)
Definition start : vst := Vst boot_st ∅ ∅ [] [] 0 0 ∅ (λ _, 0) ∅ ∅ ∅ (Fsst ∅ [] ∅ ∅ None (λ _, 0)).


Lemma do_mkdir_creates_witness :
  ∃ s' j, do_mkdir (path_of "/usr") (mounted start) = Ret 0 s' ∧
    created true (data (mounted start)) (data s') (1%positive, 1) (path_of "usr") j.
Proof.
  destruct (do_mkdir_creates (path_of "/usr") 1%positive root_vnode (mounted start)) as (r & s' & E & _ & _ & _ & Hr & _);
    [apply mounted_inv|by apply (bool_decide_unpack _)|done..|].
  destruct Hr as [(-> & j & Hc)|(_ & _ & [] & _)]; [by exists s', j|done].
Defined.


Lemma mkdir_rmdir_roundtrip_witness :
  ∃ s1 s2, do_mkdir (path_of "/usr") (mounted start) = Ret 0 s1 ∧ do_rmdir (path_of "/usr") s1 = Ret 0 s2 ∧
    same_view (data (mounted start)) (data s2).
Proof.
  destruct (do_mkdir_made (path_of "/usr") 1%positive root_vnode (mounted start)) as (r & s1 & E & Hm);
    [apply mounted_inv|by apply (bool_decide_unpack _)|done..|].
  destruct (md_result _ _ _ _ _ _ Hm) as [(-> & _)|(_ & _ & [] & _)]; [|done].
  destruct (mkdir_rmdir_roundtrip (path_of "/usr") 1%positive root_vnode (mounted start) s1) as (s2 & E2 & _ & _ & _ & Hv);
    [apply mounted_inv|by apply (bool_decide_unpack _)|done|done|by rewrite mounted_held|done| |done|by exists s1, s2].
  intros i n [= <- <-]. done.
Defined.
End RamFs.
