(* ===== verification/Pageout.v ===== *)
(** * The pageout daemon and sync (pframe.c)

    Cleaning all pages, and the daemon that reclaims the least recently
    requested ones.  The static variables [nfreepages_target], [pageoutd] and
    [pageoutd_thr] are arguments and results. *)

From S2P Require Import Prelude Kstate Sched Kmutex Proc Vmstate Pframe.
Local Open Scope Z_scope.

Section pageout.
Context `{VmEnv} `{Machine} `{Errno} `{ProcEnv} (ops : vtable).

(** One pass over [alloc_list], up to the first [goto list_start]; the result
    is whether the end was reached. *)
Fixpoint clean_pass (l : list pfptr) : V bool :=
  match l with
  | [] => mret true
  | pf :: l' =>
      x ← pframe_at pf;
      KASSERT (negb (pframe_is_pinned x)) "!pframe_is_pinned(pf)";;
      KASSERT (negb (pframe_is_free x)) "!pframe_is_free(pf)";;
      if pf_busy x then lift (sched_sleep_on (pf_waitq pf));; mret false
      else if pf_dirty x then _ ← pframe_clean ops pf; mret false
      else clean_pass l'
  end.

Fixpoint pframe_clean_all (fuel : nat) : V () :=
  s ← get;
  finished ← clean_pass (alloc_list s);
  if finished : bool then mret ()
  else match fuel with O => idle | S fuel' => pframe_clean_all fuel' end.

Context (pageoutd_waitq alloc_waitq : qid).

(** [pframe_init]: the lists, the hash table, and [nfreepages_target]. *)
Definition pframe_init : V Z :=
  modify (λ s, set_npinned (λ _, 0) (set_pinned_list (λ _, [])
    (set_nallocated (λ _, 0) (set_alloc_list (λ _, []) (set_hash (λ _, ∅) s)))));;
  s ← get;
  lift (sched_queue_init alloc_waitq);;
  mret (Z.shiftr (page_free_count s) 1).

(** [pageoutd] and [pageoutd_thr]; [entry] is the address of
    [pageoutd_run]. *)
Definition pageoutd_init (entry : Z) : K (pptr * tid) :=
  sched_queue_init pageoutd_waitq;;
  cp ← cur_proc;
  x ← proc_at cp;
  KASSERT (PID_IDLE =? p_pid x) "curproc && (PID_IDLE == curproc->p_pid)";;
  pageoutd ← proc_create "pageoutd";
  pageoutd_thr ← kthread_create pageoutd entry 0 0;
  sched_make_runnable pageoutd_thr;;
  mret (pageoutd, pageoutd_thr).

Definition pageoutd_exit (pageoutd_thr : option tid) : K () :=
  t ← deref pageoutd_thr "NULL != pageoutd_thr"; kthread_cancel t 0.

(** One step of the inner loop; the result is whether it goes on. *)
Definition pageout_step (nfreepages_target : Z) : V bool :=
  s ← get;
  if nfreepages_target <=? page_free_count s then mret false
  else match alloc_list s with
       | [] => mret false
       | pf :: _ =>
           x ← pframe_at pf;
           (if pf_busy x then lift (sched_sleep_on (pf_waitq pf))
            else if pf_dirty x then _ ← pframe_clean ops pf; mret ()
            else pframe_free ops pf);;
           mret true
       end.

Fixpoint pageout_loop (fuel : nat) (nfreepages_target : Z) : V () :=
  again ← pageout_step nfreepages_target;
  if again : bool then match fuel with O => idle | S fuel' => pageout_loop fuel' nfreepages_target end
  else mret ().

(** The daemon: [rounds] bounds how often it goes to sleep. *)
Fixpoint pageoutd_run (rounds fuel : nat) (nfreepages_target : Z) : V () :=
  s ← get;
  KASSERT (0 <=? nallocated s) "nallocated >= 0";;
  pageout_loop fuel nfreepages_target;;
  lift (sched_broadcast_on alloc_waitq);;
  r ← lift (sched_cancellable_sleep_on pageoutd_waitq);
  (if negb (r =? 0) then lift (kthread_exit 0) else mret ());;
  match rounds with O => idle | S rounds' => pageoutd_run rounds' fuel nfreepages_target end.

(** Freeing the pages that are left. *)
Fixpoint free_all (l : list pfptr) : V () :=
  match l with
  | [] => mret ()
  | pf :: l' =>
      x ← pframe_at pf;
      KASSERT (negb (pf_dirty x)) "!pframe_is_dirty(pf)";;
      KASSERT (negb (pf_busy x)) "!pframe_is_busy(pf)";;
      KASSERT (negb (pframe_is_pinned x)) "!pframe_is_pinned(pf)";;
      pframe_free ops pf;;
      free_all l'
  end.

(** [do_waitpid] is passed NULL for [status], through which it stores the
    status of the child it finds. *)
Definition pframe_shutdown (fuel : nat) (pageoutd : pptr) (pageoutd_thr : option tid) : V () :=
  cp ← lift cur_proc;
  x ← lift (proc_at cp);
  KASSERT (PID_IDLE =? p_pid x) "PID_IDLE == curproc->p_pid";;
  lift (pageoutd_exit pageoutd_thr);;
  y ← lift (proc_at pageoutd);
  '(child, status) ← lift (do_waitpid fuel (-1) 0);
  match status with Some _ => panic "*status" | None => mret () end;;
  KASSERT (p_pid y =? child) "pid == child";;
  s ← get;
  KASSERT (0 =? npinned s) "0 == npinned";;
  pframe_clean_all fuel;;
  s' ← get;
  free_all (alloc_list s').
End pageout.
