(* ===== verification/ShadowProps.v ===== *)
(** * Properties of shadow objects

    The cache of resident pages as a partial function, chains of shadow
    objects, and copy on write. *)

From S2P Require Import Prelude Kstate Sched Kmutex Vmstate Pframe Mmobj Vmmap Areas VmmapProps.
Local Open Scope Z_scope.

(** ** The cache of pages *)

(** Frame [pf] holds page [n] of object [o]. *)
Definition resident (s : vst) (o : optr) (n : Z) (pf : pfptr) : Prop :=
  ∃ x, pframes s !! pf = Some x ∧ pf_obj x = Some o ∧ pf_pagenum x = n.

(** The frame of a page. *)
Definition frame_at (s : vst) (o : optr) (n : Z) : option pfptr :=
  (λ ikv, ikv.2.1) <$>
    list_find (λ kv, pf_obj kv.2 = Some o ∧ pf_pagenum kv.2 = n) (map_to_list (pframes s)).

Lemma frame_at_Some s o n pf : frame_at s o n = Some pf → resident s o n pf.
Proof.
  unfold frame_at. destruct (list_find _ _) as [[i [q x]]|] eqn:Hf; [|done]. intros [= <-].
  apply list_find_Some in Hf as (Hi & Hx & _). apply list_elem_of_lookup_2, elem_of_map_to_list in Hi. by exists x.
Qed.

Lemma frame_at_None s o n pf : frame_at s o n = None → ¬ resident s o n pf.
Proof.
  unfold frame_at. destruct (list_find _ _) eqn:Hf; [done|]. intros _ (x & Hx & Ho).
  apply list_find_None in Hf. rewrite Forall_forall in Hf.
  apply (Hf (pf, x)); [by apply elem_of_map_to_list|done].
Qed.

Lemma page_neq x o n :
  ¬ (pf_obj x = Some o ∧ pf_pagenum x = n) → bool_decide (pf_obj x = Some o) && (n =? pf_pagenum x) = false.
Proof.
  intros Hne. destruct (decide (pf_obj x = Some o)); [|by rewrite bool_decide_eq_false_2].
  destruct (Z.eqb_spec n (pf_pagenum x)) as [->|]; [by destruct Hne|apply andb_false_r].
Qed.

Section cache.
Context {VE : VmEnv}.

Record cache_inv (s : vst) : Prop := {
  ci_hash : ∀ o n pf, resident s o n pf → pf ∈ hashchain s o n;
  ci_live : ∀ h l pf, pframe_hash s !! h = Some l → pf ∈ l → is_Some (pframes s !! pf);
  ci_uniq : ∀ o n pf pf', resident s o n pf → resident s o n pf' → pf = pf';
}.

Lemma frame_at_iff s o n pf : cache_inv s → frame_at s o n = Some pf ↔ resident s o n pf.
Proof.
  intros Hi. split; [apply frame_at_Some|]. intros Hr. destruct (frame_at s o n) as [q|] eqn:Hq.
  - f_equal. apply (ci_uniq s Hi o n); [by apply frame_at_Some|done].
  - by destruct (frame_at_None s o n pf Hq).
Qed.

Lemma hashchain_live s o n pf : cache_inv s → pf ∈ hashchain s o n → is_Some (pframes s !! pf).
Proof.
  intros Hi. unfold hashchain. destruct (pframe_hash s !! _) as [l|] eqn:Hl; [|by intros ?%elem_of_nil].
  by apply (ci_live s Hi (hash_page o n)).
Qed.

(** Only the order of the lists of frames is different. *)
Definition lru (s s' : vst) : Prop :=
  s' = set_alloc_list (λ _, alloc_list s') (set_pinned_list (λ _, pinned_list s') s).

Lemma lru_refl s : lru s s.
Proof. by destruct s. Qed.

Lemma lru_trans s1 s2 s3 : lru s1 s2 → lru s2 s3 → lru s1 s3.
Proof. unfold lru. intros H1 H2. rewrite H2, H1. done. Qed.

Lemma lru_cache s s' : lru s s' → cache_inv s → cache_inv s'.
Proof. intros Hl [H1 H2 H3]. rewrite Hl. by split. Qed.

Lemma lru_frame_at s s' o n : lru s s' → frame_at s' o n = frame_at s o n.
Proof. intros Hl. by rewrite Hl. Qed.

Lemma find_in_chain_spec o n l s :
  cache_inv s → (∀ pf, pf ∈ l → is_Some (pframes s !! pf)) → (∀ pf, frame_at s o n = Some pf → pf ∈ l) →
  ∃ s', find_in_chain o n l s = Ret (frame_at s o n) s' ∧ lru s s'.
Proof.
  intros Hi. induction l as [|q l IH]; intros Hlive Hin; cbn [find_in_chain].
  - exists s. split; [|apply lru_refl]. destruct (frame_at s o n) as [pf|]; [|done]. by destruct (not_elem_of_nil pf (Hin pf eq_refl)).
  - destruct (Hlive q) as [x Hx]; [by left|]. unfold pframe_at at 1. msimpl. rewrite Hx. cbn [obind].
    destruct (decide (pf_obj x = Some o ∧ pf_pagenum x = n)) as [[Ho <-]|Hne].
    + rewrite bool_decide_eq_true_2, Z.eqb_refl by done. cbn [andb].
      assert (frame_at s o (pf_pagenum x) = Some q) as -> by (apply frame_at_iff; [done|by exists x]).
      destruct (pframe_is_pinned x); cbn [negb obind]; eexists; (split; [done|]); done || apply lru_refl.
    + rewrite page_neq by done. apply IH; [intros pf Hpf; apply Hlive; by right|]. intros pf Hpf. specialize (Hin pf Hpf).
      apply elem_of_cons in Hin as [->|?]; [|done]. apply frame_at_Some in Hpf as (y & Hy & Hyo & Hyn).
      destruct Hne. naive_solver.
Qed.

Lemma get_resident_spec s o n :
  cache_inv s → ∃ s', pframe_get_resident o n s = Ret (frame_at s o n) s' ∧ lru s s'.
Proof.
  intros Hi. unfold pframe_get_resident. erewrite bind_step by reflexivity. apply find_in_chain_spec; [done|..].
  - intros pf. by apply hashchain_live.
  - intros pf Hpf. apply (ci_hash s Hi). by apply frame_at_Some.
Qed.

(** A page that is not resident: nothing changes at all. *)
Lemma find_in_chain_absent o n l s :
  (∀ pf, pf ∈ l → is_Some (pframes s !! pf)) → frame_at s o n = None → find_in_chain o n l s = Ret None s.
Proof.
  intros Hlive Hn. induction l as [|q l IH]; cbn [find_in_chain]; [done|].
  destruct (Hlive q) as [x Hx]; [by left|]. unfold pframe_at at 1. msimpl. rewrite Hx. cbn [obind].
  rewrite page_neq; [apply IH; intros pf Hpf; apply Hlive; by right|].
  intros Hx'. apply (frame_at_None s o n q Hn). by exists x.
Qed.

Lemma get_resident_absent s o n :
  cache_inv s → frame_at s o n = None → pframe_get_resident o n s = Ret None s.
Proof.
  intros Hi Hn. unfold pframe_get_resident. erewrite bind_step by reflexivity.
  apply find_in_chain_absent; [|done]. intros pf. by apply hashchain_live.
Qed.
End cache.

(** ** Chains of shadow objects *)

(** From [o] on, the shadow objects [l], and at their bottom the object [b],
    which does not shadow anything. *)
Inductive chain (h : gmap optr mmobj) : optr → list optr → optr → Prop :=
| chain_bottom o x : h !! o = Some x → mmo_shadowed x = None → chain h o [] o
| chain_shadow o x next l b :
    h !! o = Some x → mmo_shadowed x = Some next → chain h next l b → chain h o (o :: l) b.

Lemma chain_det h o l b : chain h o l b → ∀ l' b', chain h o l' b' → l' = l ∧ b' = b.
Proof.
  induction 1 as [o x Hx Hs|o x next l b Hx Hs Hc IH]; intros l' b' Hc'; inversion Hc'; subst; simplify_map_eq; try done.
  by destruct (IH _ _ H1) as [-> ->].
Qed.

Lemma chain_suffix h o l1 q l2 b : chain h o (l1 ++ q :: l2) b → chain h q (q :: l2) b.
Proof.
  revert o. induction l1 as [|p l1 IH]; intros o Hc; inversion Hc; subst; [by econstructor|]. by eapply IH.
Qed.

(** A chain that ends does not run in a circle. *)
Lemma chain_nodup h o l b : chain h o l b → NoDup l.
Proof.
  induction 1 as [o x Hx Hs|o x next l b Hx Hs Hc IH]; constructor; [|done].
  intros (l1 & l2 & ->)%list_elem_of_split. pose proof (chain_suffix _ _ _ _ _ _ Hc) as Hc'.
  assert (chain h o (o :: l1 ++ o :: l2) b) as Hc'' by by econstructor.
  destruct (chain_det _ _ _ _ Hc' _ _ Hc'') as [[= Hl] _]. apply (f_equal length) in Hl.
  rewrite length_app in Hl. simpl in Hl. lia.
Qed.

Lemma chain_live h o l b q : chain h o l b → q ∈ l ++ [b] → is_Some (h !! q).
Proof. induction 1; simpl; rewrite ?elem_of_cons; [intros [->|[]%elem_of_nil]|intros [->|?]]; eauto. Qed.

Lemma chain_bottom_notin h o l b : chain h o l b → b ∉ l.
Proof.
  intros Hc (l1 & l2 & ->)%list_elem_of_split. pose proof (chain_suffix _ _ _ _ _ _ Hc) as Hc'.
  clear Hc. assert (∃ x, h !! b = Some x ∧ mmo_shadowed x = None) as (x & Hx & Hn).
  { clear -Hc'. remember (b :: l2) as l. clear Heql. induction Hc' as [o x|]; [by exists x|done]. }
  inversion Hc'; simplify_map_eq.
Qed.

Lemma chain_length h o l b : chain h o l b → (length l ≤ size h)%nat.
Proof.
  intros Hc. pose proof (chain_nodup _ _ _ _ Hc) as Hnd.
  rewrite <- (size_list_to_set (C := gset optr)), <- (size_dom (D := gset optr)) by done. apply subseteq_size.
  intros q Hq. apply elem_of_list_to_set in Hq. apply elem_of_dom, (chain_live _ _ _ _ _ Hc). set_solver.
Qed.

(** The first frame of page [n] along a list of objects. *)
Fixpoint top_frame (s : vst) (n : Z) (l : list optr) : option pfptr :=
  match l with
  | [] => None
  | o :: l' => match frame_at s o n with Some pf => Some pf | None => top_frame s n l' end
  end.

Section shadow.
Context {VE : VmEnv} {MA : Machine} {ER : Errno}.

Lemma lookup_chain_spec n o l b fuel : ∀ s,
  cache_inv s → chain (mmobjs s) o l b → (length l ≤ fuel)%nat →
  ∃ s', lookup_chain fuel o n s =
      Ret (match top_frame s n l with Some pf => inl pf | None => inr b end) s' ∧ lru s s'.
Proof.
  revert o l. induction fuel as [|fuel IH]; intros o l s Hi Hc Hf; inversion Hc as [? x Hx Hs|? x next l' ? Hx Hs Hc'];
    subst; cbn [length] in Hf; try lia; cbn [lookup_chain top_frame];
    rewrite (bind_step _ _ _ _ _ (mmobj_at_eval _ _ _ Hx)), Hs; try (exists s; split; [done|apply lru_refl]).
  destruct (get_resident_spec s o n Hi) as (s1 & E & Hl). rewrite (bind_step _ _ _ _ _ E).
  destruct (frame_at s o n) as [pf|] eqn:Hfr; [by exists s1|].
  assert (s1 = s) as -> by (pose proof (get_resident_absent s o n Hi Hfr); congruence).
  apply IH; [done..|lia].
Qed.

Lemma top_frame_app s n l l' :
  top_frame s n (l ++ l') = match top_frame s n l with Some pf => Some pf | None => top_frame s n l' end.
Proof. induction l as [|o l IH]; simpl; [done|]. by destruct (frame_at s o n). Qed.

Lemma pframe_at_eq s pf x : pframes s !! pf = Some x → pframe_at pf s = Ret x s.
Proof. intros Hx. unfold pframe_at. by rewrite Hx. Qed.

(** A resident page that is not busy. *)
Lemma pframe_get_hit ops s o n pf x :
  cache_inv s → frame_at s o n = Some pf → pframes s !! pf = Some x → pf_busy x = false →
  ∃ s', pframe_get ops o n s = Ret (0, Some pf) s' ∧ lru s s'.
Proof.
  intros Hi Hf Hx Hb. destruct (get_resident_spec s o n Hi) as (s1 & E & Hl). rewrite Hf in E.
  exists s1. split; [|done]. assert (pframes s1 !! pf = Some x) as Hx1 by by rewrite Hl.
  unfold pframe_get. rewrite (bind_step _ _ _ _ _ E). rewrite (bind_step _ _ _ _ _ (pframe_at_eq _ _ _ Hx1)), Hb.
  erewrite bind_step by reflexivity. rewrite (bind_step _ _ _ _ _ (pframe_at_eq _ _ _ Hx1)), Hb.
  by erewrite bind_step by reflexivity.
Qed.

(** C32. A read through a chain of shadow objects over an anonymous object
    finds the page of the object nearest to the top that has it: the frame
    [shadow_lookuppage] returns is the first one along the chain, the loop
    terminates, and nothing but the order of the lists of frames changes. *)
Theorem shadow_read_sees_top vn k o l b y n pf x s :
  cache_inv s → chain (mmobjs s) o l b → mmobjs s !! b = Some y → mmo_ops y = anon_mmobj_ops →
  top_frame s n (l ++ [b]) = Some pf → pframes s !! pf = Some x → pf_busy x = false →
  ∃ s', shadow_lookuppage (mmobj_table vn (S k)) o n 0 s = Ret (0, Some pf) s' ∧ lru s s'.
Proof.
  intros Hi Hc Hy Hops Htop Hx Hb. unfold shadow_lookuppage. change (negb (0 =? 1)) with true. cbn iota.
  erewrite bind_step by reflexivity.
  destruct (lookup_chain_spec n o l b (size (mmobjs s)) s) as (s1 & E & Hl); [done|done|by eapply chain_length|].
  rewrite (bind_step _ _ _ _ _ E). rewrite top_frame_app in Htop.
  destruct (top_frame s n l) as [q|]; [injection Htop as ->; by exists s1|]. cbn [top_frame] in Htop.
  destruct (frame_at s b n) as [q|] eqn:Hf; [injection Htop as ->|done].
  assert (cache_inv s1 ∧ frame_at s1 b n = Some pf ∧ pframes s1 !! pf = Some x ∧ mmobjs s1 !! b = Some y)
    as (Hi1 & Hf1 & Hx1 & Hy1) by (split; [by eapply lru_cache|by rewrite Hl]).
  destruct (pframe_get_hit (mmobj_table vn k) s1 b n pf x) as (s2 & E2 & Hl2); [done..|].
  assert (pframes s2 !! pf = Some x) as Hx2 by by rewrite Hl2.
  exists s2. split; [|by eapply lru_trans]. unfold pframe_lookup.
  assert (o_lookuppage (mmobj_table vn (S k)) b n 0 s1 = Ret (0, Some pf) s2) as E3.
  { cbn [mmobj_table dispatch o_lookuppage]. by rewrite (bind_step _ _ _ _ _ (mmobj_at_eval _ _ _ Hy1)), Hops. }
  rewrite (bind_step _ _ _ _ _ E3). change (0 <? 0) with false. cbn beta iota.
  erewrite bind_step by reflexivity. rewrite (bind_step _ _ _ _ _ (pframe_at_eq _ _ _ Hx2)).
  apply frame_at_Some in Hf as (x' & Hx' & _ & <-). assert (x' = x) as -> by congruence.
  rewrite Z.eqb_refl, Hb. by erewrite bind_step by reflexivity.
Qed.

(** ** Copy on write *)

(** [s'] is [s] with a new frame [pf], now [fr], for page [n] of the object
    [o], and the memory [m]. *)
Record grown (s : vst) (o : optr) (n : Z) (pf : pfptr) (fr : pframe) (m : Z → Z) (s' : vst) : Prop := {
  gr_frames : pframes s' = <[pf := fr]> (pframes s);
  gr_hash : pframe_hash s' = <[hash_page o n := pf :: hashchain s o n]> (pframe_hash s);
  gr_objs : ∃ x x', mmobjs s !! o = Some x ∧ mmobjs s' = <[o := x']> (mmobjs s) ∧
    mmo_shadowed x' = mmo_shadowed x ∧ mmo_ops x' = mmo_ops x;
  gr_mem : mem s' = m;
  gr_queue : tq_list (queue (v_k s') (pf_waitq pf)) = [];
  gr_spaces : pts s' = pts s ∧ vmaps s' = vmaps s ∧ procvm s' = procvm s ∧
    curproc (v_k s') = curproc (v_k s) ∧ procs (v_k s') = procs (v_k s);
}.

Section grown.
Context (s : vst) (o : optr) (n : Z) (pf : pfptr).
Hypothesis Hinv : cache_inv s.
Hypothesis Hnew : pframes s !! pf = None.
Hypothesis Habs : frame_at s o n = None.

Lemma grown_resident fr m s' o' n' q :
  grown s o n pf fr m s' → pf_obj fr = Some o → pf_pagenum fr = n →
  resident s' o' n' q ↔ q = pf ∧ o' = o ∧ n' = n ∨ resident s o' n' q.
Proof.
  intros Hg Ho Hn. unfold resident. rewrite (gr_frames _ _ _ _ _ _ _ Hg). split.
  - intros (x & [[<- <-]|[_ Hx]]%lookup_insert_Some & Hxo & Hxn); [left; by split_and!; congruence|right; by exists x].
  - intros [(-> & -> & ->)|(x & Hx & ?)]; [exists fr; by rewrite lookup_insert_eq|].
    exists x. rewrite lookup_insert_ne; [done|]. congruence.
Qed.

Lemma grown_cache fr m s' :
  grown s o n pf fr m s' → pf_obj fr = Some o → pf_pagenum fr = n → cache_inv s'.
Proof.
  intros Hg Ho Hn. pose proof (grown_resident fr m s') as Hres. split.
  - intros o' n' q Hq. apply Hres in Hq; [|done..]. unfold hashchain. rewrite (gr_hash _ _ _ _ _ _ _ Hg).
    destruct (decide (hash_page o' n' = hash_page o n)) as [Heq|Hne].
    + rewrite Heq, lookup_insert_eq. simpl. destruct Hq as [(-> & _)|Hq]; [by left|right].
      apply (ci_hash s Hinv) in Hq. unfold hashchain in Hq. by rewrite Heq in Hq.
    + rewrite lookup_insert_ne by done. destruct Hq as [(-> & -> & ->)|Hq]; [done|]. by apply (ci_hash s Hinv).
  - intros h l q Hl Hq. rewrite (gr_hash _ _ _ _ _ _ _ Hg) in Hl. rewrite (gr_frames _ _ _ _ _ _ _ Hg).
    apply lookup_insert_is_Some'.
    apply lookup_insert_Some in Hl as [[<- <-]|[_ Hl]]; [|right; by apply (ci_live s Hinv h l)].
    apply elem_of_cons in Hq as [->|Hq]; [by left|right]. by apply (hashchain_live s o n).
  - intros o' n' q q' Hq Hq'. apply Hres in Hq, Hq'; [|done..].
    destruct Hq as [(-> & -> & ->)|Hq], Hq' as [(-> & ? & ?)|Hq']; subst; try done.
    + by destruct (frame_at_None s o (pf_pagenum fr) q' Habs).
    + by destruct (frame_at_None s o (pf_pagenum fr) q Habs).
    + by apply (ci_uniq s Hinv o' n').
Qed.

Lemma grown_frame_at fr m s' o' n' :
  grown s o n pf fr m s' → pf_obj fr = Some o → pf_pagenum fr = n →
  frame_at s' o' n' = if decide (o' = o ∧ n' = n) then Some pf else frame_at s o' n'.
Proof.
  intros Hg Ho Hn. pose proof (grown_cache fr m s' Hg Ho Hn) as Hi. case_decide as Hd.
  - apply frame_at_iff; [done|]. apply (grown_resident fr m); [done..|]. left. tauto.
  - destruct (frame_at s o' n') as [q|] eqn:Hq.
    + apply frame_at_iff; [done|]. apply (grown_resident fr m); [done..|]. right. by apply frame_at_Some.
    + destruct (frame_at s' o' n') as [q|] eqn:Hq'; [|done]. apply frame_at_Some in Hq'.
      apply (grown_resident fr m) in Hq'; [|done..]. destruct Hq' as [(_ & ? & ?)|Hq']; [tauto|].
      by destruct (frame_at_None s o' n' q Hq).
Qed.

Lemma grown_top fr m s' l :
  grown s o n pf fr m s' → pf_obj fr = Some o → pf_pagenum fr = n → o ∉ l →
  top_frame s' n l = top_frame s n l.
Proof.
  intros Hg Ho Hn. induction l as [|p l IH]; [done|]. rewrite not_elem_of_cons. intros [Hp Hl]. simpl.
  rewrite (grown_frame_at fr m s') by done. rewrite decide_False by (intros [? _]; congruence). by rewrite IH.
Qed.

Lemma grown_chain fr m s' p l b :
  grown s o n pf fr m s' → chain (mmobjs s) p l b → chain (mmobjs s') p l b.
Proof.
  intros Hg. destruct (gr_objs _ _ _ _ _ _ _ Hg) as (x & x' & Hx & -> & Hsh & _).
  assert (∀ q y, mmobjs s !! q = Some y → ∃ z, <[o := x']> (mmobjs s) !! q = Some z ∧ mmo_shadowed z = mmo_shadowed y) as Hz.
  { intros q y Hy. destruct (decide (q = o)) as [->|Hne]; [|by exists y; rewrite lookup_insert_ne].
    exists x'. rewrite lookup_insert_eq. by replace y with x by congruence. }
  induction 1 as [q y Hy Hs|q y next l b Hy Hs Hc IH]; destruct (Hz q y Hy) as (z & Hz1 & Hz2).
  - eapply chain_bottom; [exact Hz1|congruence].
  - eapply chain_shadow; [exact Hz1|by rewrite Hz2|done].
Qed.

Lemma grown_lru fr m s1 s2 : grown s o n pf fr m s1 → lru s1 s2 → grown s o n pf fr m s2.
Proof. intros [H1 H2 H3 H4 H5 H6] Hl. rewrite Hl. by split. Qed.

(** The steps taken while the frame is set up. *)
Lemma grown_upd fr m s1 g : grown s o n pf fr m s1 →
  returns (upd_pframe pf g) s1 (λ _, grown s o n pf (g fr) m).
Proof.
  intros [H1 H2 H3 H4 H5 H6]. unfold returns, upd_pframe. rewrite H1, lookup_insert_eq.
  eexists _, _. split; [done|]. split; try done. simpl. by rewrite H1, insert_insert_eq.
Qed.

Lemma grown_at fr m s1 : grown s o n pf fr m s1 → pframe_at pf s1 = Ret fr s1.
Proof. intros Hg. apply pframe_at_eq. by rewrite (gr_frames _ _ _ _ _ _ _ Hg), lookup_insert_eq. Qed.

Lemma grown_pin fr m s1 :
  grown s o n pf fr m s1 → is_Some (pf_obj fr) → 0 <= pf_pincount fr →
  returns (pframe_pin pf) s1 (λ _, grown s o n pf (with_pincount (pf_pincount fr + 1) fr) m).
Proof.
  intros Hg [o' Ho] Hp. unfold pframe_pin. eapply returns_step; [by apply (grown_at _ _ _ Hg)|].
  unfold pframe_is_free. rewrite Ho, bool_decide_eq_false_2, (proj2 (Z.leb_le _ _)) by done.
  do 2 (eapply returns_step; [reflexivity|]). destruct (pframe_is_pinned fr); cbn [negb];
    (eapply returns_step; [reflexivity|]); apply (grown_upd fr m _ (λ p, with_pincount (pf_pincount p + 1) p)); [done|].
  destruct Hg as [H1 H2 H3 H4 H5 H6]. by split.
Qed.

Lemma grown_unpin fr m s1 :
  grown s o n pf fr m s1 → is_Some (pf_obj fr) → 0 < pf_pincount fr →
  returns (pframe_unpin pf) s1 (λ _, grown s o n pf (with_pincount (pf_pincount fr - 1) fr) m).
Proof.
  intros Hg [o' Ho] Hp. unfold pframe_unpin. eapply returns_step; [by apply (grown_at _ _ _ Hg)|].
  unfold pframe_is_free. rewrite Ho, bool_decide_eq_false_2, (proj2 (Z.ltb_lt _ _)) by done.
  do 2 (eapply returns_step; [reflexivity|]). eapply returns_bind; [by apply (grown_upd fr m _ (λ p, with_pincount (pf_pincount p - 1) p))|].
  intros _u s2 [H1 H2 H3 H4 H5 H6]. destruct (_ =? 0); [|apply returns_ret; by split].
  eexists _, _. split; [reflexivity|]. by split.
Qed.

Lemma grown_fill_mem fr m s1 f : grown s o n pf fr m s1 →
  returns (modify (set_mem f)) s1 (λ _, grown s o n pf fr (f m)).
Proof. intros [H1 H2 H3 H4 H5 H6]. eexists _, _. split; [done|]. split; try done. simpl. by rewrite H4. Qed.

(** Allocating the frame. *)
Lemma alloc_grown vn k x addr :
  mmobjs s !! o = Some x → mmo_ops x = shadow_mmobj_ops → 0 < mmo_refcount x →
  slab_alloc_pframe s = Some pf → page_alloc s = Some addr →
  returns (pframe_alloc (mmobj_table vn (S k)) o n) s
    (λ r s1, r = Some pf ∧ grown s o n pf (Pframe addr (Some o) n false false 0) (mem s) s1).
Proof.
  intros Hx Hops Href Hpf Hpa. unfold pframe_alloc. eapply returns_step; [reflexivity|]. rewrite Hpf, Hpa.
  do 3 (eapply returns_step; [reflexivity|]). eapply returns_step; [by apply lift_Ret|].
  eapply returns_step; [reflexivity|]. eapply returns_step; [by apply (table_ref vn k o x)|].
  eapply returns_step; [apply upd_mmobj_eval; simpl; apply lookup_insert_eq|].
  eapply returns_step; [apply upd_mmobj_eval; simpl; apply lookup_insert_eq|]. apply returns_ret. split; [done|].
  split; simpl; try done.
  - eexists x, _. split; [done|]. rewrite !insert_insert_eq. by split_and!.
  - unfold queue. simpl. by rewrite lookup_insert_eq.
Qed.
End grown.

(** The loop of [shadow_fillpage] finds the first frame below [o]. *)
Lemma fill_chain_spec n b q fuel : ∀ s o l,
  cache_inv s → chain (mmobjs s) o (o :: l) b → (length l ≤ fuel)%nat → top_frame s n (l ++ [b]) = Some q →
  ∃ s', fill_chain fuel o n s = Ret (Some q) s' ∧ lru s s'.
Proof.
  induction fuel as [|fuel IH]; intros s o l Hi Hc Hf Ht; inversion Hc as [|? x next l' ? Hx Hs Hc']; subst;
    cbn [fill_chain]; rewrite (bind_step _ _ _ _ _ (mmobj_at_eval _ _ _ Hx)), Hs;
    destruct (get_resident_spec s next n Hi) as (s1 & E & Hl); rewrite (bind_step _ _ _ _ _ E).
  - destruct l; [|simpl in Hf; lia]. inversion Hc'; subst. simpl in Ht. destruct (frame_at s b n); [|done].
    exists s1. by simplify_eq.
  - destruct (frame_at s next n) as [q'|] eqn:Hfr.
    + exists s1. split; [|done]. inversion Hc'; subst; simpl in Ht; rewrite Hfr in Ht; by injection Ht as <-.
    + assert (s1 = s) as -> by (pose proof (get_resident_absent s next n Hi Hfr); congruence).
      inversion Hc' as [? y Hy Hn|? y next' l' ? Hy Hs' Hc'']; subst; simpl in Ht; rewrite Hfr in Ht; [done|].
      apply (IH s next l'); [done..|simpl in Hf; lia|done].
Qed.

(** The page read through the object below is copied into the new frame. *)
Lemma shadow_fill_grown ops s o n pf fr s1 l b q y :
  cache_inv s → pframes s !! pf = None → frame_at s o n = None →
  grown s o n pf fr (mem s) s1 → pf_obj fr = Some o → pf_pagenum fr = n → pf_busy fr = true → pf_pincount fr = 0 →
  chain (mmobjs s) o (o :: l) b → top_frame s n (l ++ [b]) = Some q → pframes s !! q = Some y →
  returns (shadow_fillpage ops o pf) s1 (λ r s2, r = 0 ∧
    grown s o n pf (with_pincount 1 fr) (copy_page (pf_addr fr) (pf_addr y) (mem s)) s2).
Proof.
  intros Hi Hnew Habs Hg Ho Hn Hb Hp Hc Ht Hy. unfold shadow_fillpage.
  eapply returns_step; [by apply (grown_at _ _ _ _ _ _ _ Hg)|]. unfold pframe_is_pinned. rewrite Hb, Hp.
  do 3 (eapply returns_step; [reflexivity|]). rewrite Hn.
  assert (o ∉ l ++ [b]) as Hol.
  { pose proof (chain_nodup _ _ _ _ Hc) as [? _]%NoDup_cons. pose proof (chain_bottom_notin _ _ _ _ Hc). set_solver. }
  pose proof (grown_chain s o n pf fr _ s1 o _ b Hg Hc) as Hc1.
  destruct (fill_chain_spec n b q (size (mmobjs s1)) s1 o l) as (s2 & E & Hl); [by eapply grown_cache|done| | |].
  { apply chain_length in Hc1. simpl in Hc1. lia. }
  { by rewrite (grown_top s o n pf Hi Hnew Habs fr (mem s)). }
  eapply returns_step; [exact E|]. pose proof (grown_lru _ _ _ _ _ _ _ _ Hg Hl) as Hg2.
  eapply returns_bind; [apply (grown_pin _ _ _ _ _ _ _ Hg2); [by rewrite Ho|lia]|].
  intros _u s3 Hg3. cbv beta in Hg3. rewrite Hp in Hg3.
  assert (q ≠ pf) as Hqp by congruence.
  eapply returns_step; [apply pframe_at_eq; by rewrite (gr_frames _ _ _ _ _ _ _ Hg3), lookup_insert_ne|].
  eapply returns_bind; [by apply grown_fill_mem|]. intros _v s4 Hg4. by apply returns_ret.
Qed.

(** Filling a frame that was just allocated. *)
Lemma fill_grown vn k s o n pf addr s1 l b q y :
  cache_inv s → pframes s !! pf = None → frame_at s o n = None →
  grown s o n pf (Pframe addr (Some o) n false false 0) (mem s) s1 →
  (∃ x, mmobjs s !! o = Some x ∧ mmo_ops x = shadow_mmobj_ops) →
  chain (mmobjs s) o (o :: l) b → top_frame s n (l ++ [b]) = Some q → pframes s !! q = Some y →
  returns (pframe_fill (mmobj_table vn (S k)) pf) s1 (λ r s2, r = 0 ∧
    grown s o n pf (Pframe addr (Some o) n false false 1) (copy_page addr (pf_addr y) (mem s)) s2).
Proof.
  intros Hi Hnew Habs Hg (x & Hx & Hops) Hc Ht Hy. unfold pframe_fill.
  eapply returns_bind; [apply (grown_upd _ _ _ _ _ _ _ _ Hg)|]. intros _u s2 Hg2. cbv beta in Hg2. cbn in Hg2.
  eapply returns_step; [apply (grown_at _ _ _ _ _ _ _ Hg2)|]. eapply returns_step; [reflexivity|].
  eapply returns_bind.
  { cbn [mmobj_table dispatch o_fillpage]. destruct (gr_objs _ _ _ _ _ _ _ Hg2) as (x0 & x' & Hx0 & Hobj & _ & Hx').
    eapply returns_step; [apply mmobj_at_eval; by rewrite Hobj, lookup_insert_eq|].
    replace (mmo_ops x') with shadow_mmobj_ops by congruence.
    by eapply (shadow_fill_grown _ s o n pf (with_busy true (Pframe addr (Some o) n false false 0)) s2 l b q y). }
  intros r s3 [-> Hg3]. eapply returns_bind; [apply (grown_upd _ _ _ _ _ _ _ _ Hg3)|]. intros _v s4 Hg4.
  eapply returns_step; [apply broadcast_empty, Hg4|]. by apply returns_ret.
Qed.
(** The bytes of the page at [a]. *)
Definition page (s : vst) (a : Z) : list Z := mem_read a PAGE_SIZE s.

Lemma page_ext s s' a a' :
  (∀ i, 0 <= i < PAGE_SIZE → mem s' (a' + i) = mem s (a + i)) → page s' a' = page s a.
Proof.
  intros Heq. unfold page, mem_read. apply list_fmap_ext. intros i x Hx. apply lookup_seqZ in Hx as [-> Hi].
  apply Heq. lia.
Qed.

Lemma copied_page s s' dst src : mem s' = copy_page dst src (mem s) → page s' dst = page s src.
Proof. intros Hm. apply page_ext. intros i Hi. rewrite Hm. unfold copy_page. rewrite decide_True by lia. f_equal. lia. Qed.

Lemma untouched_page s s' dst src a :
  mem s' = copy_page dst src (mem s) → dst + PAGE_SIZE <= a ∨ a + PAGE_SIZE <= dst → page s' a = page s a.
Proof. intros Hm Ha. apply page_ext. intros i Hi. rewrite Hm. unfold copy_page. by rewrite decide_False by lia. Qed.

(** In [s'] frame [pf] is a private copy, for page [n] of [o], of the page in
    frame [y]; no other object has other pages than in [s], and no other page
    other contents. *)
Record private_copy (s : vst) (o : optr) (n : Z) (y : pframe) (pf : pfptr) (fr : pframe) (s' : vst) : Prop := {
  pc_cache : cache_inv s';
  pc_frame : pframes s' !! pf = Some fr;
  pc_dirty : pf_dirty fr = true;
  pc_page : page s' (pf_addr fr) = page s (pf_addr y);
  pc_others : ∀ p z, pframes s !! p = Some z →
    pframes s' !! p = Some z ∧ page s' (pf_addr z) = page s (pf_addr z);
  pc_frame_at : ∀ o' n', frame_at s' o' n' = if decide (o' = o ∧ n' = n) then Some pf else frame_at s o' n';
  pc_chain : ∀ p l b, chain (mmobjs s) p l b → chain (mmobjs s') p l b;
}.

Lemma grown_copy s o n y pf fr s' :
  cache_inv s → pframes s !! pf = None → frame_at s o n = None →
  grown s o n pf fr (copy_page (pf_addr fr) (pf_addr y) (mem s)) s' →
  page_alloc s = Some (pf_addr fr) → pf_obj fr = Some o → pf_pagenum fr = n → pf_dirty fr = true →
  private_copy s o n y pf fr s'.
Proof.
  intros Hi Hnew Habs Hg Hpa Ho Hn Hd. pose proof (gr_mem _ _ _ _ _ _ _ Hg) as Hm. split.
  - by eapply (grown_cache s o n pf).
  - by rewrite (gr_frames _ _ _ _ _ _ _ Hg), lookup_insert_eq.
  - done.
  - by apply copied_page.
  - intros p z Hz. split.
    + rewrite (gr_frames _ _ _ _ _ _ _ Hg), lookup_insert_ne; [done|]. congruence.
    + apply (untouched_page s s' (pf_addr fr) (pf_addr y)); [done|]. by apply (page_fresh s _ p z).
  - intros o' n'. by eapply (grown_frame_at s o n pf).
  - intros p l' b'. by apply (grown_chain s o n pf fr _ s' p l' b' Hg).
Qed.

Lemma shadow_write_grown vn k o x l b n q y s :
  cache_inv s → chain (mmobjs s) o (o :: l) b →
  mmobjs s !! o = Some x → mmo_ops x = shadow_mmobj_ops → 0 < mmo_refcount x →
  frame_at s o n = None → top_frame s n (l ++ [b]) = Some q → pframes s !! q = Some y →
  is_Some (slab_alloc_pframe s) → is_Some (page_alloc s) →
  ∃ pf addr s', shadow_lookuppage (mmobj_table vn (S k)) o n 1 s = Ret (0, Some pf) s' ∧
    pframes s !! pf = None ∧ page_alloc s = Some addr ∧
    grown s o n pf (Pframe addr (Some o) n false true 1) (copy_page addr (pf_addr y) (mem s)) s'.
Proof.
  intros Hi Hc Hx Hops Href Habs Ht Hy [pf Hpf] [addr Hpa]. pose proof (pframe_fresh _ _ Hpf) as Hnew.
  destruct (alloc_grown s o n pf vn k x addr) as (r & s1 & E1 & -> & Hg1); [done..|].
  destruct (fill_grown vn k s o n pf addr s1 l b q y) as (r & s2 & E2 & -> & Hg2); [try done..|]; [by exists x|].
  destruct (grown_upd _ _ _ _ _ _ _ (with_dirty true) Hg2) as ([] & s3 & E3 & Hg3). cbn in Hg3.
  exists pf, addr, s3. split_and!; try done. pose proof (get_resident_absent s o n Hi Habs) as E0.
  assert (pframe_get (mmobj_table vn (S k)) o n s = Ret (0, Some pf) s2) as Eget.
  { unfold pframe_get. rewrite (bind_step _ _ _ _ _ E0), (bind_step _ _ _ _ _ E1).
    erewrite bind_step by reflexivity. rewrite (bind_step _ _ _ _ _ E2). change (0 <? 0) with false. cbn iota.
    rewrite (bind_step _ _ _ _ _ (grown_at _ _ _ _ _ _ _ Hg2)). by erewrite bind_step by reflexivity. }
  unfold shadow_lookuppage. change (negb (1 =? 1)) with false. cbn iota.
  rewrite (bind_step _ _ _ _ _ E0), (bind_step _ _ _ _ _ Eget). change (negb (0 =? 0)) with false. cbn beta iota.
  erewrite bind_step by reflexivity. unfold shadow_dirtypage, pframe_set_dirty.
  rewrite bind_unfold. rewrite (bind_step _ _ _ _ _ E3). done.
Qed.

(** C16. A write through a shadow object that does not have the page makes a
    private copy of it: [shadow_lookuppage] returns a new dirty frame for
    the page of that object, with the contents a reader of the object saw
    before, from the first object below that has the page.  All other frames
    keep their contents, every other object keeps its pages, and all chains of
    shadow objects stay as they are: no reader of another object sees a
    difference. *)
Theorem shadow_write_copies vn k o x l b n q y s :
  cache_inv s → chain (mmobjs s) o (o :: l) b →
  mmobjs s !! o = Some x → mmo_ops x = shadow_mmobj_ops → 0 < mmo_refcount x →
  frame_at s o n = None → top_frame s n (l ++ [b]) = Some q → pframes s !! q = Some y →
  is_Some (slab_alloc_pframe s) → is_Some (page_alloc s) →
  ∃ pf fr s', shadow_lookuppage (mmobj_table vn (S k)) o n 1 s = Ret (0, Some pf) s' ∧
    private_copy s o n y pf fr s'.
Proof.
  intros Hi Hc Hx Hops Href Habs Ht Hy Hpf Hpa.
  destruct (shadow_write_grown vn k o x l b n q y s) as (pf & addr & s' & E & Hnew & Ha & Hg); [done..|].
  exists pf, (Pframe addr (Some o) n false true 1), s'. split; [done|]. by apply grown_copy.
Qed.
End shadow.
