(* ===== verification/ObjProps.v ===== *)
(** * Reference counts of memory objects

    The invariant that ties the reference counts of anonymous and shadow
    objects to the areas, shadow objects and resident pages that refer to
    them; that dropping references preserves it and frees exactly the objects
    nothing refers to any more; and that anonymous and shadow objects keep
    what address spaces ask of the objects they map. *)

From S2P Require Import Prelude Kstate Sched Kmutex Vmstate Pframe Mmobj Vmmap Areas VmmapProps ShadowProps.
Local Open Scope Z_scope.

(** All areas of all address spaces. *)
Definition areas_of (s : vst) : list vmarea := concat (vmm_list <$> (map_to_list (vmaps s)).*2).

Definition is_file (x : mmobj) : Prop :=
  match mmo_ops x with vnode_mmobj_ops _ => True | _ => False end.

(** The number of references to [o] from areas and from shadow objects,
    those in [D], which are being freed, not counted. *)
Definition mappers (s : vst) (o : optr) : nat := length (filter (λ v, vma_obj v = Some o) (areas_of s)).
Definition links (D : gset optr) (h : gmap optr mmobj) : gmap optr (option optr) :=
  mmo_shadowed <$> filter (λ kv, kv.1 ∉ D) h.
Definition shadowers (D : gset optr) (h : gmap optr mmobj) (o : optr) : nat :=
  size (filter (λ kv, kv.2 = Some o) (links D h)).
Definition users (D : gset optr) (s : vst) (o : optr) : nat := (mappers s o + shadowers D (mmobjs s) o)%nat.
Definition times (o : optr) (e : list optr) : nat := length (filter (λ p, p = o) e).

(** An area can be told that a page of its object goes. *)
Definition area_live (s : vst) (v : vmarea) : Prop :=
  ∃ m mp, vma_vmmap v = Some m ∧ vmaps s !! m = Some mp ∧
    ∀ p, vmm_proc mp = Some p → ∃ pr, procs (v_k s) !! p = Some pr ∧ is_Some (p_pagedir pr).

(** Pages of anonymous objects are not pinned; those of shadow objects are,
    once, and they are dirty. *)
Definition frame_ok (k : ops_kind) (y : pframe) : Prop :=
  match k with
  | anon_mmobj_ops => pf_pincount y = 0
  | shadow_mmobj_ops => pf_pincount y = 1 ∧ pf_dirty y = true
  | vnode_mmobj_ops _ => True
  end.

Record page_frame (s : vst) (o : optr) (k : ops_kind) (pf : pfptr) (y : pframe) : Prop := {
  fo_at : pframes s !! pf = Some y;
  fo_obj : pf_obj y = Some o;
  fo_idle : pf_busy y = false;
  fo_ok : frame_ok k y;
  fo_quiet : tq_list (queue (v_k s) (pf_waitq pf)) = [];
}.

(** What is underneath: nothing for an anonymous object, which knows the
    areas that map it; for a shadow object a chain to its bottom object. *)
Definition linked_ok (D : gset optr) (s : vst) (o : optr) (x : mmobj) : Prop :=
  match mmo_ops x with
  | anon_mmobj_ops => mmo_shadowed x = None ∧ ∃ l, mmo_un x = mmo_vmas l ∧
      ∀ a, a ∈ l → ∃ v, v ∈ areas_of s ∧ vma_id v = a
  | shadow_mmobj_ops => ∃ next y l b, mmo_shadowed x = Some next ∧ mmobjs s !! next = Some y ∧
      next ∉ D ∧ ¬ is_file y ∧ chain (mmobjs s) o l b ∧ mmo_un x = mmo_bottom_obj b
  | vnode_mmobj_ops _ => True
  end.

(** [e] are references that are held but belong to no area or object. *)
Record obj_ok (e : list optr) (D : gset optr) (s : vst) (o : optr) (x : mmobj) : Prop := {
  ok_refs : mmo_refcount x = mmo_nrespages x + Z.of_nat (users D s o + times o e);
  ok_used : (0 < users D s o + times o e)%nat;
  ok_count : mmo_nrespages x = Z.of_nat (length (mmo_respages x));
  ok_nodup : NoDup (mmo_respages x);
  ok_frames : ∀ pf, pf ∈ mmo_respages x → ∃ y, page_frame s o (mmo_ops x) pf y;
  ok_linked : linked_ok D s o x;
}.

Section obj_inv.
Context {VE : VmEnv}.

Record objs_ok (e : list optr) (D : gset optr) (s : vst) : Prop := {
  oo_cache : cache_inv s;
  oo_areas : ∀ v, v ∈ areas_of s → area_live s v ∧
    ∃ o x, vma_obj v = Some o ∧ mmobjs s !! o = Some x ∧ o ∉ D ∧ ¬ is_file x;
  oo_ids : ∀ m mp, vmaps s !! m = Some mp → NoDup (ids (vmm_list mp));
  oo_obj : ∀ o x, mmobjs s !! o = Some x → o ∉ D → ¬ is_file x → obj_ok e D s o x;
  oo_owner : ∀ pf y o, pframes s !! pf = Some y → pf_obj y = Some o →
    ∃ x, mmobjs s !! o = Some x ∧ pf ∈ mmo_respages x;
  oo_dead : ∀ o x, o ∈ D → mmobjs s !! o = Some x → mmo_respages x = [];
  oo_files : ∀ o x, mmobjs s !! o = Some x → is_file x → mmo_shadowed x = None;
  oo_home : ∀ m mp v, vmaps s !! m = Some mp → v ∈ vmm_list mp → vma_vmmap v = Some m;
}.
End obj_inv.

(** ** Counting *)

Lemma elem_of_areas s v : v ∈ areas_of s ↔ ∃ m mp, vmaps s !! m = Some mp ∧ v ∈ vmm_list mp.
Proof.
  unfold areas_of. rewrite list_elem_of_In, in_concat. split.
  - intros (l & (mp & -> & ([m mp'] & -> & Hm)%list_elem_of_fmap)%list_elem_of_In%list_elem_of_fmap & Hv).
    exists m, mp'. rewrite <- elem_of_map_to_list. split; [done|by apply list_elem_of_In].
  - intros (m & mp & Hm & Hv). exists (vmm_list mp). split; [|by apply list_elem_of_In].
    apply list_elem_of_In, list_elem_of_fmap. exists mp. split; [done|]. apply list_elem_of_fmap.
    exists (m, mp). by rewrite elem_of_map_to_list.
Qed.

(** The areas when address space [m] gets other ones. *)
Lemma areas_insert s s' m mp mp' :
  vmaps s !! m = Some mp → vmaps s' = <[m := mp']> (vmaps s) →
  ∃ rest, areas_of s ≡ₚ vmm_list mp ++ rest ∧ areas_of s' ≡ₚ vmm_list mp' ++ rest.
Proof.
  intros Hm Hm'. exists (concat (vmm_list <$> (map_to_list (delete m (vmaps s))).*2)). unfold areas_of. split.
  - by rewrite <- (map_to_list_delete _ _ _ Hm).
  - rewrite Hm', <- (insert_delete_eq (vmaps s)), map_to_list_insert by apply lookup_delete_eq. done.
Qed.

Lemma links_insert D h o x x' :
  h !! o = Some x → mmo_shadowed x' = mmo_shadowed x → links D (<[o := x']> h) = links D h.
Proof.
  intros Ho Hs. unfold links. apply map_eq. intros p. rewrite !lookup_fmap, !map_lookup_filter.
  destruct (decide (p = o)) as [->|Hne]; [|by rewrite lookup_insert_ne].
  rewrite lookup_insert_eq, Ho. simpl. case_guard; simpl; congruence.
Qed.

Lemma links_fmap D h f : (∀ x, mmo_shadowed (f x) = mmo_shadowed x) → links D (f <$> h) = links D h.
Proof.
  intros Hf. unfold links. apply map_eq. intros p. rewrite !lookup_fmap, !map_lookup_filter, lookup_fmap.
  destruct (h !! p); simpl; [|done]. case_guard; simpl; congruence.
Qed.

Lemma links_delete D h o : links ({[o]} ∪ D) h = links D (delete o h).
Proof.
  unfold links. apply map_eq. intros p. rewrite !lookup_fmap, !map_lookup_filter.
  destruct (decide (p = o)) as [->|Hne].
  - rewrite lookup_delete_eq. destruct (h !! o); simpl; [|done]. by rewrite option_guard_False by set_solver.
  - rewrite lookup_delete_ne by done. destruct (h !! p); simpl; [|done].
    destruct (decide (p ∈ D)); [by rewrite !option_guard_False by set_solver|].
    by rewrite !option_guard_True by set_solver.
Qed.

(** Taking the link of [o] away. *)
Lemma shadowers_drop D h o x p :
  h !! o = Some x → o ∉ D →
  shadowers D h p = (shadowers ({[o]} ∪ D) h p + if decide (mmo_shadowed x = Some p) then 1 else 0)%nat.
Proof.
  intros Ho HD. unfold shadowers. rewrite links_delete.
  assert (links D (delete o h) !! o = None) as Hn.
  { unfold links. by rewrite lookup_fmap, map_lookup_filter, lookup_delete_eq. }
  assert (links D h = <[o := mmo_shadowed x]> (links D (delete o h))) as ->.
  { apply map_eq. intros q. unfold links. destruct (decide (q = o)) as [->|Hne].
    - rewrite lookup_insert_eq, lookup_fmap, map_lookup_filter, Ho. simpl. by rewrite option_guard_True.
    - rewrite lookup_insert_ne by done. rewrite !lookup_fmap, !map_lookup_filter. by rewrite lookup_delete_ne. }
  case_decide as Hp.
  - rewrite map_filter_insert_True by done. rewrite map_size_insert_None; [lia|].
    rewrite map_lookup_filter, Hn. done.
  - rewrite map_filter_insert_False by done. rewrite delete_id by done. lia.
Qed.

Lemma shadowers_pos D h p y next :
  h !! p = Some y → p ∉ D → mmo_shadowed y = Some next → (0 < shadowers D h next)%nat.
Proof. intros Hp HD Hs. rewrite (shadowers_drop D h p y) by done. rewrite decide_True by done. lia. Qed.

(** ** Cleaning and freeing a page *)

(** Only page tables, memory, frames and the lists of frames differ. *)
Record aside (s s' : vst) : Prop := {
  as_k : v_k s' = v_k s;
  as_objs : mmobjs s' = mmobjs s;
  as_hash : pframe_hash s' = pframe_hash s;
  as_maps : vmaps s' = vmaps s;
  as_procvm : procvm s' = procvm s;
  as_fs : v_fs s' = v_fs s;
}.

#[global] Instance aside_preorder : PreOrder aside.
Proof.
  split; [by split|]. intros s1 s2 s3 [H1 H2 H3 H4 H5 H6] [G1 G2 G3 G4 G5 G6]. split; congruence.
Qed.

Lemma aside_areas s s' : aside s s' → areas_of s' = areas_of s.
Proof. intros Ha. unfold areas_of. by rewrite (as_maps _ _ Ha). Qed.

Lemma aside_live s s' v : aside s s' → area_live s v → area_live s' v.
Proof. intros [Hk _ _ Hm _ _]. unfold area_live. by rewrite Hk, Hm. Qed.

Section free.
Context {VE : VmEnv}.

(** The areas that map the object [o] can be reached. *)
Definition pts_ok (s : vst) (o : optr) : Prop :=
  ∃ xb l, mmobjs s !! mmobj_bottom_obj (mmobjs s) o = Some xb ∧ mmo_un xb = mmo_vmas l ∧
    (∀ a, a ∈ l → ∃ v, v ∈ areas_of s ∧ vma_id v = a) ∧ ∀ v, v ∈ areas_of s → area_live s v.

Lemma aside_pts s s' o : aside s s' → pts_ok s o → pts_ok s' o.
Proof.
  intros Ha (xb & l & Hb & Hu & Hl & Hv). exists xb, l.
  rewrite (as_objs _ _ Ha), (aside_areas _ _ Ha). split_and!; [done..|]. intros v Hin. eapply aside_live; eauto.
Qed.

Lemma area_at_ok s a v :
  v ∈ areas_of s → vma_id v = a → ∃ v', area_at a s = Ret v' s ∧ v' ∈ areas_of s.
Proof.
  intros Hv Hid. unfold area_at. msimpl. fold (areas_of s).
  destruct (list_find_elem_of (λ v, vma_id v = a) (areas_of s) v) as [[i v'] Hf]; [done..|].
  rewrite Hf. simpl. exists v'. split; [done|]. apply list_find_Some in Hf as [Hi _]. by eapply list_elem_of_lookup_2.
Qed.

(** A routine that only changes page tables. *)
Definition pts_only (m : V ()) (s : vst) : Prop := ∃ t, m s = Ret () (set_pts (λ _, t) s).

Lemma pts_only_ret s : pts_only (mret ()) s.
Proof. exists (pts s). by destruct s. Qed.

Lemma pts_only_bind m1 m2 s : pts_only m1 s → (∀ t, pts_only m2 (set_pts (λ _, t) s)) → pts_only (m1;; m2) s.
Proof.
  intros [t E] H2. destruct (H2 t) as [t' E']. exists t'. by rewrite (bind_step _ _ _ _ _ E), E'.
Qed.

Lemma unmap_each_ok x l : ∀ s,
  (∀ a, a ∈ l → ∃ v, v ∈ areas_of s ∧ vma_id v = a) → (∀ v, v ∈ areas_of s → area_live s v) →
  pts_only (unmap_each x l) s.
Proof.
  induction l as [|a l IH]; intros s Hl Hv; cbn [unmap_each]; [apply pts_only_ret|].
  destruct (Hl a) as (v & Hin & Hid); [by left|]. destruct (area_at_ok s a v Hin Hid) as (v' & E & Hin').
  unfold pts_only. rewrite (bind_step _ _ _ _ _ E). destruct (Hv v' Hin') as (m & mp & Hm & Hmp & Hp).
  apply pts_only_bind; [|intros t; apply IH; [intros b Hb; apply Hl; by right|done]].
  destruct (_ && _); [|apply pts_only_ret]. unfold pts_only. rewrite Hm. erewrite bind_step by reflexivity.
  unfold vmmap_at. rewrite bind_unfold, Hmp. cbn [obind].
  destruct (vmm_proc mp) as [p|]; [|apply pts_only_ret]. destruct (Hp p eq_refl) as (pr & Hpr & [pd Hpd]).
  rewrite (bind_step _ _ _ _ _ (lift_proc_at s p pr Hpr)), Hpd. erewrite bind_step by reflexivity. by eexists.
Qed.

Lemma remove_from_pts_ok s pf y o :
  pframes s !! pf = Some y → pf_obj y = Some o → pts_ok s o →
  pts_only (pframe_remove_from_pts pf) s.
Proof.
  intros Hy Ho (xb & l & Hb & Hu & Hl & Hv). unfold pts_only, pframe_remove_from_pts, bottom_vmas.
  rewrite (bind_step _ _ _ _ _ (pframe_at_eq _ _ _ Hy)), Ho. erewrite bind_step by reflexivity.
  msimpl. rewrite (mmobj_at_eval _ _ _ Hb). cbn [obind]. rewrite Hu. cbn [obind]. by apply unmap_each_ok.
Qed.

Lemma upd_pframe_eq s pf y f :
  pframes s !! pf = Some y → upd_pframe pf f s = Ret () (set_pframes (insert pf (f y)) s).
Proof. intros Hy. unfold upd_pframe. by rewrite Hy. Qed.

Context {MA : Machine} {ER : Errno}.

(** Cleaning a page: a page that could not be written stays dirty. *)
Lemma pframe_clean_eval ops s pf y o :
  pframes s !! pf = Some y → pf_obj y = Some o → pf_dirty y = true → pf_pincount y = 0 → pts_ok s o →
  ∃ t, let s1 := set_pframes (λ _, <[pf := with_busy true (with_dirty false y)]> (pframes s)) (set_pts (λ _, t) s) in
    ∀ r s2, o_cleanpage ops o pf s1 = Ret r s2 → pframes s2 = pframes s1 →
      tq_list (queue (v_k s2) (pf_waitq pf)) = [] →
      pframe_clean ops pf s =
        Ret r (set_pframes (λ _, <[pf := with_busy false (with_dirty (r <? 0) y)]> (pframes s)) s2).
Proof.
  intros Hy Ho Hd Hp Hpts. set (s0 := set_pframes (insert pf (with_dirty false y)) s).
  assert (pframes s0 !! pf = Some (with_dirty false y)) as Hy0 by apply lookup_insert_eq.
  destruct (remove_from_pts_ok s0 pf _ o Hy0 Ho Hpts) as [t Et]. exists t. intros s1 r s2 E2 Hs2 Hq.
  unfold pframe_clean, pframe_clear_dirty, pframe_set_busy, pframe_clear_busy.
  rewrite (bind_step _ _ _ _ _ (pframe_at_eq _ _ _ Hy)), Hd, Hp. rewrite !bind_assert by done.
  rewrite (bind_step _ _ _ _ _ (upd_pframe_eq _ _ _ _ Hy)). fold s0. rewrite (bind_step _ _ _ _ _ Et).
  assert (upd_pframe pf (with_busy true) (set_pts (λ _, t) s0) = Ret () s1) as E1.
  { rewrite (upd_pframe_eq _ _ (with_dirty false y)) by done. f_equal. apply vst_ext; try done. simpl.
    apply insert_insert_eq. }
  rewrite (bind_step _ _ _ _ _ E1), Ho. erewrite bind_step by reflexivity. rewrite (bind_step _ _ _ _ _ E2).
  assert (pframes s2 !! pf = Some (with_busy true (with_dirty false y))) as Hy2.
  { rewrite Hs2. apply lookup_insert_eq. }
  assert (∃ y2, (if r <? 0 then pframe_set_dirty pf else mret ()) s2 = Ret () (set_pframes (insert pf y2) s2) ∧
    with_busy false y2 = with_busy false (with_dirty (r <? 0) y)) as (y2 & Ed & Ey2).
  { destruct (r <? 0).
    - eexists. split; [exact (upd_pframe_eq _ _ _ _ Hy2)|done].
    - exists (with_busy true (with_dirty false y)). split; [|done]. unfold mret, M_ret. f_equal.
      apply vst_ext; try done. simpl. by rewrite insert_id. }
  rewrite (bind_step _ _ _ _ _ Ed). set (s3 := set_pframes _ s2).
  assert (upd_pframe pf (with_busy false) s3 =
    Ret () (set_pframes (λ _, <[pf := with_busy false (with_dirty (r <? 0) y)]> (pframes s)) s2)) as E3.
  { rewrite (upd_pframe_eq s3 pf y2) by apply lookup_insert_eq. f_equal. apply vst_ext; try done. simpl.
    rewrite insert_insert_eq, Hs2, Ey2. simpl. apply insert_insert_eq. }
  rewrite (bind_step _ _ _ _ _ E3). erewrite bind_step by (apply broadcast_empty; exact Hq). done.
Qed.

(** Cleaning a page of an object whose [cleanpage] operation succeeds. *)
Lemma pframe_clean_ok ops s pf y o :
  pframes s !! pf = Some y → pf_obj y = Some o → pf_dirty y = true → pf_pincount y = 0 →
  pts_ok s o → tq_list (queue (v_k s) (pf_waitq pf)) = [] →
  (∀ s1, aside s s1 → pframes s1 = <[pf := with_busy true (with_dirty false y)]> (pframes s) →
     ∃ r s2, o_cleanpage ops o pf s1 = Ret r s2 ∧ 0 <= r ∧ aside s1 s2 ∧ pframes s2 = pframes s1) →
  ∃ r s', pframe_clean ops pf s = Ret r s' ∧ aside s s' ∧
    pframes s' = <[pf := with_busy false (with_dirty false y)]> (pframes s).
Proof.
  intros Hy Ho Hd Hp Hpts Hq Hclean.
  destruct (pframe_clean_eval ops s pf y o) as (t & E); [done..|]. set (s1 := set_pframes _ _) in E.
  assert (aside s s1) as Ha1 by by split. destruct (Hclean s1) as (r & s2 & E2 & Hr & Ha2 & Hs2); [done..|].
  rewrite (E r s2), (proj2 (Z.ltb_ge r 0)); try done; [|by rewrite (as_k _ _ Ha2)].
  eexists _, _. split; [done|]. split; [|done]. transitivity s1; [done|]. transitivity s2; [done|]. by split.
Qed.

(** Freeing a page of an object that is referenced otherwise. *)
Lemma pframe_free_eval ops s pf y o x :
  pframes s !! pf = Some y → pf_obj y = Some o → pf_busy y = false → pf_pincount y = 0 →
  pts_ok s o → mmobjs s !! o = Some x →
  let x1 := with_respages (drop_pf pf) (with_nrespages (λ n, n - 1) x) in
  (∀ s1, mmobjs s1 !! o = Some x1 →
     o_put ops o s1 = Ret () (set_mmobjs (insert o (with_refcount (λ n, n - 1) x1)) s1)) →
  ∃ s', pframe_free ops pf s = Ret () s' ∧ v_k s' = v_k s ∧ vmaps s' = vmaps s ∧ procvm s' = procvm s ∧
    v_fs s' = v_fs s ∧ pframes s' = delete pf (pframes s) ∧ pframe_hash s' = drop_pf pf <$> pframe_hash s ∧
    mmobjs s' = <[o := with_refcount (λ n, n - 1) x1]> (with_respages (drop_pf pf) <$> mmobjs s) ∧
    alloc_list s' = drop_pf pf (alloc_list s) ∧ mem s' = mem s.
Proof.
  intros Hy Ho Hb Hp Hpts Hx x1 Hput. unfold pframe_free, remove_hlink, remove_link, remove_olink.
  rewrite (bind_step _ _ _ _ _ (pframe_at_eq _ _ _ Hy)). unfold pframe_is_pinned, pframe_is_free.
  rewrite Hb, Hp, Ho. rewrite bind_assert by done. rewrite bind_assert by (by rewrite bool_decide_eq_false_2).
  rewrite bind_assert by done. erewrite bind_step by reflexivity.
  destruct (remove_from_pts_ok s pf y o Hy Ho Hpts) as [t Et]. rewrite (bind_step _ _ _ _ _ Et).
  erewrite bind_step by reflexivity. set (s1 := set_hash _ _).
  assert (pframes s1 !! pf = Some y) as Hy1 by done. rewrite (bind_step _ _ _ _ _ (upd_pframe_eq _ _ _ _ Hy1)).
  do 2 (erewrite bind_step by reflexivity). set (s2 := set_alloc_list _ _).
  assert (mmobjs s2 !! o = Some x) as Hx2 by done. rewrite (bind_step _ _ _ _ _ (upd_mmobj_eval _ _ _ _ Hx2)).
  do 2 (erewrite bind_step by reflexivity). set (s3 := set_pframes _ _).
  assert (mmobjs s3 !! o = Some x1) as Hx3 by (simpl; by rewrite lookup_fmap, lookup_insert_eq).
  rewrite (Hput s3 Hx3). eexists. split_and!; try done; simpl.
  - apply delete_insert_eq.
  - by rewrite fmap_insert, insert_insert_eq.
Qed.
End free.

(** ** Steps that keep the structure *)

Definition shape (x : mmobj) : ops_kind * option optr * mmo_union := (mmo_ops x, mmo_shadowed x, mmo_un x).
Definition same_shape (h h' : gmap optr mmobj) : Prop := ∀ p, shape <$> h' !! p = shape <$> h !! p.

Lemma shape_fields x x' :
  shape x' = shape x → mmo_ops x' = mmo_ops x ∧ mmo_shadowed x' = mmo_shadowed x ∧ mmo_un x' = mmo_un x.
Proof. intros [= -> -> ->]. done. Qed.

Lemma shape_file x x' : shape x' = shape x → is_file x' → is_file x.
Proof. intros (Ho & _)%shape_fields. unfold is_file. by rewrite Ho. Qed.

Lemma same_shape_sym h h' : same_shape h h' → same_shape h' h.
Proof. intros Hs p. by rewrite Hs. Qed.

Lemma same_shape_at h h' p x : same_shape h h' → h !! p = Some x → ∃ x', h' !! p = Some x' ∧ shape x' = shape x.
Proof.
  intros Hs Hx. specialize (Hs p). rewrite Hx in Hs. destruct (h' !! p) as [x'|]; [|done].
  exists x'. split; [done|]. by apply (inj Some) in Hs.
Qed.

Lemma same_shape_insert h o x x' : h !! o = Some x → shape x' = shape x → same_shape h (<[o := x']> h).
Proof.
  intros Ho Hs p. destruct (decide (p = o)) as [->|Hne]; [rewrite lookup_insert_eq, Ho; simpl; by rewrite Hs|].
  by rewrite lookup_insert_ne.
Qed.

Lemma same_shape_fmap h f : (∀ x, shape (f x) = shape x) → same_shape h (f <$> h).
Proof. intros Hf p. rewrite lookup_fmap. destruct (h !! p) as [x|]; [|done]. simpl. by rewrite Hf. Qed.

Lemma same_shape_trans h1 h2 h3 : same_shape h1 h2 → same_shape h2 h3 → same_shape h1 h3.
Proof. intros H1 H2 p. by rewrite H2. Qed.

(** Links and chains depend on [mmo_shadowed] only. *)
Definition same_links (h h' : gmap optr mmobj) : Prop := ∀ p, mmo_shadowed <$> h' !! p = mmo_shadowed <$> h !! p.

Lemma shape_links h h' : same_shape h h' → same_links h h'.
Proof.
  intros Hs p. specialize (Hs p). destruct (h !! p), (h' !! p); simpl in *; try done.
  apply (inj Some), shape_fields in Hs. f_equal. tauto.
Qed.

Lemma same_links_links D h h' : same_links h h' → links D h' = links D h.
Proof.
  intros Hs. unfold links. apply map_eq. intros p. specialize (Hs p). rewrite !lookup_fmap, !map_lookup_filter.
  destruct (h !! p), (h' !! p); simpl in *; try done. case_guard; simpl; congruence.
Qed.

Lemma same_links_chain h h' o l b : same_links h h' → chain h o l b → chain h' o l b.
Proof.
  intros Hs. induction 1 as [o x Hx Hn|o x next l b Hx Hn Hc IH]; specialize (Hs o); rewrite Hx in Hs;
    destruct (h' !! o) as [x'|] eqn:Hx'; try done; injection Hs as Hs.
  - apply (chain_bottom _ _ x'); congruence.
  - apply (chain_shadow _ _ x' next); congruence.
Qed.

Lemma users_same D s s' o :
  same_links (mmobjs s) (mmobjs s') → vmaps s' = vmaps s → users D s' o = users D s o.
Proof.
  intros Hl Hv. unfold users, mappers, areas_of, shadowers. by rewrite Hv, (same_links_links D _ _ Hl).
Qed.

Section steps.
Context {VE : VmEnv}.

Lemma linked_ok_same D s s' o x x' :
  same_shape (mmobjs s) (mmobjs s') → vmaps s' = vmaps s → shape x' = shape x →
  linked_ok D s o x → linked_ok D s' o x'.
Proof.
  intros Hs Hv (Ho & Hn & Hu)%shape_fields. unfold linked_ok. rewrite Ho, Hn, Hu. destruct (mmo_ops x) eqn:Hk; [|..|done].
  - intros (next & y & l & b & H1 & H2 & H3 & H4 & H5 & H6).
    destruct (same_shape_at _ _ _ _ Hs H2) as (y' & Hy' & Hsy). exists next, y', l, b.
    split_and!; auto; [|by eapply same_links_chain, H5; apply shape_links].
    intros Hf. by apply H4, (shape_file y y').
  - unfold areas_of. by rewrite Hv.
Qed.

(** What may change: counts and resident pages. *)
Record counts (e : list optr) (D : gset optr) (s s' : vst) (o : optr) (x' : mmobj) : Prop := {
  ct_refs : mmo_refcount x' = mmo_nrespages x' + Z.of_nat (users D s o + times o e);
  ct_used : (0 < users D s o + times o e)%nat;
  ct_count : mmo_nrespages x' = Z.of_nat (length (mmo_respages x'));
  ct_nodup : NoDup (mmo_respages x');
  ct_frames : ∀ pf, pf ∈ mmo_respages x' → ∃ y, page_frame s' o (mmo_ops x') pf y;
}.

Lemma objs_ok_step e e' D s s' :
  objs_ok e D s → same_shape (mmobjs s) (mmobjs s') → v_k s' = v_k s → vmaps s' = vmaps s → cache_inv s' →
  (∀ o x x', mmobjs s !! o = Some x → mmobjs s' !! o = Some x' → shape x' = shape x →
     obj_ok e D s o x → counts e' D s s' o x') →
  (∀ pf y o, pframes s' !! pf = Some y → pf_obj y = Some o →
     ∃ x, mmobjs s' !! o = Some x ∧ pf ∈ mmo_respages x) →
  (∀ o x', o ∈ D → mmobjs s' !! o = Some x' → mmo_respages x' = []) →
  objs_ok e' D s'.
Proof.
  intros [Hc Ha Hid Hobj _ _ Hfile Hhome] Hs Hk Hv Hc' Hcnt Hown Hdead.
  split; [done| | | |done|done| |by rewrite Hv].
  - unfold areas_of. rewrite Hv. intros v Hin. destruct (Ha v Hin) as [Hl (o & x & Hvo & Hx & HD & Hf)].
    split; [unfold area_live in *; by rewrite Hv, Hk|]. destruct (same_shape_at _ _ _ _ Hs Hx) as (x' & Hx' & Hsx).
    exists o, x'. split_and!; auto. intros Hf'. by apply Hf, (shape_file x x').
  - by rewrite Hv.
  - intros o x' Hx' HD Hf'. destruct (same_shape_at _ _ _ _ (same_shape_sym _ _ Hs) Hx') as (x & Hx & Hsx).
    assert (¬ is_file x) as Hf by (intros Hf; by apply Hf', (shape_file x' x)).
    pose proof (Hobj o x Hx HD Hf) as Hok. destruct (Hcnt o x x' Hx Hx') as [H1 H0 H2 H3 H4]; [done..|].
    split; [..|by eapply linked_ok_same; [..|apply Hok]];
      rewrite ?(users_same D s s') by (done || by apply shape_links); done.
  - intros o x' Hx' Hf. destruct (same_shape_at _ _ _ _ (same_shape_sym _ _ Hs) Hx') as (x & Hx & Hsx).
    destruct (shape_fields _ _ Hsx) as (_ & <- & _). apply (Hfile o x Hx). by eapply shape_file; [symmetry|].
Qed.

Lemma times_cons o p e : times o (p :: e) = ((if decide (p = o) then 1 else 0) + times o e)%nat.
Proof. unfold times. rewrite filter_cons. by case_decide. Qed.

(** Giving a reference back. *)
Lemma objs_ok_decr o e D s x :
  objs_ok (o :: e) D s → mmobjs s !! o = Some x → o ∉ D → ¬ is_file x → mmo_refcount x ≠ mmo_nrespages x + 1 →
  objs_ok e D (set_mmobjs (insert o (with_refcount (λ n, n - 1) x)) s).
Proof.
  intros Hok Hx HD Hf Hr. eapply objs_ok_step; try done; simpl.
  - by eapply same_shape_insert.
  - destruct (oo_cache _ _ _ Hok). by split.
  - intros p y y' Hy Hy' Hs Hp. destruct Hp as [R1 R0 R2 R3 R4 R5]. rewrite times_cons in R1, R0.
    apply lookup_insert_Some in Hy' as [[<- <-]|[Hne Hy']].
    + simplify_eq. rewrite decide_True in R1, R0 by done. split; simpl; [lia|lia|done..|]. intros pf Hpf.
      destruct (R4 pf Hpf) as [z [? ? ? ? ?]]. by exists z.
    + simplify_eq. rewrite decide_False in R1, R0 by done. split; [lia|done..|]. intros pf Hpf.
      destruct (R4 pf Hpf) as [z [? ? ? ? ?]]. by exists z.
  - intros pf y p Hy Hp. destruct (oo_owner _ _ _ Hok pf y p Hy Hp) as (z & Hz & Hin).
    destruct (decide (p = o)) as [->|Hne]; [|exists z; by rewrite lookup_insert_ne].
    eexists. rewrite lookup_insert_eq. split; [done|]. by simplify_eq.
  - intros p z Hp. rewrite lookup_insert_ne by set_solver. by apply (oo_dead _ _ _ Hok).
Qed.
End steps.

(** ** Freeing the pages of an object *)

(** Nothing but memory objects, frames and page tables differs, and the
    objects that are left are linked as before. *)
Record kept (s s' : vst) : Prop := {
  kp_part : kpart s' = kpart s;
  kp_maps : vmaps s' = vmaps s;
  kp_fs : v_fs s' = v_fs s;
  kp_links : ∀ p x', mmobjs s' !! p = Some x' → ∃ x, mmobjs s !! p = Some x ∧ shape x' = shape x;
}.

#[global] Instance kept_preorder : PreOrder kept.
Proof.
  split; [by split; eauto|]. intros s1 s2 s3 [P1 M1 F1 L1] [P2 M2 F2 L2]. split; [congruence..|].
  intros p x3 H3. destruct (L2 p x3 H3) as (x2 & H2 & S2). destruct (L1 p x2 H2) as (x1 & H1 & S1).
  exists x1. split; congruence.
Qed.

Section uncache.
Context {VE : VmEnv} {MA : Machine} {ER : Errno}.

Lemma chain_bottom_ok e D s o l b : objs_ok e D s → chain (mmobjs s) o l b →
  ∀ x, mmobjs s !! o = Some x → o ∉ D → ¬ is_file x →
  ∃ xb, mmobjs s !! b = Some xb ∧ b ∉ D ∧ mmo_ops xb = anon_mmobj_ops.
Proof.
  intros Hok. induction 1 as [o x0 Hx0 Hn|o x0 next l b Hx0 Hn Hc IH]; intros x Hx HD Hf;
    assert (x0 = x) as -> by congruence; clear Hx0;
    pose proof (ok_linked _ _ _ _ _ (oo_obj _ _ _ Hok o x Hx HD Hf)) as Hl; unfold linked_ok in Hl;
    unfold is_file in Hf; destruct (mmo_ops x) eqn:Hk; try done.
  - destruct Hl as (? & ? & ? & ? & ? & _). congruence.
  - by exists x.
  - destruct Hl as (next' & y & _ & _ & Hn' & Hy & HDn & Hfy & _). simplify_eq. by eapply IH.
  - destruct Hl as (? & _). congruence.
Qed.

Lemma objs_pts e D s o x :
  objs_ok e D s → mmobjs s !! o = Some x → o ∉ D → ¬ is_file x → pts_ok s o.
Proof.
  intros Hok Hx HD Hf. assert (∀ v, v ∈ areas_of s → area_live s v) as Hv by (intros v Hv; by apply Hok).
  assert (∃ b xb, mmobj_bottom_obj (mmobjs s) o = b ∧ mmobjs s !! b = Some xb ∧ b ∉ D ∧
    mmo_ops xb = anon_mmobj_ops) as (b & xb & Hb & Hxb & HDb & Hkb).
  { pose proof (ok_linked _ _ _ _ _ (oo_obj _ _ _ Hok o x Hx HD Hf)) as Hl. unfold linked_ok in Hl.
    destruct (mmo_ops x) eqn:Hk; [| |by unfold is_file in Hf; rewrite Hk in Hf].
    - destruct Hl as (next & y & l & b & Hn & Hy & _ & _ & Hc & Hu).
      destruct (chain_bottom_ok e D s o l b Hok Hc x) as (xb & ?); [done..|]. exists b, xb. split; [|done].
      by apply (mmobj_bottom_shadow _ _ x).
    - destruct Hl as [Hn _]. exists o, x. by rewrite (mmobj_bottom_self _ _ x). }
  assert (¬ is_file xb) as Hfb by (unfold is_file; rewrite Hkb; tauto).
  pose proof (ok_linked _ _ _ _ _ (oo_obj _ _ _ Hok b xb Hxb HDb Hfb)) as Hl.
  unfold linked_ok in Hl. rewrite Hkb in Hl. destruct Hl as (_ & l & Hu & Hl). exists xb, l. by rewrite Hb.
Qed.

(** A reference that is not the last. *)
Lemma put_decr vn k o x s :
  mmobjs s !! o = Some x → ¬ is_file x → 0 < mmo_refcount x → mmo_refcount x ≠ mmo_nrespages x + 1 →
  o_put (mmobj_table vn (S k)) o s = Ret () (set_mmobjs (insert o (with_refcount (λ n, n - 1) x)) s).
Proof.
  intros Hx Hf Hr Hne. cbn [mmobj_table dispatch o_put]. rewrite (bind_step _ _ _ _ _ (mmobj_at_eval _ _ _ Hx)).
  unfold is_file in Hf. destruct (mmo_ops x) eqn:Hk; [| |done]; unfold shadow_put, anon_put;
    rewrite (bind_step _ _ _ _ _ (mmobj_at_eval _ _ _ Hx)), Hk; rewrite (proj2 (Z.ltb_lt _ _) Hr);
    rewrite bind_assert by done; rewrite (proj2 (Z.eqb_neq _ _) Hne); cbn [negb]; by apply upd_mmobj_eval.
Qed.

Lemma drop_cache s s' pf :
  cache_inv s → pframes s' = delete pf (pframes s) → pframe_hash s' = drop_pf pf <$> pframe_hash s → cache_inv s'.
Proof.
  intros [H1 H2 H3] Hp Hh.
  assert (∀ o n q, resident s' o n q → q ≠ pf ∧ resident s o n q) as Hres.
  { intros o n q (y & Hy & ?). rewrite Hp in Hy. apply lookup_delete_Some in Hy as [Hne Hy]. split; [done|by exists y]. }
  split.
  - intros o n q [Hne Hq]%Hres. specialize (H1 o n q Hq). unfold hashchain in *. rewrite Hh, lookup_fmap.
    destruct (pframe_hash s !! _) as [l|]; [|by apply elem_of_nil in H1]. simpl. by apply list_elem_of_filter.
  - intros h l q Hl Hq. rewrite Hh, lookup_fmap in Hl. destruct (pframe_hash s !! h) as [l'|] eqn:Hl'; [|done].
    injection Hl as <-. apply list_elem_of_filter in Hq as [Hne Hq]. rewrite Hp, lookup_delete_ne by done. by eapply H2.
  - intros o n q q' [_ Hq]%Hres [_ Hq']%Hres. by eapply H3.
Qed.

Lemma drop_absent pf l : pf ∉ l → drop_pf pf l = l.
Proof. apply filter_absent. Qed.

Lemma drop_head pf l : NoDup (pf :: l) → drop_pf pf (pf :: l) = l.
Proof.
  intros [Hn _]%NoDup_cons. unfold drop_pf. rewrite filter_cons_False by naive_solver. by apply drop_absent.
Qed.

(** The state after a page of [o] is gone is as well-formed as before. *)
Lemma objs_ok_free e D s s' o x pf l y :
  objs_ok e D s → mmobjs s !! o = Some x → mmo_respages x = pf :: l → pframes s !! pf = Some y → pf_obj y = Some o →
  v_k s' = v_k s → vmaps s' = vmaps s → pframes s' = delete pf (pframes s) →
  pframe_hash s' = drop_pf pf <$> pframe_hash s →
  mmobjs s' = <[o := with_refcount (λ n, n - 1) (with_respages (drop_pf pf) (with_nrespages (λ n, n - 1) x))]>
    (with_respages (drop_pf pf) <$> mmobjs s) →
  objs_ok e D s'.
Proof.
  intros Hok Hx Hl Hy Hyo Hk Hv Hp Hh Ho.
  assert (same_shape (mmobjs s) (mmobjs s')) as Hs.
  { rewrite Ho. eapply same_shape_trans; [by apply (same_shape_fmap _ (with_respages (drop_pf pf)))|].
    eapply same_shape_insert; [by rewrite lookup_fmap, Hx|done]. }
  assert (o ∉ D) as HoD by (intros HoD; pose proof (oo_dead _ _ _ Hok o x HoD Hx); congruence).
  eapply objs_ok_step; try done; [by eapply drop_cache; [apply Hok|..]| |rewrite Hp, Ho|rewrite Ho].
  2: { intros q z p [Hne Hz]%lookup_delete_Some Hzo. destruct (oo_owner _ _ _ Hok q z p Hz Hzo) as (w & Hw & Hin).
       assert (q ∈ drop_pf pf (mmo_respages w)) as Hin' by (by apply list_elem_of_filter).
       destruct (decide (p = o)) as [->|Hpo]; [|eexists; by rewrite lookup_insert_ne, lookup_fmap, Hw].
       simplify_eq. eexists. by rewrite lookup_insert_eq. }
  2: { intros p z HpD. rewrite lookup_insert_ne by set_solver. rewrite lookup_fmap. intros (w & Hw & ->)%fmap_Some.
       simpl. by rewrite (oo_dead _ _ _ Hok p w). }
  assert (∀ p k q z, page_frame s p k q z → q ≠ pf → page_frame s' p k q z) as Hfr.
  { intros p k q z [? ? ? ? ?] Hne. split; try done; [by rewrite Hp, lookup_delete_ne|by rewrite Hk]. }
  intros p z z' Hz Hz' _ [R1 R0 R2 R3 R4 _]. rewrite Ho in Hz'. apply lookup_insert_Some in Hz' as [[<- <-]|[Hne Hz']].
  - simplify_eq. rewrite Hl in R2, R3, R4. pose proof (drop_head pf l R3) as Hd.
    apply NoDup_cons in R3 as [Hn3 R3]. simpl in R2.
    split; simpl; rewrite ?Hl, ?Hd; [lia..|done|].
    intros q Hq. destruct (R4 q) as [w Hw]; [by right|]. exists w. apply Hfr; [done|]. intros ->. done.
  - rewrite lookup_fmap, Hz in Hz'. injection Hz' as <-.
    assert (pf ∉ mmo_respages z) as Hpf.
    { intros Hin. destruct (R4 pf Hin) as [w [Hw Hwo _ _ _]]. simplify_eq. }
    split; simpl; rewrite ?drop_absent by done; [done..|]. intros q Hq. destruct (R4 q Hq) as [w Hw].
    exists w. apply Hfr; [done|]. intros ->. done.
Qed.

(** Flags and pin counts do not matter to the cache. *)
Lemma flags_cache s s' pf y y' :
  cache_inv s → aside s s' → pframes s !! pf = Some y → pframes s' = <[pf := y']> (pframes s) →
  pf_obj y' = pf_obj y → pf_pagenum y' = pf_pagenum y → cache_inv s'.
Proof.
  intros [H1 H2 H3] Ha Hy Hp Ho Hn.
  assert (∀ o n q, resident s' o n q → resident s o n q) as Hres.
  { intros o n q (z & Hz & Hzo & Hzn). rewrite Hp in Hz.
    apply lookup_insert_Some in Hz as [[<- <-]|[_ Hz]]; [exists y|exists z]; split_and!; congruence. }
  split.
  - intros o n q Hq%Hres. unfold hashchain. rewrite (as_hash _ _ Ha). by apply H1.
  - intros h l q Hl Hq. rewrite (as_hash _ _ Ha) in Hl. rewrite Hp. apply lookup_insert_is_Some'. right. by eapply H2.
  - intros o n q q' Hq%Hres Hq'%Hres. by eapply H3.
Qed.

(** The last step for a page of an object about to be freed. *)
Lemma free_page vn k o e D s s1 x pf l y :
  objs_ok (o :: e) D s → mmobjs s !! o = Some x → o ∉ D → ¬ is_file x →
  mmo_refcount x = mmo_nrespages x + 1 → mmo_respages x = pf :: l →
  aside s s1 → pframes s1 = <[pf := y]> (pframes s) → pf_obj y = Some o → pf_busy y = false → pf_pincount y = 0 →
  ∃ s' x', pframe_free (mmobj_table vn (S k)) pf s1 = Ret () s' ∧ objs_ok (o :: e) D s' ∧ kept s s' ∧
    mmobjs s' !! o = Some x' ∧ shape x' = shape x ∧ mmo_respages x' = l ∧ mmo_refcount x' = mmo_nrespages x' + 1.
Proof.
  intros Hok Hx HD Hf Hr Hl Ha Hp Hyo Hb Hpin. pose proof (oo_obj _ _ _ Hok o x Hx HD Hf) as Hxo.
  pose proof (ok_nodup _ _ _ _ _ Hxo) as Hnd. rewrite Hl in Hnd.
  destruct (ok_frames _ _ _ _ _ Hxo pf) as [y0 [Hy0 Hyo0 _ _ _]]; [rewrite Hl; by left|].
  assert (mmobjs s1 !! o = Some x) as Hx1 by by rewrite (as_objs _ _ Ha).
  destruct (pframe_free_eval (mmobj_table vn (S k)) s1 pf y o x) as (s' & E & Hk & Hv & Hpv & Hfs & Hps & Hh & Ho & _); try done.
  { rewrite Hp. apply lookup_insert_eq. }
  { eapply aside_pts; [done|]. by eapply objs_pts. }
  { intros s2 Hx2. apply put_decr; simpl; [done..| |].
    - rewrite Hr, (ok_count _ _ _ _ _ Hxo). lia.
    - lia. }
  rewrite Hp, delete_insert_eq in Hps. rewrite (as_hash _ _ Ha) in Hh. rewrite (as_objs _ _ Ha) in Ho.
  rewrite (as_k _ _ Ha) in Hk. rewrite (as_maps _ _ Ha) in Hv. rewrite (as_procvm _ _ Ha) in Hpv. rewrite (as_fs _ _ Ha) in Hfs.
  eexists s', _. split_and!; [done|by eapply (objs_ok_free _ _ s)|..].
  - split; [unfold kpart; congruence|done..|]. intros p z Hz. rewrite Ho in Hz.
    apply lookup_insert_Some in Hz as [[<- <-]|[_ Hz]]; [by exists x|].
    rewrite lookup_fmap in Hz. apply fmap_Some in Hz as (z0 & Hz0 & ->). by exists z0.
  - rewrite Ho. apply lookup_insert_eq.
  - done.
  - simpl. rewrite Hl. by apply drop_head.
  - simpl. lia.
Qed.

(** [cleanpage] of both kinds of object. *)
Lemma anon_clean_ok vn k o x pf y s s1 :
  mmobjs s !! o = Some x → mmo_ops x = anon_mmobj_ops →
  aside s s1 → pframes s1 = <[pf := with_busy true (with_dirty false y)]> (pframes s) →
  ∃ r s2, o_cleanpage (mmobj_table vn (S k)) o pf s1 = Ret r s2 ∧ 0 <= r ∧ aside s1 s2 ∧ pframes s2 = pframes s1.
Proof.
  intros Hx Hk Ha Hp. assert (mmobjs s1 !! o = Some x) as Hx1 by by rewrite (as_objs _ _ Ha).
  assert (pframes s1 !! pf = Some (with_busy true (with_dirty false y))) as Hy1 by (rewrite Hp; apply lookup_insert_eq).
  cbn [mmobj_table dispatch o_cleanpage]. rewrite (bind_step _ _ _ _ _ (mmobj_at_eval _ _ _ Hx1)), Hk.
  unfold anon_cleanpage, pframe_clear_dirty. rewrite (bind_step _ _ _ _ _ (upd_pframe_eq _ _ _ _ Hy1)).
  eexists 1, _. split; [done|]. split_and!; [done|by split|]. simpl. by apply insert_id.
Qed.

Lemma shadow_clean_ok vn k o x pf y s s1 :
  cache_inv s → mmobjs s !! o = Some x → mmo_ops x = shadow_mmobj_ops →
  pframes s !! pf = Some y → pf_obj y = Some o →
  aside s s1 → pframes s1 = <[pf := with_busy true (with_dirty false y)]> (pframes s) →
  ∃ r s2, o_cleanpage (mmobj_table vn (S (S k))) o pf s1 = Ret r s2 ∧ 0 <= r ∧ aside s1 s2 ∧ pframes s2 = pframes s1.
Proof.
  intros Hc Hx Hk Hy Hyo Ha Hp. assert (mmobjs s1 !! o = Some x) as Hx1 by by rewrite (as_objs _ _ Ha).
  set (y1 := with_busy true (with_dirty false y)) in *.
  assert (pframes s1 !! pf = Some y1) as Hy1 by (rewrite Hp; apply lookup_insert_eq).
  assert (cache_inv s1) as Hc1 by (by eapply (flags_cache s)).
  destruct (get_resident_spec s1 o (pf_pagenum y1) Hc1) as (s2 & E & Hl).
  assert (frame_at s1 o (pf_pagenum y1) = Some pf) as Hfr by (apply frame_at_iff; [done|by exists y1]).
  rewrite Hfr in E. assert (pframes s2 = pframes s1) as Hp2 by by rewrite Hl.
  assert (aside s1 s2) as Ha2 by (rewrite Hl; by split).
  cbn [mmobj_table dispatch o_cleanpage]. rewrite (bind_step _ _ _ _ _ (mmobj_at_eval _ _ _ Hx1)), Hk.
  unfold shadow_cleanpage. rewrite (bind_step _ _ _ _ _ (pframe_at_eq _ _ _ Hy1)).
  assert (o_lookuppage (mmobj_table vn (S k)) o (pf_pagenum y1) 1 s1 = Ret (0, Some pf) s2) as E2.
  { cbn [mmobj_table dispatch o_lookuppage]. rewrite (bind_step _ _ _ _ _ (mmobj_at_eval _ _ _ Hx1)), Hk.
    unfold shadow_lookuppage. change (negb (1 =? 1)) with false. cbn iota. by rewrite (bind_step _ _ _ _ _ E). }
  cbn [mmobj_table] in E2. rewrite (bind_step _ _ _ _ _ E2). erewrite bind_step by reflexivity.
  assert (pframes s2 !! pf = Some y1) as Hy2 by by rewrite Hp2.
  rewrite (bind_step _ _ _ _ _ (pframe_at_eq _ _ _ Hy2)). erewrite bind_step by reflexivity.
  unfold pframe_clear_dirty. set (s3 := set_mem _ s2). assert (pframes s3 !! pf = Some y1) as Hy3 by done.
  rewrite (bind_step _ _ _ _ _ (upd_pframe_eq _ _ _ _ Hy3)).
  eexists 0, _. split; [done|]. split_and!; [done|by transitivity s2|]. simpl. rewrite Hp2. by apply insert_id.
Qed.
End uncache.

(** ** Dropping references *)

Section put.
Context {VE : VmEnv} {MA : Machine} {ER : Errno} (vn : vtable).

(** [o], of which only one reference is left, and the pages [l]. *)
Record last_ref (o : optr) (e : list optr) (D : gset optr) (sh : ops_kind * option optr * mmo_union)
    (l : list pfptr) (s : vst) : Prop := {
  lr_ok : objs_ok (o :: e) D s;
  lr_notin : o ∉ D;
  lr_obj : ∃ x, mmobjs s !! o = Some x ∧ shape x = sh ∧ mmo_refcount x = mmo_nrespages x + 1 ∧ mmo_respages x = l;
}.

Lemma last_ref_frame o e D sh pf l s :
  last_ref o e D sh (pf :: l) s → sh.1.1 = anon_mmobj_ops ∨ sh.1.1 = shadow_mmobj_ops →
  ∃ y, page_frame s o sh.1.1 pf y ∧ pts_ok s o.
Proof.
  intros [Hok HD (x & Hx & <- & Hr & Hl)] Hsh. simpl in *.
  assert (¬ is_file x) as Hf by (unfold is_file; destruct (mmo_ops x); naive_solver).
  destruct (ok_frames _ _ _ _ _ (oo_obj _ _ _ Hok o x Hx HD Hf) pf) as [y Hy]; [rewrite Hl; by left|].
  exists y. split; [done|]. by eapply objs_pts.
Qed.

(** Freeing the first page, once it is clean and not pinned. *)
Lemma last_ref_free k o e D sh pf l s s1 y :
  last_ref o e D sh (pf :: l) s → sh.1.1 = anon_mmobj_ops ∨ sh.1.1 = shadow_mmobj_ops →
  aside s s1 → pframes s1 = <[pf := y]> (pframes s) → pf_obj y = Some o → pf_busy y = false → pf_pincount y = 0 →
  returns (pframe_free (mmobj_table vn (S k)) pf) s1 (λ _ s', last_ref o e D sh l s' ∧ kept s s').
Proof.
  intros [Hok HD (x & Hx & <- & Hr & Hl)] Hsh Ha Hp Hyo Hb Hpin. simpl in Hsh.
  assert (¬ is_file x) as Hf by (unfold is_file; destruct (mmo_ops x); naive_solver).
  destruct (free_page vn k o e D s s1 x pf l y) as (s' & x' & E & Hok' & Hkp & Hx' & ? & ? & ?); [done..|].
  exists (), s'. split; [done|]. split; [|done]. split; [done..|]. by exists x'.
Qed.

Lemma anon_uncache_ok k o e D sh l : ∀ s,
  last_ref o e D sh l s → sh.1.1 = anon_mmobj_ops →
  returns (anon_uncache (mmobj_table vn (S k)) l) s (λ _ s', last_ref o e D sh [] s' ∧ kept s s').
Proof.
  induction l as [|pf l IH]; intros s Hlr Hsh; [by apply returns_ret|]. cbn [anon_uncache].
  destruct (last_ref_frame o e D sh pf l s) as (y & [Hy Hyo Hyb Hyk Hq] & Hpts); auto. rewrite Hsh in Hyk.
  eapply returns_step; [by apply pframe_at_eq|]. eapply returns_bind.
  - assert (pframes s = <[pf := y]> (pframes s)) as Hid by (symmetry; by apply insert_id).
    destruct (pf_dirty y) eqn:Hd; [|by eapply (last_ref_free k o e D sh pf l s s y); auto].
    destruct (pframe_clean_ok (mmobj_table vn (S k)) s pf y o) as (r & s1 & E1 & Ha1 & Hp1); try done.
    { intros s1 Ha1 Hp1. destruct (lr_obj _ _ _ _ _ _ Hlr) as (x & Hx & Hs & _). subst sh. by eapply anon_clean_ok. }
    eapply returns_step; [done|]. eapply (last_ref_free k); eauto.
  - intros _ s1 [Hlr1 Hk1]. eapply returns_mono; [by apply IH|]. intros _ s' [Hlr' Hk']. split; [done|by transitivity s1].
Qed.

Lemma unpin_once s pf y o :
  pframes s !! pf = Some y → pf_obj y = Some o → pf_pincount y = 1 →
  ∃ s1, pframe_unpin pf s = Ret () s1 ∧ aside s s1 ∧ pframes s1 = <[pf := with_pincount 0 y]> (pframes s).
Proof.
  intros Hy Ho Hp. unfold pframe_unpin, pframe_is_free, remove_link.
  rewrite (bind_step _ _ _ _ _ (pframe_at_eq _ _ _ Hy)), Ho, Hp.
  rewrite bind_assert by (by rewrite bool_decide_eq_false_2). rewrite bind_assert by done.
  rewrite (bind_step _ _ _ _ _ (upd_pframe_eq _ _ _ _ Hy)), Hp. cbn [Z.sub Z.eqb].
  eexists. split; [done|]. by split.
Qed.

Lemma shadow_uncache_ok k o e D sh l : ∀ s,
  last_ref o e D sh l s → sh.1.1 = shadow_mmobj_ops →
  returns (shadow_uncache (mmobj_table vn (S (S k))) l) s (λ _ s', last_ref o e D sh [] s' ∧ kept s s').
Proof.
  induction l as [|pf l IH]; intros s Hlr Hsh; [by apply returns_ret|]. cbn [shadow_uncache].
  destruct (last_ref_frame o e D sh pf l s) as (y & [Hy Hyo Hyb Hyk Hq] & Hpts); auto.
  rewrite Hsh in Hyk. destruct Hyk as [Hpin Hd].
  destruct (unpin_once s pf y o) as (s1 & E1 & Ha1 & Hp1); [done..|]. eapply returns_step; [done|].
  assert (pframes s1 !! pf = Some (with_pincount 0 y)) as Hy1 by (rewrite Hp1; apply lookup_insert_eq).
  destruct (pframe_clean_ok (mmobj_table vn (S (S k))) s1 pf (with_pincount 0 y) o) as (r & s2 & E2 & Ha2 & Hp2); try done.
  { by eapply aside_pts. }
  { by rewrite (as_k _ _ Ha1). }
  { intros s2 Ha2 Hp2. destruct (lr_obj _ _ _ _ _ _ Hlr) as (x & Hx & Hs & _). subst sh.
    eapply (shadow_clean_ok vn k o x pf _ s1); try done.
    - eapply (flags_cache s); [apply Hlr|done..].
    - by rewrite (as_objs _ _ Ha1). }
  eapply returns_step; [done|]. eapply returns_bind.
  - apply (last_ref_free (S k) o e D sh pf l s s2 (with_busy false (with_dirty false (with_pincount 0 y)))); auto.
    + by transitivity s1.
    + by rewrite Hp2, Hp1, insert_insert_eq.
  - intros _ s3 [Hlr3 Hk3]. eapply returns_mono; [by apply IH|]. intros _ s' [Hlr' Hk']. split; [done|by transitivity s3].
Qed.

Lemma times_app o e e' : times o (e ++ e') = (times o e + times o e')%nat.
Proof. unfold times. by rewrite filter_app, length_app. Qed.

Lemma mappers_none s o v : mappers s o = 0%nat → v ∈ areas_of s → vma_obj v ≠ Some o.
Proof.
  unfold mappers. intros Hm Hv Ho. apply nil_length_inv in Hm.
  apply (not_elem_of_nil v). rewrite <- Hm. by apply list_elem_of_filter.
Qed.

(** The last reference to [o] is given back: from now on [o] does not count
    among the objects, and what it shadows is held instead. *)
Lemma objs_ok_dying o e D s x :
  objs_ok (o :: e) D s → mmobjs s !! o = Some x → o ∉ D → users D s o = 0%nat → mmo_respages x = [] →
  objs_ok (option_list (mmo_shadowed x) ++ e) ({[o]} ∪ D) s.
Proof.
  intros Hok Hx HD Hu Hres. unfold users in Hu. destruct Hok as [Hc Ha Hi Hob Hown Hdead Hfile Hhome]. split; [done| |done| |done| |done..].
  - intros v Hv. destruct (Ha v Hv) as [Hl (p & y & Hvo & Hy & HDp & Hf)]. split; [done|]. exists p, y.
    split_and!; try done. assert (p ≠ o); [|set_solver]. intros ->. by apply (mappers_none s o v); [lia|..].
  - intros p y Hy HDp Hf. assert (p ≠ o ∧ p ∉ D) as [Hne HDp'] by set_solver.
    destruct (Hob p y Hy HDp' Hf) as [R1 R0 R2 R3 R4 R5].
    assert (users ({[o]} ∪ D) s p + times p (option_list (mmo_shadowed x) ++ e) =
      users D s p + times p (o :: e))%nat as Hsum.
    { unfold users. rewrite (shadowers_drop D (mmobjs s) o x) by done.
      rewrite times_cons, times_app. destruct (decide (o = p)) as [->|_]; [done|].
      assert (times p (option_list (mmo_shadowed x)) = if decide (mmo_shadowed x = Some p) then 1 else 0)%nat as ->; [|lia].
      destruct (mmo_shadowed x) as [next|]; [|by rewrite decide_False by done].
      change (option_list (Some next)) with [next]. rewrite times_cons. repeat case_decide; by simplify_eq. }
    split; rewrite ?Hsum; [done..|].
    unfold linked_ok in *. destruct (mmo_ops y); try done.
    destruct R5 as (next & z & l & b & H1 & H2 & H3 & H4 & H5 & H6). exists next, z, l, b. split_and!; try done.
    assert (next ≠ o); [|set_solver]. intros ->. pose proof (shadowers_pos D _ p y o Hy HDp' H1). lia.
  - intros p y [->%elem_of_singleton|HpD]%elem_of_union Hy; [by simplify_eq|by eapply Hdead].
Qed.

Lemma chain_bury e D s o p l b :
  objs_ok e ({[o]} ∪ D) s → chain (mmobjs s) p l b →
  ∀ x, mmobjs s !! p = Some x → p ∉ {[o]} ∪ D → ¬ is_file x → chain (delete o (mmobjs s)) p l b.
Proof.
  intros Hok. induction 1 as [p x0 Hx0 Hn|p x0 next l b Hx0 Hn Hc IH]; intros x Hx HD Hf;
    assert (x0 = x) as -> by congruence; clear Hx0.
  - apply (chain_bottom _ _ x); [|done]. rewrite lookup_delete_ne; [done|set_solver].
  - apply (chain_shadow _ _ x next); [rewrite lookup_delete_ne; [done|set_solver]|done|].
    pose proof (ok_linked _ _ _ _ _ (oo_obj _ _ _ Hok p x Hx HD Hf)) as Hl. unfold linked_ok in Hl.
    unfold is_file in Hf. destruct (mmo_ops x); [|by destruct Hl as [? _]; congruence|done].
    destruct Hl as (next' & y & _ & _ & Hn' & Hy & HDn & Hfy & _). simplify_eq. by eapply IH.
Qed.

Lemma objs_ok_bury o e D s : objs_ok e ({[o]} ∪ D) s → objs_ok e D (set_mmobjs (delete o) s).
Proof.
  intros Hok. pose proof Hok as [Hc Ha Hi Hob Hown Hdead Hfile Hhome]. split; [destruct Hc; by split| |done| | | | |done].
  - intros v Hv. destruct (Ha v Hv) as [Hl (p & y & Hvo & Hy & HDp & Hf)]. split; [done|]. exists p, y.
    split_and!; try done; [|set_solver]. simpl. rewrite lookup_delete_ne; [done|set_solver].
  - simpl. intros p y Hy HDp Hf. apply lookup_delete_Some in Hy as [Hne Hy].
    assert (p ∉ {[o]} ∪ D) as HDo by set_solver. destruct (Hob p y Hy HDo Hf) as [R1 R0 R2 R3 R4 R5].
    unfold users, shadowers in R1, R0. rewrite links_delete in R1, R0. split; [done..| |].
    + intros pf Hpf. destruct (R4 pf Hpf) as [z [? ? ? ? ?]]. by exists z.
    + unfold linked_ok in *. destruct (mmo_ops y) eqn:Hk; try done.
      destruct R5 as (next & z & l & b & H1 & H2 & H3 & H4 & H5 & H6). exists next, z, l, b. simpl. split_and!; try done.
      * rewrite lookup_delete_ne; [done|set_solver].
      * set_solver.
      * by eapply chain_bury.
  - intros pf y p Hy Hp. destruct (Hown pf y p Hy Hp) as (z & Hz & Hin). exists z. split; [|done].
    simpl. rewrite lookup_delete_ne; [done|]. intros ->. rewrite (Hdead p z) in Hin; [by apply elem_of_nil in Hin|set_solver|done].
  - simpl. intros p z HpD [_ Hz]%lookup_delete_Some. apply (Hdead p); [set_solver|done].
  - simpl. intros p z [_ Hz]%lookup_delete_Some. by apply (Hfile p).
Qed.

Lemma kept_delete s s' o : kept s s' → kept s (set_mmobjs (delete o) s').
Proof. intros [H1 H2 H3 H4]. split; try done. simpl. intros p y [_ Hy]%lookup_delete_Some. eauto. Qed.

(** The state in which the last reference to [o] is given back, after its
    pages are freed. *)
Lemma last_ref_dying o e D sh s :
  last_ref o e D sh [] s → sh.1.1 = anon_mmobj_ops ∨ sh.1.1 = shadow_mmobj_ops →
  objs_ok (option_list sh.1.2 ++ e) ({[o]} ∪ D) s.
Proof.
  intros [Hok HD (x & Hx & <- & Hr & Hl)] Hsh. simpl in *.
  assert (¬ is_file x) as Hf by (unfold is_file; destruct (mmo_ops x); naive_solver).
  destruct (oo_obj _ _ _ Hok o x Hx HD Hf) as [R1 _ _ _ _ _]. rewrite times_cons, decide_True in R1 by done.
  apply objs_ok_dying; [done..|lia|done].
Qed.

(** Calls through the table nest once per object of a chain, and twice more
    for the pages of an object. *)
Definition deep_enough (n : nat) (l : list optr) : Prop := (length l + 3 ≤ n)%nat.

Definition dropped (o : optr) (e : list optr) (D : gset optr) (s s' : vst) : Prop :=
  objs_ok e D s' ∧ kept s s' ∧ (mmobjs s' !! o = None ↔ users D s o = 0%nat ∧ times o e = 0%nat).

Lemma put_shared n o e D s x :
  objs_ok (o :: e) D s → mmobjs s !! o = Some x → o ∉ D → ¬ is_file x → mmo_refcount x ≠ mmo_nrespages x + 1 →
  returns (o_put (mmobj_table vn (S n)) o) s (λ _ s', dropped o e D s s').
Proof.
  intros Hok Hx HD Hf Hr. destruct (oo_obj _ _ _ Hok o x Hx HD Hf) as [R1 R0 R2 _ _ _].
  rewrite times_cons, decide_True in R1 by done. eexists (), _. split; [apply put_decr; [done..|lia|done]|].
  split_and!; [by apply objs_ok_decr| |].
  - split; try done. simpl. intros p y [[<- <-]|[_ Hy]]%lookup_insert_Some; eauto.
  - simpl. rewrite lookup_insert_eq. split; [done|lia].
Qed.

Lemma put_last_anon n o e D s x :
  objs_ok (o :: e) D s → mmobjs s !! o = Some x → o ∉ D → mmo_ops x = anon_mmobj_ops →
  mmo_refcount x = mmo_nrespages x + 1 →
  returns (o_put (mmobj_table vn (S (S n))) o) s (λ _ s', objs_ok e D s' ∧ kept s s' ∧ mmobjs s' !! o = None).
Proof.
  intros Hok Hx HD Hk Hr. assert (mmo_shadowed x = None) as Hsh.
  { pose proof (oo_obj _ _ _ Hok o x Hx HD) as Ho. unfold is_file in Ho. rewrite Hk in Ho. destruct Ho as [_ _ _ _ _ R5]; [tauto|].
    unfold linked_ok in R5. rewrite Hk in R5. tauto. }
  unfold returns. cbn [mmobj_table dispatch o_put]. rewrite (bind_step _ _ _ _ _ (mmobj_at_eval _ _ _ Hx)), Hk.
  unfold anon_put. rewrite (bind_step _ _ _ _ _ (mmobj_at_eval _ _ _ Hx)), Hk.
  destruct (oo_obj _ _ _ Hok o x Hx HD) as [_ _ R2 _ _ _]; [unfold is_file; rewrite Hk; tauto|].
  rewrite bind_assert by (rewrite (proj2 (Z.ltb_lt _ _)); [done|lia]). rewrite Hr, Z.eqb_refl. cbn [negb].
  eapply returns_bind; [apply (anon_uncache_ok n o e D (shape x)); [|done]|].
  { split; [done..|]. by exists x. }
  intros _ s1 [Hlr Hkp]. eexists (), _. split; [done|].
  pose proof (last_ref_dying _ _ _ _ _ Hlr (or_introl Hk)) as Hdy. unfold shape in Hdy. simpl in Hdy. rewrite Hsh in Hdy.
  split_and!; [by apply objs_ok_bury|by apply kept_delete|]. simpl. apply lookup_delete_eq.
Qed.

Lemma kept_chain s s' o l b : kept s s' → chain (mmobjs s') o l b → chain (mmobjs s) o l b.
Proof.
  intros Hk. induction 1 as [o x' Hx' Hs|o x' next l b Hx' Hs _ IH];
    destruct (kp_links _ _ Hk _ _ Hx') as (x & Hx & (_ & Hsx & _)%shape_fields).
  - apply (chain_bottom _ _ x); congruence.
  - apply (chain_shadow _ _ x next); congruence.
Qed.

(** The case in which [next], which [o] shadows, loses a reference too. *)
Lemma put_last_shadow n o e D s x next l b :
  objs_ok (o :: e) D s → mmobjs s !! o = Some x → o ∉ D → mmo_ops x = shadow_mmobj_ops →
  mmo_refcount x = mmo_nrespages x + 1 → mmo_shadowed x = Some next → chain (mmobjs s) next l b →
  (∀ s1 y, chain (mmobjs s1) next l b → objs_ok (next :: e) ({[o]} ∪ D) s1 → mmobjs s1 !! next = Some y →
     next ∉ {[o]} ∪ D → ¬ is_file y →
     returns (o_put (mmobj_table vn (S (S n))) next) s1 (λ _ s', dropped next e ({[o]} ∪ D) s1 s')) →
  returns (o_put (mmobj_table vn (S (S (S n)))) o) s (λ _ s', objs_ok e D s' ∧ kept s s' ∧ mmobjs s' !! o = None).
Proof.
  intros Hok Hx HD Hk Hr Hs Hc Hnext. assert (¬ is_file x) as Hf by (unfold is_file; rewrite Hk; tauto).
  destruct (oo_obj _ _ _ Hok o x Hx HD Hf) as [R1 R0 R2 _ _ _]. rewrite times_cons, decide_True in R1 by done.
  assert (next ≠ o) as Hno.
  { intros ->. pose proof (shadowers_pos D _ o x o Hx HD Hs). unfold users in R1. lia. }
  unfold returns. cbn [mmobj_table dispatch o_put]. rewrite (bind_step _ _ _ _ _ (mmobj_at_eval _ _ _ Hx)), Hk.
  unfold shadow_put. rewrite (bind_step _ _ _ _ _ (mmobj_at_eval _ _ _ Hx)), Hk.
  rewrite bind_assert by (rewrite (proj2 (Z.ltb_lt _ _)); [done|lia]). rewrite Hr, Z.eqb_refl. cbn [negb].
  eapply returns_bind; [apply (shadow_uncache_ok n o e D (shape x)); [|done]|].
  { split; [done..|]. by exists x. }
  intros _ s1 [Hlr Hkp]. destruct (lr_obj _ _ _ _ _ _ Hlr) as (x1 & Hx1 & (Ho1 & Hs1 & _)%shape_fields & _).
  assert (¬ is_file x1) as Hf1 by (unfold is_file; rewrite Ho1, Hk; tauto).
  pose proof (ok_linked _ _ _ _ _ (oo_obj _ _ _ (lr_ok _ _ _ _ _ _ Hlr) o x1 Hx1 HD Hf1)) as R5.
  unfold linked_ok in R5. rewrite Ho1, Hk in R5. destruct R5 as (next1 & y & l1 & b1 & Hn1 & Hy & HDn & Hfy & Hc1 & _).
  assert (next1 = next) as -> by congruence.
  inversion Hc1 as [|? x2 next2 l2 ? Hx2 Hs2 Hc2]; subst; [congruence|]. assert (next2 = next) as -> by congruence.
  destruct (chain_det _ _ _ _ Hc _ _ (kept_chain _ _ _ _ _ Hkp Hc2)) as [-> ->].
  eapply returns_step; [by apply (mmobj_at_eval o x1)|]. rewrite Hs1, Hs. eapply returns_step; [reflexivity|].
  pose proof (last_ref_dying _ _ _ _ _ Hlr (or_intror Hk)) as Hdy. unfold shape in Hdy. simpl in Hdy. rewrite Hs in Hdy.
  eapply returns_bind; [apply (Hnext s1 y); try done; set_solver|]. intros _ s2 (Hok2 & Hkp2 & _).
  eexists (), _. split; [done|]. split_and!; [by apply objs_ok_bury|apply kept_delete; by transitivity s1|].
  simpl. apply lookup_delete_eq.
Qed.

(** Dropping a reference, down the chain of shadow objects where it is the
    last one. *)
Lemma put_ok b l : ∀ n o e D s x,
  chain (mmobjs s) o l b → deep_enough n l → objs_ok (o :: e) D s → mmobjs s !! o = Some x → o ∉ D → ¬ is_file x →
  returns (o_put (mmobj_table vn n) o) s (λ _ s', dropped o e D s s').
Proof.
  unfold deep_enough. induction l as [|o' l IH]; intros n o e D s x Hc Hn Hok Hx HD Hf;
    (destruct n as [|[|[|n]]]; [cbn [length] in Hn; lia..|]);
    (destruct (decide (mmo_refcount x = mmo_nrespages x + 1)) as [Hr|Hr]; [|by eapply put_shared]);
    destruct (oo_obj _ _ _ Hok o x Hx HD Hf) as [R1 R0 R2 _ _ R5];
    rewrite times_cons, decide_True in R1 by done; unfold linked_ok in R5;
    inversion Hc as [? x0 Hx0 Hs|? x0 next ? ? Hx0 Hs Hc']; subst; assert (x0 = x) as -> by congruence;
    pose proof Hf as Hf'; unfold is_file in Hf'; destruct (mmo_ops x) eqn:Hk; try done;
    try (destruct R5 as [? _]; congruence); try (destruct R5 as (? & ? & ? & ? & ? & _); congruence).
  - eapply returns_mono; [by eapply put_last_anon|]. intros _ s' (Hok' & Hkp & Hgone). split_and!; try done.
    split; [intros _; lia|done].
  - eapply returns_mono; [eapply (put_last_shadow n o' e D s x next l b); try done|].
    + intros s1 y Hc1 Hok1 Hy HDn Hfy. eapply IH; try done. cbn [length] in Hn. lia.
    + intros _ s' (Hok' & Hkp & Hgone). split_and!; try done. split; [intros _; lia|done].
Qed.
End put.

(** ** Areas that go or change *)

Section areas.
Context {VE : VmEnv} {MA : Machine} {ER : Errno}.

(** Address space [m] gets the areas of [mp'], and objects forget areas that
    map them, as [g] says. *)
Record remapped (g : mmo_union → mmo_union) (m : vmid) (mp mp' : vmmap) (s s' : vst) : Prop := {
  rm_at : vmaps s !! m = Some mp;
  rm_maps : vmaps s' = <[m := mp']> (vmaps s);
  rm_proc : vmm_proc mp' = vmm_proc mp;
  rm_ids : NoDup (ids (vmm_list mp'));
  rm_areas : ∀ v, v ∈ vmm_list mp' → ∃ v0, v0 ∈ vmm_list mp ∧ vma_obj v = vma_obj v0 ∧ vma_vmmap v = vma_vmmap v0;
  rm_objs : mmobjs s' = (λ x, with_un (g (mmo_un x)) x) <$> mmobjs s;
  rm_bottom : ∀ b, g (mmo_bottom_obj b) = mmo_bottom_obj b;
  rm_vmas : ∀ l, ∃ l', g (mmo_vmas l) = mmo_vmas l' ∧ ∀ a, a ∈ l' → a ∈ l ∧
    ∀ v, v ∈ vmm_list mp → vma_id v = a → ∃ v', v' ∈ vmm_list mp' ∧ vma_id v' = a;
  rm_same : v_k s' = v_k s ∧ pframes s' = pframes s ∧ pframe_hash s' = pframe_hash s;
}.

Lemma remapped_area g m mp mp' s s' v :
  remapped g m mp mp' s s' → v ∈ areas_of s' → ∃ v0, v0 ∈ areas_of s ∧ vma_obj v = vma_obj v0 ∧ vma_vmmap v = vma_vmmap v0.
Proof.
  intros Hr (m' & mq & Hm & Hv)%elem_of_areas. rewrite (rm_maps _ _ _ _ _ _ Hr) in Hm.
  apply lookup_insert_Some in Hm as [[<- <-]|[_ Hm]].
  - destruct (rm_areas _ _ _ _ _ _ Hr v Hv) as (v0 & Hv0 & ?). exists v0. split; [|done].
    apply elem_of_areas. exists m, mp. split; [apply Hr|done].
  - exists v. split; [|done]. apply elem_of_areas. eauto.
Qed.

Lemma remapped_id g m mp mp' s s' l l' a :
  remapped g m mp mp' s s' → g (mmo_vmas l) = mmo_vmas l' → a ∈ l' →
  (∀ b, b ∈ l → ∃ v, v ∈ areas_of s ∧ vma_id v = b) → ∃ v, v ∈ areas_of s' ∧ vma_id v = a.
Proof.
  intros Hr Hg Ha Hl. destruct (rm_vmas _ _ _ _ _ _ Hr l) as (l2 & Hg2 & Hl2). rewrite Hg in Hg2. injection Hg2 as <-.
  destruct (Hl2 a Ha) as [Hal Hmp]. destruct (Hl a Hal) as (v & (m' & mq & Hm' & Hv)%elem_of_areas & Hid).
  destruct (decide (m' = m)) as [->|Hne].
  - rewrite (rm_at _ _ _ _ _ _ Hr) in Hm'. injection Hm' as <-. destruct (Hmp v Hv Hid) as (v' & Hv' & Hid').
    exists v'. split; [|done]. apply elem_of_areas. exists m, mp'. by rewrite (rm_maps _ _ _ _ _ _ Hr), lookup_insert_eq.
  - exists v. split; [|done]. apply elem_of_areas. exists m', mq. by rewrite (rm_maps _ _ _ _ _ _ Hr), lookup_insert_ne.
Qed.

Lemma remapped_links g m mp mp' s s' : remapped g m mp mp' s s' → same_links (mmobjs s) (mmobjs s').
Proof. intros Hr p. rewrite (rm_objs _ _ _ _ _ _ Hr), lookup_fmap. by destruct (mmobjs s !! p). Qed.

Lemma remapped_linked g m mp mp' s s' D o x :
  remapped g m mp mp' s s' → linked_ok D s o x → linked_ok D s' o (with_un (g (mmo_un x)) x).
Proof.
  intros Hr Hl. unfold linked_ok in *. simpl. destruct (mmo_ops x) eqn:Hk; [| |done].
  - destruct Hl as (next & y & l & b & H1 & H2 & H3 & H4 & H5 & H6).
    exists next, (with_un (g (mmo_un y)) y), l, b. rewrite (rm_objs _ _ _ _ _ _ Hr), lookup_fmap, H2. split_and!; try done.
    + rewrite <- (rm_objs _ _ _ _ _ _ Hr). eapply same_links_chain; [by eapply remapped_links|done].
    + rewrite H6. apply Hr.
  - destruct Hl as (Hs & l & Hu & Hl). split; [done|]. rewrite Hu.
    destruct (rm_vmas _ _ _ _ _ _ Hr l) as (l' & Hg & _). exists l'. split; [done|]. intros a Ha. by eapply remapped_id.
Qed.

Lemma objs_ok_remap g m mp mp' s s' e e' D :
  remapped g m mp mp' s s' → objs_ok e D s →
  (∀ o, mappers s' o + times o e' = mappers s o + times o e)%nat → objs_ok e' D s'.
Proof.
  intros Hr [Hc Ha Hi Hob Hown Hdead Hfile Hhome] Hsum. destruct (rm_same _ _ _ _ _ _ Hr) as (Hk & Hp & Hh).
  assert (∀ o, users D s' o + times o e' = users D s o + times o e)%nat as Hus.
  { intros o. specialize (Hsum o). unfold users, shadowers.
    rewrite (same_links_links D _ _ (remapped_links _ _ _ _ _ _ Hr)). lia. }
  split.
  - destruct Hc as [C1 C2 C3]. split; unfold resident, hashchain; by rewrite ?Hp, ?Hh.
  - intros v Hv. destruct (remapped_area _ _ _ _ _ _ v Hr Hv) as (v0 & Hv0 & Ho & Hm).
    destruct (Ha v0 Hv0) as [(m' & mq & Hm0 & Hmq & Hpr) (o & x & Hvo & Hx & HD & Hf)]. split.
    + unfold area_live. rewrite Hm, Hk, (rm_maps _ _ _ _ _ _ Hr). destruct (decide (m' = m)) as [->|Hne].
      * exists m, mp'. rewrite lookup_insert_eq. split_and!; try done. rewrite (rm_proc _ _ _ _ _ _ Hr).
        rewrite (rm_at _ _ _ _ _ _ Hr) in Hmq. by injection Hmq as <-.
      * exists m', mq. by rewrite lookup_insert_ne.
    + exists o, (with_un (g (mmo_un x)) x). rewrite Ho, (rm_objs _ _ _ _ _ _ Hr), lookup_fmap, Hx. done.
  - intros m' mq Hm. rewrite (rm_maps _ _ _ _ _ _ Hr) in Hm. apply lookup_insert_Some in Hm as [[<- <-]|[_ Hm]]; [apply Hr|].
    by eapply Hi.
  - intros o x' Hx' HD Hf. rewrite (rm_objs _ _ _ _ _ _ Hr), lookup_fmap in Hx'. apply fmap_Some in Hx' as (x & Hx & ->).
    destruct (Hob o x Hx HD Hf) as [R1 R0 R2 R3 R4 R5]. split; rewrite ?Hus; try done; [|by eapply remapped_linked].
    intros pf Hpf. destruct (R4 pf Hpf) as [y [? ? ? ? ?]]. exists y. split; rewrite ?Hp, ?Hk; done.
  - intros pf y o Hy Ho. rewrite Hp in Hy. destruct (Hown pf y o Hy Ho) as (x & Hx & Hin).
    exists (with_un (g (mmo_un x)) x). by rewrite (rm_objs _ _ _ _ _ _ Hr), lookup_fmap, Hx.
  - intros o x' HD Hx'. rewrite (rm_objs _ _ _ _ _ _ Hr), lookup_fmap in Hx'. apply fmap_Some in Hx' as (x & Hx & ->).
    by apply (Hdead o x).
  - intros o x' Hx' Hf. rewrite (rm_objs _ _ _ _ _ _ Hr), lookup_fmap in Hx'. apply fmap_Some in Hx' as (x & Hx & ->).
    by apply (Hfile o x).
  - intros m' mq v Hm Hv. rewrite (rm_maps _ _ _ _ _ _ Hr) in Hm. apply lookup_insert_Some in Hm as [[<- <-]|[_ Hm]].
    + destruct (rm_areas _ _ _ _ _ _ Hr v Hv) as (v0 & Hv0 & _ & ->). by eapply Hhome; [apply Hr|].
    + by eapply Hhome.
Qed.

(** How often the areas on a list refer to [o]. *)
Definition refs_in (l : list vmarea) (o : optr) : nat := length (filter (λ v, vma_obj v = Some o) l).

Lemma refs_in_app l l' o : refs_in (l ++ l') o = (refs_in l o + refs_in l' o)%nat.
Proof. unfold refs_in. by rewrite filter_app, length_app. Qed.

Lemma refs_in_one v o : refs_in [v] o = if decide (vma_obj v = Some o) then 1%nat else 0%nat.
Proof. unfold refs_in. rewrite filter_cons. by case_decide. Qed.

Lemma mappers_remap g m mp mp' s s' o :
  remapped g m mp mp' s s' → ∃ r, mappers s o = (refs_in (vmm_list mp) o + r)%nat ∧ mappers s' o = (refs_in (vmm_list mp') o + r)%nat.
Proof.
  intros Hr. destruct (areas_insert s s' m mp mp') as (rest & H1 & H2); [apply Hr..|]. exists (refs_in rest o).
  unfold mappers. rewrite <- !refs_in_app. unfold refs_in. by rewrite H1, H2.
Qed.

(** An area of address space [m] is unlinked from it and from its object. *)
Lemma objs_ok_unlink m mp a o s :
  objs_ok [] ∅ s → vmaps s !! m = Some mp → a ∈ vmm_list mp → vma_obj a = Some o →
  objs_ok [o] ∅ (set_vmaps (insert m (with_list (filter (λ v, vma_id v ≠ vma_id a)) mp))
    (set_mmobjs (fmap (λ x, with_un (unlink_area (mmo_un x) (vma_id a)) x)) s)).
Proof.
  intros Hok Hm (pre & post & Hl)%list_elem_of_split Ho. pose proof (oo_ids _ _ _ Hok m mp Hm) as Hnd.
  rewrite Hl in Hnd. pose proof (filter_area_at pre a post Hnd) as Hfl. set (s' := set_vmaps _ _).
  assert (remapped (λ u, unlink_area u (vma_id a)) m mp (with_list (filter (λ v, vma_id v ≠ vma_id a)) mp) s s') as Hr.
  { split; try done; simpl; rewrite ?Hl, ?Hfl.
    - by apply (ids_drop pre a).
    - intros v Hv. exists v. split; [set_solver|done].
    - intros l. eexists. split; [done|]. intros b [Hne Hb]%list_elem_of_filter. split; [done|]. intros v Hv Hid.
      exists v. split; [|done]. assert (v ≠ a) by congruence. set_solver. }
  eapply objs_ok_remap; [done..|]. intros p. destruct (mappers_remap _ _ _ _ _ _ p Hr) as (r & -> & ->). simpl.
  rewrite Hl, Hfl, (app_assoc pre [a] post : pre ++ a :: post = _), !refs_in_app, refs_in_one, times_cons, Ho.
  change (times p []) with 0%nat. repeat case_decide; simplify_eq; lia.
Qed.

Lemma objs_ok_resize m mp a st en off s :
  objs_ok [] ∅ s → vmaps s !! m = Some mp → a ∈ vmm_list mp →
  objs_ok [] ∅ (set_vmaps (insert m (with_list (replace_area (vma_id a) [with_range st en off a]) mp)) s).
Proof.
  intros Hok Hm (pre & post & Hl)%list_elem_of_split. pose proof (oo_ids _ _ _ Hok m mp Hm) as Hnd.
  rewrite Hl in Hnd. pose proof (replace_area_at pre a [with_range st en off a] post Hnd) as Hrl. set (s' := set_vmaps _ _).
  assert (remapped id m mp (with_list (replace_area (vma_id a) [with_range st en off a]) mp) s s') as Hr.
  { split; try done; simpl; rewrite ?Hl, ?Hrl.
    - rewrite app_assoc. by apply (ids_resize pre a).
    - intros v Hv. assert (v = with_range st en off a ∨ v ∈ pre ++ a :: post) as [->|?] by set_solver; [exists a|exists v]; set_solver.
    - symmetry. erewrite map_fmap_ext; [apply map_fmap_id|]. intros p [] _. done.
    - intros l. exists l. split; [done|]. intros b Hb. split; [done|]. intros v Hv Hid.
      assert (v = a ∨ v ∈ pre ++ post) as [->|?] by set_solver; [exists (with_range st en off a)|exists v]; set_solver. }
  eapply objs_ok_remap; [done..|]. intros p. destruct (mappers_remap _ _ _ _ _ _ p Hr) as (r & -> & ->). simpl.
  rewrite Hl, Hrl, (app_assoc pre [a] post : pre ++ a :: post = _), !refs_in_app, !refs_in_one.
  change (vma_obj (with_range st en off a)) with (vma_obj a). lia.
Qed.
End areas.

(** ** Address spaces over anonymous and shadow objects *)

Section spaces.
Context {VE : VmEnv} {MA : Machine} {ER : Errno} (vn : vtable) (n : nat).

Definition space_inv (s : vst) : Prop :=
  objs_ok [] ∅ s ∧ ∀ o l b, chain (mmobjs s) o l b → deep_enough n l.

Lemma obj_chain e D s o x :
  objs_ok e D s → mmobjs s !! o = Some x → o ∉ D → ¬ is_file x → ∃ l b, chain (mmobjs s) o l b.
Proof.
  intros Hok Hx HD Hf. pose proof (ok_linked _ _ _ _ _ (oo_obj _ _ _ Hok o x Hx HD Hf)) as Hl.
  unfold linked_ok in Hl. unfold is_file in Hf. destruct (mmo_ops x); [| |done].
  - destruct Hl as (_ & _ & l & b & _ & _ & _ & _ & Hc & _). by exists l, b.
  - destruct Hl as [Hs _]. exists [], o. by apply (chain_bottom _ _ x).
Qed.

Lemma space_put s0 o x s :
  (∀ p l b, chain (mmobjs s0) p l b → deep_enough n l) → same_links (mmobjs s0) (mmobjs s) →
  objs_ok [o] ∅ s → mmobjs s !! o = Some x → ¬ is_file x →
  ∃ s', o_put (mmobj_table vn n) o s = Ret () s' ∧ space_inv s' ∧ dropped o [] ∅ s s'.
Proof.
  intros Hd Hs Hok Hx Hf. assert (∀ p l b, chain (mmobjs s) p l b → deep_enough n l) as Hd'.
  { intros p l b Hc. apply (Hd p l b). eapply same_links_chain; [|done]. intros q. by rewrite Hs. }
  destruct (obj_chain _ _ s o x Hok Hx) as (l & b & Hc); [set_solver|done|].
  destruct (put_ok vn b l n o [] ∅ s x) as ([] & s' & E & Hdr); [by eauto..|set_solver|done|].
  exists s'. split; [done|]. split; [|done]. destruct Hdr as (Hok' & Hk & _). split; [done|].
  intros p l' b' Hc'. eapply Hd', kept_chain; done.
Qed.

Lemma release_area_ok s m mp a :
  space_inv s → vmaps s !! m = Some mp → a ∈ vmm_list mp →
  ∃ s', release_area (mmobj_table vn n) m a s = Ret () s' ∧ space_inv s' ∧ kpart s' = kpart s ∧ v_fs s' = v_fs s ∧
    vmaps s' = <[m := with_list (filter (λ v, vma_id v ≠ vma_id a)) mp]> (vmaps s).
Proof.
  intros [Hok Hd] Hm Ha. destruct (oo_areas _ _ _ Hok a) as [_ (o & x & Ho & Hx & _ & Hf)].
  { apply elem_of_areas. eauto. }
  pose proof (objs_ok_unlink m mp a o s Hok Hm Ha Ho) as Hok1.
  unfold release_area, vma_olink_remove, vma_plink_remove. erewrite bind_step by reflexivity.
  set (s0 := set_mmobjs _ s) in *. assert (vmaps s0 !! m = Some mp) as Hm0 by done.
  rewrite (bind_step _ _ _ _ _ (upd_vmmap_eval _ _ _ _ Hm0)), Ho. erewrite bind_step by reflexivity.
  set (s1 := set_vmaps _ s0) in *.
  destruct (space_put s o (with_un (unlink_area (mmo_un x) (vma_id a)) x) s1) as (s' & E & Hinv & _ & Hk & _); try done.
  { intros p. simpl. rewrite lookup_fmap. by destruct (mmobjs s !! p). }
  { simpl. by rewrite lookup_fmap, Hx. }
  exists s'. split_and!; [done..| | |]; [by rewrite (kp_part _ _ Hk)|by rewrite (kp_fs _ _ Hk)|by rewrite (kp_maps _ _ Hk)].
Qed.

(** What address spaces ask of the objects they map. *)
#[global] Instance table_iface : ObjIface (mmobj_table vn n).
Proof.
  refine {| obj_inv := space_inv |}.
  - intros s m mp a Hs Hm Ha. destruct (release_area_ok s m mp a Hs Hm Ha) as (s' & ? & ? & ? & _ & ?). by exists s'.
  - intros s m mp a st en off [Hok Hd] Hm Ha. split; [by apply objs_ok_resize|done].
  - intros s f [[Hc Ha Hi Hob Hown Hdead Hfile Hhome] Hd]. split; [|done]. split; try done.
    + destruct Hc. by split.
    + intros o x Hx HD Hf. destruct (Hob o x Hx HD Hf) as [R1 R0 R2 R3 R4 R5]. split; try done.
      intros pf Hpf. destruct (R4 pf Hpf) as [y [? ? ? ? ?]]. by exists y.
Defined.

(** Where nothing is mapped there is nothing left: an object is used by an
    area or by an object further up, and chains end. *)
Lemma shadowers_elem D h o : (0 < shadowers D h o)%nat → ∃ p y, h !! p = Some y ∧ p ∉ D ∧ mmo_shadowed y = Some o.
Proof.
  unfold shadowers. intros Hs. destruct (map_choose (filter (λ kv, kv.2 = Some o) (links D h))) as (p & u & Hp).
  { intros He. rewrite He, map_size_empty in Hs. lia. }
  apply map_lookup_filter_Some in Hp as [Hp Hu]. simpl in Hu. subst u. unfold links in Hp.
  rewrite lookup_fmap in Hp. apply fmap_Some in Hp as (y & Hy & Hyo). apply map_lookup_filter_Some in Hy as [Hy HD].
  by exists p, y.
Qed.

Lemma no_areas_no_objects s k : objs_ok [] ∅ s → areas_of s = [] →
  ∀ o x l b, chain (mmobjs s) o l b → (size (mmobjs s) < length l + k)%nat → mmobjs s !! o = Some x → is_file x.
Proof.
  intros Hok Hno. induction k as [|k IH]; intros o x l b Hc Hk Hx.
  { pose proof (chain_length _ _ _ _ Hc). lia. }
  destruct (mmo_ops x) eqn:Hops; [exfalso..|unfold is_file; by rewrite Hops];
    (assert (¬ is_file x) as Hf by (unfold is_file; rewrite Hops; tauto));
    destruct (oo_obj _ _ _ Hok o x Hx ltac:(set_solver) Hf) as [_ R0 _ _ _ _]; unfold users, mappers in R0;
    rewrite Hno in R0; simpl in R0; change (times o []) with 0%nat in R0;
    (destruct (shadowers_elem ∅ (mmobjs s) o) as (p & y & Hy & _ & Hyo); [lia|]);
    (assert (is_file y) as Hfy by (eapply (IH p y (p :: l) b); [by econstructor|simpl; lia|done]));
    pose proof (oo_files _ _ _ Hok p y Hy Hfy); congruence.
Qed.

Lemma destroy_areas_ok m : ∀ l mp s,
  space_inv s → vmaps s !! m = Some mp → vmm_list mp = l →
  ∃ s', destroy_areas (mmobj_table vn n) m l s = Ret () s' ∧ space_inv s' ∧ kpart s' = kpart s ∧ v_fs s' = v_fs s ∧
    vmaps s' = <[m := with_list (λ _, []) mp]> (vmaps s).
Proof.
  induction l as [|a l IH]; intros mp s Hs Hm Hl; cbn [destroy_areas].
  - exists s. split; [done|]. split_and!; [done..|]. destruct mp as [? p]. simpl in Hl. subst. by rewrite insert_id.
  - destruct (release_area_ok s m mp a Hs Hm) as (s1 & E & Hs1 & Hk & Hf & Hv); [rewrite Hl; by left|].
    pose proof (oo_ids _ _ _ (proj1 Hs) m mp Hm) as Hnd. rewrite Hl in Hnd.
    destruct (IH (with_list (filter (λ v, vma_id v ≠ vma_id a)) mp) s1) as (s' & E' & Hs' & Hk' & Hf' & Hv'); [done| | |].
    + rewrite Hv. apply lookup_insert_eq.
    + simpl. rewrite Hl. apply (filter_area_at [] a l Hnd).
    + exists s'. rewrite (bind_step _ _ _ _ _ E). split_and!; [done..|congruence|congruence|].
      rewrite Hv', Hv. by rewrite insert_insert_eq.
Qed.

Lemma space_inv_delete s m mp :
  space_inv s → vmaps s !! m = Some mp → vmm_list mp = [] → space_inv (set_vmaps (delete m) s).
Proof.
  intros [[Hc Ha Hi Hob Hown Hdead Hfile Hhome] Hd] Hm Hl. split; [|done]. set (s' := set_vmaps _ s).
  assert (areas_of s ≡ₚ areas_of s') as Hp.
  { unfold areas_of at 1. rewrite <- (map_to_list_delete _ _ _ Hm). simpl. by rewrite Hl. }
  assert (∀ o, users ∅ s' o = users ∅ s o) as Hus.
  { intros o. unfold users, mappers. by rewrite Hp. }
  split; try done.
  - destruct Hc. by split.
  - intros v Hv. rewrite <- Hp in Hv. destruct (Ha v Hv) as [(m' & mq & H1 & H2 & H3) ?]. split; [|done].
    exists m', mq. split_and!; try done. simpl. rewrite lookup_delete_ne; [done|]. intros <-.
    apply elem_of_areas in Hv as (m2 & mp2 & Hm2 & Hv2). pose proof (Hhome m2 mp2 v Hm2 Hv2). simplify_eq.
    rewrite Hl in Hv2. by apply elem_of_nil in Hv2.
  - simpl. intros m' mq [_ Hm']%lookup_delete_Some. by eapply Hi.
  - intros o x Hx HD Hf. destruct (Hob o x Hx HD Hf) as [R1 R0 R2 R3 R4 R5]. split; rewrite ?Hus; try done.
    + intros pf Hpf. destruct (R4 pf Hpf) as [y [? ? ? ? ?]]. by exists y.
    + unfold linked_ok in *. destruct (mmo_ops x); try done. destruct R5 as (? & l & ? & Hl'). split; [done|].
      exists l. split; [done|]. intros a Hal. destruct (Hl' a Hal) as (v & Hv & ?). exists v. by rewrite <- Hp.
  - simpl. intros m' mq v [_ Hm']%lookup_delete_Some. by apply Hhome.
Qed.

(** C13. Dropping a reference to an anonymous or shadow object, in a state in
    which all reference counts are right and the reference dropped is the
    caller's: it never fails and leaves all counts right; if areas or shadow
    objects still refer to the object, its count goes down by one and nothing
    else happens; if not, the object goes, with every page it has, and so does,
    down the chain of shadow objects, what only it referred to. *)
Theorem mmobj_put_frees s o x :
  objs_ok [o] ∅ s → (∀ p l b, chain (mmobjs s) p l b → deep_enough n l) →
  mmobjs s !! o = Some x → ¬ is_file x →
  ∃ s', o_put (mmobj_table vn n) o s = Ret () s' ∧ objs_ok [] ∅ s' ∧ vmaps s' = vmaps s ∧ kpart s' = kpart s ∧
    if decide (users ∅ s o = 0%nat)
    then mmobjs s' !! o = None ∧ ∀ pf y, pframes s' !! pf = Some y → pf_obj y ≠ Some o
    else s' = set_mmobjs (insert o (with_refcount (λ r, r - 1) x)) s.
Proof.
  intros Hok Hd Hx Hf. destruct (space_put s o x s) as (s' & E & [Hok' _] & _ & Hk & Hgone); [done..|].
  exists s'. split_and!; [done..|apply Hk|apply Hk|].
  case_decide as Hu.
  - assert (mmobjs s' !! o = None) as Hn by (by apply Hgone). split; [done|]. intros pf y Hy Ho.
    destruct (oo_owner _ _ _ Hok' pf y o Hy Ho) as (z & Hz & _). congruence.
  - destruct (oo_obj _ _ _ Hok o x Hx ltac:(set_solver) Hf) as [R1 _ R2 _ _ _].
    rewrite times_cons, decide_True in R1 by done. change (times o []) with 0%nat in R1.
    destruct (obj_chain _ _ s o x Hok Hx) as (l & b & Hc); [set_solver|done|]. apply Hd in Hc as Hn.
    unfold deep_enough in Hn. destruct n as [|k]; [lia|].
    rewrite (put_decr vn k o x s) in E by (done || lia). congruence.
Qed.


(** C14. Destroying an address space never fails: it releases every area,
    keeps all reference counts right, and leaves processes and the other
    address spaces alone.  If it is the only address space, nothing leaks: no
    anonymous or shadow object and no page of one is left. *)
Theorem vmmap_destroy_frees s m mp :
  space_inv s → vmaps s !! m = Some mp →
  ∃ s', vmmap_destroy (mmobj_table vn n) m s = Ret () s' ∧ space_inv s' ∧ vmaps s' = delete m (vmaps s) ∧
    kpart s' = kpart s ∧ v_fs s' = v_fs s ∧
    (vmaps s = {[m := mp]} →
       (∀ o x, mmobjs s' !! o = Some x → is_file x) ∧
       ∀ pf y o, pframes s' !! pf = Some y → pf_obj y = Some o → ∃ x, mmobjs s' !! o = Some x ∧ is_file x).
Proof.
  intros Hs Hm. destruct (destroy_areas_ok m (vmm_list mp) mp s Hs Hm eq_refl) as (s1 & E & Hs1 & Hk & Hf & Hv).
  unfold vmmap_destroy. rewrite (bind_step (vmmap_at m) _ s mp s) by (unfold vmmap_at; by rewrite Hm).
  rewrite (bind_step _ _ _ _ _ E). eexists. split; [done|].
  assert (space_inv (set_vmaps (delete m) s1)) as Hs2.
  { eapply space_inv_delete; [done|by rewrite Hv, lookup_insert_eq|done]. }
  split_and!; [done|simpl; by rewrite Hv, delete_insert_eq|done..|]. intros Hone.
  assert (∀ o x, mmobjs s1 !! o = Some x → is_file x) as Hfiles.
  { intros o x Hx. destruct (decide (mmo_ops x = shadow_mmobj_ops ∨ mmo_ops x = anon_mmobj_ops)) as [Hops|Hops];
      [|unfold is_file; destruct (mmo_ops x); naive_solver].
    destruct (obj_chain _ _ _ o x (proj1 Hs2) Hx) as (l & b & Hc); [set_solver|unfold is_file; destruct (mmo_ops x); naive_solver|].
    eapply (no_areas_no_objects (set_vmaps (delete m) s1) (S (size (mmobjs s1)))); [apply Hs2| |done|simpl; lia|done].
    unfold areas_of. simpl. rewrite Hv, Hone, delete_insert_eq, delete_singleton_eq. by rewrite map_to_list_empty. }
  split; [done|]. intros pf y o Hy Ho. destruct (oo_owner _ _ _ (proj1 Hs2) pf y o Hy Ho) as (x & Hx & _).
  exists x. split; [done|by eapply Hfiles].
Qed.
End spaces.

(** ** A shadow object over an anonymous object *)

Module ObjEx.
#[local] Existing Instance VmmapEx.env.
#[local] Existing Instance VmmapEx.quiet.
#[local] Existing Instance some_errno.

(** Object 5, with page 0 in frame 1, shadows object 6, with page 0 in frame
    2; the areas [l] of address space 1 map object 5. *)
Definition top : mmobj :=
  Mmobj shadow_mmobj_ops 2 1 [1%positive] (mmo_bottom_obj 6%positive) (Some 6%positive).
Definition bottom (l : list vmarea) : mmobj := Mmobj anon_mmobj_ops 2 1 [2%positive] (mmo_vmas (ids l)) None.
Definition frame1 : pframe := Pframe 8192 (Some 5%positive) 0 false true 1.
Definition frame2 : pframe := Pframe 12288 (Some 6%positive) 0 false false 0.
Definition heap0 (l : list vmarea) : vst :=
  Vst VmmapEx.k0 {[5%positive := top; 6%positive := bottom l]} {[1%positive := frame1; 2%positive := frame2]}
    [2%positive] [1%positive] 1 1 {[5 := [1%positive]; 6 := [2%positive]]} (λ _, 0)
    {[1%positive := Vmmap l (Some 12%positive)]} ∅ ∅ no_fs.

Lemma two_entries {K} `{Countable K} {A} (k1 k2 k : K) (a b x : A) :
  ({[k1 := a; k2 := b]} : gmap K A) !! k = Some x → k = k1 ∧ x = a ∨ k = k2 ∧ x = b.
Proof. intros [[<- <-]|[_ [<- <-]%lookup_singleton_Some]]%lookup_insert_Some; auto. Qed.

Lemma heap0_map l m mp : vmaps (heap0 l) !! m = Some mp → m = 1%positive ∧ mp = Vmmap l (Some 12%positive).
Proof. intros Hm. simpl in Hm. by apply lookup_singleton_Some in Hm as [<- <-]. Qed.

Lemma heap0_cache l : cache_inv (heap0 l).
Proof.
  assert (∀ o n pf, ShadowProps.resident (heap0 l) o n pf →
    pf = 1%positive ∧ o = 5%positive ∧ n = 0 ∨ pf = 2%positive ∧ o = 6%positive ∧ n = 0) as Hres.
  { intros o n pf (y & Hy & Ho & Hn). apply two_entries in Hy as [[-> ->]|[-> ->]]; simpl in *; naive_solver. }
  split.
  - intros o n pf [(-> & -> & ->)|(-> & -> & ->)]%Hres; by left.
  - intros h q pf Hq Hpf. apply two_entries in Hq as [[_ ->]|[_ ->]]; apply list_elem_of_singleton in Hpf as ->; by eexists.
  - intros o n pf pf' H1%Hres H2%Hres. naive_solver.
Qed.

Lemma heap0_chain l o l' b : chain (mmobjs (heap0 l)) o l' b → deep_enough 4 l'.
Proof.
  intros Hc. unfold deep_enough. assert (length l' ≤ 1)%nat; [|lia].
  inversion Hc as [|? x next l2 ? Hx Hs Hc2]; subst; simpl; [lia|].
  apply two_entries in Hx as [[-> ->]|[-> ->]]; [|done]. injection Hs as <-.
  inversion Hc2 as [|? x next l3 ? Hx Hs Hc3]; subst; simpl; [lia|].
  apply two_entries in Hx as [[? ->]|[_ ->]]; done.
Qed.

Definition one_area : list vmarea := [VmmapEx.area 1 1024 1030 5].

Lemma heap0_ok l e :
  l = [] ∧ e = [5%positive] ∨ l = one_area ∧ e = [] → objs_ok e ∅ (heap0 l).
Proof.
  intros Hle. assert (∀ v, v ∈ areas_of (heap0 l) → v ∈ l) as Hv.
  { intros v (m & mp & Hm & Hv)%elem_of_areas. apply heap0_map in Hm as [-> ->]. done. }
  assert (∀ v, v ∈ l → v = VmmapEx.area 1 1024 1030 5) as Hl.
  { intros v Hin. destruct Hle as [[-> _]|[-> _]]; [by apply elem_of_nil in Hin|by apply list_elem_of_singleton in Hin]. }
  split; [apply heap0_cache|..].
  - intros v ->%Hv%Hl. split; [|exists 5%positive, top; split_and!; [done|done|set_solver|by intros []]].
    eexists 1%positive, _. split_and!; [done|done|]. intros p [= <-]. exists VmmapEx.proc1. split; [done|by eexists].
  - intros m mp Hm. apply heap0_map in Hm as [-> ->]. destruct Hle as [[-> _]|[-> _]]; by_computation.
  - intros o x Hx _ _. apply two_entries in Hx as [[-> ->]|[-> ->]].
    + split; [destruct Hle as [[-> ->]|[-> ->]]; reflexivity|destruct Hle as [[-> ->]|[-> ->]]; by_computation|done|by_computation|..].
      * intros pf ->%list_elem_of_singleton. by exists frame1.
      * exists 6%positive, (bottom l), [5%positive], 6%positive. split_and!; [done|done|set_solver|by intros []| |done].
        eapply chain_shadow; [done|done|]. by eapply chain_bottom.
    + split; [destruct Hle as [[-> ->]|[-> ->]]; reflexivity|destruct Hle as [[-> ->]|[-> ->]]; by_computation|done|by_computation|..].
      * intros pf ->%list_elem_of_singleton. by exists frame2.
      * split; [done|]. exists (ids l). split; [done|]. intros a (v & -> & Hin)%list_elem_of_fmap. exists v. split; [|done].
        apply elem_of_areas. by eexists 1%positive, _.
  - intros pf y o Hy Ho. apply two_entries in Hy as [[-> ->]|[-> ->]]; injection Ho as <-; eexists; split; done || by left.
  - done.
  - intros o x Hx Hf. by apply two_entries in Hx as [[-> ->]|[-> ->]].
  - intros m mp v Hm Hin. apply heap0_map in Hm as [-> ->]. by rewrite (Hl v).
Qed.

Lemma mmobj_put_frees_witness :
  ∃ s', o_put (mmobj_table VmmapEx.plain 4) 5%positive (heap0 []) = Ret () s' ∧
    mmobjs s' !! 5%positive = None ∧ objs_ok [] ∅ s'.
Proof.
  destruct (mmobj_put_frees VmmapEx.plain 4 (heap0 []) 5%positive top) as (s' & E & Hok & _ & _ & Hg).
  - apply heap0_ok. by left.
  - intros p l b Hc. by eapply heap0_chain.
  - done.
  - by intros [].
  - rewrite decide_True in Hg by reflexivity. exists s'. split_and!; [done|apply Hg|done].
Defined.

Lemma vmmap_destroy_frees_witness :
  ∃ s', vmmap_destroy (mmobj_table VmmapEx.plain 4) 1%positive (heap0 one_area) = Ret () s' ∧
    ∀ o x, mmobjs s' !! o = Some x → is_file x.
Proof.
  destruct (vmmap_destroy_frees VmmapEx.plain 4 (heap0 one_area) 1%positive (Vmmap one_area (Some 12%positive)))
    as (s' & E & _ & _ & _ & _ & Hg).
  - split; [apply heap0_ok; by right|intros o l b Hc; by eapply heap0_chain].
  - done.
  - exists s'. split; [done|]. by apply Hg.
Defined.

End ObjEx.
