(* ===== verification/PageoutProps.v ===== *)
(** * Properties of sync and of the pageout daemon

    Cleaning and reclaiming pages loses nothing: what a page of an object
    contains, in its frame if it is resident and in the object's backing
    store otherwise, stays the same. *)

From S2P Require Import Prelude Kstate Sched Kmutex Proc Vmstate Pframe Mmobj Vmmap Areas VmmapProps ShadowProps.
From S2P Require Import ObjProps Pageout.
Local Open Scope Z_scope.

Section pageout.
Context {VE : VmEnv} {MA : Machine} {ER : Errno} (ops : vtable).

(** The backing store: page [n] of object [o] on the devices. *)
Context (backing : fsst → optr → Z → list Z).

(** What the operations of the objects promise: [cleanpage] writes the page to
    the backing store, and [put] on an object with other references drops
    one. *)
Record store_ops : Prop := {
  so_clean : ∀ s o pf x y, mmobjs s !! o = Some x → pframes s !! pf = Some y → pf_obj y = Some o →
    ∃ r fs', o_cleanpage ops o pf s = Ret r (set_fs (λ _, fs') s) ∧ 0 <= r ∧
      ∀ o' n, backing fs' o' n =
        if decide (o' = o ∧ n = pf_pagenum y) then page s (pf_addr y) else backing (v_fs s) o' n;
  so_put : ∀ s o x, mmobjs s !! o = Some x → mmo_nrespages x + 1 < mmo_refcount x →
    o_put ops o s = Ret () (set_mmobjs (insert o (with_refcount (λ n, n - 1) x)) s);
}.

(** What a page contains. *)
Definition content (s : vst) (o : optr) (n : Z) : list Z :=
  match frame_at s o n ≫= (pframes s !!.) with
  | Some y => page s (pf_addr y)
  | None => backing (v_fs s) o n
  end.

(** A page that can be cleaned and reclaimed: not pinned, not busy, nobody
    waits for it, and the areas that map it can be reached. *)
Record idle_page (s : vst) (pf : pfptr) (y : pframe) (o : optr) (x : mmobj) : Prop := {
  ip_at : pframes s !! pf = Some y;
  ip_obj : pf_obj y = Some o;
  ip_idle : pf_busy y = false;
  ip_unpinned : pf_pincount y = 0;
  ip_quiet : tq_list (queue (v_k s) (pf_waitq pf)) = [];
  ip_object : mmobjs s !! o = Some x;
  ip_bottom : mmo_shadowed x = None ∧ ∃ l, mmo_un x = mmo_vmas l ∧
    ∀ a, a ∈ l → ∃ v, v ∈ areas_of s ∧ vma_id v = a;
  ip_used : mmo_nrespages x < mmo_refcount x;
}.

Record pages_ok (s : vst) : Prop := {
  po_idle : ∀ pf, pf ∈ alloc_list s → ∃ y o x, idle_page s pf y o x;
  po_nodup : NoDup (alloc_list s);
  po_uniq : ∀ o n pf pf', resident s o n pf → resident s o n pf' → pf = pf';
  po_areas : ∀ v, v ∈ areas_of s → area_live s v;
  po_clean : ∀ pf y o, pframes s !! pf = Some y → pf_obj y = Some o → pf_dirty y = false →
    backing (v_fs s) o (pf_pagenum y) = page s (pf_addr y);
}.

Context (Hops : store_ops).

Lemma content_resident s o n pf y :
  pages_ok s → pframes s !! pf = Some y → pf_obj y = Some o → pf_pagenum y = n → content s o n = page s (pf_addr y).
Proof.
  intros Hok Hy Ho Hn. unfold content. destruct (frame_at s o n) as [q|] eqn:Hq.
  - apply frame_at_Some in Hq. rewrite (po_uniq s Hok o n q pf Hq) by (by exists y). simpl. by rewrite Hy.
  - destruct (frame_at_None s o n pf Hq). by exists y.
Qed.

Lemma content_absent s o n : (∀ pf, ¬ resident s o n pf) → content s o n = backing (v_fs s) o n.
Proof.
  intros Hn. unfold content. destruct (frame_at s o n) as [q|] eqn:Hq; [|done]. by apply frame_at_Some, Hn in Hq.
Qed.

Lemma idle_pts s pf y o x : pages_ok s → idle_page s pf y o x → pts_ok s o.
Proof.
  intros Hok Hi. destruct (ip_bottom _ _ _ _ _ Hi) as (Hs & l & Hu & Hl). exists x, l.
  rewrite (mmobj_bottom_self _ _ _ (ip_object _ _ _ _ _ Hi) Hs). split_and!; try done; [apply Hi|apply Hok].
Qed.

Lemma page_mem s s' a : mem s' = mem s → page s' a = page s a.
Proof. intros Hm. apply page_ext. by rewrite Hm. Qed.

(** ** Cleaning a page *)

(** The page is clean, and in the backing store. *)
Record cleaned (s : vst) (pf : pfptr) (y : pframe) (o : optr) (s' : vst) : Prop := {
  cl_state : ∃ t fs', s' = set_pframes (λ _, <[pf := with_dirty false y]> (pframes s)) (set_fs (λ _, fs') (set_pts (λ _, t) s));
  cl_backing : ∀ o' n, backing (v_fs s') o' n =
    if decide (o' = o ∧ n = pf_pagenum y) then page s (pf_addr y) else backing (v_fs s) o' n;
}.

Lemma clean_idle s pf y o x :
  pages_ok s → idle_page s pf y o x → pf_dirty y = true →
  ∃ r s', pframe_clean ops pf s = Ret r s' ∧ cleaned s pf y o s'.
Proof.
  intros Hok Hi Hd. destruct (pframe_clean_eval ops s pf y o) as (t & E); try apply Hi; [done|by eapply idle_pts|].
  set (s1 := set_pframes _ _) in E.
  destruct (so_clean Hops s1 o pf x (with_busy true (with_dirty false y))) as (r & fs' & E1 & Hr & Hb);
    [apply Hi|apply lookup_insert_eq|apply Hi|].
  specialize (E r _ E1 eq_refl (ip_quiet _ _ _ _ _ Hi)). rewrite (proj2 (Z.ltb_ge r 0)) in E by done.
  eexists r, _. split; [exact E|]. split; [|intros o' n; rewrite Hb, (page_mem s s1) by done; reflexivity]. exists t, fs'.
  apply vst_ext; try done. simpl. f_equal. pose proof (ip_idle _ _ _ _ _ Hi). destruct y. simpl in *. by subst.
Qed.

Lemma areas_ext s s' : vmaps s' = vmaps s → areas_of s' = areas_of s.
Proof. intros Hv. unfold areas_of. by rewrite Hv. Qed.

Lemma live_ext s s' v : vmaps s' = vmaps s → v_k s' = v_k s → area_live s v → area_live s' v.
Proof. intros Hv Hk. unfold area_live. by rewrite Hv, Hk. Qed.

Lemma cleaned_resident s pf y o s' o' n q :
  pframes s !! pf = Some y → cleaned s pf y o s' → resident s' o' n q ↔ resident s o' n q.
Proof.
  intros Hy [(t & fs' & ->) _]. unfold resident. simpl. destruct (decide (q = pf)) as [->|Hne].
  - rewrite lookup_insert_eq, Hy. split; intros (z & [= <-] & Hz); eauto.
  - by rewrite lookup_insert_ne.
Qed.

Lemma cleaned_ok s pf y o x s' :
  pages_ok s → idle_page s pf y o x → cleaned s pf y o s' →
  pages_ok s' ∧ ∀ o' n, content s' o' n = content s o' n.
Proof.
  intros Hok Hi Hcl. pose proof Hi as [Hy Ho Hb Hp Hq Hx Hbot Hus].
  pose proof (λ o' n q, cleaned_resident s pf y o s' o' n q Hy Hcl) as Hres.
  destruct Hcl as [(t & fs' & Es) Hback].
  assert (∀ a, page s' a = page s a) as Hpg by (intros a; apply page_mem; by rewrite Es).
  assert (pframes s' = <[pf := with_dirty false y]> (pframes s)) as Hps by by rewrite Es.
  assert (pages_ok s') as Hok'; [|split; [done|]].
  - split.
    + intros q Hin. rewrite Es in Hin. destruct (po_idle s Hok q Hin) as (z & oz & xz & [I1 I2 I3 I4 I5 I6 I7 I8]).
      destruct (decide (q = pf)) as [->|Hne].
      * exists (with_dirty false y), o, x. rewrite Es. split; try done. simpl. by rewrite lookup_insert_eq.
      * exists z, oz, xz. rewrite Es. split; try done. simpl. by rewrite lookup_insert_ne.
    + rewrite Es. apply Hok.
    + intros o' n q q' H1%Hres H2%Hres. by eapply (po_uniq s Hok).
    + rewrite Es. apply Hok.
    + intros q z oz Hz Hoz Hd. rewrite Hback, Hpg. rewrite Hps in Hz. apply lookup_insert_Some in Hz as [[<- <-]|[Hne Hz]].
      * by rewrite decide_True by (simpl in *; split; congruence).
      * rewrite decide_False; [by eapply (po_clean s Hok)|]. intros [-> Hn]. apply Hne.
        apply (po_uniq s Hok o (pf_pagenum y)); [by exists y|by exists z].
  - intros o' n. destruct (frame_at s o' n) as [q|] eqn:Hf.
    + apply frame_at_Some in Hf as (z & Hz & Hoz & Hnz). rewrite (content_resident s o' n q z) by done.
      destruct (decide (q = pf)) as [->|Hne].
      * rewrite (content_resident s' o' n pf (with_dirty false y)); [|done|by rewrite Hps, lookup_insert_eq|simpl; congruence..].
        rewrite Hpg. simpl. congruence.
      * rewrite (content_resident s' o' n q z); [done|done|by rewrite Hps, lookup_insert_ne|done..].
    + pose proof (λ q, frame_at_None s o' n q Hf) as Hno.
      rewrite !content_absent; [|done|by intros q Hq'%Hres; apply (Hno q)].
      rewrite Hback, decide_False; [done|]. intros [-> ->]. apply (Hno pf). by exists y.
Qed.

(** ** Freeing a clean page *)

Record freed (s : vst) (pf : pfptr) (o : optr) (x : mmobj) (s' : vst) : Prop := {
  fe_k : v_k s' = v_k s;
  fe_maps : vmaps s' = vmaps s;
  fe_fs : v_fs s' = v_fs s;
  fe_frames : pframes s' = delete pf (pframes s);
  fe_objs : mmobjs s' = <[o := with_refcount (λ n, n - 1) (with_respages (drop_pf pf) (with_nrespages (λ n, n - 1) x))]>
    (with_respages (drop_pf pf) <$> mmobjs s);
  fe_list : alloc_list s' = drop_pf pf (alloc_list s);
  fe_mem : mem s' = mem s;
}.

Lemma free_idle s pf y o x :
  pages_ok s → idle_page s pf y o x → ∃ s', pframe_free ops pf s = Ret () s' ∧ freed s pf o x s'.
Proof.
  intros Hok Hi. pose proof (idle_pts _ _ _ _ _ Hok Hi) as Hpts. destruct Hi as [Hy Ho Hb Hp Hq Hx Hbot Hus].
  destruct (pframe_free_eval ops s pf y o x) as (s' & E & Hk & Hv & _ & Hfs & Hps & _ & Hob & Hl & Hm); try done.
  - intros s1 Hs1. apply (so_put Hops); [done|]. simpl. lia.
  - by exists s'.
Qed.

Lemma freed_object s pf o x s' oz xz :
  mmobjs s !! o = Some x → freed s pf o x s' → mmobjs s !! oz = Some xz →
  ∃ xz', mmobjs s' !! oz = Some xz' ∧ mmo_shadowed xz' = mmo_shadowed xz ∧ mmo_un xz' = mmo_un xz ∧
    mmo_refcount xz' - mmo_nrespages xz' = mmo_refcount xz - mmo_nrespages xz.
Proof.
  intros Hx Hf Hz. rewrite (fe_objs _ _ _ _ _ Hf). destruct (decide (oz = o)) as [->|Hne].
  - simplify_eq. rewrite lookup_insert_eq. eexists. split_and!; [done..|]. simpl. lia.
  - rewrite lookup_insert_ne, lookup_fmap, Hz by done. eexists. by split_and!.
Qed.

Lemma reclaimed_ok s pf y o x s' :
  pages_ok s → idle_page s pf y o x → pf_dirty y = false → freed s pf o x s' →
  pages_ok s' ∧ ∀ o' n, content s' o' n = content s o' n.
Proof.
  intros Hok Hi Hd Hf. pose proof Hi as [Hy Ho Hb Hp Hq Hx Hbot Hus].
  pose proof (λ oz xz, freed_object s pf o x s' oz xz Hx Hf) as Hobj.
  destruct Hf as [Hk Hv Hfs Hps _ Hl Hm].
  assert (∀ a, page s' a = page s a) as Hpg by (intros a; by apply page_mem).
  assert (∀ q z, pframes s' !! q = Some z ↔ q ≠ pf ∧ pframes s !! q = Some z) as Hfr.
  { intros q z. rewrite Hps, lookup_delete_Some. naive_solver. }
  assert (pages_ok s') as Hok'; [|split; [done|]].
  - split.
    + intros q Hin. rewrite Hl in Hin. apply list_elem_of_filter in Hin as [Hne Hin].
      destruct (po_idle s Hok q Hin) as (z & oz & xz & [I1 I2 I3 I4 I5 I6 [I7 (l & I8 & I9)] I10]).
      destruct (Hobj oz xz I6) as (xz' & Hz' & E1 & E2 & E3). exists z, oz, xz'. split; try done.
      * by apply Hfr.
      * by rewrite Hk.
      * rewrite E1, E2, (areas_ext s s' Hv). eauto.
      * lia.
    + rewrite Hl. by apply NoDup_filter, Hok.
    + intros o' n q q' (z & [_ Hz]%Hfr & Hz') (z2 & [_ Hz2]%Hfr & Hz2'). eapply (po_uniq s Hok o' n); by eexists.
    + intros v Hin. rewrite (areas_ext s s' Hv) in Hin. apply (live_ext s s' v Hv Hk). by apply Hok.
    + intros q z oz [_ Hz]%Hfr Hoz Hdz. rewrite Hfs, Hpg. by eapply (po_clean s Hok).
  - intros o' n. destruct (frame_at s o' n) as [q|] eqn:Hf.
    + apply frame_at_Some in Hf as (z & Hz & Hoz & Hnz). rewrite (content_resident s o' n q z) by done.
      destruct (decide (q = pf)) as [->|Hne].
      * rewrite Hy in Hz. injection Hz as <-. rewrite content_absent, Hfs.
        -- replace o' with o by congruence. rewrite <- Hnz. by apply (po_clean s Hok pf).
        -- intros q (z & [Hne Hz]%Hfr & Hz'). apply Hne. apply (po_uniq s Hok o' n); by eexists.
      * rewrite (content_resident s' o' n q z); [done|done|by apply Hfr|done..].
    + pose proof (λ q, frame_at_None s o' n q Hf) as Hno. rewrite !content_absent; [by rewrite Hfs|done|].
      intros q (z & [_ Hz]%Hfr & Hz'). apply (Hno q). by exists z.
Qed.

(** ** The loops *)

Definition is_dirty (s : vst) (pf : pfptr) : bool := from_option pf_dirty false (pframes s !! pf).
Definition ndirty (s : vst) : nat := length (filter (λ pf, is_dirty s pf = true) (alloc_list s)).

Lemma filter_fewer (P Q : pfptr → bool) l a :
  (∀ b, Q b = true → P b = true) → a ∈ l → P a = true → Q a = false →
  (length (filter (λ b, Q b = true) l) < length (filter (λ b, P b = true) l))%nat.
Proof.
  intros HQP Hin HP HQ. assert (∀ k, length (filter (λ b, Q b = true) k) ≤ length (filter (λ b, P b = true) k))%nat as Hle.
  { induction k as [|b k IH]; [done|]. rewrite !filter_cons. specialize (HQP b). repeat case_decide; simpl; try lia. tauto. }
  apply list_elem_of_split in Hin as (l1 & l2 & ->). rewrite !filter_app, !length_app.
  rewrite (filter_cons_True (λ b, P b = true)) by done.
  rewrite (filter_cons_False (λ b, Q b = true)) by congruence. simpl. pose proof (Hle l1). pose proof (Hle l2). lia.
Qed.

Lemma filter_same (P Q : pfptr → bool) (l : list pfptr) :
  (∀ a, a ∈ l → P a = Q a) → filter (λ a, P a = true) l = filter (λ a, Q a = true) l.
Proof.
  induction l as [|a l IH]; intros Hpq; [done|]. rewrite !filter_cons, (Hpq a) by (by left).
  rewrite IH by (intros b Hb; apply Hpq; by right). done.
Qed.

Lemma cleaned_fewer s pf y o s' :
  pframes s !! pf = Some y → pf ∈ alloc_list s → pf_dirty y = true → cleaned s pf y o s' →
  alloc_list s' = alloc_list s ∧ (ndirty s' < ndirty s)%nat.
Proof.
  intros Hy Hin Hd [(t & fs' & ->) _]. split; [done|]. unfold ndirty. simpl. apply (filter_fewer _ _ _ pf); [|done|..].
  - intros q. unfold is_dirty. simpl. rewrite lookup_insert. case_decide as E; [|done]. by subst.
  - unfold is_dirty. by rewrite Hy.
  - unfold is_dirty. simpl. by rewrite lookup_insert_eq.
Qed.

Lemma clean_pass_spec s l : pages_ok s → (∀ pf, pf ∈ l → pf ∈ alloc_list s) →
  (clean_pass ops l s = Ret true s ∧ ∀ pf, pf ∈ l → is_dirty s pf = false) ∨
  ∃ pf y o x s', pf ∈ alloc_list s ∧ idle_page s pf y o x ∧ pf_dirty y = true ∧
    clean_pass ops l s = Ret false s' ∧ cleaned s pf y o s'.
Proof.
  intros Hok. induction l as [|pf l IH]; intros Hl.
  - left. split; [done|]. by intros pf ?%elem_of_nil.
  - destruct (po_idle s Hok pf) as (y & o & x & Hi); [apply Hl; by left|]. pose proof Hi as [Hy Ho Hb Hp _ _ _ _].
    assert (clean_pass ops (pf :: l) s = if pf_dirty y then (_ ← pframe_clean ops pf; mret false) s else clean_pass ops l s) as E.
    { cbn [clean_pass]. rewrite (bind_step _ _ _ _ _ (pframe_at_eq _ _ _ Hy)). unfold pframe_is_pinned, pframe_is_free.
      rewrite Hp, Ho, Hb. rewrite bind_assert by done. rewrite bind_assert by (by rewrite bool_decide_eq_false_2).
      by destruct (pf_dirty y). }
    rewrite E. clear E. destruct (pf_dirty y) eqn:Hd.
    + right. destruct (clean_idle s pf y o x Hok Hi Hd) as (r & s' & E & Hcl). exists pf, y, o, x, s'.
      split_and!; [apply Hl; by left|done..| |done]. by rewrite (bind_step _ _ _ _ _ E).
    + destruct IH as [[E Hc]|Hx]; [intros q Hq; apply Hl; by right| |by right]. left. split; [done|].
      intros q [->|Hq]%elem_of_cons; [|auto]. unfold is_dirty. by rewrite Hy.
Qed.

Lemma sync_spec fuel : ∀ s, pages_ok s → (ndirty s ≤ fuel)%nat →
  ∃ s', pframe_clean_all ops fuel s = Ret () s' ∧ pages_ok s' ∧ alloc_list s' = alloc_list s ∧
    (∀ pf, pf ∈ alloc_list s' → is_dirty s' pf = false) ∧ (∀ o n, content s' o n = content s o n) ∧
    ∀ o n q, resident s' o n q ↔ resident s o n q.
Proof.
  induction fuel as [|fuel IH]; intros s Hok Hn;
    (destruct (clean_pass_spec s (alloc_list s) Hok) as [[E Hc]|(pf & y & o & x & s1 & Hin & Hi & Hd & E & Hcl)]; [done|..]).
  1, 3: exists s; split_and!; try done; cbn [pframe_clean_all]; erewrite bind_step by reflexivity;
    by rewrite (bind_step _ _ _ _ _ E).
  all: destruct (cleaned_fewer s pf y o s1) as [Hl Hf]; [apply Hi|done..|].
  { lia. }
  destruct (cleaned_ok s pf y o x s1 Hok Hi Hcl) as [Hok1 Hc1].
  destruct (IH s1) as (s' & E' & Hok' & Hl' & Hcl' & Hc' & Hr'); [done|lia|]. exists s'. split_and!; try done.
  - cbn [pframe_clean_all]. erewrite bind_step by reflexivity. by rewrite (bind_step _ _ _ _ _ E).
  - congruence.
  - intros o' n. by rewrite Hc'.
  - intros o' n q. rewrite Hr'. apply (cleaned_resident s pf y o); [apply Hi|done].
Qed.

(** One step of the daemon, on the least recently used page. *)
Lemma pageout_step_spec target s pf l :
  pages_ok s → page_free_count s < target → alloc_list s = pf :: l →
  ∃ s1, pageout_step ops target s = Ret true s1 ∧ pages_ok s1 ∧ (∀ o n, content s1 o n = content s o n) ∧
    (∀ q, pframes s !! q = None → pframes s1 !! q = None) ∧
    (alloc_list s1 = alloc_list s ∧ (ndirty s1 < ndirty s)%nat ∨
     alloc_list s1 = l ∧ (ndirty s1 ≤ ndirty s)%nat ∧ pframes s1 !! pf = None).
Proof.
  intros Hok Hfree Hl. destruct (po_idle s Hok pf) as (y & o & x & Hi); [rewrite Hl; by left|].
  pose proof Hi as [Hy Ho Hb Hp _ _ _ _]. unfold pageout_step. erewrite bind_step by reflexivity.
  rewrite (proj2 (Z.leb_gt _ _)) by done. rewrite Hl, (bind_step _ _ _ _ _ (pframe_at_eq _ _ _ Hy)), Hb.
  destruct (pf_dirty y) eqn:Hd.
  - destruct (clean_idle s pf y o x Hok Hi Hd) as (r & s1 & E & Hcl). exists s1.
    destruct (cleaned_ok s pf y o x s1 Hok Hi Hcl) as [Hok1 Hc1].
    destruct (cleaned_fewer s pf y o s1) as [Hl1 Hf1]; try done; [rewrite Hl; by left|]. split_and!; try done.
    + rewrite !bind_unfold, E. done.
    + intros q Hq. destruct Hcl as [(t & fs' & ->) _]. simpl. rewrite lookup_insert_ne; congruence.
    + left. split; congruence.
  - destruct (free_idle s pf y o x Hok Hi) as (s1 & E & Hf). exists s1.
    destruct (reclaimed_ok s pf y o x s1 Hok Hi Hd Hf) as [Hok1 Hc1]. destruct Hf as [_ _ _ Hps _ Hl1 _].
    pose proof (po_nodup s Hok) as Hnd. rewrite Hl in Hnd. apply NoDup_cons in Hnd as [Hnin _].
    assert (alloc_list s1 = l) as Hl2.
    { rewrite Hl1, Hl. unfold drop_pf. rewrite filter_cons_False by tauto. by apply filter_absent. }
    split_and!; try done.
    + by rewrite bind_unfold, E.
    + intros q Hq. rewrite Hps. by apply lookup_delete_None; right.
    + right. split_and!; [done| |rewrite Hps; apply lookup_delete_eq]. unfold ndirty. rewrite Hl2, Hl, filter_cons.
      assert (filter (λ q, is_dirty s1 q = true) l = filter (λ q, is_dirty s q = true) l) as ->; [|case_decide; simpl; lia].
      apply filter_same. intros q Hq. unfold is_dirty. rewrite Hps, lookup_delete_ne; [done|]. by intros ->.
Qed.

Lemma pageout_stops target fuel s :
  target <= page_free_count s ∨ alloc_list s = [] → pageout_loop ops fuel target s = Ret () s.
Proof.
  intros Hs. assert (pageout_step ops target s = Ret false s) as E.
  { unfold pageout_step. erewrite bind_step by reflexivity. destruct (Z.leb_spec target (page_free_count s)); [done|].
    destruct Hs as [?| ->]; [lia|done]. }
  destruct fuel; cbn [pageout_loop]; by rewrite (bind_step _ _ _ _ _ E).
Qed.

Lemma pageout_spec target fuel : ∀ s, pages_ok s → (ndirty s + length (alloc_list s) ≤ fuel)%nat →
  ∃ s' gone, pageout_loop ops fuel target s = Ret () s' ∧
    (target <= page_free_count s' ∨ alloc_list s' = []) ∧ pages_ok s' ∧
    alloc_list s = gone ++ alloc_list s' ∧ (∀ pf, pf ∈ gone → pframes s' !! pf = None) ∧
    (∀ pf, pframes s !! pf = None → pframes s' !! pf = None) ∧ ∀ o n, content s' o n = content s o n.
Proof.
  induction fuel as [|fuel IH]; intros s Hok Hn;
    (destruct (decide (target <= page_free_count s ∨ alloc_list s = [])) as [Hs|Hs];
     [exists s, []; rewrite (pageout_stops _ _ _ Hs); split_and!; try done; by intros ? ?%elem_of_nil|]);
    (destruct (alloc_list s) as [|pf l] eqn:Hl; [by destruct Hs; right|simpl in Hn]); [lia|].
  destruct (pageout_step_spec target s pf l) as (s1 & E & Hok1 & Hc1 & Hn1 & Hcase); [done|lia|done|].
  destruct (IH s1 Hok1) as (s' & gone & E' & Hend & Hok' & Hl' & Hg' & Hn' & Hc').
  { destruct Hcase as [[-> ?]|(-> & ? & _)]; rewrite ?Hl; simpl; lia. }
  assert (pageout_loop ops (S fuel) target s = Ret () s') as E2.
  { cbn [pageout_loop]. by rewrite (bind_step _ _ _ _ _ E). }
  assert (∀ o n, content s' o n = content s o n) as Hc by (intros o n; by rewrite Hc').
  destruct Hcase as [[Hl1 _]|(Hl1 & _ & Hgone)].
  - exists s', gone. split_and!; try done; [congruence|auto].
  - exists s', (pf :: gone). split_and!; try done; [simpl; congruence| |auto].
    intros q [->|Hq]%elem_of_cons; auto.
Qed.
End pageout.




(** ** Two pages of an object

    The first is dirty, the second clean. *)
Module PageoutEx.
#[local] Existing Instance VmmapEx.env.
#[local] Existing Instance VmmapEx.quiet.
#[local] Existing Instance some_errno.

Definition sector (o : optr) (n : Z) : Z := 4096 * Zpos (encode (o, n)).
Definition stored (fs : fsst) (o : optr) (n : Z) : list Z := (λ i, disk fs (sector o n + i)) <$> seqZ 0 4096.

(** Pages are written to the disk. *)
Definition on_disk : vtable := {|
  o_ref := λ _, mret (); o_put := λ o, upd_mmobj o (with_refcount (λ n, n - 1));
  o_lookuppage := λ _ _ _, mret (0, None); o_fillpage := λ _ _, mret 0; o_dirtypage := λ _ _, mret 0;
  o_cleanpage := λ o pf, y ← pframe_at pf;
    modify (λ s, set_fs (λ fs, set_disk (mem_write (sector o (pf_pagenum y)) (page s (pf_addr y)) (disk fs)) fs) s);;
    mret 0 |}.

Lemma page_length s a : Z.of_nat (length (page s a)) = 4096.
Proof. by apply mem_read_length. Qed.

Lemma sector_apart o n o' n' : (o', n') ≠ (o, n) → sector o n + 4096 <= sector o' n' ∨ sector o' n' + 4096 <= sector o n.
Proof.
  intros Hne. unfold sector. assert (encode (o', n') ≠ encode (o, n)) by (intros ?%(inj encode); done). lia.
Qed.

Lemma on_disk_ok : store_ops on_disk stored.
Proof.
  split.
  - intros s o pf x y Hx Hy Ho. eexists 0, _. split; [|split; [done|]].
    + cbn [on_disk o_cleanpage]. rewrite (bind_step _ _ _ _ _ (pframe_at_eq _ _ _ Hy)). reflexivity.
    + intros o' n. unfold stored at 1. cbn [set_disk disk]. case_decide as Hd.
      * destruct Hd as [-> ->].
        pose proof (mem_write_same (sector o (pf_pagenum y)) (page s (pf_addr y)) (disk (v_fs s))) as Hw.
        rewrite page_length in Hw. exact Hw.
      * apply list_fmap_ext. intros j i [-> Hi]%lookup_seqZ. apply mem_write_out. rewrite page_length.
        destruct (sector_apart o (pf_pagenum y) o' n); [naive_solver|lia..].
  - intros s o x Hx _. by apply upd_mmobj_eval.
Qed.

(** [l] are those on the list. *)
Definition pages (l : list pfptr) : vst :=
  Vst VmmapEx.k0 {[6%positive := Mmobj anon_mmobj_ops 3 2 [1%positive; 2%positive] (mmo_vmas []) None]}
    (<[1%positive := Pframe 8192 (Some 6%positive) 0 false true 0]>
       {[2%positive := Pframe 12288 (Some 6%positive) 1 false false 0]})
    l [] 2 0 ∅ (λ a, if a =? 8192 then 7 else 0) ∅ ∅ ∅ no_fs.
Definition two_pages : vst := pages [1%positive; 2%positive].

Lemma two_frames l pf y : pframes (pages l) !! pf = Some y →
  pf = 1%positive ∧ y = Pframe 8192 (Some 6%positive) 0 false true 0 ∨
  pf = 2%positive ∧ y = Pframe 12288 (Some 6%positive) 1 false false 0.
Proof. simpl. rewrite lookup_insert_Some, lookup_singleton_Some. naive_solver. Qed.

Lemma pages_ok_list l : l ⊆ [1%positive; 2%positive] → NoDup l → pages_ok stored (pages l).
Proof.
  intros Hl Hnd. split.
  - intros pf [->|[->|[]%elem_of_nil]%elem_of_cons]%Hl%elem_of_cons; eexists _, 6%positive, _; split; try done;
      (split; [done|]); exists []; (split; [done|]); by intros a ?%elem_of_nil.
  - done.
  - intros o n pf pf' (y & [[-> ->]|[-> ->]]%two_frames & Ho & Hn) (y' & [[-> ->]|[-> ->]]%two_frames & Ho' & Hn');
      simpl in *; congruence.
  - intros v Hv. by apply elem_of_areas in Hv as (m & mp & Hm & _).
  - intros pf y o [[-> ->]|[-> ->]]%two_frames Ho Hd; [discriminate Hd|].
    unfold stored, page, mem_read. apply list_fmap_ext. intros j i [-> Hi]%lookup_seqZ.
    simpl. destruct (Z.eqb_spec (12288 + (0 + Z.of_nat j)) 8192); [lia|done].
Qed.

Lemma two_pages_ok : pages_ok stored two_pages.
Proof. apply pages_ok_list; [done|by_computation]. Qed.



(** A disk that is broken, and one page. *)
Definition broken : vtable := {|
  o_ref := λ _, mret (); o_put := λ _, mret (); o_lookuppage := λ _ _ _, mret (0, None); o_fillpage := λ _ _, mret 0;
  o_dirtypage := λ _ _, mret 0; o_cleanpage := λ _ _, mret (-5) |}.

End PageoutEx.
