(* ===== verification/VmSys.v ===== *)
(** * Virtual memory system calls (brk.c, mmap.c, access.c, pagefault.c, fork.c)

    Moving the break, mapping and unmapping, access to user memory with its
    permission checks, page faults, and fork. *)

From S2P Require Import Prelude Kstate Sched Kmutex Proc Vmstate Pframe Mmobj Vmmap Vnode Namev Vfs.
Local Open Scope Z_scope.

(** Constants of mman.h, pagefault.h and pagetable.h, and the page table
    functions and [kmalloc]. [pt_map] maps a page, or fails and changes
    nothing.  The TLB is not part of the state. *)
Class MapEnv := {
  MAP_FIXED : Z;
  MAP_ANON : Z;
  PROT_READ : Z;
  PROT_WRITE : Z;
  PROT_EXEC : Z;
  FAULT_WRITE : Z;
  FAULT_EXEC : Z;
  PD_PRESENT : Z;
  PD_WRITE : Z;
  PD_USER : Z;
  PT_PRESENT : Z;
  PT_WRITE : Z;
  PT_USER : Z;
  pt_virt_to_phys : Z → Z;
  pt_map : Z → Z → Z → Z → Z → pagetables → Z * pagetables;
  kmalloc : Z → vst → option Z;
  prot_bits : ∃ a b c, 0 <= a ∧ 0 <= b ∧ 0 <= c ∧ NoDup [a; b; c] ∧
    PROT_READ = 2 ^ a ∧ PROT_WRITE = 2 ^ b ∧ PROT_EXEC = 2 ^ c;
  pt_map_spec : ∀ pd vaddr paddr pdflags ptflags t r t', pt_map pd vaddr paddr pdflags ptflags t = (r, t') →
    r = 0 ∧ t' = <[(pd, vaddr) := (paddr, ptflags)]> t ∨ r < 0 ∧ t' = t;
}.

Definition has_flag (x f : Z) : bool := negb (Z.land x f =? 0).
Definition PAGE_ALIGN_DOWN (a : Z) : Z := a - PAGE_OFFSET a.
Definition PAGE_ALIGN_UP (a : Z) : Z := u32 (PAGE_ALIGN_DOWN (u32 (a - 1)) + PAGE_SIZE).

(** [curproc->p_vmmap], [p_brk] and [p_start_brk]; fields that are not set
    read as zero and NULL. *)
Definition proc_vm_of (s : vst) (p : pptr) : proc_vm := default (ProcVm None 0 0) (procvm s !! p).
Definition cur_vm : V proc_vm := cp ← lift cur_proc; s ← get; mret (proc_vm_of s cp).
Definition upd_procvm (p : pptr) (g : proc_vm → proc_vm) : V () :=
  modify (λ s, set_procvm (insert p (g (proc_vm_of s p))) s).
Definition cur_map : V vmid := pv ← cur_vm; deref (p_vmmap pv) "curproc->p_vmmap".
Definition cur_pagedir : V Z :=
  cp ← lift cur_proc; p ← lift (proc_at cp); deref (p_pagedir p) "curproc->p_pagedir".

Section vmsys.
Context `{VmEnv} `{VfsEnv} `{Machine} `{Errno} `{Objects} `{NameEnv} `{FileTable} `{MapEnv}.

(** ** brk.c *)

Definition set_brk (addr : Z) : V () :=
  cp ← lift cur_proc;
  upd_procvm cp (λ pv, ProcVm (p_vmmap pv) addr (p_start_brk pv)).

(** The result is the value returned and what was stored in [*ret]. *)
Definition do_brk (addr : Z) : V (Z * option Z) :=
  pv ← cur_vm;
  if addr =? 0 then mret (0, Some (p_brk pv))
  else if USER_MEM_HIGH <? addr then mret (- ENOMEM, None)
  else if addr <? p_start_brk pv then mret (- ENOMEM, None)
  else
    let begin := u32 (p_brk pv - 1) / PAGE_SIZE + 1 in
    let fin := u32 (addr - 1) / PAGE_SIZE + 1 in
    if negb (begin =? fin) then
      temp_map ← cur_map;
      if fin <? begin then
        _ ← vmmap_remove mm_ops temp_map fin (begin - fin);
        set_brk addr;;
        mret (0, Some addr)
      else
        r ← vmmap_lookup temp_map (begin - 1);
        check ← vmmap_is_range_empty temp_map begin (fin - begin);
        if check =? 1 then
          area ← deref r "area";
          upd_vmmap temp_map (with_list (replace_area (vma_id area)
            [with_range (vma_start area) fin (vma_off area) area]));;
          set_brk addr;;
          mret (0, Some addr)
        else mret (- ENOMEM, None)
    else mret (0, None).

(** ** mmap.c *)

(** After [vmmap_map]. *)
Definition do_mmap_end (len : Z) (res : Z * option vmarea) : V (Z * option Z) :=
  let '(result, r) := res in
  if result <? 0 then mret (result, None)
  else
    area ← deref r "area";
    let start := PN_TO_ADDR (vma_start area) in
    pd ← cur_pagedir;
    modify (set_pts (pt_unmap_range pd start (u32 (start + PAGE_ALIGN_UP len))));;
    mret (result, Some start).

Definition do_mmap (addr len prot flags fd off : Z) : V (Z * option Z) :=
  if negb (has_flag flags MAP_SHARED) && negb (has_flag flags MAP_PRIVATE) then mret (- EINVAL, None)
  else if has_flag flags MAP_SHARED && has_flag flags MAP_PRIVATE then mret (- EINVAL, None)
  else if (USER_MEM_HIGH - USER_MEM_LOW <? len) || (len <=? 0) then mret (- EINVAL, None)
  else if negb (PAGE_ALIGNED off) then mret (- EINVAL, None)
  else if has_flag flags MAP_FIXED && ((USER_MEM_HIGH <? u32 (addr + len)) || (addr <? USER_MEM_LOW)) then
    mret (- EINVAL, None)
  else
    let addr_var := if has_flag flags MAP_FIXED then ADDR_TO_PN addr else 0 in
    let npages := (len - 1) / PAGE_SIZE + 1 in
    if has_flag flags MAP_ANON then
      map ← cur_map;
      result ← vmmap_map mm_ops map None addr_var npages prot flags off VMMAP_DIR_HILO;
      do_mmap_end len result
    else if (fd <? 0) || (NFILES <? fd) then mret (- EBADF, None)
    else
      r ← fget fd;
      match r with
      | None => mret (- EBADF, None)
      | Some ourFile =>
          x ← file_at ourFile;
          if has_flag flags MAP_SHARED && has_flag prot PROT_WRITE && (f_mode x =? FMODE_READ) then
            fput ourFile;; mret (- EINVAL, None)
          else
            map ← cur_map;
            result ← vmmap_map mm_ops map (f_vnode x) addr_var npages prot flags off VMMAP_DIR_HILO;
            fput ourFile;;
            do_mmap_end len result
      end.

Definition do_munmap (addr len : Z) : V Z :=
  let addr_var := ADDR_TO_PN addr in
  if (len <=? 0) || (USER_MEM_HIGH - USER_MEM_LOW <? len) || (USER_MEM_HIGH <? u32 (addr + len))
     || (addr <? USER_MEM_LOW)
  then mret (- EINVAL)
  else
    map ← cur_map;
    result ← vmmap_remove mm_ops map addr_var ((len - 1) / PAGE_SIZE + 1);
    if result <? 0 then mret result else mret 0.

(** ** access.c *)

Definition addr_perm (p : pptr) (vaddr perm : Z) : V Z :=
  s ← get;
  map ← deref (p_vmmap (proc_vm_of s p)) "p->p_vmmap";
  vma ← vmmap_lookup map (ADDR_TO_PN vaddr);
  match vma with
  | None => mret 0
  | Some v =>
      if (has_flag perm PROT_READ && has_flag (vma_prot v) PROT_READ)
         || (has_flag perm PROT_WRITE && has_flag (vma_prot v) PROT_WRITE)
         || (has_flag perm PROT_EXEC && has_flag (vma_prot v) PROT_EXEC)
      then mret 1 else mret 0
  end.

Fixpoint range_perm_loop (fuel : nat) (p : pptr) (addr vend perm : Z) : V Z :=
  if addr <? vend then
    r ← addr_perm p addr perm;
    if r =? 0 then mret 0
    else match fuel with
         | O => idle
         | S fuel' => range_perm_loop fuel' p (u32 (addr + PAGE_SIZE)) vend perm
         end
  else mret 1.

(** No more than one address per page is checked. *)
Definition range_perm (p : pptr) (avaddr len perm : Z) : V Z :=
  range_perm_loop (Z.to_nat (len / PAGE_SIZE + 1)) p avaddr (u32 (avaddr + len)) perm.

(** What is copied to [kaddr] is the second component of the result. *)
Definition copy_from_user (uaddr nbytes : Z) : V (Z * list Z) :=
  cp ← lift cur_proc;
  r ← range_perm cp uaddr nbytes PROT_READ;
  if r =? 0 then mret (- EFAULT, [])
  else map ← cur_map; vmmap_read mm_ops map uaddr nbytes.

(** [kbytes] are the bytes at [kaddr]. *)
Definition copy_to_user (uaddr : Z) (kbytes : list Z) (nbytes : Z) : V Z :=
  cp ← lift cur_proc;
  r ← range_perm cp uaddr nbytes PROT_WRITE;
  if r =? 0 then mret (- EFAULT)
  else map ← cur_map; vmmap_write mm_ops map uaddr kbytes nbytes.

Definition set_errno (e : Z) : V () := lift (t ← cur_thread; upd_thread t (with_errno e)).

(** [argstr_t] and [argvec_t]. *)
Record argstr_t := Argstr { as_str : Z; as_len : Z }.
Record argvec_t := Argvec { av_vec : Z; av_len : Z }.

(** The bytes of the copy; [None] is NULL. *)
Definition user_strdup (ustr : argstr_t) : V (option (list Z)) :=
  s ← get;
  match kmalloc (u32 (as_len ustr + 1)) s with
  | None => set_errno ENOMEM;; mret None
  | Some _ =>
      '(ret, kstr) ← copy_from_user (as_str ustr) (u32 (as_len ustr + 1));
      if ret <? 0 then set_errno (- ret);; mret None
      else mret (Some kstr)
  end.

Fixpoint strdup_each (l : list argstr_t) : V (option (list (list Z))) :=
  match l with
  | [] => mret (Some [])
  | a :: l' =>
      r ← user_strdup a;
      match r with
      | None => mret None
      | Some k => rs ← strdup_each l'; mret (cons k <$> rs)
      end
  end.

(** [argstrs_of] reads an array of [argstr_t], of [sizeof_argstr] bytes each.
    When copying it in fails, the entries of [kvec] that the cleanup reads
    were never written. *)
Definition user_vecdup (sizeof_argstr : Z) (argstrs_of : list Z → list argstr_t) (uvec : argvec_t) :
    V (option (list (list Z))) :=
  s ← get;
  match kmalloc (u32 (u32 (av_len uvec + 1) * sizeof_argstr)) s with
  | None => set_errno ENOMEM;; mret None
  | Some _ =>
      match kmalloc (u32 (u32 (av_len uvec + 1) * 4)) s with
      | None => set_errno ENOMEM;; mret None
      | Some _ =>
          '(ret, bytes) ← copy_from_user (av_vec uvec) (u32 (u32 (av_len uvec + 1) * sizeof_argstr));
          if ret <? 0 then panic "kvec[0]"
          else
            r ← strdup_each (take (Z.to_nat (av_len uvec)) (argstrs_of bytes));
            match r with
            | Some kvec => mret (Some kvec)
            | None =>
                e ← lift (t ← cur_thread; x ← thread_at t; mret (kt_errno x));
                set_errno e;; mret None
            end
      end
  end.

(** ** pagefault.c *)

Section faults.
Context `{ProcEnv}.

(** The page is found: [fw] is whether it is to be written. *)
Definition map_page (vaddr : Z) (fw : bool) (pf : pfptr) : V () :=
  x ← pframe_at pf;
  KASSERT (negb (pf_addr x =? 0)) "pf->pf_addr";;
  (if fw then pframe_pin pf;; _ ← pframe_dirty mm_ops pf; pframe_unpin pf else mret ());;
  let pd := Z.lor (Z.lor PD_PRESENT PD_USER) (if fw then PD_WRITE else 0) in
  let pt := Z.lor (Z.lor PT_PRESENT PT_USER) (if fw then PT_WRITE else 0) in
  y ← pframe_at pf;
  let paddr := pt_virt_to_phys (pf_addr y) in
  dir ← cur_pagedir;
  modify (λ s, set_pts (λ t, (pt_map dir (PAGE_ALIGN_DOWN vaddr) paddr pd pt t).2) s).

Definition handle_pagefault (vaddr cause : Z) : V () :=
  let pn := ADDR_TO_PN vaddr in
  map ← cur_map;
  r ← vmmap_lookup map pn;
  match r with
  | None => lift (do_exit EFAULT)
  | Some vmarea =>
      if negb (has_flag (vma_prot vmarea) PROT_WRITE) && has_flag cause FAULT_WRITE then lift (do_exit EFAULT)
      else if negb (has_flag (vma_prot vmarea) PROT_READ) && negb (has_flag cause FAULT_EXEC)
              && negb (has_flag cause FAULT_WRITE) then lift (do_exit EFAULT)
      else
        let fw := has_flag cause FAULT_WRITE in
        o ← deref (vma_obj vmarea) "vmarea->vma_obj";
        '(lookUpResult, f) ← pframe_lookup mm_ops o
          (u32 (pn - vma_start vmarea + vma_off vmarea)) (if fw then 1 else 0);
        if lookUpResult <? 0 then lift (do_exit EFAULT)
        else pf ← deref f "pf"; map_page vaddr fw pf
  end.

(** ** fork.c *)

(** Stores of a 32 bit value, least significant byte first. *)
Definition word_bytes (v : Z) : list Z := (λ i, Z.land (Z.shiftr (u32 v) (8 * i)) 255) <$> [0; 1; 2; 3].
Definition store32 (a v : Z) : V () := modify (set_mem (mem_write a (word_bytes v))).

(** [regs_t], in memory at [regs]: its size and the place of [r_eax]; the
    entry point of user processes; [fref] takes a reference to a file. *)
Class ForkEnv := {
  sizeof_regs : Z;
  r_eax : Z;
  userland_entry : Z;
  fref : fptr → V ();
  fref_spec : ∀ s f x, files (v_fs s) !! f = Some x →
    fref f s = Ret () (set_fs (set_files (insert f (with_frefcount (λ n, n + 1) x))) s);
}.
Context `{ForkEnv}.

Definition fork_setup_stack (regs kstack : Z) : V Z :=
  let esp := u32 (kstack + DEFAULT_STACK_SIZE - (sizeof_regs + 12)) in
  store32 (esp + 4) (esp + 8);;
  s ← get;
  modify (set_mem (mem_write (esp + 8) (mem_read regs sizeof_regs s)));;
  mret esp.

(** [o->mmo_un.mmo_bottom_obj]. *)
Definition bottom_of (o : optr) : V optr :=
  x ← mmobj_at o;
  match mmo_un x with
  | mmo_bottom_obj b => mret b
  | mmo_vmas _ => panic "mmo_un.mmo_bottom_obj"
  end.

(** A shadow object over [o]. *)
Definition new_shadow (o : optr) : V optr :=
  sh ← shadow_create;
  upd_mmobj sh (with_shadowed (Some o));;
  b ← bottom_of o;
  upd_mmobj sh (with_un (mmo_bottom_obj b));;
  mret sh.

Definition set_area_obj (map : vmid) (a : aptr) (o : optr) : V () :=
  upd_vmmap map (with_list (List.map (λ v, if decide (vma_id v = a) then with_obj (Some o) v else v))).

(** The loop over the areas [l] of the clone: each pair of private areas
    gets a shadow object each over the object they share. *)
Fixpoint fork_areas (parent clone : vmid) (l : list vmarea) : V () :=
  match l with
  | [] => mret ()
  | clone_vma :: l' =>
      r ← vmmap_lookup parent (vma_start clone_vma);
      vma ← deref r "vma";
      o ← deref (vma_obj vma) "vma->vma_obj";
      vma_obj ←
        (if has_flag (vma_flags clone_vma) MAP_PRIVATE then
           o_ref mm_ops o;;
           to_delete ← new_shadow o;
           new_shadowed ← new_shadow o;
           set_area_obj parent (vma_id vma) to_delete;;
           set_area_obj clone (vma_id clone_vma) new_shadowed;;
           mret to_delete
         else
           set_area_obj clone (vma_id clone_vma) o;;
           o_ref mm_ops o;;
           mret o);
      s ← get;
      upd_vmas (mmobj_bottom_obj (mmobjs s) vma_obj) (λ l, l ++ [vma_id clone_vma]);;
      fork_areas parent clone l'
  end.

(** Copying the descriptors, each with a reference to its file. *)
Fixpoint fork_files (l : list (option fptr)) : V () :=
  match l with
  | [] => mret ()
  | o :: l' => match o with Some f => fref f | None => mret () end;; fork_files l'
  end.

Definition do_fork (regs : Z) : V Z :=
  cp ← lift cur_proc;
  p ← lift (proc_at cp);
  KASSERT (negb (regs =? 0)) "regs != NULL";;
  KASSERT (bool_decide (p_state p = PROC_RUNNING)) "curproc->p_state == PROC_RUNNING";;
  clone_proc ← lift (proc_create "child");
  map ← cur_map;
  r ← vmmap_clone map;
  clone_map ← deref r "clone_map";
  upd_vmmap clone_map (λ m, Vmmap (vmm_list m) (Some clone_proc));;
  upd_procvm clone_proc (λ pv, ProcVm (Some clone_map) (p_brk pv) (p_start_brk pv));;
  cm ← vmmap_at clone_map;
  fork_areas map clone_map (vmm_list cm);;
  thr ← lift cur_thread;
  clone_thread ← lift (kthread_clone thr);
  lift (upd_thread clone_thread (with_ktproc (Some clone_proc)));;
  lift (upd_proc clone_proc (with_threads (λ l, l ++ [clone_thread])));;
  cq ← lift (proc_at clone_proc);
  ct ← lift (thread_at clone_thread);
  store32 (regs + r_eax) 0;;
  kstack ← deref (kt_kstack ct) "clone_thread->kt_kstack";
  esp ← fork_setup_stack regs kstack;
  lift (upd_thread clone_thread (λ t, with_ctx
    (Context (c_func (kt_ctx t)) (c_arg1 (kt_ctx t)) (c_arg2 (kt_ctx t)) (c_kstack (kt_ctx t))
       (c_kstacksz (kt_ctx t)) (p_pagedir cq) (Some userland_entry) (Some esp)) t));;
  KASSERT (bool_decide (p_state cq = PROC_RUNNING)) "clone_proc->p_state == PROC_RUNNING";;
  KASSERT (bool_decide (is_Some (p_pagedir cq))) "clone_proc->p_pagedir != NULL";;
  pf ← cur_fs;
  fork_files (take (Z.to_nat NFILES) (p_files pf));;
  modify (set_fs (set_procfs (λ P, <[clone_proc :=
    ProcFs (take (Z.to_nat NFILES) (p_files pf)) (P !! clone_proc ≫= p_cwd)]> P)));;
  pd ← cur_pagedir;
  modify (set_pts (pt_unmap_range pd USER_MEM_LOW USER_MEM_HIGH));;
  pv ← cur_vm;
  upd_procvm clone_proc (λ q, ProcVm (p_vmmap q) (p_brk pv) (p_start_brk pv));;
  lift (sched_make_runnable clone_thread);;
  x ← lift (proc_at clone_proc);
  store32 (regs + r_eax) (p_pid x);;
  mret (p_pid x).
End faults.
End vmsys.
