(* ===== verification/VmSysProps.v ===== *)
(** * Properties of the virtual memory system calls *)

From S2P Require Import Prelude Kstate Sched Kmutex Proc Vmstate Pframe Mmobj Vmmap Areas VmmapProps.
From S2P Require Import Vnode Namev Vfs VmSys.
Local Open Scope Z_scope.

Section vmsys_props.
Context {VE : VmEnv} {FE : VfsEnv} {MA : Machine} {ER : Errno} {OB : Objects} {NE : NameEnv}
  {FT : FileTable} {ME : MapEnv}.

(** Process [p] has the address space [m]. *)
Definition map_of (s : vst) (p : pptr) (m : vmid) (mp : vmmap) : Prop :=
  p_vmmap (proc_vm_of s p) = Some m ∧ vmaps s !! m = Some mp.

Lemma cur_vm_eq s cp : curproc (v_k s) = Some cp → cur_vm s = Ret (proc_vm_of s cp) s.
Proof. intros Hc. unfold cur_vm. by rewrite (bind_step _ _ _ _ _ (lift_cur_proc _ _ Hc)). Qed.

Lemma cur_map_eq s cp m mp : curproc (v_k s) = Some cp → map_of s cp m mp → cur_map s = Ret m s.
Proof.
  intros Hc [Hm _]. unfold cur_map. rewrite (bind_step _ _ _ _ _ (cur_vm_eq _ _ Hc)). by rewrite Hm.
Qed.

Lemma vmmap_at_eq s m mp : vmaps s !! m = Some mp → vmmap_at m s = Ret mp s.
Proof. intros Hm. unfold vmmap_at. by rewrite Hm. Qed.

Lemma vmmap_lookup_eq s m mp v :
  vmaps s !! m = Some mp → vmmap_lookup m v s = Ret (lookup_area v (vmm_list mp)) s.
Proof. intros Hm. unfold vmmap_lookup. by rewrite (bind_step _ _ _ _ _ (vmmap_at_eq _ _ _ Hm)). Qed.

(** ** Permissions *)

(** The areas [l] allow access [perm] to address [a]. *)
Definition allowed (l : list vmarea) (perm a : Z) : bool :=
  match lookup_area (ADDR_TO_PN a) l with None => false | Some v => has_flag (vma_prot v) perm end.

Lemma perm_flags perm v : perm ∈ [PROT_READ; PROT_WRITE; PROT_EXEC] →
  (has_flag perm PROT_READ && has_flag (vma_prot v) PROT_READ)
  || (has_flag perm PROT_WRITE && has_flag (vma_prot v) PROT_WRITE)
  || (has_flag perm PROT_EXEC && has_flag (vma_prot v) PROT_EXEC) = has_flag (vma_prot v) perm.
Proof.
  destruct prot_bits as (a & b & c & Ha & Hb & Hc & Hd & -> & -> & ->).
  apply NoDup_cons in Hd as [Hd1 Hd]. apply NoDup_cons in Hd as [Hd2 _].
  assert (a ≠ b ∧ a ≠ c ∧ b ≠ c) as (Hab & Hac & Hbc) by set_solver.
  assert (∀ n, 0 <= n → has_flag (2 ^ n) (2 ^ n) = true) as Hs.
  { intros n Hn. unfold has_flag. rewrite Z.land_diag. assert (0 < 2 ^ n) by lia.
    by destruct (Z.eqb_spec (2 ^ n) 0); [lia|]. }
  assert (∀ n m, 0 <= n → 0 <= m → n ≠ m → has_flag (2 ^ n) (2 ^ m) = false) as Hn.
  { intros n m ???. unfold has_flag. by rewrite land_pow2_ne. }
  rewrite !elem_of_cons. intros [->|[->|[->|[]%elem_of_nil]]]; rewrite Hs, !Hn by (done || congruence);
    simpl; by rewrite ?orb_false_r.
Qed.

Lemma addr_perm_eq s p m mp perm a :
  map_of s p m mp → perm ∈ [PROT_READ; PROT_WRITE; PROT_EXEC] →
  addr_perm p a perm s = Ret (if allowed (vmm_list mp) perm a then 1 else 0) s.
Proof.
  intros [Hm Hmp] Hp. unfold addr_perm. erewrite bind_step by reflexivity. rewrite Hm.
  erewrite bind_step by reflexivity. rewrite (bind_step _ _ _ _ _ (vmmap_lookup_eq _ _ _ _ Hmp)).
  unfold allowed. destruct (lookup_area _ _) as [v|]; [|done].
  rewrite (perm_flags perm v Hp). by destruct (has_flag _ _).
Qed.

(** The addresses [range_perm] tries, [n] of them from [a] on. *)
Fixpoint tried (l : list vmarea) (perm a : Z) (n : nat) : bool :=
  match n with
  | O => true
  | S n' => allowed l perm a && tried l perm (a + PAGE_SIZE) n'
  end.

Lemma tried_true l perm a n :
  tried l perm a n = true ↔ ∀ i, 0 <= i < Z.of_nat n → allowed l perm (a + i * PAGE_SIZE) = true.
Proof.
  revert a. induction n as [|n IH]; intros a; cbn [tried]; [split; [lia|done]|].
  rewrite andb_true_iff, IH. split.
  - intros [H0 H1] i Hi. destruct (decide (i = 0)) as [->|]; [by rewrite Z.add_0_r|].
    replace (a + i * PAGE_SIZE) with (a + PAGE_SIZE + (i - 1) * PAGE_SIZE) by lia. apply H1. lia.
  - intros Hall. split; [rewrite <- (Z.add_0_r a); apply (Hall 0); lia|].
    intros i Hi. replace (a + PAGE_SIZE + i * PAGE_SIZE) with (a + (i + 1) * PAGE_SIZE) by lia. apply Hall. lia.
Qed.

(** No user page is the last page of the address space. *)
Lemma allowed_user l perm a : areas_wf l → allowed l perm a = true → USER_MEM_LOW <= a < USER_MEM_HIGH.
Proof.
  intros Hl. unfold allowed. destruct (lookup_area _ l) as [v|] eqn:Hv; [|done]. intros _.
  apply lookup_area_Some in Hv as [Hv Hc]. destruct (areas_in_elem _ _ _ _ Hl Hv) as [H1 H2].
  unfold covers, PN_LOW, PN_HIGH, ADDR_TO_PN in *. rewrite !Z.shiftr_div_pow2 in * by lia.
  destruct user_mem_aligned as [HL HH]. change (2 ^ 12) with 4096 in *.
  Z.to_euclidean_division_equations. lia.
Qed.

Lemma range_perm_loop_eq s p m mp perm n : ∀ fuel a vend,
  map_of s p m mp → perm ∈ [PROT_READ; PROT_WRITE; PROT_EXEC] → areas_wf (vmm_list mp) →
  0 <= a → a + (Z.of_nat n - 1) * PAGE_SIZE < vend <= a + Z.of_nat n * PAGE_SIZE → vend <= 2 ^ 32 → (n ≤ fuel)%nat →
  range_perm_loop fuel p a vend perm s = Ret (if tried (vmm_list mp) perm a n then 1 else 0) s.
Proof.
  unfold PAGE_SIZE. induction n as [|n IH]; intros fuel a vend Hm Hp Hl Ha Hv Hb Hf.
  - destruct fuel; cbn [range_perm_loop tried]; by replace (a <? vend) with false by lia.
  - assert (a < vend) by nia. destruct fuel as [|fuel]; [lia|]. cbn [range_perm_loop tried].
    replace (a <? vend) with true by lia. rewrite (bind_step _ _ _ _ _ (addr_perm_eq s p m mp perm a Hm Hp)).
    destruct (allowed (vmm_list mp) perm a) eqn:Hal; [|done]. cbn [Z.eqb andb].
    apply allowed_user in Hal; [|done]. destruct user_mem_bounds, user_mem_aligned.
    unfold PAGE_SIZE. change (2 ^ 12) with 4096 in *.
    rewrite u32_small by (Z.to_euclidean_division_equations; lia). apply IH; done || lia.
Qed.

Lemma range_perm_eq s p m mp perm a len :
  map_of s p m mp → perm ∈ [PROT_READ; PROT_WRITE; PROT_EXEC] → areas_wf (vmm_list mp) →
  0 <= a → 0 <= len → a + len < 2 ^ 32 →
  range_perm p a len perm s =
    Ret (if tried (vmm_list mp) perm a (Z.to_nat ((len + PAGE_SIZE - 1) / PAGE_SIZE)) then 1 else 0) s.
Proof.
  intros Hm Hp Hl Ha Hlen Hend. unfold range_perm. rewrite u32_small by lia.
  apply (range_perm_loop_eq s p m mp); try done; unfold PAGE_SIZE; Z.to_euclidean_division_equations; lia.
Qed.

Lemma page_offset_mod a : PAGE_OFFSET a = a mod PAGE_SIZE.
Proof. unfold PAGE_OFFSET. change (PAGE_SIZE - 1) with (Z.ones 12). by rewrite Z.land_ones. Qed.

Lemma allowed_page l perm a b : a / PAGE_SIZE = b / PAGE_SIZE → allowed l perm a = allowed l perm b.
Proof. intros Heq. unfold allowed, ADDR_TO_PN. rewrite !Z.shiftr_div_pow2 by lia.
  change (2 ^ 12) with PAGE_SIZE. by rewrite Heq. Qed.

(** C36. [range_perm] decides whether all addresses of a range allow an
    access, when the last byte is not in a page of its own at the end: in
    particular for every range that starts at a page boundary or stays
    within one page.  It returns 1 exactly if every address of the range is
    in an area that allows the access, and 0 otherwise, and it changes
    nothing. *)
Theorem range_perm_exact s p m mp perm a len :
  map_of s p m mp → perm ∈ [PROT_READ; PROT_WRITE; PROT_EXEC] → areas_wf (vmm_list mp) →
  0 <= a → 0 <= len → a + len < 2 ^ 32 → PAGE_OFFSET a + (len - 1) mod PAGE_SIZE < PAGE_SIZE →
  ∃ r, range_perm p a len perm s = Ret r s ∧ (r = 0 ∨ r = 1) ∧
    (r = 1 ↔ ∀ b, a <= b < a + len → allowed (vmm_list mp) perm b = true).
Proof.
  intros Hm Hp Hl Ha Hlen Hend Hoff. rewrite page_offset_mod in Hoff. eexists.
  split; [by eapply range_perm_eq|]. pose proof (tried_true (vmm_list mp) perm a
    (Z.to_nat ((len + PAGE_SIZE - 1) / PAGE_SIZE))) as Ht. destruct (tried _ _ _ _).
  - split; [by right|]. split; [|done]. intros _ b Hb.
    rewrite (allowed_page _ _ b (a + (b / PAGE_SIZE - a / PAGE_SIZE) * PAGE_SIZE)).
    + apply Ht; [done|]. unfold PAGE_SIZE in *. Z.to_euclidean_division_equations. lia.
    + unfold PAGE_SIZE. Z.to_euclidean_division_equations. lia.
  - split; [by left|]. split; [done|]. intros Hall. exfalso. enough (false = true) by done. apply Ht.
    intros i Hi. apply Hall. unfold PAGE_SIZE in *. Z.to_euclidean_division_equations. lia.
Qed.

(** C37. What [range_perm] does not look at: the page of the last byte, when
    no address a whole number of pages from the start of the range is in it;
    and any page at all when the range wraps around at the end of the 32 bit
    address space.  In both cases it returns 1 although the access need not
    be allowed. *)
Theorem range_perm_unchecked s p m mp perm a len :
  map_of s p m mp → perm ∈ [PROT_READ; PROT_WRITE; PROT_EXEC] → areas_wf (vmm_list mp) →
  0 <= a < 2 ^ 32 → 0 < len < 2 ^ 32 →
  2 ^ 32 <= a + len ∨
  a + len < 2 ^ 32 ∧ PAGE_SIZE <= PAGE_OFFSET a + (len - 1) mod PAGE_SIZE ∧
  (∀ b, a <= b < PAGE_ALIGN_DOWN (a + len - 1) → allowed (vmm_list mp) perm b = true) →
  range_perm p a len perm s = Ret 1 s.
Proof.
  intros Hm Hp Hl Ha Hlen [Hw|(Hw & Hoff & Hall)].
  - unfold range_perm. replace (u32 (a + len)) with (a + len - 2 ^ 32).
    + destruct (Z.to_nat _); cbn [range_perm_loop]; by replace (a <? a + len - 2 ^ 32) with false by lia.
    + unfold u32. rewrite <- (Z.mod_unique (a + len) (2 ^ 32) 1 (a + len - 2 ^ 32)); lia.
  - rewrite (range_perm_eq s p m mp) by (done || lia).
    unfold PAGE_ALIGN_DOWN in Hall. rewrite page_offset_mod in *.
    rewrite (proj2 (tried_true _ _ _ _)); [done|]. intros i Hi. apply Hall.
    unfold PAGE_SIZE in *. Z.to_euclidean_division_equations. lia.
Qed.

(** ** The break *)

(** The number of pages below an address. *)
Definition pages_below (a : Z) : Z := (a - 1) / PAGE_SIZE + 1.

Lemma pages_below_high a : a <= USER_MEM_HIGH → pages_below a <= PN_HIGH.
Proof.
  intros Ha. unfold pages_below, PN_HIGH, ADDR_TO_PN. rewrite Z.shiftr_div_pow2 by lia.
  destruct user_mem_aligned as [_ HH]. unfold PAGE_SIZE. change (2 ^ 12) with 4096 in *.
  Z.to_euclidean_division_equations. lia.
Qed.

(** Replacing an area by a longer one. *)
Lemma areas_in_extend lo hi pre a l e :
  areas_in lo hi (pre ++ a :: l) → vma_end a <= e <= hi → Forall (apart (vma_end a) e) l →
  areas_in lo hi (pre ++ with_range (vma_start a) e (vma_off a) a :: l).
Proof.
  rewrite !areas_in_app. intros (mid & Hp & Ha & Hl) He Hap. exists mid. split; [done|]. split; simpl; [lia|].
  destruct l as [|b l]; simpl in *; [lia|]. split; [|apply Hl]. apply Forall_cons in Hap as [[?|?] _]; lia.
Qed.

Lemma lookup_extend lo hi pre a l e v :
  areas_in lo hi (pre ++ a :: l) → areas_in lo hi (pre ++ with_range (vma_start a) e (vma_off a) a :: l) →
  vma_end a <= e →
  lookup_area v (pre ++ with_range (vma_start a) e (vma_off a) a :: l) =
    if decide (vma_start a <= v < e) then Some (with_range (vma_start a) e (vma_off a) a)
    else lookup_area v (pre ++ a :: l).
Proof.
  intros H1 H2 He. case_decide as Hv.
  - apply (lookup_area_covers lo hi); [done|set_solver|done].
  - destruct (lookup_area v (pre ++ a :: l)) as [b|] eqn:Hb.
    + apply lookup_area_Some in Hb as [Hb Hc]. apply (lookup_area_covers lo hi); [done| |done].
      apply elem_of_app in Hb as [Hb|Hb]; [set_solver|]. apply elem_of_cons in Hb as [->|Hb]; [|set_solver].
      unfold covers in Hc. lia.
    + apply lookup_area_None. intros b Hbin Hc. rewrite lookup_area_None in Hb.
      apply elem_of_app in Hbin as [Hbin|Hbin]; [by apply (Hb b); [set_solver|]|].
      apply elem_of_cons in Hbin as [->|Hbin]; [|by apply (Hb b); [set_solver|]].
      unfold covers in Hc. simpl in Hc. lia.
Qed.

Lemma set_brk_eq s cp addr : curproc (v_k s) = Some cp →
  set_brk addr s = Ret () (set_procvm (insert cp
    (ProcVm (p_vmmap (proc_vm_of s cp)) addr (p_start_brk (proc_vm_of s cp)))) s).
Proof. intros Hc. unfold set_brk. by rewrite (bind_step _ _ _ _ _ (lift_cur_proc _ _ Hc)). Qed.

(** [do_brk] for an address within bounds. *)
Lemma do_brk_eq s cp m mp addr :
  curproc (v_k s) = Some cp → map_of s cp m mp →
  0 < p_start_brk (proc_vm_of s cp) <= addr → addr <= USER_MEM_HIGH → 0 < p_brk (proc_vm_of s cp) < 2 ^ 32 →
  let begin := pages_below (p_brk (proc_vm_of s cp)) in
  let fin := pages_below addr in
  do_brk addr s =
    (if begin =? fin then mret (0, None)
     else if fin <? begin then
       _ ← vmmap_remove mm_ops m fin (begin - fin); set_brk addr;; mret (0, Some addr)
     else
       r ← vmmap_lookup m (begin - 1);
       check ← vmmap_is_range_empty m begin (fin - begin);
       if check =? 1 then
         area ← deref r "area";
         upd_vmmap m (with_list (replace_area (vma_id area)
           [with_range (vma_start area) fin (vma_off area) area]));;
         set_brk addr;; mret (0, Some addr)
       else mret (- ENOMEM, None)) s.
Proof.
  intros Hc Hm Hst Hhi Hbrk. pose proof user_mem_bounds as Hb. unfold do_brk.
  rewrite (bind_step _ _ _ _ _ (cur_vm_eq _ _ Hc)).
  replace (addr =? 0) with false by lia. replace (USER_MEM_HIGH <? addr) with false by lia.
  replace (addr <? p_start_brk (proc_vm_of s cp)) with false by lia. rewrite !u32_small by lia.
  fold (pages_below addr). fold (pages_below (p_brk (proc_vm_of s cp))). cbn zeta.
  destruct (_ =? _); cbn [negb]; [done|]. by rewrite (bind_step _ _ _ _ _ (cur_map_eq _ _ _ _ Hc Hm)).
Qed.

(** C24. [do_brk] above the page of the break: if the pages up to the new
    break are free, exactly these are added to the area that ends at the
    break, the areas stay sorted and disjoint, and the new break is stored
    and returned; otherwise it returns ENOMEM and changes nothing. *)
Theorem do_brk_grows s cp m mp a addr :
  let begin := pages_below (p_brk (proc_vm_of s cp)) in
  let fin := pages_below addr in
  curproc (v_k s) = Some cp → map_of s cp m mp → areas_wf (vmm_list mp) → NoDup (ids (vmm_list mp)) →
  0 < p_start_brk (proc_vm_of s cp) <= addr → addr <= USER_MEM_HIGH → 0 < p_brk (proc_vm_of s cp) < 2 ^ 32 →
  begin < fin → lookup_area (begin - 1) (vmm_list mp) = Some a →
  if decide (Forall (apart begin fin) (vmm_list mp)) then
    ∃ s' mp', do_brk addr s = Ret (0, Some addr) s' ∧ v_k s' = v_k s ∧
      procvm s' = <[cp := ProcVm (Some m) addr (p_start_brk (proc_vm_of s cp))]> (procvm s) ∧
      vmaps s' = <[m := mp']> (vmaps s) ∧ areas_wf (vmm_list mp') ∧
      ∀ v, lookup_area v (vmm_list mp') =
        if decide (vma_start a <= v < fin) then Some (with_range (vma_start a) fin (vma_off a) a)
        else lookup_area v (vmm_list mp)
  else do_brk addr s = Ret (- ENOMEM, None) s.
Proof.
  intros begin fin Hc Hm Hl Hnd Hst Hhi Hbrk Hlt Ha. pose proof (lookup_area_Some _ _ _ Ha) as [Hin Hcov].
  pose proof (areas_in_elem _ _ _ _ Hl Hin) as Hae. pose proof (pages_below_high _ Hhi) as Hph. unfold covers in Hcov.
  rewrite (do_brk_eq s cp m mp) by done. cbn zeta. fold begin fin fin.
  replace (begin =? fin) with false by lia. replace (fin <? begin) with false by lia.
  rewrite (bind_step _ _ _ _ _ (vmmap_lookup_eq _ _ _ _ (proj2 Hm))).
  erewrite bind_step by (apply (is_range_empty_eq m mp); [apply Hm|done|lia|lia|lia]).
  replace (begin + (fin - begin)) with fin by lia. case_decide as Hd; [|done]. rewrite Ha.
  apply list_elem_of_split in Hin as (pre & l & Hmp).
  assert (vma_end a = begin) as He.
  { rewrite Forall_forall in Hd. destruct (Hd a) as [?|?]; [rewrite Hmp; set_solver|lia|lia]. }
  rewrite Hmp in Hl, Hnd, Hd |- *. apply Forall_app in Hd as [_ [_ Hd]%Forall_cons].
  assert (areas_wf (pre ++ with_range (vma_start a) fin (vma_off a) a :: l)) as Hwf.
  { apply areas_in_extend; [done|lia|by rewrite He]. }
  eexists _, (with_list (λ _, pre ++ with_range (vma_start a) fin (vma_off a) a :: l) mp). split.
  - change (1 =? 1) with true. cbn iota. rewrite (bind_step (deref (Some a) _) _ s a s eq_refl).
    rewrite (bind_step _ _ _ _ _ (upd_vmmap_eval _ _ _ _ (proj2 Hm))).
    by rewrite (bind_step _ _ _ _ _ (set_brk_eq (set_vmaps _ s) cp addr Hc)).
  - cbn [v_k procvm vmaps set_procvm set_vmaps vmm_list with_list].
    change (proc_vm_of (set_vmaps _ s) cp) with (proc_vm_of s cp). rewrite (proj1 Hm).
    split_and!; try done.
    + unfold with_list. by rewrite Hmp, replace_area_at by done.
    + intros v. apply (lookup_extend PN_LOW PN_HIGH); [done|done|lia].
Qed.

(** [do_brk] to an address on the page of the current break reports
    success but does nothing: the break keeps its value, and no value is
    stored in [*ret]. *)
Theorem do_brk_same_page s cp m mp addr :
  curproc (v_k s) = Some cp → map_of s cp m mp →
  0 < p_start_brk (proc_vm_of s cp) <= addr → addr <= USER_MEM_HIGH → 0 < p_brk (proc_vm_of s cp) < 2 ^ 32 →
  pages_below addr = pages_below (p_brk (proc_vm_of s cp)) →
  do_brk addr s = Ret (0, None) s.
Proof.
  intros Hc Hm Hst Hhi Hbrk Heq. rewrite (do_brk_eq s cp m mp) by done. cbn zeta. by rewrite Heq, Z.eqb_refl.
Qed.

(** ** Removing mappings *)

Section remove.
Context {OI : ObjIface mm_ops}.

(** The current process, with its page directory and address space. *)
Record cur_space (s : vst) (cp : pptr) (pd : Z) (m : vmid) (mp : vmmap) : Prop := {
  cs_inv : obj_inv s;
  cs_cur : curproc (v_k s) = Some cp;
  cs_pagedir : ∃ p, procs (v_k s) !! cp = Some p ∧ p_pagedir p = Some pd;
  cs_map : map_of s cp m mp;
  cs_wf : areas_wf (vmm_list mp);
  cs_ids : NoDup (ids (vmm_list mp));
  cs_off : Forall off_ok (vmm_list mp);
}.

(** The pages from [lo] up to [hi], and only these, are gone. *)
Definition unmapped (s : vst) (pd : Z) (m : vmid) (mp : vmmap) (lo hi : Z) (s' : vst) : Prop :=
  ∃ mp', vmaps s' = <[m := mp']> (vmaps s) ∧ areas_wf (vmm_list mp') ∧ NoDup (ids (vmm_list mp')) ∧
    (∀ v, page_info (vmm_list mp') v = if decide (lo <= v < hi) then None else page_info (vmm_list mp) v) ∧
    (∀ v, lo <= v < hi → pts s' !! (pd, PN_TO_ADDR v) = None).

Lemma remove_cur s cp pd m mp lo n :
  cur_space s cp pd m mp → 0 <= lo → 0 < n → lo + n <= PN_HIGH → Forall (no_split lo (lo + n)) (vmm_list mp) →
  ∃ s', vmmap_remove mm_ops m lo n s = Ret 0 s' ∧ obj_inv s' ∧ kpart s' = kpart s ∧
    unmapped s pd m mp lo (lo + n) s'.
Proof.
  intros [Hi Hc (p & Hp & Hpd) Hm Hl Hnd Ho] Hlo Hn Hhi Hns.
  destruct (vmmap_remove_spec mm_ops m mp lo n cp p pd s) as (s' & mp' & Hr & Hi' & Hk & Hrest);
    [done|apply Hm|done..|]. exists s'. split_and!; try done. by exists mp'.
Qed.

(** C35. [do_brk] below the page of the break gives up exactly the pages from
    the new break to the old one, with their translations; the new break is
    stored and returned. *)
Theorem do_brk_shrinks s cp pd m mp addr :
  let begin := pages_below (p_brk (proc_vm_of s cp)) in
  let fin := pages_below addr in
  cur_space s cp pd m mp → 0 < p_start_brk (proc_vm_of s cp) <= addr →
  p_brk (proc_vm_of s cp) <= USER_MEM_HIGH → fin < begin → Forall (no_split fin begin) (vmm_list mp) →
  ∃ s', do_brk addr s = Ret (0, Some addr) s' ∧ v_k s' = v_k s ∧
    procvm s' = <[cp := ProcVm (Some m) addr (p_start_brk (proc_vm_of s cp))]> (procvm s) ∧
    unmapped s pd m mp fin begin s'.
Proof.
  intros begin fin Hcs Hst Hbrk Hlt Hns. pose proof (pages_below_high _ Hbrk) as Hph.
  pose proof user_mem_bounds as Hb. fold begin in Hph.
  assert (addr < p_brk (proc_vm_of s cp)) as Hab.
  { unfold begin, fin, pages_below, PAGE_SIZE in Hlt. Z.to_euclidean_division_equations. lia. }
  assert (0 <= fin) by (unfold fin, pages_below, PAGE_SIZE; Z.to_euclidean_division_equations; lia).
  rewrite (do_brk_eq s cp m mp) by (lia || apply Hcs). cbn zeta. fold begin fin.
  replace (begin =? fin) with false by lia. replace (fin <? begin) with true by lia.
  destruct (remove_cur s cp pd m mp fin (begin - fin)) as (s' & Hr & Hi & Hk & Hun);
    [done|lia|lia|lia|by replace (fin + (begin - fin)) with begin by lia|].
  assert (v_k s' = v_k s ∧ procvm s' = procvm s) as [Hk1 Hk2] by (unfold kpart in Hk; split; congruence).
  rewrite (bind_step _ _ _ _ _ Hr). erewrite bind_step by (apply (set_brk_eq s' cp); rewrite Hk1; apply Hcs).
  replace (fin + (begin - fin)) with begin in Hun by lia.
  eexists. split; [done|]. split; [done|]. split; [|done]. simpl. rewrite Hk2.
  unfold proc_vm_of. rewrite Hk2. fold (proc_vm_of s cp). by rewrite (proj1 (cs_map _ _ _ _ _ Hcs)).
Qed.

(** [do_munmap] of a range within user memory unmaps exactly the pages
    that hold its first byte and the following ones as far as its length
    reaches, with their translations, and returns 0; a range that is empty or
    starts below user memory gives EINVAL and changes nothing. *)
Theorem do_munmap_unmaps s cp pd m mp addr len :
  let lo := ADDR_TO_PN addr in
  let hi := ADDR_TO_PN addr + pages_below len in
  cur_space s cp pd m mp → 0 <= addr < 2 ^ 32 → 0 <= len < 2 ^ 32 → addr + len <= USER_MEM_HIGH →
  Forall (no_split lo hi) (vmm_list mp) →
  if decide (0 < len ∧ USER_MEM_LOW <= addr) then
    ∃ s', do_munmap addr len s = Ret 0 s' ∧ kpart s' = kpart s ∧ unmapped s pd m mp lo hi s'
  else do_munmap addr len s = Ret (- EINVAL) s.
Proof.
  intros lo hi Hcs Ha Hlen Hend Hns. pose proof user_mem_bounds as Hb. unfold do_munmap. rewrite u32_small by lia.
  replace (USER_MEM_HIGH <? addr + len) with false by lia. rewrite orb_false_r. fold (pages_below len). fold lo.
  case_decide as Hd.
  - replace ((len <=? 0) || (USER_MEM_HIGH - USER_MEM_LOW <? len) || (addr <? USER_MEM_LOW)) with false by lia.
    assert (0 <= lo ∧ 0 < pages_below len ∧ hi <= PN_HIGH) as (Hlo & Hn & Hhi).
    { destruct user_mem_aligned as [_ HH].
      unfold hi, lo, pages_below, PN_HIGH, ADDR_TO_PN, PAGE_SIZE. rewrite !Z.shiftr_div_pow2 by lia.
      change (2 ^ 12) with 4096 in *. Z.to_euclidean_division_equations. lia. }
    destruct (remove_cur s cp pd m mp lo (pages_below len)) as (s' & Hr & Hi & Hk & Hun); [done..|].
    exists s'. rewrite (bind_step _ _ _ _ _ (cur_map_eq _ _ _ _ (cs_cur _ _ _ _ _ Hcs) (cs_map _ _ _ _ _ Hcs))).
    by rewrite (bind_step _ _ _ _ _ Hr).
  - by replace ((len <=? 0) || (USER_MEM_HIGH - USER_MEM_LOW <? len) || (addr <? USER_MEM_LOW)) with true by lia.
Qed.

(** ** [do_mmap] *)

(** The flags of a private anonymous mapping at a given address. *)
Definition fixed_private_anon (flags : Z) : Prop :=
  has_flag flags MAP_SHARED = false ∧ has_flag flags MAP_PRIVATE = true ∧
  has_flag flags MAP_FIXED = true ∧ has_flag flags MAP_ANON = true.

Lemma do_mmap_fixed_eq s addr len prot flags fd off :
  fixed_private_anon flags → PAGE_ALIGNED off = true → 0 < len <= USER_MEM_HIGH - USER_MEM_LOW →
  USER_MEM_LOW <= addr → u32 (addr + len) <= USER_MEM_HIGH →
  do_mmap addr len prot flags fd off s =
    (map ← cur_map;
     result ← vmmap_map mm_ops map None (ADDR_TO_PN addr) (pages_below len) prot flags off VMMAP_DIR_HILO;
     do_mmap_end len result) s.
Proof.
  intros (H1 & H2 & H3 & H4) Hoff Hlen Hlow Hhi. unfold do_mmap. rewrite H1, H2, H3, H4, Hoff. cbn [negb andb].
  replace ((USER_MEM_HIGH - USER_MEM_LOW <? len) || (len <=? 0)) with false by lia.
  by replace ((USER_MEM_HIGH <? u32 (addr + len)) || (addr <? USER_MEM_LOW)) with false by lia.
Qed.

Lemma fixed_pages addr len :
  USER_MEM_LOW <= addr → 0 < len → addr + len <= USER_MEM_HIGH →
  PN_LOW <= ADDR_TO_PN addr ∧ 0 < pages_below len ∧ ADDR_TO_PN addr + pages_below len <= PN_HIGH.
Proof.
  intros Hlow Hlen Hhi. destruct user_mem_aligned as [HL HH].
  unfold pages_below, PN_LOW, PN_HIGH, ADDR_TO_PN, PAGE_SIZE. rewrite !Z.shiftr_div_pow2 by lia.
  change (2 ^ 12) with 4096 in *. Z.to_euclidean_division_equations. lia.
Qed.

Lemma page_align_up_pages len : 0 < len <= 2 ^ 32 - 2 * PAGE_SIZE → PAGE_ALIGN_UP len = pages_below len * PAGE_SIZE.
Proof.
  unfold PAGE_SIZE. intros Hlen. unfold PAGE_ALIGN_UP, PAGE_ALIGN_DOWN, pages_below.
  rewrite page_offset_mod, (u32_small (len - 1)) by lia. unfold PAGE_SIZE. rewrite u32_small; Z.to_euclidean_division_equations; lia.
Qed.

(** Emptying the pages a fixed mapping goes to. *)
Lemma make_room s cp pd m mp lo n :
  cur_space s cp pd m mp → PN_LOW <= lo → 0 < n → lo + n <= PN_HIGH → Forall (no_split lo (lo + n)) (vmm_list mp) →
  ∃ s1 mp1, (res ← vmmap_is_range_empty m lo n;
      (if res =? 0 then _ ← vmmap_remove mm_ops m lo n; mret () else mret ());; mret lo) s = Ret lo s1 ∧
    kpart s1 = kpart s ∧ vmaps s1 = <[m := mp1]> (vmaps s) ∧ areas_wf (vmm_list mp1) ∧
    fits n PN_LOW PN_HIGH (vmm_list mp1) lo ∧
    ∀ v, page_info (vmm_list mp1) v = if decide (lo <= v < lo + n) then None else page_info (vmm_list mp) v.
Proof.
  intros Hcs Hlo Hn Hhi Hns. pose proof pn_bounds as Hb.
  erewrite bind_step by (eapply is_range_empty_eq; [apply Hcs|apply Hcs|lia..]).
  assert (∀ l, areas_wf l → (∀ v, lo <= v < lo + n → page_info l v = None) → fits n PN_LOW PN_HIGH l lo) as Hfits.
  { intros l Hl Hv. split_and!; [lia|lia|]. intros a Ha.
    assert (Forall (apart lo (lo + n)) l) as Hap.
    { eapply range_free_iff; [done|lia|]. intros v Hr. apply Hv in Hr. unfold page_info in Hr.
      by destruct (lookup_area v l). }
    rewrite Forall_forall in Hap. by destruct (Hap a Ha); [left|right]. }
  case_decide as Hd.
  - exists s, mp. pose proof (cs_wf _ _ _ _ _ Hcs) as Hwf.
    assert (∀ v, lo <= v < lo + n → page_info (vmm_list mp) v = None) as Hnone.
    { intros v Hv. unfold page_info. eapply range_free_iff in Hd; [by rewrite Hd|done|lia|done]. }
    split_and!; try done.
    + symmetry. apply insert_id, Hcs.
    + by apply Hfits.
    + intros v. case_decide; auto.
  - destruct (remove_cur s cp pd m mp lo n) as (s1 & Hr & _ & Hk & mp1 & Hv & Hwf & _ & Hpi & _); [done|lia|done..|].
    exists s1, mp1. split_and!; try done.
    + cbn [Z.eqb]. rewrite bind_unfold. erewrite bind_step by exact Hr. done.
    + apply Hfits; [done|]. intros v Hr'. rewrite Hpi. by rewrite decide_True.
Qed.

(** [vmmap_map] at a given place. *)
Lemma map_fixed_anon s cp pd m mp lo n prot flags off dir :
  cur_space s cp pd m mp → has_flag flags MAP_PRIVATE = true → PAGE_ALIGNED off = true →
  PN_LOW <= lo → 0 < n → lo + n <= PN_HIGH → Forall (no_split lo (lo + n)) (vmm_list mp) →
  (∀ t, is_Some (slab_alloc_vmarea t)) → (∀ q t, is_Some (slab_alloc_mmobj q t)) →
  ∃ s' mp' area o sh, vmmap_map mm_ops m None lo n prot flags off dir s = Ret (0, Some area) s' ∧
    vma_start area = lo ∧ kpart s' = kpart s ∧ vmaps s' = <[m := mp']> (vmaps s) ∧ areas_wf (vmm_list mp') ∧
    (∀ v, page_info (vmm_list mp') v =
      if decide (lo <= v < lo + n) then Some (v - lo + ADDR_TO_PN off, prot, flags) else page_info (vmm_list mp) v) ∧
    (∀ v, lo <= v < lo + n → lookup_area v (vmm_list mp') ≫= vma_obj = Some sh) ∧
    mmobjs s' !! sh = Some (shadow_over o o).
Proof.
  intros Hcs Hpriv Hoff Hlo Hn Hend Hns Hall1 Hall2. pose proof pn_bounds as Hb. destruct (Hall1 s) as [ar Har].
  assert (Z.land flags MAP_PRIVATE ≠ 0) as Hp
    by (unfold has_flag in Hpriv; by destruct (Z.eqb_spec (Z.land flags MAP_PRIVATE) 0)).
  destruct (make_room s cp pd m mp lo n) as (s1 & mp1 & E1 & Hk1 & Hv1 & Hwf1 & Hfit & Hpi); [done..|].
  destruct (map_anon_spec m mp1 lo n prot flags off ar s1) as (s2 & area & o & sh & E2 & _ & _ & [Ha Hvm Hwf Hlk Hsh _ _ Hk2 _ _ _]);
    [by rewrite Hv1, lookup_insert_eq|done..|].
  destruct Ha as (Ha1 & Ha2 & Ha3 & Ha4 & Ha5 & Ha6).
  exists s2, (with_list (insert_sorted area) mp1), area, o, sh. split_and!; try done.
  - rewrite (vmmap_map_anon_eq mm_ops m lo n prot flags off _ ar) by (done || (right; lia)).
    replace (lo =? 0) with false by lia. cbn [negb]. rewrite (bind_step _ _ _ _ _ E1).
    by replace (lo =? -1) with false by lia.
  - congruence.
  - rewrite Hvm, Hv1. apply insert_insert_eq.
  - intros v. cbn [vmm_list with_list]. unfold page_info at 1. rewrite Hlk.
    case_decide as Hc; unfold covers in Hc; rewrite Ha1, Ha2 in Hc.
    + rewrite decide_True by done. simpl. by rewrite Ha1, Ha3, Ha4, Ha5.
    + fold (page_info (vmm_list mp1) v). by rewrite Hpi, !decide_False.
  - intros v Hv. cbn [vmm_list with_list]. rewrite Hlk. by rewrite decide_True by (unfold covers; lia).
Qed.

Lemma cur_pagedir_eq s s' cp pd m mp :
  cur_space s cp pd m mp → v_k s' = v_k s → cur_pagedir s' = Ret pd s'.
Proof.
  intros Hcs Hk. destruct (cs_pagedir _ _ _ _ _ Hcs) as (p & Hpr & Hpd). unfold cur_pagedir.
  erewrite bind_step by (apply lift_cur_proc; rewrite Hk; apply Hcs).
  erewrite bind_step by (apply lift_proc_at; by rewrite Hk). by rewrite Hpd.
Qed.

End remove.

(** A fixed mapping that wraps around at the end of the 32 bit address
    space passes the checks of [do_mmap], and then fails an assertion of
    [vmmap_map]: a system call stops the machine. *)
Theorem do_mmap_fixed_wraps s cp m mp addr len prot flags fd off :
  curproc (v_k s) = Some cp → map_of s cp m mp → fixed_private_anon flags → PAGE_ALIGNED off = true →
  0 < len <= USER_MEM_HIGH - USER_MEM_LOW → USER_MEM_LOW <= addr < 2 ^ 32 → 2 ^ 32 <= addr + len →
  ∃ why, do_mmap addr len prot flags fd off s = Panic why.
Proof.
  intros Hc Hm Hfl Hoff Hlen Haddr Hwrap. pose proof user_mem_bounds as Hb. pose proof pn_bounds as Hpn.
  assert (u32 (addr + len) = addr + len - 2 ^ 32) as Hu.
  { unfold u32. rewrite <- (Z.mod_unique (addr + len) (2 ^ 32) 1 (addr + len - 2 ^ 32)); lia. }
  rewrite do_mmap_fixed_eq by (done || lia). rewrite (bind_step _ _ _ _ _ (cur_map_eq _ _ _ _ Hc Hm)).
  assert (PN_LOW <= ADDR_TO_PN addr ∧ 0 < pages_below len ∧ 2 ^ 20 <= ADDR_TO_PN addr + pages_below len < 2 ^ 32)
    as (H1 & H2 & H3).
  { unfold pages_below, PN_LOW, ADDR_TO_PN, PAGE_SIZE. rewrite !Z.shiftr_div_pow2 by lia.
    change (2 ^ 12) with 4096. Z.to_euclidean_division_equations. lia. }
  unfold vmmap_map. eexists. rewrite bind_unfold. assert ((0 <? pages_below len) = true) as -> by lia.
  erewrite bind_step by reflexivity.
  rewrite (Z.land_comm MAP_PRIVATE). assert (negb (Z.land flags MAP_PRIVATE =? 0) = true) as -> by apply Hfl.
  rewrite orb_true_r. erewrite bind_step by reflexivity.
  assert ((0 =? ADDR_TO_PN addr) || (PN_LOW <=? ADDR_TO_PN addr) = true) as -> by lia.
  erewrite bind_step by reflexivity. rewrite u32_small by lia.
  assert ((0 =? ADDR_TO_PN addr) || (ADDR_TO_PN addr + pages_below len <=? PN_HIGH) = false) as -> by lia.
  reflexivity.
Qed.
End vmsys_props.
