(* ===== verification/FaultProps.v ===== *)
(** * Properties of page faults *)

From S2P Require Import Prelude Kstate Sched Kmutex Proc Vmstate Pframe Mmobj Vmmap Areas VmmapProps.
From S2P Require Import ShadowProps Vnode Namev Vfs VmSys VmSysProps.
Local Open Scope Z_scope.

Section fault.
Context {VE : VmEnv} {FE : VfsEnv} {MA : Machine} {ER : Errno} {OB : Objects} {NE : NameEnv}
  {FT : FileTable} {ME : MapEnv} {PE : ProcEnv}.

(** The access a fault asks for. *)
Definition wanted (cause : Z) : option Z :=
  if has_flag cause FAULT_WRITE then Some PROT_WRITE
  else if has_flag cause FAULT_EXEC then None
  else Some PROT_READ.

(** A fault at an address that no area covers, or on an area that does not
    allow the access that caused it, never maps anything: the process exits
    with status EFAULT. *)
Theorem handle_pagefault_denies s cp m mp vaddr cause :
  curproc (v_k s) = Some cp → map_of s cp m mp →
  match lookup_area (ADDR_TO_PN vaddr) (vmm_list mp) with
  | None => True
  | Some a => ∃ perm, wanted cause = Some perm ∧ has_flag (vma_prot a) perm = false
  end →
  handle_pagefault vaddr cause s = lift (do_exit EFAULT) s.
Proof.
  intros Hc Hm Ha. unfold handle_pagefault. rewrite (bind_step _ _ _ _ _ (cur_map_eq _ _ _ _ Hc Hm)).
  rewrite (bind_step _ _ _ _ _ (vmmap_lookup_eq _ _ _ _ (proj2 Hm))).
  destruct (lookup_area _ _) as [a|]; [|done]. destruct Ha as (perm & Hw & Hp). unfold wanted in Hw.
  destruct (has_flag cause FAULT_WRITE) eqn:Hcw; [injection Hw as <-; by rewrite Hp|].
  destruct (has_flag cause FAULT_EXEC) eqn:Hce; [done|]. injection Hw as <-. rewrite Hp.
  by destruct (has_flag (vma_prot a) PROT_WRITE).
Qed.

(** Marking the new frame dirty, as [handle_pagefault] does. *)
Lemma dirty_grown vn k s o n pf fr m s1 :
  grown s o n pf fr m s1 → pf_obj fr = Some o → pf_busy fr = false →
  (∃ x, mmobjs s !! o = Some x ∧ mmo_ops x = shadow_mmobj_ops) →
  returns (pframe_dirty (mmobj_table vn (S k)) pf) s1
    (λ _, grown s o n pf (Pframe (pf_addr fr) (pf_obj fr) (pf_pagenum fr) false true (pf_pincount fr)) m).
Proof.
  intros Hg Ho Hb (x & Hx & Hops). unfold pframe_dirty. eapply returns_step; [by apply (grown_at _ _ _ _ _ _ _ Hg)|].
  rewrite Hb, Ho. eapply returns_step; [reflexivity|].
  eapply returns_bind; [apply (grown_upd _ _ _ _ _ _ _ _ Hg)|]. intros _u s2 Hg2. eapply returns_step; [reflexivity|].
  eapply returns_bind.
  { cbn [mmobj_table dispatch o_dirtypage]. destruct (gr_objs _ _ _ _ _ _ _ Hg2) as (x0 & x' & Hx0 & Hobj & _ & Hx').
    eapply returns_step; [apply mmobj_at_eval; by rewrite Hobj, lookup_insert_eq|].
    replace (mmo_ops x') with shadow_mmobj_ops by congruence.
    eapply returns_bind; [apply (grown_upd _ _ _ _ _ _ _ _ Hg2)|]. intros _v s3 Hg3.
    apply (returns_ret 0 s3 (λ r t, r = 0 ∧ grown s o n pf (with_dirty true (with_busy true fr)) m t)). done. }
  intros r s3 [-> Hg3]. eapply returns_bind; [apply (grown_upd _ _ _ _ _ _ _ _ Hg3)|]. intros _w s4 Hg4.
  eapply returns_bind; [apply (grown_upd _ _ _ _ _ _ _ _ Hg4)|]. intros _x s5 Hg5.
  eapply returns_step; [apply broadcast_empty, Hg5|]. apply returns_ret.
  destruct fr. simpl in *. by subst.
Qed.
(** The frame found is marked dirty, and mapped. *)
Lemma map_page_grown vn k s o n pf fr m s1 cp pr pd vaddr :
  mm_ops = mmobj_table vn (S k) →
  grown s o n pf fr m s1 → pf_obj fr = Some o → pf_busy fr = false → 0 <= pf_pincount fr → pf_addr fr ≠ 0 →
  (∃ x, mmobjs s !! o = Some x ∧ mmo_ops x = shadow_mmobj_ops) →
  curproc (v_k s) = Some cp → procs (v_k s) !! cp = Some pr → p_pagedir pr = Some pd →
  ∃ s2, grown s o n pf (Pframe (pf_addr fr) (pf_obj fr) (pf_pagenum fr) false true (pf_pincount fr)) m s2 ∧
    map_page vaddr true pf s1 = Ret () (set_pts (λ t, (pt_map pd (PAGE_ALIGN_DOWN vaddr) (pt_virt_to_phys (pf_addr fr))
      (Z.lor (Z.lor PD_PRESENT PD_USER) PD_WRITE) (Z.lor (Z.lor PT_PRESENT PT_USER) PT_WRITE) t).2) s2).
Proof.
  intros Hops Hg Ho Hb Hp Ha Hx Hc Hpr Hpd. unfold map_page. rewrite Hops.
  destruct (grown_pin _ _ _ _ _ _ _ Hg) as ([] & s2 & E2 & Hg2); [by eexists|done|].
  destruct (dirty_grown vn k s o n pf _ m s2 Hg2) as (r & s3 & E3 & Hg3); [done..|].
  destruct (grown_unpin _ _ _ _ _ _ _ Hg3) as ([] & s4 & E4 & Hg4); [by eexists|simpl; lia|].
  replace (with_pincount _ _) with (Pframe (pf_addr fr) (pf_obj fr) (pf_pagenum fr) false true (pf_pincount fr)) in Hg4
    by (unfold with_pincount; simpl; f_equal; lia).
  exists s4. split; [done|]. rewrite (bind_step _ _ _ _ _ (grown_at _ _ _ _ _ _ _ Hg)).
  replace (pf_addr fr =? 0) with false by lia. erewrite bind_step by reflexivity.
  rewrite bind_unfold, (bind_step _ _ _ _ _ E2), (bind_step _ _ _ _ _ E3), E4. cbn [obind].
  rewrite (bind_step _ _ _ _ _ (grown_at _ _ _ _ _ _ _ Hg4)).
  destruct (gr_spaces _ _ _ _ _ _ _ Hg4) as (_ & _ & _ & Hc4 & Hp4).
  assert (cur_pagedir s4 = Ret pd s4) as Ecp.
  { unfold cur_pagedir. erewrite bind_step by (apply lift_cur_proc; by rewrite Hc4).
    erewrite bind_step by (apply lift_proc_at; by rewrite Hp4). by rewrite Hpd. }
  by rewrite (bind_step _ _ _ _ _ Ecp).
Qed.

Lemma private_copy_pts s o n y pf fr s' f :
  private_copy s o n y pf fr s' → private_copy s o n y pf fr (set_pts f s').
Proof.
  assert (∀ a, page (set_pts f s') a = page s' a) as Hp by (intros a; by apply page_ext).
  intros [[H1 H2 H3] H4 H5 H6 H7 H8 H9]. split; [by split|exact H4|exact H5|by rewrite Hp| |exact H8|exact H9].
  intros p z Hz. rewrite Hp. exact (H7 p z Hz).
Qed.

End fault.
