(* ===== verification/ForkProps.v ===== *)
(** * Properties of fork

    The address spaces of parent and child after the loop of [do_fork]. *)

From S2P Require Import Prelude Kstate Sched Kmutex Proc Vmstate Pframe Mmobj Vmmap Areas VmmapProps.
From S2P Require Import ShadowProps Vnode Namev Vfs VmSys VmSysProps.
Local Open Scope Z_scope.

(** Nothing but objects and address spaces changes. *)
Definition only_spaces (s s' : vst) : Prop :=
  s' = set_vmaps (λ _, vmaps s') (set_mmobjs (λ _, mmobjs s') s).

#[global] Instance only_spaces_preorder : PreOrder only_spaces.
Proof. split; [by intros []|]. intros s1 s2 s3 H12 H23. unfold only_spaces in *. by rewrite H23, H12 at 1. Qed.

Lemma only_spaces_pframes s s' : only_spaces s s' → pframes s' = pframes s.
Proof. by intros ->. Qed.

(** Taking a reference to an object, whatever its kind. *)
Class RefIface (ops : vtable) := {
  obj_ref : ∀ s o x, mmobjs s !! o = Some x → 0 < mmo_refcount x →
    o_ref ops o s = Ret () (set_mmobjs (insert o (with_refcount (λ n, n + 1) x)) s);
}.

(** The table of operations keeps this promise, if the operations of the
    objects that back files do. *)
Lemma table_refs `{VmEnv} `{Machine} `{Errno} vn k : RefIface vn → RefIface (mmobj_table vn (S k)).
Proof.
  intros Hvn. split. intros s o x Hx Hr. cbn [mmobj_table dispatch o_ref].
  rewrite (bind_step _ _ _ _ _ (mmobj_at_eval _ _ _ Hx)). destruct (mmo_ops x) eqn:Ho; [| |by apply obj_ref];
    unfold shadow_ref, anon_ref; rewrite (bind_step _ _ _ _ _ (mmobj_at_eval _ _ _ Hx)), Ho;
    rewrite (proj2 (Z.ltb_lt _ _)), bool_decide_eq_true_2 by done;
    (erewrite bind_step by reflexivity); by apply upd_mmobj_eval.
Qed.

(** ** Objects that stay *)

Definition un_le (u u' : mmo_union) : Prop :=
  match u, u' with
  | mmo_bottom_obj b, mmo_bottom_obj b' => b = b'
  | mmo_vmas _, mmo_vmas _ => True
  | _, _ => False
  end.

(** All objects are still there, and referenced at least as often. *)
Definition heap_le (h h' : gmap optr mmobj) : Prop :=
  ∀ o x, h !! o = Some x → ∃ x', h' !! o = Some x' ∧ mmo_shadowed x' = mmo_shadowed x ∧
    mmo_refcount x <= mmo_refcount x' ∧ un_le (mmo_un x) (mmo_un x').

#[global] Instance heap_le_preorder : PreOrder heap_le.
Proof.
  split.
  - intros h o x Hx. exists x. split_and!; try done. by destruct (mmo_un x).
  - intros h1 h2 h3 H12 H23 o x Hx. destruct (H12 o x Hx) as (y & Hy & Hs & Hr & Hu).
    destruct (H23 o y Hy) as (z & Hz & Hs' & Hr' & Hu'). exists z. split_and!; [done|congruence|lia|].
    unfold un_le in *. destruct (mmo_un x), (mmo_un y), (mmo_un z); try done. congruence.
Qed.

Lemma heap_le_insert h o x' :
  match h !! o with
  | Some x => mmo_shadowed x' = mmo_shadowed x ∧ mmo_refcount x <= mmo_refcount x' ∧ un_le (mmo_un x) (mmo_un x')
  | None => True
  end → heap_le h (<[o := x']> h).
Proof.
  intros Ho p x Hx. destruct (decide (p = o)) as [->|Hne].
  - rewrite Hx in Ho. exists x'. by rewrite lookup_insert_eq.
  - exists x. rewrite lookup_insert_ne by done. split_and!; try done. by destruct (mmo_un x).
Qed.

Lemma heap_le_chain h h' o l b : heap_le h h' → chain h o l b → chain h' o l b.
Proof.
  intros Hle. induction 1 as [o x Hx Hs|o x next l b Hx Hs Hc IH]; destruct (Hle o x Hx) as (y & Hy & Hys & _).
  - eapply chain_bottom; [exact Hy|congruence].
  - eapply chain_shadow; [exact Hy|by rewrite Hys|done].
Qed.

Section fork.
Context {VE : VmEnv} {FE : VfsEnv} {MA : Machine} {ER : Errno} {OB : Objects} {NE : NameEnv}
  {FT : FileTable} {ME : MapEnv} {PE : ProcEnv} {FO : ForkEnv} {RI : RefIface mm_ops}.

(** What [do_fork] relies on: a private area maps a shadow object, another
    area an object that is at the bottom itself. *)
Definition area_ok (h : gmap optr mmobj) (a : vmarea) : Prop :=
  ∃ o x, vma_obj a = Some o ∧ h !! o = Some x ∧ 0 < mmo_refcount x ∧
    if has_flag (vma_flags a) MAP_PRIVATE
    then ∃ b y l, mmo_un x = mmo_bottom_obj b ∧ h !! b = Some y ∧ mmo_un y = mmo_vmas l
    else ∃ l, mmo_shadowed x = None ∧ mmo_un x = mmo_vmas l.

Lemma area_ok_le h h' a : heap_le h h' → area_ok h a → area_ok h' a.
Proof.
  intros Hle (o & x & Ho & Hx & Hr & Hk). destruct (Hle o x Hx) as (x' & Hx' & Hs & Hr' & Hu).
  exists o, x'. split_and!; [done|done|lia|]. destruct (has_flag _ _).
  - destruct Hk as (b & y & l & Hb & Hy & Hl). destruct (Hle b y Hy) as (y' & Hy' & _ & _ & Hu').
    rewrite Hb in Hu. rewrite Hl in Hu'. destruct (mmo_un x') as [|b'] eqn:Hb'; [done|]. simpl in Hu. subst b'.
    destruct (mmo_un y') as [l'|] eqn:Hl'; [|done]. by exists b, y', l'.
  - destruct Hk as (l & Hn & Hl). rewrite Hl in Hu. destruct (mmo_un x') as [l'|] eqn:Hl'; [|done].
    exists l'. split; [congruence|done].
Qed.

(** The object [o'] shows the pages of [o]: it is [o], or a new shadow object
    over it. *)
Definition shows (h h' : gmap optr mmobj) (o o' : optr) : Prop :=
  o' = o ∨ h !! o' = None ∧ ∃ x, h' !! o' = Some x ∧ mmo_shadowed x = Some o.

Lemma shows_le h h0 h1 h2 o o' : heap_le h h0 → heap_le h1 h2 → shows h0 h1 o o' → shows h h2 o o'.
Proof.
  intros H0 H12 [->|(Hn & x & Hx & Hs)]; [by left|right]. split.
  - destruct (h !! o') as [y|] eqn:Hy; [|done]. destruct (H0 o' y Hy) as (z & Hz & _). congruence.
  - destruct (H12 o' x Hx) as (x' & Hx' & Hs' & _). exists x'. split; [done|congruence].
Qed.

(** The objects of parent and child for a private area that mapped [o]. *)
Definition separate (h : gmap optr mmobj) (flags : Z) (o1 o2 : optr) : Prop :=
  has_flag flags MAP_PRIVATE = true → o1 ≠ o2 ∧ h !! o1 = None ∧ h !! o2 = None.

Lemma with_obj_at o pre a l :
  NoDup (ids (pre ++ a :: l)) →
  map (λ v, if decide (vma_id v = vma_id a) then with_obj (Some o) v else v) (pre ++ a :: l) =
    pre ++ with_obj (Some o) a :: l.
Proof.
  intros Hnd. assert (∀ k, vma_id a ∉ ids k →
    map (λ v, if decide (vma_id v = vma_id a) then with_obj (Some o) v else v) k = k) as Hk.
  { unfold ids. induction k as [|b k IH]; [done|]. rewrite fmap_cons, not_elem_of_cons. intros [Hne Hl].
    cbn [map]. rewrite decide_False by congruence. f_equal. auto. }
  unfold ids in Hnd, Hk. rewrite fmap_app, fmap_cons in Hnd.
  apply NoDup_app in Hnd as (_ & Hd & [Hn _]%NoDup_cons).
  rewrite map_app. cbn [map]. rewrite decide_True by done. rewrite !Hk; [done|done|].
  intros Hin. apply (Hd _ Hin). by left.
Qed.

Lemma set_area_obj_eq s m mp pre a l o :
  vmaps s !! m = Some mp → vmm_list mp = pre ++ a :: l → NoDup (ids (vmm_list mp)) →
  set_area_obj m (vma_id a) o s =
    Ret () (set_vmaps (insert m (with_list (λ _, pre ++ with_obj (Some o) a :: l) mp)) s).
Proof.
  intros Hm Hl Hnd. unfold set_area_obj. rewrite (upd_vmmap_eval m mp) by done. rewrite Hl in Hnd.
  unfold with_list. by rewrite Hl, with_obj_at.
Qed.

Lemma new_shadow_eq s o x b :
  mmobjs s !! o = Some x → mmo_un x = mmo_bottom_obj b → (∀ q t, is_Some (slab_alloc_mmobj q t)) →
  ∃ sh, mmobjs s !! sh = None ∧ new_shadow o s = Ret sh (set_mmobjs (insert sh (shadow_over o b)) s).
Proof.
  intros Hx Hb Hall. destruct (Hall shadow_mmobj_ops s) as [sh Hsh]. pose proof (mmobj_fresh _ _ _ Hsh) as Hf.
  exists sh. split; [done|]. unfold new_shadow. rewrite (bind_step _ _ _ _ _ (shadow_create_eval s sh Hsh)).
  assert (sh ≠ o) by congruence.
  erewrite bind_step by (apply upd_mmobj_eval; simpl; apply lookup_insert_eq).
  unfold bottom_of. rewrite bind_unfold.
  erewrite bind_step by (apply mmobj_at_eval; simpl; by rewrite !lookup_insert_ne). rewrite Hb. cbn [obind].
  unfold mret, M_ret. cbn [obind].
  erewrite bind_step by (apply upd_mmobj_eval; simpl; apply lookup_insert_eq).
  unfold mret, M_ret. destruct s; unfold set_mmobjs; simpl. by rewrite !insert_insert_eq.
Qed.
(** One iteration of the loop: area [a] of address space [m], behind [pp], and
    area [cl] of [c], behind [pc]. *)
Section step.
Context (m c : vmid) (mp mc : vmmap) (pp rp pc rc : list vmarea) (a cl : vmarea) (s : vst).
Hypothesis Hne : m ≠ c.
Hypothesis Hm : vmaps s !! m = Some mp.
Hypothesis Hmp : vmm_list mp = pp ++ a :: rp.
Hypothesis Hmn : NoDup (ids (vmm_list mp)).
Hypothesis Hc : vmaps s !! c = Some mc.
Hypothesis Hmc : vmm_list mc = pc ++ cl :: rc.
Hypothesis Hcn : NoDup (ids (vmm_list mc)).
Hypothesis Hall : ∀ q t, is_Some (slab_alloc_mmobj q t).

(** What one iteration leaves behind. *)
Definition stepped (o : optr) (s' : vst) : Prop :=
  heap_le (mmobjs s) (mmobjs s') ∧ only_spaces s s' ∧
  ∃ o1 o2, shows (mmobjs s) (mmobjs s') o o1 ∧ shows (mmobjs s) (mmobjs s') o o2 ∧
    separate (mmobjs s) (vma_flags a) o1 o2 ∧
    vmaps s' = <[c := with_list (λ _, pc ++ with_obj (Some o2) cl :: rc) mc]>
      (<[m := with_list (λ _, pp ++ with_obj (Some o1) a :: rp) mp]> (vmaps s)).

(** Linking the area of the child into the list of the bottom object. *)
Lemma link_step o b y l s1 :
  stepped o s1 → mmobjs s1 !! b = Some y → mmo_un y = mmo_vmas l →
  ∃ s2, upd_vmas b (λ l, l ++ [vma_id cl]) s1 = Ret () s2 ∧ stepped o s2.
Proof.
  intros (Hle & Hpf & o1 & o2 & H1 & H2 & Hsep & Hv) Hy Hl. rewrite (upd_vmas_eval b y l) by done.
  assert (heap_le (mmobjs s1) (<[b := with_un (mmo_vmas (l ++ [vma_id cl])) y]> (mmobjs s1))) as Hle'.
  { apply heap_le_insert. rewrite Hy, Hl. split_and!; done || simpl; lia. }
  eexists. split; [done|]. split; [by etrans|]. split; [by etrans; [exact Hpf|]|]. exists o1, o2.
  split_and!; [by eapply shows_le; [reflexivity|..]|by eapply shows_le; [reflexivity|..]|done|done].
Qed.

Lemma private_step o x b y l :
  vma_obj a = Some o → mmobjs s !! o = Some x → 0 < mmo_refcount x →
  mmo_un x = mmo_bottom_obj b → mmobjs s !! b = Some y → mmo_un y = mmo_vmas l →
  ∃ sh s', (o_ref mm_ops o;;
      to_delete ← new_shadow o; new_shadowed ← new_shadow o;
      set_area_obj m (vma_id a) to_delete;; set_area_obj c (vma_id cl) new_shadowed;;
      mret to_delete) s = Ret sh s' ∧ stepped o s' ∧
    mmobj_bottom_obj (mmobjs s') sh = b ∧ mmobjs s' !! b = Some y.
Proof.
  intros Ho Hx Hr Hb Hy Hl. assert (b ≠ o) as Hbo by (intros ->; congruence).
  set (s1 := set_mmobjs (insert o (with_refcount (λ n, n + 1) x)) s).
  assert (mmobjs s1 !! o = Some (with_refcount (λ n, n + 1) x)) as Hx1 by apply lookup_insert_eq.
  destruct (new_shadow_eq s1 o _ b Hx1 Hb Hall) as (sh1 & Hf1 & E1).
  set (s2 := set_mmobjs (insert sh1 (shadow_over o b)) s1) in E1.
  assert (sh1 ≠ o) by congruence. assert (sh1 ≠ b).
  { intros ->. simpl in Hf1. rewrite lookup_insert_ne in Hf1 by done. congruence. }
  assert (mmobjs s2 !! o = Some (with_refcount (λ n, n + 1) x)) as Hx2 by (simpl; by rewrite lookup_insert_ne).
  destruct (new_shadow_eq s2 o _ b Hx2 Hb Hall) as (sh2 & Hf2 & E2).
  set (s3 := set_mmobjs (insert sh2 (shadow_over o b)) s2) in E2.
  assert (sh2 ≠ sh1) by (intros ->; simpl in Hf2; by rewrite lookup_insert_eq in Hf2).
  assert (sh2 ≠ o) by congruence. assert (sh2 ≠ b).
  { intros ->. simpl in Hf2. rewrite !lookup_insert_ne in Hf2 by done. congruence. }
  assert (heap_le (mmobjs s) (mmobjs s3)) as Hle.
  { trans (mmobjs s1); [|trans (mmobjs s2)]; apply heap_le_insert; rewrite ?Hx, ?Hf1, ?Hf2; try done.
    split_and!; [done|simpl; lia|simpl; by rewrite Hb]. }
  set (s4 := set_vmaps (insert m (with_list (λ _, pp ++ with_obj (Some sh1) a :: rp) mp)) s3).
  exists sh1, (set_vmaps (insert c (with_list (λ _, pc ++ with_obj (Some sh2) cl :: rc) mc)) s4). split_and!.
  - rewrite (bind_step _ _ _ _ _ (obj_ref s o x Hx Hr)), (bind_step _ _ _ _ _ E1), (bind_step _ _ _ _ _ E2).
    rewrite (bind_step _ _ _ _ _ (set_area_obj_eq s3 m mp pp a rp sh1 Hm Hmp Hmn)).
    assert (vmaps s4 !! c = Some mc) as Hc4 by (simpl; by rewrite lookup_insert_ne).
    by rewrite (bind_step _ _ _ _ _ (set_area_obj_eq s4 c mc pc cl rc sh2 Hc4 Hmc Hcn)).
  - assert (mmobjs s !! sh1 = None) as Hn1 by (simpl in Hf1; by rewrite lookup_insert_ne in Hf1).
    assert (mmobjs s !! sh2 = None) as Hn2 by (simpl in Hf2; by rewrite !lookup_insert_ne in Hf2).
    split; [done|]. split; [done|]. exists sh1, sh2. split_and!; [| |by intros _|done]; right; (split; [done|]);
      exists (shadow_over o b); (split; [|done]); simpl; [rewrite lookup_insert_ne by done|]; apply lookup_insert_eq.
  - apply (mmobj_bottom_shadow _ _ (shadow_over o b)); [|by eexists|done].
    simpl. by rewrite lookup_insert_ne, lookup_insert_eq.
  - simpl. by rewrite !lookup_insert_ne.
Qed.

Lemma shared_step o x l :
  has_flag (vma_flags a) MAP_PRIVATE = false →
  vma_obj a = Some o → mmobjs s !! o = Some x → 0 < mmo_refcount x →
  mmo_shadowed x = None → mmo_un x = mmo_vmas l →
  ∃ s', (set_area_obj c (vma_id cl) o;; o_ref mm_ops o;; mret o) s = Ret o s' ∧ stepped o s' ∧
    mmobj_bottom_obj (mmobjs s') o = o ∧ ∃ y, mmobjs s' !! o = Some y ∧ mmo_un y = mmo_vmas l.
Proof.
  intros Hfl Ho Hx Hr Hs Hl.
  set (s1 := set_vmaps (insert c (with_list (λ _, pc ++ with_obj (Some o) cl :: rc) mc)) s).
  exists (set_mmobjs (insert o (with_refcount (λ n, n + 1) x)) s1). split_and!.
  - rewrite (bind_step _ _ _ _ _ (set_area_obj_eq s c mc pc cl rc o Hc Hmc Hcn)).
    by rewrite (bind_step _ _ _ _ _ (obj_ref s1 o x Hx Hr)).
  - split; [|split; [done|]].
    { apply (heap_le_insert (mmobjs s)). rewrite Hx. split_and!; [done|simpl; lia|simpl; by rewrite Hl]. }
    exists o, o. split_and!; [by left|by left|intros Hp; congruence|].
    simpl. f_equal. rewrite insert_id; [done|]. rewrite Hm. f_equal. destruct mp as [l' q].
    unfold with_list. simpl in *. rewrite Hmp. repeat f_equal. destruct a. simpl in *. by subst.
  - apply (mmobj_bottom_self _ _ (with_refcount (λ n, n + 1) x)); [apply lookup_insert_eq|done].
  - exists (with_refcount (λ n, n + 1) x). split; [apply lookup_insert_eq|done].
Qed.

Lemma fork_step l' :
  areas_wf (vmm_list mp) → vma_start cl = vma_start a → vma_flags cl = vma_flags a → area_ok (mmobjs s) a →
  ∃ o s', vma_obj a = Some o ∧ fork_areas m c (cl :: l') s = fork_areas m c l' s' ∧ stepped o s'.
Proof.
  intros Hwf Hst Hfl (o & x & Ho & Hx & Hr & Hk). exists o. cbn [fork_areas].
  assert (lookup_area (vma_start cl) (vmm_list mp) = Some a) as Hlk.
  { assert (a ∈ vmm_list mp) as Hin by (rewrite Hmp; set_solver).
    apply (lookup_area_covers PN_LOW PN_HIGH); [done|done|]. unfold covers. rewrite Hst.
    destruct (areas_in_elem _ _ _ _ Hwf Hin). lia. }
  destruct (has_flag (vma_flags a) MAP_PRIVATE) eqn:Hp.
  - destruct Hk as (b & y & l & Hb & Hy & Hl).
    destruct (private_step o x b y l) as (sh & s1 & E1 & Hs1 & Hbot & Hy1); [done..|].
    destruct (link_step o b y l s1) as (s2 & E2 & Hs2); [done..|].
    exists s2. split_and!; [done| |done].
    rewrite (bind_step _ _ _ _ _ (vmmap_lookup_eq _ _ _ _ Hm)), Hlk. erewrite bind_step by reflexivity. rewrite Ho.
    erewrite bind_step by reflexivity. rewrite Hfl, Hp, (bind_step _ _ _ _ _ E1). erewrite bind_step by reflexivity.
    by rewrite Hbot, (bind_step _ _ _ _ _ E2).
  - destruct Hk as (l & Hs & Hl). destruct (shared_step o x l) as (s1 & E1 & Hs1 & Hbot & y & Hy1 & Hl1); [done..|].
    destruct (link_step o o y l s1) as (s2 & E2 & Hs2); [done..|].
    exists s2. split_and!; [done| |done].
    rewrite (bind_step _ _ _ _ _ (vmmap_lookup_eq _ _ _ _ Hm)), Hlk. erewrite bind_step by reflexivity. rewrite Ho.
    erewrite bind_step by reflexivity. rewrite Hfl, Hp, (bind_step _ _ _ _ _ E1). erewrite bind_step by reflexivity.
    by rewrite Hbot, (bind_step _ _ _ _ _ E2).
Qed.
End step.
(** ** The loop *)

(** An area but for its address and its object. *)
Definition view (a : vmarea) : Z * Z * Z * Z * Z := (vma_start a, vma_end a, vma_off a, vma_prot a, vma_flags a).

(** Area [a] of the parent became [a'], and [c'] for the child. *)
Definition forked (h h' : gmap optr mmobj) (a a' c' : vmarea) : Prop :=
  ∃ o o1 o2, vma_obj a = Some o ∧ vma_obj a' = Some o1 ∧ vma_obj c' = Some o2 ∧
    view a' = view a ∧ view c' = view a ∧ shows h h' o o1 ∧ shows h h' o o2 ∧ separate h (vma_flags a) o1 o2.

Lemma forked_le h h0 h1 h2 a a' c' : heap_le h h0 → heap_le h1 h2 → forked h0 h1 a a' c' → forked h h2 a a' c'.
Proof.
  intros H0 H12 (o & o1 & o2 & Ho & H1 & H2 & Hv1 & Hv2 & Hs1 & Hs2 & Hsep). exists o, o1, o2.
  split_and!; try done; [by eapply shows_le..|]. intros Hp. destruct (Hsep Hp) as (Hne & Hn1 & Hn2).
  assert (∀ q, h0 !! q = None → h !! q = None) as Hnone.
  { intros q Hq. destruct (h !! q) as [x|] eqn:Hx; [|done]. destruct (H0 q x Hx) as (? & ? & _). congruence. }
  auto.
Qed.

Lemma areas_in_with_obj lo hi pp a rp o :
  areas_in lo hi (pp ++ a :: rp) → areas_in lo hi (pp ++ with_obj o a :: rp).
Proof. by rewrite !areas_in_app. Qed.

Lemma ids_with_obj pp a rp o : ids (pp ++ with_obj o a :: rp) = ids (pp ++ a :: rp).
Proof. unfold ids. by rewrite !fmap_app. Qed.

Lemma fork_areas_spec m c rc : m ≠ c → (∀ q t, is_Some (slab_alloc_mmobj q t)) →
  ∀ rp pp pc mp mc s,
  vmaps s !! m = Some mp → vmm_list mp = pp ++ rp → NoDup (ids (vmm_list mp)) → areas_wf (vmm_list mp) →
  vmaps s !! c = Some mc → vmm_list mc = pc ++ rc → NoDup (ids (vmm_list mc)) →
  Forall2 (λ a cl, view cl = view a) rp rc → Forall (area_ok (mmobjs s)) rp →
  ∃ s' rp' rc', fork_areas m c rc s = Ret () s' ∧ heap_le (mmobjs s) (mmobjs s') ∧ only_spaces s s' ∧
    Forall3 (forked (mmobjs s) (mmobjs s')) rp rp' rc' ∧
    vmaps s' = <[c := with_list (λ _, pc ++ rc') mc]> (<[m := with_list (λ _, pp ++ rp') mp]> (vmaps s)).
Proof.
  intros Hne Hall. induction rc as [|cl rc IH]; intros rp pp pc mp mc s Hm Hmp Hmn Hwf Hc Hmc Hcn Hv Hok;
    inversion Hv as [|a ? rp0 ? Hva Hv']; subst.
  - exists s, [], []. split_and!; try done; [constructor|]. rewrite <- Hmp, <- Hmc.
    assert (∀ x, with_list (λ _, vmm_list x) x = x) as Hid by by intros [].
    by rewrite !Hid, (insert_id _ m), insert_id.
  - apply Forall_cons in Hok as [Hoka Hok]. pose proof Hva as [= Hst _ _ _ Hfl].
    destruct (fork_step m c mp mc pp rp0 pc rc a cl s Hne Hm Hmp Hmn Hc Hmc Hcn Hall rc Hwf Hst Hfl Hoka)
      as (o & s1 & Ho & E & Hle & Hpf & o1 & o2 & Hs1 & Hs2 & Hsep & Hvm).
    destruct (IH rp0 (pp ++ [with_obj (Some o1) a]) (pc ++ [with_obj (Some o2) cl])
      (with_list (λ _, pp ++ with_obj (Some o1) a :: rp0) mp)
      (with_list (λ _, pc ++ with_obj (Some o2) cl :: rc) mc) s1)
      as (s' & rp' & rc' & E' & Hle' & Hpf' & Hfk & Hvm'); cbn [vmm_list with_list].
    + by rewrite Hvm, lookup_insert_ne, lookup_insert_eq.
    + by rewrite <- app_assoc.
    + rewrite ids_with_obj. by rewrite Hmp in Hmn.
    + apply areas_in_with_obj. by rewrite Hmp in Hwf.
    + by rewrite Hvm, lookup_insert_eq.
    + by rewrite <- app_assoc.
    + rewrite ids_with_obj. by rewrite Hmc in Hcn.
    + done.
    + eapply Forall_impl; [done|]. intros b. by apply area_ok_le.
    + exists s', (with_obj (Some o1) a :: rp'), (with_obj (Some o2) cl :: rc'). split_and!.
      * by rewrite E.
      * by etrans.
      * by etrans.
      * constructor; [|eapply Forall3_impl; [done|]; intros ???; by eapply forked_le].
        exists o, o1, o2. split_and!; try done; by eapply shows_le; [reflexivity|..].
      * rewrite Hvm', Hvm. unfold with_list. simpl. rewrite <- !app_assoc. simpl.
        rewrite (insert_insert_ne _ m c), insert_insert_eq, insert_insert_eq by done. done.
Qed.
(** The frame behind page [v] of the areas [l], if there is one. *)
Definition sees (s : vst) (l : list vmarea) (v : Z) (r : option pfptr) : Prop :=
  ∃ a o ch b, lookup_area v l = Some a ∧ vma_obj a = Some o ∧ chain (mmobjs s) o ch b ∧
    r = top_frame s (v - vma_start a + vma_off a) (ch ++ [b]).

Lemma lookup_forked h h' l l' lc v a :
  Forall3 (forked h h') l l' lc → lookup_area v l = Some a →
  ∃ a' c', lookup_area v l' = Some a' ∧ lookup_area v lc = Some c' ∧ forked h h' a a' c'.
Proof.
  induction 1 as [|b b' d l l' lc Hb Hl IH]; [done|]. cbn [lookup_area].
  destruct Hb as (o & o1 & o2 & Hb). pose proof Hb as (_ & _ & _ & [= E1 E2 _ _ _] & [= E3 E4 _ _ _] & _).
  rewrite E1, E2, E3, E4. destruct (_ && _); [|done]. intros [= <-]. exists b', d. split_and!; try done. by exists o, o1, o2.
Qed.

(** A new object has no pages: it shows what is below it. *)
Lemma shows_sees s s' n o o' ch b :
  heap_le (mmobjs s) (mmobjs s') → pframes s' = pframes s →
  (∀ pf x p, pframes s !! pf = Some x → pf_obj x = Some p → is_Some (mmobjs s !! p)) →
  chain (mmobjs s) o ch b → shows (mmobjs s) (mmobjs s') o o' →
  ∃ ch', chain (mmobjs s') o' ch' b ∧ top_frame s' n (ch' ++ [b]) = top_frame s n (ch ++ [b]).
Proof.
  intros Hle Hpf Hlive Hc Hsh. pose proof (heap_le_chain _ _ _ _ _ Hle Hc) as Hc'.
  assert (∀ p, frame_at s' p n = frame_at s p n) as Hfr by (intros p; unfold frame_at; by rewrite Hpf).
  assert (∀ l, top_frame s' n l = top_frame s n l) as Htop by (induction l as [|p l IH]; simpl; rewrite ?Hfr, ?IH; done).
  destruct Hsh as [->|(Hnew & x & Hx & Hs)]; [by exists ch|].
  exists (o' :: ch). split; [by eapply chain_shadow|]. cbn [app top_frame]. rewrite Hfr, Htop.
  destruct (frame_at s o' n) as [pf|] eqn:Hf; [|done]. apply frame_at_Some in Hf as (y & Hy & Hyo & _).
  destruct (Hlive _ _ _ Hy Hyo). congruence.
Qed.

(** The loop of [do_fork] over the areas of the clone: afterwards parent
    and child both see, at every page of the address space, the page the
    parent saw before; and where the mapping is private they see it through
    two different new objects, which no page and no other area uses, so that
    what one of them writes goes to an object of its own. *)
Theorem fork_areas_same_view m c mp mc s :
  m ≠ c → (∀ q t, is_Some (slab_alloc_mmobj q t)) →
  vmaps s !! m = Some mp → NoDup (ids (vmm_list mp)) → areas_wf (vmm_list mp) →
  vmaps s !! c = Some mc → NoDup (ids (vmm_list mc)) →
  Forall2 (λ a cl, view cl = view a) (vmm_list mp) (vmm_list mc) → Forall (area_ok (mmobjs s)) (vmm_list mp) →
  (∀ pf x p, pframes s !! pf = Some x → pf_obj x = Some p → is_Some (mmobjs s !! p)) →
  ∃ s' mp' mc', fork_areas m c (vmm_list mc) s = Ret () s' ∧
    vmaps s' = <[c := mc']> (<[m := mp']> (vmaps s)) ∧ pframes s' = pframes s ∧
    ∀ v a, lookup_area v (vmm_list mp) = Some a →
      ∃ a' c', lookup_area v (vmm_list mp') = Some a' ∧ lookup_area v (vmm_list mc') = Some c' ∧
        (∀ r, sees s (vmm_list mp) v r → sees s' (vmm_list mp') v r ∧ sees s' (vmm_list mc') v r) ∧
        (has_flag (vma_flags a) MAP_PRIVATE = true →
         ∃ o1 o2, vma_obj a' = Some o1 ∧ vma_obj c' = Some o2 ∧ o1 ≠ o2 ∧
           mmobjs s !! o1 = None ∧ mmobjs s !! o2 = None).
Proof.
  intros Hne Hall Hm Hmn Hwf Hc Hcn Hv Hok Hlive.
  destruct (fork_areas_spec m c (vmm_list mc) Hne Hall (vmm_list mp) [] [] mp mc s)
    as (s' & lp & lc & E & Hle & Hpf%only_spaces_pframes & Hfk & Hvm); [done..|].
  exists s', (with_list (λ _, lp) mp), (with_list (λ _, lc) mc). split_and!; try done. cbn [vmm_list with_list].
  intros v a Ha. destruct (lookup_forked _ _ _ _ _ _ _ Hfk Ha) as (a' & c' & Ha' & Hc' & Hf).
  destruct Hf as (o & o1 & o2 & Ho & Ho1 & Ho2 & [= S1 _ F1 _ _] & [= S2 _ F2 _ _] & Hs1 & Hs2 & Hsep).
  exists a', c'. split_and!; try done.
  - intros r (a0 & o0 & ch & b & Ha0 & Ho0 & Hch & ->). simplify_eq.
    destruct (shows_sees s s' (v - vma_start a + vma_off a) o o1 ch b) as (ch1 & Hch1 & Ht1); [done..|].
    destruct (shows_sees s s' (v - vma_start a + vma_off a) o o2 ch b) as (ch2 & Hch2 & Ht2); [done..|].
    split; [exists a', o1, ch1, b|exists c', o2, ch2, b]; split_and!; congruence.
  - intros Hp. destruct (Hsep Hp) as (? & ? & ?). by exists o1, o2.
Qed.
End fork.
