(* ===== verification/ForkProc.v ===== *)
(** * fork as a whole

    [do_fork]: the child, its address space, its thread and its files. *)

From S2P Require Import Prelude Kstate Sched Kmutex Proc ProcTree Vmstate Pframe Mmobj Vmmap Areas VmmapProps.
From S2P Require Import ShadowProps Vnode Namev Vfs VmSys VmSysProps ForkProps.
Local Open Scope Z_scope.

(** ** Cloning an address space *)

Section clone.
Context {VE : VmEnv} (areas : ∀ s, is_Some (slab_alloc_vmarea s)) (spaces : ∀ s, is_Some (slab_alloc_vmmap s)).

Lemma clone_areas_spec c l : ∀ s mc, vmaps s !! c = Some mc → NoDup (ids (vmm_list mc)) →
  ∃ lc, clone_areas c l s = Ret () (set_vmaps (insert c (with_list (λ k, k ++ lc) mc)) s) ∧
    Forall2 (λ a cl, view cl = view a) l lc ∧ NoDup (ids (vmm_list mc ++ lc)).
Proof.
  induction l as [|a l IH]; intros s mc Hc Hn.
  - exists []. rewrite app_nil_r. split_and!; [|constructor|done]. cbn [clone_areas]. unfold mret, M_ret.
    assert (with_list (λ k, k ++ []) mc = mc) as -> by (destruct mc; unfold with_list; by rewrite app_nil_r).
    destruct s; unfold set_vmaps; simpl in *. by rewrite insert_id.
  - destruct (areas s) as [i Hi].
    set (cl := Vmarea i (vma_start a) (vma_end a) (vma_off a) (vma_prot a) (vma_flags a) (Some c) None).
    set (mc' := with_list (λ k, k ++ [cl]) mc).
    destruct (IH (set_vmaps (insert c mc') s) mc') as (lc & E & Hv & Hnd).
    { simpl. by rewrite lookup_insert_eq. }
    { simpl. unfold ids in *. rewrite fmap_app. apply NoDup_app. split_and!; [done| |apply NoDup_singleton].
      intros x (v & -> & Hv)%list_elem_of_fmap Hx%list_elem_of_singleton. by eapply (vmarea_fresh s i c mc v). }
    exists (cl :: lc). split_and!.
    + cbn [clone_areas]. unfold vmarea_alloc. msimpl. rewrite Hi. cbn [obind].
      rewrite (upd_vmmap_eval c mc) by done. cbn [obind vma_id vma_obj]. fold cl. fold mc'. rewrite E. f_equal.
      destruct s, mc; unfold set_vmaps, with_list; simpl. rewrite insert_insert_eq. by rewrite <- app_assoc.
    + by constructor.
    + unfold mc' in Hnd. simpl in Hnd. by rewrite <- app_assoc in Hnd.
Qed.

Lemma vmmap_clone_spec m mp s : vmaps s !! m = Some mp →
  ∃ c lc, vmaps s !! c = None ∧ vmmap_clone m s = Ret (Some c) (set_vmaps (insert c (Vmmap lc None)) s) ∧
    Forall2 (λ a cl, view cl = view a) (vmm_list mp) lc ∧ NoDup (ids lc).
Proof.
  intros Hm. destruct (spaces s) as [c Hc]. pose proof (vmmap_fresh _ _ Hc) as Hf.
  set (s1 := set_vmaps (insert c (Vmmap [] None)) s).
  destruct (clone_areas_spec c (vmm_list mp) s1 (Vmmap [] None)) as (lc & E & Hv & Hn);
    [apply lookup_insert_eq|apply NoDup_nil_2|].
  exists c, lc. split_and!; try done. unfold vmmap_clone, vmmap_create. msimpl. rewrite Hc. cbn [obind].
  unfold vmmap_at. simpl. rewrite lookup_insert_ne, Hm by congruence. cbn [obind].
  destruct (vmm_list mp) as [|a l] eqn:Hl.
  - inversion Hv; subst. done.
  - change (obind (λ _ s0, Ret (Some c) s0) (clone_areas c (a :: l) s1) =
      Ret (Some c) (set_vmaps (insert c (Vmmap lc None)) s)). rewrite E. cbn [obind]. f_equal. destruct s; unfold s1, set_vmaps, with_list; simpl.
    by rewrite insert_insert_eq.
Qed.
End clone.

(** ** Copying descriptors *)

(** How often [f] is open in a table of descriptors. *)
Definition opens (f : fptr) (l : list (option fptr)) : Z := Z.of_nat (length (filter (λ o, o = Some f) l)).

Section files.
Context {FO : ForkEnv}.

Lemma fork_files_spec l : ∀ fs, (∀ f, Some f ∈ l → is_Some (files fs !! f)) →
  ∃ F, (∀ s, v_fs s = fs → fork_files l s = Ret () (set_fs (set_files (λ _, F)) s)) ∧
    ∀ f, F !! f = (λ x, with_frefcount (λ n, n + opens f l) x) <$> files fs !! f.
Proof.
  induction l as [|o l IH]; intros fs Hl.
  - exists (files fs). split.
    + intros s <-. cbn [fork_files]. unfold mret, M_ret. by destruct s as [??????????? ? []].
    + intros f. destruct (files fs !! f) as [[]|]; [|done]. cbn. unfold with_frefcount. simpl. by rewrite Z.add_0_r.
  - assert (∀ f, Some f ∈ l → is_Some (files fs !! f)) as Hl' by (intros f Hf; apply Hl; by right).
    destruct o as [f|]; cbn [fork_files].
    + destruct (Hl f) as [x Hx]; [by left|]. set (fs1 := set_files (insert f (with_frefcount (λ n, n + 1) x)) fs).
      destruct (IH fs1) as (F & E & HF).
      { intros g Hg. simpl. rewrite lookup_insert_is_Some'. right. auto. }
      exists F. split.
      * intros s <-. rewrite (bind_step _ _ _ _ _ (fref_spec s f x Hx)), E; done.
      * intros g. rewrite HF. simpl. destruct (decide (g = f)) as [->|Hne].
        -- rewrite lookup_insert_eq, Hx. cbn. unfold opens, with_frefcount. rewrite filter_cons_True by done. simpl.
           do 2 f_equal. lia.
        -- rewrite lookup_insert_ne by done. unfold opens. by rewrite filter_cons_False by congruence.
    + destruct (IH fs Hl') as (F & E & HF). exists F. split.
      * intros s Hs. rewrite bind_unfold. unfold mret, M_ret. cbn [obind]. by rewrite E.
      * intros g. rewrite HF. unfold opens. by rewrite filter_cons_False by done.
Qed.
End files.

(** ** The call *)

(** Memory does not run out. *)
Record plenty {VE : VmEnv} {PE : ProcEnv} : Prop := {
  pl_proc : ∀ s, is_Some (slab_alloc_proc s) ∧ is_Some (slab_alloc_thread s) ∧
    is_Some (alloc_stack s) ∧ is_Some (pt_create_pagedir s);
  pl_area : ∀ s, is_Some (slab_alloc_vmarea s);
  pl_space : ∀ s, is_Some (slab_alloc_vmmap s);
  pl_object : ∀ q s, is_Some (slab_alloc_mmobj q s);
}.

(** A step of process code. *)
Ltac lift_step E :=
  match goal with |- (lift ?m ≫= _) ?s = _ => rewrite (bind_step _ _ s _ _ (lift_Ret m _ _ s E)) end.

Section fork.
Context {VE : VmEnv} {FE : VfsEnv} {MA : Machine} {ER : Errno} {OB : Objects} {NE : NameEnv}
  {FT : FileTable} {ME : MapEnv} {PE : ProcEnv} {FO : ForkEnv} {RI : RefIface mm_ops}.

Definition fork_esp (stk : Z) : Z := u32 (stk + DEFAULT_STACK_SIZE - (sizeof_regs + 12)).

(** The registers are saved outside the stack of the new thread. *)
Definition apart (regs stk : Z) : Prop :=
  regs + sizeof_regs <= fork_esp stk + 4 ∨ fork_esp stk + 8 + sizeof_regs <= regs.

(** The caller: process [cp] with its one thread [t] and address space [m]. *)
Record can_fork (s : vst) (cp : pptr) (p : proc) (pd : Z) (t : tid) (th : kthread) (m : vmid) (mp : vmmap)
  (pf : proc_fs) : Prop := {
  cf_table : table_wf (v_k s);
  cf_sched : sched_wf (v_k s);
  cf_idle : PID_IDLE ∈ pids (v_k s) (proc_list (v_k s));
  cf_init : PID_INIT ∈ pids (v_k s) (proc_list (v_k s));
  cf_free : ∃ i, 0 <= i < PROC_MAX_COUNT ∧ i ∉ pids (v_k s) (proc_list (v_k s));
  cf_queues : ∀ c, procs (v_k s) !! c = None → qlist (v_k s) (p_wait c) = [];
  cf_curproc : curproc (v_k s) = Some cp;
  cf_proc : procs (v_k s) !! cp = Some p;
  cf_running : p_state p = PROC_RUNNING;
  cf_pagedir : p_pagedir p = Some pd;
  cf_curthr : curthr (v_k s) = Some t;
  cf_thread : threads (v_k s) !! t = Some th;
  cf_ktproc : kt_proc th = Some cp;
  cf_awake : kt_wchan th = None ∧ kt_state th = KT_RUN;
  cf_vmmap : p_vmmap (proc_vm_of s cp) = Some m;
  cf_space : vmaps s !! m = Some mp;
  cf_areas : NoDup (ids (vmm_list mp)) ∧ areas_wf (vmm_list mp);
  cf_objects : Forall (area_ok (mmobjs s)) (vmm_list mp);
  cf_frames : ∀ f x o, pframes s !! f = Some x → pf_obj x = Some o → is_Some (mmobjs s !! o);
  cf_fs : procfs (v_fs s) !! cp = Some pf;
  cf_files : ∀ f, Some f ∈ p_files pf → is_Some (files (v_fs s) !! f);
  cf_nfiles : Z.of_nat (length (p_files pf)) = NFILES;
}.

(** The thread of the child, which starts in user mode with the frame at
    [fork_esp stk]. *)
Definition fork_thread (c : pptr) (stk : Z) (cpd : option Z) (th : kthread) : kthread :=
  Kthread (Context 0 0 0 (Some stk) DEFAULT_STACK_SIZE cpd (Some userland_entry) (Some (fork_esp stk)))
    (Some stk) (kt_retval th) (kt_errno th) (Some c) (kt_cancelled th) KT_RUN None.

Context (s : vst) (cp : pptr) (p : proc) (pd : Z) (t : tid) (th : kthread) (m : vmid) (mp : vmmap) (pf : proc_fs).
Context (Hcf : can_fork s cp p pd t th m mp pf) (Hpl : plenty).

(** The process state with the child [c] and its thread [ct]. *)
Definition fork_k (pid : Z) (c : pptr) (ct : tid) (stk : Z) : kst :=
  let k := set_next_pid ((pid + 1) mod PROC_MAX_COUNT) (v_k s) in
  spawned c (newborn pid "child" ct cp k) cp p ct (fork_thread c stk (pt_create_pagedir k) th) k.

(** Memory, with the registers at [regs]. *)
Definition fork_mem (pid stk regs : Z) : Z → Z :=
  let m0 := mem_write (regs + r_eax) (word_bytes 0) (mem s) in
  let m1 := mem_write (fork_esp stk + 4) (word_bytes (fork_esp stk + 8)) m0 in
  mem_write (regs + r_eax) (word_bytes pid)
    (mem_write (fork_esp stk + 8) ((λ i, m1 (regs + i)) <$> seqZ 0 sizeof_regs) m1).

(** The process, the address space and the loop. *)
Lemma fork_front : ∃ c pid m2 s4 rp rc,
  let k := set_next_pid ((pid + 1) mod PROC_MAX_COUNT) (v_k s) in
  let k1 := add_proc c (new_proc pid "child" cp k) cp p k in
  let s3 := set_procvm (insert c (ProcVm (Some m2) (p_brk (proc_vm_of s c)) (p_start_brk (proc_vm_of s c))))
    (set_k (λ _, k1) s) in
  procs (v_k s) !! c = None ∧ pid ∉ pids (v_k s) (proc_list (v_k s)) ∧ 0 <= pid < PROC_MAX_COUNT ∧
  vmaps s !! m2 = None ∧ only_spaces s3 s4 ∧ heap_le (mmobjs s) (mmobjs s4) ∧
  Forall3 (forked (mmobjs s) (mmobjs s4)) (vmm_list mp) rp rc ∧
  vmaps s4 = <[m2 := Vmmap rc (Some c)]> (<[m := with_list (λ _, rp) mp]> (vmaps s)) ∧
  ∀ rest : pptr → V Z,
  (clone_proc ← lift (proc_create "child");
   map ← cur_map;
   r ← vmmap_clone map;
   clone_map ← deref r "clone_map";
   upd_vmmap clone_map (λ m, Vmmap (vmm_list m) (Some clone_proc));;
   upd_procvm clone_proc (λ pv, ProcVm (Some clone_map) (p_brk pv) (p_start_brk pv));;
   cm ← vmmap_at clone_map;
   fork_areas map clone_map (vmm_list cm);;
   rest clone_proc) s = rest c s4.
Proof.
  destruct Hcf as [Htb Hsc Hid Hin (i & Hi & Hfree) _ Hcur Hp _ _ _ _ _ _ Hvm Hsp [Hnd Hwf] Hok _ _ _ _].
  destruct Hpl as [Hmem Har Hspc Hob]. destruct (Hmem (v_k s)) as ([c Hc] & _).
  pose proof (slab_proc_fresh _ _ Hc) as Hcn. assert (c ≠ cp) as Hcc by congruence.
  destruct (proc_create_eval "child" cp p c (v_k s)) as (pid & k & Hres & Hcr); [done..|].
  destruct Hres as [(_ & _ & Hall)|(j & Hj & Hpid & Hn & _ & ->)]; [by destruct Hfree; apply Hall|].
  set (k := set_next_pid ((pid + 1) mod PROC_MAX_COUNT) (v_k s)) in *.
  set (k1 := add_proc c (new_proc pid "child" cp k) cp p k) in *.
  set (s1 := set_k (λ _, k1) s).
  destruct (vmmap_clone_spec Har Hspc m mp s1 Hsp) as (m2 & lc & Hm2 & Ecl & Hview & Hlc).
  set (s2 := set_vmaps (insert m2 (Vmmap lc (Some c))) s1).
  set (s3 := set_procvm (insert c (ProcVm (Some m2) (p_brk (proc_vm_of s c)) (p_start_brk (proc_vm_of s c)))) s2).
  assert (m ≠ m2) as Hmm by (intros ->; simpl in Hm2; congruence).
  destruct (fork_areas_spec m m2 lc Hmm Hob (vmm_list mp) [] [] mp (Vmmap lc (Some c)) s3)
    as (s4 & rp & rc & E & Hle & Hon & Hfk & Hvm4); simpl; try done.
  { by rewrite lookup_insert_ne. }
  { by rewrite lookup_insert_eq. }
  exists c, pid, m2, s4, rp, rc. split_and!; try done.
  - rewrite Hpid. unfold candidate. apply Z.mod_pos_bound. pose proof proc_max_bounds. lia.
  - rewrite Hpid. unfold candidate. apply Z.mod_pos_bound. pose proof proc_max_bounds. lia.
  - rewrite Hvm4. simpl. unfold with_list. simpl. 
    rewrite (insert_insert_ne _ m m2), insert_insert_eq by done. done.
  - intros rest. rewrite (bind_step _ _ _ _ _ (lift_Ret _ _ _ _ Hcr)). fold s1.
    assert (cur_map s1 = Ret m s1) as Ecm.
    { unfold cur_map, cur_vm. rewrite bind_unfold, (bind_step _ _ _ _ _ (lift_cur_proc s1 cp Hcur)). msimpl.
      change (proc_vm_of s1 cp) with (proc_vm_of s cp). by rewrite Hvm. }
    rewrite (bind_step _ _ _ _ _ Ecm), (bind_step _ _ _ _ _ Ecl). erewrite bind_step by reflexivity.
    assert (upd_vmmap m2 (λ m, Vmmap (vmm_list m) (Some c)) (set_vmaps (insert m2 (Vmmap lc None)) s1) = Ret () s2) as Eup.
    { rewrite (upd_vmmap_eval m2 (Vmmap lc None)) by (simpl; apply lookup_insert_eq).
      destruct s; unfold s2, set_vmaps; simpl. by rewrite insert_insert_eq. }
    rewrite (bind_step _ _ _ _ _ Eup). erewrite bind_step by reflexivity.
    change (set_procvm _ s2) with s3. assert (vmmap_at m2 s3 = Ret (Vmmap lc (Some c)) s3) as Eat.
    { unfold vmmap_at. simpl. by rewrite lookup_insert_eq. }
    by rewrite (bind_step _ _ _ _ _ Eat), (bind_step _ _ _ _ _ E).
Qed.

(** The steps on the process state: from [k1], with the new process, to
    [fork_k]. *)
Section thread.
Context (c : pptr) (pid : Z) (ct : tid) (stk : Z).
Let k := set_next_pid ((pid + 1) mod PROC_MAX_COUNT) (v_k s).
Let k1 := add_proc c (new_proc pid "child" cp k) cp p k.
Context (Hcn : procs (v_k s) !! c = None) (Hctn : slab_alloc_thread k1 = Some ct) (Hstk : alloc_stack k1 = Some stk).

Let z := newborn pid "child" ct cp k.
Let k0 := add_proc c z cp p k.
Definition cloned (q : option pptr) : kthread :=
  Kthread (context_setup 0 0 0 (Some stk) DEFAULT_STACK_SIZE (Some pd)) (Some stk)
    (kt_retval th) (kt_errno th) q (kt_cancelled th) KT_RUN None.

Lemma clone_ne : c ≠ cp.
Proof. destruct Hcf. congruence. Qed.

Lemma clone_fresh : threads (v_k s) !! ct = None.
Proof. apply (slab_thread_fresh _ _ Hctn). Qed.

Lemma clone_step : kthread_clone t k1 = Ret ct (set_threads (insert ct (cloned None)) k1).
Proof.
  destruct Hcf. unfold kthread_clone, thread_at, proc_at. msimpl. rewrite Hctn. cbn [obind].
  change (threads k1) with (threads (v_k s)). rewrite cf_thread0. cbn [obind]. rewrite cf_ktproc0. cbn [obind].
  simpl. rewrite lookup_insert_eq. cbn [obind]. rewrite Hstk. simpl. rewrite cf_pagedir0.
  destruct cf_awake0 as [-> ->]. done.
Qed.

Lemma owner_step : upd_thread ct (with_ktproc (Some c)) (set_threads (insert ct (cloned None)) k1) =
  Ret () (set_threads (insert ct (cloned (Some c))) k1).
Proof.
  unfold upd_thread. simpl. rewrite lookup_insert_eq. f_equal. apply kst_ext; simpl; try done. by rewrite insert_insert_eq.
Qed.

Lemma link_thread_step :
  upd_proc c (with_threads (λ l, l ++ [ct])) (set_threads (insert ct (cloned (Some c))) k1) =
  Ret () (set_threads (insert ct (cloned (Some c))) k0).
Proof.
  pose proof clone_ne. unfold upd_proc. simpl. rewrite lookup_insert_ne, lookup_insert_eq by done. f_equal.
  unfold k1, k0, z. by apply spawned_eq.
Qed.

Lemma context_step : let k2 := set_threads (insert ct (cloned (Some c))) k0 in
  proc_at c k2 = Ret z k2 ∧ thread_at ct k2 = Ret (cloned (Some c)) k2 ∧
  upd_thread ct (λ t, with_ctx
    (Context (c_func (kt_ctx t)) (c_arg1 (kt_ctx t)) (c_arg2 (kt_ctx t)) (c_kstack (kt_ctx t))
       (c_kstacksz (kt_ctx t)) (p_pagedir z) (Some userland_entry) (Some (fork_esp stk))) t) k2 =
  Ret () (set_threads (insert ct (fork_thread c stk (pt_create_pagedir k) th)) k0).
Proof.
  pose proof clone_ne. unfold proc_at, thread_at, upd_thread. simpl.
  rewrite !lookup_insert_ne, !lookup_insert_eq by done. split_and!; [done..|]. f_equal.
  apply kst_ext; simpl; try done. by rewrite insert_insert_eq.
Qed.

Lemma runnable_step :
  sched_make_runnable ct (set_threads (insert ct (fork_thread c stk (pt_create_pagedir k) th)) k0) =
    Ret () (fork_k pid c ct stk) ∧ proc_at c (fork_k pid c ct stk) = Ret z (fork_k pid c ct stk).
Proof.
  split.
  - rewrite (sched_make_runnable_spec ct (fork_thread c stk (pt_create_pagedir k) th)); [done| |apply lookup_insert_eq|done].
    apply sched_wf_new; [|apply clone_fresh|done|done].
    apply add_proc_sched; [|by apply (cf_queues _ _ _ _ _ _ _ _ _ Hcf)]. apply (sched_wf_ext (v_k s)); try done. apply Hcf.
  - pose proof clone_ne. unfold proc_at. simpl. by rewrite lookup_insert_ne, lookup_insert_eq.
Qed.
End thread.

(** The final state, but for its objects and address spaces. *)
Definition fork_st (regs pid : Z) (c : pptr) (ct : tid) (stk : Z) (m2 : vmid) (s4 : vst) (F : gmap fptr file) : vst :=
  Vst (fork_k pid c ct stk) (mmobjs s4) (pframes s) (alloc_list s) (pinned_list s) (nallocated s)
    (npinned s) (pframe_hash s) (fork_mem pid stk regs) (vmaps s4)
    (<[c := ProcVm (Some m2) (p_brk (proc_vm_of s cp)) (p_start_brk (proc_vm_of s cp))]> (procvm s))
    (pt_unmap_range pd USER_MEM_LOW USER_MEM_HIGH (pts s))
    (set_procfs (insert c (ProcFs (p_files pf) (procfs (v_fs s) !! c ≫= p_cwd))) (set_files (λ _, F) (v_fs s))).

Lemma do_fork_eval regs : regs ≠ 0 →
  ∃ c pid m2 s4 rp rc ct stk F,
    procs (v_k s) !! c = None ∧ pid ∉ pids (v_k s) (proc_list (v_k s)) ∧ 0 <= pid < PROC_MAX_COUNT ∧
    vmaps s !! m2 = None ∧ threads (v_k s) !! ct = None ∧ (∃ k, alloc_stack k = Some stk) ∧ heap_le (mmobjs s) (mmobjs s4) ∧
    Forall3 (forked (mmobjs s) (mmobjs s4)) (vmm_list mp) rp rc ∧
    vmaps s4 = <[m2 := Vmmap rc (Some c)]> (<[m := with_list (λ _, rp) mp]> (vmaps s)) ∧
    (∀ f, F !! f = (λ x, with_frefcount (λ n, n + opens f (p_files pf)) x) <$> files (v_fs s) !! f) ∧
    do_fork regs s = Ret pid (fork_st regs pid c ct stk m2 s4 F).
Proof.
  intros Hr. destruct fork_front as (c & pid & m2 & s4 & rp & rc & Hcn & Hpf & Hpid & Hm2 & Hon & Hle & Hfk & Hv4 & Efr).
  destruct Hcf as [Htb Hsc Hid Hin _ Hq Hcur Hp Hrun Hpd Hct Hth Hkp [Hwc Hst] Hvm _ _ _ _ Hfs Hfil Hnf].
  set (k := set_next_pid ((pid + 1) mod PROC_MAX_COUNT) (v_k s)) in *.
  set (k1 := add_proc c (new_proc pid "child" cp k) cp p k) in *.
  destruct (pl_proc Hpl k1) as (_ & [ct Hctn] & [stk Hstk] & _).
  pose proof (slab_thread_fresh _ _ Hctn) as Hctf. change (threads (v_k s) !! ct = None) in Hctf.
  destruct (fork_files_spec (p_files pf) (v_fs s) Hfil) as (F & EF & HF).
  exists c, pid, m2, s4, rp, rc, ct, stk, F. split_and!; try done; try apply Hpid; [by eexists|].
  unfold do_fork. rewrite (bind_step _ _ _ _ _ (lift_cur_proc s cp Hcur)), (bind_step _ _ _ _ _ (lift_proc_at s cp p Hp)).
  rewrite (proj2 (Z.eqb_neq regs 0)) by done. erewrite bind_step by reflexivity.
  rewrite bool_decide_eq_true_2 by done. erewrite bind_step by reflexivity.
  etrans; [apply Efr|]. cbn beta.
  destruct (context_step c pid ct stk Hcn) as (Epc & Etc & Ectx). destruct (runnable_step c pid ct stk Hcn Hctn) as (Erun & Epc2).
  fold k in Epc, Etc, Ectx, Erun, Epc2.
  unfold fork_st. rewrite Hon. cbn [mmobjs vmaps set_vmaps set_mmobjs].
  assert (cur_thread k1 = Ret t k1) as Ect by (unfold cur_thread; msimpl; simpl; by rewrite Hct).
  lift_step Ect. lift_step (clone_step c pid ct stk Hctn Hstk). lift_step (owner_step c pid ct stk).
  lift_step (link_thread_step c pid ct stk Hcn). lift_step Epc. lift_step Etc.
  erewrite bind_step by reflexivity. cbn [kt_kstack cloned]. erewrite bind_step by reflexivity.
  erewrite bind_step by reflexivity. lift_step Ectx.
  rewrite (bool_decide_eq_true_2 (p_state _ = PROC_RUNNING)) by done. erewrite bind_step by reflexivity.
  rewrite (bool_decide_eq_true_2 (is_Some (p_pagedir _))) by apply (pl_proc Hpl k). erewrite bind_step by reflexivity.
  match goal with |- _ ?st = _ => set (s5 := st) end.
  assert (cur_fs s5 = Ret pf s5) as Ecf.
  { unfold cur_fs. rewrite (bind_step _ _ _ _ _ (lift_cur_proc s5 cp Hcur)). msimpl.
    change (v_fs s5) with (v_fs s). by rewrite Hfs. }
  rewrite (bind_step _ _ _ _ _ Ecf).
  assert (take (Z.to_nat NFILES) (p_files pf) = p_files pf) as -> by (apply take_ge; lia).
  rewrite (bind_step _ _ _ _ _ (EF s5 eq_refl)). erewrite bind_step by reflexivity.
  match goal with |- _ ?st = _ => set (s6 := st) end.
  assert (cur_pagedir s6 = Ret pd s6) as Epd.
  { unfold cur_pagedir. rewrite (bind_step _ _ _ _ _ (lift_cur_proc s6 cp Hcur)).
    rewrite (bind_step _ _ _ _ _ (lift_proc_at s6 cp (with_children (λ l, l ++ [c]) p) (lookup_insert_eq _ _ _))).
    simpl. by rewrite Hpd. }
  rewrite (bind_step _ _ _ _ _ Epd). erewrite bind_step by reflexivity.
  match goal with |- _ ?st = _ => set (s7 := st) end.
  assert (cur_vm s7 = Ret (proc_vm_of s cp) s7) as Evm.
  { unfold cur_vm. rewrite (bind_step _ _ _ _ _ (lift_cur_proc s7 cp Hcur)). msimpl. f_equal.
    unfold proc_vm_of. simpl. by rewrite lookup_insert_ne by (by apply clone_ne). }
  rewrite (bind_step _ _ _ _ _ Evm). erewrite bind_step by reflexivity. lift_step Erun. lift_step Epc2.
  erewrite bind_step by reflexivity. unfold mret, M_ret. f_equal. apply vst_ext; try reflexivity.
  simpl. rewrite insert_insert_eq. f_equal. unfold proc_vm_of. simpl. by rewrite lookup_insert_eq.
Qed.

(** The child [c], its thread [ct] with stack [stk], and their places in the
    tables and in the run queue. *)
Record fork_processes (s' : vst) (pid : Z) (c : pptr) (ct : tid) (stk : Z) : Prop := {
  fp_new : procs (v_k s) !! c = None ∧ threads (v_k s) !! ct = None;
  fp_pid : 0 <= pid < PROC_MAX_COUNT ∧ pid ∉ pids (v_k s) (proc_list (v_k s));
  fp_procs : ∃ cpd, procs (v_k s') = <[cp := with_children (λ l, l ++ [c]) p]>
    (<[c := Proc pid (comm_of "child") [ct] [] (Some cp) 0 PROC_RUNNING (Some cpd)]> (procs (v_k s))) ∧
    threads (v_k s') = <[ct := with_wchan (Some kt_runq) (fork_thread c stk (Some cpd) th)]> (threads (v_k s));
  fp_list : proc_list (v_k s') = proc_list (v_k s) ++ [c];
  fp_runq : qlist (v_k s') kt_runq = ct :: qlist (v_k s) kt_runq;
  fp_current : curproc (v_k s') = Some cp ∧ curthr (v_k s') = Some t;
}.

(** The parent's registers return [pid], the child's 0. *)
Record fork_registers (s' : vst) (pid regs stk : Z) : Prop := {
  fr_parent : mem_read (regs + r_eax) 4 s' = word_bytes pid;
  fr_child : mem_read (fork_esp stk + 8 + r_eax) 4 s' = word_bytes 0;
  fr_same : ∀ i, 0 <= i < sizeof_regs → ¬ (r_eax <= i < r_eax + 4) →
    mem s' (fork_esp stk + 8 + i) = mem s (regs + i) ∧ mem s' (regs + i) = mem s (regs + i);
  fr_rest : ∀ b, ¬ (regs <= b < regs + sizeof_regs) → ¬ (fork_esp stk + 4 <= b < fork_esp stk + 8 + sizeof_regs) →
    mem s' b = mem s b;
}.

(** The address space [m2] of the child, and the parent's. *)
Record fork_spaces (s' : vst) (c : pptr) (m2 : vmid) (mp' mc' : vmmap) : Prop := {
  fs_new : vmaps s !! m2 = None;
  fs_maps : vmaps s' = <[m2 := mc']> (<[m := mp']> (vmaps s));
  fs_procs : vmm_proc mc' = Some c ∧ vmm_proc mp' = vmm_proc mp;
  fs_vm : procvm s' = <[c := ProcVm (Some m2) (p_brk (proc_vm_of s cp)) (p_start_brk (proc_vm_of s cp))]> (procvm s);
  fs_view : ∀ v a, lookup_area v (vmm_list mp) = Some a →
    ∃ a' c', lookup_area v (vmm_list mp') = Some a' ∧ lookup_area v (vmm_list mc') = Some c' ∧
      view a' = view a ∧ view c' = view a ∧
      (∀ r, sees s (vmm_list mp) v r → sees s' (vmm_list mp') v r ∧ sees s' (vmm_list mc') v r) ∧
      (has_flag (vma_flags a) MAP_PRIVATE = true →
       ∃ o1 o2, vma_obj a' = Some o1 ∧ vma_obj c' = Some o2 ∧ o1 ≠ o2 ∧
         mmobjs s !! o1 = None ∧ mmobjs s !! o2 = None);
  fs_flushed : ∀ a, pts s' !! (pd, a) = if decide (USER_MEM_LOW <= a < USER_MEM_HIGH) then None else pts s !! (pd, a);
  fs_frames : pframes s' = pframes s;
}.

(** The descriptors of the child refer to the same open files, each with as
    many more references as it is open. *)
Record fork_descriptors (s' : vst) (c : pptr) : Prop := {
  fd_child : p_files <$> procfs (v_fs s') !! c = Some (p_files pf);
  fd_files : ∀ f, files (v_fs s') !! f =
    (λ x, with_frefcount (λ n, n + opens f (p_files pf)) x) <$> files (v_fs s) !! f;
}.

(** The frame of the child holds the registers, with 0 for the result. *)
Lemma fork_frame_byte regs pid stk i :
  0 <= r_eax → r_eax + 4 <= sizeof_regs → apart regs stk → 0 <= i < sizeof_regs →
  fork_mem pid stk regs (fork_esp stk + 8 + i) = mem_write (regs + r_eax) (word_bytes 0) (mem s) (regs + i).
Proof.
  intros H0 H4 Hap Hi. unfold apart in Hap. unfold fork_mem.
  assert (∀ v, length (word_bytes v) = 4%nat) as Hl by done.
  rewrite mem_write_out by (rewrite Hl; lia). unfold mem_write at 1. rewrite length_fmap, length_seqZ, decide_True by lia.
  rewrite list_lookup_fmap, lookup_seqZ_lt by lia. cbn [fmap option_fmap option_map default from_option].
  rewrite mem_write_out by (rewrite Hl; lia). unfold id. f_equal. lia.
Qed.

Lemma fork_registers_ok regs pid stk s' :
  0 <= r_eax → r_eax + 4 <= sizeof_regs → apart regs stk → mem s' = fork_mem pid stk regs →
  fork_registers s' pid regs stk.
Proof.
  intros H0 H4 Hap Hm. assert (∀ v, length (word_bytes v) = 4%nat) as Hl by done.
  split; unfold mem_read; rewrite ?Hm.
  - unfold fork_mem. apply (mem_write_same _ (word_bytes pid)).
  - rewrite <- (mem_write_same (regs + r_eax) (word_bytes 0) (mem s)) at 1. rewrite Hl.
    apply list_fmap_ext. intros j i Hi%list_elem_of_lookup_2%elem_of_seqZ.
    rewrite <- !Z.add_assoc, (Z.add_assoc (fork_esp stk)), fork_frame_byte by (done || lia). done.
  - intros i Hi Hne. rewrite fork_frame_byte by done. unfold apart in Hap.
    split; [by rewrite mem_write_out by (rewrite Hl; lia)|]. unfold fork_mem.
    rewrite !mem_write_out; try (rewrite ?Hl, ?length_fmap, ?length_seqZ; lia).
  - intros b H1 H2. unfold fork_mem. rewrite !mem_write_out; try (rewrite ?Hl, ?length_fmap, ?length_seqZ; lia).
Qed.

(** The address spaces, by the view of [fork_areas]. *)
Lemma fork_spaces_ok regs pid c ct stk m2 s4 F rp rc :
  vmaps s !! m2 = None → heap_le (mmobjs s) (mmobjs s4) → Forall3 (forked (mmobjs s) (mmobjs s4)) (vmm_list mp) rp rc →
  vmaps s4 = <[m2 := Vmmap rc (Some c)]> (<[m := with_list (λ _, rp) mp]> (vmaps s)) →
  fork_spaces (fork_st regs pid c ct stk m2 s4 F) c m2 (with_list (λ _, rp) mp) (Vmmap rc (Some c)).
Proof.
  intros Hm2 Hle Hfk Hv. split; try done.
  - intros v a Ha. set (s' := fork_st _ _ _ _ _ _ _ _).
    destruct (lookup_forked _ _ _ _ _ _ _ Hfk Ha) as (a' & c' & Ha' & Hc' & Hf).
    destruct Hf as (o & o1 & o2 & Ho & Ho1 & Ho2 & V1 & V2 & Hs1 & Hs2 & Hsep).
    exists a', c'. split_and!; try done.
    + intros r (a0 & o0 & ch & b & Ha0 & Ho0 & Hch & ->). assert (a0 = a) as -> by congruence. assert (o0 = o) as -> by congruence.
      injection V1 as S1 _ F1 _ _. injection V2 as S2 _ F2 _ _. pose proof (cf_frames _ _ _ _ _ _ _ _ _ Hcf) as Hlive.
      destruct (shows_sees s s' (v - vma_start a + vma_off a) o o1 ch b) as (ch1 & Hch1 & Ht1); [done..|].
      destruct (shows_sees s s' (v - vma_start a + vma_off a) o o2 ch b) as (ch2 & Hch2 & Ht2); [done..|].
      split; [exists a', o1, ch1, b|exists c', o2, ch2, b]; split_and!; try done; [rewrite S1, F1|rewrite S2, F2]; done.
    + intros Hp. destruct (Hsep Hp) as (? & ? & ?). by exists o1, o2.
  - intros a. simpl. rewrite pt_unmap_range_spec. case_decide; case_decide; tauto.
Qed.
End fork.

(** C3. fork.  With memory and a free process identifier, [do_fork] returns
    the identifier of a new child, which is in the process table and among
    the children of the caller; the child has one thread, which is in the run
    queue and starts in user mode with a copy of the caller's registers, in
    which the result is 0, while the result of the caller is the identifier;
    both see the same page at every address, private mappings through
    different new objects, and the caller's page table has no entry left for
    user memory, so that it faults before it writes a page both see; and the
    child has the open files of the caller, each with as many more references
    as descriptors. *)
Theorem do_fork_forks {VE : VmEnv} {FE : VfsEnv} {MA : Machine} {ER : Errno} {OB : Objects} {NE : NameEnv}
  {FT : FileTable} {ME : MapEnv} {PE : ProcEnv} {FO : ForkEnv} {RI : RefIface mm_ops}
  s cp p pd t th m mp pf regs :
  can_fork s cp p pd t th m mp pf → plenty → regs ≠ 0 →
  0 <= r_eax → r_eax + 4 <= sizeof_regs → (∀ k stk, alloc_stack k = Some stk → apart regs stk) →
  ∃ s' pid c ct stk m2 mp' mc', do_fork regs s = Ret pid s' ∧
    fork_processes s cp p t th s' pid c ct stk ∧ fork_registers s s' pid regs stk ∧
    fork_spaces s cp pd m mp s' c m2 mp' mc' ∧ fork_descriptors s pf s' c.
Proof.
  intros Hcf Hpl Hr H0 H4 Hap.
  destruct (do_fork_eval s cp p pd t th m mp pf Hcf Hpl regs Hr)
    as (c & pid & m2 & s4 & rp & rc & ct & stk & F & Hcn & Hpn & Hpid & Hm2 & Hctn & [k Hk] & Hle & Hfk & Hv & HF & E).
  eexists _, pid, c, ct, stk, m2, _, _. split; [exact E|]. split; [|split; [|split]].
  - destruct (pl_proc Hpl (set_next_pid ((pid + 1) mod PROC_MAX_COUNT) (v_k s))) as (_ & _ & _ & [cpd Hcpd]).
    split; try done.
    + exists cpd. simpl. unfold newborn. rewrite Hcpd. split; [done|]. by rewrite insert_insert_eq.
    + cbn [v_k fork_st]. unfold fork_k, spawned. rewrite qlist_move, decide_True by done. simpl. f_equal.
      match goal with |- filter _ ?l = _ => assert (l = qlist (v_k s) kt_runq) as ->
        by (unfold qlist, queue; simpl; by rewrite lookup_insert_ne) end.
      apply filter_absent. intros Hin. destruct (wf_dom _ (wf_queues _ (cf_sched _ _ _ _ _ _ _ _ _ Hcf)) _ _ Hin). congruence.
    + split; apply Hcf.
  - by eapply fork_registers_ok; eauto.
  - by eapply fork_spaces_ok.
  - split; [|done]. simpl. by rewrite lookup_insert_eq.
Qed.
