(* ===== verification/MapProps.v ===== *)
(** * Mapping and unmapping

    Mapping memory and unmapping it again leaves nothing behind. *)

From S2P Require Import Prelude Kstate Sched Kmutex Proc Vmstate Pframe Mmobj Vmmap Areas VmmapProps.
From S2P Require Import ShadowProps ObjProps Vnode Namev Vfs VmSys VmSysProps.
Local Open Scope Z_scope.

Lemma insert_sorted_split a l : ∃ pre post, l = pre ++ post ∧ insert_sorted a l = pre ++ a :: post.
Proof.
  induction l as [|b l (pre & post & -> & IH)]; [by exists [], []|]. simpl. case_match.
  - by exists [], (b :: pre ++ post).
  - exists (b :: pre), post. by rewrite IH.
Qed.

(** Objects know only areas that exist. *)
Definition vmas_live (s : vst) : Prop := ∀ o x l a,
  mmobjs s !! o = Some x → mmo_un x = mmo_vmas l → a ∈ l → ∃ v, v ∈ areas_of s ∧ vma_id v = a.

Lemma unlink_new s a :
  vmas_live s → (∀ v, v ∈ areas_of s → vma_id v ≠ a) →
  (λ x, with_un (unlink_area (mmo_un x) a) x) <$> mmobjs s = mmobjs s.
Proof.
  intros Hl Hnew. rewrite <- (map_fmap_id (mmobjs s)) at 2. apply map_fmap_ext. intros o x Hx. simpl.
  destruct (mmo_un x) as [l|b] eqn:Hu; [|by destruct x; simpl in *; subst].
  simpl. rewrite filter_absent; [by destruct x; simpl in *; subst|].
  intros Ha. destruct (Hl o x l a Hx Hu Ha) as (v & Hv & Hid). by apply (Hnew v).
Qed.

Section map.
Context {VE : VmEnv} {MA : Machine} {ER : Errno} (vn : vtable) (k : nat).
Local Abbreviation table := (mmobj_table vn (S (S k))).

(** An object with one reference and without pages. *)
Definition unused (k : ops_kind) (sh : option optr) (x : mmobj) : Prop :=
  mmo_ops x = k ∧ mmo_refcount x = 1 ∧ mmo_nrespages x = 0 ∧ mmo_respages x = [] ∧ mmo_shadowed x = sh.

Lemma shadow_unused u o b : unused shadow_mmobj_ops (Some o) (with_un u (shadow_over o b)).
Proof.
  destruct (mmobj_init_empty shadow_mmobj_ops) as [Hn Hr]. unfold unused. simpl. by rewrite mmobj_init_ops, Hn, Hr.
Qed.

Lemma anon_unused u a : unused anon_mmobj_ops None (with_un u (anon_for a)).
Proof.
  destruct (mmobj_init_empty anon_mmobj_ops) as [Hn Hr]. unfold unused. simpl.
  by rewrite mmobj_init_ops, Hn, Hr, mmobj_init_shadowed.
Qed.

Lemma put_new_anon j o x s :
  mmobjs s !! o = Some x → unused anon_mmobj_ops None x →
  o_put (mmobj_table vn (S j)) o s = Ret () (set_mmobjs (delete o) s).
Proof.
  intros Hx (Hk & Hr & Hn & Hp & _). cbn [mmobj_table dispatch o_put].
  rewrite (bind_step _ _ _ _ _ (mmobj_at_eval _ _ _ Hx)), Hk.
  unfold anon_put. rewrite (bind_step _ _ _ _ _ (mmobj_at_eval _ _ _ Hx)), Hk, Hr, Hn, Hp.
  rewrite bind_assert by done. change (negb (1 =? 0 + 1)) with false. cbn iota. by erewrite bind_step by reflexivity.
Qed.

(** The last reference to a new shadow object over a new anonymous one. *)
Lemma put_new o sh x y s :
  mmobjs s !! sh = Some x → unused shadow_mmobj_ops (Some o) x → mmobjs s !! o = Some y → unused anon_mmobj_ops None y →
  o_put table sh s = Ret () (set_mmobjs (λ h, delete sh (delete o h)) s).
Proof.
  intros Hx (Hk & Hr & Hn & Hp & Hs) Hy Hu. cbn [mmobj_table dispatch o_put].
  rewrite (bind_step _ _ _ _ _ (mmobj_at_eval _ _ _ Hx)), Hk.
  unfold shadow_put. rewrite (bind_step _ _ _ _ _ (mmobj_at_eval _ _ _ Hx)), Hk, Hr, Hn, Hp.
  rewrite bind_assert by done. change (negb (1 =? 0 + 1)) with false. cbn iota. erewrite bind_step by reflexivity.
  rewrite (bind_step _ _ _ _ _ (mmobj_at_eval _ _ _ Hx)), Hs. erewrite bind_step by reflexivity.
  by rewrite (bind_step _ _ _ _ _ (put_new_anon k o y s Hy Hu)).
Qed.

(** Releasing the area of a new mapping. *)
Lemma release_new s s1 m mp lo n prot flags off area o sh :
  mapped_anon s s1 m mp lo n prot flags off area o sh → vmaps s !! m = Some mp → vmas_live s →
  (∀ v, v ∈ areas_of s → vma_id v ≠ vma_id area) →
  release_area table m area s1 = Ret () (set_mmobjs (λ _, mmobjs s) (set_vmaps (λ _, vmaps s) s1)).
Proof.
  intros Hma Hm Hl Hnew. destruct (ma_new _ _ _ _ _ _ _ _ _ _ _ _ Hma) as (Hno & Hnsh & Hne).
  destruct (ma_area _ _ _ _ _ _ _ _ _ _ _ _ Hma) as (_ & _ & _ & _ & _ & Hobj).
  unfold release_area, vma_olink_remove, vma_plink_remove. erewrite bind_step by reflexivity.
  set (s2 := set_mmobjs _ s1).
  assert (vmaps s2 !! m = Some (with_list (insert_sorted area) mp)) as Hm2.
  { simpl. rewrite (ma_vmaps _ _ _ _ _ _ _ _ _ _ _ _ Hma). apply lookup_insert_eq. }
  rewrite (bind_step _ _ _ _ _ (upd_vmmap_eval _ _ _ _ Hm2)), Hobj. erewrite bind_step by reflexivity.
  erewrite (put_new o sh);
    [|simpl; by rewrite lookup_fmap, (ma_shadow _ _ _ _ _ _ _ _ _ _ _ _ Hma)|apply shadow_unused
     |simpl; by rewrite lookup_fmap, (ma_anon _ _ _ _ _ _ _ _ _ _ _ _ Hma)|apply anon_unused].
  f_equal. unfold s2, set_mmobjs, set_vmaps. simpl. f_equal.
  - rewrite <- (unlink_new s (vma_id area)) by done. apply map_eq. intros p.
    destruct (decide (p = sh)) as [->|Hps]; [by rewrite lookup_delete_eq, lookup_fmap, Hnsh|].
    rewrite lookup_delete_ne by done. destruct (decide (p = o)) as [->|Hpo]; [by rewrite lookup_delete_eq, lookup_fmap, Hno|].
    rewrite lookup_delete_ne, !lookup_fmap by done. by rewrite (ma_others _ _ _ _ _ _ _ _ _ _ _ _ Hma).
  - rewrite (ma_vmaps _ _ _ _ _ _ _ _ _ _ _ _ Hma), insert_insert_eq. apply insert_id. rewrite Hm. f_equal.
    destruct mp as [l p]. unfold with_list. simpl in *. f_equal. destruct (insert_sorted_split area l) as (pre & post & -> & ->).
    assert (vma_id area ∉ ids (pre ++ post)) as Hni.
    { intros (v & Hid & Hv)%list_elem_of_fmap. apply (Hnew v); [|done]. apply elem_of_areas. eauto. }
    unfold ids in Hni. rewrite fmap_app, elem_of_app in Hni.
    rewrite filter_app, filter_cons_False by naive_solver. rewrite !filter_area_other by (unfold ids; tauto). done.
Qed.

Lemma mapped_anon_pts s s1 m mp lo n prot flags off area o sh f :
  mapped_anon s s1 m mp lo n prot flags off area o sh → mapped_anon s (set_pts f s1) m mp lo n prot flags off area o sh.
Proof. intros [? ? ? ? ? ? ? ? ? ? ?]. by split. Qed.

(** Removing the pages of a new mapping. *)
Lemma remove_new s s1 m mp lo n prot flags off area o sh cp p pd :
  mapped_anon s s1 m mp lo n prot flags off area o sh → vmaps s !! m = Some mp → vmas_live s →
  (∀ v, v ∈ areas_of s → vma_id v ≠ vma_id area) →
  areas_wf (vmm_list mp) → 0 < n → fits n PN_LOW PN_HIGH (vmm_list mp) lo →
  curproc (v_k s) = Some cp → procs (v_k s) !! cp = Some p → p_pagedir p = Some pd →
  vmmap_remove table m lo n s1 =
    Ret 0 (set_pts (pt_unmap_range pd (PN_TO_ADDR lo) (PN_TO_ADDR (lo + n)))
      (set_mmobjs (λ _, mmobjs s) (set_vmaps (λ _, vmaps s) s1))).
Proof.
  intros Hma Hm Hl Hnew Hwf Hn (F1 & F2 & F3) Hcp Hp Hpd. pose proof pn_bounds as Hb.
  destruct (ma_area _ _ _ _ _ _ _ _ _ _ _ _ Hma) as (Ha1 & Ha2 & _).
  assert (v_k s1 = v_k s) as Hk by apply (f_equal fst (ma_kept _ _ _ _ _ _ _ _ _ _ _ _ Hma)).
  unfold vmmap_remove. rewrite u32_small by lia.
  erewrite bind_step by (eapply vmmap_at_eq; rewrite (ma_vmaps _ _ _ _ _ _ _ _ _ _ _ _ Hma); apply lookup_insert_eq).
  cbn [vmm_list with_list]. destruct (insert_sorted_split area (vmm_list mp)) as (pre & post & Hl1 & Hl2). rewrite Hl2.
  assert (∀ l, (∀ a, a ∈ l → a ∈ vmm_list mp) → Forall (λ a, vma_start a < vma_end a) l ∧ Forall (apart lo (lo + n)) l) as Hap.
  { intros l Hin. split; apply Forall_forall; intros a Ha; [destruct (areas_in_elem _ _ _ a Hwf (Hin a Ha)); lia|].
    unfold apart. destruct (F3 a (Hin a Ha)); lia. }
  destruct (Hap pre) as [Hp1 Hp2]; [rewrite Hl1; set_solver|]. destruct (Hap post) as [Hq1 Hq2]; [rewrite Hl1; set_solver|].
  erewrite bind_step.
  2:{ rewrite remove_areas_skip by (done || lia). cbn [remove_areas]. unfold remove_from_area. rewrite Ha1, Ha2.
      replace (lo <? lo) with false by lia. replace (lo + n <=? lo + n) with true by lia.
      rewrite (bind_step _ _ _ _ _ (release_new _ _ _ _ _ _ _ _ _ _ _ _ Hma Hm Hl Hnew)).
      rewrite <- (app_nil_r post), remove_areas_skip by (done || lia). reflexivity. }
  erewrite bind_step by (apply lift_cur_proc; simpl; rewrite Hk; done).
  erewrite bind_step by (apply lift_proc_at; simpl; rewrite Hk; done). by rewrite Hpd.
Qed.
End map.

Section syscalls.
Context {VE : VmEnv} {FE : VfsEnv} {MA : Machine} {ER : Errno} {OB : Objects} {NE : NameEnv}
  {FT : FileTable} {ME : MapEnv}.

(** [do_mmap] where nothing is mapped. *)
Lemma do_mmap_free s cp p pd m mp addr len prot flags fd off :
  let lo := ADDR_TO_PN addr in
  let n := pages_below len in
  curproc (v_k s) = Some cp → procs (v_k s) !! cp = Some p → p_pagedir p = Some pd → map_of s cp m mp →
  areas_wf (vmm_list mp) → fits n PN_LOW PN_HIGH (vmm_list mp) lo → fixed_private_anon flags → PAGE_ALIGNED off = true →
  0 < len → USER_MEM_LOW <= addr → addr + len <= USER_MEM_HIGH →
  (∀ t, is_Some (slab_alloc_vmarea t)) → (∀ q t, is_Some (slab_alloc_mmobj q t)) →
  ∃ s1 area o sh, mapped_anon s s1 m mp lo n prot flags off area o sh ∧ pts s1 = pts s ∧
    (∀ v, v ∈ areas_of s → vma_id v ≠ vma_id area) ∧
    do_mmap addr len prot flags fd off s = Ret (0, Some (PN_TO_ADDR lo))
      (set_pts (pt_unmap_range pd (PN_TO_ADDR lo) (u32 (PN_TO_ADDR lo + PAGE_ALIGN_UP len))) s1).
Proof.
  intros lo n Hcp Hp Hpd [Hpm Hm] Hwf Hfit Hfl Hoff Hlen Hlow Hhi Hall1 Hall2. pose proof user_mem_bounds as Hb.
  pose proof pn_bounds as Hpn. destruct (fixed_pages addr len Hlow Hlen Hhi) as (Hlo & Hn & Hend). fold lo n in Hlo, Hn, Hend.
  destruct (Hall1 s) as [ar Har].
  assert (Z.land flags MAP_PRIVATE ≠ 0) as Hpriv.
  { destruct Hfl as (_ & Hf & _). unfold has_flag in Hf. by destruct (Z.eqb_spec (Z.land flags MAP_PRIVATE) 0). }
  destruct (map_anon_spec m mp lo n prot flags off ar s) as (s1 & area & o & sh & E & Hid & Hpts & Hma); [done..|].
  exists s1, area, o, sh. split_and!; try done.
  { intros v (m' & mp' & Hm' & Hv)%elem_of_areas. rewrite Hid. by eapply vmarea_fresh. }
  rewrite do_mmap_fixed_eq by (done || (rewrite ?u32_small; lia)). fold lo n.
  rewrite (bind_step _ _ _ _ _ (cur_map_eq _ _ _ _ Hcp (conj Hpm Hm))).
  rewrite (bind_step _ _ _ (0, Some area) s1).
  - unfold do_mmap_end. change (0 <? 0) with false. cbn beta iota. erewrite bind_step by reflexivity.
    assert (v_k s1 = v_k s) as Hk by apply (f_equal fst (ma_kept _ _ _ _ _ _ _ _ _ _ _ _ Hma)).
    destruct (ma_area _ _ _ _ _ _ _ _ _ _ _ _ Hma) as (-> & _). unfold cur_pagedir. rewrite bind_unfold.
    erewrite bind_step by (apply lift_cur_proc; by rewrite Hk). erewrite bind_step by (apply lift_proc_at; by rewrite Hk).
    by rewrite Hpd.
  - rewrite (vmmap_map_anon_eq mm_ops m lo n prot flags off _ ar) by (done || (right; lia)).
    replace (lo =? 0) with false by lia. cbn [negb].
    erewrite bind_step; [by replace (lo =? -1) with false by lia|].
    erewrite bind_step by (by apply (is_range_empty_eq m mp)). rewrite decide_True; [done|].
    apply Forall_forall. intros a Ha. destruct Hfit as (_ & _ & Hf). unfold apart. destruct (Hf a Ha); lia.
Qed.

(** The bounds of the pages of a range. *)
Lemma fixed_bounds addr len :
  let lo := ADDR_TO_PN addr in
  let n := pages_below len in
  0 < len → USER_MEM_LOW <= addr → addr + len <= USER_MEM_HIGH →
  PN_TO_ADDR lo = lo * 4096 ∧ USER_MEM_LOW <= lo * 4096 <= addr ∧ ADDR_TO_PN (lo * 4096) = lo ∧
  PN_TO_ADDR (lo + n) = (lo + n) * 4096 ∧ u32 (lo * 4096 + PAGE_ALIGN_UP len) = (lo + n) * 4096.
Proof.
  intros lo n Hlen Hlow Hhi. pose proof user_mem_bounds as Hb. pose proof pn_bounds as Hpn.
  pose proof user_mem_aligned as [HL HH].
  destruct (fixed_pages addr len Hlow Hlen Hhi) as (Hlo & Hn & Hend). fold lo n in Hlo, Hn, Hend.
  assert (PAGE_ALIGN_UP len = n * 4096) as ->.
  { rewrite page_align_up_pages; [done|]. unfold PAGE_SIZE. change (2 ^ 12) with 4096 in *.
    Z.to_euclidean_division_equations. lia. }
  unfold PN_TO_ADDR. rewrite !Z.shiftl_mul_pow2 by lia. rewrite !u32_small by lia.
  assert (USER_MEM_LOW <= lo * 4096 <= addr ∧ ADDR_TO_PN (lo * 4096) = lo) as [? ?].
  { unfold PN_LOW, lo, ADDR_TO_PN in *. rewrite !Z.shiftr_div_pow2 in * by lia. change (2 ^ 12) with 4096 in *.
    Z.to_euclidean_division_equations. lia. }
  change (2 ^ 12) with 4096. split_and!; lia.
Qed.

Lemma do_munmap_new vn k s s1 cp p pd m mp addr len prot flags off area o sh :
  let lo := ADDR_TO_PN addr in
  let n := pages_below len in
  mm_ops = mmobj_table vn (S (S k)) → mapped_anon s s1 m mp lo n prot flags off area o sh →
  curproc (v_k s) = Some cp → procs (v_k s) !! cp = Some p → p_pagedir p = Some pd → map_of s cp m mp →
  areas_wf (vmm_list mp) → vmas_live s → (∀ v, v ∈ areas_of s → vma_id v ≠ vma_id area) →
  fits n PN_LOW PN_HIGH (vmm_list mp) lo → 0 < len → USER_MEM_LOW <= addr → addr + len <= USER_MEM_HIGH →
  do_munmap (PN_TO_ADDR lo) len s1 =
    Ret 0 (set_pts (pt_unmap_range pd (PN_TO_ADDR lo) (PN_TO_ADDR (lo + n)))
      (set_mmobjs (λ _, mmobjs s) (set_vmaps (λ _, vmaps s) s1))).
Proof.
  intros lo n Hops Hma Hcp Hp Hpd [Hpm Hm] Hwf Hlive Hnew Hfit Hlen Hlow Hhi. pose proof user_mem_bounds as Hb.
  destruct (fixed_bounds addr len Hlen Hlow Hhi) as (A1 & A2 & A3 & _). fold lo in A1, A2, A3.
  destruct (fixed_pages addr len Hlow Hlen Hhi) as (_ & Hn & _). fold n in Hn.
  assert (kpart s1 = kpart s) as Hk by apply Hma. unfold kpart in Hk. injection Hk as Hk1 Hk2.
  unfold do_munmap. rewrite A1, A3, (u32_small (lo * 4096 + len)) by lia. fold n.
  replace ((len <=? 0) || (USER_MEM_HIGH - USER_MEM_LOW <? len) || (USER_MEM_HIGH <? lo * 4096 + len)
    || (lo * 4096 <? USER_MEM_LOW)) with false by lia.
  erewrite bind_step.
  2:{ eapply (cur_map_eq s1 cp m (with_list (insert_sorted area) mp)); [by rewrite Hk1|]. unfold map_of, proc_vm_of in *.
      rewrite Hk2, (ma_vmaps _ _ _ _ _ _ _ _ _ _ _ _ Hma). by rewrite lookup_insert_eq. }
  rewrite Hops. erewrite bind_step by (by eapply remove_new). change (0 <? 0) with false. by rewrite A1.
Qed.

(** C17. Unmapping undoes mapping: [do_mmap] of private anonymous memory at a
    place where nothing is mapped, followed by [do_munmap] of the same range,
    both succeed and leave exactly the address spaces, memory objects, page
    frames, processes and files there were before; only the translations of
    the range are gone from the page table. *)
Theorem mmap_munmap_roundtrip vn k s cp p pd m mp addr len prot flags fd off :
  let lo := ADDR_TO_PN addr in
  let n := pages_below len in
  mm_ops = mmobj_table vn (S (S k)) →
  curproc (v_k s) = Some cp → procs (v_k s) !! cp = Some p → p_pagedir p = Some pd → map_of s cp m mp →
  areas_wf (vmm_list mp) → vmas_live s → fits n PN_LOW PN_HIGH (vmm_list mp) lo →
  fixed_private_anon flags → PAGE_ALIGNED off = true →
  0 < len → USER_MEM_LOW <= addr → addr + len <= USER_MEM_HIGH →
  (∀ t, is_Some (slab_alloc_vmarea t)) → (∀ q t, is_Some (slab_alloc_mmobj q t)) →
  ∃ s1 s2 a, do_mmap addr len prot flags fd off s = Ret (0, Some a) s1 ∧ do_munmap a len s1 = Ret 0 s2 ∧
    vmaps s2 = vmaps s ∧ mmobjs s2 = mmobjs s ∧ pframes s2 = pframes s ∧ kpart s2 = kpart s ∧ v_fs s2 = v_fs s ∧
    ∀ q v, pts s2 !! (q, v) = if decide (q = pd ∧ PN_TO_ADDR lo <= v < PN_TO_ADDR (lo + n)) then None else pts s !! (q, v).
Proof.
  intros lo n Hops Hcp Hp Hpd Hmap Hwf Hlive Hfit Hfl Hoff Hlen Hlow Hhi Hall1 Hall2.
  destruct (do_mmap_free s cp p pd m mp addr len prot flags fd off)
    as (s1 & area & o & sh & Hma & Hpts & Hnew & E); [done..|]. fold lo n in Hma, E.
  destruct (fixed_bounds addr len Hlen Hlow Hhi) as (A1 & _ & _ & A4 & A5). fold lo n in A1, A4, A5.
  eexists _, _, _. split; [exact E|]. split.
  { eapply (do_munmap_new vn k s _ cp p pd m mp addr len prot flags off area o sh); [done|by apply mapped_anon_pts|done..]. }
  destruct (ma_frames _ _ _ _ _ _ _ _ _ _ _ _ Hma) as (Hf1 & _ & Hf2). split_and!; try done; [apply (ma_kept _ _ _ _ _ _ _ _ _ _ _ _ Hma)|].
  intros q v. simpl. rewrite !pt_unmap_range_spec. fold lo n. rewrite A1, A4, A5, Hpts. by repeat case_decide.
Qed.
End syscalls.
