(* ===== verification/VmExample.v ===== *)
(** * Address spaces in use

    Small states in which the theorems about virtual memory system calls,
    shadow objects, page faults and fork apply. *)

From S2P Require Import Prelude Kstate Sched Kmutex Proc ProcTree ProcProps Vmstate Pframe Mmobj Vmmap Areas VmmapProps.
From S2P Require Import ShadowProps ObjProps Vnode Namev Vfs VmSys VmSysProps FaultProps ForkProps ForkProc MapProps FsExample.
Local Open Scope Z_scope.

Module VmEx.
#[local] Existing Instance VmmapEx.env.
#[local] Existing Instance VmmapEx.quiet.
#[local] Existing Instance some_errno.
#[local] Existing Instance FsEx.vfs_env.
#[local] Existing Instance FsEx.names.

#[local] Instance maps : MapEnv.
Proof.
  refine {| MAP_FIXED := 4; MAP_ANON := 8; PROT_READ := 1; PROT_WRITE := 2; PROT_EXEC := 4;
    FAULT_WRITE := 2; FAULT_EXEC := 16; PD_PRESENT := 1; PD_WRITE := 2; PD_USER := 4;
    PT_PRESENT := 1; PT_WRITE := 2; PT_USER := 4; pt_virt_to_phys := λ a, a;
    pt_map := λ pd va pa _ f t, (0, <[(pd, va) := (pa, f)]> t); kmalloc := λ _ _, Some 65536 |}.
  - exists 0, 1, 2. split_and!; try done. by_computation.
  - intros pd va pa f g t r t' [= <- <-]. by left.
Defined.

(** Areas of pages 1024 to 1029 and 1040 to 1049, readable and writable; the
    break is at the end of the first one. *)
Section spaces.
#[local] Instance objs : Objects := {| mm_ops := mmobj_table VmmapEx.plain 4; wait_fuel := 0 |}.
#[local] Instance objs_iface : ObjIface mm_ops := table_iface VmmapEx.plain 4.
#[local] Existing Instance FsEx.file_table.

Definition sbrk0 (brk : Z) : vst :=
  set_procvm (insert 12%positive (ProcVm (Some 1%positive) brk 4194304)) VmmapEx.st1.
Definition mp0 : vmmap := Vmmap VmmapEx.areas1 (Some 12%positive).

Lemma map_of0 brk : map_of (sbrk0 brk) 12 1 mp0.
Proof. done. Qed.

Lemma objects0 brk o x : mmobjs (sbrk0 brk) !! o = Some x →
  o = 5%positive ∧ x = Mmobj shadow_mmobj_ops 2 0 [] (mmo_bottom_obj 6%positive) (Some 6%positive) ∨
  o = 6%positive ∧ x = Mmobj anon_mmobj_ops 1 0 [] (mmo_vmas []) None.
Proof. apply ObjEx.two_entries. Qed.

Lemma chain0 brk : chain (mmobjs (sbrk0 brk)) 5 [5%positive] 6.
Proof. eapply chain_shadow; [done|done|]. by eapply chain_bottom. Qed.

Lemma space_inv0 brk : space_inv 4 (sbrk0 brk).
Proof.
  assert (∀ m mp, vmaps (sbrk0 brk) !! m = Some mp → m = 1%positive ∧ mp = mp0) as Hm.
  { intros m mp Hm. change (vmaps (sbrk0 brk)) with ({[1%positive := mp0]} : gmap vmid vmmap) in Hm.
    by apply lookup_singleton_Some in Hm as [<- <-]. }
  assert (∀ v, v ∈ VmmapEx.areas1 → vma_vmmap v = Some 1%positive ∧ vma_obj v = Some 5%positive) as Hl.
  { intros v [->|[->|[]%elem_of_nil]%elem_of_cons]%elem_of_cons; done. }
  split; [split|].
  - split; [by intros o n pf (y & Hy & _)|done|by intros o n pf pf' (y & Hy & _)].
  - intros v (m & mp & [-> ->]%Hm & [Hv Ho]%Hl)%elem_of_areas. split.
    + exists 1%positive, mp0. split_and!; [done|done|]. intros p [= <-]. exists VmmapEx.proc1. split; [done|by eexists].
    + eexists 5%positive, _. split_and!; [done|done|set_solver|by intros []].
  - intros m mp [-> ->]%Hm. by_computation.
  - intros o x [[-> ->]|[-> ->]]%objects0 _ _; (split; [reflexivity|by_computation|done|by constructor|by intros ? ?%elem_of_nil|]).
    + eexists 6%positive, _, [5%positive], 6%positive. split_and!; [done|done|set_solver|by intros []|apply chain0|done].
    + split; [done|]. exists []. split; [done|]. by intros ? ?%elem_of_nil.
  - done.
  - done.
  - intros o x [[-> ->]|[-> ->]]%objects0; by intros [].
  - intros m mp v [-> ->]%Hm Hv. by apply Hl.
  - intros o l b Hc. unfold deep_enough. assert (length l ≤ 1)%nat; [|lia].
    inversion Hc as [|? x next l2 ? Hx Hs Hc2]; subst; simpl; [lia|].
    apply objects0 in Hx as [[-> ->]|[-> ->]]; [|done]. injection Hs as <-.
    inversion Hc2 as [|? x next l3 ? Hx Hs Hc3]; subst; simpl; [lia|].
    apply objects0 in Hx as [[? ->]|[_ ->]]; done.
Qed.

Lemma space0 brk : cur_space (sbrk0 brk) 12 8192 1 mp0.
Proof.
  split; [apply space_inv0|done|by exists VmmapEx.proc1|done|by_computation|by_computation|by_computation].
Qed.

(** 5000 bytes from a page boundary on; a range that ends on page 1030. *)
Lemma range_perm_exact_witness :
  ∃ r, range_perm 12 4194304 5000 PROT_WRITE (sbrk0 0) = Ret r (sbrk0 0) ∧
    (r = 1 ↔ ∀ b, 4194304 <= b < 4199304 → allowed VmmapEx.areas1 PROT_WRITE b = true).
Proof.
  destruct (range_perm_exact (sbrk0 0) 12 1 mp0 PROT_WRITE 4194304 5000) as (r & E & _ & Hr);
    [done|by_computation|by_computation|done|done|done|done|by exists r].
Defined.

Lemma range_perm_unchecked_witness :
  range_perm 12 4218000 1000 PROT_READ (sbrk0 0) = Ret 1 (sbrk0 0) ∧
  allowed VmmapEx.areas1 PROT_READ 4218999 = false.
Proof.
  split; [|done]. apply (range_perm_unchecked (sbrk0 0) 12 1 mp0 PROT_READ 4218000 1000);
    [done|by_computation|by_computation|done|done|]. right. split_and!; [done|done|].
  intros b Hb. change (PAGE_ALIGN_DOWN (4218000 + 1000 - 1)) with 4218880 in Hb. unfold allowed.
  replace (ADDR_TO_PN b) with 1029; [done|]. unfold ADDR_TO_PN. rewrite Z.shiftr_div_pow2 by lia.
  change (2 ^ 12) with 4096. Z.to_euclidean_division_equations. lia.
Defined.

Lemma do_brk_grows_witness :
  ∃ s', do_brk 4231000 (sbrk0 4218880) = Ret (0, Some 4231000) s' ∧
    procvm s' = {[12%positive := ProcVm (Some 1%positive) 4231000 4194304]}.
Proof.
  destruct (do_brk_grows (sbrk0 4218880) 12 1 mp0 (VmmapEx.area 1 1024 1030 5) 4231000)
    as (s' & mp' & E & _ & Hp & _); try first [done|by_computation|by exists s'].
Defined.

Lemma do_brk_shrinks_witness :
  ∃ s', do_brk 4200000 (sbrk0 4218880) = Ret (0, Some 4200000) s' ∧ v_k s' = VmmapEx.k0.
Proof.
  destruct (do_brk_shrinks (sbrk0 4218880) 12 8192 1 mp0 4200000) as (s' & E & Hk & _);
    [apply space0|done|done|done|by_computation|by exists s'].
Defined.

Lemma do_munmap_unmaps_witness :
  ∃ s', do_munmap 4214784 8192 (sbrk0 0) = Ret 0 s' ∧ kpart s' = kpart (sbrk0 0).
Proof.
  destruct (do_munmap_unmaps (sbrk0 0) 12 8192 1 mp0 4214784 8192) as (s' & E & Hk & _);
    [apply space0|done|done|done|by_computation|by exists s'].
Defined.


(** Two pages behind the first area. *)
Lemma mmap_munmap_roundtrip_witness :
  ∃ s1 s2 a, do_mmap 4218880 8192 3 14 0 0 (sbrk0 0) = Ret (0, Some a) s1 ∧ do_munmap a 8192 s1 = Ret 0 s2 ∧
    mmobjs s2 = mmobjs (sbrk0 0).
Proof.
  destruct (mmap_munmap_roundtrip VmmapEx.plain 2 (sbrk0 0) 12 VmmapEx.proc1 8192 1 mp0 4218880 8192 3 14 0 0)
    as (s1 & s2 & a & E1 & E2 & _ & Ho & _); try done; [| |by exists s1, s2, a].
  - intros o x l b [[-> ->]|[-> ->]]%objects0 Hu Hb; simpl in Hu; simplify_eq. by apply elem_of_nil in Hb.
  - split_and!; [by_computation|by_computation|]. intros b Hb.
    repeat (apply elem_of_cons in Hb as [->|Hb]; [by_computation|]). by apply elem_of_nil in Hb.
Defined.
End spaces.

(** Object 5 shadows object 6, whose page 0 is in frame 1 at address 8192. *)
Definition cow0 : vst :=
  set_hash (insert 6 [1%positive])
    (set_pframes (insert 1%positive (Pframe 8192 (Some 6%positive) 0 false false 0)) (sbrk0 0)).

Lemma cow_resident o n pf : resident cow0 o n pf → o = 6%positive ∧ n = 0 ∧ pf = 1%positive.
Proof.
  intros (x & Hx & Ho & Hn). change (pframes cow0) with ({[1%positive := Pframe 8192 (Some 6%positive) 0 false false 0]}
    : gmap pfptr pframe) in Hx. apply lookup_singleton_Some in Hx as [<- <-]. simpl in *. by simplify_eq.
Qed.

Lemma cow_inv : cache_inv cow0.
Proof.
  split.
  - intros o n pf (-> & -> & ->)%cow_resident. by left.
  - intros h l pf Hl Hpf. change (pframe_hash cow0) with ({[6 := [1%positive]]} : gmap Z (list pfptr)) in Hl.
    apply lookup_singleton_Some in Hl as [<- <-]. apply list_elem_of_singleton in Hpf as ->. by eexists.
  - intros o n pf pf' (_ & _ & ->)%cow_resident (_ & _ & ->)%cow_resident. done.
Qed.

Lemma cow_chain : chain (mmobjs cow0) 5 [5%positive] 6.
Proof. apply (chain0 0). Qed.

Lemma shadow_read_sees_top_witness :
  ∃ s', shadow_lookuppage (mmobj_table VmmapEx.plain 1) 5 0 0 cow0 = Ret (0, Some 1%positive) s' ∧ lru cow0 s'.
Proof.
  apply (shadow_read_sees_top VmmapEx.plain 0 5%positive [5%positive] 6%positive
    (Mmobj anon_mmobj_ops 1 0 [] (mmo_vmas []) None) 0 1%positive (Pframe 8192 (Some 6%positive) 0 false false 0));
    first [apply cow_inv|apply cow_chain|done].
Defined.

Lemma shadow_write_copies_witness :
  ∃ pf fr s', shadow_lookuppage (mmobj_table VmmapEx.plain 1) 5 0 1 cow0 = Ret (0, Some pf) s' ∧
    page s' (pf_addr fr) = page cow0 8192.
Proof.
  destruct (shadow_write_copies VmmapEx.plain 0 5%positive
    (Mmobj shadow_mmobj_ops 2 0 [] (mmo_bottom_obj 6%positive) (Some 6%positive)) [] 6%positive 0 1%positive
    (Pframe 8192 (Some 6%positive) 0 false false 0) cow0) as (pf & fr & s' & E & Hp);
    [apply cow_inv|apply cow_chain|done|done|done|done|done|done|by eexists|by eexists|].
  exists pf, fr, s'. split; [done|apply Hp].
Defined.

(** The operations of the objects that back files, of which the examples have
    none, take references as well. *)
Definition counting : vtable := {|
  o_ref := λ o, upd_mmobj o (with_refcount (λ n, n + 1)); o_put := λ _, mret ();
  o_lookuppage := λ _ _ _, mret (0, None); o_fillpage := λ _ _, mret 0;
  o_dirtypage := λ _ _, mret 0; o_cleanpage := λ _ _, mret 0 |}.

#[local] Instance counting_refs : RefIface counting.
Proof. split. intros s o x Hx _. by apply upd_mmobj_eval. Qed.

Section table.
#[local] Instance table : Objects := {| mm_ops := mmobj_table counting 2; wait_fuel := 0 |}.

#[local] Instance refs : RefIface mm_ops.
Proof. apply table_refs, counting_refs. Qed.


(** The address space of the parent, and its clone. *)
Definition clone0 : vmmap :=
  Vmmap [Vmarea 3 1024 1030 0 3 2 (Some 2%positive) None; Vmarea 4 1040 1050 0 3 2 (Some 2%positive) None] None.
Definition fork0 : vst := set_vmaps (insert 2%positive clone0) cow0.

Lemma fork_areas_same_view_witness :
  ∃ s' mp' mc', fork_areas 1 2 (vmm_list clone0) fork0 = Ret () s' ∧
    vmaps s' = <[2%positive := mc']> (<[1%positive := mp']> (vmaps fork0)) ∧
    sees s' (vmm_list mp') 1024 (Some 1%positive) ∧ sees s' (vmm_list mc') 1024 (Some 1%positive).
Proof.
  assert (sees fork0 VmmapEx.areas1 1024 (Some 1%positive)) as Hsees.
  { exists (VmmapEx.area 1 1024 1030 5), 5%positive, [5%positive], 6%positive. split_and!; try done. apply cow_chain. }
  destruct (fork_areas_same_view 1 2 mp0 clone0 fork0) as (s' & mp' & mc' & E & Hv & _ & Hview).
  - done.
  - intros q t. by eexists.
  - done.
  - by_computation.
  - by_computation.
  - done.
  - by_computation.
  - by repeat constructor.
  - repeat constructor; eexists 5%positive, _; (split_and!; [done|done|done|]); by eexists 6%positive, _, [].
  - intros pf x p Hx Ho. destruct (cow_resident p (pf_pagenum x) pf) as (-> & _); [by exists x|by eexists].
  - destruct (Hview 1024 (VmmapEx.area 1 1024 1030 5) eq_refl) as (a' & c' & _ & _ & Hs & _).
    exists s', mp', mc'. split_and!; [done|done|apply Hs, Hsees|apply Hs, Hsees].
Defined.

(** Process 12, with two descriptors for open file 7, forks. *)
#[local] Existing Instance ProcEx.env8.
#[local] Existing Instance FsEx.file_table.
#[local] Instance fork_env : ForkEnv.
Proof.
  refine {| sizeof_regs := 76; r_eax := 44; userland_entry := 1;
    fref := λ f, upd_file f (with_frefcount (λ n, n + 1)) |}.
  intros s f x Hx. unfold upd_file. by rewrite Hx.
Defined.

Definition descriptors : proc_fs :=
  ProcFs (Some 7%positive :: Some 7%positive :: replicate (Z.to_nat NFILES - 2) None) None.
Definition forking : vst :=
  set_fs (λ fs, set_files (insert 7%positive (File 0 1 2 None)) (set_procfs (insert 12%positive descriptors) fs))
    (set_k (λ _, ProcEx.wait_st) cow0).

Lemma do_fork_forks_witness :
  ∃ s' pid c, do_fork 1048576 forking = Ret pid s' ∧ pid = 4 ∧
    mem_read (1048576 + 44) 4 s' = [4; 0; 0; 0] ∧ p_files <$> procfs (v_fs s') !! c = Some (p_files descriptors) ∧
    f_refcount <$> files (v_fs s') !! 7%positive = Some 4.
Proof.
  destruct (do_fork_forks forking 12 (ProcEx.mkp 2 [2%positive] [13%positive] (Some 11%positive) 0 PROC_RUNNING) 8192
    2 (ProcEx.mkt 12 KT_RUN None) 1 mp0 descriptors 1048576) as (s' & pid & c & ct & stk & m2 & mp' & mc' & E & _ & Hr & _ & Hd).
  - split; try done; try by_computation.
    + apply table_fin_wf. by_computation.
    + apply sched_fin_wf. by_computation.
    + exists 4. split; [done|by_computation].
    + intros c Hc. unfold qlist, queue. change (queues (v_k forking)) with (<[p_wait 11 := Ktqueue [1%positive] 1]>
        (<[kt_runq := Ktqueue [3%positive] 1]> (∅ : gmap qid ktqueue))).
      rewrite !lookup_insert_ne; [done|done|]. intros [= <-]. discriminate Hc.
    + repeat constructor; eexists 5%positive, _; (split_and!; [done|done|done|]); by eexists 6%positive, _, [].
    + intros f x o Hx Ho. destruct (cow_resident o (pf_pagenum x) f) as (-> & _); [by exists x|by eexists].
    + intros f Hf. assert (f = 7%positive) as ->; [|by eexists].
      repeat (apply elem_of_cons in Hf as [Hf|Hf]; [by injection Hf as ->|]).
      change (Some f ∈ [None; None]) in Hf. set_solver.
  - split; intros; [split_and!|..]; by eexists.
  - done.
  - done.
  - done.
  - intros k stk Hk. injection Hk as <-. right. by_computation.
  - assert (match do_fork 1048576 forking with Ret r _ => r | _ => 0 end = 4) as Hpid by by_computation.
    rewrite E in Hpid. subst pid. exists s', 4, c. split; [exact E|]. split; [reflexivity|].
    split; [exact (fr_parent _ _ _ _ _ Hr)|]. split; [exact (fd_child _ _ _ _ Hd)|].
    rewrite (fd_files _ _ _ _ Hd). reflexivity.
Defined.
End table.
End VmEx.
