(* ===== verification/Info.v ===== *)
(** * Printing state (proc.c, vmmap.c)

    The functions that describe a process, all processes and an address space
    in a buffer, without the options MTP and GETCWD.  Texts are lists of
    bytes. *)

From Stdlib Require Import FunctionalExtensionality.
From stdpp Require Import pretty.
From S2P Require Import Prelude Kstate Sched Proc ProcProps Vmstate Vmmap Areas VmmapProps VmSys VmExample.
Local Open Scope Z_scope.

Abbreviation text := (list Z).

Definition chars (s : string) : text := (λ c, Z.of_N (Ascii.N_of_ascii c)) <$> String.list_ascii_of_string s.
Definition newline : text := [10].
Definition size_of (t : text) : Z := Z.of_nat (length t).

(** Conversions: [%i], [%3i], [%5s], [%-13s]. *)
Definition dec (n : Z) : text := chars (pretty n).
Definition pad (w : nat) (t : text) : text := replicate (w - length t) 32 ++ t.
Definition pad_end (w : nat) (t : text) : text := t ++ replicate (w - length t) 32.

(** [snprintf]: at most [size] bytes with the NUL are stored; the length is
    that of the whole text. *)
Definition snprintf (buf size : Z) (t : text) : V Z :=
  (if 0 <? size then modify (set_mem (mem_write buf (take (Z.to_nat (size - 1)) t ++ [0]))) else mret ());;
  mret (size_of t).

(** The rest of the kernel's printing: [%#.8x] and [%#.5x], [%p], the values of
    the states, and [iprintf], which prints and moves the buffer past what it
    printed. *)
Class Printf := {
  hex8 : Z → text;
  hex5 : Z → text;
  ptr : Z → text;
  state_num : proc_state → Z;
  iprintf : Z * Z → text → V (Z * Z);
  iprintf_fits : ∀ s buf size t, size_of t < size →
    iprintf (buf, size) t s = Ret (buf + size_of t, size - size_of t) (set_mem (mem_write buf (t ++ [0])) s);
}.

Section info.
Context `{Printf}.

(** ** Processes *)

(** The lines for the children. *)
Fixpoint print_children (l : list pptr) (b : Z * Z) : V (Z * Z) :=
  match l with
  | [] => mret b
  | c :: l' =>
      child ← lift (proc_at c);
      b ← iprintf b (chars "     " ++ dec (p_pid child) ++ chars " (" ++ chars (p_comm child) ++ chars ")" ++ newline);
      print_children l' b
  end.

(** [vm]: whether the virtual memory code is configured. *)
Definition proc_info (vm : bool) (p : pptr) (buf osize : Z) : V Z :=
  x ← lift (proc_at p);
  KASSERT (negb (buf =? 0)) "NULL != buf";;
  b ← iprintf (buf, osize) (chars "pid:          " ++ dec (p_pid x) ++ newline);
  b ← iprintf b (chars "name:         " ++ chars (p_comm x) ++ newline);
  b ← match p_pproc x with
      | Some pp =>
          y ← lift (proc_at pp);
          iprintf b (chars "parent:       " ++ dec (p_pid y) ++ chars " (" ++ chars (p_comm y) ++ chars ")" ++ newline)
      | None => iprintf b (chars "parent:       -" ++ newline)
      end;
  b ← (if bool_decide (p_children x = []) then iprintf b (chars "children:     -" ++ newline)
       else iprintf b (chars "children:" ++ newline));
  b ← print_children (p_children x) b;
  b ← iprintf b (chars "status:       " ++ dec (p_status x) ++ newline);
  b ← iprintf b (chars "state:        " ++ dec (state_num (p_state x)) ++ newline);
  b ← (if vm then
         s ← get;
         b ← iprintf b (chars "start brk:    0x" ++ ptr (p_start_brk (proc_vm_of s p)) ++ newline);
         iprintf b (chars "brk:          0x" ++ ptr (p_brk (proc_vm_of s p)) ++ newline)
       else mret b);
  mret b.2.

(** [char parent[64]]: what [snprintf] leaves of a text in it. *)
Definition parent_text (x : proc) : V text :=
  t ← match p_pproc x with
      | Some pp => y ← lift (proc_at pp); mret (pad 3 (dec (p_pid y)) ++ chars " (" ++ chars (p_comm y) ++ chars ")")
      | None => mret (chars "  -")
      end;
  mret (take 63 t).

Fixpoint print_procs (l : list pptr) (b : Z * Z) : V (Z * Z) :=
  match l with
  | [] => mret b
  | p :: l' =>
      x ← lift (proc_at p);
      parent ← parent_text x;
      b ← iprintf b (chars " " ++ pad 3 (dec (p_pid x)) ++ chars "  " ++ pad_end 13 (chars (p_comm x)) ++ chars " "
                      ++ parent ++ newline);
      print_procs l' b
  end.

Definition proc_list_info (buf osize : Z) : V Z :=
  KASSERT (negb (buf =? 0)) "NULL != buf";;
  b ← iprintf (buf, osize) (pad 5 (chars "PID") ++ chars " " ++ pad_end 13 (chars "NAME") ++ chars " " ++ chars "PARENT" ++ newline);
  s ← get;
  b ← print_procs (proc_list (v_k s)) b;
  mret b.2.

(** ** Address spaces *)

Context `{VmEnv} `{MapEnv}.

Definition info_header : text :=
  pad 21 (chars "VADDR RANGE") ++ chars " " ++ pad 5 (chars "PROT") ++ chars " " ++ pad 7 (chars "FLAGS") ++ chars " "
  ++ pad 8 (chars "MMOBJ") ++ chars " " ++ pad 10 (chars "OFFSET") ++ chars " " ++ pad 12 (chars "VFN RANGE") ++ newline.

Definition flag_char (x f : Z) (c : string) : text := if has_flag x f then chars c else chars "-".

Definition info_line (vma : vmarea) : text :=
  hex8 (u32 (Z.shiftl (vma_start vma) 12)) ++ chars "-" ++ hex8 (u32 (Z.shiftl (vma_end vma) 12)) ++ chars "  "
  ++ flag_char (vma_prot vma) PROT_READ "r" ++ flag_char (vma_prot vma) PROT_WRITE "w"
  ++ flag_char (vma_prot vma) PROT_EXEC "x" ++ chars "  "
  ++ (if has_flag (vma_flags vma) MAP_SHARED then chars " SHARED" else chars "PRIVATE")
  ++ chars " 0x" ++ ptr (from_option Zpos 0 (vma_obj vma)) ++ chars " " ++ hex5 (vma_off vma) ++ chars " "
  ++ hex5 (vma_start vma) ++ chars "-" ++ hex5 (vma_end vma) ++ newline.

(** The loop: [len] is the length of the line printed last, [buf] and [size]
    the place and the room it was given. *)
Fixpoint info_lines (l : list vmarea) (buf size len : Z) : V (Z * Z) :=
  match l with
  | [] => mret (buf, size)
  | vma :: l' =>
      let size := size - len in
      let buf := buf + len in
      if size <=? 0 then mret (buf, size)
      else len ← snprintf buf size (info_line vma); info_lines l' buf size len
  end.

Definition vmmap_mapping_info (map : vmid) (buf osize : Z) : V Z :=
  KASSERT (0 <? osize) "0 < osize";;
  KASSERT (negb (buf =? 0)) "NULL != buf";;
  m ← vmmap_at map;
  len ← snprintf buf osize info_header;
  '(buf', size) ← info_lines (vmm_list m) buf osize len;
  if size <=? 0 then modify (set_mem (mem_write (buf' + (osize - 1)) [0]));; mret 0
  else mret (osize - size).
End info.

(** ** What is printed *)

Lemma size_of_app t u : size_of (t ++ u) = size_of t + size_of u.
Proof. unfold size_of. rewrite length_app. lia. Qed.

Lemma size_of_pos t : 0 <= size_of t.
Proof. unfold size_of. lia. Qed.

(** What is stored from the NUL on continues the text. *)
Lemma mem_write_app a t u f :
  u ≠ [] → mem_write (a + size_of t) u (mem_write a (t ++ [0]) f) = mem_write a (t ++ u) f.
Proof.
  intros Hu. apply functional_extensionality. intros x. unfold mem_write, size_of.
  assert (0 < length u)%nat by (destruct u; [done|simpl; lia]). rewrite !length_app. simpl.
  destruct (decide (0 <= x - (a + Z.of_nat (length t)) < Z.of_nat (length u))) as [H1|H1].
  - rewrite decide_True by lia. rewrite lookup_app_r by lia. do 2 f_equal. lia.
  - destruct (decide (0 <= x - a < Z.of_nat (length t + 1))) as [H2|H2].
    + rewrite decide_True by lia. by rewrite !lookup_app_l by lia.
    + by rewrite decide_False by lia.
Qed.

Lemma snprintf_fits s buf size t : size_of t < size →
  snprintf buf size t s = Ret (size_of t) (set_mem (mem_write buf (t ++ [0])) s).
Proof.
  intros Ht. unfold snprintf. pose proof (size_of_pos t). rewrite (proj2 (Z.ltb_lt _ _)) by lia.
  unfold size_of in *. by rewrite take_ge by lia.
Qed.

(** In any case nothing but the room is written. *)
Lemma snprintf_room s buf size t : 0 < size →
  ∃ f, snprintf buf size t s = Ret (size_of t) (set_mem (λ _, f) s) ∧
    ∀ a, ¬ (buf <= a < buf + size) → f a = mem s a.
Proof.
  intros Hs. unfold snprintf. rewrite (proj2 (Z.ltb_lt _ _)) by done. eexists. split; [reflexivity|].
  intros a Ha. apply mem_write_out. rewrite length_app, length_take. simpl. lia.
Qed.

Section mapping.
Context {PF : Printf} {VE : VmEnv} {ME : MapEnv}.

(** The length of all lines but the last, where the first is of length
    [len]. *)
Fixpoint advance (l : list vmarea) (len : Z) : Z :=
  match l with [] => 0 | vma :: l' => len + advance l' (size_of (info_line vma)) end.

Definition lines_text (l : list vmarea) : text := concat (info_line <$> l).

Lemma advance_pos l : ∀ len, 0 <= len → 0 <= advance l len.
Proof. induction l as [|a l IH]; intros len Hl; simpl; [lia|]. specialize (IH _ (size_of_pos (info_line a))). lia. Qed.

Lemma advance_le l : ∀ len, 0 <= len → advance l len <= len + size_of (lines_text l).
Proof.
  unfold lines_text. induction l as [|a l IH]; intros len Hl; cbn [advance fmap list_fmap concat]; [unfold size_of; simpl; lia|].
  rewrite size_of_app. specialize (IH _ (size_of_pos (info_line a))). lia.
Qed.

Lemma info_lines_fits l : ∀ s buf size len,
  0 <= len → len + size_of (lines_text l) < size →
  info_lines l buf size len s = Ret (buf + advance l len, size - advance l len)
    (if bool_decide (l = []) then s else set_mem (mem_write (buf + len) (lines_text l ++ [0])) s).
Proof.
  induction l as [|a l IH]; intros s buf size len Hlen Hfit; cbn [info_lines advance].
  - unfold mret, M_ret. rewrite bool_decide_eq_true_2 by done. do 2 f_equal; lia.
  - unfold lines_text in *. cbn [fmap list_fmap concat] in *. rewrite size_of_app in Hfit.
    pose proof (size_of_pos (info_line a)). pose proof (size_of_pos (concat (info_line <$> l))).
    rewrite (proj2 (Z.leb_gt _ _)) by lia. erewrite bind_step by (apply snprintf_fits; lia).
    rewrite IH by lia. rewrite (bool_decide_eq_false_2 (a :: l = [])) by done. f_equal; [f_equal; lia|].
    case_bool_decide as E.
    + subst l. simpl. by rewrite app_nil_r.
    + apply vst_ext; try done. simpl. rewrite mem_write_app by by destruct (concat _). by rewrite app_assoc.
Qed.

(** Whatever happens, the loop writes only into the room it has. *)
Lemma info_lines_room l : ∀ s buf size len, 0 <= len →
  ∃ n f, info_lines l buf size len s = Ret (buf + n, size - n) (set_mem (λ _, f) s) ∧
    (∀ a, ¬ (buf <= a < buf + size) → f a = mem s a) ∧ 0 <= n <= advance l len ∧ (size <= advance l len → size <= n).
Proof.
  induction l as [|a l IH]; intros s buf size len Hlen; cbn [info_lines advance].
  - exists 0, (mem s). split; [|split; [done|lia]]. unfold mret, M_ret. rewrite Z.add_0_r, Z.sub_0_r. by destruct s.
  - pose proof (advance_pos l _ (size_of_pos (info_line a))) as Hadv. destruct (Z.leb_spec (size - len) 0) as [Hs|Hs].
    + exists len, (mem s). split; [by destruct s|]. split; [done|lia].
    + destruct (snprintf_room s (buf + len) (size - len) (info_line a) Hs) as (f1 & E1 & Hf1).
      rewrite (bind_step _ _ _ _ _ E1).
      destruct (IH (set_mem (λ _, f1) s) (buf + len) (size - len) _ (size_of_pos (info_line a))) as (n & f & E & Hf & Hn & Hover).
      exists (len + n), f. rewrite E. split; [do 2 f_equal; lia|]. split; [|lia].
      intros x Hx. rewrite Hf by lia. apply Hf1. lia.
Qed.

(** A description that fits: the buffer holds the heading and a line for each
    area, with a NUL, and nothing else is written; but the result leaves out
    the length of the last line. *)
Lemma mapping_info_fits s map m buf osize :
  vmaps s !! map = Some m → buf ≠ 0 → size_of (info_header ++ lines_text (vmm_list m)) < osize →
  vmmap_mapping_info map buf osize s = Ret (advance (vmm_list m) (size_of info_header))
    (set_mem (mem_write buf ((info_header ++ lines_text (vmm_list m)) ++ [0])) s).
Proof.
  intros Hm Hb Hfit. rewrite size_of_app in Hfit.
  pose proof (size_of_pos info_header). pose proof (size_of_pos (lines_text (vmm_list m))).
  unfold vmmap_mapping_info. rewrite (bind_assert (0 <? osize)) by lia. rewrite bind_assert by lia.
  unfold vmmap_at. rewrite bind_unfold, Hm. cbn [obind]. erewrite bind_step by (apply snprintf_fits; lia).
  erewrite bind_step by (apply info_lines_fits; lia). cbn beta iota.
  assert (0 < osize - advance (vmm_list m) (size_of info_header)) as Hleft.
  { pose proof (advance_le (vmm_list m) _ (size_of_pos info_header)). lia. }
  rewrite (proj2 (Z.leb_gt _ _)) by lia. unfold mret, M_ret. f_equal; [lia|].
  case_bool_decide as E.
  - rewrite E. change (lines_text []) with (@nil Z). by rewrite app_nil_r.
  - apply vst_ext; try done. simpl. rewrite mem_write_app; [by rewrite app_assoc|]. by destruct (lines_text _).
Qed.

End mapping.

(** ** Describing processes *)

Section procs.
Context {PF : Printf}.

Definition child_line (y : proc) : text :=
  chars "     " ++ dec (p_pid y) ++ chars " (" ++ chars (p_comm y) ++ chars ")" ++ newline.

Definition parent_line (o : option proc) : text :=
  match o with
  | Some y => chars "parent:       " ++ dec (p_pid y) ++ chars " (" ++ chars (p_comm y) ++ chars ")" ++ newline
  | None => chars "parent:       -" ++ newline
  end.

(** The description of process [x] with parent [o] and children [ys]. *)
Definition proc_text (x : proc) (o : option proc) (ys : list proc) : text :=
  (chars "pid:          " ++ dec (p_pid x) ++ newline) ++ (chars "name:         " ++ chars (p_comm x) ++ newline)
  ++ parent_line o ++ (if bool_decide (ys = []) then chars "children:     -" ++ newline else chars "children:" ++ newline)
  ++ concat (child_line <$> ys) ++ (chars "status:       " ++ dec (p_status x) ++ newline)
  ++ (chars "state:        " ++ dec (state_num (p_state x)) ++ newline).

(** The text [t] has been printed to [buf]. *)
Definition printed (buf : Z) (t : text) (s : vst) : vst := set_mem (mem_write buf (t ++ [0])) s.

Lemma print_more s buf osize t u : size_of (t ++ u) < osize →
  iprintf (buf + size_of t, osize - size_of t) u (printed buf t s) =
    Ret (buf + size_of (t ++ u), osize - size_of (t ++ u)) (printed buf (t ++ u) s).
Proof.
  intros Hfit. rewrite size_of_app in *. rewrite iprintf_fits by lia. f_equal; [f_equal; lia|].
  apply vst_ext; try done. simpl. rewrite mem_write_app by by destruct u. by rewrite app_assoc.
Qed.

Ltac fits := unfold size_of in *; repeat rewrite length_app in *; lia.

Lemma print_children_spec s buf osize l ys : Forall2 (λ c y, procs (v_k s) !! c = Some y) l ys → ∀ t,
  size_of (t ++ concat (child_line <$> ys)) < osize →
  print_children l (buf + size_of t, osize - size_of t) (printed buf t s) =
    Ret (buf + size_of (t ++ concat (child_line <$> ys)), osize - size_of (t ++ concat (child_line <$> ys)))
      (printed buf (t ++ concat (child_line <$> ys)) s).
Proof.
  induction 1 as [|c y l ys Hc _ IH]; intros t Hfit; cbn [print_children fmap list_fmap concat] in *.
  - by rewrite app_nil_r.
  - rewrite (bind_step _ _ _ _ _ (lift_proc_at (printed buf t s) c y Hc)). fold (child_line y).
    erewrite bind_step by (apply print_more; fits). rewrite IH by (rewrite <- app_assoc; fits). by rewrite <- app_assoc.
Qed.

(** The description of a process: if it fits, the buffer holds the lines
    for its identifier, name, parent, children, status and state, and a NUL,
    nothing else is written, and the result is the room that is left. *)
Theorem proc_info_prints s p x o ys buf osize :
  procs (v_k s) !! p = Some x → (p_pproc x ≫= (procs (v_k s) !!.)) = o → (is_Some (p_pproc x) → is_Some o) →
  Forall2 (λ c y, procs (v_k s) !! c = Some y) (p_children x) ys → buf ≠ 0 → size_of (proc_text x o ys) < osize →
  proc_info false p buf osize s = Ret (osize - size_of (proc_text x o ys)) (printed buf (proc_text x o ys) s).
Proof.
  intros Hx Ho Hlive Hch Hb Hfit. unfold proc_info, proc_text in *.
  rewrite (bind_step _ _ _ _ _ (lift_proc_at s p x Hx)), bind_assert by lia.
  set (t1 := chars "pid:          " ++ dec (p_pid x) ++ newline) in *.
  set (t2 := chars "name:         " ++ chars (p_comm x) ++ newline) in *.
  assert (p_children x = [] ↔ ys = []) as Hnil by (inversion Hch; naive_solver).
  set (t4 := if bool_decide (ys = []) then _ else _) in *.
  set (t5 := concat (child_line <$> ys)) in *.
  set (t6 := chars "status:       " ++ dec (p_status x) ++ newline) in *.
  set (t7 := chars "state:        " ++ dec (state_num (p_state x)) ++ newline) in *.
  erewrite bind_step by (apply iprintf_fits; fits). fold (printed buf t1 s).
  erewrite bind_step by (apply print_more; fits). set (s2 := printed buf (t1 ++ t2) s).
  set (b2 := (buf + size_of (t1 ++ t2), osize - size_of (t1 ++ t2))).
  erewrite bind_step.
  2: { instantiate (1 := printed buf ((t1 ++ t2) ++ parent_line o) s).
       instantiate (1 := (buf + size_of ((t1 ++ t2) ++ parent_line o), osize - size_of ((t1 ++ t2) ++ parent_line o))).
       destruct (p_pproc x) as [pp|]; simpl in Ho.
       - destruct Hlive as [y Hy]; [by eexists|]. rewrite Hy in Ho. subst o.
         rewrite (bind_step _ _ _ _ _ (lift_proc_at s2 pp y Ho)). apply print_more. fits.
       - subst o. apply print_more. fits. }
  rewrite (bind_step _ _ _ (buf + size_of (((t1 ++ t2) ++ parent_line o) ++ t4),
    osize - size_of (((t1 ++ t2) ++ parent_line o) ++ t4)) (printed buf (((t1 ++ t2) ++ parent_line o) ++ t4) s))
    by (unfold t4 in *; repeat case_bool_decide; first [tauto|apply print_more; fits]).
  erewrite bind_step by (apply (print_children_spec s buf osize _ ys Hch); fold t5; fits). fold t5.
  erewrite bind_step by (apply print_more; fits). erewrite bind_step by (apply print_more; fits).
  erewrite bind_step by reflexivity. unfold mret, M_ret. cbn [snd]. by rewrite <- !app_assoc.
Qed.

(** The line for process [r.1], whose parent is [r.2]. *)
Definition proc_line (r : proc * option proc) : text :=
  chars " " ++ pad 3 (dec (p_pid r.1)) ++ chars "  " ++ pad_end 13 (chars (p_comm r.1)) ++ chars " "
  ++ take 63 (match r.2 with
              | Some y => pad 3 (dec (p_pid y)) ++ chars " (" ++ chars (p_comm y) ++ chars ")"
              | None => chars "  -"
              end) ++ newline.

Definition list_text (rows : list (proc * option proc)) : text :=
  (pad 5 (chars "PID") ++ chars " " ++ pad_end 13 (chars "NAME") ++ chars " " ++ chars "PARENT" ++ newline)
  ++ concat (proc_line <$> rows).

Definition row_of (s : vst) (p : pptr) (r : proc * option proc) : Prop :=
  procs (v_k s) !! p = Some r.1 ∧ (p_pproc r.1 ≫= (procs (v_k s) !!.)) = r.2 ∧ (is_Some (p_pproc r.1) → is_Some r.2).

Lemma print_procs_spec s buf osize l rows : Forall2 (row_of s) l rows → ∀ t,
  size_of (t ++ concat (proc_line <$> rows)) < osize →
  print_procs l (buf + size_of t, osize - size_of t) (printed buf t s) =
    Ret (buf + size_of (t ++ concat (proc_line <$> rows)), osize - size_of (t ++ concat (proc_line <$> rows)))
      (printed buf (t ++ concat (proc_line <$> rows)) s).
Proof.
  induction 1 as [|p [x o] l rows (Hx & Ho & Hlive) _ IH]; intros t Hfit; cbn [print_procs fmap list_fmap concat] in *.
  - by rewrite app_nil_r.
  - rewrite (bind_step _ _ _ _ _ (lift_proc_at (printed buf t s) p x Hx)).
    assert (parent_text x (printed buf t s) = Ret (take 63 (match o with
      | Some y => pad 3 (dec (p_pid y)) ++ chars " (" ++ chars (p_comm y) ++ chars ")"
      | None => chars "  -" end)) (printed buf t s)) as Ep.
    { unfold parent_text. simpl in *. destruct (p_pproc x) as [pp|]; simpl in *; [|by subst o].
      destruct Hlive as [y Hy]; [by eexists|]. rewrite Hy in *. rewrite bind_unfold.
      rewrite (bind_step _ _ _ _ _ (lift_proc_at (printed buf t s) pp y Ho)). done. }
    rewrite (bind_step _ _ _ _ _ Ep).
    match goal with |- (iprintf _ ?u ≫= _) _ = _ => change u with (proc_line (x, o)) end.
    erewrite bind_step by (apply print_more; fits). rewrite IH by (rewrite <- app_assoc; fits). by rewrite <- app_assoc.
Qed.

(** The list of processes: if it fits, the buffer holds the heading and a
    line for each process in the order of the list, and a NUL, nothing else is
    written, and the result is the room that is left. *)
Theorem proc_list_info_prints s rows buf osize :
  Forall2 (row_of s) (proc_list (v_k s)) rows → buf ≠ 0 → size_of (list_text rows) < osize →
  proc_list_info buf osize s = Ret (osize - size_of (list_text rows)) (printed buf (list_text rows) s).
Proof.
  intros Hrows Hb Hfit. unfold proc_list_info, list_text in *. rewrite bind_assert by lia.
  set (t1 := pad 5 _ ++ _) in *. erewrite bind_step by (apply iprintf_fits; fits). fold (printed buf t1 s).
  erewrite bind_step by reflexivity. by rewrite (bind_step _ _ _ _ _ (print_procs_spec s buf osize _ rows Hrows t1 Hfit)).
Qed.
End procs.

(** ** Examples *)
Module InfoEx.
#[local] Existing Instance VmmapEx.env.
#[local] Existing Instance VmEx.maps.

#[local] Instance printing : Printf.
Proof.
  refine {| hex8 := dec; hex5 := dec; ptr := dec; state_num := λ x, match x with PROC_RUNNING => 1 | PROC_DEAD => 2 end;
    iprintf := λ b t, len ← snprintf b.1 b.2 t; mret (b.1 + len, b.2 - len) |}.
  intros s buf size t Ht. cbn [fst snd]. by rewrite (bind_step _ _ _ _ _ (snprintf_fits s buf size t Ht)).
Defined.


(** Process 12 of the example, its parent and its child. *)
Lemma proc_info_prints_witness :
  ∃ r s', proc_info false 12 65536 4096 VmEx.forking = Ret r s' ∧ r = 3991.
Proof.
  eexists _, _. split.
  - apply (proc_info_prints VmEx.forking 12 (ProcEx.mkp 2 [2%positive] [13%positive] (Some 11%positive) 0 PROC_RUNNING)
      (Some (ProcEx.mkp 1 [1%positive] [12%positive] (Some 10%positive) 0 PROC_RUNNING))
      [ProcEx.mkp 3 [3%positive] [] (Some 12%positive) 0 PROC_RUNNING] 65536 4096); try done;
      try (by eexists); by repeat constructor.
  - by_computation.
Defined.

Definition idle_proc : proc := ProcEx.mkp 0 [] [11%positive] None 0 PROC_RUNNING.
Definition init_proc : proc := ProcEx.mkp 1 [1%positive] [12%positive] (Some 10%positive) 0 PROC_RUNNING.
Definition caller : proc := ProcEx.mkp 2 [2%positive] [13%positive] (Some 11%positive) 0 PROC_RUNNING.
Definition child : proc := ProcEx.mkp 3 [3%positive] [] (Some 12%positive) 0 PROC_RUNNING.

Lemma proc_list_info_prints_witness :
  ∃ r s', proc_list_info 65536 4096 VmEx.forking = Ret r s' ∧ r = 3961.
Proof.
  eexists _, _. split.
  - apply (proc_list_info_prints VmEx.forking
      [(idle_proc, None); (init_proc, Some idle_proc); (caller, Some init_proc); (child, Some caller)] 65536 4096);
      [|done..].
    repeat (apply Forall2_cons; split;
      [split; [done|split; [done|intros [y Hy]; first [discriminate|by eexists]]]|]). apply Forall2_nil_2.
  - by_computation.
Defined.
End InfoEx.
