(* ===== verification/Syscall.v ===== *)
(** * System calls (syscall.c)

    The handler of the system call trap, the dispatch on the number of the
    call, and the functions that fetch the arguments from user memory, call
    the kernel, and copy results back.  The layout of the argument structures
    is a parameter.  An uninitialised variable has no value; to use one is
    an error. *)

From S2P Require Import Prelude Kstate Sched Kmutex Machine Proc Vmstate Pframe Mmobj Vmmap Vnode Namev Vfs.
From S2P Require Import VmSys Pageout.
Local Open Scope Z_scope.

(** A structure of the user interface: its size, and its value from its
    bytes. *)
Class UserStruct (A : Type) := { sizeof : Z; of_bytes : list Z → A }.
Arguments sizeof A {_}.

Record read_args_t := ReadArgs { ra_fd : Z; ra_buf : Z; ra_nbytes : Z }.
Record write_args_t := WriteArgs { wa_fd : Z; wa_buf : Z; wa_nbytes : Z }.
Record getdents_args_t := GetdentsArgs { ga_fd : Z; ga_dirp : Z; ga_count : Z }.
Record dup2_args_t := Dup2Args { da_ofd : Z; da_nfd : Z }.
Record mkdir_args_t := MkdirArgs { ma_path : argstr_t }.
Record link_args_t := LinkArgs { la_to : argstr_t; la_from : argstr_t }.
Record rename_args_t := RenameArgs { rn_oldname : argstr_t; rn_newname : argstr_t }.
Record lseek_args_t := LseekArgs { lk_fd : Z; lk_offset : Z; lk_whence : Z }.
Record open_args_t := OpenArgs { oa_filename : argstr_t; oa_flags : Z }.
Record munmap_args_t := MunmapArgs { um_addr : Z; um_len : Z }.
Record mmap_args_t := MmapArgs {
  mma_addr : Z; mma_len : Z; mma_prot : Z; mma_flags : Z; mma_fd : Z; mma_off : Z }.
Record waitpid_args_t := WaitpidArgs { wpa_pid : Z; wpa_options : Z; wpa_status : Z }.
Record stat_args_t := StatArgs { st_path : argstr_t; st_buf : Z }.
Record mount_args_t := MountArgs { mt_spec : argstr_t; mt_dir : argstr_t; mt_fstype : argstr_t }.
Record execve_args_t := ExecveArgs { ea_filename : argstr_t; ea_argv : argvec_t; ea_envp : argvec_t }.

(** What [sysnum] selects. *)
Inductive syscall :=
| SYS_waitpid | SYS_exit | SYS_thr_exit | SYS_thr_yield | SYS_fork | SYS_getpid | SYS_sync | SYS_mmap
| SYS_munmap | SYS_open | SYS_close | SYS_read | SYS_write | SYS_dup | SYS_dup2 | SYS_mkdir | SYS_rmdir
| SYS_unlink | SYS_link | SYS_rename | SYS_chdir | SYS_getdents | SYS_brk | SYS_lseek | SYS_halt
| SYS_set_errno | SYS_errno | SYS_execve | SYS_stat | SYS_pipe | SYS_uname | SYS_debug | SYS_kshell
| SYS_mount | SYS_umount.                 (* with __MOUNTING__ *)

(** [kern_str] is a C string in a buffer: the characters before the first
    NUL.  A buffer without NUL is not a string. *)
Fixpoint kern_str (l : list Z) : V path :=
  match l with
  | [] => panic "string without NUL"
  | c :: l' =>
      if c =? 0 then mret []
      else r ← kern_str l'; mret (Ascii.ascii_of_N (Z.to_N c) :: r)
  end.

Definition str_bytes (s : string) : list Z :=
  ((λ c, Z.of_N (Ascii.N_of_ascii c)) <$> String.list_ascii_of_string s) ++ [0].

Section syscalls.
Context `{VmEnv} `{VfsEnv} `{Machine} `{Errno} `{Objects} `{NameEnv} `{FileTable} `{MapEnv} `{ProcEnv}
  `{ForkEnv}.
Context `{UserStruct argstr_t} `{UserStruct read_args_t} `{UserStruct write_args_t}
  `{UserStruct getdents_args_t} `{UserStruct dup2_args_t} `{UserStruct mkdir_args_t}
  `{UserStruct link_args_t} `{UserStruct rename_args_t} `{UserStruct lseek_args_t}
  `{UserStruct open_args_t} `{UserStruct munmap_args_t} `{UserStruct mmap_args_t}
  `{UserStruct waitpid_args_t} `{UserStruct stat_args_t} `{UserStruct execve_args_t}
  `{UserStruct mount_args_t}.

(** Outside the sources: the numbers of the calls; a kernel access through a
    user pointer; the addresses of local variables; pipes, exec and the kernel
    shell; the layout of [struct stat] and [struct utsname]. *)
Class SysEnv := {
  sysnum_of : Z → option syscall;
  MAP_FAILED : Z;
  r_edx : Z;
  user_access : Z → Z → V (list Z);
  local_dirent : Z;
  local_stat : Z;
  sizeof_stat : Z;
  argstrs_of : list Z → list argstr_t;
  do_pipe : V (Z * (Z * Z));
  do_execve : path → option (list path) → option (list path) → Z → V Z;
  kshell_create : Z → V (option Z);
  kshell_execute_next : Z → V Z;
  uts_sysname : Z;
  uts_release : Z;
  uts_version : Z;
  uts_nodename : Z;
  uts_machine : Z;
  version_string : string;
}.
Context `{SysEnv} (fuel : nat).

(** [curthr->kt_errno = e; return -1;] *)
Definition fail (e : Z) : V Z := set_errno e;; mret (-1).

(** [if (err < 0) { curthr->kt_errno = -err; return -1; } else return err;] *)
Definition check_err (err : Z) : V Z := if err <? 0 then fail (- err) else mret err.

(** Copying the arguments in; [k] goes on with them. *)
Definition with_args {A} `{UserStruct A} (arg : Z) (k : A → V Z) : V Z :=
  '(err, bytes) ← copy_from_user arg (sizeof A);
  if err <? 0 then fail (- err) else k (of_bytes bytes).

(** Duplicating a string argument; failure is EINVAL. *)
Definition with_str (a : argstr_t) (k : path → V Z) : V Z :=
  r ← user_strdup a;
  match r with
  | None => fail EINVAL
  | Some b => p ← kern_str b; k p
  end.

Definition sys_read (arg : Z) : V Z :=
  with_args arg (λ readArgs : read_args_t,
    s ← get;
    buf ← deref (page_alloc s) "buf";
    bytes ← do_read (ra_fd readArgs) buf (ra_nbytes readArgs);
    if bytes <? 0 then fail (- bytes)
    else
      b ← user_access arg (sizeof read_args_t);
      s' ← get;
      retVal ← copy_to_user (ra_buf (of_bytes b)) (mem_read buf bytes s') bytes;
      if retVal <? 0 then fail (- retVal) else mret bytes).

Definition sys_write (arg : Z) : V Z :=
  with_args arg (λ writeArgs : write_args_t,
    s ← get;
    buf ← deref (page_alloc s) "buf";
    '(retVal, data) ← copy_from_user (wa_buf writeArgs) (wa_nbytes writeArgs);
    if retVal <? 0 then fail (- retVal)
    else
      modify (set_mem (mem_write buf data));;
      bytes ← do_write (wa_fd writeArgs) buf (wa_nbytes writeArgs);
      if bytes <? 0 then fail (- bytes) else mret bytes).

(** The loop of [sys_getdents], [n] entries from [i] on. *)
Fixpoint getdents_loop (n : nat) (i totalBytes fd dirp : Z) : V Z :=
  match n with
  | O => mret totalBytes
  | S n' =>
      bytes ← do_getdent fd local_dirent;
      if 0 <? bytes then
        s ← get;
        retVal ← copy_to_user (u32 (dirp + i * sizeof_dirent)) (mem_read local_dirent bytes s) bytes;
        if retVal <? 0 then fail (- retVal)
        else getdents_loop n' (i + 1) (sint (totalBytes + bytes)) fd dirp
      else if bytes <? 0 then fail (- bytes)
      else set_errno 0;; mret totalBytes
  end.

Definition sys_getdents (arg : Z) : V Z :=
  with_args arg (λ getdentsArgs : getdents_args_t,
    let num := int32 (u32 (ga_count getdentsArgs) / sizeof_dirent) in
    getdents_loop (Z.to_nat num) 0 0 (ga_fd getdentsArgs) (ga_dirp getdentsArgs)).

(** Only the source may be missing. *)
Definition sys_mount (arg : Z) : V Z :=
  '(err, bytes) ← copy_from_user arg (sizeof mount_args_t);
  if err <? 0 then fail EFAULT
  else
    let kern_args : mount_args_t := of_bytes bytes in
    source ← user_strdup (mt_spec kern_args);
    r ← user_strdup (mt_dir kern_args);
    match r with
    | None => fail EINVAL
    | Some target =>
        r ← user_strdup (mt_fstype kern_args);
        match r with
        | None => fail EINVAL
        | Some type =>
            ret ← do_mount source target type;
            if negb (ret =? 0) then fail (- ret) else mret 0
        end
    end.

Definition sys_umount (input : Z) : V Z :=
  '(err, bytes) ← copy_from_user input (sizeof argstr_t);
  if err <? 0 then fail EFAULT
  else
    r ← user_strdup (of_bytes bytes);
    match r with
    | None => fail EINVAL
    | Some target =>
        ret ← do_umount target;
        if negb (ret =? 0) then fail (- ret) else mret 0
    end.

Definition sys_close (fd : Z) : V Z := err ← do_close fd; check_err err.
Definition sys_dup (fd : Z) : V Z := err ← do_dup fd; check_err err.
Definition sys_dup2 (arg : Z) : V Z :=
  with_args arg (λ k : dup2_args_t, err ← do_dup2 (da_ofd k) (da_nfd k); check_err err).
Definition sys_mkdir (arg : Z) : V Z :=
  with_args arg (λ k : mkdir_args_t, with_str (ma_path k) (λ p, err ← do_mkdir p; check_err err)).
Definition sys_rmdir (arg : Z) : V Z :=
  with_args arg (λ k : argstr_t, with_str k (λ p, err ← do_rmdir p; check_err err)).
Definition sys_unlink (arg : Z) : V Z :=
  with_args arg (λ k : argstr_t, with_str k (λ p, err ← do_unlink p; check_err err)).
Definition sys_link (arg : Z) : V Z :=
  with_args arg (λ k : link_args_t, with_str (la_to k) (λ to, with_str (la_from k) (λ from,
    err ← do_link from to; check_err err))).
Definition sys_rename (arg : Z) : V Z :=
  with_args arg (λ k : rename_args_t, with_str (rn_oldname k) (λ oldname, with_str (rn_newname k) (λ newname,
    err ← do_rename oldname newname; check_err err))).
Definition sys_chdir (arg : Z) : V Z :=
  with_args arg (λ k : argstr_t, with_str k (λ p, err ← do_chdir p; check_err err)).
Definition sys_lseek (arg : Z) : V Z :=
  with_args arg (λ k : lseek_args_t, err ← do_lseek (lk_fd k) (lk_offset k) (lk_whence k); check_err err).
Definition sys_open (arg : Z) : V Z :=
  with_args arg (λ k : open_args_t, with_str (oa_filename k) (λ p, err ← do_open p (oa_flags k); check_err err)).

Definition sys_munmap (arg : Z) : V Z :=
  '(err, bytes) ← copy_from_user arg (sizeof munmap_args_t);
  if negb (err =? 0) then fail EFAULT
  else
    let kargs : munmap_args_t := of_bytes bytes in
    err ← do_munmap (um_addr kargs) (um_len kargs);
    if err <? 0 then fail (- err) else mret 0.

Definition sys_mmap (arg : Z) : V Z :=
  '(err, bytes) ← copy_from_user arg (sizeof mmap_args_t);
  if err <? 0 then set_errno EFAULT;; mret MAP_FAILED
  else
    let k : mmap_args_t := of_bytes bytes in
    '(err, ret) ← do_mmap (mma_addr k) (mma_len k) (mma_prot k) (mma_flags k) (mma_fd k) (mma_off k);
    if err <? 0 then set_errno (- err);; mret MAP_FAILED else deref ret "ret".

Definition sys_waitpid (arg : Z) : V Z :=
  '(err, bytes) ← copy_from_user arg (sizeof waitpid_args_t);
  if err <? 0 then fail EFAULT
  else
    let k : waitpid_args_t := of_bytes bytes in
    '(p, st) ← lift (do_waitpid fuel (wpa_pid k) (wpa_options k));
    if p <? 0 then fail (- p)
    else if negb (wpa_status k =? 0) then
      v ← deref st "s";
      err ← copy_to_user (wpa_status k) (word_bytes v) 4;
      if err <? 0 then fail EFAULT else mret p
    else mret p.

Definition sys_brk (addr : Z) : V Z :=
  '(err, ret) ← do_brk addr;
  if err =? 0 then deref ret "ret" else fail (- err).

Definition sys_sync : V () := pframe_clean_all mm_ops fuel.
Definition sys_halt : V () := lift proc_kill_all.

Definition sys_stat (arg : Z) : V Z :=
  '(err, bytes) ← copy_from_user arg (sizeof stat_args_t);
  if err <? 0 then fail EFAULT
  else
    let k : stat_args_t := of_bytes bytes in
    with_str (st_path k) (λ p,
      ret ← do_stat p local_stat;
      ret ← (if ret =? 0 then s ← get; copy_to_user (st_buf k) (mem_read local_stat sizeof_stat s) sizeof_stat
             else mret ret);
      if negb (ret =? 0) then fail (- ret) else mret 0).

Definition sys_pipe (arg : Z) : V Z :=
  '(ret, fds) ← do_pipe;
  ret ← (if ret =? 0 then copy_to_user arg (word_bytes fds.1 ++ word_bytes fds.2) 8 else mret ret);
  if negb (ret =? 0) then fail (- ret) else mret 0.

(** Copying out strings, each with its place in the structure at [arg]. *)
Fixpoint uname_each (arg : Z) (l : list (Z * string)) : V Z :=
  match l with
  | [] => mret 0
  | (off, str) :: l' =>
      ret ← copy_to_user (arg + off) (str_bytes str) (Z.of_nat (length (str_bytes str)));
      if negb (ret =? 0) then fail (- ret) else uname_each arg l'
  end.
Definition sys_uname (arg : Z) : V Z :=
  uname_each arg [(uts_sysname, "Weenix"); (uts_release, "1.2"); (uts_version, version_string);
    (uts_nodename, EmptyString); (uts_machine, EmptyString)].

Definition sys_fork (regs : Z) : V Z := ret ← do_fork regs; check_err ret.

Fixpoint kern_strs (l : list (list Z)) : V (list path) :=
  match l with
  | [] => mret []
  | b :: l' => p ← kern_str b; ps ← kern_strs l'; mret (p :: ps)
  end.

(** A vector argument, if there is one: [None] is failure. *)
Definition opt_vecdup (v : argvec_t) : V (option (option (list path))) :=
  if negb (av_vec v =? 0) then
    r ← user_vecdup (sizeof argstr_t) argstrs_of v;
    match r with
    | None => mret None
    | Some l => ps ← kern_strs l; mret (Some (Some ps))
    end
  else mret (Some None).

Definition execve_args (k : execve_args_t) (regs : Z) : V () :=
  r ← user_strdup (ea_filename k);
  match r with
  | None => mret ()
  | Some b =>
      kern_argv ← opt_vecdup (ea_argv k);
      match kern_argv with
      | None => mret ()
      | Some argv =>
          kern_envp ← opt_vecdup (ea_envp k);
          match kern_envp with
          | None => mret ()
          | Some envp =>
              kern_filename ← kern_str b;
              err ← do_execve kern_filename argv envp regs;
              set_errno (- err)
          end
      end
  end.

Definition cur_errno : V Z := lift (t ← cur_thread; x ← thread_at t; mret (kt_errno x)).

Definition sys_execve (arg regs : Z) : V Z :=
  '(err, bytes) ← copy_from_user arg (sizeof execve_args_t);
  (if err <? 0 then set_errno (- err) else execve_args (of_bytes bytes) regs);;
  e ← cur_errno;
  if negb (e =? 0) then mret (-1) else mret 0.

Definition sys_debug (arg : Z) : V Z :=
  with_args arg (λ k : argstr_t, _ ← user_strdup k; mret 0).

(** [while ((err = kshell_execute_next(ksh)) > 0);] *)
Fixpoint kshell_loop (n : nat) (ksh : Z) : V Z :=
  err ← kshell_execute_next ksh;
  if 0 <? err then match n with O => idle | S n' => kshell_loop n' ksh end else mret err.

Definition sys_kshell (ttyid : Z) : V Z :=
  r ← kshell_create ttyid;
  match r with
  | None => fail ENODEV
  | Some ksh =>
      err ← kshell_loop fuel ksh;
      if err <? 0 then fail (- err) else mret 0
  end.

Definition syscall_dispatch (sysnum args regs : Z) : V Z :=
  match sysnum_of sysnum with
  | Some SYS_waitpid => sys_waitpid args
  | Some SYS_exit => lift (do_exit (int32 args));; panic "exit failed!"
  | Some SYS_thr_exit => lift (kthread_exit args);; panic "thr_exit failed!"
  | Some SYS_thr_yield => lift thr_yield;; mret 0
  | Some SYS_fork => sys_fork regs
  | Some SYS_getpid => cp ← lift cur_proc; x ← lift (proc_at cp); mret (p_pid x)
  | Some SYS_sync => sys_sync;; mret 0
  | Some SYS_mmap => r ← sys_mmap args; mret (int32 r)
  | Some SYS_munmap => sys_munmap args
  | Some SYS_open => sys_open args
  | Some SYS_close => sys_close (int32 args)
  | Some SYS_read => sys_read args
  | Some SYS_write => sys_write args
  | Some SYS_dup => sys_dup (int32 args)
  | Some SYS_dup2 => sys_dup2 args
  | Some SYS_mkdir => sys_mkdir args
  | Some SYS_rmdir => sys_rmdir args
  | Some SYS_unlink => sys_unlink args
  | Some SYS_link => sys_link args
  | Some SYS_rename => sys_rename args
  | Some SYS_chdir => sys_chdir args
  | Some SYS_getdents => sys_getdents args
  | Some SYS_brk => r ← sys_brk args; mret (int32 r)
  | Some SYS_lseek => sys_lseek args
  | Some SYS_halt => sys_halt;; mret (-1)
  | Some SYS_set_errno => set_errno (int32 args);; mret 0
  | Some SYS_errno => cur_errno
  | Some SYS_execve => sys_execve args regs
  | Some SYS_stat => sys_stat args
  | Some SYS_pipe => sys_pipe args
  | Some SYS_uname => sys_uname args
  | Some SYS_debug => sys_debug args
  | Some SYS_kshell => sys_kshell (int32 args)
  | Some SYS_mount => sys_mount args
  | Some SYS_umount => sys_umount args
  | None => fail ENOSYS
  end.

(** A 32 bit load. *)
Definition load32 (a : Z) (s : vst) : Z :=
  mem s a + Z.shiftl (mem s (a + 1)) 8 + Z.shiftl (mem s (a + 2)) 16 + Z.shiftl (mem s (a + 3)) 24.

(** A cancelled thread exits on its way into and out of the kernel. *)
Definition check_cancelled : V () :=
  lift (t ← cur_thread; x ← thread_at t; if kt_cancelled x then kthread_exit (kt_retval x) else mret ()).

Definition syscall_handler (regs : Z) : V () :=
  s ← get;
  let sysnum := load32 (regs + r_eax) s in
  let args := load32 (regs + r_edx) s in
  check_cancelled;;
  ret ← syscall_dispatch sysnum args regs;
  check_cancelled;;
  store32 (regs + r_eax) ret.
End syscalls.
