(* ===== verification/SyscallProps.v ===== *)
(** * Properties of system calls

    How the results and errors of the kernel reach the user process. *)

From S2P Require Import Prelude Kstate Sched Kmutex Machine Proc Vmstate Pframe Mmobj Vmmap Vnode Namev Vfs.
From S2P Require Import VmSys Pageout Syscall ProcProps VmmapProps FsExample VmExample.
Local Open Scope Z_scope.

(** Whatever runs while the routine is switched out, when it returns its
    result and state satisfy [Q]. *)
Inductive delivers {S A} (Q : A → S → Prop) : outcome S A → Prop :=
| delivers_ret a s : Q a s → delivers Q (Ret a s)
| delivers_panic w : delivers Q (Panic w)
| delivers_idle : delivers Q Idle
| delivers_yield s k : (∀ s', delivers Q (k s')) → delivers Q (Yield s k).

Lemma delivers_obind {S A B} (P : A → S → Prop) (Q : B → S → Prop) (f : A → M S B) o :
  delivers P o → (∀ a s, P a s → delivers Q (f a s)) → delivers Q (obind f o).
Proof. intros Ho Hf. induction Ho; simpl; [auto|constructor..]; auto. Qed.

Lemma delivers_any {S A} (o : outcome S A) : delivers (λ _ _, True) o.
Proof. induction o; constructor; auto. Qed.

Lemma delivers_mono {S A} (P Q : A → S → Prop) o : delivers P o → (∀ a s, P a s → Q a s) → delivers Q o.
Proof. intros Ho Hpq. induction Ho; constructor; auto. Qed.

Lemma delivers_bind {S A B} (Q : B → S → Prop) (m : M S A) (f : A → M S B) s :
  (∀ a s', delivers Q (f a s')) → delivers Q ((m ≫= f) s).
Proof. intros Hf. rewrite bind_unfold. eapply delivers_obind; [apply delivers_any|auto]. Qed.

Lemma delivers_bind_post {S A B} (P : A → S → Prop) (Q : B → S → Prop) (m : M S A) (f : A → M S B) s :
  delivers P (m s) → (∀ a s', P a s' → delivers Q (f a s')) → delivers Q ((m ≫= f) s).
Proof. intros Hm Hf. rewrite bind_unfold. by eapply delivers_obind. Qed.

Section syscalls.
Context {VE : VmEnv} {FE : VfsEnv} {MA : Machine} {ER : Errno} {OB : Objects} {NE : NameEnv} {FT : FileTable}
  {ME : MapEnv} {PE : ProcEnv} {FO : ForkEnv}.
Context {U1 : UserStruct argstr_t} {U2 : UserStruct read_args_t} {U3 : UserStruct write_args_t}
  {U4 : UserStruct getdents_args_t} {U5 : UserStruct dup2_args_t} {U6 : UserStruct mkdir_args_t}
  {U7 : UserStruct link_args_t} {U8 : UserStruct rename_args_t} {U9 : UserStruct lseek_args_t}
  {U10 : UserStruct open_args_t} {U11 : UserStruct munmap_args_t} {U12 : UserStruct mmap_args_t}
  {U13 : UserStruct waitpid_args_t} {U14 : UserStruct stat_args_t} {U15 : UserStruct execve_args_t}
  {U16 : UserStruct mount_args_t}.
Context {SE : SysEnv} (fuel : nat).

(** [kt_errno] of the current thread. *)
Definition errno_of (s : vst) : option Z :=
  t ← curthr (v_k s); kt_errno <$> threads (v_k s) !! t.

(** Success, or [-1] with an error number. *)
Definition result_ok (r : Z) (s : vst) : Prop := 0 <= r ∨ r = -1 ∧ ∃ e, errno_of s = Some e ∧ 0 < e.

Lemma fail_ok e s : 0 < e → delivers result_ok (fail e s).
Proof.
  intros He. unfold fail, set_errno, lift. rewrite bind_unfold. unfold cur_thread, upd_thread. msimpl.
  destruct (curthr (v_k s)) as [t|] eqn:Ht; cbn [obind olift]; [|constructor].
  destruct (threads (v_k s) !! t) as [th|] eqn:Hth; cbn [obind olift]; [|constructor].
  constructor. right. split; [done|]. exists e. split; [|done]. unfold errno_of. simpl. rewrite Ht. simpl.
  by rewrite lookup_insert_eq.
Qed.

Lemma ret_ok r s : 0 <= r → delivers result_ok ((mret r : V Z) s).
Proof. intros Hr. constructor. by left. Qed.

Lemma check_err_ok err s : delivers result_ok (check_err err s).
Proof. unfold check_err. destruct (Z.ltb_spec err 0); [apply fail_ok|apply ret_ok]; lia. Qed.

Lemma errno_in e : e ∈ errnos → 0 < e.
Proof. intros He. pose proof errno_pos as Hp. rewrite Forall_forall in Hp. by apply Hp. Qed.

Lemma fail_errno_ok e s : e ∈ errnos → delivers result_ok (fail e s).
Proof. intros He. by apply fail_ok, errno_in. Qed.

Lemma write_ok map va buf n s : delivers (λ r _, r = 0) (vmmap_write mm_ops map va buf n s).
Proof.
  unfold vmmap_write. case_match; [|case_match; [|by constructor]];
    repeat (apply delivers_bind; intros; try case_match); by constructor.
Qed.

Lemma copy_to_user_ok ua kb n s : delivers (λ r _, r = 0 ∨ r = - EFAULT) (copy_to_user ua kb n s).
Proof.
  unfold copy_to_user. do 2 (apply delivers_bind; intros). case_match; [constructor; by right|].
  apply delivers_bind; intros. eapply delivers_mono; [apply write_ok|]. auto.
Qed.

Lemma uname_ok arg l : ∀ s, delivers result_ok (uname_each arg l s).
Proof.
  induction l as [|[off str] l IH]; intros s; [by apply ret_ok|]. cbn [uname_each].
  eapply delivers_bind_post; [apply copy_to_user_ok|]. intros r s' [->| ->]; [apply IH|].
  assert (0 < EFAULT) by (apply errno_in; unfold errnos; set_solver).
  destruct (Z.eqb_spec (- EFAULT) 0); [lia|]. apply fail_ok. lia.
Qed.

(** An unimplemented call is an error. *)
Lemma unimplemented_ok s :
  delivers result_ok ((ret ← mret (- EINVAL); if negb (ret =? 0) then fail (- ret) else mret 0) s).
Proof.
  assert (0 < EINVAL) by (apply errno_in; unfold errnos; set_solver). erewrite bind_step by reflexivity.
  destruct (Z.eqb_spec (- EINVAL) 0); [lia|]. apply fail_ok. lia.
Qed.

(** Walks through the calls up to the ends of the paths. *)
Ltac paths :=
  repeat first
    [ apply check_err_ok
    | apply unimplemented_ok
    | apply fail_errno_ok; unfold errnos; set_solver
    | apply fail_ok; lia
    | apply ret_ok; lia
    | constructor
    | apply delivers_bind; intros
    | match goal with |- delivers _ ((match ?x with _ => _ end) _) => destruct x eqn:? end ].

(** The calls that follow the convention.  Left out are those that return
    addresses, the identifier of the process or the error number itself, those
    whose results come from a file system or a pipe unchecked, [execve] and
    [halt]. *)
Definition conventional (o : option syscall) : bool :=
  match o with
  | Some (SYS_mmap | SYS_brk | SYS_getpid | SYS_errno | SYS_getdents | SYS_stat | SYS_pipe | SYS_execve | SYS_halt) => false
  | _ => true
  end.

(** C9. The convention of system calls.  On every path through the dispatcher
    and the functions it calls, whatever other threads do while the caller is
    switched out, such a call returns a result that is not negative, or
    returns [-1] with a positive error number in [kt_errno] of the calling
    thread. *)
Theorem syscall_convention sysnum args regs s :
  conventional (sysnum_of sysnum) = true → delivers result_ok (syscall_dispatch fuel sysnum args regs s).
Proof.
  intros Hc. unfold syscall_dispatch. destruct (sysnum_of sysnum) as [[]|]; try discriminate Hc; clear Hc.
  all: try by (unfold sys_waitpid, sys_fork, sys_munmap, sys_open, sys_close, sys_read, sys_write, sys_dup, sys_dup2,
    sys_mkdir, sys_rmdir, sys_unlink, sys_link, sys_rename, sys_chdir, sys_lseek, sys_debug, sys_kshell, sys_mount, sys_umount, with_args, with_str;
    paths).
  apply uname_ok.
Qed.
End syscalls.

(** ** System calls of the example process *)
Module SysEx.
#[local] Existing Instance VmmapEx.env.
#[local] Existing Instance VmmapEx.quiet.
#[local] Existing Instance some_errno.
#[local] Existing Instance FsEx.vfs_env.
#[local] Existing Instance FsEx.names.
#[local] Existing Instance FsEx.file_table.
#[local] Existing Instance VmEx.maps.
#[local] Existing Instance VmEx.table.
#[local] Existing Instance VmEx.fork_env.
#[local] Existing Instance ProcEx.env8.

(** Structures are words, least significant byte first. *)
Definition word (l : list Z) (i : nat) : Z :=
  let b j := default 0 (l !! (4 * i + j)%nat) in b 0%nat + 256 * b 1%nat + 65536 * b 2%nat + 16777216 * b 3%nat.
Definition str (l : list Z) (i : nat) : argstr_t := Argstr (word l i) (word l (i + 1)).
Definition vec (l : list Z) (i : nat) : argvec_t := Argvec (word l i) (word l (i + 1)).

#[local] Instance u1 : UserStruct argstr_t := {| sizeof := 8; of_bytes := λ l, str l 0 |}.
#[local] Instance u2 : UserStruct read_args_t := {| sizeof := 12; of_bytes := λ l, ReadArgs (word l 0) (word l 1) (word l 2) |}.
#[local] Instance u3 : UserStruct write_args_t := {| sizeof := 12; of_bytes := λ l, WriteArgs (word l 0) (word l 1) (word l 2) |}.
#[local] Instance u4 : UserStruct getdents_args_t :=
  {| sizeof := 12; of_bytes := λ l, GetdentsArgs (word l 0) (word l 1) (word l 2) |}.
#[local] Instance u5 : UserStruct dup2_args_t := {| sizeof := 8; of_bytes := λ l, Dup2Args (word l 0) (word l 1) |}.
#[local] Instance u6 : UserStruct mkdir_args_t := {| sizeof := 8; of_bytes := λ l, MkdirArgs (str l 0) |}.
#[local] Instance u7 : UserStruct link_args_t := {| sizeof := 16; of_bytes := λ l, LinkArgs (str l 0) (str l 2) |}.
#[local] Instance u8 : UserStruct rename_args_t := {| sizeof := 16; of_bytes := λ l, RenameArgs (str l 0) (str l 2) |}.
#[local] Instance u9 : UserStruct lseek_args_t :=
  {| sizeof := 12; of_bytes := λ l, LseekArgs (word l 0) (word l 1) (word l 2) |}.
#[local] Instance u10 : UserStruct open_args_t := {| sizeof := 12; of_bytes := λ l, OpenArgs (str l 0) (word l 2) |}.
#[local] Instance u11 : UserStruct munmap_args_t := {| sizeof := 8; of_bytes := λ l, MunmapArgs (word l 0) (word l 1) |}.
#[local] Instance u12 : UserStruct mmap_args_t :=
  {| sizeof := 24; of_bytes := λ l, MmapArgs (word l 0) (word l 1) (word l 2) (word l 3) (word l 4) (word l 5) |}.
#[local] Instance u13 : UserStruct waitpid_args_t :=
  {| sizeof := 12; of_bytes := λ l, WaitpidArgs (word l 0) (word l 1) (word l 2) |}.
#[local] Instance u14 : UserStruct stat_args_t := {| sizeof := 12; of_bytes := λ l, StatArgs (str l 0) (word l 2) |}.
#[local] Instance u15 : UserStruct execve_args_t :=
  {| sizeof := 24; of_bytes := λ l, ExecveArgs (str l 0) (vec l 2) (vec l 4) |}.

#[local] Instance u16 : UserStruct mount_args_t := {| sizeof := 24; of_bytes := λ l, MountArgs (str l 0) (str l 2) (str l 4) |}.

#[local] Instance sys_env : SysEnv := {|
  sysnum_of := λ n, match n with 1 => Some SYS_close | 2 => Some SYS_dup | _ => None end;
  MAP_FAILED := -1; r_edx := 40; user_access := λ a n s, Ret (mem_read a n s) s;
  local_dirent := 131072; local_stat := 135168; sizeof_stat := 64;
  argstrs_of := λ l, (λ i, str l (2 * i)) <$> seq 0 (length l / 8);
  do_pipe := mret (- EINVAL, (0, 0)); do_execve := λ _ _ _ _, mret (- ENOENT);
  kshell_create := λ _, mret None; kshell_execute_next := λ _, mret 0;
  uts_sysname := 0; uts_release := 64; uts_version := 128; uts_nodename := 192; uts_machine := 256;
  version_string := EmptyString |}.

(** Closing descriptor 9, of which there are only four, fails with EBADF. *)
Lemma syscall_convention_witness :
  delivers result_ok (syscall_dispatch 10 1 9 0 VmEx.forking) ∧
  ∃ s', syscall_dispatch 10 1 9 0 VmEx.forking = Ret (-1) s' ∧ errno_of s' = Some EBADF.
Proof.
  split; [apply (syscall_convention 10 1 9 0 VmEx.forking); reflexivity|]. eexists. split; reflexivity.
Defined.
End SysEx.
